(* ===== verification/_CoqProject ===== *)
-Q . S2P
Prelude.v
GoStrings.v
GoFloat.v
Dialect.v
FilterMatcher.v
FilterParser.v
Filter.v
FileNames.v
SqlTypes.v
SqlCond.v
SqlBuilder.v
WhereClauses.v
Conn.v
Tables.v
Cdc.v
Config.v
Flags.v
Prepare.v
Ir.v
Chunking.v
Catalog.v
Writer.v
Pipe.v
TableData.v
LazyFile.v
Worker.v
DataIR.v
Consistency.v
Dumper.v
Init.v
Service.v
Dispatch.v
Lifecycle.v
Complete.v
Status.v
Program.v
Command.v
Concat.v
