(* ===== verification/Prelude.v ===== *)
(** * pg-dumpling: a verification development

    pg-dumpling reads a PostgreSQL database and writes it as files of SQL
    statements or CSV rows that PostgreSQL, MySQL or TiDB can load.  The
    command line becomes a configuration; a consistency controller exports a
    snapshot (or a replication slot with one) that every connection adopts; a
    list of tables is read from the catalog and filtered; a producer turns
    schemas and tables into tasks, splitting the data of a table into chunks;
    workers take tasks from an unbounded channel and write their files, with
    retries; a metadata file closes the dump.  The development follows these
    parts.  Every definition that models code is preceded by a comment that
    gives the file and the lines under src/ that it translates.

    ** Files

    Foundations
    - [Prelude]: characters, errors, results and their monad notation, 64-bit
      integers ([u64], [i64] wrap around), decimal printing, string and list
      lemmas, the hint database [dump] and the rewrite database [dump_rw].
    - [GoStrings]: the functions of Go's strings, strconv and unicode packages
      that the program calls ([Split], [ReplaceAll], [TrimSpace], [ToLower],
      [ParseUint] ...), with the lemmas the other files share.  What Go does
      beyond ASCII is the class [UnicodeLib].
    - [GoFloat]: 64-bit floating point as the status uses it, on SpecFloat.

    Output languages
    - [Dialect] (export/dialect.go): targets and the two dialects, and lexers
      of both targets as the specification of their literals.
    - [SqlTypes] (export/sql_type.go): receivers of column values, their SQL
      and CSV forms, CSV options; readers of rows as the specification.
    - [FileNames] (export/prepare.go, writer.go): escapes, templates, names.

    Selection
    - [FilterMatcher], [FilterParser], [Filter]
      (internal/table-filter): matchers, the pattern language, rule files and
      their imports, the filters and the legacy replication rules.  The regexp
      engine ([RegexpLib]) and the file system ([FileLib]) are classes.
    - [Tables], [Prepare] (export/block_allow_list.go, prepare.go, sql.go):
      table maps, catalog listings, the tables to dump.
    - [Config], [Flags] (export/config.go): the record, its defaults, the
      connection string, sizes, [ParseFromFlags] over a class of flag readers,
      and the flags with their types and defaults.

    Reading
    - [Conn] (export/retry.go, conn.go): back-off, retries, result columns.
    - [SqlCond], [SqlBuilder] (export/sql.go): a grammar of conditions with
      its reader and three-valued meaning, and the queries built by the code.
    - [WhereClauses] (export/sql.go): the ranges between bounds over several
      columns ([buildWhereClauses]).
    - [Ir] (export/ir.go, ir_impl.go, task.go): the interface of row iterators
      (class [RowIter]), its implementations, table metadata, tasks.
    - [Chunking] (export/dump.go, sql.go): keys, estimates and chunks.
    - [Catalog] (export/sql.go): the remaining questions to the catalog, with
      the type of listing that the configuration asks for.

    Writing
    - [Writer] (export/writer_util.go): the pipe to a file, limits, INSERT and
      CSV writers over any iterator that keeps the iterator contract.
    - [Pipe] (export/writer_util.go): the formatter and the goroutine that
      writes the file, side by side, as a step relation.
    - [TableData] (export/writer.go, writer_util.go): the files of a chunk.
    - [LazyFile] (export/writer_util.go): the objects that create a file by
      its first write, which refine what [TableData] uses.
    - [Worker] (export/writer.go): metadata files, retries, the worker loop.
    - [DataIR] (export/ir.go, ir_impl.go): the interfaces between the data of
      a table and its writers as classes, with the iterators as shared,
      mutable objects; both implementations of [TableDataIR].

    The dump
    - [Cdc], [Consistency] (export/cdc.go, consistency.go): replication
      commands, both controllers; the server is the class [Server], a function
      of the history of events, and [world] is that history with the
      program's shared variables.
    - [Dumper] (export/dump.go): the producer, in the order of its sends.
    - [Dispatch] (export/util.go, dump.go, writer.go): producer, channel
      goroutine and workers as one step relation over [pool].
    - [Init] (export/dump.go, sql.go): [NewDumper] and its steps.
    - [Service] (log, context, cli, export/http_handler.go): loggers, contexts
      with their cancellation, the banner, storage and HTTP service.
    - [Lifecycle] (export/dump.go, metadata.go): [Dump] and its deferred steps,
      the reconnections in the middle of it and the metadata file.
    - [Complete]: the producer's plan, the pool and the files on disk together.
    - [Status] (export/metrics.go, status.go): the metrics, what changes them
      during a run of the pool, the status and the lines of the progress log.
    - [Program]: [Dump] with the table list, the producer and the pool filled
      in; the theorem about the dump as a whole.
    - [Command] (cmd/pg-dumpling/main.go): [main], from options to exit code.
    - [Concat] (export/dump.go): the task that joins the chunks of a table.

    ** How the parts are composed

    [Writer]'s theorems are stated for any instance of [RowIter] with its
    contract; [Ir] discharges the contract for results of one and of several
    queries.  Their loop sends to a goroutine; [Writer] collects what is sent
    and then runs it, and [Pipe] shows that every interleaving of the two gives
    one of the outcomes this has.  The same loop consumes iterators as values;
    [DataIR] shows that the objects of the code, which are passed by reference
    and started again by a retry, lead to the same files.  [TableData] runs [Writer] once per file, [Worker] runs
    [TableData] inside [Conn]'s retry loop and proves a frame (a task touches
    only the paths it owns, by [FileNames]), [Dispatch] runs [Worker]'s
    handler as one of its steps, and [Dumper] shows that the tasks it sends
    are pairwise separate, which is what [Worker] and [Dispatch] assume.
    [Chunking] is called by [Dumper] for each base table.  [Consistency] is
    called by [Lifecycle], whose parameters are the outcomes of producer and
    workers.  [Complete] puts [Dumper]'s plan into [Dispatch]'s pool and states
    what is on disk when every worker has returned; [Status] reads the metrics off
    the runs of that pool.  [Program] puts the outcomes together, and [Command]
    runs [ParseFromFlags], [NewDumper] and [Dump] in turn.

    ** What the theorems show

    - A snapshot dump of tables, without --where and not cancelled, that
      reports success has dumped the tables of the catalog that the filter
      accepts, on one snapshot ([successful_dump]); an exit code of zero means
      that there was such a dump ([exit_zero_dumped]).
    - A dump whose producer and workers succeed is complete ([dump_complete]):
      the files of the chunks of every base table hold its rows, each exactly
      once.  Files left by failed attempts of a chunk may exist beside these.
    - Every row is dumped once: the chunks of a table partition its rows
      ([chunks_exactly_once], [table_split_terminates]); the plan sends each
      chunk and each piece of metadata ([dump_plan]); the channel and the pool
      handle each task once under every interleaving ([dispatch_complete]), and
      every run comes to that end ([dispatch_inevitable]); a chunk of several queries is their
      concatenation ([multi_queries_concat]); rows go to exactly one file
      ([table_data_complete]), with formatter and goroutine in any order
      ([pipe_interleavings]) and through the interfaces of the code
      ([data_interface]), even after failed attempts
      ([retried_chunk_complete], [query_retry_no_duplicates],
      [retry_bounded]); no file is overwritten by another task
      ([worker_files_complete], [output_paths_distinct]).  The same for the
      two splits that the code has no caller for at present
      ([where_clauses_partition], [concat_task_complete]).
    - What is written can be read back: rows whose number columns hold
      numbers, and as SQL no others ([sql_row_roundtrip],
      [csv_row_roundtrip]), names and credentials ([target_qname_roundtrip],
      [dsn_credentials_roundtrip]); and replication commands are scanned as the
      program means them ([cdc_statement_words]).
    - The right tables are dumped ([filter_last_rule_wins],
      [filter_schema_of_table], [tables_list_agrees],
      [dumped_tables_are_filtered]), and the progress that is reported is
      bounded by the work and complete at the end ([status_progress]).
    - All connections share one snapshot, those that replace broken ones too
      ([dump_shares_snapshot]), and an accepted command line keeps the rules
      that the dump relies on ([parse_flags_valid], [ParseFileSize_bounds]), and [NewDumper] returns a dumper that
      is ready for [Dump] or the error of its first failing step
      ([new_dumper_ready]).
    - Behaviours that the code does not intend: [full_range_never_ends],
      [where_loses_null_keys], [backslash_mode_unsafe],
      [no_rebuild_after_teardown], [writer_failure_keeps_slot],
      [canceled_dump_reports_success], [session_params_lost].

    ** Bounds and fuel

    Loops that are not structural take fuel and return [None] when it runs
    out; each has a theorem that some fuel is enough.  The retry loop has
    [retry_fuel], more than the three attempts its back-off allows.  The loops
    of [Writer] need more fuel than there are rows, those of [TableData] more
    than files, and [Worker] computes its fuel from the rows of the task.
    [chunk_loop] needs one step per chunk.  Counters are 64-bit and wrap; the
    theorems assume fewer than 2^63 rows in a chunk, and chunk and file
    indexes below 10^9, which the nine digits of the file names assume too.
    A panic, which the program never recovers, is [None] where nothing else
    is, an error that says so ([divide_panic], [regexp_panic]), or an [ending]
    in [Command].

    ** Not modelled

    The libraries that the program calls: the database and its driver,
    pg_dump, the regexp engine, Unicode tables, the parser of templates and of
    options, the log, metrics, storage and network libraries.  They are
    parameters, and only what the code relies on is assumed of them; custom
    output templates are a parameter too ([template]).  The JSON text of the
    configuration that is logged, the output directory named after the time of
    day, the bodies of HTTP answers and log lines other than those of progress
    are left out.  Times are read from the clock where the status needs them
    and are given otherwise.  In [Dispatch] a producer whose context is done
    sends nothing more; the whole table that [Dumper] may still send then
    ([sent_instead]) is left out there.  The reconnections of [Lifecycle] are
    given as a sequence; that they are those of [Worker]'s retries is not
    stated. *)

From Stdlib Require Export Ascii.
From Stdlib Require Import DecimalString DecimalZ DecimalFacts.
From Stdlib Require Export ZArith Lia.
From stdpp Require Export base tactics numbers list strings gmap fin_maps.

(** ** Notation scope of the development *)

Declare Scope dumpling_scope.
Delimit Scope dumpling_scope with dump.
#[global] Open Scope Z_scope.

(** ** Characters the source names by their escapes *)

Definition dquote : ascii := Ascii.ascii_of_nat 34.
Definition squote : ascii := Ascii.ascii_of_nat 39.
Definition bquote : ascii := Ascii.ascii_of_nat 96.
Definition bslash : ascii := Ascii.ascii_of_nat 92.
Definition newline : ascii := Ascii.ascii_of_nat 10.
Definition creturn : ascii := Ascii.ascii_of_nat 13.
Definition tab : ascii := Ascii.ascii_of_nat 9.

(** The one-character string. *)
Definition str1 (c : ascii) : string := String c EmptyString.

(** ** Errors

    Go's [error] values are kept unrendered: the format string and its
    arguments of the [errors.Errorf] call, annotations on top of it, and the
    errors that come from code outside the repository ([EForeign]). *)

Inductive fmt_arg :=
  | AStr (s : string)
  | AInt (z : Z).

Inductive error :=
  | EErrorf (format : string) (args : list fmt_arg)
  | EAnnotate (cause : error) (format : string) (args : list fmt_arg)
  | EForeign (msg : string).

#[export] Instance fmt_arg_eq_dec : EqDecision fmt_arg.
Proof. solve_decision. Defined.
#[export] Instance error_eq_dec : EqDecision error.
Proof. solve_decision. Defined.

Inductive result (A : Type) :=
  | Ok (a : A)
  | Err (e : error).
Arguments Ok {_} _.
Arguments Err {_} _.

#[export] Instance result_eq_dec `{EqDecision A} : EqDecision (result A).
Proof. solve_decision. Defined.
#[export] Instance Ok_inj {A} : Inj (=) (=) (@Ok A).
Proof. by intros ? ? [=]. Qed.

#[export] Instance result_ret : MRet result := fun A a => Ok a.
#[export] Instance result_bind : MBind result := fun A B f m =>
  match m with Ok a => f a | Err e => Err e end.
#[export] Instance result_fmap : FMap result := fun A B f m =>
  match m with Ok a => Ok (f a) | Err e => Err e end.

Definition is_ok {A} (r : result A) : bool :=
  match r with Ok _ => true | Err _ => false end.

Lemma bind_ok_inv {A B} (f : A -> result B) (m : result A) (b : B) :
  m ≫= f = Ok b -> exists a, m = Ok a /\ f a = Ok b.
Proof. destruct m; simpl; [eauto | discriminate]. Qed.

Lemma bind_err_inv {A B} (f : A -> result B) (m : result A) (e : error) :
  m ≫= f = Err e -> m = Err e \/ exists a, m = Ok a /\ f a = Err e.
Proof. destruct m; simpl; intros H; [right; eauto | left; congruence]. Qed.

(** [mapR] runs a fallible function over a list and stops at the first
    error, as the [for ... if err != nil { return err }] loops do. *)
Fixpoint mapR {A B} (f : A -> result B) (l : list A) : result (list B) :=
  match l with
  | [] => Ok []
  | x :: l' => y ← f x; ys ← mapR f l'; Ok (y :: ys)
  end.

Lemma mapR_ok_Forall2 {A B} (f : A -> result B) l ys :
  mapR f l = Ok ys <-> Forall2 (fun x y => f x = Ok y) l ys.
Proof.
  revert ys; induction l as [|x l IH]; intros ys; simpl; split.
  - intros [= <-]; constructor.
  - intros H; inversion H; reflexivity.
  - destruct (f x) as [y|] eqn:Hx; simpl; [|discriminate].
    destruct (mapR f l) as [ys'|]; simpl; [|discriminate].
    intros [= <-]; constructor; [done | by apply IH].
  - intros H; inversion H as [|? y ? ys' Hxy Hl]; subst; simpl.
    rewrite Hxy; simpl. apply IH in Hl. by rewrite Hl.
Qed.

(** First alternative that succeeds. *)
Definition orelse {A} (a b : option A) : option A :=
  match a with Some x => Some x | None => b end.

Lemma orelse_Some {A} (a b : option A) x :
  orelse a b = Some x -> a = Some x \/ (a = None /\ b = Some x).
Proof. destruct a; simpl; auto. Qed.

(** ** Machine integers

    Go's [uint64] and [int64] (the width of [int] on the supported targets)
    are integers of type [Z] with the wrap-around written out. *)

Definition u64 (z : Z) : Z := z mod 2 ^ 64.
Definition i64 (z : Z) : Z := (z + 2 ^ 63) mod 2 ^ 64 - 2 ^ 63.

Definition is_u64 (z : Z) : Prop := 0 <= z < 2 ^ 64.
Definition is_i64 (z : Z) : Prop := - 2 ^ 63 <= z < 2 ^ 63.

Lemma u64_range z : is_u64 (u64 z).
Proof. unfold is_u64, u64. by apply Z.mod_pos_bound. Qed.

Lemma u64_small z : is_u64 z -> u64 z = z.
Proof. unfold is_u64, u64. intros. by apply Z.mod_small. Qed.

Lemma i64_range z : is_i64 (i64 z).
Proof.
  unfold is_i64, i64. pose proof (Z.mod_pos_bound (z + 2 ^ 63) (2 ^ 64)). lia.
Qed.

Lemma i64_small z : is_i64 z -> i64 z = z.
Proof. unfold is_i64, i64. intros. rewrite Z.mod_small; lia. Qed.

(** ** Inevitability

    [P] holds at some point of every run from [x] that goes on as long as it
    can: runs neither stop nor go on for ever before [P] holds. *)
Inductive inevitably {A} (step : A -> A -> Prop) (P : A -> Prop) (x : A) : Prop :=
  | inevitably_now : P x -> inevitably step P x
  | inevitably_step :
      (exists y, step x y) -> (forall y, step x y -> inevitably step P y) -> inevitably step P x.

(** A measure that every step decreases makes inevitable what holds where no
    step is possible. *)
Lemma inevitably_measure {A} (step : A -> A -> Prop) (P I : A -> Prop) (m : A -> nat) :
  (forall x y, I x -> step x y -> I y) -> (forall x y, step x y -> (m y < m x)%nat) ->
  (forall x, I x -> P x \/ exists y, step x y) -> forall x, I x -> inevitably step P x.
Proof.
  intros Hi Hm Hp x. induction x as [x IH] using (well_founded_induction (well_founded_ltof _ m)).
  intros Hx. destruct (Hp x Hx) as [HP|[y Hy]]; [by left|right; [by exists y|]].
  intros z Hz. apply IH; [by apply Hm|by eapply Hi].
Qed.

Lemma inevitably_mono {A} (step : A -> A -> Prop) (P Q : A -> Prop) x :
  (forall y, P y -> Q y) -> inevitably step P x -> inevitably step Q x.
Proof. intros HPQ. induction 1 as [x HP|x He _ IH]; [left; auto|by right]. Qed.

(** ** Proof automation shared by the files *)

(** stdpp blocks the reduction of [String.append]; the development computes
    with it. *)
#[global] Arguments String.append !_ _ /.

Create HintDb dump.
Create Rewrite HintDb dump_rw.
#[export] Hint Resolve u64_range i64_range : dump.
#[export] Hint Rewrite @app_nil_r @length_app : dump_rw.

(** Case analysis on the innermost boolean test or match of the goal. *)
Ltac case_if :=
  match goal with
  | |- context [if ?b then _ else _] => let H := fresh "Hif" in destruct b eqn:H
  end.

(** Inverts equations between results, options and pairs. *)
Ltac inv_ok :=
  repeat match goal with
  | H : Ok _ = Ok _ |- _ => injection H as H; try subst
  | H : Err _ = Err _ |- _ => injection H as H; try subst
  | H : Ok _ = Err _ |- _ => discriminate H
  | H : Err _ = Ok _ |- _ => discriminate H
  | H : _ ≫= _ = Ok _ |- _ => apply bind_ok_inv in H as (? & ? & ?)
  end.
