(* ===== verification/GoStrings.v ===== *)
(** * Go's string functions, as the dumper uses them

    A Go [string] or [[]byte] is a byte sequence: a Rocq [string], whose
    characters are bytes.  The functions of the packages [strings], [bytes],
    [strconv], [fmt] and [encoding/hex] that the source calls are defined
    here, each with the laws its callers rely on, together with the lexer of
    quoted tokens ([lex_quoted]) that states what a reader of the dump sees. *)

From S2P Require Import Prelude.
From Stdlib Require Import DecimalString DecimalZ DecimalFacts.

(** ** Length and concatenation *)

Definition slen (s : string) : Z := Z.of_nat (String.length s).

Lemma sapp_nil_r s : s +:+ EmptyString = s.
Proof. induction s as [|c s IH]; simpl; congruence. Qed.

Lemma sapp_assoc a b c : (a +:+ b) +:+ c = a +:+ (b +:+ c).
Proof. induction a as [|x a IH]; simpl; congruence. Qed.

Lemma slength_app a b : String.length (a +:+ b) = (String.length a + String.length b)%nat.
Proof. induction a as [|x a IH]; simpl; congruence. Qed.

Lemma slen_app a b : slen (a +:+ b) = slen a + slen b.
Proof. unfold slen. rewrite slength_app. lia. Qed.

Lemma slen_nonneg s : 0 <= slen s.
Proof. unfold slen. lia. Qed.

Lemma slen_zero s : slen s = 0 -> s = EmptyString.
Proof. destruct s; unfold slen; simpl; [done | lia]. Qed.

Lemma sapp_inj_l a b c : a +:+ b = a +:+ c -> b = c.
Proof. induction a as [|x a IH]; simpl; [done | intros [= H]; auto]. Qed.

Lemma sapp_eq_inj a1 b1 a2 b2 :
  String.length a1 = String.length a2 -> a1 +:+ b1 = a2 +:+ b2 -> a1 = a2 /\ b1 = b2.
Proof.
  revert a2; induction a1 as [|x a1 IH]; intros [|y a2]; simpl; try done.
  intros [= Hl] [= -> H]. destruct (IH a2 Hl H) as [-> ->]. done.
Qed.

#[export] Hint Rewrite sapp_nil_r sapp_assoc : dump_rw.

(** Concatenation of a list of strings, and [strings.Join]. *)
Fixpoint sconcat (l : list string) : string :=
  match l with [] => EmptyString | s :: l' => s +:+ sconcat l' end.

Fixpoint join (sep : string) (l : list string) : string :=
  match l with
  | [] => EmptyString
  | [s] => s
  | s :: l' => s +:+ sep +:+ join sep l'
  end.

Lemma sconcat_app l1 l2 : sconcat (l1 ++ l2) = sconcat l1 +:+ sconcat l2.
Proof. induction l1 as [|s l1 IH]; simpl; [done|]. by rewrite IH, sapp_assoc. Qed.

Lemma join_cons sep s l : l <> [] -> join sep (s :: l) = s +:+ sep +:+ join sep l.
Proof. by destruct l. Qed.

(** [sall p s]: every byte of [s] satisfies [p]. *)
Fixpoint sall (p : ascii -> bool) (s : string) : bool :=
  match s with EmptyString => true | String c s' => p c && sall p s' end.

Lemma sall_app p a b : sall p (a +:+ b) = sall p a && sall p b.
Proof. induction a as [|x a IH]; simpl; [done|]. by rewrite IH, andb_assoc. Qed.

Lemma sall_mono (p q : ascii -> bool) s :
  (forall c, p c = true -> q c = true) -> sall p s = true -> sall q s = true.
Proof.
  intros Hpq. induction s as [|c s IH]; simpl; [done|].
  rewrite !andb_true_iff. intros [Hc Hs]. auto.
Qed.

(** [starts c s]: the first byte of [s] is [c]. *)
Definition starts (c : ascii) (s : string) : bool :=
  match s with String x _ => Ascii.eqb x c | EmptyString => false end.

(** [HasPrefix], [HasSuffix] and prefix removal. *)
Fixpoint strip_prefix (p s : string) : option string :=
  match p, s with
  | EmptyString, _ => Some s
  | String a p', String b s' => if Ascii.eqb a b then strip_prefix p' s' else None
  | String _ _, EmptyString => None
  end.

Definition has_prefix (p s : string) : bool :=
  match strip_prefix p s with Some _ => true | None => false end.

Lemma strip_prefix_app p s : strip_prefix p (p +:+ s) = Some s.
Proof. induction p as [|c p IH]; simpl; [done|]. by rewrite Ascii.eqb_refl. Qed.

Lemma strip_prefix_Some p s r : strip_prefix p s = Some r -> s = p +:+ r.
Proof.
  revert s; induction p as [|c p IH]; intros [|x s]; simpl; try congruence.
  destruct (Ascii.eqb_spec c x) as [->|]; [|done]. intros H. by rewrite (IH s).
Qed.

Fixpoint has_suffix (suf s : string) : bool :=
  String.eqb s suf ||
  match s with EmptyString => false | String _ s' => has_suffix suf s' end.

Lemma has_suffix_app suf a : has_suffix suf (a +:+ suf) = true.
Proof.
  induction a as [|c a IH]; simpl.
  - destruct suf; simpl; [done|]. by rewrite Ascii.eqb_refl, String.eqb_refl.
  - rewrite IH. apply orb_true_r.
Qed.

(** [strings.Contains(s, sub)]. *)
Fixpoint Contains (s sub : string) : bool :=
  match strip_prefix sub s with
  | Some _ => true
  | None => match s with EmptyString => false | String _ s' => Contains s' sub end
  end.

(** [strings.IndexByte(s, c) >= 0] and [strings.ContainsAny]. *)
Fixpoint contains_byte (c : ascii) (s : string) : bool :=
  match s with EmptyString => false | String x s' => Ascii.eqb x c || contains_byte c s' end.

Fixpoint contains_any (s chars : string) : bool :=
  match s with
  | EmptyString => false
  | String x s' => contains_byte x chars || contains_any s' chars
  end.

(** ** Doubling a quote character, and the lexer that undoes it

    The loops of [pgQuoteIdent], of the dialects' [QuoteIdent] and of
    [escapeStringLiteral] write every byte, and write a quote byte twice. *)

Fixpoint double (q : ascii) (s : string) : string :=
  match s with
  | EmptyString => EmptyString
  | String c s' =>
      if Ascii.eqb c q then String q (String q (double q s')) else String c (double q s')
  end.

Lemma double_app q a b : double q (a +:+ b) = double q a +:+ double q b.
Proof.
  induction a as [|c a IH]; simpl; [done|]. rewrite IH. by destruct (Ascii.eqb c q).
Qed.

(** What a reader with doubled-quote escaping (a SQL server, a CSV reader)
    does after an opening quote: it returns the value and the rest of the
    input after the closing quote. *)
Fixpoint lex_quoted (q : ascii) (s : string) : option (string * string) :=
  match s with
  | EmptyString => None
  | String c s1 =>
      if Ascii.eqb c q then
        match s1 with
        | EmptyString => Some (EmptyString, EmptyString)
        | String d s2 =>
            if Ascii.eqb d q
            then match lex_quoted q s2 with
                 | Some (v, r) => Some (String q v, r)
                 | None => None
                 end
            else Some (EmptyString, s1)
        end
      else match lex_quoted q s1 with
           | Some (v, r) => Some (String c v, r)
           | None => None
           end
  end.

Lemma lex_quoted_double q s rest :
  starts q rest = false ->
  lex_quoted q (double q s +:+ String q rest) = Some (s, rest).
Proof.
  intros Hrest. induction s as [|c s IH].
  - simpl. rewrite Ascii.eqb_refl. destruct rest as [|d rest]; [done|].
    simpl in Hrest. by rewrite Hrest.
  - simpl. destruct (Ascii.eqb_spec c q) as [->|Hne]; simpl.
    + by rewrite Ascii.eqb_refl, IH.
    + apply Ascii.eqb_neq in Hne. by rewrite Hne, IH.
Qed.

(** Quoting is therefore injective, whatever the value holds. *)
Lemma double_inj q s1 s2 : double q s1 = double q s2 -> s1 = s2.
Proof.
  intros H. pose proof (lex_quoted_double q s1 EmptyString eq_refl) as H1.
  rewrite H, lex_quoted_double in H1 by done. congruence.
Qed.

(** [strings.ReplaceAll] / [bytes.ReplaceAll] with a non-empty pattern (every
    call of the source passes one): a left-to-right scan of non-overlapping
    occurrences; [skip] counts the bytes of an occurrence still to drop. *)
Fixpoint replace_go (old new s : string) (skip : nat) : string :=
  match s with
  | EmptyString => EmptyString
  | String c s' =>
      match skip with
      | S k => replace_go old new s' k
      | O => if has_prefix old s
             then new +:+ replace_go old new s' (Nat.pred (String.length old))
             else String c (replace_go old new s' O)
      end
  end.

Definition ReplaceAll (s old new : string) : string := replace_go old new s O.

Lemma ReplaceAll_double q s : ReplaceAll s (str1 q) (str1 q +:+ str1 q) = double q s.
Proof.
  unfold ReplaceAll. induction s as [|c s IH]; simpl; [done|].
  unfold has_prefix; simpl.
  destruct (Ascii.eqb_spec q c) as [<-|Hne]; simpl.
  - rewrite Ascii.eqb_refl. simpl in IH. by rewrite IH.
  - destruct (Ascii.eqb_spec c q); [congruence|]. simpl in IH. by rewrite IH.
Qed.

(** ** Character classes *)

Definition byte_of (c : ascii) : Z := Z.of_N (N_of_ascii c).
Definition between (lo hi c : ascii) : bool :=
  (byte_of lo <=? byte_of c) && (byte_of c <=? byte_of hi).

Definition is_digit (c : ascii) : bool := between "0" "9" c.
Definition is_lower (c : ascii) : bool := between "a" "z" c.
Definition is_upper (c : ascii) : bool := between "A" "Z" c.

Lemma byte_of_range c : 0 <= byte_of c < 256.
Proof. unfold byte_of. pose proof (N_ascii_bounded c). lia. Qed.

(** ** Case conversion

    [strings.ToLower] maps ASCII strings byte by byte and sends every other
    string through [strings.Map(unicode.ToLower, s)]; the Unicode tables are
    a parameter of the development, and so is the Unicode branch of
    [strings.TrimSpace]. *)

Class UnicodeLib := {
  unicode_to_lower : string -> string;
  unicode_trim_space : string -> string
}.

Definition lower_byte (c : ascii) : ascii :=
  if is_upper c then ascii_of_nat (nat_of_ascii c + 32) else c.

Definition upper_byte (c : ascii) : ascii :=
  if is_lower c then ascii_of_nat (nat_of_ascii c - 32) else c.

Fixpoint smap (f : ascii -> ascii) (s : string) : string :=
  match s with EmptyString => EmptyString | String c s' => String (f c) (smap f s') end.

Definition is_ascii (s : string) : bool := sall (fun c => byte_of c <? 128) s.

Definition ToLower `{UnicodeLib} (s : string) : string :=
  if is_ascii s then smap lower_byte s else unicode_to_lower s.

Lemma lower_byte_idem c : lower_byte (lower_byte c) = lower_byte c.
Proof. by destruct c as [[][][][][][][][]]. Qed.

Lemma lower_byte_ascii c : (byte_of c <? 128) = true -> (byte_of (lower_byte c) <? 128) = true.
Proof. by destruct c as [[][][][][][][][]]. Qed.

Lemma ToLower_idem `{UnicodeLib} s : is_ascii s = true -> ToLower (ToLower s) = ToLower s.
Proof.
  intros Ha. unfold ToLower at 2 3. rewrite Ha. unfold ToLower.
  assert (is_ascii (smap lower_byte s) = true) as ->.
  { revert Ha. unfold is_ascii. induction s as [|c s IH]; simpl; [done|].
    rewrite !andb_true_iff. intros [Hc Hs]. split; [by apply lower_byte_ascii | auto]. }
  clear Ha. induction s as [|c s IH]; simpl; [done|]. by rewrite lower_byte_idem, IH.
Qed.

(** ** Trimming and splitting *)

(** [strings.Trim(s, cutset)] for a cutset of ASCII bytes. *)
Fixpoint trim_left (cut : ascii -> bool) (s : string) : string :=
  match s with
  | EmptyString => EmptyString
  | String c s' => if cut c then trim_left cut s' else s
  end.

Fixpoint trim_right (cut : ascii -> bool) (s : string) : string :=
  match s with
  | EmptyString => EmptyString
  | String c s' =>
      match trim_right cut s' with
      | EmptyString => if cut c then EmptyString else str1 c
      | r => String c r
      end
  end.

Definition trim (cut : ascii -> bool) (s : string) : string :=
  trim_right cut (trim_left cut s).

Lemma trim_left_app cut a b : sall cut a = true -> trim_left cut (a +:+ b) = trim_left cut b.
Proof.
  induction a as [|c a IH]; simpl; [done|]. intros [Hc Ha]%andb_true_iff. rewrite Hc. auto.
Qed.

Lemma trim_right_nil cut s : sall cut s = true -> trim_right cut s = EmptyString.
Proof.
  induction s as [|c s IH]; simpl; [done|]. intros [Hc Hs]%andb_true_iff. by rewrite IH, Hc.
Qed.

Lemma trim_right_app cut a b : sall cut b = true -> trim_right cut (a +:+ b) = trim_right cut a.
Proof.
  intros Hb. induction a as [|c a IH]; simpl; [by apply trim_right_nil|]. by rewrite IH.
Qed.

(** [strings.TrimSpace]: ASCII white space for ASCII strings. *)
Definition is_space (c : ascii) : bool := between tab creturn c || Ascii.eqb c " ".

Definition TrimSpace `{UnicodeLib} (s : string) : string :=
  if is_ascii s then trim is_space s else unicode_trim_space s.

(** A [case] with several string labels. *)
Definition one_of (s : string) (labels : list string) : bool :=
  existsb (String.eqb s) labels.

(** [strings.SplitN(s, sep, 2)] for a one-byte separator: the part before the
    first separator, and the part after it if there is one. *)
Fixpoint split2 (sep : ascii) (s : string) : string * option string :=
  match s with
  | EmptyString => (EmptyString, None)
  | String c s' =>
      if Ascii.eqb c sep then (EmptyString, Some s')
      else let '(a, b) := split2 sep s' in (String c a, b)
  end.

Lemma split2_Some sep s a b :
  split2 sep s = (a, Some b) ->
  s = a +:+ String sep b /\ contains_byte sep a = false.
Proof.
  revert a b; induction s as [|c s IH]; intros a b; simpl; [done|].
  destruct (Ascii.eqb_spec c sep) as [->|Hne].
  - by intros [= <- <-].
  - destruct (split2 sep s) as [a' b'] eqn:E. intros [= <- ->].
    destruct (IH a' b eq_refl) as [-> Hc]. simpl. split; [done|].
    destruct (Ascii.eqb_spec c sep); [done|]. by rewrite Hc.
Qed.

Lemma split2_app sep a b :
  contains_byte sep a = false -> split2 sep (a +:+ String sep b) = (a, Some b).
Proof.
  induction a as [|c a IH]; simpl.
  - by rewrite Ascii.eqb_refl.
  - intros [Hc Ha]%orb_false_iff. by rewrite Hc, IH.
Qed.

(** ** Decimal numbers *)

(** [strconv.Itoa], and the verbs [%d] of [fmt] and of [big.Int]. *)
Definition itoa (z : Z) : string := NilZero.string_of_int (Z.to_int z).

(** [big.Int.SetString(s, 10)]: an optional sign and at least one digit. *)
Definition parse_uint10 (s : string) : option Z :=
  Z.of_uint <$> NilZero.uint_of_string s.

Definition SetString10 (s : string) : option Z :=
  match s with
  | String c s' =>
      if Ascii.eqb c "-" then Z.opp <$> parse_uint10 s'
      else if Ascii.eqb c "+" then parse_uint10 s'
      else parse_uint10 s
  | EmptyString => None
  end.

Lemma uint_string_digits d : sall is_digit (NilEmpty.string_of_uint d) = true.
Proof. induction d; simpl; auto. Qed.

Lemma nz_uint_digits d : sall is_digit (NilZero.string_of_uint d) = true.
Proof. destruct d; [done|..]; apply uint_string_digits. Qed.

Lemma to_uint_not_nil p : Pos.to_uint p <> Decimal.Nil.
Proof. exact (DecimalPos.Unsigned.to_uint_nonnil p). Qed.

Lemma itoa_nonneg_digits z : 0 <= z -> sall is_digit (itoa z) = true.
Proof. destruct z; simpl; intros; [done | apply nz_uint_digits | lia]. Qed.

Lemma itoa_neg z : z < 0 -> itoa z = String "-" (itoa (- z)).
Proof. destruct z; simpl; intros; [lia | lia | done]. Qed.

Lemma parse_uint10_itoa z : 0 <= z -> parse_uint10 (itoa z) = Some z.
Proof.
  intros Hz. unfold parse_uint10, itoa. destruct z as [|p|p]; [done| |lia]. simpl.
  rewrite NilZero.usu by apply to_uint_not_nil. simpl.
  unfold Z.of_uint. by rewrite DecimalPos.Unsigned.of_to.
Qed.

Lemma itoa_head_digit z c s : 0 <= z -> itoa z = String c s -> is_digit c = true.
Proof.
  intros Hz E. pose proof (itoa_nonneg_digits z Hz) as H. rewrite E in H. simpl in H.
  by apply andb_true_iff in H as [H _].
Qed.

Lemma SetString10_itoa z : SetString10 (itoa z) = Some z.
Proof.
  destruct (Z_lt_le_dec z 0) as [Hneg|Hpos].
  - rewrite itoa_neg by done. simpl. rewrite parse_uint10_itoa by lia. simpl. f_equal. lia.
  - unfold SetString10. destruct (itoa z) as [|c s] eqn:E.
    + pose proof (parse_uint10_itoa z Hpos) as H. by rewrite E in H.
    + pose proof (itoa_head_digit z c s Hpos E) as Hd.
      destruct (Ascii.eqb_spec c "-") as [->|_]; [done|].
      destruct (Ascii.eqb_spec c "+") as [->|_]; [done|].
      rewrite <- E. by apply parse_uint10_itoa.
Qed.

Lemma itoa_inj z1 z2 : itoa z1 = itoa z2 -> z1 = z2.
Proof.
  intros H. pose proof (SetString10_itoa z1) as H1. rewrite H, SetString10_itoa in H1. congruence.
Qed.

Lemma itoa_nonempty z : itoa z <> EmptyString.
Proof. intros H. pose proof (SetString10_itoa z) as E. by rewrite H in E. Qed.

(** [fmt]'s [%0wd]: zero padding to width [w], the sign counted in it. *)
Fixpoint zeros (n : nat) : string :=
  match n with O => EmptyString | S n' => String "0" (zeros n') end.

Definition pad_to (w : nat) (s : string) : string :=
  zeros (w - String.length s) +:+ s.

Definition fmt_0d (w : nat) (z : Z) : string :=
  if z <? 0 then String "-" (pad_to (Nat.pred w) (itoa (- z))) else pad_to w (itoa z).

Lemma zeros_length n : String.length (zeros n) = n.
Proof. induction n; simpl; congruence. Qed.

Lemma pad_to_length w s : (String.length s <= w)%nat -> String.length (pad_to w s) = w.
Proof. intros. unfold pad_to. rewrite slength_app, zeros_length. lia. Qed.

Lemma of_uint_zeros n d :
  NilEmpty.uint_of_string (zeros n +:+ NilEmpty.string_of_uint d) =
  Some (Nat.iter n Decimal.D0 d).
Proof.
  induction n as [|n IH]; simpl; [by rewrite NilEmpty.usu|]. by rewrite IH.
Qed.

Lemma of_uint_iter_D0 n d : Z.of_uint (Nat.iter n Decimal.D0 d) = Z.of_uint d.
Proof. induction n as [|n IH]; simpl; [done|]. exact IH. Qed.

Lemma parse_uint10_pad w z : 0 <= z -> parse_uint10 (pad_to w (itoa z)) = Some z.
Proof.
  intros Hz. unfold pad_to. generalize (w - String.length (itoa z))%nat as n. intros n.
  assert (exists d, itoa z = NilEmpty.string_of_uint d /\ Z.of_uint d = z) as (d & Ed & Ez).
  { destruct z as [|p|p]; [by exists (Decimal.D0 Decimal.Nil)| |lia].
    exists (Pos.to_uint p). split.
    - unfold itoa; simpl. pose proof (to_uint_not_nil p). by destruct (Pos.to_uint p).
    - unfold Z.of_uint. by rewrite DecimalPos.Unsigned.of_to. }
  destruct n as [|n]; [by apply parse_uint10_itoa|].
  unfold parse_uint10. rewrite Ed.
  change (NilZero.uint_of_string (zeros (S n) +:+ NilEmpty.string_of_uint d))
    with (NilEmpty.uint_of_string (zeros (S n) +:+ NilEmpty.string_of_uint d)).
  rewrite of_uint_zeros. simpl. f_equal.
  change (Decimal.D0 (Nat.iter n Decimal.D0 d)) with (Nat.iter (S n) Decimal.D0 d).
  by rewrite of_uint_iter_D0.
Qed.

Lemma fmt_0d_inj w z1 z2 : 0 <= z1 -> 0 <= z2 -> fmt_0d w z1 = fmt_0d w z2 -> z1 = z2.
Proof.
  intros H1 H2. unfold fmt_0d.
  destruct (Z.ltb_spec z1 0), (Z.ltb_spec z2 0); try lia.
  intros Hz. pose proof (parse_uint10_pad w z1 H1) as E.
  rewrite Hz, parse_uint10_pad in E by done. congruence.
Qed.

(** ** Hexadecimal *)

Definition hex_digit (upper : bool) (n : N) : ascii :=
  if (n <? 10)%N then ascii_of_N (48 + n)
  else ascii_of_N ((if upper then 55 else 87) + n).

Definition hex_byte (upper : bool) (c : ascii) : string :=
  let n := N_of_ascii c in
  String (hex_digit upper (n / 16)) (str1 (hex_digit upper (n mod 16))).

(** [fmt]'s [%x] ([upper = false]) and [%X] on a byte slice. *)
Fixpoint hex_encode (upper : bool) (s : string) : string :=
  match s with
  | EmptyString => EmptyString
  | String c s' => hex_byte upper c +:+ hex_encode upper s'
  end.

Definition hex_val (c : ascii) : option N :=
  let n := N_of_ascii c in
  if is_digit c then Some (n - 48)%N
  else if between "a" "f" c then Some (n - 87)%N
  else if between "A" "F" c then Some (n - 55)%N
  else None.

(** What a SQL server reads between the quotes of a hexadecimal literal. *)
Fixpoint hex_decode (s : string) : option string :=
  match s with
  | EmptyString => Some EmptyString
  | String a (String b s') =>
      match hex_val a, hex_val b, hex_decode s' with
      | Some h, Some l, Some r => Some (String (ascii_of_N (16 * h + l)) r)
      | _, _, _ => None
      end
  | _ => None
  end.

Lemma hex_decode_encode upper s : hex_decode (hex_encode upper s) = Some s.
Proof.
  induction s as [|c s IH]; [done|].
  simpl. unfold hex_byte. cbn [String.append str1 hex_decode]. rewrite IH.
  destruct upper; by destruct c as [[][][][][][][][]].
Qed.

Definition is_hex (c : ascii) : bool := is_digit c || between "a" "f" c || between "A" "F" c.

Lemma hex_encode_chars upper s : sall is_hex (hex_encode upper s) = true.
Proof.
  induction s as [|c s IH]; [done|]. simpl. rewrite IH.
  destruct upper; by destruct c as [[][][][][][][][]].
Qed.

Lemma hex_encode_length upper s :
  String.length (hex_encode upper s) = (2 * String.length s)%nat.
Proof. induction s as [|c s IH]; simpl; [done|]. rewrite IH. lia. Qed.

(** ** Replacing doubled quotes back *)

Lemma ReplaceAll_undouble q s : ReplaceAll (double q s) (str1 q +:+ str1 q) (str1 q) = s.
Proof.
  unfold ReplaceAll. induction s as [|c s IH]; [done|]. simpl double.
  destruct (Ascii.eqb_spec c q) as [->|Hne].
  - simpl. unfold has_prefix; simpl. rewrite !Ascii.eqb_refl. simpl. simpl in IH. by rewrite IH.
  - simpl. unfold has_prefix; simpl. destruct (Ascii.eqb_spec q c); [congruence|].
    simpl. simpl in IH. by rewrite IH.
Qed.

(** ** Trimming a string that neither starts nor ends with a trimmed byte *)

Lemma trim_right_stop cut s c : cut c = false -> trim_right cut (s +:+ str1 c) = s +:+ str1 c.
Proof.
  intros Hc. induction s as [|x s IH]; simpl; [by rewrite Hc|]. rewrite IH.
  by destruct s.
Qed.

Lemma trim_noop cut c s d : cut c = false -> cut d = false ->
  trim cut (String c (s +:+ str1 d)) = String c (s +:+ str1 d).
Proof.
  intros Hc Hd. unfold trim. simpl. rewrite Hc.
  change (String c (s +:+ str1 d)) with (String c s +:+ str1 d). by apply trim_right_stop.
Qed.

(** ** The length of a decimal number *)

Lemma of_uint_acc_lower d acc :
  (Zpos acc * 10 ^ Z.of_nat (Decimal.nb_digits d) <= Zpos (Pos.of_uint_acc d acc))%Z.
Proof.
  revert acc. induction d as [|d IH|d IH|d IH|d IH|d IH|d IH|d IH|d IH|d IH|d IH]; intros acc;
    cbn [Decimal.nb_digits Pos.of_uint_acc]; [lia|..];
    rewrite Nat2Z.inj_succ, Z.pow_succ_r by lia;
    (etransitivity; [|apply IH]); nia.
Qed.

Lemma to_uint_no_lead_zero p l : Pos.to_uint p <> Decimal.D0 l.
Proof.
  intros E. pose proof (DecimalPos.Unsigned.to_of (Pos.to_uint p)) as H.
  rewrite DecimalPos.Unsigned.of_to in H. cbn in H. rewrite E in H at 2.
  rewrite unorm_D0 in H. destruct (Decimal.uint_eq_dec l Decimal.Nil) as [->|Hl].
  - by apply (DecimalPos.Unsigned.to_uint_nonzero p).
  - pose proof (nb_digits_unorm l Hl) as Hn. rewrite <- H, E in Hn. simpl in Hn. lia.
Qed.

Lemma to_uint_lower p :
  10 ^ (Z.of_nat (Decimal.nb_digits (Pos.to_uint p)) - 1) <= Zpos p.
Proof.
  pose proof (DecimalPos.Unsigned.of_to p) as H. pose proof (to_uint_no_lead_zero p) as Hz.
  pose proof (to_uint_not_nil p) as Hn.
  destruct (Pos.to_uint p) as [|d|d|d|d|d|d|d|d|d|d]; try done; [by destruct (Hz d)|..];
    cbn [Pos.of_uint] in H; injection H as <-; cbn [Decimal.nb_digits];
    (etransitivity; [|apply of_uint_acc_lower]);
    rewrite Nat2Z.inj_succ; replace (Z.succ _ - 1) with (Z.of_nat (Decimal.nb_digits d)) by lia; nia.
Qed.

Lemma uint_string_length d : String.length (NilEmpty.string_of_uint d) = Decimal.nb_digits d.
Proof. induction d; simpl; congruence. Qed.

Lemma itoa_length z k : 0 <= z < 10 ^ Z.of_nat k -> (0 < k)%nat -> (String.length (itoa z) <= k)%nat.
Proof.
  intros [Hz Hk] Hpos. destruct z as [|p|p]; [simpl; lia| |lia].
  unfold itoa. simpl. pose proof (to_uint_lower p) as H. pose proof (to_uint_not_nil p) as Hn.
  assert (String.length (NilZero.string_of_uint (Pos.to_uint p)) =
          Decimal.nb_digits (Pos.to_uint p)) as ->.
  { rewrite <- uint_string_length. by destruct (Pos.to_uint p). }
  destruct (le_lt_dec (Decimal.nb_digits (Pos.to_uint p)) k) as [|Hlt]; [done|].
  assert (10 ^ Z.of_nat k <= 10 ^ (Z.of_nat (Decimal.nb_digits (Pos.to_uint p)) - 1)).
  { apply Z.pow_le_mono_r; lia. }
  lia.
Qed.

Lemma fmt_0d_length w z :
  (0 < w)%nat -> 0 <= z < 10 ^ Z.of_nat w -> String.length (fmt_0d w z) = w.
Proof.
  intros Hw Hz. unfold fmt_0d. destruct (Z.ltb_spec z 0); [lia|].
  apply pad_to_length. by apply itoa_length.
Qed.

Lemma zeros_digits n : sall is_digit (zeros n) = true.
Proof. induction n; simpl; auto. Qed.

Lemma fmt_0d_digits w z : 0 <= z -> sall is_digit (fmt_0d w z) = true.
Proof.
  intros Hz. unfold fmt_0d, pad_to. destruct (Z.ltb_spec z 0); [lia|].
  by rewrite sall_app, zeros_digits, itoa_nonneg_digits.
Qed.

Lemma contains_byte_app c a b : contains_byte c (a +:+ b) = contains_byte c a || contains_byte c b.
Proof. induction a as [|x a IH]; simpl; [done|]. by rewrite IH, orb_assoc. Qed.

Lemma sall_contains (p : ascii -> bool) c s :
  p c = false -> sall p s = true -> contains_byte c s = false.
Proof.
  intros Hp. induction s as [|x s IH]; simpl; [done|]. intros [Hx Hs]%andb_true_iff.
  destruct (Ascii.eqb_spec x c) as [->|]; [congruence|]. auto.
Qed.

Lemma sapp_inj_r a b c : a +:+ c = b +:+ c -> a = b.
Proof.
  intros H. apply (sapp_eq_inj a c b c); [|done].
  apply (f_equal String.length) in H. rewrite !slength_app in H. lia.
Qed.

(** Splitting at a separator that the heads do not hold. *)
Lemma sep_split sep a b a' b' :
  contains_byte sep a = false -> contains_byte sep a' = false ->
  a +:+ String sep b = a' +:+ String sep b' -> a = a' /\ b = b'.
Proof.
  intros Ha Ha' H. pose proof (split2_app sep a b Ha) as E.
  rewrite H, split2_app in E by done. by injection E as <- <-.
Qed.

Lemma last_byte_inj a b c d : a +:+ str1 c = b +:+ str1 d -> c = d.
Proof.
  unfold str1. revert b. induction a as [|x a IH]; intros [|y b]; cbn; intros H;
    injection H; intros; subst; [done| | |eauto].
  - by destruct b.
  - by destruct a.
Qed.

(** The longest prefix whose bytes satisfy [p], and the rest. *)
Fixpoint span (p : ascii -> bool) (s : string) : string * string :=
  match s with
  | EmptyString => (EmptyString, EmptyString)
  | String c s' => if p c then let '(a, b) := span p s' in (String c a, b) else (EmptyString, s)
  end.

(** [stops p s]: [s] is empty or starts with a byte outside [p]. *)
Definition stops (p : ascii -> bool) (s : string) : bool :=
  match s with EmptyString => true | String c _ => negb (p c) end.

Lemma span_app p a b : sall p a = true -> stops p b = true -> span p (a +:+ b) = (a, b).
Proof.
  intros Ha Hb. induction a as [|c a IH]; simpl.
  - destruct b as [|c b]; [done|]. simpl in *. by destruct (p c).
  - simpl in Ha. apply andb_true_iff in Ha as [-> Ha]. by rewrite IH.
Qed.

(** A Unicode library that leaves non-ASCII strings alone, for examples. *)
Definition ascii_only : UnicodeLib := {| unicode_to_lower := id; unicode_trim_space := id |}.
