(* ===== verification/GoFloat.v ===== *)
(** * Go's float64

    IEEE 754 binary64 numbers and the operations of the program on them: the
    Standard Library's [spec_float] at 53 bits of precision.  [fmt_fixed] is
    what [fmt] prints for "%.nf". *)

From Stdlib Require Export SpecFloat.
From S2P Require Import Prelude GoStrings.

Definition float64 : Type := spec_float.

Definition fadd : float64 -> float64 -> float64 := SFadd 53 1024.
Definition fsub : float64 -> float64 -> float64 := SFsub 53 1024.
Definition fmul : float64 -> float64 -> float64 := SFmul 53 1024.
Definition fdiv : float64 -> float64 -> float64 := SFdiv 53 1024.

(** The conversion of an integer rounds to the nearest float64. *)
Definition of_int (z : Z) : float64 := binary_normalize 53 1024 z 0 false.

Definition fleb : float64 -> float64 -> bool := SFleb.
Definition fltb : float64 -> float64 -> bool := SFltb.
Definition feqb : float64 -> float64 -> bool := SFeqb.

(** ** Printing *)

(** [n / d] rounded to the nearest integer, a tie to the even one. *)
Definition div_half_even (n d : Z) : Z :=
  let q := n / d in
  match 2 * (n mod d) ?= d with
  | Lt => q
  | Gt => q + 1
  | Eq => if Z.even q then q else q + 1
  end.

(** [m * 2 ^ e * 10 ^ digits], rounded. *)
Definition decimal (digits : nat) (m : positive) (e : Z) : Z :=
  let n := Zpos m * 10 ^ Z.of_nat digits in
  if 0 <=? e then n * 2 ^ e else div_half_even n (2 ^ (- e)).

(** [n] with its last [digits] digits after the point. *)
Definition with_point (digits : nat) (n : Z) : string :=
  let unit := 10 ^ Z.of_nat digits in
  match digits with
  | O => itoa n
  | _ => itoa (n / unit) +:+ "." +:+ pad_to digits (itoa (n mod unit))
  end.

Definition fmt_fixed (digits : nat) (x : float64) : string :=
  let sign s := if s : bool then "-" else EmptyString in
  match x with
  | S754_nan => "NaN"
  | S754_infinity s => if s then "-Inf" else "+Inf"
  | S754_zero s => sign s +:+ with_point digits 0
  | S754_finite s m e => sign s +:+ with_point digits (decimal digits m e)
  end.

(** Padding with spaces on the left. *)
Fixpoint spaces (n : nat) : string :=
  match n with O => EmptyString | S n' => String " " (spaces n') end.
Definition pad_left (w : nat) (s : string) : string := spaces (w - String.length s) +:+ s.

Example fmt_fixed_examples :
  fmt_fixed 2 (fdiv (of_int 100) (of_int 3)) = "33.33" /\ fmt_fixed 2 (fdiv (of_int 1) (of_int 8)) = "0.12" /\
  fmt_fixed 0 (of_int 1000000) = "1000000" /\ pad_left 5 (fmt_fixed 2 (of_int 7)) = " 7.00" /\
  fmt_fixed 1 (fsub (of_int 0) (of_int 5)) = "-5.0".
Proof. vm_compute. done. Qed.

(** ** Integers below 2^53 are exact, and such a number divided by itself is 1 *)

Lemma digits_shifted p k : digits2_pos (Pos.iter xO p k) = (digits2_pos p + k)%positive.
Proof.
  induction k as [|k IH] using Pos.peano_ind; cbn; [by rewrite Pos.add_1_r|].
  rewrite Pos.iter_succ. cbn. rewrite IH. lia.
Qed.

Lemma digits_bound p : 2 ^ (Zpos (digits2_pos p) - 1) <= Zpos p.
Proof.
  induction p as [p IH|p IH|]; cbn [digits2_pos]; [..|done];
    rewrite Pos2Z.inj_succ; replace (Z.succ _ - 1) with (Z.succ (Zpos (digits2_pos p) - 1)) by lia;
    rewrite Z.pow_succ_r by lia; lia.
Qed.

Lemma digits_small p k : Zpos p < 2 ^ k -> 0 <= k -> Zpos (digits2_pos p) <= k.
Proof.
  intros Hp Hk. pose proof (digits_bound p) as Hd.
  assert (2 ^ (Zpos (digits2_pos p) - 1) < 2 ^ k) as Hlt by lia.
  apply Z.pow_lt_mono_r_iff in Hlt; lia.
Qed.

(** A mantissa of 53 digits is not rounded. *)
Lemma round_aux_exact m e :
  Zpos (digits2_pos m) = 53 -> -1074 <= e <= 971 ->
  binary_round_aux 53 1024 false (Zpos m) e loc_Exact = S754_finite false m e.
Proof.
  intros Hd He. unfold binary_round_aux, shr_fexp. cbn [shr_record_of_loc Zdigits2]. rewrite Hd.
  replace (fexp 53 1024 (53 + e) - e) with 0 by (unfold fexp, emin; lia). cbn [shr loc_of_shr_record shr_m round_nearest_even Zdigits2 shr_record_of_loc].
  rewrite Hd. replace (fexp 53 1024 (53 + e) - e) with 0 by (unfold fexp, emin; lia). cbn [shr shr_m].
  destruct (Z.leb_spec e (1024 - 53)); [done|lia].
Qed.

Lemma of_int_exact p :
  Zpos p < 2 ^ 53 ->
  exists m, of_int (Zpos p) = S754_finite false m (Zpos (digits2_pos p) - 53) /\ Zpos (digits2_pos m) = 53.
Proof.
  intros Hp. pose proof (digits_small p 53 Hp ltac:(lia)) as Hd.
  unfold of_int, binary_normalize, binary_round, shl_align.
  set (d := Zpos (digits2_pos p)) in *. assert (1 <= d) by lia.
  replace (fexp 53 1024 (d + 0) - 0) with (d - 53) by (unfold fexp, emin; lia).
  replace (fexp 53 1024 (d + 0)) with (d - 53) by (unfold fexp, emin; lia).
  destruct (d - 53) as [|k|k] eqn:Ek; [|lia|].
  - exists p. rewrite round_aux_exact by lia. split; [done|]. fold d. lia.
  - exists (Pos.iter xO p k). rewrite round_aux_exact; [|rewrite digits_shifted|]; try lia.
    split; [done|]. rewrite digits_shifted. lia.
Qed.

Lemma div_same n : 0 < n < 2 ^ 53 -> fdiv (of_int n) (of_int n) = of_int 1.
Proof.
  intros Hn. destruct n as [|p|p]; try lia. destruct (of_int_exact p ltac:(lia)) as (m & -> & Hm).
  set (e := _ - 53). unfold fdiv, SFdiv, SFdiv_core_binary. cbn [Zdigits2].
  replace (Zpos (digits2_pos m) + e - (Zpos (digits2_pos m) + e)) with 0 by lia.
  rewrite Z.sub_diag. change (Z.min (fexp 53 1024 0) 0) with (-53). cbn [Z.sub Z.opp Z.add].
  replace (IntDef.Z.div_eucl _ (Zpos m)) with (2 ^ 53, 0).
  - assert (new_location (Zpos m) 0 = loc_Exact) as -> by (unfold new_location; by destruct (Z.even _)).
    vm_compute. reflexivity.
  - symmetry. change (Z.div_eucl (Z.shiftl (Zpos m) 53) (Zpos m) = (2 ^ 53, 0)).
    rewrite Z.shiftl_mul_pow2 by lia.
    pose proof (Z_div_mod (Zpos m * 2 ^ 53) (Zpos m) ltac:(lia)) as Hdm.
    destruct (Z.div_eucl _ _) as [q r]. destruct Hdm as [Hq Hr].
    assert (q = 2 ^ 53) by nia. subst q. f_equal. lia.
Qed.
