(* ===== verification/Dialect.v ===== *)
(** * SQL dialects (export/dialect.go)

    The targets, the dialect interface with its two implementations, and the
    identifier and binary-literal writers.  [LawfulDialect] is the contract
    the writers rely on: a reader with the target's quoting rules gets back
    exactly the identifier or the bytes that were written, whatever follows. *)

From S2P Require Import Prelude GoStrings.

(** ** Targets *)

(** src/export/dialect.go:50-62 SQLTarget *)
Inductive SQLTarget :=
  | TargetPg
  | TargetMySQL
  | TargetTiDB
  | TargetUnknown (n : Z).

#[export] Instance SQLTarget_eq_dec : EqDecision SQLTarget.
Proof. solve_decision. Defined.

(** src/export/dialect.go:64-76 SQLTarget.String *)
Definition target_String (t : SQLTarget) : string :=
  match t with
  | TargetPg => "pg"
  | TargetMySQL => "mysql"
  | TargetTiDB => "tidb"
  | TargetUnknown n => "unknown(" +:+ itoa n +:+ ")"
  end.

Section Parse.
Context `{UnicodeLib}.

(** src/export/dialect.go:78-93 ParseSQLTarget *)
Definition ParseSQLTarget (s : string) : result SQLTarget :=
  let k := ToLower (TrimSpace s) in
  if one_of k [EmptyString; "mysql"] then Ok TargetMySQL
  else if one_of k ["tidb"] then Ok TargetTiDB
  else if one_of k ["pg"; "postgres"; "postgresql"] then Ok TargetPg
  else Err (EErrorf "unknown --target value %q (want pg|mysql|tidb)" [AStr s]).
End Parse.

(** ** The interface *)

(** src/export/dialect.go:12-47 SQLDialect *)
Record SQLDialect := {
  Name : string;
  QuoteIdent : string -> string;
  QuoteQName : string -> string -> string;
  Preamble : list string;
  CreateDatabaseStmt : string -> string;
  BytesLiteral : string -> string;
  WantMigrationCasts : string -> bool
}.

(** The loop that both dialects use to quote: the quote byte, every byte of
    the name with the quote byte written twice, the quote byte. *)
Definition quote_with (q : ascii) (name : string) : string :=
  String q (double q name +:+ str1 q).

(** ** PostgreSQL *)

(** src/export/dialect.go:125-137 pgDialect.QuoteIdent *)
Definition pg_QuoteIdent (name : string) : string := quote_with dquote name.

(** src/export/dialect.go:139-144 pgDialect.QuoteQName *)
Definition pg_QuoteQName (schema name : string) : string :=
  if String.eqb schema EmptyString then pg_QuoteIdent name
  else pg_QuoteIdent schema +:+ "." +:+ pg_QuoteIdent name.

(** src/export/dialect.go:146-157 pgDialect.Preamble *)
Definition pg_Preamble : list string :=
  [ "SET standard_conforming_strings = on;";
    "SET client_encoding = 'UTF8';";
    "SET search_path = pg_catalog;" ].

(** src/export/dialect.go:159-161 pgDialect.CreateDatabaseStmt *)
Definition pg_CreateDatabaseStmt (name : string) : string :=
  "CREATE SCHEMA IF NOT EXISTS " +:+ pg_QuoteIdent name.

(** src/export/dialect.go:163-165 pgDialect.BytesLiteral *)
Definition pg_BytesLiteral (b : string) : string :=
  "'\x" +:+ hex_encode false b +:+ "'".

(** src/export/dialect.go:167-172 pgDialect.WantMigrationCasts *)
Definition pg_WantMigrationCasts (filetype : string) : bool := String.eqb filetype "csv".

(** src/export/dialect.go:118-123 pgDialect *)
Definition pgDialect : SQLDialect := {|
  Name := "pg";
  QuoteIdent := pg_QuoteIdent;
  QuoteQName := pg_QuoteQName;
  Preamble := pg_Preamble;
  CreateDatabaseStmt := pg_CreateDatabaseStmt;
  BytesLiteral := pg_BytesLiteral;
  WantMigrationCasts := pg_WantMigrationCasts
|}.

(** ** MySQL and TiDB *)

(** src/export/dialect.go:184-196 mysqlDialect.QuoteIdent *)
Definition mysql_QuoteIdent (name : string) : string := quote_with bquote name.

(** src/export/dialect.go:198-203 mysqlDialect.QuoteQName *)
Definition mysql_QuoteQName (schema name : string) : string :=
  if String.eqb schema EmptyString then mysql_QuoteIdent name
  else mysql_QuoteIdent schema +:+ "." +:+ mysql_QuoteIdent name.

(** src/export/dialect.go:205-214 mysqlDialect.Preamble *)
Definition mysql_Preamble : list string :=
  [ "/*!40101 SET NAMES utf8mb4 */;";
    "/*!40014 SET FOREIGN_KEY_CHECKS=0 */;";
    "/*!40014 SET UNIQUE_CHECKS=0 */;";
    "SET sql_mode='NO_BACKSLASH_ESCAPES';" ].

(** src/export/dialect.go:216-218 mysqlDialect.CreateDatabaseStmt *)
Definition mysql_CreateDatabaseStmt (name : string) : string :=
  "CREATE DATABASE IF NOT EXISTS " +:+ mysql_QuoteIdent name.

(** src/export/dialect.go:220-225 mysqlDialect.BytesLiteral *)
Definition mysql_BytesLiteral (b : string) : string :=
  if slen b =? 0 then "X''" else "X'" +:+ hex_encode true b +:+ "'".

(** src/export/dialect.go:174-182 mysqlDialect.Name *)
Definition mysql_Name (name : string) : string :=
  if String.eqb name EmptyString then "mysql" else name.

(** src/export/dialect.go:227-233 mysqlDialect.WantMigrationCasts *)
Definition mysql_WantMigrationCasts (_ : string) : bool := true.

Definition mysqlDialect (name : string) : SQLDialect := {|
  Name := mysql_Name name;
  QuoteIdent := mysql_QuoteIdent;
  QuoteQName := mysql_QuoteQName;
  Preamble := mysql_Preamble;
  CreateDatabaseStmt := mysql_CreateDatabaseStmt;
  BytesLiteral := mysql_BytesLiteral;
  WantMigrationCasts := mysql_WantMigrationCasts
|}.

(** src/export/dialect.go:95-103 DialectFor *)
Definition DialectFor (t : SQLTarget) : SQLDialect :=
  match t with
  | TargetMySQL | TargetTiDB => mysqlDialect (target_String t)
  | _ => pgDialect
  end.

(** ** What a reader of the dump sees *)

(** A quoted identifier, and a possibly qualified name, under quote [q]. *)
Definition lex_ident (q : ascii) (s : string) : option (string * string) :=
  match s with
  | String c s' => if Ascii.eqb c q then lex_quoted q s' else None
  | EmptyString => None
  end.

Definition lex_qname (q : ascii) (s : string) : option (list string * string) :=
  '(a, r) ← lex_ident q s;
  match r with
  | String c r' =>
      if Ascii.eqb c "." then '(b, r2) ← lex_ident q r'; Some ([a; b], r2)
      else Some ([a], r)
  | EmptyString => Some ([a], r)
  end.

(** A PostgreSQL [bytea] literal is a string literal whose text is a
    backslash, an x and hexadecimal digits; a MySQL one is a hexadecimal
    literal. *)
Definition pg_read_bytes (s : string) : option (string * string) :=
  s' ← strip_prefix "'" s;
  '(v, r) ← lex_quoted squote s';
  h ← strip_prefix (String bslash "x") v;
  b ← hex_decode h;
  Some (b, r).

Definition mysql_read_bytes (s : string) : option (string * string) :=
  s' ← strip_prefix "X'" s;
  '(h, r) ← lex_quoted squote s';
  b ← hex_decode h;
  Some (b, r).

Class LawfulDialect (d : SQLDialect) := {
  ident_quote : ascii;
  read_bytes : string -> option (string * string);
  law_ident name rest :
    starts ident_quote rest = false ->
    lex_ident ident_quote (QuoteIdent d name +:+ rest) = Some (name, rest);
  law_quote_not_dot : Ascii.eqb "." ident_quote = false;
  law_qname schema name :
    QuoteQName d schema name =
    if String.eqb schema EmptyString then QuoteIdent d name
    else QuoteIdent d schema +:+ "." +:+ QuoteIdent d name;
  law_bytes b rest :
    starts squote rest = false ->
    read_bytes (BytesLiteral d b +:+ rest) = Some (b, rest);
  law_bytes_null rest : read_bytes ("NULL" +:+ rest) = None
}.

Lemma quote_with_lex q name rest :
  starts q rest = false -> lex_ident q (quote_with q name +:+ rest) = Some (name, rest).
Proof.
  intros Hr. unfold quote_with, lex_ident. simpl. rewrite Ascii.eqb_refl, sapp_assoc.
  by apply lex_quoted_double.
Qed.

(** Hexadecimal digits hold no quote, so quoting them needs no doubling. *)
Lemma double_hex upper b : double squote (hex_encode upper b) = hex_encode upper b.
Proof.
  pose proof (hex_encode_chars upper b) as H. revert H. generalize (hex_encode upper b).
  induction s as [|c s IH]; simpl; [done|]. intros [Hc Hs]%andb_true_iff. rewrite IH by done.
  destruct (Ascii.eqb_spec c squote) as [->|]; [done|done].
Qed.

Lemma lex_hex upper b rest :
  starts squote rest = false ->
  lex_quoted squote (hex_encode upper b +:+ String squote rest) = Some (hex_encode upper b, rest).
Proof. intros Hr. rewrite <- (double_hex upper b) at 1. by apply lex_quoted_double. Qed.

#[export] Instance pg_lawful : LawfulDialect pgDialect.
Proof.
  refine {| ident_quote := dquote; read_bytes := pg_read_bytes |};
    cbn [QuoteIdent QuoteQName BytesLiteral pgDialect mysqlDialect].
  - intros. by apply quote_with_lex.
  - done.
  - done.
  - intros b rest Hr. unfold pg_read_bytes, pg_BytesLiteral.
    change ((("'\x" +:+ hex_encode false b +:+ "'") +:+ rest)) with
      (String squote (String bslash (String "x" ((hex_encode false b +:+ "'") +:+ rest)))).
    cbn [strip_prefix]. change (Ascii.eqb "'" squote) with true. cbn [mbind option_bind].
    rewrite sapp_assoc. cbn [lex_quoted].
    change (Ascii.eqb bslash squote) with false. change (Ascii.eqb "x" squote) with false.
    cbn iota. change ("'" +:+ rest) with (String squote rest). rewrite lex_hex by done.
    cbn [strip_prefix mbind option_bind]. rewrite Ascii.eqb_refl. simpl.
    by rewrite hex_decode_encode.
  - done.
Defined.

#[export] Instance mysql_lawful n : LawfulDialect (mysqlDialect n).
Proof.
  refine {| ident_quote := bquote; read_bytes := mysql_read_bytes |};
    cbn [QuoteIdent QuoteQName BytesLiteral pgDialect mysqlDialect].
  - intros. by apply quote_with_lex.
  - done.
  - done.
  - intros b rest Hr. unfold mysql_read_bytes, mysql_BytesLiteral.
    destruct (Z.eqb_spec (slen b) 0) as [->%slen_zero|_].
    + cbn. destruct rest; [done|]. simpl in *. by rewrite Hr.
    + rewrite !sapp_assoc, strip_prefix_app. cbn [mbind option_bind].
      change ("'" +:+ rest) with (String squote rest). rewrite lex_hex by done.
      cbn [mbind option_bind]. by rewrite hex_decode_encode.
  - done.
Defined.

#[export] Instance target_lawful t : LawfulDialect (DialectFor t).
Proof. destruct t; apply _. Defined.

Lemma qname_lex d `{!LawfulDialect d} schema name rest :
  starts ident_quote rest = false -> starts "." rest = false ->
  lex_qname ident_quote (QuoteQName d schema name +:+ rest) =
  Some (if String.eqb schema EmptyString then [name] else [schema; name], rest).
Proof.
  intros Hq Hd. rewrite law_qname. unfold lex_qname.
  destruct (String.eqb schema EmptyString).
  - rewrite law_ident by done. simpl. destruct rest; [done|]. simpl in Hd. by rewrite Hd.
  - rewrite !sapp_assoc, law_ident by apply law_quote_not_dot. simpl.
    by rewrite law_ident.
Qed.

(** ** Properties *)

(** C25: for every target, what [QuoteQName] writes is read back by the
    target's identifier lexer as exactly the schema and the name that were
    passed, with no byte of the rest of the statement consumed: no table or
    schema name can break out of its quotes. *)
Theorem target_qname_roundtrip t schema name rest :
  starts (ident_quote (d := DialectFor t)) rest = false ->
  starts "." rest = false ->
  lex_qname (ident_quote (d := DialectFor t)) (QuoteQName (DialectFor t) schema name +:+ rest) =
  Some (if String.eqb schema EmptyString then [name] else [schema; name], rest).
Proof. apply qname_lex. Qed.

Lemma target_qname_roundtrip_witness :
  lex_qname bquote (QuoteQName (DialectFor TargetTiDB) "pu`blic" "t; DROP" +:+ " VALUES") =
  Some (["pu`blic"; "t; DROP"], " VALUES").
Proof.
  exact (target_qname_roundtrip TargetTiDB "pu`blic" "t; DROP" " VALUES" eq_refl eq_refl).
Defined.

(** For every target, the binary literal of a byte string is read back by
    the target's literal reader as exactly those bytes. *)
Theorem target_bytes_roundtrip t b rest :
  starts squote rest = false ->
  read_bytes (d := DialectFor t) (BytesLiteral (DialectFor t) b +:+ rest) = Some (b, rest).
Proof. apply law_bytes. Qed.

Lemma target_bytes_roundtrip_witness :
  pg_read_bytes (pg_BytesLiteral "Hello" +:+ ",1)") = Some ("Hello", ",1)").
Proof. exact (target_bytes_roundtrip TargetPg "Hello" ",1)" eq_refl). Defined.

Section ParseProperties.
Context `{UnicodeLib}.

Lemma sall_space_ascii w : sall is_space w = true -> is_ascii w = true.
Proof. apply sall_mono. by intros [[][][][][][][][]]. Qed.

(** The canonical name of every target parses back to that target, in
    upper case and with any surrounding white space. *)
Theorem parse_target_roundtrip t w1 w2 :
  t ∈ [TargetPg; TargetMySQL; TargetTiDB] ->
  sall is_space w1 = true -> sall is_space w2 = true ->
  ParseSQLTarget (w1 +:+ smap upper_byte (target_String t) +:+ w2) = Ok t.
Proof.
  intros Ht H1 H2. unfold ParseSQLTarget, TrimSpace.
  assert (is_ascii (w1 +:+ smap upper_byte (target_String t) +:+ w2) = true) as ->.
  { unfold is_ascii. rewrite !sall_app. apply sall_space_ascii in H1, H2.
    unfold is_ascii in *. rewrite H1, H2, andb_true_r.
    set_unfold in Ht. by destruct Ht as [->|[->|[->|[]]]]. }
  unfold trim. rewrite trim_left_app by done.
  set_unfold in Ht. destruct Ht as [->|[->|[->|[]]]].
  - change (trim_left is_space _) with ("PG" +:+ w2). by rewrite trim_right_app.
  - change (trim_left is_space _) with ("MYSQL" +:+ w2). by rewrite trim_right_app.
  - change (trim_left is_space _) with ("TIDB" +:+ w2). by rewrite trim_right_app.
Qed.
End ParseProperties.

Lemma parse_target_roundtrip_witness :
  ParseSQLTarget (H := {| unicode_to_lower := id; unicode_trim_space := id |}) "  TIDB " =
  Ok TargetTiDB.
Proof.
  refine (parse_target_roundtrip (H := {| unicode_to_lower := id; unicode_trim_space := id |})
            TargetTiDB "  " " " _ eq_refl eq_refl).
  by apply elem_of_cons; right; apply elem_of_cons; right; apply elem_of_cons; left.
Defined.
