(* ===== verification/FilterMatcher.v ===== *)
(** * Table filter: matchers and rules (internal/table-filter/matchers.go)

    A matcher is a literal string, the everything-matcher, or a compiled
    regular expression.  Go's [regexp] package compiles and runs patterns the
    user wrote; it is a parameter of the development ([RegexpLib]). *)

From S2P Require Import Prelude GoStrings.

(** The [regexp] package: [regexp.Compile], [MatchString] and [String]. *)
Class RegexpLib := {
  regexp : Type;
  regexp_Compile : string -> result regexp;
  regexp_MatchString : regexp -> string -> bool;
  regexp_String : regexp -> string
}.

Section Matcher.
Context `{UnicodeLib} `{RegexpLib}.

(** src/internal/table-filter/matchers.go:39-79 matcher *)
Inductive matcher :=
  | stringMatcher (s : string)
  | trueMatcher
  | regexpMatcher (pattern : regexp).

(** src/internal/table-filter/matchers.go:46-95 matchString *)
Definition matchString (m : matcher) (name : string) : bool :=
  match m with
  | stringMatcher s => String.eqb s name
  | trueMatcher => true
  | regexpMatcher p => regexp_MatchString p name
  end.

(** src/internal/table-filter/matchers.go:53-55 matchAllStrings *)
Definition matchAllStrings (m : matcher) : bool :=
  match m with trueMatcher => true | _ => false end.

(** [regexpMatcher.toLower] recompiles the pattern with the [(?i)] flag and
    panics when that fails: [None] is the panic.
    src/internal/table-filter/matchers.go:57-104 toLower *)
Definition matcher_toLower (m : matcher) : option matcher :=
  match m with
  | stringMatcher s => Some (stringMatcher (ToLower s))
  | trueMatcher => Some trueMatcher
  | regexpMatcher p =>
      match regexp_Compile ("(?i)" +:+ regexp_String p) with
      | Ok p' => Some (regexpMatcher p')
      | Err _ => None
      end
  end.

(** src/internal/table-filter/matchers.go:81-91 newRegexpMatcher *)
Definition newRegexpMatcher (pat : string) : result matcher :=
  if String.eqb pat "(?s)^.*$" then Ok trueMatcher
  else p ← regexp_Compile pat; Ok (regexpMatcher p).

(** src/internal/table-filter/matchers.go:24-30 tableRule *)
Record tableRule := mkTableRule { rschema : matcher; rtable : matcher; rpositive : bool }.

(** src/internal/table-filter/matchers.go:32-37 columnRule *)
Record columnRule := mkColumnRule { rcolumn : matcher; cpositive : bool }.

Lemma matchAllStrings_spec m n : matchAllStrings m = true -> matchString m n = true.
Proof. by destruct m. Qed.
End Matcher.
