(* ===== verification/FilterParser.v ===== *)
(** * Table filter: the rule parser (internal/table-filter/parser.go)

    Rules are parsed into a parser state that holds the rules read so far and
    the position for error messages.  The four fixed regular expressions of
    the parser have the shape of an opening byte, a greedy repetition of
    "a pair of bytes, or a single byte", and a closing byte; [delimited] runs that shape with
    the leftmost-first semantics of Go's matcher.  Their character classes
    only separate ASCII bytes, so matching bytes or matching UTF-8 encoded
    runes finds the same end. *)

From S2P Require Import Prelude GoStrings FilterMatcher.

(** ** The fixed regular expressions *)

Section Delimited.
Context (pair : ascii -> ascii -> bool) (single : ascii -> bool) (close : ascii).

(** After the opening byte: [(?:pair|single)+close], leftmost-first.  The
    result is the repeated part and the input after the closing byte. *)
Fixpoint delimited (seen : bool) (s : string) : option (string * string) :=
  match s with
  | EmptyString => None
  | String c s1 =>
      let by_pair :=
        match s1 with
        | String d s2 =>
            if pair c d
            then '(b, r) ← delimited true s2; Some (String c (String d b), r)
            else None
        | EmptyString => None
        end in
      let by_single :=
        if single c then '(b, r) ← delimited true s1; Some (String c b, r) else None in
      let stop := if seen && Ascii.eqb c close then Some (EmptyString, s1) else None in
      orelse by_pair (orelse by_single stop)
  end.

Lemma delimited_split seen s b r :
  delimited seen s = Some (b, r) -> s = b +:+ String close r.
Proof.
  remember (String.length s) as n eqn:Hn. revert seen s b r Hn.
  induction n as [n IH] using (well_founded_induction lt_wf); intros seen s b r Hn.
  destruct s as [|c s1]; cbn [delimited]; [done|]. simpl in Hn.
  intros [Hp|[_ [Hs|[_ Hstop]]%orelse_Some]]%orelse_Some.
  - destruct s1 as [|d s2]; [done|]. destruct (pair c d); [|done].
    destruct (delimited true s2) as [[b0 r0]|] eqn:E; [|done].
    injection Hp as <- <-. simpl in *. do 2 f_equal.
    eapply (IH (String.length s2)); [lia|done|exact E].
  - destruct (single c); [|done].
    destruct (delimited true s1) as [[b0 r0]|] eqn:E; [|done].
    injection Hs as <- <-. simpl. f_equal. eapply (IH (String.length s1)); [lia|done|exact E].
  - destruct (seen && Ascii.eqb c close) eqn:Es; [|done]. injection Hstop as <- <-.
    by apply andb_true_iff in Es as [_ ->%Ascii.eqb_eq].
Qed.
End Delimited.

(** src/internal/table-filter/parser.go:202-204 isASCIIAlphanumeric *)
Definition isASCIIAlphanumeric (b : ascii) : bool :=
  is_digit b || is_lower b || is_upper b.

(** [^/(?:\\.|[^/])+/]: without the [s] flag a dot matches no newline.
    src/internal/table-filter/parser.go:146-146 regexpRegexp *)
Definition regexpRegexp (s : string) : option (string * string) :=
  match s with
  | String "/" s' =>
      delimited (fun c d => Ascii.eqb c bslash && negb (Ascii.eqb d newline))
                (fun c => negb (Ascii.eqb c "/")) "/" false s'
  | _ => None
  end.

(** The two quoted forms: a doubled quote, or any other byte.
    src/internal/table-filter/parser.go:147-148 doubleQuotedRegexp *)
Definition quotedRegexp (q : ascii) (s : string) : option (string * string) :=
  match s with
  | String c s' =>
      if Ascii.eqb c q then
        delimited (fun c d => Ascii.eqb c q && Ascii.eqb d q)
                  (fun c => negb (Ascii.eqb c q)) q false s'
      else None
  | EmptyString => None
  end.

(** [^\[!?(?:\\[^0-9a-zA-Z]|[^\\\]])+\]]: the optional exclamation mark is
    taken first and given back when the rest does not match.  The result is
    the text between the brackets and the rest.
    src/internal/table-filter/parser.go:149-149 wildcardRangeRegexp *)
Definition wildcardRangeRegexp (s : string) : option (string * string) :=
  let class := delimited (fun c d => Ascii.eqb c bslash && negb (isASCIIAlphanumeric d))
                 (fun c => negb (Ascii.eqb c bslash) && negb (Ascii.eqb c "]")) "]" false in
  match s with
  | String "[" s' =>
      orelse (match s' with
              | String "!" s2 => '(b, r) ← class s2; Some (String "!" b, r)
              | _ => None
              end)
             (class s')
  | _ => None
  end.

(** ** Positions and errors *)

(** src/internal/table-filter/parser.go:128-131 matcherParser *)
Record position := mkPosition { fileName : string; lineNum : Z }.

(** src/internal/table-filter/parser.go:133-135 wrapErrorFormat *)
Definition wrapErrorFormat (p : position) (format : string) : string :=
  "at " +:+ ReplaceAll (fileName p) "%" "%%" +:+ ":" +:+ itoa (lineNum p) +:+ ": " +:+ format.

(** src/internal/table-filter/parser.go:137-139 errorf *)
Definition errorf {A} (p : position) (format : string) (args : list fmt_arg) : result A :=
  Err (EErrorf (wrapErrorFormat p format) args).

(** src/internal/table-filter/parser.go:141-143 annotatef *)
Definition annotatef {A} (p : position) (e : error) (format : string) (args : list fmt_arg)
    : result A :=
  Err (EAnnotate e (wrapErrorFormat p format) args).

(** The files a rule can import: [os.Open] and the line scanner, that is the
    lines read and the scanner's error after them. *)
Class FileLib := { open_lines : string -> result (list string * option error) }.

Section Parser.
Context `{UnicodeLib} `{RegexpLib} `{FileLib}.

(** src/internal/table-filter/parser.go:152-158 matcherParser.newRegexpMatcher *)
Definition parser_newRegexpMatcher (p : position) (pat : string) : result matcher :=
  match newRegexpMatcher pat with
  | Ok m => Ok m
  | Err e => annotatef p e "invalid pattern" []
  end.

(** The loop of [parseWildcardPattern] over the rest of the line.  [lit]
    and [wild] are the two string builders; [skip] counts the bytes of a
    character class still to pass over.
    src/internal/table-filter/parser.go:217-285 parseWildcardPattern *)
Fixpoint wildcard_loop (p : position) (needsDot : bool) (line : string)
    (lit wild : string) (isLit : bool) (skip : nat)
    : result (string * string * bool * string) :=
  match line with
  | EmptyString => Ok (lit, wild, isLit, EmptyString)
  | String c rest =>
      match skip with
      | S k => wildcard_loop p needsDot rest lit wild isLit k
      | O =>
          if Ascii.eqb c bslash then
            match rest with
            | EmptyString => errorf p "syntax error: cannot place \ at end of line" []
            | String esc rest' =>
                if isASCIIAlphanumeric esc then
                  errorf p "cannot escape a letter or number (\%c), it is reserved for future extension"
                    [AStr (str1 esc)]
                else
                  wildcard_loop p needsDot rest'
                    (if isLit then lit +:+ str1 esc else lit)
                    ((if byte_of esc <? 128 then wild +:+ str1 bslash else wild) +:+ str1 esc)
                    isLit O
            end
          else if Ascii.eqb c "." then
            if needsDot then Ok (lit, wild, isLit, line)
            else errorf p "unexpected special character '%c'" [AStr (str1 c)]
          else if Ascii.eqb c "*" then
            wildcard_loop p needsDot rest lit (wild +:+ ".*") false O
          else if Ascii.eqb c "?" then
            wildcard_loop p needsDot rest lit (wild +:+ ".") false O
          else if Ascii.eqb c "[" then
            match wildcardRangeRegexp line with
            | None => errorf p "syntax error: failed to parse character class" []
            | Some (body, _) =>
                let cls := match body with
                           | String "!" body' => "[^" +:+ body' +:+ "]"
                           | String "^" body' => "[\^" +:+ body' +:+ "]"
                           | _ => "[" +:+ body +:+ "]"
                           end in
                wildcard_loop p needsDot rest lit (wild +:+ cls) false
                  (S (String.length body))
            end
          else if negb (Ascii.eqb c "$" || Ascii.eqb c "_" || isASCIIAlphanumeric c
                        || (128 <=? byte_of c)) then
            errorf p "unexpected special character '%c'" [AStr (str1 c)]
          else wildcard_loop p needsDot rest (lit +:+ str1 c) (wild +:+ str1 c) isLit O
      end
  end.

(** src/internal/table-filter/parser.go:206-297 parseWildcardPattern *)
Definition parseWildcardPattern (p : position) (line : string) (needsDot : bool)
    : result (matcher * string) :=
  '(lit, wild, isLit, rest) ← wildcard_loop p needsDot line EmptyString "(?s)^" true O;
  if (isLit : bool) then Ok (stringMatcher lit, rest)
  else m ← parser_newRegexpMatcher p (wild +:+ "$"); Ok (m, rest).

(** src/internal/table-filter/parser.go:160-200 parsePattern *)
Definition parsePattern (p : position) (line : string) (needsDot : bool)
    : result (matcher * string) :=
  match line with
  | EmptyString => errorf p "syntax error: missing pattern" []
  | String c _ =>
      if Ascii.eqb c "/" then
        match regexpRegexp line with
        | None => errorf p "syntax error: incomplete regexp" []
        | Some (body, rest) => m ← parser_newRegexpMatcher p body; Ok (m, rest)
        end
      else if Ascii.eqb c dquote || Ascii.eqb c bquote then
        match quotedRegexp c line with
        | None => errorf p "syntax error: incomplete quoted identifier" []
        | Some (body, rest) =>
            Ok (stringMatcher (ReplaceAll body (str1 c +:+ str1 c) (str1 c)), rest)
        end
      else parseWildcardPattern p line needsDot
  end.
End Parser.

(** ** Reading quoted patterns back *)

Lemma delimited_double q seen s rest :
  starts q rest = false -> seen || negb (slen s =? 0) = true ->
  delimited (fun c d => Ascii.eqb c q && Ascii.eqb d q) (fun c => negb (Ascii.eqb c q)) q
    seen (double q s +:+ String q rest) = Some (double q s, rest).
Proof.
  intros Hr. revert seen. induction s as [|c s IH]; intros seen Hs.
  - simpl in Hs. rewrite orb_false_r in Hs. subst seen. cbn [double String.append delimited].
    rewrite Ascii.eqb_refl. destruct rest as [|d rest]; [done|]. simpl in Hr. by rewrite Hr.
  - simpl double. destruct (Ascii.eqb_spec c q) as [->|Hne].
    + cbn [String.append delimited]. rewrite !Ascii.eqb_refl. cbn [andb].
      by rewrite IH.
    + cbn [String.append delimited]. apply Ascii.eqb_neq in Hne. rewrite Hne. cbn [andb negb].
      rewrite IH by done. cbn.
      by destruct (double q s +:+ String q rest).
Qed.

Section QuotedPatterns.
Context `{UnicodeLib} `{RegexpLib}.

(** A quoted identifier, with its quotes doubled, parses as the literal
    matcher of the identifier, whatever characters it holds. *)
Lemma parsePattern_quoted p q name rest needsDot :
  q = dquote \/ q = bquote -> starts q rest = false -> name <> EmptyString ->
  parsePattern p (String q (double q name +:+ String q rest)) needsDot =
  Ok (stringMatcher name, rest).
Proof.
  intros Hq Hr Hn. unfold parsePattern.
  assert (Ascii.eqb q "/" = false) as -> by (by destruct Hq as [-> | ->]).
  assert (Ascii.eqb q dquote || Ascii.eqb q bquote = true) as -> by (by destruct Hq as [-> | ->]).
  unfold quotedRegexp. rewrite Ascii.eqb_refl.
  rewrite delimited_double; [by rewrite ReplaceAll_undouble|done|].
  by destruct name.
Qed.
End QuotedPatterns.
