(* ===== verification/Filter.v ===== *)
(** * Table and column filters (internal/table-filter)

    The rule parsers with file imports, the filters of [table_filter.go],
    [column_filter.go] and [compat.go], and the filter interface as the
    inductive type of its implementations. *)

From S2P Require Import Prelude GoStrings FilterMatcher FilterParser.

Definition is_blank (c : ascii) : bool := Ascii.eqb c " " || Ascii.eqb c tab.

Section Rules.
Context `{UnicodeLib} `{RegexpLib} `{FileLib}.

(** ** Parsing rules *)

(** A rules parser: the rules read so far, in reading order, and the
    position ([tableRulesParser], [columnRulesParser]).
    src/internal/table-filter/parser.go:27-30 tableRulesParser *)
Record rulesParser (R : Type) := mkParser { prules : list R; ppos : position }.
Arguments mkParser {_} _ _.
Arguments prules {_} _.
Arguments ppos {_} _.

(** The lines of an imported file, parsed without import rights; the line
    number counts up and the position of the caller is restored.
    src/internal/table-filter/parser.go:299-324 importFile *)
Fixpoint import_lines {R} (parseLine : rulesParser R -> string -> result (rulesParser R))
    (p : rulesParser R) (lines : list string) : result (rulesParser R) :=
  match lines with
  | [] => Ok p
  | l :: lines' =>
      p' ← parseLine p l;
      import_lines parseLine
        (mkParser (prules p') (mkPosition (fileName (ppos p')) (i64 (lineNum (ppos p') + 1)))) lines'
  end.

(** src/internal/table-filter/parser.go:299-324 importFile *)
Definition importFile {R} (parseLine : rulesParser R -> string -> result (rulesParser R))
    (p : rulesParser R) (file : string) : result (rulesParser R) :=
  match open_lines file with
  | Err e => annotatef (ppos p) e "cannot open filter file" []
  | Ok (lines, scanErr) =>
      p' ← import_lines parseLine (mkParser (prules p) (mkPosition file 1)) lines;
      let p'' := mkParser (prules p') (ppos p) in
      match scanErr with
      | Some e => annotatef (ppos p'') e "cannot read filter file" []
      | None => Ok p''
      end
  end.

(** The common head of both [parse] methods: white space, comments, the
    negation mark and imports; [rule] parses what is left of a rule line. *)
Definition parse_line {R} (onImport : rulesParser R -> string -> result (rulesParser R))
    (rule : position -> bool -> string -> result R)
    (p : rulesParser R) (line : string) : result (rulesParser R) :=
  let line := trim is_blank line in
  match line with
  | EmptyString => Ok p
  | String c rest =>
      if Ascii.eqb c "#" then Ok p
      else if Ascii.eqb c "@" then onImport p rest
      else
        let '(positive, line) :=
          if Ascii.eqb c "!" then (false, rest) else (true, line) in
        r ← rule (ppos p) positive line;
        Ok (mkParser (prules p ++ [r]) (ppos p))
  end.

Definition no_import {R} (p : rulesParser R) (_ : string) : result (rulesParser R) :=
  errorf (ppos p) "importing filter files recursively is not allowed" [].

(** src/internal/table-filter/parser.go:54-79 tableRulesParser.parse *)
Definition table_rule (p : position) (positive : bool) (line : string) : result tableRule :=
  '(sm, line) ← parsePattern p line true;
  match line with
  | EmptyString => errorf p "wrong table pattern" []
  | String c rest =>
      if negb (Ascii.eqb c ".") then
        errorf p "syntax error: missing '.' between schema and table patterns" []
      else
        '(tm, line) ← parsePattern p rest true;
        if negb (slen line =? 0) then
          errorf p "syntax error: stray characters after table pattern" []
        else Ok (mkTableRule sm tm positive)
  end.

(** src/internal/table-filter/parser.go:108-124 columnRulesParser.parse *)
Definition column_rule (p : position) (positive : bool) (line : string) : result columnRule :=
  '(cm, line) ← parsePattern p line false;
  if negb (slen line =? 0) then
    errorf p "syntax error: stray characters after column pattern" []
  else match matcher_toLower cm with
       | Some cm' => Ok (mkColumnRule cm' positive)
       | None => Err (EForeign "panic: regexp.MustCompile")
       end.

(** src/internal/table-filter/parser.go:32-81 tableRulesParser.parse *)
Definition table_parse (p : rulesParser tableRule) (line : string) (canImport : bool)
    : result (rulesParser tableRule) :=
  parse_line (if canImport then importFile (parse_line no_import table_rule) else no_import)
    table_rule p line.

(** src/internal/table-filter/parser.go:88-126 columnRulesParser.parse *)
Definition column_parse (p : rulesParser columnRule) (line : string) (canImport : bool)
    : result (rulesParser columnRule) :=
  parse_line (if canImport then importFile (parse_line no_import column_rule) else no_import)
    column_rule p line.

Fixpoint parse_args {R} (parse : rulesParser R -> string -> bool -> result (rulesParser R))
    (p : rulesParser R) (args : list string) : result (rulesParser R) :=
  match args with
  | [] => Ok p
  | a :: args' => p' ← parse p a true; parse_args parse p' args'
  end.

(** ** Filters *)

(** The implementations of the [Filter] interface.
    src/internal/table-filter/table_filter.go:22-33 Filter *)
Inductive Filter :=
  | tableFilter (rules : list tableRule)
  | loweredFilter (wrapped : Filter)
  | allFilter
  | schemasFilter (schemas : gset string)
  | tablesFilter (schemas : gmap string (gset string))
  | bothFilter (a b : Filter).

(** src/internal/table-filter/table_filter.go:35-55 Parse *)
Definition Parse (args : list string) : result Filter :=
  p ← parse_args table_parse (mkParser [] (mkPosition "<cmdline>" 1)) args;
  Ok (tableFilter (reverse (prules p))).

(** src/internal/table-filter/table_filter.go:63-71 tableFilter.MatchTable *)
Fixpoint rules_MatchTable (f : list tableRule) (schema table : string) : bool :=
  match f with
  | [] => false
  | rule :: f' =>
      if matchString (rschema rule) schema && matchString (rtable rule) table
      then rpositive rule
      else rules_MatchTable f' schema table
  end.

(** src/internal/table-filter/table_filter.go:73-81 tableFilter.MatchSchema *)
Fixpoint rules_MatchSchema (f : list tableRule) (schema : string) : bool :=
  match f with
  | [] => false
  | rule :: f' =>
      if matchString (rschema rule) schema &&
         (rpositive rule || matchAllStrings (rtable rule))
      then rpositive rule
      else rules_MatchSchema f' schema
  end.

(** src/internal/table-filter/compat.go:93-100 schemasFilter.MatchSchema *)
Definition schemas_Match (schemas : gset string) (schema : string) : bool :=
  bool_decide (schema ∈ schemas).

(** src/internal/table-filter/compat.go:123-130 tablesFilter.MatchTable *)
Definition tables_MatchTable (schemas : gmap string (gset string)) (schema table : string)
    : bool :=
  match schemas !! schema with
  | None => false
  | Some t => bool_decide (table ∈ t)
  end.

(** src/internal/table-filter/compat.go:132-135 tablesFilter.MatchSchema *)
Definition tables_MatchSchema (schemas : gmap string (gset string)) (schema : string) : bool :=
  match schemas !! schema with Some _ => true | None => false end.

(** src/internal/table-filter/table_filter.go:95-128 Filter.MatchTable *)
Fixpoint MatchTable (f : Filter) (schema table : string) : bool :=
  match f with
  | tableFilter rules => rules_MatchTable rules schema table
  | loweredFilter w => MatchTable w (ToLower schema) (ToLower table)
  | allFilter => true
  | schemasFilter schemas => schemas_Match schemas schema
  | tablesFilter schemas => tables_MatchTable schemas schema table
  | bothFilter a b => MatchTable a schema table && MatchTable b schema table
  end.

(** src/internal/table-filter/compat.go:167-179 Filter.MatchSchema *)
Fixpoint MatchSchema (f : Filter) (schema : string) : bool :=
  match f with
  | tableFilter rules => rules_MatchSchema rules schema
  | loweredFilter w => MatchSchema w (ToLower schema)
  | allFilter => true
  | schemasFilter schemas => schemas_Match schemas schema
  | tablesFilter schemas => tables_MatchSchema schemas schema
  | bothFilter a b => MatchSchema a schema && MatchSchema b schema
  end.

(** ** Case-insensitive filters *)

(** src/internal/table-filter/table_filter.go:83-93 tableFilter.toLower *)
Fixpoint rules_toLower (f : list tableRule) : option (list tableRule) :=
  match f with
  | [] => Some []
  | r :: f' =>
      sm ← matcher_toLower (rschema r);
      tm ← matcher_toLower (rtable r);
      rest ← rules_toLower f';
      Some (mkTableRule sm tm (rpositive r) :: rest)
  end.

(** src/internal/table-filter/compat.go:102-108 schemasFilter.toLower *)
Definition schemas_toLower (schemas : gset string) : gset string := set_map ToLower schemas.

(** The tables of every schema are merged under the lowered schema name, in
    whatever order the map is iterated.
    src/internal/table-filter/compat.go:139-149 tablesFilter.toLower *)
Definition tables_toLower_step (schema : string) (tables : gset string)
    (lowered : gmap string (gset string)) : gmap string (gset string) :=
  <[ToLower schema := default ∅ (lowered !! ToLower schema) ∪ set_map ToLower tables]> lowered.

(** src/internal/table-filter/compat.go:137-151 tablesFilter.toLower *)
Definition tables_toLower (schemas : gmap string (gset string)) : gmap string (gset string) :=
  map_fold tables_toLower_step ∅ schemas.

(** src/internal/table-filter/table_filter.go:107-109 Filter.toLower *)
Fixpoint toLower (f : Filter) : option Filter :=
  match f with
  | tableFilter rules => tableFilter <$> rules_toLower rules
  | loweredFilter w => Some (loweredFilter w)
  | allFilter => Some allFilter
  | schemasFilter schemas => Some (schemasFilter (schemas_toLower schemas))
  | tablesFilter schemas => Some (tablesFilter (tables_toLower schemas))
  | bothFilter a b => a' ← toLower a; b' ← toLower b; Some (bothFilter a' b')
  end.

(** src/internal/table-filter/table_filter.go:57-61 CaseInsensitive *)
Definition CaseInsensitive (f : Filter) : option Filter := loweredFilter <$> toLower f.

(** ** Constructors and column filters *)

(** src/internal/table-filter/compat.go:24-30 Table *)
Record Table := mkTable { Schema : string; TName : string }.

(** Go compares strings byte by byte.
    src/internal/table-filter/compat.go:33-35 Table.lessThan *)
Definition lessThan (t u : Table) : bool :=
  String.ltb (Schema t) (Schema u) || String.eqb (Schema t) (Schema u) && String.ltb (TName t) (TName u).

(** src/internal/table-filter/compat.go:38-43 Table.String *)
Definition Table_String (t : Table) : string :=
  let quoted s := str1 bquote +:+ s +:+ str1 bquote in
  if 0 <? slen (TName t) then quoted (Schema t) +:+ "." +:+ quoted (TName t) else quoted (Schema t).

(** src/internal/table-filter/compat.go:46-51 Table.Clone *)
Definition Clone (t : Table) : Table := mkTable (Schema t) (TName t).

(** src/internal/table-filter/compat.go:110-117 NewSchemasFilter *)
Definition NewSchemasFilter (schemas : list string) : Filter :=
  schemasFilter (list_to_set schemas).

(** One iteration of [NewTablesFilter].
    src/internal/table-filter/compat.go:156-163 NewTablesFilter *)
Definition add_table (schemas : gmap string (gset string)) (t : Table)
    : gmap string (gset string) :=
  <[Schema t := default ∅ (schemas !! Schema t) ∪ {[TName t]}]> schemas.

(** src/internal/table-filter/compat.go:153-165 NewTablesFilter *)
Definition NewTablesFilter (tables : list Table) : Filter :=
  tablesFilter (foldl add_table ∅ tables).

(** src/internal/table-filter/column_filter.go:31-52 ParseColumnFilter *)
Definition ParseColumnFilter (args : list string) : result (list columnRule) :=
  p ← parse_args column_parse (mkParser [] (mkPosition "<cmdline>" 1)) args;
  Ok (reverse (prules p)).

(** src/internal/table-filter/column_filter.go:60-65 columnFilter.MatchColumn *)
Fixpoint columns_match (f : list columnRule) (lowered : string) : bool :=
  match f with
  | [] => false
  | r :: f' => if matchString (rcolumn r) lowered then cpositive r else columns_match f' lowered
  end.

(** src/internal/table-filter/column_filter.go:54-66 columnFilter.MatchColumn *)
Definition MatchColumn (f : list columnRule) (column : string) : bool :=
  columns_match f (ToLower column).

(** ** MySQL replication rules (compat.go) *)

(** src/internal/table-filter/compat.go:53-64 MySQLReplicationRules *)
Record MySQLReplicationRules := {
  DoTables : list Table;
  DoDBs : list string;
  IgnoreTables : list Table;
  IgnoreDBs : list string
}.

(** src/internal/table-filter/compat.go:66-87 MySQLReplicationRules.ToLower *)
Definition replication_ToLower (r : MySQLReplicationRules) : MySQLReplicationRules :=
  let lower_table t := mkTable (ToLower (Schema t)) (ToLower (TName t)) in
  {| DoTables := map lower_table (DoTables r);
     DoDBs := map ToLower (DoDBs r);
     IgnoreTables := map lower_table (IgnoreTables r);
     IgnoreDBs := map ToLower (IgnoreDBs r) |}.

(** [strings.NewReplacer]: at each byte the first old string, in argument
    order, that is a prefix of the rest is replaced. *)
Fixpoint first_replacement (pairs : list (string * string)) (s : string)
    : option (string * string) :=
  match pairs with
  | [] => None
  | (old, new) :: pairs' =>
      if has_prefix old s then Some (old, new) else first_replacement pairs' s
  end.

Fixpoint replacer_go (pairs : list (string * string)) (s : string) (skip : nat) : string :=
  match s with
  | EmptyString => EmptyString
  | String c s' =>
      match skip with
      | S k => replacer_go pairs s' k
      | O => match first_replacement pairs s with
             | Some (old, new) => new +:+ replacer_go pairs s' (Nat.pred (String.length old))
             | None => String c (replacer_go pairs s' O)
             end
      end
  end.

(** src/internal/table-filter/compat.go:188-194 legacyWildcardReplacer *)
Definition legacyWildcardReplacer : list (string * string) :=
  [("\*", ".*"); ("\?", "."); ("\[!", "[^"); ("\[", "["); ("\]", "]")].

(** [regexp.QuoteMeta]: a backslash before every metacharacter. *)
Fixpoint QuoteMeta (s : string) : string :=
  match s with
  | EmptyString => EmptyString
  | String c s' =>
      if contains_byte c "\.+*?()|[]{}^$" then String bslash (String c (QuoteMeta s'))
      else String c (QuoteMeta s')
  end.

(** src/internal/table-filter/compat.go:196-213 matcherFromLegacyPattern *)
Definition matcherFromLegacyPattern (pattern : string) : result matcher :=
  match pattern with
  | EmptyString => Err (EErrorf "pattern cannot be empty" [])
  | String c rest =>
      if Ascii.eqb c "~" then newRegexpMatcher rest
      else if negb (contains_any pattern "?*[") then Ok (stringMatcher pattern)
      else newRegexpMatcher
             ("(?s)^" +:+ replacer_go legacyWildcardReplacer (QuoteMeta pattern) O +:+ "$")
  end.

Definition all_rule : tableRule := mkTableRule trueMatcher trueMatcher true.

(** src/internal/table-filter/compat.go:215-284 ParseMySQLReplicationRules *)
Definition ParseMySQLReplicationRules (rules : option MySQLReplicationRules) : result Filter :=
  match rules with
  | None => Ok allFilter
  | Some rules =>
      let '(schemas, spos) :=
        match DoDBs rules with [] => (IgnoreDBs rules, false) | dbs => (dbs, true) end in
      schemaRules ← mapR (fun schema =>
        m ← matcherFromLegacyPattern schema; Ok (mkTableRule m trueMatcher spos)) schemas;
      let schemaRules := if (spos : bool) then schemaRules else schemaRules ++ [all_rule] in
      let '(tables, tpos) :=
        match DoTables rules with [] => (IgnoreTables rules, false) | ts => (ts, true) end in
      tableRules ← mapR (fun t =>
        sm ← matcherFromLegacyPattern (Schema t);
        tm ← matcherFromLegacyPattern (TName t);
        Ok (mkTableRule sm tm tpos)) tables;
      let tableRules := if (tpos : bool) then tableRules else tableRules ++ [all_rule] in
      Ok (bothFilter (tableFilter schemaRules) (tableFilter tableRules))
  end.
End Rules.

Arguments mkParser {_} _ _.
Arguments prules {_} _.
Arguments ppos {_} _.

(** ** Properties *)

Section FilterProperties.
Context `{UnicodeLib} `{RegexpLib} `{FileLib}.

(** The verdict of a rule list read top to bottom: the last rule that matches
    the table decides, and no rule at all rejects. *)
Definition rule_matches (r : tableRule) (s t : string) : bool :=
  matchString (rschema r) s && matchString (rtable r) t.

Definition last_verdict (rules : list tableRule) (s t : string) : bool :=
  foldl (fun acc r => if rule_matches r s t then rpositive r else acc) false rules.

Lemma rules_MatchTable_app l1 l2 s t :
  rules_MatchTable (l1 ++ l2) s t =
  if existsb (fun r => rule_matches r s t) l1 then rules_MatchTable l1 s t
  else rules_MatchTable l2 s t.
Proof.
  induction l1 as [|r l1 IH]; simpl; [done|]. unfold rule_matches at 1.
  destruct (matchString _ _ && _); simpl; auto.
Qed.

Lemma rules_MatchTable_reverse rules s t :
  rules_MatchTable (reverse rules) s t = last_verdict rules s t.
Proof.
  induction rules as [|r rules IH] using rev_ind; [done|].
  rewrite reverse_app. unfold last_verdict. rewrite foldl_app. simpl.
  fold (rule_matches r s t). destruct (rule_matches r s t); [done|]. exact IH.
Qed.

Lemma parse_args_app {R} (parse : rulesParser R -> string -> bool -> result (rulesParser R))
    p a b :
  parse_args parse p (a ++ b) = p' ← parse_args parse p a; parse_args parse p' b.
Proof.
  revert p. induction a as [|x a IH]; intros p; simpl; [done|].
  destruct (parse p x true); simpl; auto.
Qed.

(** C23: the parsed filter gives every table the verdict of the rules read in
    their order, where the last matching rule decides. *)
Theorem filter_last_rule_wins args p s t :
  parse_args table_parse (mkParser [] (mkPosition "<cmdline>" 1)) args = Ok p ->
  exists f, Parse args = Ok f /\ MatchTable f s t = last_verdict (prules p) s t.
Proof.
  intros Hp. unfold Parse. rewrite Hp. cbn. eexists; split; [done|].
  apply rules_MatchTable_reverse.
Qed.

(** A rule line that names a schema and a table in double quotes. *)
Definition quoted_rule (positive : bool) (s t : string) : string :=
  (if positive then EmptyString else "!") +:+ String dquote (double dquote s +:+
    String dquote (String "." (String dquote (double dquote t +:+ str1 dquote)))).

Lemma quoted_rule_shape positive s t :
  exists c m, (c = dquote \/ c = "!"%char) /\
    quoted_rule positive s t = String c (m +:+ str1 dquote).
Proof.
  exists (if positive then dquote else "!"%char).
  exists ((if positive then EmptyString else str1 dquote) +:+ double dquote s +:+
          String dquote (String "." (String dquote (double dquote t)))).
  split; [by destruct positive; [left|right]|].
  unfold quoted_rule. by destruct positive; simpl; rewrite !sapp_assoc.
Qed.

Lemma quoted_rule_trim positive s t :
  trim is_blank (quoted_rule positive s t) = quoted_rule positive s t.
Proof.
  destruct (quoted_rule_shape positive s t) as (c & m & Hc & ->).
  by destruct Hc as [-> | ->]; apply trim_noop.
Qed.

Lemma table_rule_quoted p positive s t :
  s <> EmptyString -> t <> EmptyString ->
  table_rule p positive (String dquote (double dquote s +:+
    String dquote (String "." (String dquote (double dquote t +:+ str1 dquote))))) =
  Ok (mkTableRule (stringMatcher s) (stringMatcher t) positive).
Proof.
  intros Hs Ht. unfold table_rule. rewrite parsePattern_quoted by auto.
  cbn [mbind result_bind]. rewrite Ascii.eqb_refl. cbn [negb].
  rewrite (parsePattern_quoted _ dquote t EmptyString) by auto. done.
Qed.

Lemma table_parse_quoted p positive s t canImport :
  s <> EmptyString -> t <> EmptyString ->
  table_parse p (quoted_rule positive s t) canImport =
  Ok (mkParser (prules p ++ [mkTableRule (stringMatcher s) (stringMatcher t) positive]) (ppos p)).
Proof.
  intros Hs Ht. unfold table_parse, parse_line. rewrite quoted_rule_trim.
  unfold quoted_rule. destruct positive; cbn [String.append].
  - change (Ascii.eqb dquote "#") with false. change (Ascii.eqb dquote "@") with false.
    change (Ascii.eqb dquote "!") with false. cbv iota beta zeta.
    by rewrite table_rule_quoted.
  - change (Ascii.eqb "!" "#") with false. change (Ascii.eqb "!" "@") with false.
    change (Ascii.eqb "!" "!") with true. cbv iota beta zeta.
    by rewrite table_rule_quoted.
Qed.

(** Adding a rule with a quoted schema and table name to any rule list
    changes the verdict for exactly that table, however odd the names are:
    quoting round-trips through the parser and the last rule wins. *)
Theorem filter_quoted_rule_overrides args f positive s t :
  s <> EmptyString -> t <> EmptyString -> Parse args = Ok f ->
  exists f', Parse (args ++ [quoted_rule positive s t]) = Ok f' /\
    forall s' t', MatchTable f' s' t' =
      if String.eqb s s' && String.eqb t t' then positive else MatchTable f s' t'.
Proof.
  intros Hs Ht Hf. unfold Parse in *. rewrite parse_args_app.
  destruct (parse_args table_parse _ args) as [p|e]; [|done]. cbn in Hf. injection Hf as <-.
  cbn [mbind result_bind parse_args]. rewrite table_parse_quoted by done.
  eexists; split; [done|]. intros s' t'. cbn [prules MatchTable].
  by rewrite reverse_app.
Qed.

Lemma MatchTable_schema f s t : MatchTable f s t = true -> MatchSchema f s = true.
Proof.
  revert s t. induction f as [rules|w IH| |schemas|schemas|a IHa b IHb]; intros s t; cbn.
  - induction rules as [|r rules IH]; simpl; [done|].
    destruct (matchString (rschema r) s); simpl; [|done].
    destruct (matchString (rtable r) t) eqn:Et; simpl.
    + by intros ->.
    + destruct (matchAllStrings (rtable r)) eqn:Ea.
      * by rewrite (matchAllStrings_spec _ t Ea) in Et.
      * rewrite orb_false_r. destruct (rpositive r); auto.
  - apply IH.
  - done.
  - done.
  - unfold tables_MatchTable, tables_MatchSchema. by destruct (schemas !! s).
  - rewrite !andb_true_iff. intros [Ha Hb]. eauto.
Qed.

(** C24: every filter the package can build is consistent between its two
    questions: a schema that holds an accepted table is itself accepted, so
    filtering schemas first loses no table. *)
Theorem filter_schema_of_table f s t : MatchTable f s t = true -> MatchSchema f s = true.
Proof. apply MatchTable_schema. Qed.

(** Membership in the nested maps of a tables filter. *)
Definition in_tables (m : gmap string (gset string)) (s t : string) : Prop :=
  exists ts, m !! s = Some ts /\ t ∈ ts.

(** The order of tables is total, and no table is before itself. *)
Lemma ltb_total s1 s2 : String.ltb s1 s2 = true \/ String.ltb s2 s1 = true \/ s1 = s2.
Proof.
  unfold String.ltb. destruct (String.compare s1 s2) eqn:E; [|by left|].
  - apply String.compare_eq_iff in E. by auto.
  - rewrite String.compare_antisym, E. by auto.
Qed.

Lemma ltb_irrefl s : String.ltb s s = false.
Proof. unfold String.ltb. pose proof (String.compare_antisym s s) as E. by destruct (String.compare s s). Qed.

Lemma lessThan_irrefl t : lessThan t t = false.
Proof. unfold lessThan. by rewrite !ltb_irrefl, andb_false_r. Qed.

Lemma lessThan_total t u : lessThan t u = true \/ lessThan u t = true \/ t = u.
Proof.
  destruct t as [s1 n1], u as [s2 n2]. unfold lessThan. cbn [Schema TName].
  destruct (ltb_total s1 s2) as [-> |[-> | ->]]; [by auto..|]. rewrite String.eqb_refl.
  destruct (ltb_total n1 n2) as [-> |[-> | ->]]; rewrite ?orb_true_r; by auto.
Qed.

Lemma tables_MatchTable_spec m s t : tables_MatchTable m s t = true <-> in_tables m s t.
Proof.
  unfold tables_MatchTable, in_tables. destruct (m !! s) as [ts|].
  - rewrite bool_decide_eq_true. naive_solver.
  - naive_solver.
Qed.

Lemma add_table_spec m x s t :
  in_tables (add_table m x) s t <-> (s = Schema x /\ t = TName x) \/ in_tables m s t.
Proof.
  unfold in_tables, add_table. destruct (decide (s = Schema x)) as [->|Hne].
  - setoid_rewrite lookup_insert_eq. split.
    + intros (ts & [= <-] & Ht). destruct (m !! Schema x) as [ts0|] eqn:E; simpl in *; set_solver.
    + intros [[_ ->] | (ts & E & Ht)]; (eexists; split; [done|]); [set_solver|].
      rewrite E. simpl. set_solver.
  - setoid_rewrite lookup_insert_ne; [|done]. naive_solver.
Qed.

Lemma foldl_add_table_spec ts m s t :
  in_tables (foldl add_table m ts) s t <-> mkTable s t ∈ ts \/ in_tables m s t.
Proof.
  revert m. induction ts as [|x ts IH]; intros m; simpl.
  - set_solver.
  - rewrite IH, add_table_spec, elem_of_cons. destruct x as [xs xt]; simpl. naive_solver.
Qed.

Lemma tables_toLower_step_spec i x r s t :
  in_tables (tables_toLower_step i x r) s t <->
  (ToLower i = s /\ exists t0, t0 ∈ x /\ ToLower t0 = t) \/ in_tables r s t.
Proof.
  unfold in_tables, tables_toLower_step. destruct (decide (s = ToLower i)) as [->|Hne].
  - setoid_rewrite lookup_insert_eq. split.
    + intros (ts & [= <-] & Ht). destruct (r !! ToLower i) as [ts0|] eqn:E; simpl in *; set_solver.
    + intros [[_ (t0 & Ht0 & <-)] | (ts & E & Ht)]; (eexists; split; [done|]); [set_solver|].
      rewrite E. simpl. set_solver.
  - setoid_rewrite lookup_insert_ne; [|done]. naive_solver.
Qed.

Lemma tables_toLower_spec m s t :
  in_tables (tables_toLower m) s t <->
  exists s0 t0, in_tables m s0 t0 /\ ToLower s0 = s /\ ToLower t0 = t.
Proof.
  unfold tables_toLower. revert s t.
  apply (map_fold_weak_ind (fun r m => forall s t, in_tables r s t <->
    exists s0 t0, in_tables m s0 t0 /\ ToLower s0 = s /\ ToLower t0 = t)); clear m.
  - intros s t. unfold in_tables. setoid_rewrite lookup_empty. naive_solver.
  - intros i x m r Hi IH s t. rewrite tables_toLower_step_spec, IH. unfold in_tables. split.
    + intros [[<- (t0 & Ht0 & <-)] | (s0 & t0 & (ts & Hs0 & Ht0) & <- & <-)].
      * exists i, t0. split; [|done]. exists x. by rewrite lookup_insert_eq.
      * exists s0, t0. split; [|done]. exists ts. rewrite lookup_insert_ne; [done|congruence].
    + intros (s0 & t0 & (ts & Hs0 & Ht0) & <- & <-).
      destruct (decide (s0 = i)) as [->|Hne].
      * rewrite lookup_insert_eq in Hs0. injection Hs0 as ->. left. eauto.
      * rewrite lookup_insert_ne in Hs0 by done. right. eauto 10.
Qed.

(** The case-insensitive version of a table list accepts a table exactly
    when some listed table has the same schema and name up to case; building
    it never fails. *)
Lemma tables_list_case_insensitive ts :
  exists f, CaseInsensitive (NewTablesFilter ts) = Some f /\
    forall s t, MatchTable f s t = true <->
      exists x, x ∈ ts /\ ToLower (Schema x) = ToLower s /\ ToLower (TName x) = ToLower t.
Proof.
  eexists; split; [done|]. intros s t. cbn [MatchTable].
  rewrite tables_MatchTable_spec, tables_toLower_spec.
  setoid_rewrite foldl_add_table_spec. split.
  - intros (s0 & t0 & [Hin|(ts0 & E & _)] & Es & Et); [|by rewrite lookup_empty in E].
    by exists (mkTable s0 t0).
  - intros ([s0 t0] & Hin & Es & Et). exists s0, t0. auto.
Qed.
End FilterProperties.

(** ** Witnesses *)

(** An engine with no regular expressions, an empty file system and ASCII
    case tables, to run the filters on concrete rules. *)
#[local] Instance test_unicode : UnicodeLib :=
  {| unicode_to_lower := id; unicode_trim_space := id |}.
#[local] Instance test_regexp : RegexpLib :=
  {| regexp := string; regexp_Compile := Ok; regexp_MatchString := fun _ _ => false;
     regexp_String := id |}.
#[local] Instance test_files : FileLib :=
  {| open_lines := fun _ => Err (EForeign "no such file") |}.

Lemma filter_last_rule_wins_witness :
  exists f, Parse ["public.*"; "# comment"; "!public.secret"; "a.b"] = Ok f /\
            MatchTable f "public" "secret" = false.
Proof.
  destruct (filter_last_rule_wins ["public.*"; "# comment"; "!public.secret"; "a.b"] _
              "public" "secret" eq_refl) as (f & Hf & Hm).
  exists f. split; [exact Hf|]. rewrite Hm. vm_compute. reflexivity.
Defined.

Lemma filter_quoted_rule_overrides_witness :
  exists f', Parse (["public.t"] ++ [quoted_rule true "we.ird" "a b"]) = Ok f' /\
    forall s' t', MatchTable f' s' t' =
      if String.eqb "we.ird" s' && String.eqb "a b" t' then true
      else MatchTable (tableFilter [mkTableRule (stringMatcher "public") (stringMatcher "t") true]) s' t'.
Proof.
  eapply (filter_quoted_rule_overrides ["public.t"]); [done|done|]. vm_compute. reflexivity.
Defined.

Lemma filter_schema_of_table_witness :
  MatchSchema (tableFilter [mkTableRule (stringMatcher "s") trueMatcher true]) "s" = true.
Proof. apply (filter_schema_of_table _ "s" "t"). vm_compute. reflexivity. Defined.
