(* ===== verification/FileNames.v ===== *)
(** * Output file names (export/prepare.go, export/writer.go)

    The file-name escape of the templates, the default template, the file
    namer and the suffixes.  The main theorem says that no two output files
    of a dump share a path. *)

From S2P Require Import Prelude GoStrings.

(** ** The escape function [fn] of the templates *)

(** The first alternative of the regular expression: control bytes and the
    bytes with a meaning in file names or in the naming scheme. *)
Definition escape_class (c : ascii) : bool :=
  (byte_of c <? 32) || Ascii.eqb c dquote || contains_byte c "%*./:<>?\|".

(** The second alternative, [-(?i:schema)]: case folding of the letter s also
    accepts the long s, U+017F, whose UTF-8 bytes are 197 and 191. *)
Definition fold_eq (letter c : ascii) : bool := Ascii.eqb (lower_byte c) letter.

Fixpoint match_fold (letters s : string) : bool :=
  match letters, s with
  | EmptyString, _ => true
  | String l ls, String c s' => fold_eq l c && match_fold ls s'
  | String _ _, EmptyString => false
  end.

Definition is_schema (s : string) : bool :=
  match s with
  | String x s' =>
      if fold_eq "s" x then match_fold "chema" s'
      else match s' with
           | String y s'' => (byte_of x =? 197) && (byte_of y =? 191) && match_fold "chema" s''
           | EmptyString => false
           end
  | EmptyString => false
  end.

Definition percent (c : ascii) : string := String "%" (hex_byte true c).

(** The escape function [fn].  Of a match of the second alternative only the
    hyphen is rewritten; none of its other bytes starts a match, so the scan goes on after it.
    src/export/prepare.go:65-75 fn *)
Fixpoint fn (s : string) : string :=
  match s with
  | EmptyString => EmptyString
  | String c s' =>
      if escape_class c || (Ascii.eqb c "-" && is_schema s')
      then percent c +:+ fn s'
      else String c (fn s')
  end.

(** ** The namer *)

(** The three index formats of [newOutputFileNamer]; [fmt_none] is the zero
    value of the namers that name no data file. *)
Inductive index_format := fmt_none | fmt_chunk_file | fmt_file | fmt_chunk.

(** src/export/writer.go:297-304 outputFileNamer *)
Record outputFileNamer := mkNamer {
  nChunkIndex : Z;
  nFileIndex : Z;
  nPolicy : string;
  nDB : string;
  nTable : string;
  nformat : index_format
}.

(** src/export/writer.go:340-342 outputFileNamer.Index *)
Definition Index (n : outputFileNamer) : string :=
  match nformat n with
  | fmt_chunk_file => fmt_0d 9 (nChunkIndex n) +:+ fmt_0d 4 (nFileIndex n)
  | fmt_file => fmt_0d 9 (nFileIndex n)
  | fmt_chunk => fmt_0d 9 (nChunkIndex n)
  | fmt_none => EmptyString
  end.

(** A template set: the text a named template renders for a namer.  Custom
    templates (--output-filename-template) are arbitrary values of it. *)
Definition template := string -> outputFileNamer -> result string.

Definition objectName (n : outputFileNamer) : string := fn (nDB n) +:+ "." +:+ fn (nTable n).

(** src/export/prepare.go:16-58 DefaultOutputFileTemplate *)
Definition DefaultOutputFileTemplate : template := fun sub n =>
  if one_of sub ["schema"] then Ok (fn (nDB n) +:+ "-schema-create")
  else if one_of sub ["event"; "function"; "procedure"] then Ok (objectName n +:+ "-schema-post")
  else if one_of sub ["sequence"] then Ok (objectName n +:+ "-schema-sequence")
  else if one_of sub ["trigger"] then Ok (objectName n +:+ "-schema-triggers")
  else if one_of sub ["view"] then Ok (objectName n +:+ "-schema-view")
  else if one_of sub ["table"] then Ok (objectName n +:+ "-schema")
  else if one_of sub ["data"] then Ok (objectName n +:+ "." +:+ Index n)
  else if one_of sub ["placement-policy"] then Ok (fn (nPolicy n) +:+ "-placement-policy-create")
  else if one_of sub ["objectName"] then Ok (objectName n)
  else Err (EForeign "template: no such template").

(** src/export/prepare.go:60-61 DefaultAnonymousOutputFileTemplateText *)
Definition AnonymousOutputFileTemplate : template := fun sub n =>
  if one_of sub ["data"] then Ok ("result." +:+ Index n) else DefaultOutputFileTemplate sub n.

(** src/export/writer.go:332-338 outputFileNamer.render *)
Definition render (tmpl : template) (sub : string) (n : outputFileNamer) : result string :=
  tmpl sub n.

(** src/export/writer.go:314-330 newOutputFileNamer *)
Definition newOutputFileNamer (db table : string) (chunkIdx : Z) (rows fileSize : bool)
    : outputFileNamer :=
  mkNamer chunkIdx 0 EmptyString db table
    (if rows && fileSize then fmt_chunk_file else if fileSize then fmt_file else fmt_chunk).

(** The name for the current file index, and the namer moved to the next one.
    src/export/writer.go:344-348 outputFileNamer.NextName *)
Definition NextName (tmpl : template) (fileType : string) (n : outputFileNamer)
    : result string * outputFileNamer :=
  (res ← render tmpl "data" n; Ok (res +:+ "." +:+ fileType),
   mkNamer (nChunkIndex n) (i64 (nFileIndex n + 1)) (nPolicy n) (nDB n) (nTable n) (nformat n)).

(** ** Formats and compression *)

(** src/export/writer_util.go:601-611 FileFormat *)
Inductive FileFormat := FileFormatUnknown | FileFormatSQLText | FileFormatCSV.

(** src/export/writer_util.go:620-630 FileFormat.String *)
Definition FileFormat_String (f : FileFormat) : string :=
  match f with
  | FileFormatSQLText => "SQL"
  | FileFormatCSV => "CSV"
  | FileFormatUnknown => "unknown"
  end.

(** src/export/writer_util.go:632-645 FileFormat.Extension *)
Definition Extension (f : FileFormat) : string :=
  match f with
  | FileFormatSQLText => "sql"
  | FileFormatCSV => "csv"
  | FileFormatUnknown => "unknown_format"
  end.

(** The compression types of the storage library. *)
Inductive CompressType := NoCompression | Gzip | Snappy | Zstd.

(** src/export/writer_util.go:586-599 compressFileSuffix *)
Definition compressFileSuffix (c : CompressType) : string :=
  match c with
  | NoCompression => EmptyString
  | Gzip => ".gz"
  | Snappy => ".snappy"
  | Zstd => ".zst"
  end.

(** src/export/config.go:735-749 ParseCompressType *)
Definition ParseCompressType (s : string) : result CompressType :=
  if one_of s [EmptyString; "no-compression"] then Ok NoCompression
  else if one_of s ["gzip"; "gz"] then Ok Gzip
  else if one_of s ["snappy"] then Ok Snappy
  else if one_of s ["zstd"; "zst"] then Ok Zstd
  else Err (EErrorf "unknown compress type %s" [AStr s]).

(** ** The paths of a dump's files *)

(** What decides the names of a dump with the default template: [dataExt] is
    the extension of the file format, [withRows] and [withFileSize] say that
    --rows and --filesize are set. *)
Record naming := mkNaming {
  dataExt : FileFormat;
  withRows : bool;
  withFileSize : bool;
  compression : CompressType
}.

(** The name that [buildFileWriter] and [buildInterceptFileWriter] create.
    src/export/writer_util.go:451-453 buildFileWriter *)
Definition storage_name (c : CompressType) (fileName : string) : string :=
  fileName +:+ compressFileSuffix c.

(** The path of a metadata file: template [sub] rendered for the namer.
    src/export/writer.go:141-149 WriteTableMeta *)
Definition meta_path (tmpl : template) (c : CompressType) (sub : string) (n : outputFileNamer)
    : result string :=
  fileName ← render tmpl sub n; Ok (storage_name c (fileName +:+ ".sql")).

Definition object_namer (db table : string) : outputFileNamer :=
  mkNamer 0 0 EmptyString db table fmt_none.

(** The files of a dump. *)
Inductive output_file :=
  | OMetadata
  | OPolicy (policy : string)
  | OSchema (db : string)
  | OTable (db table : string)
  | OView (db view : string)
  | OSequence (db sequence : string)
  | OData (db table : string) (chunk file : Z).

Definition out_path (tmpl : template) (nm : naming) (o : output_file) : result string :=
  let meta := meta_path tmpl (compression nm) in
  match o with
  | OMetadata => Ok "metadata"
  | OPolicy p => meta "placement-policy" (mkNamer 0 0 p EmptyString EmptyString fmt_none)
  | OSchema db => meta "schema" (object_namer db EmptyString)
  | OTable db t => meta "table" (object_namer db t)
  | OView db t => meta "view" (object_namer db t)
  | OSequence db t => meta "sequence" (object_namer db t)
  | OData db t chunk file =>
      let n := newOutputFileNamer db t chunk (withRows nm) (withFileSize nm) in
      name ← fst (NextName tmpl (Extension (dataExt nm))
               (mkNamer (nChunkIndex n) file (nPolicy n) (nDB n) (nTable n) (nformat n)));
      Ok (storage_name (compression nm) name)
  end.

(** The indexes a dump uses: without --rows a table is one chunk, without
    --filesize a chunk is one file, and the nine digits of a chunk index are
    not exceeded. *)
Definition valid_output (nm : naming) (o : output_file) : Prop :=
  match o with
  | OData _ _ chunk file =>
      0 <= chunk < 10 ^ 9 /\ 0 <= file /\
      (withRows nm = false -> chunk = 0) /\ (withFileSize nm = false -> file = 0)
  | _ => True
  end.

(** ** The escape is injective and clears the bytes the naming scheme uses *)

(** What undoes the escape: a percent sign and two hexadecimal digits. *)
Fixpoint unfn (s : string) : option string :=
  match s with
  | EmptyString => Some EmptyString
  | String c s' =>
      if Ascii.eqb c "%" then
        match s' with
        | String a (String b r) =>
            match hex_val a, hex_val b, unfn r with
            | Some h, Some l, Some v => Some (String (ascii_of_N (16 * h + l)) v)
            | _, _, _ => None
            end
        | _ => None
        end
      else v ← unfn s'; Some (String c v)
  end.

Lemma percent_class : escape_class "%" = true.
Proof. done. Qed.

Lemma unfn_percent c r : unfn (percent c +:+ r) = v ← unfn r; Some (String c v).
Proof.
  unfold percent, hex_byte. cbn [String.append str1 unfn]. rewrite Ascii.eqb_refl.
  by destruct c as [[][][][][][][][]]; destruct (unfn r).
Qed.

Lemma unfn_fn s : unfn (fn s) = Some s.
Proof.
  induction s as [|c s IH]; [done|]. cbn [fn].
  destruct (escape_class c || _) eqn:E.
  - by rewrite unfn_percent, IH.
  - cbn [unfn]. destruct (Ascii.eqb_spec c "%") as [->|_]; [done|]. by rewrite IH.
Qed.

Lemma fn_inj s1 s2 : fn s1 = fn s2 -> s1 = s2.
Proof. intros H. pose proof (unfn_fn s1) as H1. rewrite H, unfn_fn in H1. congruence. Qed.

Definition plain_byte (c : ascii) : bool := Ascii.eqb c "%" || negb (escape_class c).

Lemma percent_plain c : sall plain_byte (percent c) = true.
Proof. by destruct c as [[][][][][][][][]]. Qed.

Lemma fn_plain s : sall plain_byte (fn s) = true.
Proof.
  induction s as [|c s IH]; [done|]. cbn [fn]. destruct (escape_class c || _) eqn:E.
  - by rewrite sall_app, percent_plain, IH.
  - cbn [sall]. rewrite IH. apply orb_false_iff in E as [E _]. unfold plain_byte.
    by rewrite E, orb_true_r.
Qed.

Lemma fn_no_dot s : contains_byte "." (fn s) = false.
Proof. apply (sall_contains plain_byte); [done|apply fn_plain]. Qed.

Lemma fn_head s c r : fn s = String c r -> c <> "%"%char -> exists s', s = String c s' /\ r = fn s'.
Proof.
  destruct s as [|x s']; cbn [fn]; [done|]. destruct (escape_class x || _).
  - intros [= <- _]. done.
  - intros [= <- <-] _. eauto.
Qed.

Lemma fold_percent l : l <> "%"%char -> fold_eq l "%" = false.
Proof. intros H. unfold fold_eq. apply Ascii.eqb_neq. by intros <-. Qed.

Lemma match_fold_fn ls s :
  contains_byte "%" ls = false -> match_fold ls (fn s) = true -> match_fold ls s = true.
Proof.
  revert s. induction ls as [|l ls IH]; intros s; [by destruct s|]. simpl.
  intros [Hl Hls]%orb_false_iff. apply Ascii.eqb_neq in Hl.
  destruct (fn s) as [|c r] eqn:E; [done|]. intros [Hc Hr]%andb_true_iff.
  apply fn_head in E as (s' & -> & ->).
  - rewrite Hc. simpl. auto.
  - intros ->. by rewrite fold_percent in Hc.
Qed.

Lemma is_schema_fn s : is_schema (fn s) = true -> is_schema s = true.
Proof.
  unfold is_schema. destruct (fn s) as [|x r] eqn:E; [done|].
  destruct (fold_eq "s" x) eqn:Ex.
  - apply fn_head in E as (s' & -> & ->); [|by intros ->]. rewrite Ex. by apply match_fold_fn.
  - destruct r as [|y r]; [done|]. intros [[Hx Hy]%andb_true_iff Hm]%andb_true_iff.
    apply fn_head in E as (s' & -> & E); [|by intros ->]. rewrite Ex. symmetry in E.
    apply fn_head in E as (s'' & -> & ->); [|by intros ->]. rewrite Hx, Hy. by apply match_fold_fn.
Qed.

(** No escaped name holds the marker that separates names from kinds. *)
Lemma fn_no_schema s a b : fn s = a +:+ String "-" b -> is_schema b = false.
Proof.
  revert a. induction s as [|c s IH]; intros a; [by destruct a|]. cbn [fn].
  destruct (escape_class c || _) eqn:E.
  - destruct a as [|x [|y [|z a]]]; cbn [String.append percent hex_byte str1].
    + done.
    + intros [= _ H _]. by destruct c as [[][][][][][][][]].
    + intros [= _ _ H _]. by destruct c as [[][][][][][][][]].
    + intros [= _ _ _ H]. eauto.
  - destruct a as [|x a]; cbn [String.append].
    + intros [= -> <-]. rewrite orb_comm in E. cbn in E. rewrite orb_false_r in E.
      destruct (is_schema (fn s)) eqn:Es; [|done]. apply is_schema_fn in Es. congruence.
    + intros [= _ H]. eauto.
Qed.

(** ** No two output files share a path *)

(** The path of a file, without the compression suffix. *)
Definition base_path (nm : naming) (o : output_file) : string :=
  match o with
  | OMetadata => "metadata"
  | OPolicy p => fn p +:+ "-placement-policy-create" +:+ ".sql"
  | OSchema db => fn db +:+ "-schema-create" +:+ ".sql"
  | OTable db t => fn db +:+ "." +:+ fn t +:+ "-schema" +:+ ".sql"
  | OView db t => fn db +:+ "." +:+ fn t +:+ "-schema-view" +:+ ".sql"
  | OSequence db t => fn db +:+ "." +:+ fn t +:+ "-schema-sequence" +:+ ".sql"
  | OData db t chunk file =>
      let n := newOutputFileNamer db t chunk (withRows nm) (withFileSize nm) in
      fn db +:+ "." +:+ fn t +:+ "." +:+
      Index (mkNamer chunk file (nPolicy n) db t (nformat n)) +:+ "." +:+
      Extension (dataExt nm)
  end.

Lemma out_path_base nm o :
  o <> OMetadata ->
  out_path DefaultOutputFileTemplate nm o =
  Ok (base_path nm o +:+ compressFileSuffix (compression nm)).
Proof.
  intros Ho. destruct o; [done|..]; cbn; unfold storage_name, objectName; cbn;
    by do 3 (rewrite ?sapp_assoc; cbn).
Qed.

Lemma index_digits nm chunk file db t :
  0 <= chunk -> 0 <= file ->
  sall is_digit (Index (mkNamer chunk file EmptyString db t
    (nformat (newOutputFileNamer db t chunk (withRows nm) (withFileSize nm))))) = true.
Proof.
  intros Hc Hf. unfold newOutputFileNamer, Index. cbn [nformat nChunkIndex nFileIndex].
  destruct (withRows nm), (withFileSize nm); cbn; rewrite ?sall_app, ?fmt_0d_digits; done.
Qed.

Lemma digits_no_dot s : sall is_digit s = true -> contains_byte "." s = false.
Proof. by apply sall_contains. Qed.

(** The part of a base path before the first dot, and after it. *)
Definition head_of (o : output_file) : string :=
  match o with
  | OMetadata => EmptyString
  | OPolicy p => fn p +:+ "-placement-policy-create"
  | OSchema db => fn db +:+ "-schema-create"
  | OTable db _ | OView db _ | OSequence db _ | OData db _ _ _ => fn db
  end.

(** The part of an object's path between the dot after the schema and the
    next one. *)
Definition object_of (o : output_file) : string :=
  match o with
  | OTable _ t => fn t +:+ "-schema"
  | OView _ t => fn t +:+ "-schema-view"
  | OSequence _ t => fn t +:+ "-schema-sequence"
  | OData _ t _ _ => fn t
  | _ => EmptyString
  end.

Definition last_of (nm : naming) (o : output_file) : string :=
  match o with
  | OData db t chunk file =>
      Index (mkNamer chunk file EmptyString db t
        (nformat (newOutputFileNamer db t chunk (withRows nm) (withFileSize nm)))) +:+
      "." +:+ Extension (dataExt nm)
  | _ => "sql"
  end.

Definition is_object (o : output_file) : bool :=
  match o with OTable _ _ | OView _ _ | OSequence _ _ | OData _ _ _ _ => true | _ => false end.

Lemma base_path_split nm o :
  o <> OMetadata ->
  base_path nm o = head_of o +:+ String "."
    (if is_object o then object_of o +:+ String "." (last_of nm o) else "sql").
Proof.
  intros Ho. destruct o; [done|..]; cbn; by do 3 (rewrite ?sapp_assoc; cbn).
Qed.

Lemma head_no_dot o : contains_byte "." (head_of o) = false.
Proof. destruct o; cbn; rewrite ?contains_byte_app, ?fn_no_dot; done. Qed.

Lemma object_no_dot o : contains_byte "." (object_of o) = false.
Proof. destruct o; cbn; rewrite ?contains_byte_app, ?fn_no_dot; done. Qed.

(** The marker after a name: a name followed by a marker is no other name,
    and two names with the same marker are the same name. *)
Lemma fn_marker s a m : is_schema m = true -> fn s <> fn a +:+ String "-" m.
Proof. intros Hm H. apply fn_no_schema in H. congruence. Qed.

Lemma ends_differ a b s t c d : a +:+ s +:+ str1 c = b +:+ t +:+ str1 d -> c = d.
Proof. rewrite <- !sapp_assoc. apply last_byte_inj. Qed.

Lemma table_not_view a b : fn a +:+ "-schema" <> fn b +:+ "-schema-view".
Proof. intros H. by apply (ends_differ _ _ "-schem" "-schema-vie" "a" "w") in H. Qed.

Lemma table_not_sequence a b : fn a +:+ "-schema" <> fn b +:+ "-schema-sequence".
Proof. intros H. by apply (ends_differ _ _ "-schem" "-schema-sequenc" "a" "e") in H. Qed.

Lemma view_not_sequence a b : fn a +:+ "-schema-view" <> fn b +:+ "-schema-sequence".
Proof. intros H. by apply (ends_differ _ _ "-schema-vie" "-schema-sequenc" "w" "e") in H. Qed.

Lemma policy_not_schema a b : fn a +:+ "-placement-policy-create" <> fn b +:+ "-schema-create".
Proof.
  intros H. change "-placement-policy-create" with ("-placement-policy" +:+ "-create") in H.
  change "-schema-create" with ("-schema" +:+ "-create") in H.
  rewrite <- !sapp_assoc in H. apply sapp_inj_r in H.
  by apply (ends_differ _ _ "-placement-polic" "-schem" "y" "a") in H.
Qed.

Lemma index_inj nm db t c1 f1 c2 f2 :
  valid_output nm (OData db t c1 f1) -> valid_output nm (OData db t c2 f2) ->
  last_of nm (OData db t c1 f1) = last_of nm (OData db t c2 f2) -> c1 = c2 /\ f1 = f2.
Proof.
  intros (Hc1 & Hf1 & Hr1 & Hs1) (Hc2 & Hf2 & Hr2 & Hs2) H.
  apply sep_split in H as [H _]; try (apply digits_no_dot, index_digits; lia).
  unfold newOutputFileNamer, Index in H. cbn [nformat nChunkIndex nFileIndex] in H.
  destruct (withRows nm), (withFileSize nm); cbn [andb] in H.
  - apply sapp_eq_inj in H as [Hc%fmt_0d_inj Hf%fmt_0d_inj]; [done|lia..|].
    rewrite !fmt_0d_length; lia.
  - apply fmt_0d_inj in H; [|lia..]. by rewrite Hs1, Hs2.
  - apply fmt_0d_inj in H; [|lia..]. by rewrite Hr1, Hr2.
  - by rewrite Hr1, Hr2, Hs1, Hs2.
Qed.

Lemma object_inj nm o1 o2 :
  is_object o1 = true -> is_object o2 = true -> valid_output nm o1 -> valid_output nm o2 ->
  head_of o1 = head_of o2 -> object_of o1 = object_of o2 -> last_of nm o1 = last_of nm o2 ->
  o1 = o2.
Proof.
  intros H1 H2 Hv1 Hv2 Hh Ho Hl.
  destruct o1, o2; try done; cbn [head_of] in Hh; apply fn_inj in Hh as ->; cbn [object_of] in Ho;
    try (by destruct (table_not_view _ _ Ho)); try (by destruct (table_not_sequence _ _ Ho));
    try (by destruct (view_not_sequence _ _ Ho)); try (by apply fn_marker in Ho);
    symmetry in Ho;
    try (by destruct (table_not_view _ _ Ho)); try (by destruct (table_not_sequence _ _ Ho));
    try (by destruct (view_not_sequence _ _ Ho)); try (by apply fn_marker in Ho).
  1-3: by apply sapp_inj_r, fn_inj in Ho as ->.
  apply fn_inj in Ho as ->. by destruct (index_inj _ _ _ _ _ _ _ Hv1 Hv2 Hl) as [-> ->].
Qed.

Lemma base_path_inj nm o1 o2 :
  o1 <> OMetadata -> o2 <> OMetadata -> valid_output nm o1 -> valid_output nm o2 ->
  base_path nm o1 = base_path nm o2 -> o1 = o2.
Proof.
  intros H1 H2 Hv1 Hv2. rewrite !base_path_split by done.
  intros [Hh Ht]%sep_split; try apply head_no_dot.
  destruct (is_object o1) eqn:E1, (is_object o2) eqn:E2.
  - apply sep_split in Ht as [Ho Hl]; try apply object_no_dot. by apply (object_inj nm).
  - apply (f_equal (contains_byte ".")) in Ht. rewrite contains_byte_app, orb_comm in Ht. done.
  - apply (f_equal (contains_byte ".")) in Ht. rewrite contains_byte_app, orb_comm in Ht. done.
  - destruct o1, o2; try done; cbn [head_of] in Hh;
      try (by destruct (policy_not_schema _ _ Hh));
      try (by destruct (policy_not_schema _ _ (eq_sym Hh)));
      by apply sapp_inj_r, fn_inj in Hh as ->.
Qed.

Lemma out_path_total nm o : exists path, out_path DefaultOutputFileTemplate nm o = Ok path.
Proof. destruct o; eexists; done. Qed.

Lemma base_path_has_dot nm o : o <> OMetadata -> contains_byte "." (base_path nm o) = true.
Proof. intros Ho. rewrite base_path_split, contains_byte_app by done. apply orb_true_r. Qed.

(** ** Properties *)

(** C20: with the default output template no two files of a dump share a path:
    the metadata file, the per-schema, per-table, per-view and per-sequence
    definitions and the data files of all chunks have pairwise different
    paths, for any names (with dots, slashes, percent signs or the text
    -schema in them), any format and any compression, as long as chunk
    indexes fit their nine digits. *)
Theorem output_paths_distinct nm o1 o2 path :
  valid_output nm o1 -> valid_output nm o2 ->
  out_path DefaultOutputFileTemplate nm o1 = Ok path ->
  out_path DefaultOutputFileTemplate nm o2 = Ok path ->
  o1 = o2.
Proof.
  intros Hv1 Hv2 P1 P2.
  assert (forall o, o <> OMetadata -> out_path DefaultOutputFileTemplate nm o <> Ok "metadata").
  { intros o Ho. rewrite out_path_base by done. intros [= E].
    apply (f_equal (contains_byte ".")) in E.
    by rewrite contains_byte_app, base_path_has_dot in E. }
  assert (forall o, o = OMetadata \/ o <> OMetadata) as Hdec by (intros []; auto).
  destruct (Hdec o1) as [->|H1], (Hdec o2) as [->|H2]; [done| | |].
  - injection P1 as <-. by destruct (H o2).
  - injection P2 as <-. by destruct (H o1).
  - rewrite out_path_base in P1, P2 by done. injection P1 as <-. injection P2 as P.
    apply sapp_inj_r in P. symmetry in P. by apply base_path_inj in P.
Qed.

Lemma output_paths_distinct_witness :
  let nm := mkNaming FileFormatSQLText true true Gzip in
  out_path DefaultOutputFileTemplate nm (OData "a.b" "c-schema" 3 0) =
    Ok "a%2Eb.c%2Dschema.0000000030000.sql.gz" /\
  (forall db t chunk file,
     valid_output nm (OData db t chunk file) ->
     out_path DefaultOutputFileTemplate nm (OData db t chunk file) =
       Ok "a%2Eb.c%2Dschema.0000000030000.sql.gz" ->
     OData "a.b" "c-schema" 3 0 = OData db t chunk file).
Proof.
  split; [reflexivity|]. intros db t chunk file Hv H.
  refine (output_paths_distinct (mkNaming FileFormatSQLText true true Gzip) _ _ _ _ Hv _ H).
  - simpl. lia.
  - reflexivity.
Defined.

(** The file-name escape loses nothing (its inverse is the percent
    decoding), and its output is a plain path component: no slash, dot,
    control byte, wildcard or separator is left in it. *)
Theorem fn_roundtrip s :
  unfn (fn s) = Some s /\
  sall (fun c => negb (contains_byte c "/\:*?<>|.") && (32 <=? byte_of c)) (fn s) = true.
Proof.
  split; [apply unfn_fn|]. apply (sall_mono plain_byte); [|apply fn_plain].
  by intros [[][][][][][][][]].
Qed.
