(* ===== verification/SqlTypes.v ===== *)
(** * Values (export/sql_type.go, the CSV options of export/config.go)

    The row receivers that turn the bytes of a column into a SQL literal or
    a CSV field, the escape functions, and the mapping from PostgreSQL type
    names to receivers.  The round-trip theorems state what a SQL server or a
    CSV reader sees. *)

From S2P Require Import Prelude GoStrings Dialect.

(** ** CSV options *)

(** src/export/config.go:82-94 CSVDialect *)
Inductive CSVDialect :=
  CSVDialectDefault | CSVDialectSnowflake | CSVDialectRedshift | CSVDialectBigQuery.

(** src/export/config.go:96-107 BinaryFormat *)
Inductive BinaryFormat := BinaryFormatUTF8 | BinaryFormatHEX | BinaryFormatBase64.

(** src/export/config.go:109-116 DialectBinaryFormatMap *)
Definition DialectBinaryFormatMap (d : CSVDialect) : BinaryFormat :=
  match d with
  | CSVDialectDefault => BinaryFormatUTF8
  | CSVDialectSnowflake => BinaryFormatHEX
  | CSVDialectRedshift => BinaryFormatHEX
  | CSVDialectBigQuery => BinaryFormatBase64
  end.

(** src/export/config.go:751-765 ParseOutputDialect *)
Definition ParseOutputDialect (outputDialect : string) : result CSVDialect :=
  if one_of outputDialect [EmptyString; "default"] then Ok CSVDialectDefault
  else if one_of outputDialect ["snowflake"] then Ok CSVDialectSnowflake
  else if one_of outputDialect ["redshift"] then Ok CSVDialectRedshift
  else if one_of outputDialect ["bigquery"] then Ok CSVDialectBigQuery
  else Err (EErrorf "unknown output dialect %s" [AStr outputDialect]).

(** src/export/writer.go:306-312 csvOption *)
Record csvOption := mkCsvOption {
  optNullValue : string;
  separator : string;
  delimiter : string;
  lineTerminator : string;
  binaryFormat : BinaryFormat
}.

(** ** Base64, as [base64.StdEncoding.EncodeToString] writes it *)

Definition b64_char (n : N) : ascii :=
  if (n <? 26)%N then ascii_of_N (65 + n)
  else if (n <? 52)%N then ascii_of_N (71 + n)
  else if (n <? 62)%N then ascii_of_N (n - 4)
  else if (n =? 62)%N then "+"%char else "/"%char.

Fixpoint base64 (s : string) : string :=
  match s with
  | EmptyString => EmptyString
  | String a EmptyString =>
      let n := (N_of_ascii a * 65536)%N in
      String (b64_char (n / 262144)) (String (b64_char (n / 4096 mod 64)) "==")
  | String a (String b EmptyString) =>
      let n := (N_of_ascii a * 65536 + N_of_ascii b * 256)%N in
      String (b64_char (n / 262144)) (String (b64_char (n / 4096 mod 64))
        (String (b64_char (n / 64 mod 64)) "="))
  | String a (String b (String c r)) =>
      let n := (N_of_ascii a * 65536 + N_of_ascii b * 256 + N_of_ascii c)%N in
      String (b64_char (n / 262144)) (String (b64_char (n / 4096 mod 64))
        (String (b64_char (n / 64 mod 64)) (String (b64_char (n mod 64)) (base64 r))))
  end.

(** ** Escaping *)

(** src/export/sql_type.go:16-16 nullValue *)
Definition nullValue : string := "NULL".

(** The third argument, the value of --escape-backslash, is ignored.
    src/export/sql_type.go:63-68 escapeSQL *)
Definition escapeSQL (s : string) (_ : bool) : string :=
  ReplaceAll s (str1 squote) (str1 squote +:+ str1 squote).

(** src/export/sql_type.go:70-76 escapeCSV *)
Definition escapeCSV (s : string) (_ : bool) (opt : csvOption) : string :=
  if 0 <? slen (delimiter opt)
  then ReplaceAll s (delimiter opt) (delimiter opt +:+ delimiter opt)
  else s.

(** ** Receivers *)

(** The three receivers, made by [SQLTypeNumberMaker], [SQLTypeStringMaker]
    and [SQLTypeBytesMaker]; the last one holds its dialect.
    src/export/sql_type.go:78-93 SQLTypeStringMaker *)
Inductive receiver :=
  | SQLTypeNumber
  | SQLTypeString
  | SQLTypeBytes (d : option SQLDialect).

(** src/export/sql_type.go:33-39 initColTypeRowReceiverMap *)
Definition numberTypes : list string :=
  [ "int2"; "int4"; "int8"; "smallint"; "integer"; "bigint";
    "float4"; "float8"; "real"; "double precision";
    "numeric"; "decimal"; "money";
    "oid"; "xid"; "cid"; "tid";
    "bool"; "boolean" ].

(** src/export/sql_type.go:40-42 initColTypeRowReceiverMap *)
Definition binaryTypes : list string := ["bytea"].

(** The maps [dataTypeInt] and [dataTypeBin] hold every name of the two lists
    in upper and in lower case.
    src/export/sql_type.go:43-48 initColTypeRowReceiverMap *)
Definition dataTypeInt (t : string) : bool :=
  one_of t (map (smap upper_byte) numberTypes) || one_of t (map (smap lower_byte) numberTypes).

(** src/export/sql_type.go:49-54 initColTypeRowReceiverMap *)
Definition dataTypeBin (t : string) : bool :=
  one_of t (map (smap upper_byte) binaryTypes) || one_of t (map (smap lower_byte) binaryTypes).

(** src/export/sql_type.go:32-59 initColTypeRowReceiverMap *)
Definition colTypeRowReceiverMap (t : string) : option (SQLDialect -> receiver) :=
  if dataTypeBin t then Some (fun d => SQLTypeBytes (Some d))
  else if dataTypeInt t then Some (fun _ => SQLTypeNumber)
  else None.

(** The receivers and their [RawBytes] ([None] is a nil slice, the NULL of
    the column).
    src/export/sql_type.go:116-120 RowReceiverArr *)
Record RowReceiverArr := mkRow {
  bound : bool;
  cells : list (receiver * option string)
}.

Section MakeRow.
Context `{UnicodeLib}.

(** src/export/sql_type.go:101-108 MakeRowReceiver *)
Definition recMaker (colTp : string) (dialect : SQLDialect) : receiver :=
  match colTypeRowReceiverMap colTp with
  | Some mk => mk dialect
  | None =>
      match colTypeRowReceiverMap (ToLower colTp) with
      | Some mk => mk dialect
      | None => SQLTypeString
      end
  end.

(** src/export/sql_type.go:95-114 MakeRowReceiver *)
Definition MakeRowReceiver (colTypes : list string) (dialect : SQLDialect) : RowReceiverArr :=
  mkRow false (map (fun t => (recMaker t dialect, None)) colTypes).
End MakeRow.

(** [None] is the index-out-of-range panic of [r.receivers[i]].
    src/export/sql_type.go:122-131 RowReceiverArr.BindAddress *)
Definition BindAddress (nargs : nat) (r : RowReceiverArr) : option RowReceiverArr :=
  if bound r then Some r
  else if (length (cells r) <? nargs)%nat then None
  else Some (mkRow true (cells r)).

(** What [rows.Scan] stores through the bound addresses: the first [length
    vals] receivers get the values of the row. *)
Fixpoint scan_cells (cs : list (receiver * option string)) (vals : list (option string))
    : list (receiver * option string) :=
  match cs, vals with
  | (r, _) :: cs', v :: vals' => (r, v) :: scan_cells cs' vals'
  | _, _ => cs
  end.

(** src/export/sql_type.go:160-166 SQLTypeNumber.WriteToBuffer *)
Definition SQLTypeNumber_WriteToBuffer (RawBytes : option string) : string :=
  match RawBytes with Some s => s | None => nullValue end.

(** src/export/sql_type.go:183-191 SQLTypeString.WriteToBuffer *)
Definition SQLTypeString_WriteToBuffer (RawBytes : option string) (escapeBackslash : bool)
    : string :=
  match RawBytes with
  | Some s => str1 squote +:+ escapeSQL s escapeBackslash +:+ str1 squote
  | None => nullValue
  end.

(** src/export/sql_type.go:213-226 SQLTypeBytes.WriteToBuffer *)
Definition SQLTypeBytes_WriteToBuffer (dialect : option SQLDialect) (RawBytes : option string)
    : string :=
  match RawBytes with
  | None => nullValue
  | Some s =>
      match dialect with
      | Some d => BytesLiteral d s
      | None => "'\x" +:+ hex_encode false s +:+ "'"
      end
  end.

(** src/export/sql_type.go:168-174 SQLTypeNumber.WriteToBufferInCsv *)
Definition SQLTypeNumber_WriteToBufferInCsv (RawBytes : option string) (opt : csvOption)
    : string :=
  match RawBytes with Some s => s | None => optNullValue opt end.

(** src/export/sql_type.go:193-201 SQLTypeString.WriteToBufferInCsv *)
Definition SQLTypeString_WriteToBufferInCsv (RawBytes : option string) (escapeBackslash : bool)
    (opt : csvOption) : string :=
  match RawBytes with
  | Some s => delimiter opt +:+ escapeCSV s escapeBackslash opt +:+ delimiter opt
  | None => optNullValue opt
  end.

(** src/export/sql_type.go:228-243 SQLTypeBytes.WriteToBufferInCsv *)
Definition SQLTypeBytes_WriteToBufferInCsv (RawBytes : option string) (escapeBackslash : bool)
    (opt : csvOption) : string :=
  match RawBytes with
  | Some s =>
      delimiter opt +:+
      match binaryFormat opt with
      | BinaryFormatHEX => hex_encode false s
      | BinaryFormatBase64 => base64 s
      | BinaryFormatUTF8 => escapeCSV s escapeBackslash opt
      end +:+ delimiter opt
  | None => optNullValue opt
  end.

(** The dispatch of the [Stringer] interface. *)
Definition WriteToBuffer (r : receiver) (RawBytes : option string) (escapeBackslash : bool)
    : string :=
  match r with
  | SQLTypeNumber => SQLTypeNumber_WriteToBuffer RawBytes
  | SQLTypeString => SQLTypeString_WriteToBuffer RawBytes escapeBackslash
  | SQLTypeBytes d => SQLTypeBytes_WriteToBuffer d RawBytes
  end.

Definition WriteToBufferInCsv (r : receiver) (RawBytes : option string)
    (escapeBackslash : bool) (opt : csvOption) : string :=
  match r with
  | SQLTypeNumber => SQLTypeNumber_WriteToBufferInCsv RawBytes opt
  | SQLTypeString => SQLTypeString_WriteToBufferInCsv RawBytes escapeBackslash opt
  | SQLTypeBytes _ => SQLTypeBytes_WriteToBufferInCsv RawBytes escapeBackslash opt
  end.

(** src/export/sql_type.go:133-143 RowReceiverArr.WriteToBuffer *)
Definition row_WriteToBuffer (r : RowReceiverArr) (escapeBackslash : bool) : string :=
  "(" +:+ join "," (map (fun '(rc, raw) => WriteToBuffer rc raw escapeBackslash) (cells r)) +:+ ")".

(** src/export/sql_type.go:145-153 RowReceiverArr.WriteToBufferInCsv *)
Definition row_WriteToBufferInCsv (r : RowReceiverArr) (escapeBackslash : bool)
    (opt : csvOption) : string :=
  join (separator opt)
    (map (fun '(rc, raw) => WriteToBufferInCsv rc raw escapeBackslash opt) (cells r)).

(** ** Readers *)

(** What a SQL server with standard-conforming strings reads as one value of
    a VALUES list, by the type of its column: [rb] reads binary literals. *)
Definition token_byte (c : ascii) : bool := negb (contains_byte c ",()'").

(** A numeric literal of either target: digits with a sign, a fraction and an
    exponent; and the literals of truth values.  This is what a bare word in
    the place of a number must be: no other text has a value there. *)
Definition digits_rest (s : string) : option string :=
  let '(d, r) := span is_digit s in if String.eqb d EmptyString then None else Some r.

Definition drop_sign (signs s : string) : string :=
  match s with String c s' => if contains_byte c signs then s' else s | EmptyString => EmptyString end.

Definition is_numeral (s : string) : bool :=
  match digits_rest (drop_sign "-" s) with
  | None => false
  | Some r =>
      match (match strip_prefix "." r with Some f => digits_rest f | None => Some r end) with
      | None => false
      | Some r =>
          match strip_prefix "e" r with
          | None => String.eqb r EmptyString
          | Some x => match digits_rest (drop_sign "+-" x) with Some EmptyString => true | _ => false end
          end
      end
  end.

Definition is_number (s : string) : bool := is_numeral s || one_of s ["true"; "false"].

Definition number_byte (c : ascii) : bool := is_digit c || contains_byte c "-+.truefals".

Lemma span_split p s : let '(a, b) := span p s in s = a +:+ b /\ sall p a = true.
Proof.
  induction s as [|c s IH]; cbn [span]; [done|]. destruct (p c) eqn:E; [|done].
  destruct (span p s) as [a b]. destruct IH as [-> Ha]. split; [done|]. cbn. by rewrite E.
Qed.

Lemma digits_rest_bytes s r :
  digits_rest s = Some r -> sall number_byte r = true -> sall number_byte s = true /\ s <> EmptyString.
Proof.
  unfold digits_rest. pose proof (span_split is_digit s) as Hs. destruct (span is_digit s) as [d r'].
  destruct Hs as [-> Hd]. destruct (String.eqb_spec d EmptyString) as [|Hne]; [done|]. intros [= ->] Hr.
  rewrite sall_app, Hr, andb_true_r. split; [|by destruct d].
  apply (sall_mono is_digit); [|done]. intros c Hc. unfold number_byte. by rewrite Hc.
Qed.

Lemma drop_sign_bytes signs s :
  (forall c, contains_byte c signs = true -> number_byte c = true) ->
  sall number_byte (drop_sign signs s) = true -> sall number_byte s = true.
Proof.
  intros Hsg. destruct s as [|c s]; [done|]. cbn [drop_sign]. destruct (contains_byte c signs) eqn:E; [|done].
  intros Hs. cbn. by rewrite (Hsg c E), Hs.
Qed.

Lemma sign_bytes c : contains_byte c "-" = true \/ contains_byte c "+-" = true -> number_byte c = true.
Proof. by destruct c as [[][][][][][][][]]; intros []. Qed.

Lemma is_number_bytes s : is_number s = true -> sall number_byte s = true /\ s <> EmptyString.
Proof.
  unfold is_number. intros [Hn|Hb]%orb_prop.
  - unfold is_numeral in Hn. destruct (digits_rest (drop_sign "-" s)) as [r|] eqn:E1; [|done].
    assert (sall number_byte r = true) as Hr.
    { assert (forall r', match strip_prefix "." r with Some f => digits_rest f | None => Some r end = Some r' ->
        sall number_byte r' = true -> sall number_byte r = true) as Hfrac.
      { intros r' Hf Hr'. destruct (strip_prefix "." r) as [f|] eqn:Ef.
        - apply strip_prefix_Some in Ef as ->. apply digits_rest_bytes in Hf as [Hf _]; [|done]. cbn. done.
        - by injection Hf as ->. }
      destruct (match strip_prefix "." r with Some f => digits_rest f | None => Some r end) as [r'|] eqn:E2; [|done].
      apply (Hfrac r' eq_refl). destruct (strip_prefix "e" r') as [x|] eqn:E3.
      - apply strip_prefix_Some in E3 as ->. destruct (digits_rest (drop_sign "+-" x)) as [[|]|] eqn:E4; try done.
        apply digits_rest_bytes in E4 as [E4 _]; [|done]. cbn. apply (drop_sign_bytes "+-"); [by eauto using sign_bytes|done].
      - by apply String.eqb_eq in Hn as ->. }
    destruct (digits_rest_bytes _ _ E1 Hr) as [Hs Hne].
    split; [apply (drop_sign_bytes "-"); [by eauto using sign_bytes|done]|]. by destruct s.
  - unfold one_of in Hb. cbn in Hb. rewrite orb_false_r in Hb.
    apply orb_prop in Hb as [->%String.eqb_eq | ->%String.eqb_eq]; done.
Qed.

Lemma number_token c : number_byte c = true -> token_byte c = true.
Proof. by destruct c as [[][][][][][][][]]. Qed.

Lemma number_not_null s : is_number s = true -> s <> nullValue.
Proof. intros [Hs _]%is_number_bytes ->. done. Qed.

Definition read_value (rb : string -> option (string * string)) (r : receiver) (s : string)
    : option (option string * string) :=
  match r with
  | SQLTypeNumber =>
      let '(tok, rest) := span token_byte s in
      if String.eqb tok nullValue then Some (None, rest)
      else if is_number tok then Some (Some tok, rest) else None
  | SQLTypeString =>
      match s with
      | String c s' =>
          if Ascii.eqb c squote then '(v, rest) ← lex_quoted squote s'; Some (Some v, rest)
          else rest ← strip_prefix nullValue s; Some (None, rest)
      | EmptyString => None
      end
  | SQLTypeBytes _ =>
      match rb s with
      | Some (v, rest) => Some (Some v, rest)
      | None => rest ← strip_prefix nullValue s; Some (None, rest)
      end
  end.

Fixpoint read_items (rb : string -> option (string * string)) (rs : list receiver) (s : string)
    : option (list (option string) * string) :=
  match rs with
  | [] => rest ← strip_prefix ")" s; Some ([], rest)
  | r :: rs' =>
      '(v, s1) ← read_value rb r s;
      match rs' with
      | [] => rest ← strip_prefix ")" s1; Some ([v], rest)
      | _ => s2 ← strip_prefix "," s1; '(vs, rest) ← read_items rb rs' s2; Some (v :: vs, rest)
      end
  end.

Definition read_row (rb : string -> option (string * string)) (rs : list receiver) (s : string)
    : option (list (option string) * string) :=
  s' ← strip_prefix "(" s; read_items rb rs s'.

(** A cell of dialect [d] that the reader can see: the text of a number column
    is a number. *)
Definition cell_ok (d : SQLDialect) (c : receiver * option string) : Prop :=
  match c with
  | (SQLTypeNumber, Some s) => is_number s = true
  | (SQLTypeBytes d', _) => d' = Some d
  | _ => True
  end.

Lemma escapeSQL_double s esc : escapeSQL s esc = double squote s.
Proof. apply ReplaceAll_double. Qed.

Lemma read_value_write d `{!LawfulDialect d} r raw esc rest :
  cell_ok d (r, raw) -> stops token_byte rest = true -> starts squote rest = false ->
  rest <> EmptyString ->
  read_value read_bytes r (WriteToBuffer r raw esc +:+ rest) = Some (raw, rest).
Proof.
  intros Hok Hstop Hq Hne. destruct r as [| |d']; cbn [WriteToBuffer].
  - destruct raw as [s|]; cbn [SQLTypeNumber_WriteToBuffer read_value].
    + cbn in Hok. rewrite span_app; [|by apply (sall_mono number_byte); [apply number_token|apply is_number_bytes]|done].
      pose proof (number_not_null s Hok) as H2. apply String.eqb_neq in H2. by rewrite H2, Hok.
    + by rewrite span_app.
  - destruct raw as [s|]; cbn [SQLTypeString_WriteToBuffer read_value].
    + rewrite escapeSQL_double. unfold str1. rewrite !sapp_assoc. cbn [String.append].
      by rewrite Ascii.eqb_refl, lex_quoted_double.
    + done.
  - cbn in Hok. subst d'. destruct raw as [s|]; cbn [SQLTypeBytes_WriteToBuffer read_value].
    + by rewrite law_bytes.
    + unfold nullValue. rewrite law_bytes_null. by rewrite strip_prefix_app.
Qed.

Lemma read_items_cons rb r rs s :
  rs <> [] ->
  read_items rb (r :: rs) s =
    '(v, s1) ← read_value rb r s; s2 ← strip_prefix "," s1;
    '(vs, rest) ← read_items rb rs s2; Some (v :: vs, rest).
Proof. by destruct rs. Qed.

Lemma read_items_write d `{!LawfulDialect d} cs esc rest :
  Forall (cell_ok d) cs ->
  read_items read_bytes (map fst cs)
    ((join "," (map (fun '(rc, raw) => WriteToBuffer rc raw esc) cs) +:+ ")") +:+ rest) =
  Some (map snd cs, rest).
Proof.
  induction 1 as [|[r raw] cs Hc Hcs IH]; [done|].
  destruct cs as [|c cs].
  - cbn. rewrite sapp_assoc. rewrite (read_value_write d) by done. done.
  - cbn [map] in IH |- *. rewrite join_cons by done. rewrite !sapp_assoc.
    rewrite read_items_cons by done. cbn [fst snd]. rewrite (read_value_write d) by done.
    cbn [mbind option_bind]. rewrite strip_prefix_app. cbn [mbind option_bind]. rewrite <- sapp_assoc. by rewrite IH.
Qed.

Lemma read_row_write d `{!LawfulDialect d} row esc rest :
  Forall (cell_ok d) (cells row) ->
  read_row read_bytes (map fst (cells row)) (row_WriteToBuffer row esc +:+ rest) =
  Some (map snd (cells row), rest).
Proof.
  intros H. unfold read_row, row_WriteToBuffer. rewrite !sapp_assoc, strip_prefix_app.
  cbn [mbind option_bind]. rewrite <- sapp_assoc. by apply read_items_write.
Qed.

(** What a CSV reader with the dump's options reads, for a one-byte
    delimiter: a delimited field is always a value; an undelimited one ends at
    the first byte of a separator or of a line terminator, and is NULL when it
    is the null text. *)
Definition head_is (s : string) (c : ascii) : bool := starts c s.

Definition raw_byte (opt : csvOption) (c : ascii) : bool :=
  negb (head_is (delimiter opt) c || head_is (separator opt) c || head_is (lineTerminator opt) c).

Definition read_csv_field (opt : csvOption) (q : ascii) (s : string)
    : option (option string * string) :=
  if starts q s then
    match s with
    | String _ s' => '(v, rest) ← lex_quoted q s'; Some (Some v, rest)
    | EmptyString => None
    end
  else
    let '(t, rest) := span (raw_byte opt) s in
    Some (if String.eqb t (optNullValue opt) then None else Some t, rest).

Fixpoint read_csv_row (opt : csvOption) (q : ascii) (n : nat) (s : string)
    : option (list (option string) * string) :=
  match n with
  | O => rest ← strip_prefix (lineTerminator opt) s; Some ([], rest)
  | S n' =>
      '(v, s1) ← read_csv_field opt q s;
      match n' with
      | O => rest ← strip_prefix (lineTerminator opt) s1; Some ([v], rest)
      | _ => s2 ← strip_prefix (separator opt) s1;
             '(vs, rest) ← read_csv_row opt q n' s2; Some (v :: vs, rest)
      end
  end.

(** The text of a field: binary columns are encoded by the output dialect. *)
Definition csv_text (opt : csvOption) (c : receiver * option string) : option string :=
  match c with
  | (SQLTypeBytes _, Some s) =>
      Some match binaryFormat opt with
           | BinaryFormatHEX => hex_encode false s
           | BinaryFormatBase64 => base64 s
           | BinaryFormatUTF8 => s
           end
  | (_, raw) => raw
  end.

(** Options whose output can be read: a delimiter of one byte that starts
    neither the separator nor the terminator nor a base64 or hexadecimal
    text, and a null text of raw bytes. *)
Definition b64_byte (c : ascii) : bool :=
  is_digit c || is_upper c || is_lower c || contains_byte c "+/=".

Definition readable (opt : csvOption) (q : ascii) : Prop :=
  delimiter opt = str1 q /\ b64_byte q = false /\
  separator opt <> EmptyString /\ starts q (separator opt) = false /\
  lineTerminator opt <> EmptyString /\ starts q (lineTerminator opt) = false /\
  sall (raw_byte opt) (optNullValue opt) = true.

Definition csv_cell_ok (opt : csvOption) (c : receiver * option string) : Prop :=
  match c with
  | (SQLTypeNumber, Some s) => s <> optNullValue opt /\ sall (raw_byte opt) s = true
  | _ => True
  end.

(** The inverse of [base64]. *)
Definition b64_val (c : ascii) : option N :=
  let n := N_of_ascii c in
  if is_upper c then Some (n - 65)%N
  else if is_lower c then Some (n - 71)%N
  else if is_digit c then Some (n + 4)%N
  else if Ascii.eqb c "+" then Some 62%N
  else if Ascii.eqb c "/" then Some 63%N
  else None.

Fixpoint base64_decode (s : string) : option string :=
  match s with
  | EmptyString => Some EmptyString
  | String a (String b (String c (String d r))) =>
      match b64_val a, b64_val b with
      | Some x, Some y =>
          if Ascii.eqb c "=" then Some (str1 (ascii_of_N (x * 4 + y / 16)))
          else match b64_val c with
               | None => None
               | Some z =>
                   let b1 := ascii_of_N (x * 4 + y / 16) in
                   let b2 := ascii_of_N (y mod 16 * 16 + z / 4) in
                   if Ascii.eqb d "=" then Some (String b1 (str1 b2))
                   else match b64_val d, base64_decode r with
                        | Some w, Some v =>
                            Some (String b1 (String b2 (String (ascii_of_N (z mod 4 * 64 + w)) v)))
                        | _, _ => None
                        end
               end
      | _, _ => None
      end
  | _ => None
  end.

Lemma b64_table n :
  (n < 64)%N ->
  b64_val (b64_char n) = Some n /\ Ascii.eqb (b64_char n) "=" = false /\
  b64_byte (b64_char n) = true.
Proof.
  intros Hn.
  assert (forallb (fun k =>
    let c := b64_char (N.of_nat k) in
    bool_decide (b64_val c = Some (N.of_nat k)) && negb (Ascii.eqb c "=") && b64_byte c)
    (seq 0 64) = true) as H by (vm_compute; reflexivity).
  rewrite forallb_forall in H. specialize (H (N.to_nat n)).
  rewrite N2Nat.id in H. cbn zeta in H.
  destruct (andb_prop _ _ (H ltac:(apply in_seq; lia))) as [[H1 H2]%andb_prop H3].
  apply bool_decide_eq_true in H1. by destruct (Ascii.eqb (b64_char n) "=").
Qed.

(** Strong induction by three bytes at a time. *)
Lemma string_ind3 (P : string -> Prop) :
  P EmptyString -> (forall a, P (String a EmptyString)) ->
  (forall a b, P (String a (String b EmptyString))) ->
  (forall a b c s, P s -> P (String a (String b (String c s)))) -> forall s, P s.
Proof.
  intros H0 H1 H2 H3 s.
  assert (P s /\ (forall a, P (String a s)) /\ (forall a b, P (String a (String b s)))) as [H _];
    [|exact H].
  induction s as [|c s (IH1 & IH2 & IH3)]; auto.
Qed.

Lemma b64_digit n m k : (n < m * 64)%N -> (0 < m)%N -> (k = n / m)%N -> (k < 64)%N.
Proof. intros H Hm ->. by apply N.Div0.div_lt_upper_bound. Qed.

(** Six-bit digits of a group, and the bytes they are read back to. *)
Ltac nlia := zify; Z.to_euclidean_division_equations; lia.

Lemma b64_group a b c :
  (a < 256)%N -> (b < 256)%N -> (c < 256)%N ->
  let n := (a * 65536 + b * 256 + c)%N in
  let x := (n / 262144)%N in let y := (n / 4096 mod 64)%N in
  let z := (n / 64 mod 64)%N in let w := (n mod 64)%N in
  (x < 64 /\ y < 64 /\ z < 64 /\ w < 64 /\
   x * 4 + y / 16 = a /\ y mod 16 * 16 + z / 4 = b /\ z mod 4 * 64 + w = c)%N.
Proof.
  intros Ha Hb Hc. cbn zeta.
  replace ((a * 65536 + b * 256 + c) / 262144)%N with (a / 4)%N by nlia.
  replace ((a * 65536 + b * 256 + c) / 4096)%N with (a * 16 + b / 16)%N by nlia.
  replace ((a * 65536 + b * 256 + c) / 64)%N with (a * 1024 + b * 4 + c / 64)%N by nlia.
  replace ((a * 16 + b / 16) mod 64)%N with (a mod 4 * 16 + b / 16)%N by nlia.
  replace ((a * 1024 + b * 4 + c / 64) mod 64)%N with (b mod 16 * 4 + c / 64)%N by nlia.
  replace ((a * 65536 + b * 256 + c) mod 64)%N with (c mod 64)%N by nlia.
  repeat split; nlia.
Qed.

Lemma base64_decode_encode s : base64_decode (base64 s) = Some s.
Proof.
  induction s as [|a|a b|a b c s IH] using string_ind3; [done|..];
    cbn [base64]; cbn zeta.
  - pose proof (b64_group (N_of_ascii a) 0 0 (N_ascii_bounded a) ltac:(lia) ltac:(lia)) as G.
    rewrite !N.mul_0_l, !N.add_0_r in G. destruct G as (Hx & Hy & _ & _ & Ea & _).
    apply b64_table in Hx as (Vx & _ & _), Hy as (Vy & _ & _).
    cbn [base64_decode]. rewrite Vx, Vy, Ea, ascii_N_embedding. done.
  - pose proof (b64_group _ _ 0 (N_ascii_bounded a) (N_ascii_bounded b) ltac:(lia)) as G.
    rewrite !N.add_0_r in G. destruct G as (Hx & Hy & Hz & _ & Ea & Eb & _).
    apply b64_table in Hx as (Vx & _ & _), Hy as (Vy & _ & _), Hz as (Vz & Nz & _).
    cbn [base64_decode]. by rewrite Vx, Vy, Nz, Vz, Ea, Eb, !ascii_N_embedding.
  - pose proof (b64_group _ _ _ (N_ascii_bounded a) (N_ascii_bounded b) (N_ascii_bounded c)) as G.
    destruct G as (Hx & Hy & Hz & Hw & Ea & Eb & Ec).
    apply b64_table in Hx as (Vx & _ & _), Hy as (Vy & _ & _), Hz as (Vz & Nz & _),
      Hw as (Vw & Nw & _).
    cbn [base64_decode].
    by rewrite Vx, Vy, Nz, Vz, Nw, Vw, IH, Ea, Eb, Ec, !ascii_N_embedding.
Qed.

Lemma base64_chars s : sall b64_byte (base64 s) = true.
Proof.
  induction s as [|a|a b|a b c s IH] using string_ind3; [done|..]; cbn [base64]; cbn zeta.
  - pose proof (b64_group (N_of_ascii a) 0 0 (N_ascii_bounded a) ltac:(lia) ltac:(lia)) as G.
    rewrite !N.mul_0_l, !N.add_0_r in G. destruct G as (Hx & Hy & _).
    apply b64_table in Hx as (_ & _ & Bx), Hy as (_ & _ & By'). cbn [sall]. by rewrite Bx, By'.
  - pose proof (b64_group _ _ 0 (N_ascii_bounded a) (N_ascii_bounded b) ltac:(lia)) as G.
    rewrite !N.add_0_r in G. destruct G as (Hx & Hy & Hz & _).
    apply b64_table in Hx as (_ & _ & Bx), Hy as (_ & _ & By'), Hz as (_ & _ & Bz).
    cbn [sall]. by rewrite Bx, By', Bz.
  - pose proof (b64_group _ _ _ (N_ascii_bounded a) (N_ascii_bounded b) (N_ascii_bounded c)) as G.
    destruct G as (Hx & Hy & Hz & Hw & _).
    apply b64_table in Hx as (_ & _ & Bx), Hy as (_ & _ & By'), Hz as (_ & _ & Bz),
      Hw as (_ & _ & Bw). cbn [sall]. by rewrite Bx, By', Bz, Bw, IH.
Qed.

Lemma escapeCSV_double opt q s esc : delimiter opt = str1 q -> escapeCSV s esc opt = double q s.
Proof. intros Hd. unfold escapeCSV. rewrite Hd. simpl. apply ReplaceAll_double. Qed.

(** Encoded text holds no delimiter, so it needs no doubling. *)
Lemma double_plain p q s : p q = false -> sall p s = true -> double q s = s.
Proof.
  intros Hq. induction s as [|c s IH]; simpl; [done|]. intros [Hc Hs]%andb_true_iff.
  destruct (Ascii.eqb_spec c q) as [->|]; [congruence|]. by rewrite IH.
Qed.

Lemma hex_b64 c : is_hex c = true -> b64_byte c = true.
Proof. by destruct c as [[][][][][][][][]]. Qed.

Lemma csv_field_double opt q r s esc :
  readable opt q -> r <> SQLTypeNumber ->
  exists t, csv_text opt (r, Some s) = Some t /\
    WriteToBufferInCsv r (Some s) esc opt = String q (double q t +:+ str1 q).
Proof.
  intros (Hd & Hq & _) Hr. destruct r as [| |d]; [done| |];
    cbn [WriteToBufferInCsv SQLTypeString_WriteToBufferInCsv SQLTypeBytes_WriteToBufferInCsv csv_text];
    eexists; (split; [done|]).
  - by rewrite (escapeCSV_double opt q), Hd.
  - destruct (binaryFormat opt); rewrite Hd.
    + by rewrite (escapeCSV_double opt q).
    + rewrite (double_plain b64_byte); [done|done|].
      apply (sall_mono is_hex); [apply hex_b64|apply hex_encode_chars].
    + rewrite (double_plain b64_byte); [done|done|apply base64_chars].
Qed.

(** What follows a field: a separator or a terminator. *)
Definition field_end (opt : csvOption) (q : ascii) (s : string) : Prop :=
  stops (raw_byte opt) s = true /\ starts q s = false.

Lemma sep_field_end opt q s : readable opt q -> field_end opt q (separator opt +:+ s).
Proof.
  intros (_ & _ & Hs & Hq & _). unfold field_end, raw_byte.
  destruct (separator opt) as [|c sep]; [done|]. simpl in *. split; [|done].
  by rewrite Ascii.eqb_refl, orb_true_r.
Qed.

Lemma term_field_end opt q s : readable opt q -> field_end opt q (lineTerminator opt +:+ s).
Proof.
  intros (_ & _ & _ & _ & Ht & Hq & _). unfold field_end, raw_byte.
  destruct (lineTerminator opt) as [|c t]; [done|]. simpl in *. split; [|done].
  by rewrite Ascii.eqb_refl, !orb_true_r.
Qed.

Lemma read_raw opt q t rest :
  readable opt q -> field_end opt q rest -> sall (raw_byte opt) t = true ->
  read_csv_field opt q (t +:+ rest) =
  Some (if String.eqb t (optNullValue opt) then None else Some t, rest).
Proof.
  intros (Hd & _) [Hs Hq] Ht. unfold read_csv_field.
  assert (starts q (t +:+ rest) = false) as ->.
  { destruct t as [|c t]; [done|]. simpl in *. apply andb_true_iff in Ht as [Hc _].
    unfold raw_byte, head_is in Hc. rewrite Hd in Hc. simpl in Hc.
    rewrite Ascii.eqb_sym. by destruct (Ascii.eqb q c). }
  by rewrite span_app.
Qed.

Lemma read_csv_field_write opt q r raw esc rest :
  readable opt q -> csv_cell_ok opt (r, raw) -> field_end opt q rest ->
  read_csv_field opt q (WriteToBufferInCsv r raw esc opt +:+ rest) =
  Some (csv_text opt (r, raw), rest).
Proof.
  intros Hr Hc He. destruct raw as [s|].
  - assert (r = SQLTypeNumber \/ r <> SQLTypeNumber) as [->|Hn] by (destruct r; auto).
    + destruct Hc as [Hnull Hs]. cbn [WriteToBufferInCsv SQLTypeNumber_WriteToBufferInCsv].
      rewrite (read_raw opt q) by done. apply String.eqb_neq in Hnull. by rewrite Hnull.
    + destruct (csv_field_double opt q r s esc Hr Hn) as (t & -> & ->).
      destruct He as [_ He]. unfold read_csv_field. cbn [String.append starts].
      rewrite Ascii.eqb_refl, sapp_assoc. unfold str1. cbn [String.append].
      by rewrite lex_quoted_double.
  - replace (WriteToBufferInCsv r None esc opt) with (optNullValue opt) by (by destruct r).
    rewrite (read_raw opt q); [|done|done|apply Hr]. rewrite String.eqb_refl. by destruct r.
Qed.

Lemma read_csv_row_cons opt q n s :
  n <> O ->
  read_csv_row opt q (S n) s =
    '(v, s1) ← read_csv_field opt q s; s2 ← strip_prefix (separator opt) s1;
    '(vs, rest) ← read_csv_row opt q n s2; Some (v :: vs, rest).
Proof. by destruct n. Qed.

Lemma read_csv_row_write opt q row esc rest :
  readable opt q -> Forall (csv_cell_ok opt) (cells row) ->
  read_csv_row opt q (length (cells row))
    (row_WriteToBufferInCsv row esc opt +:+ lineTerminator opt +:+ rest) =
  Some (map (csv_text opt) (cells row), rest).
Proof.
  intros Hr H. unfold row_WriteToBufferInCsv.
  induction H as [|[r raw] cs Hc Hcs IH].
  - cbn [read_csv_row length map join String.append]. by rewrite strip_prefix_app.
  - destruct cs as [|c cs].
    + cbn [map join length read_csv_row].
      rewrite read_csv_field_write by (try done; by apply term_field_end).
      cbn [mbind option_bind]. by rewrite strip_prefix_app.
    + cbn [map length] in IH |- *. rewrite join_cons by done. rewrite !sapp_assoc.
      rewrite read_csv_row_cons by done.
      rewrite read_csv_field_write by (try done; by apply sep_field_end).
      cbn [mbind option_bind]. rewrite strip_prefix_app. cbn [mbind option_bind].
      by rewrite IH.
Qed.

(** What a consumer makes of a field of a column: binary columns are decoded. *)
Definition decode_csv (opt : csvOption) (r : receiver) (field : option string) : option string :=
  match r, field with
  | SQLTypeBytes _, Some t =>
      match binaryFormat opt with
      | BinaryFormatHEX => hex_decode t
      | BinaryFormatBase64 => base64_decode t
      | BinaryFormatUTF8 => Some t
      end
  | _, _ => field
  end.

Lemma decode_csv_text opt c : decode_csv opt (fst c) (csv_text opt c) = snd c.
Proof.
  destruct c as [[| |d] [s|]]; try done. cbn. destruct (binaryFormat opt); [done|..].
  - apply hex_decode_encode.
  - apply base64_decode_encode.
Qed.

(** The lexer of a MySQL server in its default mode, where a backslash
    escapes the next byte. *)
Definition unescape (c : ascii) : ascii :=
  if Ascii.eqb c "n" then newline
  else if Ascii.eqb c "r" then creturn
  else if Ascii.eqb c "t" then tab
  else if Ascii.eqb c "0" then Ascii.ascii_of_nat 0
  else c.

Fixpoint lex_backslash (s : string) : option (string * string) :=
  match s with
  | EmptyString => None
  | String c s1 =>
      if Ascii.eqb c bslash then
        match s1 with
        | EmptyString => None
        | String d s2 => '(v, r) ← lex_backslash s2; Some (String (unescape d) v, r)
        end
      else if Ascii.eqb c squote then
        match s1 with
        | EmptyString => Some (EmptyString, EmptyString)
        | String d s2 =>
            if Ascii.eqb d squote
            then '(v, r) ← lex_backslash s2; Some (String squote v, r)
            else Some (EmptyString, s1)
        end
      else '(v, r) ← lex_backslash s1; Some (String c v, r)
  end.

Lemma lex_backslash_plain s rest :
  contains_byte bslash s = false -> starts squote rest = false ->
  lex_backslash (double squote s +:+ String squote rest) = Some (s, rest).
Proof.
  intros Hs Hr. induction s as [|c s IH].
  - cbn. destruct rest as [|d rest]; [done|]. simpl in Hr. by rewrite Hr.
  - cbn [contains_byte] in Hs. apply orb_false_iff in Hs as [Hc Hs]. cbn [double].
    destruct (Ascii.eqb_spec c squote) as [->|Hne].
    + cbn [String.append lex_backslash]. rewrite IH by done. done.
    + apply Ascii.eqb_neq in Hne. cbn [String.append lex_backslash].
      by rewrite Hc, Hne, IH.
Qed.

Section RowProperties.
Context `{UnicodeLib}.

(** The row of a table: receivers made from the column types, bound, and
    filled by [Scan]. *)
Definition scanned (t : SQLTarget) (colTypes : list string) (vals : list (option string))
    : RowReceiverArr :=
  mkRow true (scan_cells (cells (MakeRowReceiver colTypes (DialectFor t))) vals).

Lemma scan_cells_zip (rs : list receiver) vals :
  length vals = length rs ->
  scan_cells (map (fun r => (r, None)) rs) vals = zip rs vals.
Proof.
  revert vals. induction rs as [|r rs IH]; intros [|v vals]; simpl; try done.
  intros [= Hl]. by rewrite IH.
Qed.

Lemma scanned_cells t colTypes vals :
  length vals = length colTypes ->
  cells (scanned t colTypes vals) =
  zip (map (fun tp => recMaker tp (DialectFor t)) colTypes) vals.
Proof.
  intros Hl. unfold scanned, MakeRowReceiver. cbn [cells].
  rewrite <- (scan_cells_zip (map _ colTypes)) by (by rewrite length_map).
  by rewrite map_map.
Qed.

Lemma map_fst_zip' {A B} (l : list A) (k : list B) :
  length k = length l -> map fst (zip l k) = l.
Proof. revert k. induction l; intros [|b k]; simpl; try done. intros [= ?]. by rewrite IHl. Qed.

Lemma map_snd_zip' {A B} (l : list A) (k : list B) :
  length k = length l -> map snd (zip l k) = k.
Proof. revert k. induction l; intros [|b k]; simpl; try done. intros [= ?]. by rewrite IHl. Qed.

(** Every column with a number receiver holds NULL or the text of a number:
    [ok] says which texts are. *)
Definition numbers_ok (ok : string -> Prop) (t : SQLTarget) (colTypes : list string)
    (vals : list (option string)) : Prop :=
  Forall2 (fun tp v => match recMaker tp (DialectFor t), v with
                       | SQLTypeNumber, Some s => ok s
                       | _, _ => True
                       end) colTypes vals.

Lemma recMaker_cases tp d :
  recMaker tp d = SQLTypeNumber \/ recMaker tp d = SQLTypeString \/
  recMaker tp d = SQLTypeBytes (Some d).
Proof.
  unfold recMaker, colTypeRowReceiverMap.
  destruct (dataTypeBin tp); [auto|]. destruct (dataTypeInt tp); [auto|].
  destruct (dataTypeBin _); [auto|]. destruct (dataTypeInt _); auto.
Qed.

Definition sql_number (s : string) : Prop := is_number s = true.

Lemma scanned_sql_ok t colTypes vals :
  numbers_ok sql_number t colTypes vals ->
  Forall (cell_ok (DialectFor t)) (cells (scanned t colTypes vals)).
Proof.
  intros Hn. rewrite scanned_cells by (symmetry; by eapply Forall2_length).
  induction Hn as [|tp v colTypes vals Hv Hvs IH]; [constructor|].
  cbn [map zip_with]. constructor; [|done]. revert Hv. unfold cell_ok.
  destruct (recMaker_cases tp (DialectFor t)) as [->|[->| ->]]; by destruct v.
Qed.

(** CSV options with which a number, written without delimiters, is told from
    NULL and from what follows it. *)
Definition number_safe (opt : csvOption) : Prop :=
  is_number (optNullValue opt) = false /\ forall c, number_byte c = true -> raw_byte opt c = true.

Lemma scanned_csv_ok opt t colTypes vals :
  number_safe opt -> numbers_ok sql_number t colTypes vals ->
  Forall (csv_cell_ok opt) (cells (scanned t colTypes vals)).
Proof.
  intros [Hnull Hraw] Hn. rewrite scanned_cells by (symmetry; by eapply Forall2_length).
  induction Hn as [|tp v colTypes vals Hv Hvs IH]; [constructor|].
  cbn [map zip_with]. constructor; [|done]. revert Hv. unfold csv_cell_ok, sql_number.
  destruct (recMaker_cases tp (DialectFor t)) as [->|[->| ->]]; destruct v as [s|]; try done.
  intros Hs. split; [by intros ->; rewrite Hnull in Hs|].
  by apply (sall_mono number_byte); [|apply is_number_bytes].
Qed.

(** Whatever is read in a row, a value of a number column is a number. *)
Lemma read_value_number rb s v rest : read_value rb SQLTypeNumber s = Some (Some v, rest) -> is_number v = true.
Proof.
  cbn. destruct (span token_byte s) as [tok r]. destruct (String.eqb tok nullValue); [done|].
  destruct (is_number tok) eqn:E; [|done]. by intros [= <- _].
Qed.

Lemma read_items_number rb rs : forall s vs rest,
  read_items rb rs s = Some (vs, rest) ->
  Forall2 (fun r v => match r, v with SQLTypeNumber, Some s => is_number s = true | _, _ => True end) rs vs.
Proof.
  induction rs as [|r rs IH]; intros s vs rest.
  { cbn [read_items]. destruct (strip_prefix ")" s); [|done]. intros [= <- _]. constructor. }
  assert (forall v s1, read_value rb r s = Some (v, s1) ->
    match r, v with SQLTypeNumber, Some s => is_number s = true | _, _ => True end) as Hv.
  { intros v s1 Hr. destruct r, v; try done. by eapply read_value_number. }
  destruct rs as [|r' rs].
  - cbn [read_items]. destruct (read_value rb r s) as [[v s1]|] eqn:E; [|done]. cbn [mbind option_bind].
    destruct (strip_prefix ")" s1); [|done]. intros [= <- _]. constructor; [by eapply Hv|constructor].
  - rewrite read_items_cons by done. destruct (read_value rb r s) as [[v s1]|] eqn:E; [|done]. cbn [mbind option_bind].
    destruct (strip_prefix "," s1) as [s2|]; [|done]. cbn [mbind option_bind].
    destruct (read_items rb (r' :: rs) s2) as [[vs' rest']|] eqn:E2; [|done]. intros [= <- _].
    constructor; [by eapply Hv|by eapply IH].
Qed.

(** ** Properties *)

(** C7: for every target, column types and row, the text that [WriteInsert]
    writes for the row is read back by the target's value reader as exactly
    the values of the row, NULLs included, with nothing of what follows
    consumed, if and only if every column of a number type holds NULL or the
    text of a number (a numeric literal, true or false): no string, binary or
    escaped value can end its literal early.  The types that are written bare
    include money and tid, and float8 and numeric with their infinities and
    NaN: rows that hold such texts do not read back. *)
Theorem sql_row_roundtrip t colTypes vals esc rest :
  length vals = length colTypes ->
  (numbers_ok sql_number t colTypes vals <->
   read_row (read_bytes (d := DialectFor t)) (map (fun tp => recMaker tp (DialectFor t)) colTypes)
     (row_WriteToBuffer (scanned t colTypes vals) esc +:+ rest) = Some (vals, rest)).
Proof.
  intros Hl. split.
  - intros Hn. pose proof (read_row_write (DialectFor t) (scanned t colTypes vals) esc rest
      (scanned_sql_ok _ _ _ Hn)) as E.
    rewrite scanned_cells in E by done. rewrite map_fst_zip', map_snd_zip' in E
      by (by rewrite length_map). exact E.
  - unfold read_row. destruct (strip_prefix "(" _) as [s|]; [|done]. cbn [mbind option_bind].
    intros Hr%read_items_number. unfold numbers_ok. apply Forall2_fmap_l in Hr. exact Hr.
Qed.

(** C14: for readable CSV options, with which numbers are told from NULL and
    from what follows them ([number_safe]: the null text is not a number, and
    delimiter, separator and terminator start with no byte of one), the record
    that [WriteInsertInCsv] writes for a row whose number columns hold numbers
    or NULL is read back by a CSV reader as the values of the row: delimited
    fields and NULL are never confused, no separator or terminator inside a
    value splits it, and the hexadecimal and base64 encodings of the binary
    columns decode to their bytes.  A null text that is a number is not told
    from that number: both rows have the same record. *)
Theorem csv_row_roundtrip opt q t colTypes vals esc rest :
  readable opt q ->
  (number_safe opt -> numbers_ok sql_number t colTypes vals ->
   exists fields,
     read_csv_row opt q (length colTypes)
       (row_WriteToBufferInCsv (scanned t colTypes vals) esc opt +:+ lineTerminator opt +:+ rest)
       = Some (fields, rest) /\
     zip_with (fun tp f => decode_csv opt (recMaker tp (DialectFor t)) f) colTypes fields = vals) /\
  (forall tp, recMaker tp (DialectFor t) = SQLTypeNumber ->
   row_WriteToBufferInCsv (scanned t [tp] [Some (optNullValue opt)]) esc opt =
   row_WriteToBufferInCsv (scanned t [tp] [None]) esc opt).
Proof.
  intros Hr. split.
  - intros Hsafe Hn. assert (length vals = length colTypes) as Hl
      by (symmetry; by eapply Forall2_length).
    pose proof (read_csv_row_write opt q (scanned t colTypes vals) esc rest Hr
      (scanned_csv_ok _ _ _ _ Hsafe Hn)) as E.
    eexists. rewrite scanned_cells in E by done.
    rewrite length_zip, length_map, Hl, Nat.min_id in E. split; [exact E|].
    clear -Hl. revert vals Hl. induction colTypes as [|tp colTypes IH]; intros [|v vals]; try done.
    intros [= Hl]. cbn [map zip_with]. f_equal; [|by apply IH].
    apply (decode_csv_text opt (recMaker tp (DialectFor t), v)).
  - intros tp Htp. unfold row_WriteToBufferInCsv. by rewrite !scanned_cells by done; cbn [map zip_with]; rewrite Htp.
Qed.
End RowProperties.

Lemma sql_row_roundtrip_witness :
  let written v := row_WriteToBuffer
    (scanned (H := ascii_only) TargetMySQL ["int4"; "text"; "bytea"] [Some v; Some "it's"; None]) false +:+ ";" in
  let read := read_row mysql_read_bytes [SQLTypeNumber; SQLTypeString; SQLTypeBytes (Some (mysqlDialect "mysql"))] in
  read (written "-7") = Some ([Some "-7"; Some "it's"; None], ";") /\
  read (written "NaN") <> Some ([Some "NaN"; Some "it's"; None], ";").
Proof.
  split.
  - refine (proj1 (sql_row_roundtrip (H := ascii_only) TargetMySQL ["int4"; "text"; "bytea"]
              [Some "-7"; Some "it's"; None] false ";" eq_refl) _).
    repeat constructor; done.
  - intros Hr. pose proof (proj2 (sql_row_roundtrip (H := ascii_only) TargetMySQL ["int4"; "text"; "bytea"]
              [Some "NaN"; Some "it's"; None] false ";" eq_refl) Hr) as Hn.
    inversion Hn as [|? ? ? ? Hv]. vm_compute in Hv. discriminate Hv.
Defined.

Lemma csv_row_roundtrip_witness :
  let opt := mkCsvOption "\N" "," (str1 dquote) (str1 newline) BinaryFormatBase64 in
  exists fields,
    read_csv_row opt dquote 3
      (row_WriteToBufferInCsv
         (scanned (H := ascii_only) TargetMySQL ["int4"; "text"; "bytea"]
            [Some "0"; Some ("a,b" +:+ str1 dquote); Some "xyz"]) false opt +:+ str1 newline +:+ "1") =
      Some (fields, "1") /\
    zip_with (fun tp f => decode_csv opt (recMaker (H := ascii_only) tp (DialectFor TargetMySQL)) f)
      ["int4"; "text"; "bytea"] fields = [Some "0"; Some ("a,b" +:+ str1 dquote); Some "xyz"].
Proof.
  cbn zeta.
  refine (proj1 (csv_row_roundtrip (H := ascii_only)
            (mkCsvOption "\N" "," (str1 dquote) (str1 newline) BinaryFormatBase64) dquote TargetMySQL
            ["int4"; "text"; "bytea"] [Some "0"; Some ("a,b" +:+ str1 dquote); Some "xyz"]
            false "1" _) _ _).
  - unfold readable. cbn. repeat split; done.
  - split; [done|]. intros c. by destruct c as [[][][][][][][][]].
  - repeat constructor; done.
Defined.

(** C38: on a MySQL server in its default mode, where a backslash escapes the
    next byte (the SET that turns this off is in the preamble, which
    --no-preamble drops), the literal of a value without backslashes still
    reads back exactly; but whatever --escape-backslash says, there is a value
    whose literal ends inside the value, so that the rest of the data is read
    as SQL. *)
Theorem backslash_mode_unsafe esc :
  (forall v rest, contains_byte bslash v = false -> starts squote rest = false ->
     exists body, SQLTypeString_WriteToBuffer (Some v) esc +:+ rest = String squote body /\
                  lex_backslash body = Some (v, rest)) /\
  (exists v body, SQLTypeString_WriteToBuffer (Some v) esc = String squote body /\
     lex_backslash body = Some ("'", "; DROP TABLE t; --'")).
Proof.
  split.
  - intros v rest Hv Hr. cbn [SQLTypeString_WriteToBuffer]. rewrite escapeSQL_double. unfold str1.
    rewrite !sapp_assoc. eexists. split; [reflexivity|].
    by apply lex_backslash_plain.
  - exists (String bslash "'; DROP TABLE t; --"). eexists. split; reflexivity.
Qed.
