(* ===== verification/SqlCond.v ===== *)
(** * SQL conditions

    The WHERE clauses that the dumper builds as text are related here to what
    the server evaluates: a condition is a tree with the spelling of its
    operators ([render] is its text), [well_spelled] says that a SQL parser
    reads the text back as the tree (precedence, spaces between words), and
    [eval] is its three-valued meaning on a row.  A row is selected when its
    condition evaluates to true. *)

From S2P Require Import Prelude GoStrings.

(** ** Syntax *)

Inductive cmp_op := OpLt | OpGe | OpGt | OpEq.

Definition op_text (o : cmp_op) : string :=
  match o with OpLt => "<" | OpGe => ">=" | OpGt => ">" | OpEq => "=" end.

(** [spaced] says whether the comparison is written with blanks. *)
Inductive cond :=
  | CFalse
  | CIsNull (col : string)
  | CCmp (col : string) (o : cmp_op) (spaced : bool) (lit : string)
  | CParen (c : cond)
  | CAnd (tok : string) (a b : cond)
  | COr (tok : string) (a b : cond).

Fixpoint render (c : cond) : string :=
  match c with
  | CFalse => "false"
  | CIsNull col => col +:+ " IS NULL"
  | CCmp col o sp lit =>
      let s := if sp then " " else EmptyString in
      col +:+ s +:+ op_text o +:+ s +:+ lit
  | CParen c => "(" +:+ render c +:+ ")"
  | CAnd tok a b | COr tok a b => render a +:+ tok +:+ render b
  end.

(** ** Spelling *)

Fixpoint opens_paren (c : cond) : bool :=
  match c with
  | CParen _ => true
  | CAnd _ a _ | COr _ a _ => opens_paren a
  | _ => false
  end.

Fixpoint closes_paren (c : cond) : bool :=
  match c with
  | CParen _ => true
  | CAnd _ _ b | COr _ _ b => closes_paren b
  | _ => false
  end.

Definition spells (word : string) (a b : cond) (tok : string) : bool :=
  one_of tok [" " +:+ word +:+ " "; " " +:+ smap upper_byte word +:+ " "] ||
  (String.eqb tok (" " +:+ word) && opens_paren b) ||
  (String.eqb tok word && closes_paren a && opens_paren b).

Definition is_or (c : cond) : bool := match c with COr _ _ _ => true | _ => false end.

Fixpoint well_spelled (c : cond) : bool :=
  match c with
  | CParen c => well_spelled c
  | CAnd tok a b =>
      spells "and" a b tok && negb (is_or a) && negb (is_or b) && well_spelled a && well_spelled b
  | COr tok a b => spells "or" a b tok && well_spelled a && well_spelled b
  | _ => true
  end.

(** ** Meaning *)

Definition and3 (x y : option bool) : option bool :=
  match x, y with
  | Some false, _ | _, Some false => Some false
  | Some true, Some true => Some true
  | _, _ => None
  end.

Definition or3 (x y : option bool) : option bool :=
  match x, y with
  | Some true, _ | _, Some true => Some true
  | Some false, Some false => Some false
  | _, _ => None
  end.

Definition cmp (o : cmp_op) (x y : Z) : bool :=
  match o with OpLt => x <? y | OpGe => y <=? x | OpGt => y <? x | OpEq => x =? y end.

Section Eval.
(** [row] gives the value of a column ([None] is NULL), [den] the value of a
    literal. *)
Variable row : string -> option Z.
Variable den : string -> option Z.

Fixpoint eval (c : cond) : option bool :=
  match c with
  | CFalse => Some false
  | CIsNull col => Some (match row col with None => true | Some _ => false end)
  | CCmp col o _ lit =>
      match row col, den lit with Some x, Some y => Some (cmp o x y) | _, _ => None end
  | CParen c => eval c
  | CAnd _ a b => and3 (eval a) (eval b)
  | COr _ a b => or3 (eval a) (eval b)
  end.

(** The rows that [WHERE c] keeps. *)
Definition selects (c : cond) : bool := match eval c with Some true => true | _ => false end.
End Eval.

(** The literals of the dumper's chunks: integers, and row locations of the
    form (block, offset), ordered by block and then by offset (an offset is a
    16-bit number). *)
Definition tid_value (block offset : Z) : Z := block * 65536 + offset.

Definition tid_literal (s : string) : option Z :=
  s1 ← strip_prefix "'(" s;
  let '(b, r) := split2 "," s1 in
  r1 ← r;
  let '(o, _) := split2 ")" r1 in
  block ← parse_uint10 b; offset ← parse_uint10 o; Some (tid_value block offset).

Lemma tid_literal_write b : 0 <= b -> tid_literal ("'(" +:+ itoa b +:+ ",0)'") = Some (tid_value b 0).
Proof.
  intros Hb. unfold tid_literal. rewrite strip_prefix_app. cbn [mbind option_bind].
  change (",0)'") with (String "," "0)'"). rewrite split2_app.
  - cbn [mbind option_bind split2]. by rewrite parse_uint10_itoa.
  - apply (sall_contains is_digit); [done|by apply itoa_nonneg_digits].
Qed.

Lemma and3_some x y : and3 (Some x) (Some y) = Some (x && y).
Proof. by destruct x, y. Qed.

Lemma or3_some x y : or3 (Some x) (Some y) = Some (x || y).
Proof. by destruct x, y. Qed.

#[export] Hint Rewrite and3_some or3_some : dump_rw.
