(* ===== verification/SqlBuilder.v ===== *)
(** * SELECT statements (export/sql.go)

    The text of the queries that read table data: identifiers, projections
    with their casts, WHERE and ORDER BY clauses. *)

From S2P Require Import Prelude GoStrings Dialect SqlTypes SqlCond.

(** src/export/sql.go:56-68 pgQuoteIdent *)
Definition pgQuoteIdent (name : string) : string := quote_with dquote name.

(** src/export/sql.go:71-76 pgQuoteQName *)
Definition pgQuoteQName (schema name : string) : string :=
  if String.eqb schema EmptyString then pgQuoteIdent name
  else pgQuoteIdent schema +:+ "." +:+ pgQuoteIdent name.

(** src/export/sql.go:303-327 buildSelectQuery *)
Definition buildSelectQuery (database table fields partition where_ orderByClause : string)
    : string :=
  "SELECT " +:+ (if String.eqb fields EmptyString then "''" else fields) +:+
  " FROM " +:+
  (if negb (String.eqb partition EmptyString) then pgQuoteQName database partition
   else pgQuoteQName database table) +:+
  (if negb (String.eqb where_ EmptyString) then " " +:+ where_ else EmptyString) +:+
  (if negb (String.eqb orderByClause EmptyString) then " " +:+ orderByClause else EmptyString).

(** The first argument is the field [Where] of the configuration.
    src/export/sql.go:989-1012 buildWhereCondition *)
Definition buildWhereCondition (confWhere where_ : string) : string :=
  let both := negb (String.eqb confWhere EmptyString) && negb (String.eqb where_ EmptyString) in
  let leftBracket := if both then " (" else " " in
  let rightBracket := if both then ") " else " " in
  let '(query, separator) :=
    if negb (String.eqb confWhere EmptyString)
    then ("WHERE" +:+ leftBracket +:+ confWhere +:+ rightBracket, "AND")
    else (EmptyString, "WHERE") in
  if negb (String.eqb where_ EmptyString)
  then query +:+ separator +:+ leftBracket +:+ where_ +:+ rightBracket
  else query.

(** src/export/sql.go:897-906 buildOrderByClauseString *)
Definition buildOrderByClauseString (handleColNames : list string) : string :=
  match handleColNames with
  | [] => EmptyString
  | _ => "ORDER BY " +:+ join "," (map pgQuoteIdent handleColNames)
  end.

(** src/export/sql.go:79-79 orderByTiDBRowID *)
Definition orderByTiDBRowID : string := "ORDER BY `_tidb_rowid`".

(** src/export/sql.go:344-358 GetSuitableRows *)
Definition GetSuitableRows (avgRowLength : Z) : Z :=
  let defaultRows := 200000 in
  let maxRows := 1000000 in
  let bytesPerFile := 128 * 1024 * 1024 in
  if avgRowLength =? 0 then defaultRows
  else
    let estimateRows := bytesPerFile / avgRowLength in
    if maxRows <? estimateRows then maxRows else estimateRows.

(** src/export/sql.go:1014-1016 escapeString *)
Definition escapeString (s : string) : string :=
  ReplaceAll s (str1 bquote) (str1 bquote +:+ str1 bquote).

(** The types whose text form the server is asked for.
    src/export/sql.go:674-690 pgMigrationCast *)
Definition text_cast_types : list string :=
  [ "uuid"; "json"; "jsonb"; "inet"; "cidr"; "macaddr"; "macaddr8"; "xml"; "money";
    "tsvector"; "tsquery"; "bit"; "bit varying";
    "point"; "line"; "lseg"; "box"; "path"; "polygon"; "circle" ].

(** src/export/sql.go:693-695 pgMigrationCast *)
Definition range_types : list string :=
  [ "int4range"; "int8range"; "numrange"; "tsrange"; "tstzrange";
    "daterange"; "int4multirange"; "int8multirange"; "nummultirange";
    "tsmultirange"; "tstzmultirange"; "datemultirange" ].

(** src/export/sql.go:644-710 pgMigrationCast *)
Definition pgMigrationCast (colName dataType udtName : string) (csvMode : bool) : string :=
  let q := pgQuoteIdent colName in
  let alias := " AS " +:+ q in
  if one_of dataType ["timestamp with time zone"] then
    "to_char(" +:+ q +:+ " AT TIME ZONE 'UTC', 'YYYY-MM-DD HH24:MI:SS.US')" +:+ alias
  else if one_of dataType ["timestamp without time zone"] then
    "to_char(" +:+ q +:+ ", 'YYYY-MM-DD HH24:MI:SS.US')" +:+ alias
  else if one_of dataType ["date"] then "to_char(" +:+ q +:+ ", 'YYYY-MM-DD')" +:+ alias
  else if one_of dataType ["time without time zone"] then "(" +:+ q +:+ ")::text" +:+ alias
  else if one_of dataType ["time with time zone"] then
    "((" +:+ q +:+ " AT TIME ZONE 'UTC')::time)::text" +:+ alias
  else if one_of dataType ["interval"] then
    "EXTRACT(EPOCH FROM " +:+ q +:+ ")::numeric" +:+ alias
  else if one_of dataType ["boolean"] then "(" +:+ q +:+ ")::int" +:+ alias
  else if one_of dataType ["bytea"] then
    if csvMode then "encode(" +:+ q +:+ ", 'hex')" +:+ alias else q
  else if one_of dataType ["ARRAY"] then "to_jsonb(" +:+ q +:+ ")::text" +:+ alias
  else if one_of dataType text_cast_types then "(" +:+ q +:+ ")::text" +:+ alias
  else if one_of dataType ["USER-DEFINED"] then
    if one_of udtName range_types then "to_jsonb(" +:+ q +:+ ")::text" +:+ alias
    else if one_of udtName ["hstore"] then "hstore_to_jsonb(" +:+ q +:+ ")::text" +:+ alias
    else "(" +:+ q +:+ ")::text" +:+ alias
  else q.

(** A row of information_schema.columns. *)
Record column_info := mkColumn {
  column_name : string;
  is_generated : string;
  data_type : string;
  udt_name : string
}.

(** The projection of a table from the rows that the query on
    information_schema.columns returns: the select expression, the column
    list of the INSERT statements and the number of written columns.
    src/export/sql.go:729-764 buildSelectField *)
Definition buildSelectField (results : list column_info)
    (completeInsert useCasts csvMode : bool) (dialect : SQLDialect) : string * string * Z :=
  let written := List.filter (fun r => negb (String.eqb (is_generated r) "ALWAYS")) results in
  let hasGenerateColumn := existsb (fun r => String.eqb (is_generated r) "ALWAYS") results in
  let exprs := map (fun r => if useCasts
                             then pgMigrationCast (column_name r) (data_type r) (udt_name r) csvMode
                             else pgQuoteIdent (column_name r)) written in
  let cols := map (fun r => QuoteIdent dialect (column_name r)) written in
  if completeInsert || hasGenerateColumn || useCasts
  then (join "," exprs, join "," cols, Z.of_nat (length exprs))
  else ("*", EmptyString, Z.of_nat (length exprs)).
