(* ===== verification/WhereClauses.v ===== *)
(** * Ranges of composite keys (export/sql.go)

    The conditions that cut a table into ranges of a key of several columns,
    given the lower bounds of the ranges.  Their text is built the way the
    code writes it into its buffer; [None] is the panic of an index out of
    range.  The meaning of a range is the lexicographic order of tuples. *)

From stdpp Require Import sorting.
From S2P Require Import Prelude GoStrings Dialect SqlCond SqlBuilder.

(** ** The text *)

(** src/export/sql.go:793-797 greater *)
Inductive compare_byte := greater | less.

Definition compare_text (b : compare_byte) : string := match b with greater => ">" | less => "<" end.

(** The columns from the [i]-th on; [pre] is what the inner loop writes for
    the columns before it.
    src/export/sql.go:802-825 buildCompareClause *)
Fixpoint compare_loop (pre : string) (i : nat) (quotaCols bound : list string) (compare : compare_byte)
    (writeEqual : bool) : option string :=
  match quotaCols with
  | [] => Some EmptyString
  | col :: cols =>
      match bound with
      | [] => None
      | b :: bound' =>
          let last := match cols with [] => true | _ => false end in
          let item :=
            (if (0 <? i)%nat then "or(" else EmptyString) +:+ pre +:+ col +:+ compare_text compare +:+
            (if writeEqual && last then "=" else EmptyString) +:+ b +:+
            (if (0 <? i)%nat then ")" else if last then EmptyString else " ") in
          rest ← compare_loop (pre +:+ col +:+ "=" +:+ b +:+ " and ") (S i) cols bound' compare writeEqual;
          Some (item +:+ rest)
      end
  end.

(** src/export/sql.go:799-825 buildCompareClause *)
Definition buildCompareClause (quotaCols bound : list string) (compare : compare_byte)
    (writeEqual : bool) : option string :=
  compare_loop EmptyString 0 quotaCols bound compare writeEqual.

(** src/export/sql.go:827-835 getCommonLength *)
Fixpoint getCommonLength (low up : list string) : option nat :=
  match low with
  | [] => Some 0%nat
  | l :: low' =>
      match up with
      | [] => None
      | u :: up' => if negb (String.eqb l u) then Some 0%nat
                    else n ← getCommonLength low' up'; Some (S n)
      end
  end.

(** src/export/sql.go:840-850 buildBetweenClause *)
Definition singleBetween (col l u : string) (writeEqual : bool) : string :=
  col +:+ ">" +:+ (if writeEqual then "=" else EmptyString) +:+ l +:+ " and " +:+ col +:+ "<" +:+ u.

(** The clause once the common prefix is cut off.
    src/export/sql.go:875-894 buildBetweenClause *)
Definition between_rest (quotaCols low up : list string) : option string :=
  match quotaCols, low, up with
  | [col], l :: _, u :: _ => Some (singleBetween col l u true)
  | col :: cols, l :: low', u :: up' =>
      lower ← buildCompareClause cols low' greater true;
      upper ← buildCompareClause cols up' less false;
      Some ("(" +:+ singleBetween col l u false +:+ ")or(" +:+ col +:+ "=" +:+ l +:+ " and(" +:+ lower +:+
            "))or(" +:+ col +:+ "=" +:+ u +:+ " and(" +:+ upper +:+ "))")
  | _, _, _ => None
  end.

(** src/export/sql.go:837-895 buildBetweenClause *)
Definition buildBetweenClause (quotaCols low up : list string) : option string :=
  commonLen ← getCommonLength low up;
  match commonLen with
  | O => between_rest quotaCols low up
  | _ =>
      if (commonLen =? length low)%nat then Some "false"
      else
        if (length quotaCols <? commonLen)%nat then None
        else
          rest ← between_rest (drop commonLen quotaCols) (drop commonLen low) (drop commonLen up);
          Some (join " and " (zip_with (fun c l => c +:+ "=" +:+ l) (take commonLen quotaCols) (take commonLen low))
                +:+ " and(" +:+ rest +:+ ")")
  end.

(** The clauses between neighbours.
    src/export/sql.go:779-784 buildWhereClauses *)
Fixpoint between_clauses (quotaCols low : list string) (handleVals : list (list string))
    : option (list string) :=
  match handleVals with
  | [] => Some []
  | up :: handleVals' =>
      clause ← buildBetweenClause quotaCols low up;
      rest ← between_clauses quotaCols up handleVals';
      Some (clause :: rest)
  end.

(** src/export/sql.go:766-789 buildWhereClauses *)
Definition buildWhereClauses (handleColNames : list string) (handleVals : list (list string))
    : option (list string) :=
  match handleColNames, handleVals with
  | [], _ | _, [] => Some []
  | _, first :: handleVals' =>
      let quotaCols := map pgQuoteIdent handleColNames in
      lowest ← buildCompareClause quotaCols first less false;
      between ← between_clauses quotaCols first handleVals';
      highest ← buildCompareClause quotaCols (List.last handleVals []) greater true;
      Some (lowest :: between ++ [highest])
  end.

Example between_two_columns :
  buildBetweenClause ["a"; "b"] ["1"; "5"] ["3"; "0"] =
  Some "(a>1 and a<3)or(a=1 and(b>=5))or(a=3 and(b<0))" /\
  buildBetweenClause ["a"; "b"] ["1"; "2"] ["1"; "5"] = Some "a=1 and(b>=2 and b<5)" /\
  buildCompareClause ["a"; "b"; "c"] ["1"; "2"; "3"] less false =
  Some "a<1 or(a=1 and b<2)or(a=1 and b=2 and c<3)".
Proof. vm_compute. done. Qed.

(** ** Conditions *)

Fixpoint all_of (pre : list cond) (c : cond) : cond :=
  match pre with [] => c | p :: pre' => CAnd " and " p (all_of pre' c) end.

(** The condition that compares a tuple of columns with a bound: [o] for all
    columns but the last, [olast] for the last. *)
Fixpoint compare_cond (o olast : cmp_op) (pre : list cond) (cols bound : list string) : cond :=
  match cols, bound with
  | [col], b :: _ =>
      let c := all_of pre (CCmp col olast false b) in
      match pre with [] => c | _ => CParen c end
  | col :: cols', b :: bound' =>
      let c := all_of pre (CCmp col o false b) in
      let rest := compare_cond o olast (pre ++ [CCmp col OpEq false b]) cols' bound' in
      match pre with [] => COr " or" c rest | _ => COr "or" (CParen c) rest end
  | _, _ => CFalse
  end.

Definition between_cond (cols low up : list string) : cond :=
  match cols, low, up with
  | [col], l :: _, u :: _ => CAnd " and " (CCmp col OpGe false l) (CCmp col OpLt false u)
  | col :: cols', l :: low', u :: up' =>
      COr "or" (CParen (CAnd " and " (CCmp col OpGt false l) (CCmp col OpLt false u)))
        (COr "or"
          (CParen (CAnd " and" (CCmp col OpEq false l) (CParen (compare_cond OpGt OpGe [] cols' low'))))
          (CParen (CAnd " and" (CCmp col OpEq false u) (CParen (compare_cond OpLt OpLt [] cols' up')))))
  | _, _, _ => CFalse
  end.

(** The equalities of a common prefix in front of a condition. *)
Fixpoint prefix_cond (cols lits : list string) (c : cond) : cond :=
  match cols, lits with
  | [col], [l] => CAnd " and" (CCmp col OpEq false l) (CParen c)
  | col :: cols', l :: lits' => CAnd " and " (CCmp col OpEq false l) (prefix_cond cols' lits' c)
  | _, _ => c
  end.

Lemma render_all_of pre c :
  render (all_of pre c) = sconcat (map (fun p => render p +:+ " and ") pre) +:+ render c.
Proof. induction pre as [|p pre IH]; cbn; [done|]. by rewrite IH, !sapp_assoc. Qed.

Lemma well_spelled_all_of pre c :
  forallb (fun p => negb (is_or p) && well_spelled p) pre = true -> is_or c = false ->
  well_spelled c = true -> well_spelled (all_of pre c) = true /\ is_or (all_of pre c) = false.
Proof.
  intros Hp Ho Hc. induction pre as [|p pre IH]; [done|]. cbn in Hp.
  apply andb_true_iff in Hp as [[Hp1 Hp2]%andb_true_iff Hp]. destruct (IH Hp) as [IH1 IH2].
  cbn. by rewrite Hp1, Hp2, IH1, IH2.
Qed.

(** *** The text is that of the conditions *)

Lemma compare_cond_cons o olast pre col col' cols b bound :
  compare_cond o olast pre (col :: col' :: cols) (b :: bound) =
  COr (match pre with [] => " or" | _ => "or" end)
    (match pre with [] => CCmp col o false b | _ => CParen (all_of pre (CCmp col o false b)) end)
    (compare_cond o olast (pre ++ [CCmp col OpEq false b]) (col' :: cols) bound).
Proof. by destruct pre. Qed.

Definition eq_conds (pre : list cond) : Prop :=
  forallb (fun p => negb (is_or p) && well_spelled p) pre = true.

Lemma compare_loop_render o olast compare (writeEqual : bool) :
  compare_text compare = op_text o ->
  compare_text compare +:+ (if writeEqual then "=" else EmptyString) = op_text olast ->
  forall cols bound pre, length cols = length bound -> cols <> [] -> eq_conds pre ->
  let c := compare_cond o olast pre cols bound in
  compare_loop (sconcat (map (fun p => render p +:+ " and ") pre)) (length pre) cols bound compare writeEqual =
    Some ((match pre with [] => EmptyString | _ => "or" end) +:+ render c) /\
  well_spelled c = true /\ (pre <> [] -> opens_paren c = true).
Proof.
  intros Ho Hl cols. induction cols as [|col cols IH]; intros [|b bound] pre Hlen Hne Hpre; try done.
  injection Hlen as Hlen. cbn [compare_loop].
  assert (well_spelled (all_of pre (CCmp col o false b)) = true /\ is_or (all_of pre (CCmp col o false b)) = false)
    as [W1 W2] by (by apply well_spelled_all_of).
  assert (well_spelled (all_of pre (CCmp col olast false b)) = true) as W3 by (by apply well_spelled_all_of).
  assert (render (CCmp col olast false b) = col +:+ compare_text compare +:+
    (if writeEqual then "=" else EmptyString) +:+ b) as Rl by (cbn; by rewrite <- Hl, !sapp_assoc).
  assert (render (CCmp col o false b) = col +:+ compare_text compare +:+ b) as Ro by (cbn; by rewrite <- Ho).
  destruct cols as [|col' cols].
  - destruct bound; [|done]. cbn [mbind option_bind compare_loop]. split_and!.
    + rewrite andb_true_r. destruct pre as [|p pre]; cbn [length Nat.ltb Nat.leb compare_cond render];
        rewrite render_all_of, Rl, !sapp_assoc, ?sapp_nil_r; done.
    + cbn. by destruct pre.
    + cbn. by destruct pre.
  - assert (eq_conds (pre ++ [CCmp col OpEq false b])) as Hpre'
      by (unfold eq_conds; rewrite forallb_app, Hpre; done).
    destruct (IH bound (pre ++ [CCmp col OpEq false b]) Hlen ltac:(done) Hpre') as (E & W & P).
    assert (sconcat (map (fun p => render p +:+ " and ") (pre ++ [CCmp col OpEq false b])) =
      sconcat (map (fun p => render p +:+ " and ") pre) +:+ col +:+ "=" +:+ b +:+ " and ") as Es
      by (rewrite map_app, sconcat_app; cbn; by rewrite !sapp_assoc).
    rewrite Es, length_app, Nat.add_1_r in E. rewrite E.
    specialize (P ltac:(by destruct pre)). cbn [mbind option_bind]. rewrite compare_cond_cons.
    set (rest := compare_cond o olast (pre ++ _) _ _) in *. clearbody rest. clear E. split_and!.
    + rewrite andb_false_r. destruct pre as [|p pre]; cbn [length Nat.ltb Nat.leb render].
      * rewrite <- Ho, !sapp_assoc. done.
      * rewrite render_all_of, Ro, !sapp_assoc. done.
    + destruct pre as [|p pre]; cbn [well_spelled]; unfold spells; rewrite W, ?W1, P; by rewrite ?orb_true_r.
    + by destruct pre.
Qed.

(** The two uses of the comparison: below a bound, and from a bound on. *)
Lemma buildCompareClause_render (up : bool) cols bound :
  length cols = length bound -> cols <> [] ->
  let c := if up then compare_cond OpGt OpGe [] cols bound else compare_cond OpLt OpLt [] cols bound in
  buildCompareClause cols bound (if up then greater else less) up = Some (render c) /\ well_spelled c = true.
Proof.
  intros Hl Hne. destruct up.
  - by destruct (compare_loop_render OpGt OpGe greater true eq_refl eq_refl cols bound [] Hl Hne eq_refl) as (E & W & _).
  - by destruct (compare_loop_render OpLt OpLt less false eq_refl eq_refl cols bound [] Hl Hne eq_refl) as (E & W & _).
Qed.

Lemma between_rest_render cols low up :
  length cols = length low -> length low = length up -> cols <> [] ->
  let c := between_cond cols low up in
  between_rest cols low up = Some (render c) /\ well_spelled c = true.
Proof.
  destruct cols as [|col [|col' cols]], low as [|l low], up as [|u up]; try done.
  - intros _ _ _. split; [|done]. cbn. unfold singleBetween. by rewrite !sapp_assoc.
  - intros [= Hl] [= Hu] _. cbn [between_rest between_cond].
    destruct (buildCompareClause_render true (col' :: cols) low Hl ltac:(done)) as [-> W1].
    destruct (buildCompareClause_render false (col' :: cols) up ltac:(cbn in *; congruence) ltac:(done)) as [-> W2].
    cbn [mbind option_bind] in *. set (c1 := compare_cond OpGt OpGe _ _ _) in *.
    set (c2 := compare_cond OpLt OpLt _ _ _) in *. clearbody c1 c2. split.
    + cbn [render op_text]. unfold singleBetween. f_equal. rewrite !sapp_assoc. done.
    + cbn. by rewrite W1, W2.
Qed.

Lemma prefix_cond_render cols lits c :
  length cols = length lits -> cols <> [] -> well_spelled c = true ->
  render (prefix_cond cols lits c) =
    join " and " (zip_with (fun c l => c +:+ "=" +:+ l) cols lits) +:+ " and(" +:+ render c +:+ ")" /\
  well_spelled (prefix_cond cols lits c) = true /\ is_or (prefix_cond cols lits c) = false.
Proof.
  intros Hl Hne Hc. revert lits Hl. induction cols as [|col cols IH]; intros [|l lits] Hl; try done.
  injection Hl as Hl. destruct cols as [|col' cols], lits as [|l' lits]; [|done|done|].
  { cbn. rewrite Hc, !sapp_assoc. done. }
  destruct (IH ltac:(done) (l' :: lits) Hl) as (E & W & O).
  change (prefix_cond (col :: col' :: cols) (l :: l' :: lits) c) with
    (CAnd " and " (CCmp col OpEq false l) (prefix_cond (col' :: cols) (l' :: lits) c)).
  set (p := prefix_cond _ _ c) in *. clearbody p. cbn [render op_text]. rewrite E. split_and!; [|cbn; by rewrite W, O|done].
  cbn [zip_with join]. rewrite !sapp_assoc. done.
Qed.

(** ** Meaning *)

(** The lexicographic order of tuples. *)
Fixpoint lex_lt (xs ys : list Z) : bool :=
  match xs, ys with
  | x :: xs', y :: ys' => (x <? y) || ((x =? y) && lex_lt xs' ys')
  | _, _ => false
  end.

Lemma lex_lt_trans xs : forall ys zs,
  length xs = length ys -> lex_lt xs ys = true -> lex_lt ys zs = true -> lex_lt xs zs = true.
Proof.
  induction xs as [|x xs IH]; intros [|y ys] [|z zs]; cbn; try done. intros [= Hl].
  rewrite !orb_true_iff, !andb_true_iff, !Z.ltb_lt, !Z.eqb_eq.
  intros [?|[? H1]] [?|[? H2]]; [left; lia..|]. right. split; [lia|]. by eapply IH.
Qed.

Section Meaning.
Variable row : string -> option Z.

Definition has_values (cols : list string) (xs : list Z) : Prop :=
  Forall2 (fun c x => row c = Some x) cols xs.

Lemma cmp_eval col x o sp z :
  row col = Some x -> eval row SetString10 (CCmp col o sp (itoa z)) = Some (cmp o x z).
Proof. intros Hx. cbn. by rewrite Hx, SetString10_itoa. Qed.

Lemma all_of_eval pre bs c b :
  Forall2 (fun p v => eval row SetString10 p = Some v) pre bs -> eval row SetString10 c = Some b ->
  eval row SetString10 (all_of pre c) = Some (forallb id bs && b).
Proof.
  induction 1 as [|p v pre bs Hp _ IH]; intros Hc; [done|]. cbn. rewrite Hp, (IH Hc), and3_some.
  by rewrite andb_assoc.
Qed.

(** What the comparison decides: [low] is "below the bound", otherwise it is
    "from the bound on". *)
Definition decides (low : bool) (xs zs : list Z) : bool := if low then lex_lt xs zs else negb (lex_lt xs zs).
Definition op_of (low : bool) : cmp_op := if low then OpLt else OpGt.
Definition last_op (low : bool) : cmp_op := if low then OpLt else OpGe.

Lemma compare_cond_eval low cols : forall xs zs pre bs,
  has_values cols xs -> length xs = length zs -> cols <> [] ->
  Forall2 (fun p v => eval row SetString10 p = Some v) pre bs ->
  eval row SetString10 (compare_cond (op_of low) (last_op low) pre cols (map itoa zs)) =
    Some (forallb id bs && decides low xs zs).
Proof.
  induction cols as [|col cols IH]; intros xs zs pre bs Hx Hl Hne Hpre; [done|].
  apply Forall2_cons_inv_l in Hx as (x & xs' & Hcol & Hx & ->). destruct zs as [|z zs]; [done|].
  injection Hl as Hl. destruct cols as [|col' cols].
  - apply Forall2_nil_inv_l in Hx as ->. destruct zs; [|done].
    assert (eval row SetString10 (compare_cond (op_of low) (last_op low) pre [col] (map itoa [z])) =
      eval row SetString10 (all_of pre (CCmp col (last_op low) false (itoa z)))) as -> by (by destruct pre).
    rewrite (all_of_eval _ _ _ _ Hpre (cmp_eval col x _ _ z Hcol)). do 2 f_equal.
    destruct low; cbn; rewrite andb_false_r, orb_false_r; [done|]. apply Z.leb_antisym.
  - cbn [map]. rewrite compare_cond_cons. cbn [eval].
    rewrite (IH xs' zs (pre ++ [CCmp col OpEq false (itoa z)]) (bs ++ [x =? z])); try done.
    2:{ apply Forall2_app; [done|]. constructor; [by apply cmp_eval|constructor]. }
    assert (eval row SetString10 (match pre with [] => CCmp col (op_of low) false (itoa z)
              | _ => CParen (all_of pre (CCmp col (op_of low) false (itoa z))) end) =
            Some (forallb id bs && cmp (op_of low) x z)) as ->.
    { rewrite <- (all_of_eval _ _ _ _ Hpre (cmp_eval col x (op_of low) false z Hcol)). by destruct pre. }
    rewrite or3_some, forallb_app. f_equal. destruct (forallb id bs); cbn; [|done].
    destruct low; cbn; destruct (Z.ltb_spec x z), (Z.eqb_spec x z), (Z.ltb_spec z x); cbn; try lia;
      by destruct (lex_lt xs' zs).
Qed.

Lemma between_cond_eval cols xs a b l u :
  has_values cols xs -> length xs = S (length a) -> length a = length b -> l < u ->
  eval row SetString10 (between_cond cols (map itoa (l :: a)) (map itoa (u :: b))) =
    Some (negb (lex_lt xs (l :: a)) && lex_lt xs (u :: b)).
Proof.
  intros Hx Hl Hab Hlu. destruct cols as [|col cols]; [apply Forall2_nil_inv_l in Hx; by subst|].
  apply Forall2_cons_inv_l in Hx as (x & xs' & Hcol & Hx & ->). injection Hl as Hl.
  destruct cols as [|col' cols].
  - apply Forall2_nil_inv_l in Hx as ->. destruct a, b; try done.
    cbn [map between_cond eval]. rewrite Hcol, !SetString10_itoa, and3_some. cbn.
    rewrite !andb_false_r, !orb_false_r. by rewrite Z.leb_antisym.
  - cbn [map between_cond eval]. rewrite Hcol, !SetString10_itoa.
    pose proof (compare_cond_eval false (col' :: cols) xs' a [] [] Hx ltac:(lia) ltac:(done) ltac:(constructor)) as E1.
    pose proof (compare_cond_eval true (col' :: cols) xs' b [] [] Hx ltac:(lia) ltac:(done) ltac:(constructor)) as E2.
    unfold op_of, last_op in E1, E2. rewrite E1, E2. cbn.
    destruct (Z.ltb_spec l x), (Z.ltb_spec x u), (Z.eqb_spec x l), (Z.eqb_spec x u), (Z.ltb_spec x l);
      cbn; try lia; try done; by destruct (lex_lt xs' a), (lex_lt xs' b).
Qed.

Lemma prefix_cond_eval cols xs zs c b :
  has_values cols xs -> length xs = length zs -> eval row SetString10 c = Some b ->
  eval row SetString10 (prefix_cond cols (map itoa zs) c) = Some (bool_decide (xs = zs) && b).
Proof.
  intros Hx Hl Hc. revert zs Hl. induction Hx as [|col x cols xs Hcol Hx IH]; intros [|z zs] Hl; try done.
  injection Hl as Hl. destruct cols as [|col' cols].
  - apply Forall2_nil_inv_l in Hx as ->. destruct zs; [|done].
    cbn. rewrite Hcol, SetString10_itoa, Hc, and3_some. f_equal. f_equal.
    destruct (Z.eqb_spec x z) as [->|]; [by rewrite bool_decide_eq_true_2|].
    rewrite bool_decide_eq_false_2; [done|congruence].
  - destruct zs as [|z' zs]; [destruct xs; [inversion Hx|done]|]. specialize (IH (z' :: zs) Hl).
    change (prefix_cond (col :: col' :: cols) (map itoa (z :: z' :: zs)) c) with
      (CAnd " and " (CCmp col OpEq false (itoa z)) (prefix_cond (col' :: cols) (map itoa (z' :: zs)) c)).
    cbn [eval]. rewrite IH, Hcol, SetString10_itoa, and3_some. f_equal. rewrite andb_assoc. f_equal. cbn.
    destruct (Z.eqb_spec x z) as [->|]; cbn.
    + apply bool_decide_ext. naive_solver.
    + rewrite bool_decide_eq_false_2; [done|congruence].
Qed.
End Meaning.

(** ** Ranges *)

(** Bounds in order differ first at a place where the lower is less. *)
Lemma getCommonLength_split low : forall up,
  length low = length up -> lex_lt low up = true ->
  exists p l a u b, low = p ++ l :: a /\ up = p ++ u :: b /\ l < u /\ length a = length b /\
    getCommonLength (map itoa low) (map itoa up) = Some (length p).
Proof.
  induction low as [|l low IH]; intros [|u up] Hlen; try done. injection Hlen as Hlen. cbn [lex_lt].
  intros [Hlt%Z.ltb_lt|[->%Z.eqb_eq Hlt]%andb_true_iff]%orb_true_iff.
  - exists [], l, low, u, up. split_and!; try done. cbn [map getCommonLength].
    destruct (String.eqb_spec (itoa l) (itoa u)) as [E|]; [apply itoa_inj in E; lia|done].
  - destruct (IH up Hlen Hlt) as (p & l' & a & u' & b & -> & -> & Hl & Hab & Hg).
    exists (u :: p), l', a, u', b. split_and!; try done. cbn [map getCommonLength].
    by rewrite String.eqb_refl, Hg.
Qed.

Lemma lex_lt_app p : forall xp x y,
  length xp = length p -> lex_lt (xp ++ x) (p ++ y) = lex_lt xp p || (bool_decide (xp = p) && lex_lt x y).
Proof.
  induction p as [|z p IH]; intros [|w xp] x y Hl; try done. injection Hl as Hl. cbn.
  rewrite (IH xp x y Hl). destruct (Z.ltb_spec w z), (Z.eqb_spec w z); cbn; try lia; try done.
  - subst. f_equal. f_equal. apply bool_decide_ext. naive_solver.
  - rewrite bool_decide_eq_false_2; [done|congruence].
Qed.

Lemma lex_lt_irrefl p : lex_lt p p = false.
Proof. induction p as [|z p IH]; [done|]. cbn. by rewrite Z.ltb_irrefl, Z.eqb_refl, IH. Qed.

(** The values of the key columns in a row. *)
Fixpoint tuple_row (quotaCols : list string) (xs : list Z) (col : string) : option Z :=
  match quotaCols, xs with
  | c :: quotaCols', x :: xs' => if String.eqb col c then Some x else tuple_row quotaCols' xs' col
  | _, _ => None
  end.

Lemma tuple_row_values cols xs : NoDup cols -> length xs = length cols -> has_values (tuple_row cols xs) cols xs.
Proof.
  intros Hd. revert xs. induction Hd as [|c cols Hc Hd IH]; intros [|x xs] Hl; try done; [constructor|].
  injection Hl as Hl. constructor; [cbn; by rewrite String.eqb_refl|].
  apply Forall2_same_length_lookup_2; [done|]. intros i c' x' Hi Hx. cbn.
  destruct (String.eqb_spec c' c) as [->|]; [destruct Hc; by eapply list_elem_of_lookup_2|].
  by eapply (Forall2_lookup_lr _ _ _ _ _ _ (IH xs Hl)).
Qed.

(** A clause and what it selects. *)
Definition clause_of (cols : list string) (f : list Z -> bool) (text : string) (c : cond) : Prop :=
  text = render c /\ well_spelled c = true /\
  forall xs, length xs = length cols -> eval (tuple_row cols xs) SetString10 c = Some (f xs).

Lemma compare_clause (low : bool) cols zs :
  NoDup cols -> length zs = length cols -> cols <> [] ->
  exists text c, buildCompareClause cols (map itoa zs) (if low then less else greater) (negb low) = Some text /\
    clause_of cols (fun xs => decides low xs zs) text c.
Proof.
  intros Hd Hl Hne.
  destruct (buildCompareClause_render (negb low) cols (map itoa zs) ltac:(by rewrite length_map) Hne) as [E W].
  exists (render (compare_cond (op_of low) (last_op low) [] cols (map itoa zs))),
    (compare_cond (op_of low) (last_op low) [] cols (map itoa zs)).
  split; [destruct low; exact E|]. split_and!; [done|destruct low; exact W|]. intros xs Hx.
  rewrite (compare_cond_eval _ low cols xs zs [] []); [done| |lia|done|constructor].
  by apply tuple_row_values.
Qed.

Lemma between_clause cols low up :
  NoDup cols -> length low = length cols -> length up = length cols -> cols <> [] -> lex_lt low up = true ->
  exists text c, buildBetweenClause cols (map itoa low) (map itoa up) = Some text /\
    clause_of cols (fun xs => negb (lex_lt xs low) && lex_lt xs up) text c.
Proof.
  intros Hd Hl Hu Hne Hlt.
  destruct (getCommonLength_split low up ltac:(congruence) Hlt)
    as (p & l & a & u & b & -> & -> & Hlu & Hab & Hg).
  rewrite !length_app in Hl. rewrite length_app in Hu. cbn [length] in Hl, Hu.
  set (cp := take (length p) cols). set (cr := drop (length p) cols).
  assert (length cp = length p) as Hcp by (unfold cp; rewrite length_take; lia).
  assert (length cr = S (length a)) as Hcr by (unfold cr; rewrite length_drop; lia).
  assert (cr <> []) as Hcr0 by (by destruct cr).
  destruct (between_rest_render cr (map itoa (l :: a)) (map itoa (u :: b))) as [Er Wr];
    [rewrite length_map; cbn; lia|rewrite !length_map; cbn; lia|done|].
  set (rc := between_cond cr (map itoa (l :: a)) (map itoa (u :: b))) in *.
  assert (forall xs, length xs = length cols ->
    eval (tuple_row cols xs) SetString10 rc =
      Some (negb (lex_lt (drop (length p) xs) (l :: a)) && lex_lt (drop (length p) xs) (u :: b))) as Hev.
  { intros xs Hx. apply between_cond_eval; [|rewrite length_drop; lia|done|done].
    apply Forall2_drop. by apply tuple_row_values. }
  unfold buildBetweenClause. rewrite Hg. cbn [mbind option_bind]. destruct p as [|z p].
  - exists (render rc), rc. split; [exact Er|]. split_and!; [done|done|]. intros xs Hx.
    by rewrite (Hev xs Hx).
  - remember (length (z :: p)) as n eqn:En. destruct n as [|n0]; [done|]. set (n := S n0) in *.
    rewrite length_map, length_app, <- En. cbn [length].
    destruct (Nat.eqb_spec n (n + S (length a))) as [|_]; [lia|].
    destruct (Nat.ltb_spec (length cols) n) as [|_]; [lia|].
    rewrite !map_app. rewrite !drop_app_length', take_app_length' by (by rewrite length_map).
    fold cp cr. rewrite Er. cbn [mbind option_bind].
    destruct (prefix_cond_render cp (map itoa (z :: p)) rc) as (Ep & Wp & _);
      [by rewrite length_map, <- En|intros E0; by rewrite E0 in Hcp|exact Wr|].
    exists (render (prefix_cond cp (map itoa (z :: p)) rc)), (prefix_cond cp (map itoa (z :: p)) rc).
    split; [by rewrite Ep|]. split_and!; [done|done|]. intros xs Hx.
    rewrite (prefix_cond_eval _ cp (take n xs) (z :: p) rc _ ltac:(apply Forall2_take; by apply tuple_row_values)
      ltac:(rewrite length_take; lia) (Hev xs Hx)). f_equal.
    assert (length (take n xs) = n) as Hn by (rewrite length_take; lia).
    assert (forall y, lex_lt xs ((z :: p) ++ y) = lex_lt (take n xs) (z :: p) ||
      (bool_decide (take n xs = z :: p) && lex_lt (drop n xs) y)) as Happ.
    { intros y. rewrite <- (take_drop n xs) at 1. apply lex_lt_app. congruence. }
    rewrite !Happ.
    destruct (bool_decide_reflect (take n xs = z :: p)) as [E|E].
    + rewrite E, lex_lt_irrefl. done.
    + cbn [andb]. rewrite !orb_false_r. by destruct (lex_lt (take n xs) (z :: p)).
Qed.

(** Clauses between neighbours, and what is left above the last bound: a tuple
    satisfies none if it is below the first bound, and exactly one otherwise. *)
Definition selected_by (cols : list string) (xs : list Z) (c : cond) : bool :=
  selects (tuple_row cols xs) SetString10 c.

Definition nselected (cols : list string) (xs : list Z) (cs : list cond) : nat :=
  length (List.filter (selected_by cols xs) cs).

Lemma nselected_cons cols xs f text c cs :
  clause_of cols f text c -> length xs = length cols ->
  nselected cols xs (c :: cs) = ((if f xs then 1 else 0) + nselected cols xs cs)%nat.
Proof.
  intros (_ & _ & He) Hx. unfold nselected, selected_by, selects. cbn. rewrite (He xs Hx).
  by destruct (f xs).
Qed.

Lemma between_clauses_once cols zss : forall low,
  NoDup cols -> cols <> [] -> length low = length cols -> Forall (fun zs => length zs = length cols) zss ->
  Sorted (fun a b => lex_lt a b = true) (low :: zss) ->
  exists texts text cs, between_clauses cols (map itoa low) (map (map itoa) zss) = Some texts /\
    buildCompareClause cols (List.last (map (map itoa) (low :: zss)) []) greater true = Some text /\
    texts ++ [text] = map render cs /\ Forall (fun c => well_spelled c = true) cs /\
    forall xs, length xs = length cols -> nselected cols xs cs = (if lex_lt xs low then 0 else 1)%nat.
Proof.
  induction zss as [|z zss IH]; intros low Hd Hne Hl Hall Hs.
  - destruct (compare_clause false cols low Hd Hl Hne) as (text & c & E & C). cbn in E.
    pose proof C as (-> & W & _). exists [], (render c), [c]. split_and!; [done|exact E|done|by repeat constructor|].
    intros xs Hx. rewrite (nselected_cons _ _ _ _ _ _ C Hx). cbn. by destruct (lex_lt xs low).
  - apply Forall_cons in Hall as [Hz Hall]. inversion Hs as [|? ? Hs' Hr]; subst. inversion Hr as [|? ? Hlt]; subst.
    destruct (between_clause cols low z Hd Hl Hz Hne Hlt) as (t1 & c & E1 & C).
    destruct (IH z Hd Hne Hz Hall Hs') as (texts & text & cs & E2 & E3 & Et & W & Hn).
    pose proof C as (-> & W1 & _). exists (render c :: texts), text, (c :: cs). split_and!.
    + cbn [map between_clauses]. by rewrite E1, E2.
    + exact E3.
    + cbn. by rewrite Et.
    + by constructor.
    + intros xs Hx. rewrite (nselected_cons _ _ _ _ _ _ C Hx), (Hn xs Hx).
      destruct (lex_lt xs low) eqn:Elow; cbn; [|by destruct (lex_lt xs z)].
      by rewrite (lex_lt_trans xs low z) by (congruence || done).
Qed.

Lemma pgQuoteIdent_inj a b : pgQuoteIdent a = pgQuoteIdent b -> a = b.
Proof.
  intros E. pose proof (quote_with_lex dquote a EmptyString eq_refl) as H1.
  change (quote_with dquote a) with (pgQuoteIdent a) in H1. rewrite E in H1.
  pose proof (quote_with_lex dquote b EmptyString eq_refl) as H2.
  change (quote_with dquote b) with (pgQuoteIdent b) in H2. congruence.
Qed.

(** ** Properties *)

(** C22: the clauses of a composite key cut the table into ranges: for bounds
    in increasing lexicographic order every tuple of key values satisfies
    exactly one of the clauses, among them the clause below the first bound
    and the clause from the last bound on.  The clauses are well-formed SQL,
    common prefixes of neighbouring bounds included, and the builder never
    goes out of range. *)
Theorem where_clauses_partition names low zss :
  names <> [] -> NoDup names -> Forall (fun zs => length zs = length names) (low :: zss) ->
  Sorted (fun a b => lex_lt a b = true) (low :: zss) ->
  exists clauses, buildWhereClauses names (map (map itoa) (low :: zss)) = Some (map render clauses) /\
    length clauses = S (S (length zss)) /\ Forall (fun c => well_spelled c = true) clauses /\
    forall xs, length xs = length names ->
      nselected (map pgQuoteIdent names) xs clauses = 1%nat.
Proof.
  intros Hne Hd [Hl Hall]%Forall_cons Hs. set (cols := map pgQuoteIdent names).
  assert (length cols = length names) as Hc by (by apply length_map). rewrite <- Hc in Hl, Hall.
  assert (NoDup cols) as Hdc by (apply (NoDup_fmap_2_strong pgQuoteIdent);
    [intros a b _ _; apply pgQuoteIdent_inj|done]).
  assert (cols <> []) as Hcne by (by destruct names).
  destruct (compare_clause true cols low Hdc Hl Hcne) as (t0 & c0 & E0 & C0).
  destruct (between_clauses_once cols zss low Hdc Hcne Hl Hall Hs) as (texts & text & cs & E1 & E2 & Et & W & Hn).
  pose proof C0 as (-> & W0 & _). exists (c0 :: cs). split_and!.
  - unfold buildWhereClauses. destruct names as [|name names]; [done|]. fold cols. cbn [map].
    cbn [negb] in E0. cbn [map] in E2. rewrite E0. cbn [mbind option_bind]. rewrite E1. cbn [mbind option_bind].
    rewrite E2. cbn [mbind option_bind]. by rewrite Et.
  - assert (length texts = length zss) as Hlt by (clear -E1; revert texts low E1;
      induction zss as [|z zss IH]; intros texts low; cbn; [by intros [= <-]|];
      destruct (buildBetweenClause _ _ _); [|done]; cbn [mbind option_bind];
      destruct (between_clauses cols (map itoa z) _) as [r|] eqn:Er; [|done]; intros [= <-]; cbn; f_equal; by eapply IH).
    apply (f_equal length) in Et. rewrite length_app, length_map in Et. cbn in *. lia.
  - by constructor.
  - intros xs Hx. rewrite <- Hc in Hx. rewrite (nselected_cons _ _ _ _ _ _ C0 Hx), (Hn xs Hx).
    cbn. by destruct (lex_lt xs low).
Qed.

Lemma where_clauses_partition_witness :
  exists clauses, buildWhereClauses ["a"; "b"] (map (map itoa) [[1; 2]; [1; 5]; [3; 0]]) = Some (map render clauses) /\
    nselected (map pgQuoteIdent ["a"; "b"]) [1; 4] clauses = 1%nat.
Proof.
  destruct (where_clauses_partition ["a"; "b"] [1; 2] [[1; 5]; [3; 0]]) as (clauses & E & _ & _ & H).
  - done.
  - repeat constructor; set_solver.
  - by repeat constructor.
  - by repeat constructor.
  - exists clauses. exact (conj E (H [1; 4] eq_refl)).
Defined.
