(* ===== verification/Conn.v ===== *)
(** * Queries with retries (export/retry.go, export/conn.go, export/sql.go)

    The retry loop with its two back-off schedules, the connection wrapper
    that rebuilds its connection between attempts, and the functions that
    collect the columns of a result.  The database is a parameter: [query] and
    [rebuild] act on an arbitrary environment [E] and may fail at any call. *)

From S2P Require Import Prelude GoStrings.

(** ** Results of queries *)

(** The rows of a query: a NULL is [None]; [rows_err] is what [rows.Err()]
    reports after the last row. *)
Record table_rows := mkRows {
  columns : list string;
  data : list (list (option string));
  rows_err : option error
}.

(** [strings.EqualFold]: case folding of ASCII strings; the Unicode folding
    is a parameter. *)
Class FoldLib := { unicode_equal_fold : string -> string -> bool }.

Definition EqualFold `{FoldLib} (a b : string) : bool :=
  if is_ascii a && is_ascii b then String.eqb (smap lower_byte a) (smap lower_byte b)
  else unicode_equal_fold a b.

Section Columns.
Context `{FoldLib}.

(** The position in [columnName] that the loop over the names leaves for a
    column: the last name that the column folds to.
    src/export/sql.go:517-524 GetSpecifiedColumnValuesAndClose *)
Definition name_position (columnName : list string) (col : string) : option nat :=
  foldl (fun acc '(j, name) => if EqualFold col name then Some j else acc) None
    (imap pair columnName).

(** One row: the values of the named columns, an empty string for NULL, and
    whether any of them is not NULL.  Columns are visited from left to right;
    the source visits them in the order of a map, which differs only when two
    columns have the same name.
    src/export/sql.go:533-542 GetSpecifiedColumnValuesAndClose *)
Definition named_values (columnName cols : list string) (oneRow : list (option string))
    : bool * list string :=
  foldl (fun '(written, tmpStr) '(col, v) =>
           match name_position columnName col, v with
           | Some j, Some s => (true, <[j := s]> tmpStr)
           | _, _ => (written, tmpStr)
           end)
    (false, replicate (length columnName) EmptyString) (zip cols oneRow).

(** src/export/sql.go:503-546 GetSpecifiedColumnValuesAndClose *)
Definition GetSpecifiedColumnValuesAndClose (rows : table_rows) (columnName : list string)
    : list (list string) * option error :=
  if forallb (fun col => bool_decide (name_position columnName col = None)) (columns rows)
  then ([], None)
  else (omap (fun r => match named_values columnName (columns rows) r with
                       | (true, tmpStr) => Some tmpStr
                       | (false, _) => None
                       end) (data rows),
        rows_err rows).

(** src/export/sql.go:471-501 GetSpecifiedColumnValueAndClose *)
Definition GetSpecifiedColumnValueAndClose (rows : table_rows) (columnName : string)
    : list string * option error :=
  let fieldIndex := foldl (fun acc '(i, col) => if EqualFold col columnName then Some i else acc)
                      None (imap pair (columns rows)) in
  match fieldIndex with
  | None => ([], None)
  | Some i => (omap (fun r : list (option string) => mjoin (r !! i)) (data rows), rows_err rows)
  end.
End Columns.

(** Runs the row handler over the rows; the first error of the handler, or
    the error of the rows, ends the query.
    src/export/sql.go:925-947 simpleQueryWithArgs *)
Fixpoint handle_rows {A} (handleOneRow : A -> list (option string) -> result A)
    (rows : list (list (option string))) (acc : A) : A * option error :=
  match rows with
  | [] => (acc, None)
  | r :: rows' =>
      match handleOneRow acc r with
      | Ok acc' => handle_rows handleOneRow rows' acc'
      | Err e => (acc, Some e)
      end
  end.

(** ** Back-off *)

(** src/export/retry.go:66-97 dumpChunkBackoffer *)
Inductive backoffer :=
  | dumpChunkBackoffer (attempt delayTime maxDelayTime : Z)
  | noopBackoffer (attempt : Z).

(** src/export/retry.go:11-15 dumpChunkRetryTime *)
Definition dumpChunkRetryTime : Z := 3.
Definition dumpChunkWaitInterval : Z := 50.
Definition dumpChunkMaxWaitInterval : Z := 200.

(** src/export/retry.go:55-64 newRebuildConnBackOffer *)
Definition newRebuildConnBackOffer (shouldRetry : bool) : backoffer :=
  if negb shouldRetry then noopBackoffer 1
  else dumpChunkBackoffer dumpChunkRetryTime dumpChunkWaitInterval dumpChunkMaxWaitInterval.

(** src/export/retry.go:72-79 dumpChunkBackoffer.NextBackoff *)
Definition NextBackoff (b : backoffer) : Z * backoffer :=
  match b with
  | dumpChunkBackoffer attempt delayTime maxDelayTime =>
      let delayTime := 2 * delayTime in
      let b' := dumpChunkBackoffer (attempt - 1) delayTime maxDelayTime in
      if maxDelayTime <? delayTime then (maxDelayTime, b') else (delayTime, b')
  | noopBackoffer attempt => (0, noopBackoffer (attempt - 1))
  end.

(** src/export/retry.go:81-81 dumpChunkBackoffer.Attempt *)
Definition Attempt (b : backoffer) : Z :=
  match b with dumpChunkBackoffer attempt _ _ => attempt | noopBackoffer attempt => attempt end.

(** src/export/retry.go:83-86 dumpChunkBackoffer.Reset *)
Definition Reset (b : backoffer) : backoffer :=
  match b with
  | dumpChunkBackoffer _ _ maxDelayTime =>
      dumpChunkBackoffer dumpChunkRetryTime dumpChunkWaitInterval maxDelayTime
  | noopBackoffer _ => noopBackoffer 1
  end.

(** ** The retry loop *)

(** What the loop returns: the errors it accumulated ([[]] is the nil error),
    the delays it waited, the back-off and the environment. *)
Record retried (E : Type) := mkRetried {
  errs : list error;
  delays : list Z;
  backoff_after : backoffer;
  env_after : E
}.
Arguments mkRetried {E}.
Arguments errs {E}.
Arguments delays {E}.
Arguments backoff_after {E}.
Arguments env_after {E}.

(** [done k] says whether the select after the k-th failed attempt takes the
    branch of the cancelled context.  [None]: out of fuel.
    src/export/retry.go:33-48 WithRetry *)
Fixpoint WithRetry {E} (fuel : nat) (fn : E -> option error * E) (done : nat -> bool)
    (allErrors : list error) (ds : list Z) (b : backoffer) (e : E) : option (retried E) :=
  match fuel with
  | O => None
  | S fuel' =>
      if Attempt b <=? 0 then Some (mkRetried allErrors ds b e)
      else
        let '(err, e') := fn e in
        match err with
        | None => Some (mkRetried [] ds b e')
        | Some x =>
            let allErrors := allErrors ++ [x] in
            let '(d, b') := NextBackoff b in
            if done (length allErrors) then Some (mkRetried allErrors ds b' e')
            else WithRetry fuel' fn done allErrors (ds ++ [d]) b' e'
        end
  end.

(** Enough fuel for every back-off of the program. *)
Definition retry_fuel : nat := 4.

Section Queries.
Context `{FoldLib} {E : Type}.
Variable query : E -> string -> list string -> result table_rows * E.
Variable rebuild : E -> result unit * E.
Variable done : nat -> bool.

(** src/export/conn.go:14-20 BaseConn *)
Record BaseConn := mkBaseConn {
  DBConn : E;
  backOffer : backoffer;
  hasRebuild : bool
}.

(** src/export/conn.go:22-29 newBaseConn *)
Definition newBaseConn (conn : E) (shouldRetry : bool) : BaseConn :=
  mkBaseConn conn (newRebuildConnBackOffer shouldRetry) shouldRetry.

(** From the second attempt on the connection is rebuilt first. *)
Definition before_attempt (hasRebuild : bool) (retryTime : Z) (e : E) : result unit * E :=
  if (1 <? retryTime) && hasRebuild then rebuild e else (Ok tt, e).

(** src/export/conn.go:34-50 BaseConn.QuerySQL *)
Definition QuerySQL_attempt {A} (hasRebuild : bool)
    (handleOneRow : A -> list (option string) -> result A) (reset : A -> A)
    (q : string) (args : list string) (st : Z * A * E) : option error * (Z * A * E) :=
  let '(retryTime, acc, e) := st in
  let retryTime := retryTime + 1 in
  match before_attempt hasRebuild retryTime e with
  | (Err x, e) => (Some x, (retryTime, acc, e))
  | (Ok _, e) =>
      let fmt := "sql: %s, args: %s" in
      let '(err, acc, e) :=
        match query e q args with
        | (Err x, e) => (Some x, acc, e)
        | (Ok rows, e) =>
            match handle_rows handleOneRow (data rows) acc with
            | (acc, Some x) => (Some x, acc, e)
            | (acc, None) => (rows_err rows, acc, e)
            end
        end in
      match err with
      | Some x => (Some (EAnnotate x fmt (AStr q :: map AStr args)), (retryTime, reset acc, e))
      | None => (None, (retryTime, acc, e))
      end
  end.

(** src/export/conn.go:31-53 BaseConn.QuerySQL *)
Definition QuerySQL {A} (conn : BaseConn) (handleOneRow : A -> list (option string) -> result A)
    (reset : A -> A) (acc : A) (q : string) (args : list string)
    : option (list error * A * BaseConn) :=
  r ← WithRetry retry_fuel
        (QuerySQL_attempt (hasRebuild conn) handleOneRow reset q args) done [] []
        (backOffer conn) (0, acc, DBConn conn);
  let '(_, acc, e) := env_after r in
  Some (errs r, acc, mkBaseConn e (Reset (backoff_after r)) (hasRebuild conn)).

(** src/export/conn.go:59-82 BaseConn.QuerySQLWithColumns *)
Definition QuerySQLWithColumns_attempt (hasRebuild : bool) (cols : list string)
    (q : string) (args : list string) (st : Z * list (list string) * E)
    : option error * (Z * list (list string) * E) :=
  let '(retryTime, results, e) := st in
  let retryTime := retryTime + 1 in
  match before_attempt hasRebuild retryTime e with
  | (Err x, e) => (Some x, (retryTime, results, e))
  | (Ok _, e) =>
      match query e q args with
      | (Err x, e) => (Some (EAnnotate x "sql: %s" [AStr q]), (retryTime, results, e))
      | (Ok rows, e) =>
          match GetSpecifiedColumnValuesAndClose rows cols with
          | (_, Some x) => (Some (EAnnotate x "sql: %s" [AStr q]), (retryTime, [], e))
          | (strs, None) => (None, (retryTime, strs, e))
          end
      end
  end.

(** src/export/conn.go:55-85 BaseConn.QuerySQLWithColumns *)
Definition QuerySQLWithColumns (conn : BaseConn) (cols : list string) (q : string)
    (args : list string) : option (list error * list (list string) * BaseConn) :=
  r ← WithRetry retry_fuel (QuerySQLWithColumns_attempt (hasRebuild conn) cols q args) done [] []
        (backOffer conn) (0, [], DBConn conn);
  let '(_, results, e) := env_after r in
  Some (errs r, results, mkBaseConn e (Reset (backoff_after r)) (hasRebuild conn)).

(** One attempt: what the server answers goes to the caller's [canRetryFunc],
    whose error decides.
    src/export/conn.go:90-105 BaseConn.ExecSQL *)
Definition ExecSQL_attempt {R} (exec : E -> string -> list string -> result R * E)
    (canRetryFunc : result R -> option error) (hasRebuild : bool) (q : string) (args : list string)
    (st : Z * E) : option error * (Z * E) :=
  let '(retryTime, e) := st in
  let retryTime := retryTime + 1 in
  match before_attempt hasRebuild retryTime e with
  | (Err x, e) => (Some x, (retryTime, e))
  | (Ok _, e) => let '(res, e) := exec e q args in (canRetryFunc res, (retryTime, e))
  end.

(** src/export/conn.go:88-108 BaseConn.ExecSQL *)
Definition ExecSQL {R} (exec : E -> string -> list string -> result R * E)
    (canRetryFunc : result R -> option error) (conn : BaseConn) (q : string) (args : list string)
    : option (list error * BaseConn) :=
  r ← WithRetry retry_fuel (ExecSQL_attempt exec canRetryFunc (hasRebuild conn) q args) done [] []
        (backOffer conn) (0, DBConn conn);
  Some (errs r, mkBaseConn (snd (env_after r)) (Reset (backoff_after r)) (hasRebuild conn)).
End Queries.

(** ** The retry loop terminates and reports every failed attempt *)

(** The attempts of a run, one after the other: their errors, and the
    environment after them. *)
Fixpoint attempts {E} (n : nat) (fn : E -> option error * E) (e : E) : list (option error) * E :=
  match n with
  | O => ([], e)
  | S n' => let '(x, e1) := fn e in let '(xs, e2) := attempts n' fn e1 in (x :: xs, e2)
  end.

Lemma attempts_length {E} n (fn : E -> option error * E) e : length (fst (attempts n fn e)) = n.
Proof.
  revert e. induction n as [|n IH]; intros e; cbn; [done|]. destruct (fn e) as [x e1].
  specialize (IH e1). destruct (attempts n fn e1). cbn in *. by rewrite IH.
Qed.

Lemma next_attempt b : Attempt (snd (NextBackoff b)) = Attempt b - 1.
Proof. destruct b; cbn; [by destruct (_ <? _)|done]. Qed.

(** Every run of the loop makes between one and [Attempt b] calls, stops at
    the first success, and otherwise returns the errors of all its calls. *)
Lemma WithRetry_calls {E} (fn : E -> option error * E) done fuel :
  forall b es ds e, Z.max 0 (Attempt b) < Z.of_nat fuel ->
  exists r n, WithRetry fuel fn done es ds b e = Some r /\
    Z.min 1 (Z.max 0 (Attempt b)) <= Z.of_nat n <= Z.max 0 (Attempt b) /\ env_after r = snd (attempts n fn e) /\
    ((exists xs, fst (attempts n fn e) = map Some xs ++ [None] /\ errs r = []) \/
     (exists xs, fst (attempts n fn e) = map Some xs /\ errs r = es ++ xs /\
        ((Z.of_nat n = Z.max 0 (Attempt b)) \/ done (length (es ++ xs)) = true))).
Proof.
  induction fuel as [|fuel IH]; intros b es ds e Hb.
  - lia.
  - cbn [WithRetry]. destruct (Z.leb_spec (Attempt b) 0).
    + exists (mkRetried es ds b e), O. cbn. repeat split; [lia|lia|].
      right. exists []. rewrite app_nil_r. repeat split. left. lia.
    + destruct (fn e) as [[x|] e'] eqn:Ef.
      * pose proof (next_attempt b) as Hn. destruct (NextBackoff b) as [d b'] eqn:Eb. cbn in Hn.
        destruct (done (length (es ++ [x]))) eqn:Ed.
        -- exists (mkRetried (es ++ [x]) ds b' e'), 1%nat. cbn. rewrite Ef. cbn.
           repeat split; [lia|lia|]. right. exists [x]. auto.
        -- destruct (IH b' (es ++ [x]) (ds ++ [d]) e' ltac:(lia)) as (r & n & Hr & Hle & Henv & Hres).
           exists r, (S n). cbn. rewrite Ef. destruct (attempts n fn e') as [ys e2] eqn:Ea.
           cbn in *. repeat split; [done|lia|lia|done|].
           destruct Hres as [(xs & Hxs & Hn')|(xs & Hxs & Hn' & Hend)].
           ++ left. exists (x :: xs). by rewrite Hxs.
           ++ right. exists (x :: xs). rewrite <- app_assoc in Hn', Hend. rewrite Hxs.
              repeat split; [done|]. destruct Hend; [left; lia|by right].
      * exists (mkRetried [] ds b e'), 1%nat. cbn. rewrite Ef. cbn. repeat split; [lia|lia|].
        left. by exists [].
Qed.

(** The run of a loop with [limit] attempts, the result [r]: how many attempts
    there were, that only the last one may have succeeded, that the errors are
    those of all of them, and why there was no further attempt. *)
Definition tried {E} (fn : E -> option error * E) (done : nat -> bool) (limit : Z) (e : E) (r : retried E)
    : Prop :=
  exists n, 1 <= Z.of_nat n <= limit /\ env_after r = snd (attempts n fn e) /\
    ((errs r = [] /\ exists xs, fst (attempts n fn e) = map Some xs ++ [None]) \/
     (errs r <> [] /\ fst (attempts n fn e) = map Some (errs r) /\ (Z.of_nat n = limit \/ done n = true))).

Lemma WithRetry_tried {E} (fn : E -> option error * E) done fuel b e :
  0 < Attempt b < Z.of_nat fuel ->
  exists r, WithRetry fuel fn done [] [] b e = Some r /\ tried fn done (Attempt b) e r.
Proof.
  intros Hb. destruct (WithRetry_calls fn done fuel b [] [] e) as (r & n & Hr & Hn & He & Hres); [lia|].
  exists r. split; [exact Hr|]. exists n. split_and!; [lia|lia|exact He|].
  destruct Hres as [(xs & Hxs & Hes)|(xs & Hxs & Hes & Hend)]; [by eauto|right].
  cbn [app] in Hes, Hend. subst xs. pose proof (attempts_length n fn e) as Hl.
  rewrite Hxs, length_map in Hl. rewrite Hl in Hend. split_and!; [|done|].
  - intros E0. rewrite E0 in Hl. cbn in Hl. lia.
  - destruct Hend; [left; lia|by right].
Qed.

(** Reasoning about a run by an invariant [P] of the failing attempts and a
    postcondition [Q] of the successful one. *)
Lemma WithRetry_inv {E} (fn : E -> option error * E) done (P Q : E -> Prop) fuel :
  (forall e x e', P e -> fn e = (Some x, e') -> P e') ->
  (forall e e', P e -> fn e = (None, e') -> Q e') ->
  forall b es ds e r, WithRetry fuel fn done es ds b e = Some r -> P e ->
  es <> [] \/ 0 < Attempt b ->
  (errs r = [] /\ Q (env_after r)) \/ (errs r <> [] /\ P (env_after r)).
Proof.
  intros HP HQ. induction fuel as [|fuel IH]; intros b es ds e r; [done|].
  cbn [WithRetry]. destruct (Z.leb_spec (Attempt b) 0).
  - intros [= <-] Hp [Hes|]; [|lia]. right. done.
  - destruct (fn e) as [[x|] e'] eqn:Ef.
    + destruct (NextBackoff b) as [d b'].
      destruct (done _).
      * intros [= <-] Hp _. right. cbn. split; [by destruct es|eauto].
      * intros Hr Hp _. eapply IH; [exact Hr|eauto|]. left. by destruct es.
    + intros [= <-] Hp _. left. cbn. eauto.
Qed.

(** Two loops whose attempts agree under a relation of their environments. *)
Lemma WithRetry_sim {E1 E2} (R : E1 -> E2 -> Prop) (fn1 : E1 -> option error * E1) (fn2 : E2 -> option error * E2)
    done fuel :
  (forall e1 e2, R e1 e2 -> fst (fn1 e1) = fst (fn2 e2) /\ R (snd (fn1 e1)) (snd (fn2 e2))) ->
  forall es ds b e1 e2, R e1 e2 ->
  match WithRetry fuel fn1 done es ds b e1, WithRetry fuel fn2 done es ds b e2 with
  | Some r1, Some r2 =>
      errs r1 = errs r2 /\ delays r1 = delays r2 /\ backoff_after r1 = backoff_after r2 /\
      R (env_after r1) (env_after r2)
  | None, None => True
  | _, _ => False
  end.
Proof.
  intros Hfn. induction fuel as [|fuel IH]; intros es ds b e1 e2 HR; cbn [WithRetry]; [done|].
  destruct (Attempt b <=? 0); [done|]. destruct (Hfn e1 e2 HR) as [He Hr].
  destruct (fn1 e1) as [x1 e1'], (fn2 e2) as [x2 e2']. cbn in He, Hr. subst x2.
  destruct x1 as [x|]; [|done]. destruct (NextBackoff b) as [d b']. destruct (done _); [done|]. by apply IH.
Qed.

Lemma WithRetry_total {E} (fn : E -> option error * E) done b e :
  Attempt b <= dumpChunkRetryTime ->
  exists r, WithRetry retry_fuel fn done [] [] b e = Some r.
Proof.
  intros Hb. destruct (WithRetry_calls fn done retry_fuel b [] [] e) as (r & n & Hr & _).
  - unfold dumpChunkRetryTime, retry_fuel in *. lia.
  - eauto.
Qed.

(** ** Properties *)

(** C27: the retry loop always returns; with the back-off of a rebuildable
    connection it makes at most three attempts, waits at most 100, 200 and
    200 ms between them, and returns the nil error exactly when its last
    attempt succeeded; otherwise its error lists the error of every attempt. *)
Theorem retry_bounded {E} (fn : E -> option error * E) (e : E) :
  exists r n,
    WithRetry retry_fuel fn (fun _ => false) [] [] (newRebuildConnBackOffer true) e = Some r /\
    (1 <= n <= 3)%nat /\ env_after r = snd (attempts n fn e) /\
    delays r = take (length (delays r)) [100; 200; 200] /\
    ((errs r = [] /\ exists xs, fst (attempts n fn e) = map Some xs ++ [None]) \/
     (n = 3%nat /\ map Some (errs r) = fst (attempts n fn e))).
Proof.
  unfold retry_fuel. cbn.
  destruct (fn e) as [[x1|] e1] eqn:E1; cbn.
  - destruct (fn e1) as [[x2|] e2] eqn:E2; cbn.
    + destruct (fn e2) as [[x3|] e3] eqn:E3; cbn.
      * eexists _, 3%nat. cbn. rewrite E1, E2, E3. cbn. repeat split; [lia..|]. by right.
      * eexists _, 3%nat. cbn. rewrite E1, E2, E3. cbn. repeat split; [lia..|].
        left. split; [done|]. by exists [x1; x2].
    + eexists _, 2%nat. cbn. rewrite E1, E2. cbn. repeat split; [lia..|].
      left. split; [done|]. by exists [x1].
  - eexists _, 1%nat. cbn. rewrite E1. cbn. repeat split; [lia..|]. left. split; [done|]. by exists [].
Qed.

Section QueryProperties.
Context `{FoldLib} {E : Type}.
Variable query : E -> string -> list string -> result table_rows * E.
Variable rebuild : E -> result unit * E.
Variable done : nat -> bool.

Lemma QuerySQL_attempt_spec {A} hb (handler : A -> list (option string) -> result A)
    (reset : A -> A) (a0 : A) q args st x st' :
  (forall a, reset a = a0) -> st.1.2 = a0 ->
  QuerySQL_attempt query rebuild hb handler reset q args st = (x, st') ->
  match x with
  | Some _ => st'.1.2 = a0
  | None => exists e1 e2 rows, query e1 q args = (Ok rows, e2) /\ rows_err rows = None /\
              handle_rows handler (data rows) a0 = (st'.1.2, None)
  end.
Proof.
  intros Hreset. destruct st as [[n acc] e]. cbn [fst snd]. intros ->. unfold QuerySQL_attempt.
  destruct (before_attempt _ _ _ _) as [[[]|y] e1]; [|by intros [= <- <-]].
  destruct (query e1 q args) as [[rows|y] e2] eqn:Eq; [|intros [= <- <-]; apply Hreset].
  destruct (handle_rows handler (data rows) a0) as [acc [y|]] eqn:Eh;
    [intros [= <- <-]; apply Hreset|].
  destruct (rows_err rows) eqn:Er; [intros [= <- <-]; apply Hreset|].
  intros [= <- <-]. eauto 10.
Qed.

Lemma Reset_after {T} (fn : T -> option error * T) sr e r :
  WithRetry retry_fuel fn done [] [] (newRebuildConnBackOffer sr) e = Some r ->
  Reset (backoff_after r) = newRebuildConnBackOffer sr.
Proof.
  unfold retry_fuel. destruct sr; cbn; repeat (destruct (fn _) as [[?|] ?]; cbn);
    repeat (destruct (done _); cbn); by intros [= <-].
Qed.

(** C19: a query that is retried after failures, which may come in the middle
    of its rows, leaves no trace of the failed attempts: when [QuerySQL]
    returns nil, the handler has accumulated the rows of one complete,
    successful execution of the query from the initial value, and nothing
    else; when it returns an error, the accumulator is back at its initial
    value.  It always returns, and leaves its back-off ready for the next
    query. *)
Theorem query_retry_no_duplicates {A} (e : E) (shouldRetry : bool)
    (handler : A -> list (option string) -> result A) (reset : A -> A) (a0 : A) q args :
  (forall a, reset a = a0) ->
  exists es acc conn,
    QuerySQL query rebuild done (newBaseConn e shouldRetry) handler reset a0 q args =
      Some (es, acc, conn) /\
    backOffer conn = newRebuildConnBackOffer shouldRetry /\
    ((es = [] /\ exists e1 e2 rows, query e1 q args = (Ok rows, e2) /\ rows_err rows = None /\
        handle_rows handler (data rows) a0 = (acc, None)) \/
     (es <> [] /\ acc = a0)).
Proof.
  intros Hreset. unfold QuerySQL, newBaseConn. cbn [backOffer hasRebuild DBConn].
  set (fn := QuerySQL_attempt _ _ _ _ _ _ _).
  destruct (WithRetry_total fn done (newRebuildConnBackOffer shouldRetry) (0, a0, e))
    as [r Hr]; [by destruct shouldRetry|].
  rewrite Hr. cbn [mbind option_bind]. destruct (env_after r) as [[n acc] e'] eqn:Er.
  eexists _, _, _. split; [reflexivity|]. cbn [backOffer].
  split; [eapply Reset_after; exact Hr|].
  pose (Q := fun st : Z * A * E => exists e1 e2 rows, query e1 q args = (Ok rows, e2) /\
    rows_err rows = None /\ handle_rows handler (data rows) a0 = (st.1.2, None)).
  assert (Hpos : 0 < Attempt (newRebuildConnBackOffer shouldRetry)) by by destruct shouldRetry.
  pose proof (WithRetry_inv fn done (fun st => st.1.2 = a0) Q retry_fuel
    (fun st x st' Hp H => QuerySQL_attempt_spec _ _ _ _ _ _ st (Some x) st' Hreset Hp H)
    (fun st st' Hp H => QuerySQL_attempt_spec _ _ _ _ _ _ st None st' Hreset Hp H)
    _ _ _ _ _ Hr eq_refl (or_intror Hpos)) as H1.
  rewrite Er in H1. exact H1.
Qed.
End QueryProperties.

Lemma query_retry_no_duplicates_witness :
  let query := fun (e : nat) (_ : string) (_ : list string) =>
    (Ok (mkRows ["n"] [[Some "7"]; [None]] (if Nat.eqb e 0 then Some (EForeign "broken") else None)),
     S e) in
  let handler := fun (acc : list (list (option string))) row => Ok (acc ++ [row]) in
  exists es acc conn,
    QuerySQL query (fun e => (Ok tt, e)) (fun _ => false) (newBaseConn O true) handler
      (fun _ => []) [] "SELECT n FROM t" [] = Some (es, acc, conn) /\
    backOffer conn = newRebuildConnBackOffer true /\
    ((es = [] /\ exists e1 e2 rows, query e1 "SELECT n FROM t" [] = (Ok rows, e2) /\
        rows_err rows = None /\ handle_rows handler (data rows) [] = (acc, None)) \/
     (es <> [] /\ acc = [])).
Proof.
  cbn zeta. refine (query_retry_no_duplicates _ _ _ O true _ _ [] "SELECT n FROM t" [] _).
  reflexivity.
Defined.
