(* ===== verification/Tables.v ===== *)
(** * Tables of a dump (export/prepare.go)

    Table types, table infos and the map from schemas to tables that the
    later stages share.  A Go map is a [gmap]; the pointers to table infos
    are never shared between two entries, so the infos are values. *)

From S2P Require Import Prelude GoStrings.

(** src/export/prepare.go:100-111 TableType *)
Inductive TableType := TableTypeBase | TableTypeView | TableTypeSequence.

#[export] Instance TableType_eq_dec : EqDecision TableType.
Proof. solve_decision. Defined.

(** src/export/prepare.go:113-120 TableTypeBaseStr *)
Definition TableTypeBaseStr : string := "BASE TABLE".
Definition TableTypeViewStr : string := "VIEW".
Definition TableTypeSequenceStr : string := "SEQUENCE".

(** src/export/prepare.go:122-133 TableType.String *)
Definition TableType_String (t : TableType) : string :=
  match t with
  | TableTypeBase => TableTypeBaseStr
  | TableTypeView => TableTypeViewStr
  | TableTypeSequence => TableTypeSequenceStr
  end.

(** src/export/prepare.go:136-147 ParseTableType *)
Definition ParseTableType (s : string) : result TableType :=
  if one_of s [TableTypeBaseStr] then Ok TableTypeBase
  else if one_of s [TableTypeViewStr] then Ok TableTypeView
  else if one_of s [TableTypeSequenceStr] then Ok TableTypeSequence
  else Err (EErrorf "unknown table type %s" [AStr s]).

(** src/export/prepare.go:150-154 TableInfo *)
Record TableInfo := mkTableInfo {
  tName : string;
  tAvgRowLength : Z;
  tType : TableType
}.

(** src/export/prepare.go:157-159 TableInfo.Equals *)
Definition Equals (t other : TableInfo) : bool :=
  String.eqb (tName t) (tName other) && bool_decide (tType t = tType other).

(** The type [DatabaseTables] of export/prepare.go. *)
Abbreviation DatabaseTables := (gmap string (list TableInfo)).

(** src/export/prepare.go:165-167 NewDatabaseTables *)
Definition NewDatabaseTables : DatabaseTables := ∅.

(** The entries in the order of the map.
    src/export/prepare.go:199-216 DatabaseTables.Literal *)
Definition Literal (entries : list (string * list TableInfo)) : string :=
  "tables list" +:+ str1 newline +:+ str1 newline +:+
  sconcat (map (fun '(dbName, tables) =>
    "schema " +:+ dbName +:+ " :[" +:+ sconcat (map (fun tbl => tName tbl +:+ ", ") tables) +:+ "]") entries).

(** The slice of a schema; the nil slice when the key is missing. *)
Definition tables_of (d : DatabaseTables) (db : string) : list TableInfo := default [] (d !! db).

(** src/export/prepare.go:170-173 DatabaseTables.AppendTable *)
Definition AppendTable (d : DatabaseTables) (dbName : string) (table : TableInfo) : DatabaseTables :=
  <[dbName := tables_of d dbName ++ [table]]> d.

(** [None] is the panic of [avgRowLengths[i]].
    src/export/prepare.go:176-181 DatabaseTables.AppendTables *)
Fixpoint AppendTables (d : DatabaseTables) (dbName : string) (tableNames : list string)
    (avgRowLengths : list Z) : option DatabaseTables :=
  match tableNames, avgRowLengths with
  | [], _ => Some d
  | t :: ts, a :: avgs =>
      AppendTables (AppendTable d dbName (mkTableInfo t a TableTypeBase)) dbName ts avgs
  | _ :: _, [] => None
  end.

(** src/export/prepare.go:184-189 DatabaseTables.AppendViews *)
Definition AppendViews (d : DatabaseTables) (dbName : string) (viewNames : list string)
    : DatabaseTables :=
  foldl (fun d v => AppendTable d dbName (mkTableInfo v 0 TableTypeView)) d viewNames.

(** src/export/prepare.go:192-196 DatabaseTables.Merge *)
Definition Merge (d other : DatabaseTables) : DatabaseTables :=
  map_fold (fun name infos d => <[name := tables_of d name ++ infos]> d) d other.

(** src/export/prepare.go:219-230 DatabaseTablesToMap *)
Definition DatabaseTablesToMap (d : DatabaseTables) : gmap string (gset string) :=
  (fun infos => list_to_set (map tName (List.filter (fun i => bool_decide (tType i = TableTypeBase)) infos)))
    <$> d.

(** ** Lookups *)

Lemma tables_of_insert d db l db' :
  tables_of (<[db := l]> d) db' = if decide (db = db') then l else tables_of d db'.
Proof.
  unfold tables_of. destruct (decide (db = db')) as [->|Hne].
  - by rewrite lookup_insert_eq.
  - by rewrite lookup_insert_ne.
Qed.

Lemma tables_of_append d db t db' :
  tables_of (AppendTable d db t) db' =
  if decide (db = db') then tables_of d db' ++ [t] else tables_of d db'.
Proof. unfold AppendTable. rewrite tables_of_insert. by destruct (decide (db = db')) as [->|]. Qed.

Lemma lookup_append_ne d db t db' : db <> db' -> AppendTable d db t !! db' = d !! db'.
Proof. intros. unfold AppendTable. by rewrite lookup_insert_ne. Qed.

Lemma tables_of_appends d db ts avgs d' db' :
  AppendTables d db ts avgs = Some d' ->
  tables_of d' db' =
  if decide (db = db')
  then tables_of d db' ++ zip_with (fun t a => mkTableInfo t a TableTypeBase) ts avgs
  else tables_of d db'.
Proof.
  revert d avgs. induction ts as [|t ts IH]; intros d [|a avgs]; cbn; try done.
  - intros [= <-]. destruct (decide _); by rewrite ?app_nil_r.
  - intros [= <-]. destruct (decide _); by rewrite ?app_nil_r.
  - intros H. rewrite (IH _ _ H), tables_of_append.
    destruct (decide (db = db')); [|done]. by rewrite <- app_assoc.
Qed.

Lemma tables_of_merge d other db :
  tables_of (Merge d other) db = tables_of d db ++ tables_of other db.
Proof.
  unfold Merge. apply (map_fold_weak_ind
    (fun r m => forall db, tables_of r db = tables_of d db ++ tables_of m db));
    [|clear db other].
  - intros db'. unfold tables_of at 3. by rewrite lookup_empty, app_nil_r.
  - intros name infos m r Hm IH db'. rewrite !tables_of_insert, !IH.
    destruct (decide (name = db')) as [<-|]; [|done]. unfold tables_of at 2. by rewrite Hm, app_nil_r.
Qed.

(** A schema's tables in the set view are its base tables. *)
Lemma DatabaseTablesToMap_spec d db name :
  (exists s, DatabaseTablesToMap d !! db = Some s /\ name ∈ s) <->
  (exists t, t ∈ tables_of d db /\ tType t = TableTypeBase /\ tName t = name).
Proof.
  unfold DatabaseTablesToMap, tables_of. rewrite lookup_fmap.
  destruct (d !! db) as [infos|] eqn:E; cbn.
  - split.
    + intros (s & [= <-] & Hs). apply elem_of_list_to_set, list_elem_of_fmap in Hs as (t & -> & Ht).
      apply list_elem_of_In, filter_In in Ht as [Ht Hb]. apply bool_decide_eq_true in Hb.
      exists t. by rewrite list_elem_of_In.
    + intros (t & Ht & Hb & <-). eexists. split; [done|]. apply elem_of_list_to_set, list_elem_of_fmap.
      exists t. split; [done|]. apply list_elem_of_In, filter_In. rewrite <- list_elem_of_In.
      by rewrite bool_decide_eq_true.
  - split; [by intros (s & ? & _)|]. intros (t & Ht & _). by apply elem_of_nil in Ht.
Qed.
