(* ===== verification/Cdc.v ===== *)
(** * Replication slots (export/cdc.go, export/consistency.go)

    The validation of slot and plugin names, and the creation and removal of
    a replication slot.  Replication connections belong to the pgx library
    and the server: [open] and [exec] are parameters that act on an arbitrary
    environment and may fail at any call. *)

From S2P Require Import Prelude GoStrings.

(** src/export/cdc.go:17-22 cdcSlotInfo *)
Record cdcSlotInfo := mkSlotInfo {
  SlotName : string;
  ConsistentPoint : string;
  SnapshotName : string;
  OutputPlugin : string
}.

(** The bytes of a bare identifier of the replication protocol.
    src/export/cdc.go:38-47 ValidateCDCName *)
Definition cdc_byte (c : ascii) : bool := is_lower c || is_digit c || Ascii.eqb c "_".

(** The loop over the bytes: the first invalid one is reported. *)
Fixpoint first_invalid (name : string) : option ascii :=
  match name with
  | EmptyString => None
  | String c s => if cdc_byte c then first_invalid s else Some c
  end.

(** src/export/cdc.go:31-49 ValidateCDCName *)
Definition ValidateCDCName (flag name : string) : result unit :=
  if String.eqb name EmptyString then Err (EErrorf "%s must not be empty" [AStr flag])
  else if 63 <? slen name then
    Err (EErrorf "%s %q exceeds the 63-character limit" [AStr flag; AStr name])
  else match first_invalid name with
       | Some c =>
           Err (EErrorf
                  "%s %q contains invalid character %q (only [a-z0-9_] allowed in replication-protocol identifiers)"
                  [AStr flag; AStr name; AStr (str1 c)])
       | None => Ok tt
       end.

(** src/export/consistency.go:184-194 escapeStringLiteral *)
Definition escapeStringLiteral (s : string) : string := double squote s.

Definition create_slot_stmt (name plugin : string) : string :=
  "CREATE_REPLICATION_SLOT " +:+ name +:+ " LOGICAL " +:+ plugin +:+ " EXPORT_SNAPSHOT".

Definition drop_slot_stmt (name : string) : string := "DROP_REPLICATION_SLOT " +:+ name.

(** [strings.Contains]. *)
Fixpoint Contains (s sub : string) : bool :=
  has_prefix sub s ||
  match s with EmptyString => false | String _ s' => Contains s' sub end.

(** What [pgconn.ParseConfig] makes of a connection string: its parameters,
    none in the nil map, and the rest. *)
Record pg_config := mkPgConfig { RuntimeParams : option (gmap string string); server : string }.

(** src/export/cdc.go:60-63 openReplicationConn *)
Definition with_replication (cfg : pg_config) : pg_config :=
  mkPgConfig (Some (<["replication" := "database"]> (default ∅ (RuntimeParams cfg)))) (server cfg).

(** [parse_config] and [connect] are [pgconn]'s.
    src/export/cdc.go:55-69 openReplicationConn *)
Definition openReplicationConn {E Conn} (parse_config : string -> result pg_config)
    (connect : E -> pg_config -> result Conn * E) (e : E) (dsn : string) : result Conn * E :=
  match parse_config dsn with
  | Err x => (Err (EAnnotate x "parse replication DSN" []), e)
  | Ok cfg =>
      match connect e (with_replication cfg) with
      | (Err x, e) => (Err (EAnnotate x "open replication connection" []), e)
      | (Ok conn, e) => (Ok conn, e)
      end
  end.

Section Slots.
Context {E Conn : Type}.
(** [openReplicationConn] as above; [Exec ... ReadAll] and [Close] of a
    replication connection. *)
Variable open : E -> string -> result Conn * E.
Variable exec : E -> Conn -> string -> result (list (list string)) * E.
Variable close : E -> Conn -> E.
(** [err.Error()]. *)
Variable error_text : error -> string.

(** The checks on the rows of CREATE_REPLICATION_SLOT.
    src/export/cdc.go:92-106 createCDCSlot *)
Definition slot_of_rows (rows : list (list string)) : result cdcSlotInfo :=
  match rows with
  | [] => Err (EErrorf "CREATE_REPLICATION_SLOT returned no rows" [])
  | row :: _ =>
      match row with
      | slot :: point :: snapshot :: plugin :: _ => Ok (mkSlotInfo slot point snapshot plugin)
      | _ => Err (EErrorf "CREATE_REPLICATION_SLOT returned %d columns, expected 4"
                    [AInt (Z.of_nat (length row))])
      end
  end.

(** src/export/cdc.go:75-108 createCDCSlot *)
Definition createCDCSlot (e : E) (dsn name plugin : string) : result (Conn * cdcSlotInfo) * E :=
  match ValidateCDCName "--cdc-slot" name with
  | Err x => (Err x, e)
  | Ok _ =>
  match ValidateCDCName "--cdc-plugin" plugin with
  | Err x => (Err x, e)
  | Ok _ =>
  match open e dsn with
  | (Err x, e) => (Err x, e)
  | (Ok conn, e) =>
  match exec e conn (create_slot_stmt name plugin) with
  | (Err x, e) =>
      (Err (EAnnotate x "CREATE_REPLICATION_SLOT %s" [AStr name]), close e conn)
  | (Ok rows, e) =>
  match slot_of_rows rows with
  | Err x => (Err x, close e conn)
  | Ok info => (Ok (conn, info), e)
  end end end end end.

(** src/export/cdc.go:114-132 dropCDCSlot *)
Definition dropCDCSlot (e : E) (dsn name : string) : result unit * E :=
  match ValidateCDCName "--cdc-slot" name with
  | Err x => (Err x, e)
  | Ok _ =>
  match open e dsn with
  | (Err x, e) => (Err x, e)
  | (Ok conn, e) =>
      let '(r, e) := exec e conn (drop_slot_stmt name) in
      let e := close e conn in
      match r with
      | Ok _ => (Ok tt, e)
      | Err x =>
          if Contains (error_text x) "does not exist" then (Ok tt, e)
          else (Err (EAnnotate x "DROP_REPLICATION_SLOT %s" [AStr name]), e)
      end
  end end.
End Slots.

(** ** A validated name is one word of a replication command *)

Lemma first_invalid_None name : first_invalid name = None <-> sall cdc_byte name = true.
Proof.
  induction name as [|c s IH]; simpl; [done|]. destruct (cdc_byte c); simpl; [done|].
  split; done.
Qed.

Lemma ValidateCDCName_ok flag name :
  ValidateCDCName flag name = Ok tt <->
  name <> EmptyString /\ slen name <= 63 /\ sall cdc_byte name = true.
Proof.
  unfold ValidateCDCName. destruct (String.eqb_spec name EmptyString) as [->|Hne].
  - split; [done|]. by intros [? _].
  - destruct (Z.ltb_spec 63 (slen name)).
    + split; [done|]. intros (_ & ? & _). lia.
    + rewrite <- first_invalid_None. destruct (first_invalid name); split; try done.
      by intros (_ & _ & ?).
Qed.

(** The server's reading of a replication command, after its scanner: white
    space separates; a run of letters, digits, [_] and [$] that starts with no
    digit is a keyword, in upper case, or a name, which is folded to lower
    case; a run of digits is a number; any other byte, those of quotes,
    comments and separators among them, stands for itself. *)
Inductive repl_token :=
  | TKeyword (w : string)
  | TIdent (w : string)
  | TNumber (w : string)
  | TByte (c : ascii).

#[export] Instance repl_token_eq_dec : EqDecision repl_token.
Proof. solve_decision. Defined.

Definition repl_space (c : ascii) : bool :=
  Ascii.eqb c " " || ((9 <=? N_of_ascii c) && (N_of_ascii c <=? 13))%N.
Definition ident_start (c : ascii) : bool :=
  is_lower c || is_upper c || Ascii.eqb c "_" || (128 <=? N_of_ascii c)%N.
Definition ident_cont (c : ascii) : bool := ident_start c || is_digit c || Ascii.eqb c "$".

Definition repl_keywords : list string :=
  ["BASE_BACKUP"; "IDENTIFY_SYSTEM"; "READ_REPLICATION_SLOT"; "SHOW"; "TIMELINE"; "START_REPLICATION";
   "CREATE_REPLICATION_SLOT"; "DROP_REPLICATION_SLOT"; "ALTER_REPLICATION_SLOT"; "TIMELINE_HISTORY";
   "PHYSICAL"; "RESERVE_WAL"; "LOGICAL"; "SLOT"; "TEMPORARY"; "TWO_PHASE"; "EXPORT_SNAPSHOT";
   "NOEXPORT_SNAPSHOT"; "USE_SNAPSHOT"; "WAIT"; "UPLOAD_MANIFEST"].

(** The run of bytes that is being read. *)
Inductive lex_run := RNone | RWord (w : string) | RNumber (w : string).

Definition close_run (r : lex_run) : list repl_token :=
  match r with
  | RNone => []
  | RWord w => [if one_of w repl_keywords then TKeyword w else TIdent (smap lower_byte w)]
  | RNumber w => [TNumber w]
  end.

Definition open_run (c : ascii) : list repl_token * lex_run :=
  if repl_space c then ([], RNone)
  else if ident_start c then ([], RWord (str1 c))
  else if is_digit c then ([], RNumber (str1 c))
  else ([TByte c], RNone).

Fixpoint repl_lex (r : lex_run) (s : string) : list repl_token :=
  match s with
  | EmptyString => close_run r
  | String c s' =>
      match r with
      | RWord w =>
          if ident_cont c then repl_lex (RWord (w +:+ str1 c)) s'
          else close_run r ++ fst (open_run c) ++ repl_lex (snd (open_run c)) s'
      | RNumber w =>
          if is_digit c then repl_lex (RNumber (w +:+ str1 c)) s'
          else close_run r ++ fst (open_run c) ++ repl_lex (snd (open_run c)) s'
      | RNone => fst (open_run c) ++ repl_lex (snd (open_run c)) s'
      end
  end.

Definition repl_tokens (s : string) : list repl_token := repl_lex RNone s.

(** How a valid name is read: whole, unless it starts with a digit. *)
Definition name_tokens (name : string) : list repl_token :=
  let '(digits, w) := span is_digit name in
  (if String.eqb digits EmptyString then [] else [TNumber digits]) ++
  (if String.eqb w EmptyString then [] else [TIdent w]).

Definition create_tokens (slot plugin : string) : list repl_token :=
  [TKeyword "CREATE_REPLICATION_SLOT"] ++ name_tokens slot ++ [TKeyword "LOGICAL"] ++ name_tokens plugin ++
  [TKeyword "EXPORT_SNAPSHOT"].
Definition drop_tokens (slot : string) : list repl_token := [TKeyword "DROP_REPLICATION_SLOT"] ++ name_tokens slot.

Lemma repl_lex_blank s : forall r rest,
  repl_lex r (s +:+ String " " rest) = repl_lex r s ++ repl_lex RNone rest.
Proof.
  induction s as [|c s IH]; intros r rest; [by destruct r|].
  cbn [String.append repl_lex]. destruct r; rewrite !IH; repeat case_match; by rewrite <- ?(assoc_L (++)).
Qed.

Lemma cdc_byte_class c :
  cdc_byte c = true ->
  repl_space c = false /\ ident_cont c = true /\ ident_start c = negb (is_digit c) /\ lower_byte c = c /\
  is_upper c = false.
Proof.
  assert (forallb (fun n => let c := ascii_of_nat n in negb (cdc_byte c) ||
    (negb (repl_space c) && ident_cont c && Bool.eqb (ident_start c) (negb (is_digit c)) &&
     Ascii.eqb (lower_byte c) c && negb (is_upper c))) (seq 0 256) = true) as H by (vm_compute; reflexivity).
  rewrite forallb_forall in H. specialize (H (nat_of_ascii c) ltac:(apply in_seq; pose proof (nat_ascii_bounded c); lia)).
  cbn zeta in H. rewrite ascii_nat_embedding in H. intros Hc. rewrite Hc in H. cbn [negb orb] in H.
  apply andb_prop in H as [[[[H1 H2]%andb_prop H3]%andb_prop H4]%andb_prop H5].
  apply negb_true_iff in H1, H5. apply eqb_prop in H3. apply Ascii.eqb_eq in H4. done.
Qed.

Lemma cdc_lower s : sall cdc_byte s = true -> smap lower_byte s = s.
Proof.
  induction s as [|c s IH]; [done|]. cbn. intros [Hc Hs]%andb_prop.
  apply cdc_byte_class in Hc as (_ & _ & _ & -> & _). by rewrite IH.
Qed.

Lemma cdc_not_keyword s : sall cdc_byte s = true -> one_of s repl_keywords = false.
Proof.
  intros Hs. unfold one_of. apply not_true_iff_false. intros [k [Hk ->%String.eqb_eq]]%existsb_exists.
  assert (forallb (fun k => negb (sall cdc_byte k)) repl_keywords = true) as H by (vm_compute; reflexivity).
  rewrite forallb_forall in H. specialize (H k Hk). by rewrite Hs in H.
Qed.

Lemma repl_lex_word s : forall w,
  sall cdc_byte (w +:+ s) = true -> sall cdc_byte s = true -> repl_lex (RWord w) s = [TIdent (w +:+ s)].
Proof.
  induction s as [|c s IH]; intros w Hw Hs.
  - rewrite sapp_nil_r in *. cbn [repl_lex close_run]. by rewrite cdc_not_keyword, cdc_lower.
  - cbn in Hs. apply andb_prop in Hs as [Hc Hs]. cbn [repl_lex].
    destruct (cdc_byte_class c Hc) as (_ & -> & _). rewrite IH; [|by rewrite sapp_assoc|done].
    by rewrite sapp_assoc.
Qed.

Lemma repl_lex_name s : sall cdc_byte s = true -> repl_tokens s = name_tokens s.
Proof.
  intros Hs. unfold name_tokens, repl_tokens.
  assert (forall s, sall cdc_byte s = true -> forall w, repl_lex (RNumber w) s =
    let '(d, v) := span is_digit s in [TNumber (w +:+ d)] ++ (if String.eqb v EmptyString then [] else [TIdent v])) as Hn.
  { clear s Hs. intros s. induction s as [|c s IH]; intros Hs w; cbn [repl_lex span].
    { cbn. by rewrite sapp_nil_r. }
    pose proof Hs as Hall. cbn in Hs. apply andb_prop in Hs as [Hc Hs].
    destruct (cdc_byte_class c Hc) as (Hsp & _ & Hst & _). destruct (is_digit c) eqn:Hd.
    - rewrite IH by done. destruct (span is_digit s) as [d v]. by rewrite sapp_assoc.
    - unfold open_run. rewrite Hsp, Hst. cbn [negb fst snd close_run app].
      rewrite sapp_nil_r, repl_lex_word; [done|exact Hall|exact Hs]. }
  destruct s as [|c s]; [done|]. cbn [repl_lex span]. pose proof Hs as Hall. cbn in Hs.
  apply andb_prop in Hs as [Hc Hs]. destruct (cdc_byte_class c Hc) as (Hsp & _ & Hst & _).
  unfold open_run. rewrite Hsp, Hst. destruct (is_digit c) eqn:Hd; cbn [negb fst snd app].
  - rewrite Hn by done. destruct (span is_digit s) as [d v]. done.
  - by rewrite repl_lex_word.
Qed.

Lemma create_slot_tokens slot plugin :
  sall cdc_byte slot = true -> sall cdc_byte plugin = true ->
  repl_tokens (create_slot_stmt slot plugin) = create_tokens slot plugin.
Proof.
  intros Hs Hp. unfold create_slot_stmt, create_tokens. rewrite <- !repl_lex_name by done.
  change ("CREATE_REPLICATION_SLOT " +:+ slot +:+ " LOGICAL " +:+ plugin +:+ " EXPORT_SNAPSHOT")
    with ("CREATE_REPLICATION_SLOT" +:+ String " " (slot +:+ String " " ("LOGICAL" +:+ String " " (plugin +:+ String " " "EXPORT_SNAPSHOT")))).
  unfold repl_tokens. rewrite !repl_lex_blank. reflexivity.
Qed.

Lemma drop_slot_tokens slot :
  sall cdc_byte slot = true -> repl_tokens (drop_slot_stmt slot) = drop_tokens slot.
Proof.
  intros Hs. unfold drop_slot_stmt, drop_tokens. rewrite <- repl_lex_name by done.
  change ("DROP_REPLICATION_SLOT " +:+ slot) with ("DROP_REPLICATION_SLOT" +:+ String " " slot).
  unfold repl_tokens. by rewrite repl_lex_blank.
Qed.

Lemma name_tokens_whole name :
  match name with EmptyString => False | String c _ => is_digit c = false end -> name_tokens name = [TIdent name].
Proof. destruct name as [|c s]; [done|]. unfold name_tokens. cbn [span]. by intros ->. Qed.

(** C26: the only commands that the program sends on a replication connection
    are CREATE_REPLICATION_SLOT and DROP_REPLICATION_SLOT of the given names:
    the server's scanner finds in them the keywords that the program means
    and the names in their places, and nothing else, no option, quote,
    comment or second command.  Any other command may be answered in any way:
    the run does not change, whatever names are given.  A name that starts
    with a digit is accepted by the validation but is no name for the server,
    which reads a number. *)
Theorem cdc_statement_words {E Conn} (open : E -> string -> result Conn * E) exec exec' close error_text
    (e : E) dsn slot plugin :
  (forall e c s, repl_tokens s = create_tokens slot plugin \/ repl_tokens s = drop_tokens slot ->
     exec' e c s = exec e c s) ->
  createCDCSlot open exec' close e dsn slot plugin = createCDCSlot open exec close e dsn slot plugin /\
  dropCDCSlot open exec' close error_text e dsn slot = dropCDCSlot open exec close error_text e dsn slot /\
  (forall name, match name with EmptyString => False | String c _ => is_digit c = false end ->
     name_tokens name = [TIdent name]).
Proof.
  intros Hex. split_and!; [| |apply name_tokens_whole].
  - unfold createCDCSlot. destruct (ValidateCDCName "--cdc-slot" slot) as [[]|] eqn:Hs; [|done].
    destruct (ValidateCDCName "--cdc-plugin" plugin) as [[]|] eqn:Hp; [|done].
    apply ValidateCDCName_ok in Hs as (_ & _ & Hs), Hp as (_ & _ & Hp).
    destruct (open e dsn) as [[c|] e1]; [|done]. rewrite Hex by (left; by apply create_slot_tokens). done.
  - unfold dropCDCSlot. destruct (ValidateCDCName "--cdc-slot" slot) as [[]|] eqn:Hs; [|done].
    apply ValidateCDCName_ok in Hs as (_ & _ & Hs).
    destruct (open e dsn) as [[c|] e1]; [|done]. rewrite Hex by (right; by apply drop_slot_tokens). done.
Qed.

(** A server that ends the connection at any command but the two. *)
Definition example_exec (guard : bool) (e c : unit) (s : string) : result (list (list string)) * unit :=
  if guard && negb (bool_decide (repl_tokens s = [TKeyword "CREATE_REPLICATION_SLOT"; TIdent "dms_slot1";
       TKeyword "LOGICAL"; TIdent "pgoutput"; TKeyword "EXPORT_SNAPSHOT"]) ||
     bool_decide (repl_tokens s = [TKeyword "DROP_REPLICATION_SLOT"; TIdent "dms_slot1"]))
  then (Err (EForeign "connection lost"), tt)
  else (Ok [["dms_slot1"; "0/1"; "00000003-1"; "pgoutput"]], tt).

Lemma cdc_statement_words_witness :
  createCDCSlot (fun e _ => (Ok tt, e)) (example_exec true) (fun e _ => e) tt "dsn" "dms_slot1" "pgoutput" =
    (Ok (tt, mkSlotInfo "dms_slot1" "0/1" "00000003-1" "pgoutput"), tt).
Proof.
  destruct (cdc_statement_words (fun e _ => (Ok tt, e)) (example_exec false) (example_exec true) (fun e _ => e)
    (fun _ => EmptyString) tt "dsn" "dms_slot1" "pgoutput") as (H & _).
  - intros e c s [H|H]; unfold example_exec; rewrite H; reflexivity.
  - rewrite H. reflexivity.
Defined.
