(* ===== verification/Config.v ===== *)
(** * Configuration (export/config.go, export/dialect.go)

    The configuration record, its defaults, the connection string, the
    parsing of sizes, table lists and filters, the rules that
    [ParseFromFlags] enforces on the command line, and the adjustments of
    [NewDumper]. *)

From S2P Require Import Prelude GoStrings Dialect FilterMatcher FilterParser Filter FileNames.
From S2P Require Import SqlTypes Tables Cdc.

(** src/export/config.go:781-786 UnspecifiedSize *)
Definition UnspecifiedSize : Z := 0.
Definition DefaultStatementSize : Z := 1000000.
Definition DefaultTableFilter : string := "!/^(pg_catalog|information_schema|pg_toast)$/.*".

Section Config.
Context `{UnicodeLib} `{RegexpLib} `{FileLib}.

(** The fields that the dump reads.
    src/export/config.go:118-202 Config *)
Record Config := mkConfig {
  SpecifiedTables : bool;
  SortByPk : bool;
  NoViews : bool;
  NoSequences : bool;
  NoHeader : bool;
  NoSchemas : bool;
  NoData : bool;
  CompleteInsert : bool;
  TransactionalConsistency : bool;
  EscapeBackslash : bool;
  DumpEmptyDatabase : bool;
  PosAfterConnect : bool;
  cCompressType : CompressType;
  Host : string;
  Port : Z;
  Threads : Z;
  User : string;
  Password : string;
  SSLMode : string;
  CAPath : string;
  CertPath : string;
  KeyPath : string;
  OutputDirPath : string;
  Snapshot : string;
  Consistency : string;
  CsvNullValue : string;
  SQL : string;
  CsvSeparator : string;
  CsvDelimiter : string;
  CsvLineTerminator : string;
  Databases : list string;
  TableFilter : Filter;
  Where : string;
  FileType : string;
  OutputFileTemplate : template;
  Rows : Z;
  ReadTimeout : Z;
  FileSize : Z;
  StatementSize : Z;
  SessionParams : gmap string string;
  Tables : DatabaseTables;
  CsvOutputDialect : CSVDialect;
  Target : SQLTarget;
  CDCSlot : string;
  CDCPlugin : string;
  CDCCleanupOnFailure : bool;
  NoPreamble : bool
}.

(** src/export/dialect.go:105-106 Config.Dialect *)
Definition conf_Dialect (conf : Config) : SQLDialect := DialectFor (Target conf).

(** src/export/dialect.go:108-116 Config.EffectivePreamble *)
Definition EffectivePreamble (conf : Config) : list string :=
  if NoPreamble conf then [] else Preamble (conf_Dialect conf).

(** The filter of the default configuration is the rule list of [*.*], which
    always parses.  The prepared fields that the storage and metrics libraries
    own are left out.
    src/export/config.go:204-250 DefaultConfig *)
Definition DefaultConfig : Config := {|
  SpecifiedTables := false;
  SortByPk := true;
  NoViews := true;
  NoSequences := true;
  NoHeader := false;
  NoSchemas := false;
  NoData := false;
  CompleteInsert := false;
  TransactionalConsistency := true;
  EscapeBackslash := true;
  DumpEmptyDatabase := true;
  PosAfterConnect := false;
  cCompressType := NoCompression;
  Host := "127.0.0.1";
  Port := 5432;
  Threads := 4;
  User := "postgres";
  Password := EmptyString;
  SSLMode := EmptyString;
  CAPath := EmptyString;
  CertPath := EmptyString;
  KeyPath := EmptyString;
  OutputDirPath := ".";
  Snapshot := EmptyString;
  Consistency := "auto";
  CsvNullValue := String bslash "N";
  SQL := EmptyString;
  CsvSeparator := ",";
  CsvDelimiter := str1 dquote;
  CsvLineTerminator := String creturn (str1 newline);
  Databases := [];
  TableFilter := match Parse ["*.*"] with Ok f => f | Err _ => tableFilter [] end;
  Where := EmptyString;
  FileType := EmptyString;
  OutputFileTemplate := DefaultOutputFileTemplate;
  Rows := UnspecifiedSize;
  ReadTimeout := 0;
  FileSize := UnspecifiedSize;
  StatementSize := DefaultStatementSize;
  SessionParams := ∅;
  Tables := ∅;
  CsvOutputDialect := CSVDialectDefault;
  Target := TargetMySQL;
  CDCSlot := EmptyString;
  CDCPlugin := "pgoutput";
  CDCCleanupOnFailure := true;
  NoPreamble := false
|}.

(** The configuration with other values of the fields that the program
    assigns after the command line, or that the examples choose. *)
Definition set_fields (conf : Config) (fileType : string) (rows fileSize statementSize : Z)
    (where_ consistency outputDir : string) (filter : Filter) (tmpl : template) (readTimeout : Z) : Config := {|
  SpecifiedTables := SpecifiedTables conf;
  SortByPk := SortByPk conf;
  NoViews := NoViews conf;
  NoSequences := NoSequences conf;
  NoHeader := NoHeader conf;
  NoSchemas := NoSchemas conf;
  NoData := NoData conf;
  CompleteInsert := CompleteInsert conf;
  TransactionalConsistency := TransactionalConsistency conf;
  EscapeBackslash := EscapeBackslash conf;
  DumpEmptyDatabase := DumpEmptyDatabase conf;
  PosAfterConnect := PosAfterConnect conf;
  cCompressType := cCompressType conf;
  Host := Host conf;
  Port := Port conf;
  Threads := Threads conf;
  User := User conf;
  Password := Password conf;
  SSLMode := SSLMode conf;
  CAPath := CAPath conf;
  CertPath := CertPath conf;
  KeyPath := KeyPath conf;
  OutputDirPath := outputDir;
  Snapshot := Snapshot conf;
  Consistency := consistency;
  CsvNullValue := CsvNullValue conf;
  SQL := SQL conf;
  CsvSeparator := CsvSeparator conf;
  CsvDelimiter := CsvDelimiter conf;
  CsvLineTerminator := CsvLineTerminator conf;
  Databases := Databases conf;
  TableFilter := filter;
  Where := where_;
  FileType := fileType;
  OutputFileTemplate := tmpl;
  Rows := rows;
  ReadTimeout := readTimeout;
  FileSize := fileSize;
  StatementSize := statementSize;
  SessionParams := SessionParams conf;
  Tables := Tables conf;
  CsvOutputDialect := CsvOutputDialect conf;
  Target := Target conf;
  CDCSlot := CDCSlot conf;
  CDCPlugin := CDCPlugin conf;
  CDCCleanupOnFailure := CDCCleanupOnFailure conf;
  NoPreamble := NoPreamble conf
|}.

(** Other --rows, --filesize, --statement-size, --where and --consistency. *)
Definition set_limits (conf : Config) (rows fileSize statementSize : Z) (where_ consistency : string)
    : Config := set_fields conf (FileType conf) rows fileSize statementSize where_ consistency
  (OutputDirPath conf) (TableFilter conf) (OutputFileTemplate conf) (ReadTimeout conf).

(** The fields that [NewDumper] assigns. *)
Definition set_resolved (conf : Config) (fileType consistency : string) : Config :=
  set_fields conf fileType (Rows conf) (FileSize conf) (StatementSize conf) (Where conf) consistency
    (OutputDirPath conf) (TableFilter conf) (OutputFileTemplate conf) (ReadTimeout conf).

(** Another --rows and --where. *)
Definition set_split (conf : Config) (rows : Z) (where_ : string) : Config :=
  set_limits conf rows (FileSize conf) (StatementSize conf) where_ (Consistency conf).

(** ** The connection string *)

(** src/export/config.go:315-321 urlEscape *)
Definition safe_byte (c : ascii) : bool :=
  contains_byte c "abcdefghijklmnopqrstuvwxyzABCDEFGHIJKLMNOPQRSTUVWXYZ0123456789-._~".

(** src/export/config.go:314-326 urlEscape *)
Fixpoint urlEscape (s : string) : string :=
  match s with
  | EmptyString => EmptyString
  | String c s' => if safe_byte c then String c (urlEscape s') else percent c +:+ urlEscape s'
  end.

(** src/export/config.go:305-312 urlUserPass *)
Definition urlUserPass (user pass : string) : string :=
  if String.eqb pass EmptyString then urlEscape user
  else urlEscape user +:+ ":" +:+ urlEscape pass.

(** [net.JoinHostPort]. *)
Definition JoinHostPort (host port : string) : string :=
  if contains_byte ":" host || contains_byte "%" host
  then "[" +:+ host +:+ "]:" +:+ port else host +:+ ":" +:+ port.

(** The query parameters of the connection string; [ReadTimeout] is a duration
    in nanoseconds.
    src/export/config.go:279-298 Config.GetDSN *)
Definition dsn_params (conf : Config) : list string :=
  (if negb (String.eqb (SSLMode conf) EmptyString) then ["sslmode=" +:+ SSLMode conf]
   else if String.eqb (CAPath conf) EmptyString && String.eqb (CertPath conf) EmptyString
        then ["sslmode=prefer"] else []) ++
  (if negb (String.eqb (CAPath conf) EmptyString) then ["sslrootcert=" +:+ CAPath conf] else []) ++
  (if negb (String.eqb (CertPath conf) EmptyString) then ["sslcert=" +:+ CertPath conf] else []) ++
  (if negb (String.eqb (KeyPath conf) EmptyString) then ["sslkey=" +:+ KeyPath conf] else []) ++
  (if 0 <? ReadTimeout conf then ["statement_timeout=" +:+ itoa (ReadTimeout conf / 1000000)] else []).

(** src/export/config.go:261-303 Config.GetDSN *)
Definition GetDSN (conf : Config) (db : string) : string :=
  let db := if String.eqb db EmptyString
            then match Databases conf with d :: _ => d | [] => db end else db in
  "postgres://" +:+
  (if negb (String.eqb (User conf) EmptyString)
   then urlUserPass (User conf) (Password conf) +:+ "@" else EmptyString) +:+
  JoinHostPort (Host conf) (itoa (Port conf)) +:+
  (if negb (String.eqb db EmptyString) then "/" +:+ db else EmptyString) +:+
  (match dsn_params conf with
   | [] => EmptyString
   | q => "?" +:+ join "&" q
   end).

(** ** Sizes and table lists *)

(** [units.RAMInBytes] of docker/go-units. *)
Class UnitsLib := { RAMInBytes : string -> result Z }.

(** [strconv.ParseUint(s, 10, 64)]. *)
Definition ParseUint (s : string) : option Z :=
  match parse_uint10 s with
  | Some n => if n <? 2 ^ 64 then Some n else None
  | None => None
  end.

(** src/export/config.go:679-690 ParseFileSize *)
Definition ParseFileSize `{UnitsLib} (fileSizeStr : string) : result Z :=
  if slen fileSizeStr =? 0 then Ok UnspecifiedSize
  else match ParseUint fileSizeStr with
       | Some fileSizeMB => Ok (u64 (fileSizeMB * 1048576))
       | None =>
           match RAMInBytes fileSizeStr with
           | Ok size => Ok (u64 size)
           | Err _ => Err (EErrorf "failed to parse filesize (-F '%s')" [AStr fileSizeStr])
           end
       end.

Definition unqualified (table : string) : error :=
  EErrorf "--tables-list only accepts qualified table names, but `%s` lacks a dot" [AStr table].

(** src/export/config.go:692-714 ParseTableFilter *)
Definition ParseTableFilter (tablesList filters : list string) : result Filter :=
  match tablesList with
  | [] => Parse filters
  | _ =>
      if negb (bool_decide (filters = ["*.*"; DefaultTableFilter]))
      then Err (EErrorf "cannot pass --tables-list and --filter together" [])
      else
        tableNames ← mapR (fun table =>
                             match split2 "." table with
                             | (s, Some t) => Ok (mkTable s t)
                             | (_, None) => Err (unqualified table)
                             end) tablesList;
        Ok (NewTablesFilter tableNames)
  end.

(** src/export/config.go:723-731 GetConfTables *)
Fixpoint conf_tables (dbTables : DatabaseTables) (tablesList : list string)
    : result DatabaseTables :=
  match tablesList with
  | [] => Ok dbTables
  | tablename :: rest =>
      match split2 "." tablename with
      | (dbName, Some tbName) =>
          conf_tables (AppendTable dbTables dbName (mkTableInfo tbName 0 TableTypeBase)) rest
      | (_, None) => Err (unqualified tablename)
      end
  end.

(** src/export/config.go:715-733 GetConfTables *)
Definition GetConfTables (tablesList : list string) : result DatabaseTables :=
  conf_tables ∅ tablesList.

(** ** The command line *)

(** The getters of a pflag flag set: they fail for a flag that is not defined
    with the type. *)
Class FlagSet := {
  GetString : string -> result string;
  GetBool : string -> result bool;
  GetInt : string -> result Z;
  GetUint64 : string -> result Z;
  GetDuration : string -> result Z;
  GetStringSlice : string -> result (list string);
  GetStringToString : string -> result (gmap string string);
  Changed : string -> bool
}.

(** [template.Parse] on a clone of the default templates. *)
Class TemplateLib := { ParseOutputFileTemplate : string -> result template }.

Context `{UnitsLib} `{FlagSet} `{TemplateLib}.

(** The panic of [regexp.MustCompile] in a case-insensitive filter. *)
Definition regexp_panic : error := EForeign "panic: regexp: Compile".

(** The connection flags and the limits.
    src/export/config.go:394-441 Config.ParseFromFlags *)
Record connection_flags := mkConnectionFlags {
  fDatabases : list string; fHost : string; fUser : string; fPort : Z; fPassword : string;
  fThreads : Z; fStatementSize : Z; fOutput : string; fConsistency : string; fSnapshot : string
}.

(** src/export/config.go:394-441 Config.ParseFromFlags *)
Definition read_connection_flags : result connection_flags :=
  databases ← GetStringSlice "database";
  host ← GetString "host";
  user ← GetString "user";
  port ← GetInt "port";
  password ← GetString "password";
  threads ← GetInt "threads";
  statementSize ← GetUint64 "statement-size";
  output ← GetString "output";
  _ ← GetString "loglevel";
  _ ← GetString "logfile";
  _ ← GetString "logfmt";
  consistency ← GetString "consistency";
  snapshot ← GetString "snapshot";
  Ok (mkConnectionFlags databases host user port password threads statementSize output
        consistency snapshot).

Record content_flags := mkContentFlags {
  fNoViews : bool; fNoSequences : bool; fSortByPk : bool; fRows : Z; fWhere : string;
  fEscapeBackslash : bool; fFileType : string; fNoHeader : bool; fNoSchemas : bool;
  fNoData : bool; fCsvNullValue : string; fSQL : string; fDumpEmptyDatabase : bool;
  fCA : string; fCert : string; fKey : string; fCsvSeparator : string; fCsvDelimiter : string;
  fCsvLineTerminator : string; fCompleteInsert : bool; fReadTimeout : Z;
  fTransactionalConsistency : bool
}.

(** What is dumped and how it is written.
    src/export/config.go:442-537 Config.ParseFromFlags *)
Definition read_content_flags : result content_flags :=
  noViews ← GetBool "no-views";
  noSequences ← GetBool "no-sequences";
  sortByPk ← GetBool "order-by-primary-key";
  _ ← GetString "status-addr";
  rows ← GetUint64 "rows";
  where_ ← GetString "where";
  escapeBackslash ← GetBool "escape-backslash";
  fileType ← GetString "filetype";
  noHeader ← GetBool "no-header";
  noSchemas ← GetBool "no-schemas";
  noData ← GetBool "no-data";
  csvNullValue ← GetString "csv-null-value";
  sql ← GetString "sql";
  dumpEmptyDatabase ← GetBool "dump-empty-database";
  ca ← GetString "ca";
  cert ← GetString "cert";
  key ← GetString "key";
  csvSeparator ← GetString "csv-separator";
  csvDelimiter ← GetString "csv-delimiter";
  csvLineTerminator ← GetString "csv-line-terminator";
  completeInsert ← GetBool "complete-insert";
  readTimeout ← GetDuration "read-timeout";
  transactionalConsistency ← GetBool "transactional-consistency";
  Ok (mkContentFlags noViews noSequences sortByPk rows where_ escapeBackslash fileType noHeader
        noSchemas noData csvNullValue sql dumpEmptyDatabase ca cert key csvSeparator csvDelimiter
        csvLineTerminator completeInsert readTimeout transactionalConsistency).

(** src/export/config.go:539-544 Config.ParseFromFlags *)
Definition check_limits (c : connection_flags) (k : content_flags) : result unit :=
  if fThreads c <=? 0
  then Err (EErrorf "--threads is set to %d. It should be greater than 0" [AInt (fThreads c)])
  else if slen (fCsvSeparator k) =? 0
  then Err (EErrorf ("--csv-separator is set to " +:+ double dquote (str1 dquote) +:+
                     ". It must not be an empty string") [])
  else Ok tt.

Record output_flags := mkOutputFlags {
  fSpecifiedTables : bool; fTables : DatabaseTables; fTableFilter : Filter; fFileSize : Z;
  fTemplate : template; fCompress : CompressType; fCsvOutputDialect : CSVDialect;
  fTarget : SQLTarget; fParams : gmap string string
}.

(** Tables, filter, sizes, template, compression, dialect and target.
    src/export/config.go:550-632 Config.ParseFromFlags *)
Definition read_output_flags (k : content_flags) : result output_flags :=
  tablesList ← GetStringSlice "tables-list";
  fileSizeStr ← GetString "filesize";
  filters ← GetStringSlice "filter";
  caseSensitive ← GetBool "case-sensitive";
  outputFilenameFormat ← GetString "output-filename-template";
  params ← GetStringToString "params";
  tables ← GetConfTables tablesList;
  tableFilter ← match ParseTableFilter tablesList filters with
                | Ok f => Ok f
                | Err e => Err (EAnnotate e "failed to parse filter: %s" [])
                end;
  tableFilter ← (if negb caseSensitive
                 then match CaseInsensitive tableFilter with
                      | Some f => Ok f
                      | None => Err regexp_panic
                      end
                 else Ok tableFilter);
  fileSize ← ParseFileSize fileSizeStr;
  let outputFilenameFormat :=
    if String.eqb outputFilenameFormat EmptyString && negb (String.eqb (fSQL k) EmptyString)
    then "result.{{.Index}}" else outputFilenameFormat in
  tmpl ← match ParseOutputFileTemplate outputFilenameFormat with
         | Ok t => Ok t
         | Err _ => Err (EErrorf
             "failed to parse output filename template (--output-filename-template '%s')"
             [AStr outputFilenameFormat])
         end;
  compressType ← GetString "compress";
  compress ← ParseCompressType compressType;
  dialect ← GetString "csv-output-dialect";
  _ ← (if negb (String.eqb dialect EmptyString) && negb (String.eqb (fFileType k) "csv")
       then Err (EErrorf
              "%s is only supported when dumping whole table to csv, not compatible with %s"
              [AStr "csv-output-dialect"; AStr (fFileType k)])
       else Ok tt);
  csvOutputDialect ← ParseOutputDialect dialect;
  target ← GetString "target";
  target ← ParseSQLTarget target;
  Ok (mkOutputFlags (0 <? Z.of_nat (length tablesList)) tables tableFilter fileSize tmpl compress
        csvOutputDialect target params).

Record cdc_flags := mkCdcFlags {
  fCDCSlot : string; fCDCPlugin : string; fCDCCleanupOnFailure : bool; fNoPreamble : bool
}.

(** Replication slot and preamble.
    src/export/config.go:634-665 Config.ParseFromFlags *)
Definition read_cdc_flags (target : SQLTarget) : result cdc_flags :=
  slot ← GetString "cdc-slot";
  plugin ← GetString "cdc-plugin";
  cleanup ← GetBool "cdc-cleanup-on-failure";
  _ ← (if negb (String.eqb slot EmptyString)
       then _ ← ValidateCDCName "--cdc-slot" slot; ValidateCDCName "--cdc-plugin" plugin
       else Ok tt);
  noPreamble ← GetBool "no-preamble";
  Ok (mkCdcFlags slot plugin cleanup
        (if negb (Changed "no-preamble") && bool_decide (target = TargetTiDB)
         then true else noPreamble)).

(** The storage options, which the storage library reads from the global
    command line at the end, are left out.
    src/export/config.go:390-677 Config.ParseFromFlags *)
Definition ParseFromFlags (conf : Config) : result Config :=
  c ← read_connection_flags;
  k ← read_content_flags;
  _ ← check_limits c k;
  o ← read_output_flags k;
  d ← read_cdc_flags (fTarget o);
  Ok {|
    SpecifiedTables := fSpecifiedTables o;
    SortByPk := fSortByPk k;
    NoViews := fNoViews k;
    NoSequences := fNoSequences k;
    NoHeader := fNoHeader k;
    NoSchemas := fNoSchemas k;
    NoData := fNoData k;
    CompleteInsert := fCompleteInsert k;
    TransactionalConsistency := fTransactionalConsistency k;
    EscapeBackslash := fEscapeBackslash k;
    DumpEmptyDatabase := fDumpEmptyDatabase k;
    PosAfterConnect := PosAfterConnect conf;
    cCompressType := fCompress o;
    Host := fHost c;
    Port := fPort c;
    Threads := fThreads c;
    User := fUser c;
    Password := fPassword c;
    SSLMode := SSLMode conf;
    CAPath := fCA k;
    CertPath := fCert k;
    KeyPath := fKey k;
    OutputDirPath := fOutput c;
    Snapshot := fSnapshot c;
    Consistency := fConsistency c;
    CsvNullValue := fCsvNullValue k;
    SQL := fSQL k;
    CsvSeparator := fCsvSeparator k;
    CsvDelimiter := fCsvDelimiter k;
    CsvLineTerminator := fCsvLineTerminator k;
    Databases := fDatabases c;
    TableFilter := fTableFilter o;
    Where := fWhere k;
    FileType := fFileType k;
    OutputFileTemplate := fTemplate o;
    Rows := fRows k;
    ReadTimeout := fReadTimeout k;
    FileSize := fFileSize o;
    StatementSize := fStatementSize c;
    SessionParams := fParams o ∪ SessionParams conf;
    Tables := fTables o;
    CsvOutputDialect := fCsvOutputDialect o;
    Target := fTarget o;
    CDCSlot := fCDCSlot d;
    CDCPlugin := fCDCPlugin d;
    CDCCleanupOnFailure := fCDCCleanupOnFailure d;
    NoPreamble := fNoPreamble d
  |}.

(** ** The adjustments of [NewDumper] *)

(** src/export/config.go:867-872 validateSpecifiedSQL *)
Definition validateSpecifiedSQL (conf : Config) : result unit :=
  if negb (String.eqb (SQL conf) EmptyString) && negb (String.eqb (Where conf) EmptyString)
  then Err (EErrorf
    "can't specify both --sql and --where at the same time. Please try to combine them into --sql" [])
  else Ok tt.

(** The new value of [conf.FileType].
    src/export/config.go:874-892 adjustFileFormat *)
Definition adjustFileFormat (conf : Config) : result string :=
  let ft := ToLower (FileType conf) in
  let withSQL := negb (String.eqb (SQL conf) EmptyString) in
  if one_of ft [EmptyString] then Ok (if withSQL then "csv" else "sql")
  else if one_of ft ["sql"] then
    if withSQL then Err (EErrorf
      "unsupported config.FileType '%s' when we specify --sql, please unset --filetype or set it to 'csv'"
      [AStr ft])
    else Ok ft
  else if one_of ft ["csv"] then Ok ft
  else Err (EErrorf "unknown config.FileType '%s'" [AStr ft]).
End Config.

(** ** Laws of the escape *)

Lemma unfn_urlEscape s : unfn (urlEscape s) = Some s.
Proof.
  induction s as [|c s IH]; [done|]. cbn [urlEscape]. destruct (safe_byte c) eqn:E.
  - cbn [unfn]. destruct (Ascii.eqb_spec c "%") as [->|_]; [done|]. by rewrite IH.
  - by rewrite unfn_percent, IH.
Qed.

Definition escaped_byte (c : ascii) : bool := safe_byte c || Ascii.eqb c "%".

Lemma urlEscape_bytes s : sall escaped_byte (urlEscape s) = true.
Proof.
  induction s as [|c s IH]; [done|]. cbn [urlEscape]. destruct (safe_byte c) eqn:E.
  - cbn [sall]. unfold escaped_byte at 1. by rewrite E.
  - rewrite sall_app, IH, andb_true_r. by destruct c as [[][][][][][][][]].
Qed.

Lemma urlEscape_no c s : escaped_byte c = false -> contains_byte c (urlEscape s) = false.
Proof. intros Hc. apply (sall_contains escaped_byte); [done|apply urlEscape_bytes]. Qed.

(** What a URL parser reads from a connection string: the user info before
    the first at sign, split at the first colon and percent-decoded. *)
Definition read_userinfo (dsn : string) : option (string * string * string) :=
  s ← strip_prefix "postgres://" dsn;
  let '(info, rest) := split2 "@" s in
  rest ← rest;
  let '(u, p) := split2 ":" info in
  user ← unfn u;
  pass ← match p with Some p => unfn p | None => Some EmptyString end;
  Some (user, pass, rest).

Section ListLaws.
Context `{UnicodeLib} `{RegexpLib} `{FileLib}.

Lemma conf_tables_spec d0 tablesList d :
  conf_tables d0 tablesList = Ok d ->
  exists names : list Table,
    mapR (fun table => match split2 "." table with
                       | (s, Some t) => Ok (mkTable s t)
                       | (_, None) => Err (unqualified table)
                       end) tablesList = Ok names /\
    forall s, tables_of d s = tables_of d0 s ++
      omap (fun x => if String.eqb (Schema x) s
                     then Some (mkTableInfo (TName x) 0 TableTypeBase) else None) names.
Proof.
  revert d0. induction tablesList as [|x l IH]; intros d0; cbn.
  - intros [= <-]. exists []. split; [done|]. intros s. by rewrite app_nil_r.
  - destruct (split2 "." x) as [a [b|]]; [|done]. intros Hd.
    destruct (IH _ Hd) as (names & Hn & Hs). cbn. rewrite Hn. eexists. split; [done|].
    intros s. rewrite Hs, tables_of_append. cbn.
    destruct (decide (a = s)) as [->|Hne].
    + rewrite String.eqb_refl. by rewrite <- app_assoc.
    + apply String.eqb_neq in Hne. by rewrite Hne.
Qed.

Lemma in_omap_name s t (names : list Table) :
  mkTable s t ∈ names <->
  exists i, tName i = t /\
    i ∈ omap (fun x => if String.eqb (Schema x) s
                       then Some (mkTableInfo (TName x) 0 TableTypeBase) else None) names.
Proof.
  setoid_rewrite list_elem_of_omap. split.
  - intros Hin. eexists. split; [|exists (mkTable s t); cbn; by rewrite String.eqb_refl]. done.
  - intros (i & <- & [s' t'] & Hin & Hi). cbn in Hi. destruct (String.eqb_spec s' s) as [->|]; [|done].
    by injection Hi as <-.
Qed.
End ListLaws.

(** ** Properties *)

Section Properties.
Context `{UnicodeLib} `{RegexpLib} `{FileLib}.

(** C30: the user name and the password reach the server exactly: a URL
    parser reads both back from the connection string whatever bytes they
    hold, at signs, colons, slashes and percent signs included. *)
Theorem dsn_credentials_roundtrip conf db :
  User conf <> EmptyString ->
  exists rest, read_userinfo (GetDSN conf db) = Some (User conf, Password conf, rest).
Proof.
  intros Hu. unfold GetDSN, read_userinfo. rewrite strip_prefix_app. cbn [mbind option_bind].
  apply String.eqb_neq in Hu. rewrite Hu. cbn [negb]. rewrite !sapp_assoc.
  change ("@" +:+ ?x) with (String "@" x). rewrite split2_app.
  2: { unfold urlUserPass. destruct (String.eqb (Password conf) EmptyString);
       rewrite ?contains_byte_app, !urlEscape_no by done; done. }
  cbn [mbind option_bind]. unfold urlUserPass.
  destruct (String.eqb_spec (Password conf) EmptyString) as [->|_].
  - assert (split2 ":" (urlEscape (User conf)) = (urlEscape (User conf), None)) as ->.
    { pose proof (urlEscape_no ":" (User conf) eq_refl) as Hn. revert Hn.
      generalize (urlEscape (User conf)). induction s as [|c s IH]; [done|]. cbn.
      intros [-> Hs]%orb_false_iff. by rewrite IH. }
    rewrite unfn_urlEscape. cbn. eauto.
  - change (":" +:+ urlEscape (Password conf)) with (String ":" (urlEscape (Password conf))).
    rewrite split2_app by (by apply urlEscape_no). rewrite !unfn_urlEscape. cbn. eauto.
Qed.

(** C31: a file size without a unit is a number of mebibytes: below 2^44 it
    is taken exactly, above it wraps around 64 bits, so that 2^44 itself
    means no limit. *)
Theorem ParseFileSize_bounds `{UnitsLib} n :
  0 <= n < 2 ^ 64 ->
  ParseFileSize (itoa n) = Ok ((n * 2 ^ 20) mod 2 ^ 64) /\
  (n < 2 ^ 44 -> ParseFileSize (itoa n) = Ok (n * 2 ^ 20)) /\
  ParseFileSize (itoa (2 ^ 44)) = Ok UnspecifiedSize.
Proof.
  intros Hn.
  assert (ParseFileSize (itoa n) = Ok ((n * 2 ^ 20) mod 2 ^ 64)) as E.
  { unfold ParseFileSize. destruct (Z.eqb_spec (slen (itoa n)) 0) as [Hz|_].
    - apply slen_zero in Hz. by destruct (itoa_nonempty n).
    - unfold ParseUint. rewrite parse_uint10_itoa by lia.
      destruct (Z.ltb_spec n (2 ^ 64)); [done|lia]. }
  split; [exact E|]. split; [|done].
  intros Hs. rewrite E. f_equal. apply Z.mod_small. lia.
Qed.

Context `{UnitsLib} `{FlagSet} `{TemplateLib}.

Lemma read_cdc_ok t d :
  read_cdc_flags t = Ok d ->
  (fCDCSlot d <> EmptyString ->
     ValidateCDCName "--cdc-slot" (fCDCSlot d) = Ok tt /\
     ValidateCDCName "--cdc-plugin" (fCDCPlugin d) = Ok tt) /\
  exists np, GetBool "no-preamble" = Ok np /\
    fNoPreamble d = if negb (Changed "no-preamble") && bool_decide (t = TargetTiDB) then true else np.
Proof.
  unfold read_cdc_flags. intros Hd. inv_ok.
  match goal with E : (if negb _ then _ else _) = Ok _ |- _ => rename E into Hcdc end.
  cbn. split; [|eauto]. intros Hne%String.eqb_neq. rewrite Hne in Hcdc. cbn in Hcdc.
  apply bind_ok_inv in Hcdc as ([] & -> & ->). by destruct x2.
Qed.

Lemma read_output_ok k o :
  read_output_flags k = Ok o ->
  (exists l, GetStringSlice "tables-list" = Ok l /\ GetConfTables l = Ok (fTables o) /\
     fSpecifiedTables o = negb (bool_decide (l = []))) /\
  (fCsvOutputDialect o <> CSVDialectDefault -> fFileType k = "csv").
Proof.
  unfold read_output_flags. intros Ho. inv_ok. cbn. split.
  - eexists. repeat split; [eassumption|eassumption|]. by destruct x.
  - intros Hd.
    match goal with E : (if negb _ && _ then _ else _) = Ok _ |- _ => rename E into Hc end.
    match goal with E : ParseOutputDialect ?y = Ok _ |- _ => rename E into Hp; set (dn := y) in * end.
    destruct (String.eqb_spec (fFileType k) "csv") as [|_]; [done|].
    destruct (String.eqb_spec dn EmptyString) as [Hdn|]; [|done].
    rewrite Hdn in Hp. injection Hp as <-. done.
Qed.

Lemma ParseFileSize_range s n : ParseFileSize s = Ok n -> is_u64 n.
Proof.
  unfold ParseFileSize. destruct (slen s =? 0); [intros [= <-]; by unfold is_u64|].
  destruct (ParseUint s); [intros [= <-]; apply u64_range|].
  destruct (RAMInBytes s); [intros [= <-]; apply u64_range|done].
Qed.

(** What the rest of the program needs of the sizes. *)
Lemma parsed_limits conf c : ParseFromFlags conf = Ok c -> 1 <= Threads c /\ 0 <= FileSize c.
Proof.
  unfold ParseFromFlags. intros Hc. inv_ok. cbn.
  match goal with E : check_limits _ _ = Ok _ |- _ => rename E into Hl end.
  match goal with E : read_output_flags _ = Ok _ |- _ => rename E into Ho end.
  unfold check_limits in Hl. destruct (Z.leb_spec (fThreads x) 0); [done|]. split; [lia|].
  unfold read_output_flags in Ho. inv_ok. cbn.
  match goal with E : ParseFileSize _ = Ok _ |- _ => apply ParseFileSize_range in E as [? _] end. done.
Qed.

(** [s.t] is in the table map. *)
Definition listed (d : DatabaseTables) (s t : string) : Prop := exists i, tName i = t /\ i ∈ tables_of d s.

(** The names of the list, as [ParseTableFilter] collects them. *)
Definition listed_names (tablesList : list string) : result (list Table) :=
  mapR (fun table => match split2 "." table with
                     | (s, Some t) => Ok (mkTable s t)
                     | (_, None) => Err (unqualified table)
                     end) tablesList.

Lemma ParseTableFilter_list tablesList filters :
  tablesList <> [] ->
  ParseTableFilter tablesList filters =
    (if bool_decide (filters = ["*.*"; DefaultTableFilter])
     then names ← listed_names tablesList; Ok (NewTablesFilter names)
     else Err (EErrorf "cannot pass --tables-list and --filter together" [])).
Proof. destruct tablesList; [done|]. intros _. unfold ParseTableFilter. by destruct (bool_decide _). Qed.

(** The map and the names come from the same entries, and reject the same. *)
Lemma listed_same tablesList :
  match GetConfTables tablesList, listed_names tablesList with
  | Ok d, Ok names => forall s t, mkTable s t ∈ names <-> listed d s t
  | Err e, Err e' => e = e'
  | _, _ => False
  end.
Proof.
  unfold GetConfTables, listed_names. destruct (conf_tables ∅ tablesList) as [d|e] eqn:E.
  - destruct (conf_tables_spec _ _ _ E) as (names & -> & Hs). cbn. intros s t. unfold listed. rewrite Hs.
    unfold tables_of at 1. rewrite lookup_empty. cbn. apply in_omap_name.
  - revert E. generalize (∅ : DatabaseTables). induction tablesList as [|y L IH]; intros d; cbn; [done|].
    destruct (split2 "." y) as [a [b|]]; cbn; [|congruence].
    intros Hd. specialize (IH _ Hd). by destruct (mapR _ L).
Qed.

Lemma NewTablesFilter_match names s t : MatchTable (NewTablesFilter names) s t = true <-> mkTable s t ∈ names.
Proof.
  cbn. rewrite tables_MatchTable_spec, foldl_add_table_spec. unfold in_tables. setoid_rewrite lookup_empty. naive_solver.
Qed.

(** The filter of the program is the parsed one, folded unless
    --case-sensitive is given. *)
Lemma read_output_filter k o :
  read_output_flags k = Ok o ->
  exists l filters caseSensitive f, GetStringSlice "tables-list" = Ok l /\ GetStringSlice "filter" = Ok filters /\
    GetBool "case-sensitive" = Ok caseSensitive /\ ParseTableFilter l filters = Ok f /\
    (if caseSensitive then Some f else CaseInsensitive f) = Some (fTableFilter o).
Proof.
  unfold read_output_flags. intros Ho. inv_ok. cbn.
  match goal with E : match ParseTableFilter ?l ?fs with _ => _ end = Ok _ |- _ =>
    destruct (ParseTableFilter l fs) as [f|] eqn:Ef; [injection E as <-|discriminate E] end.
  eexists _, _, _, f. split_and!; [eassumption..|].
  match goal with E : (if negb ?b then _ else _) = Ok _ |- _ => destruct b; cbn in E; [by injection E as ->|] end.
  destruct (CaseInsensitive f) as [f'|]; [|done]. by match goal with E : Ok _ = Ok _ |- _ => injection E as -> end.
Qed.

(** C29: with --tables-list the table map and the table filter agree.  An
    entry without a dot is rejected by both, with the same error; otherwise
    the filter that is parsed accepts exactly the tables of the map.  A
    command line with --tables-list is accepted only when --filter has its
    default value; the filter of its configuration accepts, with
    --case-sensitive, exactly the tables of the map, and without it the
    tables that are in the map up to the case of schema and name: by default
    the filter accepts tables that the map does not have. *)
Theorem tables_list_agrees tablesList :
  tablesList <> [] ->
  match GetConfTables tablesList, ParseTableFilter tablesList ["*.*"; DefaultTableFilter] with
  | Ok d, Ok f => forall s t, MatchTable f s t = true <-> listed d s t
  | Err e, Err e' => e = e'
  | _, _ => False
  end /\
  forall conf c, GetStringSlice "tables-list" = Ok tablesList -> ParseFromFlags conf = Ok c ->
    GetStringSlice "filter" = Ok ["*.*"; DefaultTableFilter] /\
    exists caseSensitive, GetBool "case-sensitive" = Ok caseSensitive /\
      forall s t, MatchTable (TableFilter c) s t = true <->
        if caseSensitive then listed (Tables c) s t
        else exists s' t', listed (Tables c) s' t' /\ ToLower s' = ToLower s /\ ToLower t' = ToLower t.
Proof.
  intros Hne. pose proof (listed_same tablesList) as Hs. split.
  - rewrite ParseTableFilter_list by done. rewrite bool_decide_eq_true_2 by done.
    destruct (GetConfTables tablesList) as [d|], (listed_names tablesList) as [names|]; cbn [mbind result_bind]; try done.
    intros s t. by rewrite NewTablesFilter_match.
  - intros conf c Hl. unfold ParseFromFlags. intros Hc. inv_ok. cbn.
    match goal with E : read_output_flags _ = Ok _ |- _ => rename E into Ho end.
    destruct (read_output_ok _ _ Ho) as [(l & Hl' & Hd & _) _].
    destruct (read_output_filter _ _ Ho) as (l2 & filters & cs & f & Hl2 & Hf & Hcs & Hp & Hcf).
    rewrite Hl in Hl', Hl2. injection Hl' as <-. injection Hl2 as <-.
    rewrite ParseTableFilter_list in Hp by done. case_bool_decide as Hfs; [subst filters|done].
    rewrite Hd in Hs. destruct (listed_names tablesList) as [names|]; [|done]. injection Hp as <-.
    split; [exact Hf|]. exists cs. split; [exact Hcs|]. intros s t. destruct cs.
    + injection Hcf as <-. by rewrite NewTablesFilter_match, Hs.
    + destruct (tables_list_case_insensitive names) as (f' & Hci & Hm). rewrite Hci in Hcf. injection Hcf as <-.
      rewrite Hm. split.
      * intros ([s' t'] & Hin & E1 & E2). exists s', t'. by rewrite <- Hs.
      * intros (s' & t' & Hin & E1 & E2). exists (mkTable s' t'). by rewrite Hs.
Qed.

(** C28: a configuration that the command line produces satisfies the rules
    the dump relies on: at least one writer thread, a CSV separator, slot and
    plugin names that are valid whenever a slot is asked for, a CSV dialect
    only with CSV output, the table map of --tables-list, and a preamble that
    is off by default exactly for TiDB and otherwise what the user said. *)
Theorem parse_flags_valid conf c :
  ParseFromFlags conf = Ok c ->
  0 < Threads c /\ CsvSeparator c <> EmptyString /\
  (CDCSlot c <> EmptyString ->
     ValidateCDCName "--cdc-slot" (CDCSlot c) = Ok tt /\
     ValidateCDCName "--cdc-plugin" (CDCPlugin c) = Ok tt) /\
  (CsvOutputDialect c <> CSVDialectDefault -> FileType c = "csv") /\
  (exists l, GetStringSlice "tables-list" = Ok l /\ GetConfTables l = Ok (Tables c) /\
     SpecifiedTables c = negb (bool_decide (l = []))) /\
  (exists np, GetBool "no-preamble" = Ok np /\
     NoPreamble c = if negb (Changed "no-preamble") && bool_decide (Target c = TargetTiDB)
                    then true else np).
Proof.
  unfold ParseFromFlags. intros Hc. inv_ok. cbn.
  match goal with E : check_limits _ _ = Ok _ |- _ => rename E into Hl end.
  match goal with E : read_output_flags _ = Ok _ |- _ => apply read_output_ok in E as [Ho1 Ho2] end.
  match goal with E : read_cdc_flags _ = Ok _ |- _ => apply read_cdc_ok in E as [Hd1 Hd2] end.
  unfold check_limits in Hl. destruct (Z.leb_spec (fThreads x) 0); [done|].
  destruct (Z.eqb_spec (slen (fCsvSeparator x0)) 0) as [|Hs]; [done|].
  split_and!; try done. intros He. by rewrite He in Hs.
Qed.
End Properties.

(** ** Witnesses *)

Section Examples.
#[local] Instance example_regexp : RegexpLib :=
  {| regexp := string; regexp_Compile := Ok; regexp_MatchString := fun _ _ => false;
     regexp_String := id |}.
#[local] Instance example_files : FileLib :=
  {| open_lines := fun _ => Err (EForeign "no such file") |}.
#[local] Instance example_unicode : UnicodeLib := ascii_only.
#[local] Instance example_units : UnitsLib := {| RAMInBytes := fun _ => Err (EForeign "units") |}.
#[local] Instance example_templates : TemplateLib :=
  {| ParseOutputFileTemplate := fun _ => Ok DefaultOutputFileTemplate |}.

(** A command line with the defaults of the flags, a slot and TiDB as target. *)
#[local] Instance example_flags : FlagSet :=
  {| GetString := fun f => Ok (if one_of f ["target"] then "tidb"
                               else if one_of f ["cdc-slot"; "cdc-plugin"] then "slot_1"
                               else if one_of f ["csv-separator"] then "," else EmptyString);
     GetBool := fun _ => Ok false;
     GetInt := fun _ => Ok 4;
     GetUint64 := fun _ => Ok 0;
     GetDuration := fun _ => Ok 0;
     GetStringSlice := fun f => Ok (if one_of f ["tables-list"] then ["a.b"] else ["*.*"; DefaultTableFilter]);
     GetStringToString := fun _ => Ok ∅;
     Changed := fun _ => false |}.

Lemma dsn_credentials_roundtrip_witness :
  User DefaultConfig <> EmptyString /\
  exists rest, read_userinfo (GetDSN DefaultConfig "db") = Some ("postgres", EmptyString, rest).
Proof.
  split; [done|]. refine (dsn_credentials_roundtrip DefaultConfig "db" _). done.
Defined.

(** The example's command line lists [a.b]; without --case-sensitive, table
    [A.B] is accepted too. *)
Lemma tables_list_agrees_witness :
  exists c, ParseFromFlags DefaultConfig = Ok c /\ MatchTable (TableFilter c) "A" "B" = true /\
    ~ listed (Tables c) "A" "B".
Proof.
  eexists. split; [reflexivity|].
  refine (let H := proj2 (tables_list_agrees ["a.b"] ltac:(done)) DefaultConfig _ eq_refl eq_refl in _).
  destruct H as (_ & cs & Hcs & Hm). injection Hcs as <-. split.
  - apply (proj2 (Hm "A" "B")). exists "a", "b". split; [|done].
    exists (mkTableInfo "b" 0 TableTypeBase). split; [done|]. vm_compute. by left.
  - intros (i & _ & Hi). vm_compute in Hi. by apply not_elem_of_nil in Hi.
Defined.

Lemma ParseFileSize_bounds_witness :
  0 <= 256 < 2 ^ 64 /\ ParseFileSize (itoa 256) = Ok ((256 * 2 ^ 20) mod 2 ^ 64).
Proof. split; [lia|]. exact (proj1 (ParseFileSize_bounds 256 ltac:(lia))). Defined.

Lemma parse_flags_valid_witness :
  exists c, ParseFromFlags DefaultConfig = Ok c /\ 0 < Threads c /\ CDCSlot c = "slot_1" /\
    NoPreamble c = true.
Proof.
  eexists. split; [reflexivity|].
  refine (let H := parse_flags_valid DefaultConfig _ eq_refl in _).
  split; [exact (proj1 H)|]. split; reflexivity.
Defined.
End Examples.
