(* ===== verification/Flags.v ===== *)
(** * The command line (export/config.go)

    The flags that the program defines, with their types and defaults.  The
    flag library is the class [FlagSet] of [Config]; [untouched] is what it
    promises for flags that were defined and not set. *)

From S2P Require Import Prelude GoStrings Dialect FilterMatcher FilterParser Filter FileNames.
From S2P Require Import SqlTypes Tables Cdc Config.

Inductive flag_value :=
  | FString (s : string)
  | FBool (b : bool)
  | FInt (z : Z)
  | FUint64 (z : Z)
  | FDuration (nanoseconds : Z)
  | FSlice (l : list string)
  | FMap (m : gmap string string).

Definition minute : Z := 60 * 10 ^ 9.

(** The flags of the storage library are left out; [output] is the name made
    from the time of day.
    src/export/config.go:332-388 Config.DefineFlags *)
Definition DefineFlags (output : string) : list (string * flag_value) :=
  [("database", FSlice []); ("tables-list", FSlice []); ("host", FString "127.0.0.1");
   ("user", FString "postgres"); ("port", FInt 5432); ("password", FString EmptyString);
   ("threads", FInt 4); ("filesize", FString EmptyString);
   ("statement-size", FUint64 DefaultStatementSize); ("output", FString output);
   ("loglevel", FString "info"); ("logfile", FString EmptyString); ("logfmt", FString "text");
   ("consistency", FString "auto"); ("snapshot", FString EmptyString); ("no-views", FBool true);
   ("no-sequences", FBool true); ("order-by-primary-key", FBool true);
   ("status-addr", FString ":8281"); ("rows", FUint64 UnspecifiedSize);
   ("where", FString EmptyString); ("escape-backslash", FBool true);
   ("filetype", FString EmptyString); ("no-header", FBool false); ("no-schemas", FBool false);
   ("no-data", FBool false); ("csv-null-value", FString (String bslash "N"));
   ("sql", FString EmptyString); ("filter", FSlice ["*.*"; DefaultTableFilter]);
   ("case-sensitive", FBool false); ("dump-empty-database", FBool true); ("ca", FString EmptyString);
   ("cert", FString EmptyString); ("key", FString EmptyString); ("csv-separator", FString ",");
   ("csv-delimiter", FString (str1 dquote));
   ("csv-line-terminator", FString (String creturn (str1 newline)));
   ("output-filename-template", FString EmptyString); ("complete-insert", FBool false);
   ("params", FMap ∅); ("help", FBool false); ("read-timeout", FDuration (15 * minute));
   ("transactional-consistency", FBool true); ("compress", FString EmptyString);
   ("csv-output-dialect", FString EmptyString); ("target", FString "mysql");
   ("cdc-slot", FString EmptyString); ("cdc-plugin", FString "pgoutput");
   ("cdc-cleanup-on-failure", FBool true); ("no-preamble", FBool false)].

Section Flags.
Context `{UnicodeLib} `{RegexpLib} `{FileLib} `{UnitsLib} `{FlagSet} `{TemplateLib}.

(** The getter of a flag gives its default, and the flag is not changed. *)
Definition gives (f : string * flag_value) : Prop :=
  Changed (fst f) = false /\
  match snd f with
  | FString s => GetString (fst f) = Ok s
  | FBool b => GetBool (fst f) = Ok b
  | FInt z => GetInt (fst f) = Ok z
  | FUint64 z => GetUint64 (fst f) = Ok z
  | FDuration z => GetDuration (fst f) = Ok z
  | FSlice l => GetStringSlice (fst f) = Ok l
  | FMap m => GetStringToString (fst f) = Ok m
  end.

Definition untouched (flags : list (string * flag_value)) : Prop := Forall gives flags.
(** The reads of the command line are rewritten by what is known of them. *)
Ltac read_flags :=
  repeat match goal with
  | E : ?get ?name = _ |- context [?get ?name] => rewrite E
  end; cbn [mbind result_bind].

Section Defaults.
Variable output : string.
Hypothesis defaults : untouched (DefineFlags output).

(** The facts about all flags, one hypothesis each. *)
Ltac open_all H :=
  lazymatch type of H with
  | Forall _ (_ :: _) =>
      let F := fresh "F" in let T := fresh "T" in
      destruct (Forall_cons_1 _ _ _ H) as [F T]; clear H; destruct F; open_all T
  | _ => clear H
  end.
Ltac open_flags :=
  let Hu := fresh "Hu" in pose proof defaults as Hu; unfold untouched, DefineFlags in Hu;
  open_all Hu; cbn [fst snd] in *.

Lemma read_connection_default :
  read_connection_flags = Ok (mkConnectionFlags [] "127.0.0.1" "postgres" 5432 EmptyString 4 DefaultStatementSize
    output "auto" EmptyString).
Proof. open_flags. unfold read_connection_flags. by read_flags. Qed.

Definition default_content : content_flags :=
  mkContentFlags true true true UnspecifiedSize EmptyString true EmptyString false false false
    (String bslash "N") EmptyString true EmptyString EmptyString EmptyString "," (str1 dquote)
    (String creturn (str1 newline)) false (15 * minute) true.

Lemma read_content_default : read_content_flags = Ok default_content.
Proof. open_flags. unfold read_content_flags. by read_flags. Qed.

Lemma read_output_default f f' :
  Parse ["*.*"; DefaultTableFilter] = Ok f -> CaseInsensitive f = Some f' ->
  ParseOutputFileTemplate EmptyString = Ok DefaultOutputFileTemplate ->
  read_output_flags default_content =
    Ok (mkOutputFlags false ∅ f' UnspecifiedSize DefaultOutputFileTemplate NoCompression CSVDialectDefault TargetMySQL ∅).
Proof.
  intros Hf Hci Ht. open_flags. unfold read_output_flags. read_flags.
  change (GetConfTables []) with (@Ok DatabaseTables ∅). unfold ParseTableFilter. cbn [mbind result_bind].
  rewrite Hf. cbn [mbind result_bind negb]. rewrite Hci. cbn [mbind result_bind].
  change (ParseFileSize EmptyString) with (@Ok Z UnspecifiedSize). cbn [mbind result_bind].
  change (if _ && _ then _ else EmptyString) with EmptyString. rewrite Ht. cbn [mbind result_bind].
  by read_flags.
Qed.

Lemma read_cdc_default : read_cdc_flags TargetMySQL = Ok (mkCdcFlags EmptyString "pgoutput" true false).
Proof. open_flags. unfold read_cdc_flags. read_flags. cbn [String.eqb negb mbind result_bind]. read_flags. by destruct (Changed _). Qed.
End Defaults.

(** ** Properties *)

(** A command line with no options, read flag by flag. *)
Lemma defaults_parsed output f f' :
  untouched (DefineFlags output) ->
  Parse ["*.*"; DefaultTableFilter] = Ok f -> CaseInsensitive f = Some f' ->
  ParseOutputFileTemplate EmptyString = Ok DefaultOutputFileTemplate ->
  ParseFromFlags DefaultConfig =
    Ok (set_fields DefaultConfig EmptyString UnspecifiedSize UnspecifiedSize DefaultStatementSize EmptyString "auto"
          output f' DefaultOutputFileTemplate (15 * minute)).
Proof.
  intros Hu Hf Hci Ht. unfold ParseFromFlags.
  rewrite (read_connection_default output Hu), (read_content_default output Hu). cbn [mbind result_bind].
  change (check_limits _ _) with (@Ok unit tt). cbn [mbind result_bind].
  rewrite (read_output_default output Hu f f' Hf Hci Ht). cbn [mbind result_bind fTarget].
  rewrite (read_cdc_default output Hu). reflexivity.
Qed.

(** A command line without options is accepted, since every flag that is
    read was defined with the type it is read with, and gives the default
    configuration, apart from the output directory (named after the time),
    the read timeout (15 minutes instead of none) and the filter (which
    leaves the system schemas out). *)
Theorem default_command_line output f f' :
  untouched (DefineFlags output) ->
  Parse ["*.*"; DefaultTableFilter] = Ok f -> CaseInsensitive f = Some f' ->
  ParseOutputFileTemplate EmptyString = Ok DefaultOutputFileTemplate ->
  ParseFromFlags DefaultConfig =
    Ok (set_fields DefaultConfig EmptyString UnspecifiedSize UnspecifiedSize DefaultStatementSize EmptyString "auto"
          output f' DefaultOutputFileTemplate (15 * minute)).
Proof. apply defaults_parsed. Qed.
End Flags.

(** ** An example: a flag library that looks flags up in a list *)

Section Example.
#[local] Existing Instances Config.example_regexp Config.example_files Config.example_unicode.
#[local] Existing Instances Config.example_units Config.example_templates.

Definition look {A} (flags : list (string * flag_value)) (pick : flag_value -> option A) (name : string) : result A :=
  match list_find (fun f => fst f = name) flags with
  | Some (_, (_, v)) => match pick v with Some a => Ok a | None => Err (EForeign "flag of another type") end
  | None => Err (EForeign "flag accessed but not defined")
  end.

(** A command line that sets the flags of a list, in front of the defaults. *)
Definition command_line (given : list (string * flag_value)) : FlagSet :=
  let flags := given ++ DefineFlags "./export" in
  {| GetString := look flags (fun v => match v with FString s => Some s | _ => None end);
     GetBool := look flags (fun v => match v with FBool b => Some b | _ => None end);
     GetInt := look flags (fun v => match v with FInt z => Some z | _ => None end);
     GetUint64 := look flags (fun v => match v with FUint64 z => Some z | _ => None end);
     GetDuration := look flags (fun v => match v with FDuration z => Some z | _ => None end);
     GetStringSlice := look flags (fun v => match v with FSlice l => Some l | _ => None end);
     GetStringToString := look flags (fun v => match v with FMap m => Some m | _ => None end);
     Changed := fun name => bool_decide (name ∈ map fst given) |}.

#[local] Instance example_flags : FlagSet := command_line [].

Lemma example_untouched : untouched (DefineFlags "./export").
Proof. unfold untouched, DefineFlags. repeat (constructor; [split; [reflexivity|vm_compute; reflexivity]|]). constructor. Qed.

Lemma default_command_line_witness :
  exists f', ParseFromFlags DefaultConfig =
    Ok (set_fields DefaultConfig EmptyString UnspecifiedSize UnspecifiedSize DefaultStatementSize EmptyString "auto"
          "./export" f' DefaultOutputFileTemplate (15 * minute)).
Proof.
  destruct (Parse ["*.*"; DefaultTableFilter]) as [f|] eqn:Ef; [|by vm_compute in Ef].
  destruct (CaseInsensitive f) as [f'|] eqn:Ec.
  - exists f'. exact (default_command_line "./export" f f' example_untouched Ef Ec eq_refl).
  - exfalso. vm_compute in Ef. injection Ef as <-. by vm_compute in Ec.
Defined.
End Example.
