(* ===== verification/Prepare.v ===== *)
(** * The list of tables to dump (export/prepare.go, export/block_allow_list.go,
      export/sql.go, export/dump.go)

    Discovery of schemas and tables in the catalog and their filtering.  The
    server is a parameter: [conn_query] gives the rows of a query on the
    metadata connection, whose transaction reads one snapshot. *)

From S2P Require Import Prelude GoStrings FilterMatcher FilterParser Filter Tables Conn Config.

(** The arguments of a query: a text or an array of texts. *)
Inductive sql_arg := ArgText (s : string) | ArgArray (l : list string).

Class SnapshotConn := { conn_query : string -> list sql_arg -> result table_rows }.

(** What [rows.Scan] does for a string and for a nullable integer. *)
Definition scan_text (v : option string) : result string :=
  match v with
  | Some s => Ok s
  | None => Err (EForeign "sql: Scan error: converting NULL to string is unsupported")
  end.

Definition scan_null_int (v : option string) : result (option Z) :=
  match v with
  | None => Ok None
  | Some s => match SetString10 s with
              | Some n => Ok (Some n)
              | None => Err (EForeign "sql: Scan error: converting to int64")
              end
  end.

(** A row of the catalog query: schema, name, type and average row length. *)
Definition scan_table (r : list (option string)) : result (string * string * string * option Z) :=
  match r with
  | [a; b; c; d] =>
      schema ← scan_text a; name ← scan_text b; ttype ← scan_text c; avg ← scan_null_int d;
      Ok (schema, name, ttype, avg)
  | _ => Err (EForeign "sql: expected 4 destination arguments in Scan")
  end.

(** src/export/sql.go:95-99 ShowDatabases *)
Definition show_databases_query : string :=
"SELECT nspname FROM pg_catalog.pg_namespace
		WHERE nspname NOT IN ('pg_catalog','information_schema','pg_toast')
		  AND nspname NOT LIKE 'pg_temp_%'
		  AND nspname NOT LIKE 'pg_toast_temp_%'
		ORDER BY nspname".

(** src/export/sql.go:230-247 ListAllDatabasesTables *)
Definition catalog_columns : string :=
"
SELECT n.nspname,
       c.relname,
       CASE c.relkind
         WHEN 'r' THEN 'BASE TABLE'
         WHEN 'p' THEN 'BASE TABLE'
         WHEN 'v' THEN 'VIEW'
         WHEN 'm' THEN 'VIEW'
         WHEN 'S' THEN 'SEQUENCE'
         ELSE 'BASE TABLE'
       END AS table_type,
       COALESCE(
         CASE WHEN c.reltuples > 0
              THEN (pg_relation_size(c.oid) / c.reltuples)::bigint
              ELSE 0
         END, 0) AS avg_row_length
FROM pg_catalog.pg_class c
JOIN pg_catalog.pg_namespace n ON n.oid = c.relnamespace
WHERE n.nspname = ANY($1)".

Definition list_tables_query : string :=
  catalog_columns +:+ "
  AND c.relkind = ANY(ARRAY['r','p','v','m'])
ORDER BY n.nspname, c.relname".

Definition specified_tables_query : string := catalog_columns +:+ " AND c.relname = ANY($2)".

Section Prepare.
Context `{UnicodeLib} `{RegexpLib} `{FileLib} `{SnapshotConn}.

(** ** Filters *)

(** src/export/block_allow_list.go:10-25 filterDatabases *)
Definition filterDatabases (conf : Config) (databases : list string) : list string :=
  List.filter (MatchSchema (TableFilter conf)) databases.

(** One iteration of the loop over the schemas, in the order of the map.
    src/export/block_allow_list.go:36-51 filterTablesFunc *)
Definition filter_schema (conf : Config) (matchTable : string -> string -> bool)
    (dbName : string) (tables : list TableInfo) (dbTables : DatabaseTables) : DatabaseTables :=
  let dbTables := foldl (fun d table => if matchTable dbName (tName table)
                                        then AppendTable d dbName table else d) dbTables tables in
  if DumpEmptyDatabase conf then
    match dbTables !! dbName with
    | None => if MatchSchema (TableFilter conf) dbName then <[dbName := []]> dbTables else dbTables
    | Some _ => dbTables
    end
  else dbTables.

(** src/export/block_allow_list.go:27-58 filterTablesFunc *)
Definition filterTables (conf : Config) (tables : DatabaseTables) : DatabaseTables :=
  map_fold (filter_schema conf (MatchTable (TableFilter conf))) ∅ tables.

(** ** The catalog *)

(** The handler of a result with one column of strings.
    src/export/sql.go:908-919 oneStrColumnTable.handleOneRow *)
Definition handleOneRow (data : list string) (r : list (option string)) : result (list string) :=
  match r with
  | [v] => str ← scan_text v; Ok (data ++ [str])
  | _ => Err (EForeign "sql: expected 1 destination argument in Scan")
  end.

(** What the handler collects when there is no error.
    src/export/sql.go:921-923 simpleQuery *)
Definition simpleQuery {A} (query : string) (handleOneRow : A -> list (option string) -> result A) (acc : A)
    : result A :=
  let annotate e := EAnnotate e "sql: %s, args: %s" [AStr query] in
  rows ← match conn_query query [] with
         | Ok rows => Ok rows
         | Err e => Err (annotate e)
         end;
  match handle_rows handleOneRow (data rows) acc with
  | (res, None) => match rows_err rows with None => Ok res | Some e => Err (annotate e) end
  | (_, Some e) => Err (annotate e)
  end.

(** src/export/sql.go:91-105 ShowDatabases *)
Definition ShowDatabases : result (list string) := simpleQuery show_databases_query handleOneRow [].

(** src/export/prepare.go:90-96 prepareDumpingDatabases *)
Definition prepareDumpingDatabases (conf : Config) : result (list string) :=
  databases ← ShowDatabases;
  Ok (filterDatabases conf databases).

(** One row of the catalog; [wantType] is the set of wanted types, where the
    empty set means all.
    src/export/sql.go:255-275 ListAllDatabasesTables *)
Definition list_row (wantType : list TableType) (dbTables : DatabaseTables)
    (r : list (option string)) : result DatabaseTables :=
  '(schema, name, ttype, avgRowLength) ← scan_table r;
  tableType ← ParseTableType ttype;
  if negb (bool_decide (tableType ∈ wantType)) && (0 <? Z.of_nat (length wantType))
  then Ok dbTables
  else Ok (AppendTable dbTables schema (mkTableInfo name (u64 (default 0 avgRowLength)) tableType)).

(** src/export/sql.go:216-277 ListAllDatabasesTables *)
Definition ListAllDatabasesTables (databaseNames : list string) (tableTypes : list TableType)
    : result DatabaseTables :=
  let dbTables := foldl (fun d schema => <[schema := []]> d) (∅ : DatabaseTables) databaseNames in
  match conn_query list_tables_query [ArgArray databaseNames] with
  | Err e => Err (EAnnotate e "sql: %s" [AStr list_tables_query])
  | Ok rows =>
      match handle_rows (list_row tableTypes) (data rows) dbTables with
      | (_, Some e) => Err e
      | (dbTables, None) => match rows_err rows with None => Ok dbTables | Some e => Err e end
      end
  end.

(** src/export/sql.go:187-208 updateSpecifiedTablesMeta *)
Definition update_row (dbTables : DatabaseTables) (r : list (option string))
    : result DatabaseTables :=
  '(schema, name, ttype, avgRowLength) ← scan_table r;
  tableType ← ParseTableType ttype;
  Ok (alter (map (fun tbl =>
        if String.eqb (tName tbl) name
        then mkTableInfo (tName tbl) (match avgRowLength with Some a => u64 a | None => tAvgRowLength tbl end)
               tableType
        else tbl)) schema dbTables).

(** The arguments are collected in the order of the map.
    src/export/sql.go:150-210 updateSpecifiedTablesMeta *)
Definition updateSpecifiedTablesMeta (dbTables : DatabaseTables) : result DatabaseTables :=
  let schemas := (map_to_list dbTables).*1 in
  let names := flat_map (fun p => map tName p.2) (map_to_list dbTables) in
  match conn_query specified_tables_query [ArgArray schemas; ArgArray names] with
  | Err e => Err (EAnnotate e "sql: %s" [AStr specified_tables_query])
  | Ok rows =>
      match handle_rows update_row (data rows) dbTables with
      | (_, Some e) => Err e
      | (dbTables, None) => match rows_err rows with None => Ok dbTables | Some e => Err e end
      end
  end.

(** The new value of [conf.Tables].
    src/export/dump.go:685-715 prepareTableListToDump *)
Definition prepareTableListToDump (conf : Config) : result DatabaseTables :=
  if negb (String.eqb (SQL conf) EmptyString) then Ok (Tables conf)
  else if SpecifiedTables conf then updateSpecifiedTablesMeta (Tables conf)
  else
    databases ← prepareDumpingDatabases conf;
    let tableTypes := [TableTypeBase] ++ (if NoViews conf then [] else [TableTypeView]) ++
                      (if NoSequences conf then [] else [TableTypeSequence]) in
    tables ← ListAllDatabasesTables databases tableTypes;
    Ok (filterTables conf tables).

(** ** Laws *)

Lemma append_matching (m : string -> string -> bool) db (tables : list TableInfo)
    (d : DatabaseTables) s :
  foldl (fun d table => if m db (tName table) then AppendTable d db table else d) d tables !! s =
  let kept := List.filter (fun t => m db (tName t)) tables in
  if decide (s = db) then match kept with [] => d !! s | _ => Some (tables_of d s ++ kept) end
  else d !! s.
Proof.
  revert d. induction tables as [|t tables IH]; intros d; cbn.
  - by destruct (decide _).
  - rewrite IH. cbn. destruct (m db (tName t)); [|done].
    destruct (decide (s = db)) as [->|Hne].
    + destruct (List.filter _ tables) eqn:E.
      * unfold AppendTable. by rewrite lookup_insert_eq.
      * rewrite tables_of_append, decide_True by done. by rewrite <- app_assoc.
    + by rewrite lookup_append_ne by done.
Qed.

(** The filtered table map, schema by schema. *)
Lemma filterTables_lookup conf tables s :
  filterTables conf tables !! s =
  l ← tables !! s;
  match List.filter (fun t => MatchTable (TableFilter conf) s (tName t)) l with
  | [] => if DumpEmptyDatabase conf && MatchSchema (TableFilter conf) s then Some [] else None
  | kept => Some kept
  end.
Proof.
  unfold filterTables. revert s.
  apply (map_fold_weak_ind (fun r m => forall s, r !! s = l ← m !! s;
    match List.filter (fun t => MatchTable (TableFilter conf) s (tName t)) l with
    | [] => if DumpEmptyDatabase conf && MatchSchema (TableFilter conf) s then Some [] else None
    | kept => Some kept
    end)).
  - intros s. by rewrite !lookup_empty.
  - intros db l m r Hm IH s. unfold filter_schema.
    set (d := foldl _ r l).
    assert (forall s, d !! s = if decide (s = db) then
      match List.filter (fun t => MatchTable (TableFilter conf) db (tName t)) l with
      | [] => None | kept => Some kept end else r !! s) as Hd.
    { intros s'. unfold d. rewrite append_matching. destruct (decide (s' = db)) as [->|]; [|done].
      cbn. unfold tables_of. rewrite IH, Hm. by destruct (List.filter _ l). }
    assert ((if DumpEmptyDatabase conf then
               match d !! db with
               | None => if MatchSchema (TableFilter conf) db then <[db:=[]]> d else d
               | Some _ => d
               end else d) !! s =
            if decide (s = db) then
              match List.filter (fun t => MatchTable (TableFilter conf) db (tName t)) l with
              | [] => if DumpEmptyDatabase conf && MatchSchema (TableFilter conf) db
                      then Some [] else None
              | kept => Some kept end else r !! s) as ->.
    { rewrite (Hd db), decide_True by done.
      destruct (DumpEmptyDatabase conf), (List.filter _ l) eqn:E; cbn;
        rewrite ?Hd; rewrite ?E; [|done..].
      destruct (MatchSchema _ db); rewrite ?Hd, ?E; [|done].
      destruct (decide (s = db)) as [->|]; [by rewrite lookup_insert_eq|].
      rewrite lookup_insert_ne by done. rewrite Hd. by rewrite decide_False. }
    destruct (decide (s = db)) as [->|Hne].
    + by rewrite lookup_insert_eq.
    + rewrite lookup_insert_ne by done. apply IH.
Qed.

(** The row that the catalog query returns for a table. *)
Definition catalog_row (p : string * TableInfo) : list (option string) :=
  let '(schema, t) := p in
  [Some schema; Some (tName t); Some (TableType_String (tType t)); Some (itoa (tAvgRowLength t))].

Lemma parse_table_type_string t : ParseTableType (TableType_String t) = Ok t.
Proof. by destruct t. Qed.

Lemma list_row_catalog (wantType : list TableType) d p :
  wantType <> [] -> is_u64 (tAvgRowLength p.2) ->
  list_row wantType d (catalog_row p) =
  Ok (if bool_decide (tType p.2 ∈ wantType) then AppendTable d p.1 p.2 else d).
Proof.
  intros Hw Hu. destruct p as [schema [name avg ty]]. cbn [fst snd tType tAvgRowLength] in *.
  unfold list_row, catalog_row. cbn [scan_table scan_text scan_null_int tName tType tAvgRowLength].
  rewrite SetString10_itoa. cbn [mbind result_bind]. rewrite parse_table_type_string.
  cbn [mbind result_bind default]. rewrite u64_small by done.
  destruct (bool_decide _); cbn; [done|]. by destruct wantType.
Qed.

Lemma handle_rows_foldl {A} (h : A -> list (option string) -> result A)
    (f : A -> string * TableInfo -> A) l acc :
  (forall a p, p ∈ l -> h a (catalog_row p) = Ok (f a p)) ->
  handle_rows h (map catalog_row l) acc = (foldl f acc l, None).
Proof.
  revert acc. induction l as [|p l IH]; intros acc Hh; cbn; [done|].
  rewrite Hh by (by left). apply IH. intros a q Hq. apply Hh. by right.
Qed.

Lemma tables_of_foldl_append (wantType : list TableType) (l : list (string * TableInfo)) d s :
  tables_of (foldl (fun d p => if bool_decide (tType p.2 ∈ wantType)
                               then AppendTable d p.1 p.2 else d) d l) s =
  tables_of d s ++ map snd (List.filter (fun p => bool_decide (p.1 = s /\ tType p.2 ∈ wantType)) l).
Proof.
  revert d. induction l as [|[s' t'] l IH]; intros d; cbn [foldl List.filter fst snd].
  - by rewrite app_nil_r.
  - rewrite IH. destruct (bool_decide_reflect (tType t' ∈ wantType)) as [Hb|Hb].
    + rewrite tables_of_append. destruct (decide (s' = s)) as [->|Hne].
      * rewrite bool_decide_eq_true_2 by done. cbn. by rewrite <- app_assoc.
      * by rewrite bool_decide_eq_false_2 by naive_solver.
    + by rewrite bool_decide_eq_false_2 by naive_solver.
Qed.

Lemma foldl_empty_tables names (d : DatabaseTables) s :
  (forall s, tables_of d s = []) ->
  tables_of (foldl (fun d schema => <[schema := []]> d) d names) s = [].
Proof.
  revert d. induction names as [|n names IH]; intros d Hd; cbn; [done|].
  apply IH. intros s'. rewrite tables_of_insert. by destruct (decide _).
Qed.

(** A result of one column of strings, read to its end. *)
Lemma one_column l : forall acc,
  handle_rows handleOneRow (map (fun s => [Some s]) l) acc = (acc ++ l, None).
Proof.
  induction l as [|x l IH]; intros acc; cbn; [by rewrite app_nil_r|]. rewrite IH. by rewrite <- app_assoc.
Qed.

Lemma simpleQuery_column q cols l :
  conn_query q [] = Ok (mkRows cols (map (fun s => [Some s]) l) None) -> simpleQuery q handleOneRow [] = Ok l.
Proof. intros Hq. unfold simpleQuery. rewrite Hq. cbn [mbind result_bind data rows_err]. by rewrite one_column. Qed.

Lemma ShowDatabases_rows schemas cols :
  conn_query show_databases_query [] = Ok (mkRows cols (map (fun s => [Some s]) schemas) None) ->
  ShowDatabases = Ok schemas.
Proof. apply simpleQuery_column. Qed.

(** The types that a configuration asks for. *)
Definition wanted (conf : Config) : list TableType :=
  [TableTypeBase] ++ (if NoViews conf then [] else [TableTypeView]) ++
  (if NoSequences conf then [] else [TableTypeSequence]).

Lemma list_tables_catalog conf (dbs : list string) (rows : list (string * TableInfo)) cols :
  conn_query list_tables_query [ArgArray dbs] = Ok (mkRows cols (map catalog_row rows) None) ->
  (forall p, p ∈ rows -> is_u64 (tAvgRowLength p.2)) ->
  exists d, ListAllDatabasesTables dbs (wanted conf) = Ok d /\
    forall s, tables_of d s =
      map snd (List.filter (fun p => bool_decide (p.1 = s /\ tType p.2 ∈ wanted conf)) rows).
Proof.
  intros Hq Hu. unfold ListAllDatabasesTables. rewrite Hq. cbn [data rows_err].
  rewrite (handle_rows_foldl _ (fun d p => if bool_decide (tType p.2 ∈ wanted conf)
                                           then AppendTable d p.1 p.2 else d)).
  - eexists. split; [done|]. intros s. rewrite tables_of_foldl_append, foldl_empty_tables; [done|].
    intros s'. unfold tables_of. by rewrite lookup_empty.
  - intros d p Hp. apply list_row_catalog; [unfold wanted; discriminate|auto].
Qed.

Lemma filterTables_list conf d s :
  tables_of (filterTables conf d) s =
  List.filter (fun t => MatchTable (TableFilter conf) s (tName t)) (tables_of d s).
Proof.
  unfold tables_of. rewrite filterTables_lookup. destruct (d !! s) as [l|]; cbn; [|done].
  destruct (List.filter _ l); cbn; [|done]. by destruct (DumpEmptyDatabase conf && _).
Qed.

Lemma elem_of_filtered {A} (p : A -> bool) x l : x ∈ List.filter p l <-> x ∈ l /\ p x = true.
Proof. by rewrite !list_elem_of_In, filter_In. Qed.

Lemma NoDup_map_filter {A B} (f : A -> B) p l : NoDup (map f l) -> NoDup (map f (List.filter p l)).
Proof.
  induction l as [|x l IH]; [done|]. cbn. intros [Hx Hl]%NoDup_cons. destruct (p x); [|by apply IH].
  cbn. constructor; [|by apply IH]. contradict Hx.
  apply list_elem_of_In, in_map_iff in Hx as (y & Ey & Hy). apply list_elem_of_In, in_map_iff.
  exists y. split; [done|]. by apply filter_In in Hy as [? _].
Qed.

(** The name of a table in the catalog. *)
Definition qualified (p : string * TableInfo) : string * string := (p.1, tName p.2).

Lemma names_of_schema s (l : list (string * TableInfo)) :
  (forall p, p ∈ l -> p.1 = s) -> NoDup (map qualified l) -> NoDup (map tName (map snd l)).
Proof.
  intros Hs Hl. rewrite map_map. apply (NoDup_fmap_1 (pair s)).
  change (NoDup (map (pair s) (map (fun p => tName p.2) l))). rewrite map_map.
  replace (map (fun p => (s, tName p.2)) l) with (map qualified l); [done|].
  apply map_ext_in. intros p Hp%list_elem_of_In. unfold qualified. by rewrite (Hs p Hp).
Qed.

(** What [prepareTableListToDump] makes of a catalog. *)
Lemma prepared_tables conf schemas catalog c1 c2 :
  SQL conf = EmptyString -> SpecifiedTables conf = false ->
  conn_query show_databases_query [] = Ok (mkRows c1 (map (fun s => [Some s]) schemas) None) ->
  (forall dbs, conn_query list_tables_query [ArgArray dbs] =
     Ok (mkRows c2 (map catalog_row
           (List.filter (fun p => bool_decide (p.1 ∈ dbs)) catalog)) None)) ->
  (forall p, p ∈ catalog -> is_u64 (tAvgRowLength p.2)) ->
  exists d, prepareTableListToDump conf = Ok d /\
    (forall s t, t ∈ tables_of d s <->
      (s, t) ∈ catalog /\ s ∈ schemas /\ tType t ∈ wanted conf /\
      MatchTable (TableFilter conf) s (tName t) = true) /\
    (NoDup (map qualified catalog) -> forall s, NoDup (map tName (tables_of d s))).
Proof.
  intros Hsql Hspec Hs Hc Hu. unfold prepareTableListToDump. rewrite Hsql, Hspec. cbn [negb String.eqb].
  unfold prepareDumpingDatabases. rewrite (ShowDatabases_rows _ _ Hs). cbn [mbind result_bind].
  fold (wanted conf).
  destruct (list_tables_catalog conf _ _ _ (Hc (filterDatabases conf schemas))) as (d & Hd & Hin).
  { intros p [Hp _]%elem_of_filtered. by apply Hu. }
  rewrite Hd. cbn [mbind result_bind]. eexists. split; [done|]. split.
  - intros s t. rewrite filterTables_list, elem_of_filtered, Hin, list_elem_of_In, in_map_iff. split.
    + intros [([s' t'] & [= <-] & Hp%list_elem_of_In) Hm].
      apply elem_of_filtered in Hp as [Hp [Es Ht]%bool_decide_eq_true]. cbn [fst snd] in *. subst s'.
      apply elem_of_filtered in Hp as [Hp Hsc%bool_decide_eq_true].
      apply elem_of_filtered in Hsc as [Hsc _]. auto.
    + intros (Hcat & Hsc & Ht & Hm). split; [|done]. exists (s, t). split; [done|].
      apply list_elem_of_In. rewrite !elem_of_filtered, !bool_decide_eq_true. cbn [fst snd].
      split_and!; try done. apply elem_of_filtered. split; [done|]. by eapply MatchTable_schema.
  - intros Hnd s. rewrite filterTables_list, Hin. apply NoDup_map_filter, (names_of_schema s).
    + intros p [_ [? _]%bool_decide_eq_true]%elem_of_filtered. done.
    + by do 2 apply NoDup_map_filter.
Qed.

(** C17: without --sql and --tables-list the dumped tables are exactly the
    tables of the catalog that the filter accepts and whose type is asked
    for: although the catalog is only queried for the schemas that pass the
    filter, no accepted table is lost, and no other table is dumped. *)
Theorem dumped_tables_are_filtered conf schemas catalog c1 c2 :
  SQL conf = EmptyString -> SpecifiedTables conf = false ->
  conn_query show_databases_query [] = Ok (mkRows c1 (map (fun s => [Some s]) schemas) None) ->
  (forall dbs, conn_query list_tables_query [ArgArray dbs] =
     Ok (mkRows c2 (map catalog_row
           (List.filter (fun p => bool_decide (p.1 ∈ dbs)) catalog)) None)) ->
  (forall p, p ∈ catalog -> is_u64 (tAvgRowLength p.2)) ->
  exists d, prepareTableListToDump conf = Ok d /\
    forall s t, t ∈ tables_of d s <->
      (s, t) ∈ catalog /\ s ∈ schemas /\ tType t ∈ wanted conf /\
      MatchTable (TableFilter conf) s (tName t) = true.
Proof.
  intros Hsql Hspec Hs Hc Hu.
  destruct (prepared_tables conf _ _ _ _ Hsql Hspec Hs Hc Hu) as (d & Hd & Hin & _). by exists d.
Qed.
End Prepare.

Section Examples.
#[local] Existing Instances Config.example_regexp Config.example_files Config.example_unicode.

Definition example_catalog : list (string * TableInfo) :=
  [("public", mkTableInfo "users" 120 TableTypeBase); ("public", mkTableInfo "v" 0 TableTypeView)].

#[local] Instance example_conn : SnapshotConn :=
  {| conn_query := fun q args =>
       if String.eqb q show_databases_query then Ok (mkRows ["nspname"] [[Some "public"]] None)
       else match args with
            | [ArgArray dbs] =>
                Ok (mkRows ["nspname"; "relname"; "table_type"; "avg_row_length"]
                      (map catalog_row (List.filter (fun p => bool_decide (p.1 ∈ dbs)) example_catalog))
                      None)
            | _ => Err (EForeign "syntax error")
            end |}.

Lemma dumped_tables_are_filtered_witness :
  exists d, prepareTableListToDump DefaultConfig = Ok d /\
    forall s t, t ∈ tables_of d s <->
      (s, t) ∈ example_catalog /\ s ∈ ["public"] /\ tType t ∈ wanted DefaultConfig /\
      MatchTable (TableFilter DefaultConfig) s (tName t) = true.
Proof.
  refine (dumped_tables_are_filtered DefaultConfig ["public"] example_catalog ["nspname"]
            ["nspname"; "relname"; "table_type"; "avg_row_length"] eq_refl eq_refl eq_refl _ _).
  - intros dbs. reflexivity.
  - intros p Hp. unfold example_catalog in Hp.
    apply elem_of_cons in Hp as [->|Hp]; [unfold is_u64; cbn; lia|].
    apply elem_of_cons in Hp as [->|Hp]; [unfold is_u64; cbn; lia|]. by apply elem_of_nil in Hp.
Defined.
End Examples.
