(* ===== verification/Ir.v ===== *)
(** * Table data and tasks (export/ir.go, export/ir_impl.go, export/task.go)

    Table metadata, row iterators and the tasks that writers receive.
    [RowIter] is the contract of an iterator that the file writers are proved
    against: the rows still to come, and the error the iteration ends with.
    The iterator of one query and the iterator that chains several queries
    both satisfy it. *)

From S2P Require Import Prelude GoStrings Dialect SqlTypes Config.

(** ** Metadata *)

(** What the driver reports about a column ([*sql.ColumnType]). *)
Record ColumnType := mkColumnType { ct_Name : string; ct_DatabaseTypeName : string }.

(** src/export/ir_impl.go:256-268 tableMeta *)
Record tableMeta := mkTableMeta {
  database : string;
  table : string;
  colTypes : list ColumnType;
  selectedField : string;
  selectColumns : string;
  selectedLen : Z;
  specCmts : list string;
  showCreateTable : string;
  showCreateView : string;
  avgRowLength : Z;
  hasImplicitRowID : bool
}.

(** src/export/ir_impl.go:270-276 tableMeta.ColumnTypes *)
Definition ColumnTypes (tm : tableMeta) : list string := map ct_DatabaseTypeName (colTypes tm).

(** src/export/ir_impl.go:278-284 tableMeta.ColumnNames *)
Definition ColumnNames (tm : tableMeta) : list string := map ct_Name (colTypes tm).

(** src/export/ir_impl.go:330-334 metaData *)
Record metaData := mkMetaData {
  target : string;
  metaSQL : string;
  metaCmts : list string
}.

(** The text, and the metadata with the terminator stored in it.
    src/export/ir_impl.go:344-349 metaData.MetaSQL *)
Definition MetaSQL (m : metaData) : string * metaData :=
  let sql := if negb (has_suffix (";" +:+ str1 newline) (metaSQL m))
             then metaSQL m +:+ ";" +:+ str1 newline else metaSQL m in
  (sql, mkMetaData (target m) sql (metaCmts m)).

(** src/export/ir_impl.go:161-164 stringIter *)
Record stringIter := mkStringIter { idx : nat; ss : list string }.

(** src/export/ir_impl.go:166-171 newStringIter *)
Definition newStringIter (ss : list string) : stringIter := mkStringIter 0 ss.

(** src/export/ir_impl.go:173-180 stringIter.Next *)
Definition string_Next (m : stringIter) : string * stringIter :=
  match ss m !! idx m with
  | None => (EmptyString, m)
  | Some ret => (ret, mkStringIter (S (idx m)) (ss m))
  end.

(** src/export/ir_impl.go:182-184 stringIter.HasNext *)
Definition string_HasNext (m : stringIter) : bool := (idx m <? length (ss m))%nat.

(** ** Cursors *)

(** A row of a result, or the error that [Scan] reports for it. *)
Definition scanned_row := result (list (option string)).

(** An open [*sql.Rows]: the current row, the rows after it, the error that
    [Err] reports once they are exhausted, and the error of [Close]. *)
Record cursor := mkCursor {
  cur : option scanned_row;
  rest : list scanned_row;
  end_err : option error;
  close_err : option error
}.

Definition cursor_Next (c : cursor) : bool * cursor :=
  match rest c with
  | r :: l => (true, mkCursor (Some r) l (end_err c) (close_err c))
  | [] => (false, mkCursor None [] (end_err c) (close_err c))
  end.

(** [rows.Err()]: nil while rows remain. *)
Definition cursor_Err (c : cursor) : option error :=
  match cur c, rest c with None, [] => end_err c | _, _ => None end.

(** [rows.Scan] on the current row. *)
Definition cursor_Scan (c : cursor) : scanned_row :=
  match cur c with
  | Some r => r
  | None => Err (EForeign "sql: Scan called without calling Next")
  end.

(** ** The contract of an iterator *)

(** The operations; [Laws] below are its contract.
    src/export/ir.go:41-48 SQLRowIter *)
Class RowIter (I : Type) := {
  HasNext : I -> bool;
  Decode : I -> scanned_row;
  Next : I -> I;
  IterError : I -> option error;
  (** the states the iterator reaches *)
  iter_ok : I -> Prop;
  (** the rows still to come, and the error at their end *)
  pending : I -> list scanned_row;
  final_error : I -> option error;
  next_ok i : iter_ok i -> iter_ok (Next i);
  hasnext_pending i : iter_ok i -> HasNext i = negb (bool_decide (pending i = []));
  decode_head i r l : iter_ok i -> pending i = r :: l -> Decode i = r;
  next_tail i r l : iter_ok i -> pending i = r :: l -> pending (Next i) = l;
  next_error i : iter_ok i -> final_error (Next i) = final_error i;
  error_end i : iter_ok i -> pending i = [] -> IterError i = final_error i
}.

(** ** One query *)

(** src/export/ir_impl.go:16-20 rowIter *)
Record rowIter := mkRowIter { rows : cursor; hasNext : bool }.

(** src/export/ir_impl.go:22-30 newRowIter *)
Definition newRowIter (rows : cursor) : rowIter :=
  let '(b, c) := cursor_Next rows in mkRowIter c b.

(** src/export/ir_impl.go:44-46 rowIter.Next *)
Definition rowIter_Next (i : rowIter) : rowIter :=
  let '(b, c) := cursor_Next (rows i) in mkRowIter c b.

(** src/export/ir_impl.go:36-38 rowIter.Decode *)
Definition rowIter_Decode (i : rowIter) : scanned_row := cursor_Scan (rows i).

(** src/export/ir_impl.go:40-42 rowIter.Error *)
Definition rowIter_Error (i : rowIter) : option error := cursor_Err (rows i).

(** src/export/ir_impl.go:48-50 rowIter.HasNext *)
Definition rowIter_HasNext (i : rowIter) : bool := hasNext i.

(** src/export/ir_impl.go:32-34 rowIter.Close *)
Definition rowIter_Close (i : rowIter) : option error := close_err (rows i).

Definition cursor_pending (c : cursor) : list scanned_row :=
  match cur c with Some r => r :: rest c | None => [] end.

Definition rowIter_ok (i : rowIter) : Prop :=
  hasNext i = bool_decide (is_Some (cur (rows i))) /\
  (cur (rows i) = None -> rest (rows i) = []).

(** ** Several queries *)

(** src/export/ir_impl.go:54-63 multiQueriesChunkIter *)
Record multiIter := mkMultiIter {
  queries : list string;
  m_rows : option cursor;
  m_hasNext : bool;
  m_err : option error
}.

Section Multi.
(** [conn.QueryContext]: the cursor of a query, before its first row. *)
Variable run : string -> result cursor.

(** The loop that skips empty results; [queries] are those not yet started.
    src/export/ir_impl.go:77-116 multiQueriesChunkIter.nextRows *)
Fixpoint nextRows_loop (queries : list string) (rows : option cursor) : multiIter :=
  match queries with
  | [] => mkMultiIter [] rows false None
  | q :: qs =>
      let stop e := mkMultiIter queries rows false (Some e) in
      let closed := match rows with
                    | None => None
                    | Some c => match close_err c with
                                | Some e => Some e
                                | None => cursor_Err c
                                end
                    end in
      match closed with
      | Some e => stop e
      | None =>
          match run q with
          | Err e => stop e
          | Ok c =>
              match cursor_Next c with
              | (true, c') => mkMultiIter qs (Some c') true None
              | (false, c') => nextRows_loop qs (Some c')
              end
          end
      end
  end.

(** src/export/ir_impl.go:65-75 newMultiQueryChunkIter *)
Definition newMultiQueryChunkIter (queries : list string) : multiIter :=
  nextRows_loop queries None.

(** src/export/ir_impl.go:148-155 multiQueriesChunkIter.Next *)
Definition multi_Next (i : multiIter) : multiIter :=
  match m_err i, m_rows i with
  | None, Some c =>
      match cursor_Next c with
      | (true, c') => mkMultiIter (queries i) (Some c') true None
      | (false, c') => nextRows_loop (queries i) (Some c')
      end
  | _, _ => i
  end.

(** src/export/ir_impl.go:128-136 multiQueriesChunkIter.Decode *)
Definition multi_Decode (i : multiIter) : scanned_row :=
  match m_err i with
  | Some e => Err e
  | None => match m_rows i with
            | None => Err (EErrorf "no valid rows found, id: %d" [])
            | Some c => cursor_Scan c
            end
  end.

(** src/export/ir_impl.go:138-146 multiQueriesChunkIter.Error *)
Definition multi_Error (i : multiIter) : option error :=
  match m_err i with
  | Some e => Some e
  | None => match m_rows i with Some c => cursor_Err c | None => None end
  end.

(** src/export/ir_impl.go:157-159 multiQueriesChunkIter.HasNext *)
Definition multi_HasNext (i : multiIter) : bool := m_hasNext i.

(** src/export/ir_impl.go:118-126 multiQueriesChunkIter.Close *)
Definition multi_Close (i : multiIter) : option error :=
  match m_err i with
  | Some e => Some e
  | None => match m_rows i with Some c => close_err c | None => None end
  end.
End Multi.

(** ** Both iterators meet the contract *)

Lemma pending_empty (l : list scanned_row) : negb (bool_decide (l = [])) = match l with [] => false | _ => true end.
Proof. by destruct l. Qed.

#[export] Program Instance rowIter_contract : RowIter rowIter := {|
  HasNext := rowIter_HasNext;
  Decode := rowIter_Decode;
  Next := rowIter_Next;
  IterError := rowIter_Error;
  iter_ok := rowIter_ok;
  pending i := cursor_pending (rows i);
  final_error i := end_err (rows i)
|}.
Next Obligation.
  intros [[c r e ce] h] [Hh Hc]. unfold rowIter_Next, cursor_Next. cbn in *.
  destruct r; split; cbn; done.
Qed.
Next Obligation. intros [[[c|] r e ce] h] [Hh Hc]; cbn in *; by rewrite Hh. Qed.
Next Obligation. intros [[[c|] r e ce] h] r' l _; cbn; [by intros [= -> _]|done]. Qed.
Next Obligation.
  intros [[[c|] r e ce] h] r' l _; [|done]. unfold rowIter_Next, cursor_Next. cbn.
  intros [= _ ->]. by destruct l.
Qed.
Next Obligation. intros [[c r e ce] h] _. unfold rowIter_Next, cursor_Next. cbn. by destruct r. Qed.
Next Obligation.
  intros [[[c|] r e ce] h] [Hh Hc]; [done|]. cbn in *. rewrite (Hc eq_refl).
  intros _. unfold rowIter_Error, cursor_Err. done.
Qed.

Lemma newRowIter_ok c :
  cur c = None -> iter_ok (newRowIter c) /\ pending (newRowIter c) = rest c /\
  final_error (newRowIter c) = end_err c.
Proof.
  destruct c as [cu r e ce]. cbn. intros ->. unfold newRowIter, cursor_Next, rowIter_ok. cbn.
  by destruct r.
Qed.

Section MultiContract.
Variable run : string -> result cursor.
Hypothesis run_fresh : forall q c, run q = Ok c -> cur c = None.

(** The error that leaving a cursor for the next query reports. *)
Definition leave_err (c : option cursor) : option error :=
  match c with
  | None => None
  | Some c => match close_err c with Some e => Some e | None => end_err c end
  end.

(** All rows of the queries one after the other, and the error that ends
    them: of a query, of its rows, or of closing it. *)
Fixpoint chain (qs : list string) (prev : option cursor) : list scanned_row * option error :=
  match qs with
  | [] => ([], match prev with Some c => end_err c | None => None end)
  | q :: qs' =>
      match leave_err prev with
      | Some e => ([], Some e)
      | None => match run q with
                | Err e => ([], Some e)
                | Ok c => let '(l, e) := chain qs' (Some c) in (rest c ++ l, e)
                end
      end
  end.

Definition exhausted (c : option cursor) : Prop :=
  match c with Some c => cur c = None /\ rest c = [] | None => True end.

(** Only the errors of the previous cursor matter. *)
Lemma chain_same qs c c' :
  end_err c = end_err c' -> close_err c = close_err c' -> chain qs (Some c) = chain qs (Some c').
Proof. intros He Hc. destruct qs; cbn; by rewrite ?He, ?Hc. Qed.

Definition multi_ok (i : multiIter) : Prop :=
  match m_err i with
  | Some _ => m_hasNext i = false
  | None =>
      match m_rows i with
      | None => m_hasNext i = false /\ queries i = []
      | Some c => m_hasNext i = bool_decide (is_Some (cur c)) /\
                  (cur c = None -> rest c = [] /\ queries i = [])
      end
  end.

Definition multi_pending (i : multiIter) : list scanned_row :=
  match m_err i, m_rows i with
  | None, Some c => cursor_pending c ++ fst (chain (queries i) (Some c))
  | _, _ => []
  end.

Definition multi_final (i : multiIter) : option error :=
  match m_err i, m_rows i with
  | Some e, _ => Some e
  | None, Some c => snd (chain (queries i) (Some c))
  | None, None => None
  end.

Lemma nextRows_spec qs prev :
  exhausted prev ->
  let i := nextRows_loop run qs prev in
  multi_ok i /\ multi_pending i = fst (chain qs prev) /\ multi_final i = snd (chain qs prev).
Proof.
  revert prev. induction qs as [|q qs IH]; intros prev Hp; cbn.
  - destruct prev as [c|]; [|done]. destruct Hp as [H1 H2]. unfold multi_ok, multi_pending.
    cbn. unfold cursor_pending. rewrite H1. done.
  - assert (match prev with
            | None => None
            | Some c => match close_err c with Some e => Some e | None => cursor_Err c end
            end = leave_err prev) as ->.
    { destruct prev as [c|]; [|done]. destruct Hp as [H1 H2]. cbn. unfold cursor_Err.
      by rewrite H1, H2. }
    destruct (leave_err prev); [done|]. destruct (run q) as [c|e] eqn:Hq; [|done].
    pose proof (run_fresh _ _ Hq) as Hf. destruct c as [cu re e ce]. cbn in Hf. subst cu.
    unfold cursor_Next. cbn. destruct re as [|r re].
    + destruct (IH (Some (mkCursor None [] e ce)) ltac:(done)) as (H1 & H2 & H3).
      rewrite H2, H3. split; [done|]. by destruct (chain qs _).
    + unfold multi_ok, multi_pending, multi_final. cbn.
      rewrite (chain_same qs (mkCursor None (r :: re) e ce) (mkCursor (Some r) re e ce)) by done.
      by destruct (chain qs _).
Qed.

Lemma multi_Next_spec i :
  multi_ok i ->
  multi_ok (multi_Next run i) /\
  (forall r l, multi_pending i = r :: l -> multi_pending (multi_Next run i) = l) /\
  multi_final (multi_Next run i) = multi_final i.
Proof.
  destruct i as [qs [c|] h [e|]]; try done.
  unfold multi_ok. cbn [m_err m_rows m_hasNext queries]. intros [Hh Hc].
  unfold multi_Next. cbn [m_err m_rows queries]. destruct c as [cu re e ce]. unfold cursor_Next.
  cbn [rest cur end_err close_err] in *. destruct re as [|r re].
  - destruct (nextRows_spec qs (Some (mkCursor None [] e ce)) ltac:(done)) as (H1 & H2 & H3).
    split; [done|]. rewrite H2, H3. unfold multi_pending, multi_final.
    cbn [m_err m_rows queries cursor_pending cur rest].
    rewrite (chain_same qs (mkCursor None [] e ce) (mkCursor cu [] e ce)) by done.
    split; [|done]. intros r l. destruct cu as [x|]; cbn [cursor_pending cur rest app].
    + by intros [= _ ->].
    + destruct (Hc eq_refl) as [_ ->]. done.
  - unfold multi_pending, multi_final. cbn [m_err m_rows queries cursor_pending cur rest].
    rewrite (chain_same qs (mkCursor (Some r) re e ce) (mkCursor cu (r :: re) e ce)) by done.
    split; [done|]. split; [|done]. intros r' l. destruct cu as [x|]; cbn [app].
    + by intros [= _ <-].
    + by destruct (Hc eq_refl) as [? _].
Qed.

#[export] Program Instance multi_contract : RowIter multiIter := {|
  HasNext := multi_HasNext;
  Decode := multi_Decode;
  Next := multi_Next run;
  IterError := multi_Error;
  iter_ok := multi_ok;
  pending := multi_pending;
  final_error := multi_final
|}.
Next Obligation. intros i Hi. by apply multi_Next_spec. Qed.
Next Obligation.
  intros [qs [c|] h [e|]]; unfold multi_ok, multi_pending; cbn; try done.
  - intros [-> Hc]. destruct c as [[x|] re e ce]; [done|]. cbn in *.
    destruct (Hc eq_refl) as [-> ->]. done.
  - by intros [-> _].
Qed.
Next Obligation.
  intros [qs [c|] h [e|]] r l; unfold multi_ok, multi_pending; cbn; try done.
  intros [_ Hc]. unfold multi_Decode, cursor_Scan. cbn. destruct (cur c) as [x|] eqn:E.
  - unfold cursor_pending. rewrite E. by intros [= -> _].
  - destruct (Hc eq_refl) as [Hr ->]. unfold cursor_pending. by rewrite E.
Qed.
Next Obligation. intros i r l Hi. by apply multi_Next_spec. Qed.
Next Obligation. intros i Hi. by apply multi_Next_spec. Qed.
Next Obligation.
  intros [qs [c|] h [e|]]; unfold multi_ok, multi_pending, multi_final, multi_Error; cbn; try done.
  intros [_ Hc]. destruct c as [[x|] re e ce]; [done|]. cbn in *.
  destruct (Hc eq_refl) as [-> ->]. done.
Qed.
End MultiContract.

(** ** Draining an iterator *)

(** The loop of every consumer: decode, advance, until [HasNext] is false. *)
Fixpoint drain {I : Type} `{RowIter I} (fuel : nat) (i : I) : list scanned_row * option error :=
  match fuel with
  | O => ([], None)
  | S fuel' =>
      if HasNext i then let '(l, e) := drain fuel' (Next i) in (Decode i :: l, e)
      else ([], IterError i)
  end.

Lemma drain_pending {I : Type} `{RowIter I} n i :
  iter_ok i -> (length (pending i) < n)%nat -> drain n i = (pending i, final_error i).
Proof.
  revert i. induction n as [|n IH]; intros i Hi Hn; [lia|]. cbn [drain].
  rewrite hasnext_pending by done. destruct (pending i) as [|r l] eqn:E.
  - rewrite bool_decide_eq_true_2 by done. cbn. by rewrite error_end.
  - rewrite bool_decide_eq_false_2 by done. cbn [negb].
    pose proof (next_tail i r l Hi E) as Ht. cbn in Hn.
    rewrite (IH (Next i)); [|by apply next_ok|rewrite Ht; lia].
    by rewrite Ht, (decode_head i r l Hi E), next_error.
Qed.

(** C18: iterating over a chunk made of several queries yields the rows of
    all its queries, in the order of the queries, each row once; results with
    no rows in between do not end the iteration, and the first error (of a
    query, of reading its rows, or of closing it) ends it and is reported
    instead of being lost. *)
Theorem multi_queries_concat run (Hf : forall q c, run q = Ok c -> cur c = None) qs n :
  (length (fst (chain run qs None)) < n)%nat ->
  drain (H := multi_contract run Hf) n (newMultiQueryChunkIter run qs) = chain run qs None.
Proof.
  intros Hn. destruct (nextRows_spec run Hf qs None ltac:(done)) as (H1 & H2 & H3).
  unfold newMultiQueryChunkIter. rewrite drain_pending; cbn [pending final_error iter_ok multi_contract].
  - rewrite H2, H3. by destruct (chain run qs None).
  - exact H1.
  - by rewrite H2.
Qed.

Definition example_run (q : string) : result cursor :=
  if String.eqb q "empty" then Ok (mkCursor None [] None None)
  else if String.eqb q "broken"
  then Ok (mkCursor None [Ok [Some "3"]] (Some (EForeign "unexpected EOF")) None)
  else Ok (mkCursor None [Ok [Some "1"]; Ok [None]] None None).

Lemma example_run_fresh q c : example_run q = Ok c -> cur c = None.
Proof. unfold example_run. repeat destruct (String.eqb q _); by intros [= <-]. Qed.

Lemma multi_queries_concat_witness :
  drain (H := multi_contract example_run example_run_fresh) 9
    (newMultiQueryChunkIter example_run ["a"; "empty"; "broken"; "a"]) =
  ([Ok [Some "1"]; Ok [None]; Ok [Some "3"]], Some (EForeign "unexpected EOF")).
Proof.
  refine (multi_queries_concat example_run example_run_fresh ["a"; "empty"; "broken"; "a"] 9 _).
  cbn. lia.
Defined.

(** ** Tasks *)

(** The data of a task: the query of a chunk, or the queries of a chunk that
    is read as one.
    src/export/ir_impl.go:186-193 tableData *)
Record tableData := mkTableData { query : string; colLen : Z; needColTypes : bool }.

(** src/export/ir_impl.go:195-201 newTableData *)
Definition newTableData (query : string) (colLength : Z) (needColTypes : bool) : tableData :=
  mkTableData query colLength needColTypes.

(** src/export/task.go:15-59 Task *)
Inductive Task :=
  | TaskDatabaseMeta (DatabaseName CreateDatabaseSQL : string)
  | TaskTableMeta (DatabaseName TableName CreateTableSQL : string)
  | TaskViewMeta (DatabaseName ViewName CreateTableSQL CreateViewSQL : string)
  | TaskSequenceMeta (DatabaseName SequenceName CreateSequenceSQL : string)
  | TaskPolicyMeta (PolicyName CreatePolicySQL : string)
  | TaskTableData (Meta : tableMeta) (Data : tableData) (ChunkIndex TotalChunks : Z).

(** src/export/task.go:64-69 NewTaskDatabaseMeta *)
Definition NewTaskDatabaseMeta (dbName createSQL : string) : Task := TaskDatabaseMeta dbName createSQL.

(** src/export/task.go:72-78 NewTaskTableMeta *)
Definition NewTaskTableMeta (dbName tblName createSQL : string) : Task := TaskTableMeta dbName tblName createSQL.

(** src/export/task.go:81-88 NewTaskViewMeta *)
Definition NewTaskViewMeta (dbName tblName createTableSQL createViewSQL : string) : Task :=
  TaskViewMeta dbName tblName createTableSQL createViewSQL.

(** src/export/task.go:91-97 NewTaskSequenceMeta *)
Definition NewTaskSequenceMeta (dbName tblName createSequenceSQL : string) : Task :=
  TaskSequenceMeta dbName tblName createSequenceSQL.

(** src/export/task.go:100-105 NewTaskPolicyMeta *)
Definition NewTaskPolicyMeta (policyName createPolicySQL : string) : Task :=
  TaskPolicyMeta policyName createPolicySQL.

(** src/export/task.go:108-115 NewTaskTableData *)
Definition NewTaskTableData (meta : tableMeta) (data : tableData) (currentChunk totalChunks : Z) : Task :=
  TaskTableData meta data currentChunk totalChunks.

(** src/export/task.go:115-147 Brief *)
Definition Brief (t : Task) : string :=
  match t with
  | TaskDatabaseMeta db _ => "meta of dababase '" +:+ db +:+ "'"
  | TaskTableMeta db tbl _ => "meta of table '" +:+ db +:+ "'.'" +:+ tbl +:+ "'"
  | TaskViewMeta db v _ _ => "meta of view '" +:+ db +:+ "'.'" +:+ v +:+ "'"
  | TaskSequenceMeta db s _ => "meta of sequence '" +:+ db +:+ "'.'" +:+ s +:+ "'"
  | TaskPolicyMeta p _ => "meta of placement policy '" +:+ p +:+ "'"
  | TaskTableData m _ i n =>
      "data of table '" +:+ database m +:+ "'.'" +:+ table m +:+ "'(" +:+ itoa i +:+ "/" +:+ itoa n +:+ ")"
  end.
