(* ===== verification/Chunking.v ===== *)
(** * Splitting tables into chunks (export/dump.go, export/sql.go)

    The choice of a chunk key, the estimate of the row count, and the loops
    that cut a table into chunks by ranges of an integer key or by ranges of
    blocks.  The tasks are what the loops send to the writers, in order.

    A loop can run forever only when its step is zero; [chunk_loop] runs on
    fuel and [None] is out of fuel. *)

From S2P Require Import Prelude GoStrings Dialect FilterMatcher FilterParser Filter SqlTypes.
From S2P Require Import SqlCond SqlBuilder Conn Tables Config Prepare Ir.

Section Chunking.
Context `{UnicodeLib} `{RegexpLib} `{FoldLib} `{SnapshotConn}.

(** ** Questions to the catalog *)

(** [QuerySQLWithColumns] on the snapshot. *)
Definition columns_of (cols : list string) (q : string) (args : list sql_arg)
    : result (list (list string)) :=
  rows ← conn_query q args;
  match GetSpecifiedColumnValuesAndClose rows cols with
  | (_, Some e) => Err (EAnnotate e "sql: %s" [AStr q])
  | (strs, None) => Ok strs
  end.

(** src/export/sql.go:403-413 GetPrimaryKeyColumns *)
Definition primary_key_query : string :=
"
SELECT a.attname
FROM pg_catalog.pg_index i
JOIN pg_catalog.pg_class c ON c.oid = i.indrelid
JOIN pg_catalog.pg_namespace n ON n.oid = c.relnamespace
JOIN pg_catalog.pg_attribute a ON a.attrelid = c.oid
                              AND a.attnum = ANY(i.indkey)
WHERE i.indisprimary
  AND n.nspname = $1
  AND c.relname = $2
ORDER BY array_position(i.indkey, a.attnum)".

(** [None] is the panic of [oneRow[0]].
    src/export/sql.go:401-423 GetPrimaryKeyColumns *)
Definition GetPrimaryKeyColumns (db tbl : string) : result (list string) :=
  results ← columns_of ["attname"] primary_key_query [ArgText db; ArgText tbl];
  Ok (map (fun oneRow => default EmptyString (head oneRow)) results).

(** src/export/sql.go:329-342 buildOrderByClause *)
Definition buildOrderByClause (conf : Config) (meta : tableMeta) : result string :=
  if negb (SortByPk conf) then Ok EmptyString
  else if hasImplicitRowID meta then Ok orderByTiDBRowID
  else
    cols ← GetPrimaryKeyColumns (database meta) (table meta);
    Ok (buildOrderByClauseString cols).

(** src/export/sql.go:437-458 getNumericIndex *)
Definition numeric_index_query : string :=
"
WITH idx AS (
  SELECT i.indexrelid,
         i.indisprimary,
         i.indkey,
         array_length(i.indkey, 1) AS keylen
    FROM pg_catalog.pg_index i
    JOIN pg_catalog.pg_class c ON c.oid = i.indrelid
    JOIN pg_catalog.pg_namespace n ON n.oid = c.relnamespace
   WHERE n.nspname = $1 AND c.relname = $2
     AND (i.indisprimary OR i.indisunique)
     AND array_length(i.indkey, 1) = 1
)
SELECT a.attname, format_type(a.atttypid, a.atttypmod), idx.indisprimary
  FROM idx
  JOIN pg_catalog.pg_attribute a ON a.attrelid = (
        SELECT i2.indrelid FROM pg_catalog.pg_index i2
         WHERE i2.indexrelid = idx.indexrelid)
   AND a.attnum = idx.indkey[0]
 WHERE format_type(a.atttypid, 0) IN ('smallint','integer','bigint')
 ORDER BY idx.indisprimary DESC, a.attname
 LIMIT 1".

(** src/export/sql.go:436-469 getNumericIndex *)
Definition getNumericIndex (meta : tableMeta) : result string :=
  results ← columns_of ["attname"; "type"; "is_primary"] numeric_index_query
              [ArgText (database meta); ArgText (table meta)];
  Ok match results with
     | [] => EmptyString
     | r :: _ => default EmptyString (head r)
     end.

(** src/export/sql.go:949-962 pickupPossibleField *)
Definition pickupPossibleField (meta : tableMeta) : result string :=
  if hasImplicitRowID meta then Ok "_tidb_rowid" else getNumericIndex meta.

(** src/export/sql.go:973-977 estimateCount *)
Definition estimate_query : string :=
"
SELECT GREATEST(c.reltuples, 0)::bigint
FROM pg_catalog.pg_class c
JOIN pg_catalog.pg_namespace n ON n.oid = c.relnamespace
WHERE n.nspname = $1 AND c.relname = $2".

(** The handler of [estimateCount] and of the page count: [Scan] of one
    64-bit integer. *)
Definition scan_int (_ : Z) (r : list (option string)) : result Z :=
  match r with
  | [Some s] => match SetString10 s with
                | Some n => if (- 2 ^ 63 <=? n) && (n <? 2 ^ 63) then Ok n
                            else Err (EForeign "sql: Scan error: value out of range")
                | None => Err (EForeign "sql: Scan error: converting to int64")
                end
  | _ => Err (EForeign "sql: Scan error: converting NULL to int64 is unsupported")
  end.

(** [QuerySQL] with a handler of rows and an initial value, on the snapshot:
    what its last attempt gives ([Conn] models the attempts).  The callers
    below only ask whether it failed. *)
Definition query_fold {A} (h : A -> list (option string) -> result A) (init : A)
    (q : string) (args : list sql_arg) : result A :=
  rows ← conn_query q args;
  match handle_rows h (data rows) init with
  | (_, Some e) => Err e
  | (a, None) => match rows_err rows with None => Ok a | Some e => Err e end
  end.

(** The same with a handler that closes the rows: it sees the first row only. *)
Definition query_first {A} (h : A -> list (option string) -> result A) (init : A)
    (q : string) (args : list sql_arg) : result A :=
  rows ← conn_query q args;
  match data rows with
  | r :: _ => h init r
  | [] => match rows_err rows with None => Ok init | Some e => Err e end
  end.

(** src/export/sql.go:964-986 estimateCount *)
Definition estimateCount (dbName tableName : string) : Z :=
  match query_fold scan_int 0 estimate_query [ArgText dbName; ArgText tableName] with
  | Ok n => if n <? 0 then 0 else u64 n
  | Err _ => 0
  end.

(** The bounds of a key column, as big integers.
    src/export/dump.go:641-646 Dumper.selectMinAndMaxIntValue *)
Definition min_max_query (conf : Config) (db tbl field : string) : string :=
  let qf := pgQuoteIdent field in
  let query := "SELECT MIN(" +:+ qf +:+ "),MAX(" +:+ qf +:+ ") FROM " +:+ pgQuoteQName db tbl in
  if negb (String.eqb (Where conf) EmptyString) then query +:+ " WHERE " +:+ Where conf else query.

(** src/export/dump.go:639-674 Dumper.selectMinAndMaxIntValue *)
Definition selectMinAndMaxIntValue (conf : Config) (db tbl field : string) : result (Z * Z) :=
  let query := min_max_query conf db tbl field in
  let scan (_ : option string * option string) r :=
    match r with
    | [a; b] => Ok (a, b)
    | _ => Err (EForeign "sql: expected 2 destination arguments in Scan")
    end in
  match query_first scan (None, None) query [] with
  | Err e => Err (EAnnotate e "can't get min/max values to split chunks, query: %s" [AStr query])
  | Ok (Some smin, Some smax) =>
      match SetString10 smax with
      | None => Err (EErrorf "fail to convert max value %s in query %s" [AStr smax; AStr query])
      | Some maxv =>
          match SetString10 smin with
          | None => Err (EErrorf "fail to convert min value %s in query %s" [AStr smin; AStr query])
          | Some minv => Ok (minv, maxv)
          end
      end
  | Ok _ => Err (EErrorf "no invalid min/max value found in query %s" [AStr query])
  end.

(** ** Chunks of key ranges *)

(** A chunk: its range, and whether it also takes the rows whose key is NULL. *)
Record chunk := mkChunk { c_null : bool; cutoff : Z; nextCutOff : Z }.

(** The arithmetic of the step: [Uint64] of a big integer is its low 64 bits,
    and the sum is taken in 64 bits.
    src/export/dump.go:527-530 Dumper.concurrentDumpTable *)
Definition estimated_step (minv maxv estimatedChunks : Z) : Z :=
  u64 (u64 (Z.abs (maxv - minv)) / estimatedChunks + 1).

(** src/export/dump.go:531-535 Dumper.concurrentDumpTable *)
Definition total_chunks (minv maxv estimatedChunks : Z) : Z :=
  if estimated_step minv maxv estimatedChunks =? 1
  then u64 (u64 (Z.abs (maxv - minv)) + 1) else estimatedChunks.

(** src/export/dump.go:545-560 Dumper.concurrentDumpTable *)
Fixpoint chunk_loop (fuel : nat) (maxv step cutoff : Z) (null : bool) : option (list chunk) :=
  match fuel with
  | O => None
  | S fuel' =>
      if cutoff <=? maxv
      then rest ← chunk_loop fuel' maxv step (cutoff + step) false;
           Some (mkChunk null cutoff (cutoff + step) :: rest)
      else Some []
  end.

(** The condition of a chunk, as the text of its query.
    src/export/dump.go:539-551 Dumper.concurrentDumpTable *)
Definition chunk_where (qf : string) (c : chunk) : string :=
  (if c_null c then qf +:+ " IS NULL OR " else EmptyString) +:+
  "(" +:+ qf +:+ " >= " +:+ itoa (cutoff c) +:+ " AND " +:+ qf +:+ " < " +:+ itoa (nextCutOff c) +:+ ")".

(** The task of a chunk.
    src/export/dump.go:548-552 Dumper.concurrentDumpTable *)
Definition chunk_task (conf : Config) (meta : tableMeta) (orderByClause where_ : string)
    (chunkIndex totalChunks : Z) : Task :=
  let query := buildSelectQuery (database meta) (table meta) (selectedField meta) EmptyString
                 (buildWhereCondition (Where conf) where_) orderByClause in
  NewTaskTableData meta (newTableData query (selectedLen meta) false) chunkIndex totalChunks.

Fixpoint number_tasks (mk : string -> Z -> Task) (wheres : list string) (i : Z) : list Task :=
  match wheres with
  | [] => []
  | w :: ws => mk w i :: number_tasks mk ws (i + 1)
  end.

(** src/export/dump.go:454-463 Dumper.dumpWholeTableDirectly *)
Definition dumpWholeTableDirectly (conf : Config) (meta : tableMeta)
    (partition orderByClause : string) (currentChunk totalChunks : Z) : list Task :=
  let query := buildSelectQuery (database meta) (table meta) (selectedField meta) partition
                 (buildWhereCondition (Where conf) EmptyString) orderByClause in
  [NewTaskTableData meta (mkTableData query (selectedLen meta) false) currentChunk totalChunks].

(** ** Chunks of block ranges *)

(** src/export/dump.go:575-577 Dumper.concurrentDumpTableByCtid *)
Definition pages_query : string :=
"
SELECT (pg_relation_size($1::regclass) /
        current_setting('block_size')::int)::bigint AS pages".

(** src/export/dump.go:589-602 Dumper.concurrentDumpTableByCtid *)
Definition ctid_step (pages estimate : Z) : Z :=
  let estChunks := i64 estimate in
  let estChunks := if estChunks <? 1 then 1 else estChunks in
  let step := Z.quot pages estChunks in
  let step := if step <? 1 then 1 else step in
  if pages <? step then pages else step.

(** The start of each range of blocks.
    src/export/dump.go:606-623 Dumper.concurrentDumpTableByCtid *)
Fixpoint ctid_starts (fuel : nat) (pages step blockStart : Z) : option (list Z) :=
  match fuel with
  | O => None
  | S fuel' =>
      if blockStart <? pages
      then rest ← ctid_starts fuel' pages step (i64 (blockStart + step)); Some (blockStart :: rest)
      else Some []
  end.

(** src/export/dump.go:608-616 Dumper.concurrentDumpTableByCtid *)
Definition ctid_where (pages step blockStart : Z) : string :=
  let blockEnd := i64 (blockStart + step) in
  if pages <=? blockEnd
  then "ctid >= '(" +:+ itoa blockStart +:+ ",0)'"
  else "ctid >= '(" +:+ itoa blockStart +:+ ",0)' AND ctid < '(" +:+ itoa blockEnd +:+ ",0)'".

(** An unsigned division; [None] is the panic on a zero divisor. *)
Definition udiv (a b : Z) : option Z := if b =? 0 then None else Some (a / b).

(** How the split by block ranges ends: with the error of the page count, with
    no pages, in the panic of the division, or with its tasks. *)
Inductive ctid_split :=
  | CtidFailed (e : error)
  | CtidNoPages
  | CtidPanics
  | CtidTasks (tasks : list Task).

(** src/export/dump.go:563-625 Dumper.concurrentDumpTableByCtid *)
Definition concurrentDumpTableByCtid (fuel : nat) (conf : Config) (meta : tableMeta) (count : Z)
    (orderByClause : string) : option ctid_split :=
  match query_fold scan_int 0 pages_query [ArgText (database meta +:+ "." +:+ table meta)] with
  | Err e => Some (CtidFailed e)
  | Ok pages =>
      if pages <=? 0 then Some CtidNoPages
      else match udiv count (Rows conf) with
      | None => Some CtidPanics
      | Some estChunks =>
          let step := ctid_step pages estChunks in
          let totalChunks := i64 (Z.quot (i64 (i64 (pages + step) - 1)) step) in
          starts ← ctid_starts fuel pages step 0;
          Some (CtidTasks (number_tasks
            (fun w i => chunk_task conf meta orderByClause w i totalChunks)
            (map (ctid_where pages step) starts) 0))
      end
  end.

(** ** The whole decision *)

(** The panic of an integer division by zero, which no caller recovers. *)
Definition divide_panic : error := EForeign "panic: runtime error: integer divide by zero".

(** The tasks of a table, in the order they are sent, or the error.
    src/export/dump.go:474-561 Dumper.concurrentDumpTable *)
Definition concurrentDumpTable (fuel : nat) (conf : Config) (meta : tableMeta)
    : option (result (list Task)) :=
  match buildOrderByClause conf meta with
  | Err e => Some (Err e)
  | Ok orderByClause =>
      let whole := dumpWholeTableDirectly conf meta EmptyString orderByClause 0 1 in
      let db := database meta in
      let tbl := table meta in
      match pickupPossibleField meta with
      | Err _ => Some (Ok whole)
      | Ok field =>
          let count := estimateCount db tbl in
          if count <? Rows conf then Some (Ok whole)
          else if String.eqb field EmptyString then
            r ← concurrentDumpTableByCtid fuel conf meta count orderByClause;
            Some match r with
                 | CtidTasks tasks => Ok tasks
                 | CtidPanics => Err divide_panic
                 | CtidFailed _ | CtidNoPages => Ok whole
                 end
          else
            match selectMinAndMaxIntValue conf db tbl field with
            | Err _ => Some (Ok whole)
            | Ok (minv, maxv) =>
                match udiv count (Rows conf) with
                | None => Some (Err divide_panic)
                | Some estimatedChunks =>
                    let step := estimated_step minv maxv estimatedChunks in
                    let totalChunks := total_chunks minv maxv estimatedChunks in
                    chunks ← chunk_loop fuel maxv step minv (String.eqb (Where conf) EmptyString);
                    Some (Ok (number_tasks
                      (fun w i => chunk_task conf meta orderByClause w i (i64 totalChunks))
                      (map (chunk_where (pgQuoteIdent field)) chunks) 0))
                end
            end
      end
  end.

(** src/export/dump.go:465-472 Dumper.sequentialDumpTable *)
Definition sequentialDumpTable (conf : Config) (meta : tableMeta) : result (list Task) :=
  orderByClause ← buildOrderByClause conf meta;
  Ok (dumpWholeTableDirectly conf meta EmptyString orderByClause 0 1).

(** src/export/dump.go:374-389 Dumper.dumpTableData *)
Definition dumpTableData (fuel : nat) (conf : Config) (meta : tableMeta)
    : option (result (list Task)) :=
  if NoData conf then Some (Ok [])
  else if Rows conf =? UnspecifiedSize then Some (sequentialDumpTable conf meta)
  else concurrentDumpTable fuel conf meta.

(** A send that is refused ends the loops with the error of the context.  The
    loop over block ranges returns it to a caller that takes every error for a
    failed split, and sends the whole table.  These are the tasks that are
    sent after a refused one.
    src/export/dump.go:506-515 Dumper.concurrentDumpTable *)
Definition sent_instead (conf : Config) (meta : tableMeta) : list Task :=
  match buildOrderByClause conf meta, pickupPossibleField meta,
        query_fold scan_int 0 pages_query [ArgText (database meta +:+ "." +:+ table meta)] with
  | Ok orderByClause, Ok field, Ok pages =>
      if negb (NoData conf) && negb (Rows conf =? UnspecifiedSize) &&
         (Rows conf <=? estimateCount (database meta) (table meta)) &&
         String.eqb field EmptyString && (0 <? pages)
      then dumpWholeTableDirectly conf meta EmptyString orderByClause 0 1 else []
  | _, _, _ => []
  end.
End Chunking.

(** ** Conditions of the chunks *)

Definition chunk_cond (qf : string) (c : chunk) : cond :=
  let range := CParen (CAnd " AND " (CCmp qf OpGe true (itoa (cutoff c)))
                                    (CCmp qf OpLt true (itoa (nextCutOff c)))) in
  if c_null c then COr " OR " (CIsNull qf) range else range.

Definition tid_text (block : Z) : string := "'(" +:+ itoa block +:+ ",0)'".

Definition ctid_cond (pages step blockStart : Z) : cond :=
  let lo := CCmp "ctid" OpGe true (tid_text blockStart) in
  if pages <=? i64 (blockStart + step) then lo
  else CAnd " AND " lo (CCmp "ctid" OpLt true (tid_text (i64 (blockStart + step)))).

Lemma chunk_where_render qf c :
  chunk_where qf c = render (chunk_cond qf c) /\ well_spelled (chunk_cond qf c) = true.
Proof.
  unfold chunk_where, chunk_cond. destruct (c_null c); cbn [render op_text]; split; try done;
    rewrite !sapp_assoc; done.
Qed.

Lemma ctid_where_render pages step b :
  ctid_where pages step b = render (ctid_cond pages step b) /\
  well_spelled (ctid_cond pages step b) = true.
Proof.
  unfold ctid_where, ctid_cond, tid_text. destruct (pages <=? _); cbn [render op_text]; split;
    try done; rewrite ?sapp_assoc; done.
Qed.

(** A row of the table: the value of the chunk key, and its location. *)
Record heap_row := mkHeapRow { key : option Z; block : Z; offset : Z }.

Definition row_ok (r : heap_row) : Prop := 0 <= block r /\ 0 <= offset r < 65536.

(** The columns of the row as the conditions see them. *)
Definition columns_env (qf : string) (r : heap_row) (col : string) : option Z :=
  if String.eqb col qf then key r
  else if String.eqb col "ctid" then Some (tid_value (block r) (offset r))
  else None.

(** The value of a literal: an integer or a row location. *)
Definition literal (s : string) : option Z :=
  match tid_literal s with Some z => Some z | None => SetString10 s end.

Lemma literal_itoa z : literal (itoa z) = Some z.
Proof.
  unfold literal. assert (tid_literal (itoa z) = None) as ->; [|apply SetString10_itoa].
  destruct (Z_lt_le_dec z 0) as [Hz|Hz]; [by rewrite itoa_neg|].
  destruct (itoa z) as [|c s] eqn:E; [done|]. pose proof (itoa_head_digit z c s Hz E) as Hd.
  unfold tid_literal. cbn [strip_prefix].
  destruct (Ascii.eqb_spec "'" c) as [<-|]; [done|done].
Qed.

Lemma literal_tid b : 0 <= b -> literal (tid_text b) = Some (tid_value b 0).
Proof. intros Hb. unfold literal, tid_text. by rewrite (tid_literal_write b Hb). Qed.

Definition in_chunk (k : option Z) (c : chunk) : bool :=
  match k with
  | None => c_null c
  | Some z => (cutoff c <=? z) && (z <? nextCutOff c)
  end.

Lemma chunk_selects qf r c :
  selects (columns_env qf r) literal (chunk_cond qf c) = in_chunk (key r) c.
Proof.
  unfold selects, chunk_cond, columns_env, in_chunk.
  destruct (c_null c) eqn:Hn; cbn [eval]; rewrite String.eqb_refl; destruct (key r) as [z|]; cbn;
    rewrite ?literal_itoa; cbn; try done;
    destruct (cutoff c <=? z), (z <? nextCutOff c); done.
Qed.

Lemma quoted_not_ctid field : String.eqb "ctid" (pgQuoteIdent field) = false.
Proof. done. Qed.

Definition in_blocks (pages step : Z) (b start : Z) : bool :=
  (start <=? b) && ((pages <=? start + step) || (b <? start + step)).

Lemma tid_value_le b o b' : 0 <= o < 65536 -> (tid_value b' 0 <=? tid_value b o) = (b' <=? b).
Proof. unfold tid_value. intros. destruct (Z.leb_spec b' b); lia. Qed.

Lemma tid_value_lt b o b' : 0 <= o < 65536 -> (tid_value b o <? tid_value b' 0) = (b <? b').
Proof. unfold tid_value. intros. destruct (Z.ltb_spec b b'); lia. Qed.

Lemma ctid_selects field r pages step s :
  row_ok r -> 0 <= s -> 0 <= step -> is_i64 (s + step) ->
  selects (columns_env (pgQuoteIdent field) r) literal (ctid_cond pages step s) =
  in_blocks pages step (block r) s.
Proof.
  intros [Hb Ho] Hs Hstep Hi. unfold ctid_cond, in_blocks. rewrite (i64_small (s + step)) by done.
  unfold selects. destruct (pages <=? s + step); cbn [eval];
    unfold columns_env; rewrite quoted_not_ctid, String.eqb_refl, !literal_tid by lia;
    cbn [cmp]; rewrite tid_value_le by done.
  - rewrite andb_true_r. by destruct (s <=? block r).
  - rewrite tid_value_lt by done. cbn. by destruct (s <=? block r), (block r <? s + step).
Qed.

(** ** The loops *)

Definition count {A} (p : A -> bool) (l : list A) : nat := length (List.filter p l).

Lemma count_cons {A} (p : A -> bool) x l :
  count p (x :: l) = if p x then S (count p l) else count p l.
Proof. unfold count. cbn. by destruct (p x). Qed.

Lemma count_map {A B} (f : A -> B) (p : B -> bool) (q : A -> bool) l :
  (forall x, x ∈ l -> p (f x) = q x) -> count p (map f l) = count q l.
Proof.
  unfold count. induction l as [|x l IH]; intros Hpq; [done|]. cbn.
  rewrite Hpq by (by left). specialize (IH (fun y Hy => Hpq y (list_elem_of_further _ _ _ Hy))).
  destruct (q x); cbn; [by f_equal|done].
Qed.

Lemma count_none {A} (p : A -> bool) l : (forall x, x ∈ l -> p x = false) -> count p l = O.
Proof.
  unfold count. induction l as [|x l IH]; intros Hp; [done|]. cbn.
  rewrite Hp by (by left). apply IH. intros; apply Hp; by right.
Qed.

Lemma chunk_loop_lower fuel maxv step c null cs :
  0 <= step -> chunk_loop fuel maxv step c null = Some cs -> Forall (fun x => c <= cutoff x) cs.
Proof.
  revert c null cs. induction fuel as [|fuel IH]; intros c null cs Hs; [done|]. cbn [chunk_loop].
  destruct (c <=? maxv); [|by intros [= <-]].
  destruct (chunk_loop fuel maxv step (c + step) false) as [rest|] eqn:E; [|done].
  intros [= <-]. constructor; [cbn; lia|].
  eapply Forall_impl; [by eapply IH|]. cbn. intros; lia.
Qed.

Lemma chunk_loop_null fuel maxv step c cs :
  chunk_loop fuel maxv step c false = Some cs -> Forall (fun x => c_null x = false) cs.
Proof.
  revert c cs. induction fuel as [|fuel IH]; intros c cs; [done|]. cbn [chunk_loop].
  destruct (c <=? maxv); [|by intros [= <-]].
  destruct (chunk_loop fuel maxv step (c + step) false) as [rest|] eqn:E; [|done].
  intros [= <-]. constructor; eauto.
Qed.

(** With a zero step the loop never ends. *)
Lemma chunk_loop_zero fuel maxv c null : c <= maxv -> chunk_loop fuel maxv 0 c null = None.
Proof.
  revert null. induction fuel as [|fuel IH]; intros null Hc; [done|]. cbn [chunk_loop].
  destruct (Z.leb_spec c maxv); [|lia]. rewrite Z.add_0_r. by rewrite IH.
Qed.

(** Each key in the range is in exactly one chunk, NULL is in the first one. *)
Lemma chunk_loop_once fuel maxv step c null cs k :
  0 <= step -> chunk_loop fuel maxv step c null = Some cs ->
  match k with Some z => c <= z <= maxv | None => null = true /\ c <= maxv end ->
  count (in_chunk k) cs = 1%nat.
Proof.
  intros Hs. revert c null cs. induction fuel as [|fuel IH]; intros c null cs; [done|].
  cbn [chunk_loop]. destruct (Z.leb_spec c maxv); [|destruct k; intros; lia].
  destruct (chunk_loop fuel maxv step (c + step) false) as [rest|] eqn:E; [|done].
  intros [= <-]. rewrite count_cons. unfold in_chunk at 1. cbn [c_null cutoff nextCutOff].
  assert (step <> 0) by (intros ->; rewrite Z.add_0_r, chunk_loop_zero in E by lia; done).
  destruct k as [z|].
  - intros Hz. destruct (Z.leb_spec c z); [|lia]. cbn [andb].
    destruct (Z.ltb_spec z (c + step)).
    + f_equal. apply count_none. intros x Hx. cbn.
      pose proof (chunk_loop_lower _ _ _ _ _ _ Hs E) as Hl. rewrite Forall_forall in Hl.
      specialize (Hl x Hx). destruct (Z.leb_spec (cutoff x) z); [lia|done].
    + apply (IH _ _ _ E). lia.
  - intros [-> _]. f_equal. apply count_none. intros x Hx.
    pose proof (chunk_loop_null _ _ _ _ _ E) as Hl. rewrite Forall_forall in Hl. by apply Hl.
Qed.

(** The fuel does not change the result. *)
Lemma chunk_loop_fuel f1 f2 maxv step c null cs1 cs2 :
  chunk_loop f1 maxv step c null = Some cs1 -> chunk_loop f2 maxv step c null = Some cs2 -> cs1 = cs2.
Proof.
  revert f2 c null cs1 cs2. induction f1 as [|f1 IH]; intros [|f2] c null cs1 cs2; try done.
  cbn [chunk_loop]. destruct (c <=? maxv); [|congruence].
  destruct (chunk_loop f1 _ _ _ _) eqn:E1, (chunk_loop f2 _ _ _ _) eqn:E2; try done.
  intros [= <-] [= <-]. f_equal. eauto.
Qed.

(** The loop ends after (maxv - c) / step + 1 rounds. *)
Lemma chunk_loop_total fuel maxv step c null :
  0 < step -> (maxv - c) / step + 1 < Z.of_nat fuel -> c <= maxv + step ->
  exists cs, chunk_loop fuel maxv step c null = Some cs /\
    Z.of_nat (length cs) = Z.max 0 ((maxv - c) / step + 1).
Proof.
  intros Hs. revert c null. induction fuel as [|fuel IH]; intros c null Hf Hc.
  - assert (-1 <= (maxv - c) / step) by (apply Z.div_le_lower_bound; lia). lia.
  - cbn [chunk_loop]. destruct (Z.leb_spec c maxv).
    + assert ((maxv - c) / step = (maxv - (c + step)) / step + 1) as Hd.
      { rewrite <- Z.div_add by lia. f_equal. lia. }
      destruct (IH (c + step) false) as (cs & -> & Hl); [lia|lia|].
      cbn [mbind option_bind]. eexists. split; [done|]. cbn [length].
      assert (0 <= (maxv - c) / step) by (apply Z.div_pos; lia). lia.
    + eexists. split; [done|]. cbn. assert ((maxv - c) / step < 0) by (apply Z.div_lt_upper_bound; lia).
      lia.
Qed.

(** PostgreSQL relations have fewer than 2^32 blocks. *)
Definition pages_ok (pages : Z) : Prop := 0 < pages <= 2 ^ 32.

Lemma ctid_step_range pages e : pages_ok pages -> 1 <= ctid_step pages e <= pages.
Proof.
  unfold pages_ok, ctid_step. intros Hp.
  destruct (i64 e <? 1); set (q := Z.quot pages _); destruct (Z.ltb_spec q 1);
    match goal with |- context [pages <? ?x] => destruct (Z.ltb_spec pages x) end; lia.
Qed.

Lemma starts_lower fuel pages step s l :
  pages_ok pages -> 1 <= step <= pages -> 0 <= s <= 2 * pages ->
  ctid_starts fuel pages step s = Some l -> Forall (fun x => s <= x < pages) l.
Proof.
  intros Hp Hst. revert s l. induction fuel as [|fuel IH]; intros s l Hs; [done|]. cbn [ctid_starts].
  destruct (Z.ltb_spec s pages); [|by intros [= <-]]. unfold pages_ok in Hp.
  rewrite i64_small by (unfold is_i64; lia).
  destruct (ctid_starts fuel pages step (s + step)) as [l'|] eqn:E; [|done]. intros [= <-].
  constructor; [lia|]. eapply Forall_impl; [eapply IH; [|exact E]; lia|]. cbn. intros; lia.
Qed.

(** Every block from the first start on is in exactly one range: the last
    range is open. *)
Lemma starts_once fuel pages step s l b :
  pages_ok pages -> 1 <= step <= pages -> 0 <= s < pages ->
  ctid_starts fuel pages step s = Some l -> s <= b -> count (in_blocks pages step b) l = 1%nat.
Proof.
  intros Hp Hst. revert s l. induction fuel as [|fuel IH]; intros s l Hs; [done|]. cbn [ctid_starts].
  destruct (Z.ltb_spec s pages); [|lia]. pose proof Hp as Hp'. unfold pages_ok in Hp'.
  rewrite i64_small by (unfold is_i64; lia).
  destruct (ctid_starts fuel pages step (s + step)) as [l'|] eqn:E; [|done]. intros [= <-] Hb.
  rewrite count_cons. unfold in_blocks at 1. destruct (Z.leb_spec s b); [|lia]. cbn [andb].
  pose proof (starts_lower fuel pages step (s + step) l' Hp Hst ltac:(lia) E) as Hl. rewrite Forall_forall in Hl.
  destruct (Z.leb_spec pages (s + step)); cbn [orb].
  - f_equal. apply count_none. intros x Hx. specialize (Hl x Hx). lia.
  - destruct (Z.ltb_spec b (s + step)).
    + f_equal. apply count_none. intros x Hx. specialize (Hl x Hx). unfold in_blocks.
      destruct (Z.leb_spec x b); [lia|done].
    + apply (IH (s + step) l'); [lia|done|lia].
Qed.

Lemma starts_fuel f1 f2 pages step s l1 l2 :
  ctid_starts f1 pages step s = Some l1 -> ctid_starts f2 pages step s = Some l2 -> l1 = l2.
Proof.
  revert f2 s l1 l2. induction f1 as [|f1 IH]; intros [|f2] s l1 l2; try done.
  cbn [ctid_starts]. destruct (s <? pages); [|congruence].
  destruct (ctid_starts f1 _ _ _) eqn:E1, (ctid_starts f2 _ _ _) eqn:E2; try done.
  intros [= <-] [= <-]. f_equal. eauto.
Qed.

Lemma starts_total fuel pages step s :
  pages_ok pages -> 1 <= step <= pages -> 0 <= s <= pages + step - 1 ->
  Z.max 0 (pages - s) < Z.of_nat fuel ->
  exists l, ctid_starts fuel pages step s = Some l /\
    Z.of_nat (length l) = (pages - s + step - 1) / step.
Proof.
  intros Hp Hst. revert s. induction fuel as [|fuel IH]; intros s Hs Hf; [lia|].
  cbn [ctid_starts]. destruct (Z.ltb_spec s pages).
  - pose proof Hp as Hp'. unfold pages_ok in Hp'. rewrite i64_small by (unfold is_i64; lia).
    destruct (IH (s + step)) as (l & -> & Hl); [lia..|].
    cbn [mbind option_bind]. eexists. split; [done|]. cbn [length]. rewrite Nat2Z.inj_succ, Hl.
    replace (pages - s + step - 1) with (pages - (s + step) + step - 1 + 1 * step) by lia.
    rewrite Z.div_add by lia. lia.
  - eexists. split; [done|]. cbn. symmetry. apply Z.div_small. lia.
Qed.

(** ** Tasks *)

Lemma number_tasks_length mk ws i : length (number_tasks mk ws i) = length ws.
Proof. revert i. induction ws; intros i; cbn; by f_equal. Qed.

Lemma number_tasks_index mk ws i n w :
  ws !! n = Some w -> number_tasks mk ws i !! n = Some (mk w (i + Z.of_nat n)).
Proof.
  revert i n. induction ws as [|x ws IH]; intros i [|n]; cbn; try done.
  - intros [= ->]. by rewrite Z.add_0_r.
  - intros Hn. rewrite (IH _ _ Hn). do 2 f_equal. lia.
Qed.

(** The step never cuts the range into more chunks than announced. *)
Lemma chunk_count_bound minv maxv est :
  is_i64 minv -> is_i64 maxv -> minv <= maxv -> 1 <= est ->
  estimated_step minv maxv est <> 0 ->
  (maxv - minv) / estimated_step minv maxv est + 1 <= total_chunks minv maxv est \/
  maxv - minv = 2 ^ 64 - 1.
Proof.
  intros Hmin Hmax Hle He Hnz. unfold is_i64 in *. unfold total_chunks, estimated_step in *.
  rewrite Z.abs_eq in * by lia.
  assert (is_u64 (maxv - minv)) by (unfold is_u64; lia).
  rewrite (u64_small (maxv - minv)) in * by done.
  set (d := maxv - minv) in *.
  assert (0 <= d / est <= d) by (split; [apply Z.div_pos; lia|apply Z.div_le_upper_bound; nia]).
  unfold is_u64 in *.
  destruct (Z.eq_dec d (2 ^ 64 - 1)); [by right|left].
  rewrite (u64_small (d / est + 1)) in * by (unfold is_u64; lia).
  destruct (Z.eqb_spec (d / est + 1) 1) as [E|E].
  - rewrite u64_small by (unfold is_u64; lia). rewrite E. rewrite Z.div_1_r. lia.
  - assert (d / (d / est + 1) < est); [|lia]. apply Z.div_lt_upper_bound; [lia|].
    pose proof (Z.mul_succ_div_gt d est ltac:(lia)). nia.
Qed.

Section Tables.
Context `{UnicodeLib} `{RegexpLib} `{FoldLib} `{SnapshotConn}.

(** The text of an optional condition, and what it selects. *)
Definition cond_text (c : option cond) : string :=
  match c with Some c => render c | None => EmptyString end.

Definition cond_wf (c : option cond) : Prop :=
  match c with Some c => well_spelled c = true | None => True end.

Definition row_selected (field : string) (r : heap_row) (c : option cond) : bool :=
  match c with
  | Some c => selects (columns_env (pgQuoteIdent field) r) literal c
  | None => true
  end.

Definition field_of (meta : tableMeta) : string :=
  match pickupPossibleField meta with Ok f => f | Err _ => EmptyString end.

Definition pages_of (meta : tableMeta) : result Z :=
  query_fold scan_int 0 pages_query [ArgText (database meta +:+ "." +:+ table meta)].

(** What the server promises about a table: MIN and MAX of the key are in
    order and are 64-bit integers, and the relation has at most 2^32 blocks. *)
Definition server_bounds (conf : Config) (meta : tableMeta) : Prop :=
  (forall minv maxv,
     selectMinAndMaxIntValue conf (database meta) (table meta) (field_of meta) = Ok (minv, maxv) ->
     is_i64 minv /\ is_i64 maxv /\ minv <= maxv) /\
  (forall pages, pages_of meta = Ok pages -> pages <= 2 ^ 32).

(** A row of the table: its key is NULL or between MIN and MAX. *)
Definition row_in_table (conf : Config) (meta : tableMeta) (r : heap_row) : Prop :=
  row_ok r /\
  forall minv maxv z,
    selectMinAndMaxIntValue conf (database meta) (table meta) (field_of meta) = Ok (minv, maxv) ->
    key r = Some z -> minv <= z <= maxv.

Definition tasks_of (conf : Config) (meta : tableMeta) (order : string) (total : Z)
    (conds : list (option cond)) : list Task :=
  number_tasks (fun w i => chunk_task conf meta order w i total) (map cond_text conds) 0.

(** The four shapes of a result: the whole table, key ranges, block ranges. *)
Inductive chunked (conf : Config) (meta : tableMeta) : list (option cond) -> Z -> Prop :=
  | chunked_whole : chunked conf meta [None] 1
  | chunked_key minv maxv fuel chunks :
      selectMinAndMaxIntValue conf (database meta) (table meta) (field_of meta) = Ok (minv, maxv) ->
      let est := estimateCount (database meta) (table meta) / Rows conf in
      Rows conf <= estimateCount (database meta) (table meta) ->
      chunk_loop fuel maxv (estimated_step minv maxv est) minv
        (String.eqb (Where conf) EmptyString) = Some chunks ->
      chunked conf meta (map (fun c => Some (chunk_cond (pgQuoteIdent (field_of meta)) c)) chunks)
        (i64 (total_chunks minv maxv est))
  | chunked_ctid pages fuel starts :
      pages_of meta = Ok pages -> 0 < pages ->
      let step := ctid_step pages (estimateCount (database meta) (table meta) / Rows conf) in
      ctid_starts fuel pages step 0 = Some starts ->
      chunked conf meta (map (fun b => Some (ctid_cond pages step b)) starts)
        (i64 (Z.quot (i64 (i64 (pages + step) - 1)) step)).

Lemma udiv_pos a b : 0 < b -> udiv a b = Some (a / b).
Proof. intros Hb. unfold udiv. by destruct (Z.eqb_spec b 0); [lia|]. Qed.

Lemma udiv_some a b q : udiv a b = Some q -> b <> 0 /\ q = a / b.
Proof. unfold udiv. destruct (Z.eqb_spec b 0); [done|]. by intros [= <-]. Qed.

Lemma whole_tasks conf meta order :
  dumpWholeTableDirectly conf meta EmptyString order 0 1 = tasks_of conf meta order 1 [None].
Proof. done. Qed.

Lemma key_tasks conf meta order total qf chunks :
  number_tasks (fun w i => chunk_task conf meta order w i total) (map (chunk_where qf) chunks) 0 =
  tasks_of conf meta order total (map (fun c => Some (chunk_cond qf c)) chunks).
Proof.
  unfold tasks_of. f_equal. rewrite map_map. apply map_ext. intros c. cbn.
  by destruct (chunk_where_render qf c) as [-> _].
Qed.

Lemma ctid_tasks conf meta order total pages step starts :
  number_tasks (fun w i => chunk_task conf meta order w i total)
    (map (ctid_where pages step) starts) 0 =
  tasks_of conf meta order total (map (fun b => Some (ctid_cond pages step b)) starts).
Proof.
  unfold tasks_of. f_equal. rewrite map_map. apply map_ext. intros c. cbn.
  by destruct (ctid_where_render pages step c) as [-> _].
Qed.

Lemma concurrentDumpTable_ordered fuel conf meta tasks order :
  buildOrderByClause conf meta = Ok order -> concurrentDumpTable fuel conf meta = Some (Ok tasks) ->
  exists total conds, chunked conf meta conds total /\ tasks = tasks_of conf meta order total conds.
Proof.
  intros Ho. unfold concurrentDumpTable. rewrite Ho, whole_tasks.
  assert (forall t, Some (Ok (tasks_of conf meta order 1 [None])) = Some (Ok t) ->
    exists total conds, chunked conf meta conds total /\ t = tasks_of conf meta order total conds)
    as Hwhole.
  { intros t [= <-]. exists 1, [None]. split; [constructor|done]. }
  destruct (pickupPossibleField meta) as [field|] eqn:Ef; [|apply Hwhole].
  assert (field_of meta = field) as Hf by (unfold field_of; by rewrite Ef).
  destruct (Z.ltb_spec (estimateCount (database meta) (table meta)) (Rows conf)) as [|Hc];
    [apply Hwhole|].
  destruct (String.eqb field EmptyString).
  - unfold concurrentDumpTableByCtid. fold (pages_of meta).
    destruct (pages_of meta) as [pages|] eqn:Ep; [|apply Hwhole].
    destruct (Z.leb_spec pages 0); [apply Hwhole|].
    destruct (udiv _ _) as [est|] eqn:Eu; [|done]. apply udiv_some in Eu as [_ ->].
    destruct (ctid_starts _ _ _ _) as [starts|] eqn:Es; [|done]. cbn [mbind option_bind].
    intros [= <-]. rewrite ctid_tasks. eexists _, _. split; [|reflexivity].
    by eapply chunked_ctid.
  - destruct (selectMinAndMaxIntValue _ _ _ _) as [[minv maxv]|] eqn:Em; [|apply Hwhole].
    destruct (udiv _ _) as [est|] eqn:Eu; [|done]. apply udiv_some in Eu as [_ ->].
    destruct (chunk_loop _ _ _ _ _) as [chunks|] eqn:El; [|done]. cbn [mbind option_bind].
    intros [= <-]. rewrite key_tasks, <- Hf. eexists _, _. split; [|reflexivity].
    eapply chunked_key; [by rewrite Hf|done|done].
Qed.

(** The tasks of a table that is split by ranges of its key. *)
Lemma concurrentDumpTable_keyed fuel conf meta tasks bounds :
  pickupPossibleField meta = Ok (field_of meta) -> field_of meta <> EmptyString ->
  Rows conf <= estimateCount (database meta) (table meta) ->
  selectMinAndMaxIntValue conf (database meta) (table meta) (field_of meta) = Ok bounds ->
  concurrentDumpTable fuel conf meta = Some (Ok tasks) ->
  exists order total chunks,
    chunk_loop fuel (snd bounds) (estimated_step (fst bounds) (snd bounds)
        (estimateCount (database meta) (table meta) / Rows conf)) (fst bounds)
      (String.eqb (Where conf) EmptyString) = Some chunks /\
    tasks = tasks_of conf meta order total (map (fun c => Some (chunk_cond (pgQuoteIdent (field_of meta)) c)) chunks).
Proof.
  intros Hf Hne Hc Hm. destruct bounds as [minv maxv]. cbn [fst snd].
  unfold concurrentDumpTable. destruct (buildOrderByClause conf meta) as [order|]; [|done].
  rewrite Hf, Hm. destruct (Z.ltb_spec (estimateCount (database meta) (table meta)) (Rows conf)); [lia|].
  apply String.eqb_neq in Hne. rewrite Hne.
  destruct (udiv _ _) as [est|] eqn:Eu; [|done]. apply udiv_some in Eu as [_ ->].
  destruct (chunk_loop _ _ _ _ _) as [chunks|] eqn:El; [|done]. cbn [mbind option_bind].
  intros [= <-]. rewrite key_tasks. eauto.
Qed.

Lemma concurrentDumpTable_chunked fuel conf meta tasks :
  concurrentDumpTable fuel conf meta = Some (Ok tasks) ->
  exists order total conds, chunked conf meta conds total /\ tasks = tasks_of conf meta order total conds.
Proof.
  intros Hs. destruct (buildOrderByClause conf meta) as [order|e] eqn:Ho;
    [|unfold concurrentDumpTable in Hs; by rewrite Ho in Hs].
  exists order. by eapply concurrentDumpTable_ordered.
Qed.

Lemma chunked_wf conf meta conds total : chunked conf meta conds total -> Forall cond_wf conds.
Proof.
  intros Hc. destruct Hc as [| |]; [by repeat constructor|..]; apply Forall_map, Forall_true; intros c;
    [apply chunk_where_render|apply ctid_where_render].
Qed.

Lemma estimated_step_nonneg minv maxv est : 0 <= estimated_step minv maxv est.
Proof. unfold estimated_step. apply u64_range. Qed.

Lemma chunked_once conf meta conds total r :
  Where conf = EmptyString -> server_bounds conf meta -> row_in_table conf meta r ->
  chunked conf meta conds total ->
  count (row_selected (field_of meta) r) conds = 1%nat.
Proof.
  intros Hw [Hb Hp] [Hr Hk] Hc. destruct Hc as [|minv maxv fuel chunks Em est He El|pages fuel starts Ep Hpos step Es].
  - done.
  - rewrite (count_map _ _ (in_chunk (key r))) by (intros; apply chunk_selects).
    apply (chunk_loop_once _ _ _ _ _ _ (key r) (estimated_step_nonneg _ _ _) El).
    rewrite Hw. destruct (key r) eqn:E; [by apply (Hk _ _ _ Em)|].
    split; [done|]. by destruct (Hb _ _ Em) as (_ & _ & ?).
  - assert (pages_ok pages) as Hpo by (split; [done|by apply Hp]).
    pose proof (ctid_step_range pages (estimateCount (database meta) (table meta) / Rows conf) Hpo)
      as Hst. fold step in Hst.
    pose proof (starts_lower fuel pages step 0 starts Hpo Hst ltac:(lia) Es) as Hl.
    rewrite Forall_forall in Hl. unfold pages_ok in Hpo.
    rewrite (count_map _ _ (in_blocks pages step (block r))).
    + destruct Hr as [Hr _]. by apply (starts_once fuel pages step 0 starts).
    + intros x Hx. specialize (Hl x Hx). cbn. apply ctid_selects; [done|lia..|].
      unfold is_i64. lia.
Qed.


Lemma estimateCount_range db tbl : 0 <= estimateCount db tbl < 2 ^ 63.
Proof.
  unfold estimateCount. destruct (query_fold _ _ _ _) as [n|] eqn:E; [|lia].
  assert (- 2 ^ 63 <= n < 2 ^ 63) as Hn.
  { revert E. unfold query_fold. destruct (conn_query _ _) as [rows|]; [|done]. cbn [mbind result_bind].
    assert (forall l a n e, - 2 ^ 63 <= a < 2 ^ 63 -> handle_rows scan_int l a = (n, e) ->
      - 2 ^ 63 <= n < 2 ^ 63) as Hh.
    { induction l as [|r l IH]; intros a n' e Ha; cbn [handle_rows]; [by intros [= <- _]|].
      destruct (scan_int a r) as [a'|] eqn:Er; [|by intros [= <- _]]. apply IH.
      unfold scan_int in Er. destruct r as [|[s|] [|]]; try done.
      destruct (SetString10 s) as [z|]; [|done].
      destruct (Z.leb_spec (- 2 ^ 63) z), (Z.ltb_spec z (2 ^ 63)); try done.
      injection Er as <-. lia. }
    destruct (handle_rows scan_int (data rows) 0) as [a [e|]] eqn:Eh; [done|].
    destruct (rows_err rows); [done|]. intros [= <-]. eapply Hh; [|exact Eh]. lia. }
  destruct (Z.ltb_spec n 0); [lia|]. rewrite u64_small; unfold is_u64; lia.
Qed.

(** The number of tasks never exceeds the announced total. *)
Lemma chunked_bound conf meta conds total :
  0 < Rows conf -> server_bounds conf meta ->
  (forall minv maxv, selectMinAndMaxIntValue conf (database meta) (table meta) (field_of meta) =
     Ok (minv, maxv) -> maxv - minv < 2 ^ 64 - 1) ->
  chunked conf meta conds total -> Z.of_nat (length conds) <= total.
Proof.
  intros Hrows [Hb Hp] Hfull Hc.
  destruct Hc as [|minv maxv fuel chunks Em est He El|pages fuel starts Ep Hpos step Es].
  - done.
  - rewrite length_map. destruct (Hb _ _ Em) as (Hmin & Hmax & Hle). specialize (Hfull _ _ Em).
    pose proof (estimateCount_range (database meta) (table meta)) as Hr.
    assert (1 <= est) as He1 by (apply Z.div_le_lower_bound; lia).
    assert (est < 2 ^ 63) as He2 by (apply Z.div_lt_upper_bound; nia).
    assert (estimated_step minv maxv est <> 0) as Hz.
    { intros Hz. rewrite Hz, chunk_loop_zero in El by done. done. }
    destruct (chunk_count_bound minv maxv est Hmin Hmax Hle He1 Hz) as [Hbound|]; [|lia].
    pose proof (estimated_step_nonneg minv maxv est) as Hs.
    assert (total_chunks minv maxv est <= est) as Ht.
    { unfold total_chunks, estimated_step in *. unfold is_i64 in *. rewrite Z.abs_eq in * by lia.
      rewrite (u64_small (maxv - minv)) in * by (unfold is_u64; lia).
      assert (0 <= (maxv - minv) / est <= maxv - minv)
        by (split; [apply Z.div_pos; lia|apply Z.div_le_upper_bound; nia]).
      rewrite (u64_small ((maxv - minv) / est + 1)) in * by (unfold is_u64; lia).
      destruct (Z.eqb_spec ((maxv - minv) / est + 1) 1) as [E|]; [|lia].
      rewrite u64_small by (unfold is_u64; lia).
      assert (maxv - minv < est); [|lia]. pose proof (Z.mul_succ_div_gt (maxv - minv) est). nia. }
    rewrite i64_small.
    + destruct (chunk_loop_total (S (Z.to_nat ((maxv - minv) / estimated_step minv maxv est + 1)))
        maxv (estimated_step minv maxv est) minv (String.eqb (Where conf) EmptyString))
        as (cs & Hcs & Hlen); [lia| |lia|].
      { assert (0 <= (maxv - minv) / estimated_step minv maxv est) by (apply Z.div_pos; lia). lia. }
      assert (chunks = cs) as -> by (eapply chunk_loop_fuel; eassumption).
      assert (0 <= (maxv - minv) / estimated_step minv maxv est) by (apply Z.div_pos; lia). lia.
    + assert (0 <= (maxv - minv) / estimated_step minv maxv est) by (apply Z.div_pos; lia).
      unfold is_i64. lia.
  - rewrite length_map. assert (pages_ok pages) as Hpo by (split; [done|by apply Hp]).
    pose proof (ctid_step_range pages (estimateCount (database meta) (table meta) / Rows conf) Hpo)
      as Hst. fold step in Hst.
    destruct (starts_total (S (Z.to_nat pages)) pages step 0 Hpo Hst) as (l & El & Hl); [lia..|].
    assert (starts = l) as -> by (eapply starts_fuel; eassumption).
    unfold pages_ok in Hpo. rewrite Hl, Z.sub_0_r.
    rewrite (i64_small (pages + step)), (i64_small (pages + step - 1)) by (unfold is_i64; lia).
    rewrite Z.quot_div_nonneg by lia. rewrite i64_small; [done|].
    assert (0 <= (pages + step - 1) / step <= pages + step - 1)
      by (split; [apply Z.div_pos; lia|apply Z.div_le_upper_bound; nia]).
    unfold is_i64. lia.
Qed.

Lemma tasks_of_lookup conf meta order total conds n t :
  tasks_of conf meta order total conds !! n = Some t ->
  (n < length conds)%nat /\ exists d, t = TaskTableData meta d (Z.of_nat n) total.
Proof.
  intros Hn. unfold tasks_of in Hn.
  pose proof (lookup_lt_Some _ _ _ Hn) as Hl. rewrite number_tasks_length, length_map in Hl.
  split; [done|].
  destruct (lookup_lt_is_Some_2 (map cond_text conds) n) as [w Hw]; [by rewrite length_map|].
  rewrite (number_tasks_index _ _ _ _ _ Hw) in Hn. injection Hn as <-.
  unfold chunk_task. eauto.
Qed.

(** C16: splitting a table always ends, unless its keys span the whole 64-bit
    range, and the tasks are numbered from zero without gaps below the total
    that each of them announces. *)
Theorem table_split_terminates conf meta :
  0 < Rows conf -> server_bounds conf meta ->
  (forall minv maxv, selectMinAndMaxIntValue conf (database meta) (table meta) (field_of meta) =
     Ok (minv, maxv) -> maxv - minv < 2 ^ 64 - 1) ->
  exists fuel res, concurrentDumpTable fuel conf meta = Some res /\
    forall tasks, res = Ok tasks ->
      exists total, forall n t, tasks !! n = Some t ->
        Z.of_nat n < total /\ exists d, t = TaskTableData meta d (Z.of_nat n) total.
Proof.
  intros Hrows Hsb Hfull. pose proof Hsb as [Hb Hp].
  assert (exists fuel res, concurrentDumpTable fuel conf meta = Some res) as (fuel & res & Hres).
  { unfold concurrentDumpTable. destruct (buildOrderByClause conf meta); [|by exists O; eexists].
    destruct (pickupPossibleField meta) as [field|] eqn:Ef; [|by exists O; eexists].
    assert (field_of meta = field) as Hf by (unfold field_of; by rewrite Ef). rewrite Hf in *.
    destruct (Z.ltb_spec (estimateCount (database meta) (table meta)) (Rows conf)) as [|Hc];
      [by exists O; eexists|].
    destruct (String.eqb field EmptyString).
    - unfold concurrentDumpTableByCtid. fold (pages_of meta).
      destruct (pages_of meta) as [pages|] eqn:Ep; [|by exists O; eexists].
      destruct (Z.leb_spec pages 0); [by exists O; eexists|].
      assert (pages_ok pages) as Hpo by (split; [done|by apply Hp]).
      pose proof (ctid_step_range pages (estimateCount (database meta) (table meta) / Rows conf) Hpo)
        as Hst.
      destruct (starts_total (S (Z.to_nat pages)) pages _ 0 Hpo Hst) as (l & El & _); [lia..|].
      exists (S (Z.to_nat pages)). rewrite udiv_pos, El by done. by eexists.
    - destruct (selectMinAndMaxIntValue _ _ _ _) as [[minv maxv]|] eqn:Em; [|by exists O; eexists].
      destruct (Hb _ _ eq_refl) as (Hmin & Hmax & Hle). specialize (Hfull _ _ eq_refl).
      rewrite (udiv_pos _ _ Hrows). set (est := estimateCount _ _ / _).
      assert (1 <= est) as He by (apply Z.div_le_lower_bound; lia).
      assert (0 < estimated_step minv maxv est) as Hs.
      { unfold estimated_step. unfold is_i64 in *. rewrite Z.abs_eq by lia.
        rewrite (u64_small (maxv - minv)) by (unfold is_u64; lia).
        assert (0 <= (maxv - minv) / est <= maxv - minv)
          by (split; [apply Z.div_pos; lia|apply Z.div_le_upper_bound; nia]).
        rewrite u64_small by (unfold is_u64; lia). lia. }
      destruct (chunk_loop_total (S (Z.to_nat ((maxv - minv) / estimated_step minv maxv est + 1)))
        maxv (estimated_step minv maxv est) minv (String.eqb (Where conf) EmptyString))
        as (cs & Hcs & _); [done| |lia|].
      { assert (0 <= (maxv - minv) / estimated_step minv maxv est) by (apply Z.div_pos; lia). lia. }
      eexists. rewrite Hcs. by eexists. }
  exists fuel, res. split; [done|]. intros tasks ->.
  apply concurrentDumpTable_chunked in Hres as (order & total & conds & Hc & ->).
  exists total. intros n t Ht. apply tasks_of_lookup in Ht as [Hn Ht]. split; [|done].
  pose proof (chunked_bound conf meta conds total Hrows Hsb Hfull Hc). lia.
Qed.

(** C36: when the keys of a table span the whole 64-bit range and one chunk is
    estimated, the 64-bit step wraps to zero and the loop over the chunks
    never ends, whatever the fuel. *)
Theorem full_range_never_ends fuel conf meta order :
  buildOrderByClause conf meta = Ok order ->
  pickupPossibleField meta = Ok (field_of meta) -> field_of meta <> EmptyString ->
  selectMinAndMaxIntValue conf (database meta) (table meta) (field_of meta) =
    Ok (- 2 ^ 63, 2 ^ 63 - 1) ->
  0 < Rows conf -> estimateCount (database meta) (table meta) / Rows conf = 1 ->
  concurrentDumpTable fuel conf meta = None.
Proof.
  intros Ho Hf Hne Hm Hr He. unfold concurrentDumpTable. rewrite Ho, Hf, Hm.
  destruct (Z.ltb_spec (estimateCount (database meta) (table meta)) (Rows conf)).
  - rewrite Z.div_small in He; [done|]. pose proof (estimateCount_range (database meta) (table meta)).
    lia.
  - apply String.eqb_neq in Hne. rewrite Hne, udiv_pos, He by done.
    change (estimated_step (- 2 ^ 63) (2 ^ 63 - 1) 1) with 0.
    by rewrite chunk_loop_zero.
Qed.

End Tables.

(** ** Witnesses *)

Section Examples.
#[local] Existing Instances Config.example_regexp Config.example_files Config.example_unicode.
#[local] Instance example_fold : FoldLib := {| unicode_equal_fold := fun _ _ => false |}.

(** A table with the integer key id, whose MIN and MAX and whose number of
    rows are given. *)
Definition example_server (minv maxv rows : string) : SnapshotConn :=
  {| conn_query := fun q _ =>
       if String.eqb q primary_key_query then Ok (mkRows ["attname"] [[Some "id"]] None)
       else if String.eqb q numeric_index_query then
         Ok (mkRows ["attname"; "format_type"; "indisprimary"] [[Some "id"; Some "bigint"; Some "t"]] None)
       else if String.eqb q estimate_query then Ok (mkRows ["greatest"] [[Some rows]] None)
       else if String.eqb q pages_query then Ok (mkRows ["pages"] [[Some "3"]] None)
       else Ok (mkRows ["min"; "max"] [[Some minv; Some maxv]] None) |}.

Definition example_conf (where_ : string) : Config := set_split DefaultConfig 4 where_.

Definition example_meta : tableMeta :=
  mkTableMeta "public" "t" [mkColumnType "id" "int8"] "*" EmptyString 1 [] EmptyString EmptyString 0 false.

#[local] Instance example_conn : SnapshotConn := example_server "1" "10" "10".

Lemma example_bounds where_ : server_bounds (example_conf where_) example_meta.
Proof.
  split.
  - intros minv maxv E. destruct where_; vm_compute in E; injection E as <- <-; unfold is_i64; lia.
  - intros pages E. vm_compute in E. injection E as <-. lia.
Qed.


Lemma table_split_terminates_witness :
  exists fuel res, concurrentDumpTable fuel (example_conf "a > 1") example_meta = Some res /\
    forall tasks, res = Ok tasks ->
      exists total, forall n t, tasks !! n = Some t ->
        Z.of_nat n < total /\ exists d, t = TaskTableData example_meta d (Z.of_nat n) total.
Proof.
  refine (table_split_terminates (example_conf "a > 1") example_meta _ (example_bounds "a > 1") _).
  - reflexivity.
  - intros minv maxv E. vm_compute in E. injection E as <- <-. lia.
Defined.

Lemma full_range_never_ends_witness :
  concurrentDumpTable (H2 := example_server "-9223372036854775808" "9223372036854775807" "5")
    50 (example_conf EmptyString) example_meta = None.
Proof.
  refine (full_range_never_ends
    (H2 := example_server "-9223372036854775808" "9223372036854775807" "5")
    50 (example_conf EmptyString) example_meta _ eq_refl eq_refl _ eq_refl _ eq_refl).
  - done.
  - reflexivity.
Defined.

End Examples.
