(* ===== verification/Catalog.v ===== *)
(** * Further questions to the catalog (export/sql.go, export/util.go)

    Listings and keys that the exported functions of the package offer beside
    those a dump asks for ([Prepare], [Chunking]): tables, partitions, the
    version, primary keys with their types, the query of a whole table. *)

From S2P Require Import Prelude GoStrings Dialect FilterMatcher FilterParser Filter SqlTypes.
From S2P Require Import SqlCond SqlBuilder Conn Tables Config Prepare Ir Chunking.

(** src/export/util.go:5-11 string2Map *)
Fixpoint string2Map (a b : list string) (a2b : gmap string string) : option (gmap string string) :=
  match a, b with
  | [], _ => Some a2b
  | str :: a', s :: b' => string2Map a' b' (<[str := s]> a2b)
  | _ :: _, [] => None
  end.

Section Catalog.
Context `{UnicodeLib} `{RegexpLib} `{FoldLib} `{SnapshotConn}.

(** src/export/sql.go:110-113 ShowTables *)
Definition show_tables_query : string :=
"SELECT format('%I.%I', schemaname, tablename) FROM pg_catalog.pg_tables
		WHERE schemaname NOT IN ('pg_catalog','information_schema','pg_toast')
		  AND schemaname NOT LIKE 'pg_temp_%'
		ORDER BY schemaname, tablename".

(** src/export/sql.go:109-119 ShowTables *)
Definition ShowTables : result (list string) := simpleQuery show_tables_query handleOneRow [].

(** [QueryRow]: the first row, or the error of there being none.
    src/export/sql.go:280-289 SelectVersion *)
Definition SelectVersion : result string :=
  let query := "SELECT version()" in
  let annotate e := EAnnotate e "sql: %s" [AStr query] in
  match conn_query query [] with
  | Err e => Err (annotate e)
  | Ok rows =>
      match data rows with
      | [v] :: _ => match scan_text v with Ok s => Ok s | Err e => Err (annotate e) end
      | _ :: _ => Err (annotate (EForeign "sql: expected 1 destination argument in Scan"))
      | [] => Err (annotate (default (EForeign "sql: no rows in result set") (rows_err rows)))
      end
  end.

(** src/export/sql.go:292-301 SelectAllFromTable *)
Definition SelectAllFromTable (conf : Config) (meta : tableMeta) (partition orderByClause : string) : tableData :=
  mkTableData
    (buildSelectQuery (database meta) (table meta) (selectedField meta) partition
       (buildWhereCondition (Where conf) EmptyString) orderByClause)
    (selectedLen meta) false.

(** [None] is the panic of [b[i]].
    src/export/sql.go:384-399 GetPrimaryKeyAndColumnTypes *)
Definition GetPrimaryKeyAndColumnTypes (meta : tableMeta) : option (result (list string * list string)) :=
  match GetPrimaryKeyColumns (database meta) (table meta) with
  | Err e => Some (Err e)
  | Ok colNames =>
      colName2Type ← string2Map (ColumnNames meta) (ColumnTypes meta) ∅;
      Some (Ok (colNames, map (fun colName => default EmptyString (colName2Type !! colName)) colNames))
  end.

(** src/export/sql.go:85-89 listTableType *)
Inductive listTableType := listTableByInfoSchema | listTableByShowFullTables | listTableByShowTableStatus.

(** The listings do not look at it.
    src/export/dump.go:681-683 getListTableTypeByConf *)
Definition getListTableTypeByConf (conf : Config) : listTableType := listTableByShowTableStatus.
End Catalog.

(** src/export/sql.go:1022-1031 GetPartitionNames *)
Definition partitions_query : string :=
"
SELECT cc.relname
FROM pg_catalog.pg_inherits i
JOIN pg_catalog.pg_class p  ON p.oid  = i.inhparent
JOIN pg_catalog.pg_namespace pn ON pn.oid = p.relnamespace
JOIN pg_catalog.pg_class cc ON cc.oid = i.inhrelid
WHERE pn.nspname = $1 AND p.relname = $2
ORDER BY cc.relname".

Section Partitions.
Context {E : Type}.
Variable query : E -> string -> list string -> result table_rows * E.
Variable rebuild : E -> result unit * E.
Variable done : nat -> bool.

(** With retries; a failed attempt empties the list.
    src/export/sql.go:1021-1042 GetPartitionNames *)
Definition GetPartitionNames (db : BaseConn) (schema table : string)
    : option (list error * list string * BaseConn) :=
  QuerySQL query rebuild done db handleOneRow (fun _ => []) [] partitions_query [schema; table].
End Partitions.

(** ** Correctness *)

Lemma string2Map_lookup a : forall b m m',
  string2Map a b m = Some m' ->
  forall k, m' !! k = match last (List.filter (fun p => String.eqb (fst p) k) (zip a b)) with
                      | Some p => Some (snd p)
                      | None => m !! k
                      end.
Proof.
  induction a as [|x a IH]; intros b m m'; cbn; [by intros [= <-]|].
  destruct b as [|y b]; [done|]. intros Hm k. rewrite (IH _ _ _ Hm k). cbn.
  destruct (String.eqb_spec x k) as [->|Hne].
  - destruct (List.filter _ (zip a b)) as [|p l] eqn:E; cbn [last]; [by rewrite lookup_insert_eq|].
    destruct (last (p :: l)) eqn:El; [done|]. by apply last_None in El.
  - destruct (last _); [done|]. by rewrite lookup_insert_ne.
Qed.

Lemma string2Map_total a : forall b m, length a = length b -> exists m', string2Map a b m = Some m'.
Proof. induction a as [|x a IH]; intros [|y b] m; cbn; try done; [by eexists|]. intros [= Hl]. by apply IH. Qed.

Lemma filter_unique {A} (l : list (string * A)) i k v :
  NoDup (map fst l) -> l !! i = Some (k, v) -> List.filter (fun p => String.eqb (fst p) k) l = [(k, v)].
Proof.
  revert i. induction l as [|[k' v'] l IH]; intros i Hd Hi; [done|]. cbn in Hd. apply NoDup_cons in Hd as [Hn Hd].
  cbn. destruct i as [|i]; cbn in Hi.
  - injection Hi as -> ->. rewrite String.eqb_refl. f_equal. clear IH Hd.
    induction l as [|[k2 v2] l IH]; [done|]. cbn in *. apply not_elem_of_cons in Hn as [Hne Hn].
    destruct (String.eqb_spec k2 k); [congruence|]. by apply IH.
  - destruct (String.eqb_spec k' k) as [->|_]; [|by eapply IH]. exfalso. apply Hn.
    apply list_elem_of_fmap. exists (k, v). split; [done|]. by eapply list_elem_of_lookup_2.
Qed.

Section Keys.
Context `{UnicodeLib} `{RegexpLib} `{FoldLib} `{SnapshotConn}.

(** The types of the columns of the primary key: the function never panics on
    the metadata of a table, and for a table with distinct column names, the
    type that it returns for a key column is the type of that column. *)
Lemma primary_key_types meta colNames :
  NoDup (ColumnNames meta) -> GetPrimaryKeyColumns (database meta) (table meta) = Ok colNames ->
  exists types, GetPrimaryKeyAndColumnTypes meta = Some (Ok (colNames, types)) /\
    length types = length colNames /\
    forall i name c, colNames !! i = Some name -> c ∈ colTypes meta -> ct_Name c = name ->
      types !! i = Some (ct_DatabaseTypeName c).
Proof.
  intros Hd Hk. unfold GetPrimaryKeyAndColumnTypes. rewrite Hk.
  destruct (string2Map_total (ColumnNames meta) (ColumnTypes meta) ∅) as [m Hm];
    [unfold ColumnNames, ColumnTypes; by rewrite !length_map|].
  rewrite Hm. cbn [mbind option_bind]. eexists. split; [done|]. split; [by rewrite length_map|].
  intros i name c Hi Hc <-. rewrite list_lookup_fmap, Hi. cbn. f_equal.
  rewrite (string2Map_lookup _ _ _ _ Hm). apply list_elem_of_lookup in Hc as [j Hj].
  assert (zip (ColumnNames meta) (ColumnTypes meta) = map (fun c => (ct_Name c, ct_DatabaseTypeName c)) (colTypes meta)) as ->.
  { unfold ColumnNames, ColumnTypes. clear. induction (colTypes meta) as [|c l IH]; cbn; [done|]. by rewrite IH. }
  rewrite (filter_unique _ j (ct_Name c) (ct_DatabaseTypeName c)); [done| |].
  - rewrite map_map. exact Hd.
  - by rewrite list_lookup_fmap, Hj.
Qed.
End Keys.
