(* ===== verification/Writer.v ===== *)
(** * Writing table data (export/writer_util.go)

    The pipe between the formatter and the file, the SQL writer and the CSV
    writer.  The formatter sends buffers of about 1 MiB to a goroutine that
    writes them to the file; the select at each send is resolved by an oracle
    ([flushed]), and the file by another one ([write_err]); [Pipe] shows that
    whatever the two do side by side is a run of this model. *)

From S2P Require Import Prelude GoStrings Dialect FilterMatcher FilterParser Filter FileNames.
From S2P Require Import SqlTypes Conn Tables Config Ir.

(** src/export/writer_util.go:23-23 lengthLimit *)
Definition lengthLimit : Z := 1048576.

(** ** The pipe *)

(** The sizes the formatter keeps in the pipe.
    src/export/writer_util.go:29-44 writerPipe *)
Record writerPipe := mkPipe {
  currentFileSize : Z;
  currentStatementSize : Z;
  fileSizeLimit : Z;
  statementSizeLimit : Z
}.

(** src/export/writer_util.go:46-66 newWriterPipe *)
Definition newWriterPipe (fileSizeLimit statementSizeLimit : Z) : writerPipe :=
  mkPipe 0 0 fileSizeLimit statementSizeLimit.

(** src/export/writer_util.go:100-103 writerPipe.AddFileSize *)
Definition AddFileSize (b : writerPipe) (fileSize : Z) : writerPipe :=
  mkPipe (u64 (currentFileSize b + fileSize)) (u64 (currentStatementSize b + fileSize))
    (fileSizeLimit b) (statementSizeLimit b).

(** src/export/writer_util.go:114-116 writerPipe.ShouldSwitchFile *)
Definition ShouldSwitchFile (b : writerPipe) : bool :=
  negb (fileSizeLimit b =? UnspecifiedSize) && (fileSizeLimit b <=? currentFileSize b).

(** src/export/writer_util.go:118-121 writerPipe.ShouldSwitchStatement *)
Definition ShouldSwitchStatement (b : writerPipe) : bool :=
  (negb (fileSizeLimit b =? UnspecifiedSize) && (fileSizeLimit b <=? currentFileSize b)) ||
  (negb (statementSizeLimit b =? UnspecifiedSize) &&
   (statementSizeLimit b <=? currentStatementSize b)).

Definition start_statement (b : writerPipe) : writerPipe :=
  mkPipe (currentFileSize b) 0 (fileSizeLimit b) (statementSizeLimit b).

Definition add_current (b : writerPipe) (n : Z) : writerPipe :=
  mkPipe (u64 (currentFileSize b + n)) (currentStatementSize b) (fileSizeLimit b)
    (statementSizeLimit b).

(** The goroutine: it writes the chunks in order, counts their bytes, and
    after a failed write drops the rest; the first error is left in [errCh].
    src/export/writer_util.go:68-98 writerPipe.Run *)
Fixpoint pipe_Run (write_err : nat -> option error) (k : nat) (input : list string)
    : list string * Z * option error :=
  match input with
  | [] => ([], 0, None)
  | s :: input' =>
      match write_err k with
      | Some e => ([], slen s, Some e)
      | None =>
          let '(written, finishedFileSize, err) := pipe_Run write_err (S k) input' in
          (s :: written, slen s + finishedFileSize, err)
      end
  end.

(** What the select at a send does. *)
Inductive send_outcome :=
  | Sent
  | Cancelled (e : error)
  | PipeFailed (e : error).

(** ** Formatting a table *)

Section Writer.
Context `{UnicodeLib} `{RegexpLib} {I : Type} `{RowIter I}.
Variable conf : Config.
Variable meta : tableMeta.
Variable flushed : nat -> send_outcome.
Variable write_err : nat -> option error.
(** how many destinations [Scan] is given: the column count of the task *)
Variable argLen : nat.
(** how many chunks the goroutine has taken when an early return cancels it *)
Variable drained : nat.

(** The variables of the writers' loops. *)
Record wstate := mkState {
  iter : I;
  row : RowReceiverArr;
  bf : string;
  sent : list string;
  wp : writerPipe;
  counter : Z;
  lastCounter : Z;
  rowsGauge : Z
}.

(** What [WriteInsert] and [WriteInsertInCsv] return, the chunks the
    goroutine took, what reached the file, the iterator they leave behind, and their effect
    on the gauge of finished rows. *)
Record written := mkWritten {
  w_n : Z;
  w_err : option error;
  w_sent : list string;
  w_file : list string;
  w_iter : I;
  w_rows : Z
}.

Inductive flow := Continue (st : wstate) | Return (n : Z) (e : error) (st : wstate).

(** [decodeFromRows]: bind the receivers and scan the row into them; [Scan]
    wants as many destinations as the row has columns.
    src/export/ir.go:67-74 decodeFromRows *)
Definition decode_row (r : RowReceiverArr) (vals : scanned_row) : result RowReceiverArr :=
  match vals with
  | Err e => Err e
  | Ok vals =>
      match BindAddress argLen r with
      | None => Err (EForeign "panic: index out of range")
      | Some r' =>
          if Nat.eqb argLen (length vals) then Ok (mkRow (bound r') (scan_cells (cells r') vals))
          else Err (EForeign "sql: expected different number of destination arguments in Scan")
      end
  end.

(** Sending a full buffer.
    src/export/writer_util.go:253-267 WriteInsert *)
Definition flush (st : wstate) : flow :=
  if lengthLimit <=? slen (bf st) then
    match flushed (length (sent st)) with
    | Cancelled e => Return (counter st) e st
    | PipeFailed e => Return (counter st) e st
    | Sent =>
        Continue (mkState (iter st) (row st) EmptyString (sent st ++ [bf st]) (wp st) (counter st)
                    (counter st) (rowsGauge st + (counter st - lastCounter st)))
    end
  else Continue st.

Definition comma_nl : string := "," +:+ str1 newline.
Definition semi_nl : string := ";" +:+ str1 newline.

(** The text of the current row; [None] when decoding fails.
    src/export/writer_util.go:230-238 WriteInsert *)
Definition insert_row (st : wstate) : result (RowReceiverArr * string) :=
  if negb (String.eqb (selectedField meta) EmptyString) then
    r ← decode_row (row st) (Decode (iter st));
    Ok (r, row_WriteToBuffer r (EscapeBackslash conf))
  else Ok (row st, "()").

(** One statement: rows until the iterator ends or a size limit is reached.
    src/export/writer_util.go:229-272 WriteInsert *)
Fixpoint insert_rows (fuel : nat) (st : wstate) : option flow :=
  match fuel with
  | O => None
  | S fuel' =>
      if HasNext (iter st) then
        match insert_row st with
        | Err e => Some (Return (counter st) e st)
        | Ok (r, text) =>
            let wp1 := AddFileSize (wp st) (slen text + 2) in
            let it := Next (iter st) in
            let shouldSwitch := ShouldSwitchStatement wp1 in
            let endl := if HasNext it && negb shouldSwitch then comma_nl else semi_nl in
            match flush (mkState it r (bf st +:+ text +:+ endl) (sent st) wp1
                           (u64 (counter st + 1)) (lastCounter st) (rowsGauge st)) with
            | Return n e st' => Some (Return n e st')
            | Continue st' => if shouldSwitch then Some (Continue st') else insert_rows fuel' st'
            end
        end
      else Some (Continue st)
  end.

(** The prefix of every statement.
    src/export/writer_util.go:214-221 WriteInsert *)
Definition insertStatementPrefix : string :=
  let tableQName := QuoteQName (conf_Dialect conf) (database meta) (table meta) in
  if negb (String.eqb (selectColumns meta) EmptyString)
  then "INSERT INTO " +:+ tableQName +:+ " (" +:+ selectColumns meta +:+ ") VALUES" +:+ str1 newline
  else "INSERT INTO " +:+ tableQName +:+ " VALUES" +:+ str1 newline.

(** The statements of a file.
    src/export/writer_util.go:224-276 WriteInsert *)
Fixpoint insert_statements (fuel : nat) (st : wstate) : option flow :=
  match fuel with
  | O => None
  | S fuel' =>
      if HasNext (iter st) then
        let wp1 := AddFileSize (start_statement (wp st)) (slen insertStatementPrefix) in
        f ← insert_rows (S fuel') (mkState (iter st) (row st) (bf st +:+ insertStatementPrefix) (sent st) wp1
                         (counter st) (lastCounter st) (rowsGauge st));
        match f with
        | Return n e st' => Some (Return n e st')
        | Continue st' =>
            if ShouldSwitchFile (wp st') then Some (Continue st') else insert_statements fuel' st'
        end
      else Some (Continue st)
  end.

(** The preamble, one line per statement.
    src/export/writer_util.go:176-180 WriteInsert *)
Definition preamble_text : string :=
  sconcat (map (fun s => s +:+ str1 newline) (specCmts meta)).

(** The end of both writers: the rest of the buffer is sent, the pipe is
    drained, and the error of the iterator comes before that of the pipe; on
    an error the finished rows are taken back from the gauge.  An early return
    cancels the goroutine, whatever it has not taken yet is lost.
    src/export/writer_util.go:277-288 WriteInsert *)
Definition finish (f : flow) : written :=
  match f with
  | Return n e st =>
      let sent := firstn drained (sent st) in
      let '(file, _, _) := pipe_Run write_err 0 sent in
      mkWritten n (Some e) sent file (iter st) (rowsGauge st - lastCounter st)
  | Continue st =>
      let sent := if 0 <? slen (bf st) then sent st ++ [bf st] else sent st in
      let '(file, _, pipe_err) := pipe_Run write_err 0 sent in
      let gauge := rowsGauge st + (counter st - lastCounter st) in
      let err := match IterError (iter st) with Some e => Some e | None => pipe_err end in
      mkWritten (counter st) err sent file (iter st)
        (match err with Some _ => gauge - counter st | None => gauge end)
  end.

(** The variables before the first row.
    src/export/writer_util.go:151-189 WriteInsert *)
Definition insert_start (it : I) : wstate :=
  let wp := newWriterPipe (FileSize conf) (StatementSize conf) in
  mkState it (MakeRowReceiver (ColumnTypes meta) (conf_Dialect conf)) preamble_text []
    (add_current wp (slen preamble_text)) 0 0 0.

(** src/export/writer_util.go:143-288 WriteInsert *)
Definition WriteInsert (fuel : nat) (it : I) : option written :=
  if negb (HasNext it) then Some (mkWritten 0 (IterError it) [] [] it 0)
  else f ← insert_statements fuel (insert_start it); Some (finish f).

(** ** CSV *)

(** src/export/writer_util.go:310-316 WriteInsertInCsv *)
Definition csv_opt : csvOption :=
  mkCsvOption (CsvNullValue conf) (CsvSeparator conf) (CsvDelimiter conf) (CsvLineTerminator conf)
    (DialectBinaryFormatMap (CsvOutputDialect conf)).

(** The names of the columns; a separator follows every name but the one at
    the last index of the column types.
    src/export/writer_util.go:359-369 WriteInsertInCsv *)
Definition header_text : string :=
  if negb (NoHeader conf) && (0 <? Z.of_nat (length (ColumnNames meta))) &&
     negb (String.eqb (selectedField meta) EmptyString)
  then
    sconcat (imap (fun i col =>
      delimiter csv_opt +:+ escapeCSV col (EscapeBackslash conf) csv_opt +:+ delimiter csv_opt +:+
      (if Z.of_nat i =? Z.of_nat (length (ColumnTypes meta)) - 1 then EmptyString else separator csv_opt))
      (ColumnNames meta)) +:+ lineTerminator csv_opt
  else EmptyString.

(** src/export/writer_util.go:373-379 WriteInsertInCsv *)
Definition csv_row (st : wstate) : result (RowReceiverArr * string) :=
  if negb (String.eqb (selectedField meta) EmptyString) then
    r ← decode_row (row st) (Decode (iter st));
    Ok (r, row_WriteToBufferInCsv r (EscapeBackslash conf) csv_opt +:+ lineTerminator csv_opt)
  else Ok (row st, lineTerminator csv_opt).

(** src/export/writer_util.go:372-403 WriteInsertInCsv *)
Fixpoint csv_rows (fuel : nat) (st : wstate) : option flow :=
  match fuel with
  | O => None
  | S fuel' =>
      if HasNext (iter st) then
        match csv_row st with
        | Err e => Some (Return (counter st) e st)
        | Ok (r, text) =>
            match flush (mkState (iter st) r (bf st +:+ text) (sent st)
                           (add_current (wp st) (slen text))
                           (u64 (counter st + 1)) (lastCounter st) (rowsGauge st)) with
            | Return n e st' => Some (Return n e st')
            | Continue st1 =>
                let st' := mkState (Next (iter st1)) (row st1) (bf st1) (sent st1) (wp st1) (counter st1)
                             (lastCounter st1) (rowsGauge st1) in
                if ShouldSwitchFile (wp st') then Some (Continue st') else csv_rows fuel' st'
            end
        end
      else Some (Continue st)
  end.

(** src/export/writer_util.go:299-369 WriteInsertInCsv *)
Definition csv_start (it : I) : wstate :=
  let wp := newWriterPipe (FileSize conf) UnspecifiedSize in
  mkState it (MakeRowReceiver (ColumnTypes meta) (conf_Dialect conf)) header_text []
    (add_current wp (slen header_text)) 0 0 0.

(** src/export/writer_util.go:291-416 WriteInsertInCsv *)
Definition WriteInsertInCsv (fuel : nat) (it : I) : option written :=
  if negb (HasNext it) then Some (mkWritten 0 (IterError it) [] [] it 0)
  else f ← csv_rows fuel (csv_start it); Some (finish f).

(** ** What a file holds *)

Definition receivers : list receiver :=
  map fst (cells (MakeRowReceiver (ColumnTypes meta) (conf_Dialect conf))).

(** The text of a row. *)
Definition row_text (vals : list (option string)) : string :=
  if negb (String.eqb (selectedField meta) EmptyString)
  then row_WriteToBuffer (mkRow true (zip receivers vals)) (EscapeBackslash conf)
  else "()".

(** The text of one INSERT statement with the rows [g]. *)
Definition group_text (g : list (list (option string))) : string :=
  join comma_nl (map row_text g) +:+ semi_nl.

Definition statement_text (g : list (list (option string))) : string :=
  insertStatementPrefix +:+ group_text g.

Definition text_of (st : wstate) : string := sconcat (sent st) +:+ bf st.

(** Every row has as many values as the table has columns and as the task
    says; without a column to read, [Scan] is never called. *)
Definition width_ok (r : scanned_row) : Prop :=
  match r with
  | Ok vals => selectedField meta <> EmptyString -> length vals = length receivers /\ argLen = length vals
  | Err _ => selectedField meta <> EmptyString
  end.

Definition state_ok (st : wstate) : Prop :=
  iter_ok (iter st) /\ Forall width_ok (pending (iter st)) /\ map fst (cells (row st)) = receivers.

(** The effect of the returned errors on the gauge is undone by the caller. *)
Definition gauge_base (st : wstate) : Z := rowsGauge st - lastCounter st.

Lemma scan_cells_any (cs : list (receiver * option string)) vals :
  length vals = length cs -> scan_cells cs vals = zip (map fst cs) vals.
Proof.
  revert vals. induction cs as [|[r o] cs IH]; intros [|v vals]; cbn; try done.
  intros [= Hl]. by rewrite IH.
Qed.

Lemma map_fst_zip_eq (rs : list receiver) (vals : list (option string)) :
  length vals = length rs -> map fst (zip rs vals) = rs.
Proof.
  revert vals. induction rs as [|r rs IH]; intros [|v vals]; cbn; try done.
  intros [= Hl]. by rewrite IH.
Qed.

Lemma decode_row_ok r vals :
  map fst (cells r) = receivers -> length vals = length receivers -> argLen = length vals ->
  decode_row r (Ok vals) = Ok (mkRow true (zip receivers vals)).
Proof.
  intros Hr Hl Ha. assert (length (cells r) = length receivers) as Hc by (by rewrite <- Hr, length_map).
  unfold decode_row, BindAddress. rewrite Ha, Nat.eqb_refl. destruct (bound r) eqn:Hb.
  - by rewrite Hb, scan_cells_any, Hr by congruence.
  - rewrite Hc, Hl, Nat.ltb_irrefl. cbn [bound cells]. by rewrite scan_cells_any, Hr by congruence.
Qed.

Lemma insert_row_ok st vals l :
  state_ok st -> pending (iter st) = Ok vals :: l ->
  exists r, insert_row st = Ok (r, row_text vals) /\ map fst (cells r) = receivers.
Proof.
  intros (Hi & Hw & Hr) Hp. unfold insert_row, row_text.
  rewrite (decode_head _ _ _ Hi Hp). rewrite Hp in Hw. apply Forall_cons in Hw as [Hv _].
  destruct (String.eqb (selectedField meta) EmptyString) eqn:Hs; cbn [negb].
  - by exists (row st).
  - apply String.eqb_neq in Hs. destruct (Hv Hs). rewrite decode_row_ok by done. cbn [mbind result_bind]. eexists. split; [reflexivity|].
    cbn [cells]. by apply map_fst_zip_eq.
Qed.

Lemma flush_spec st :
  match flush st with
  | Return n e st' => gauge_base st' = gauge_base st
  | Continue st' =>
      iter st' = iter st /\ row st' = row st /\ wp st' = wp st /\ counter st' = counter st /\
      text_of st' = text_of st /\ gauge_base st' = gauge_base st
  end.
Proof.
  unfold flush. destruct (lengthLimit <=? slen (bf st)); [|done].
  destruct (flushed _); try done. unfold text_of, gauge_base. cbn. split_and!; try done; [|lia].
  rewrite sconcat_app. cbn. by rewrite !sapp_nil_r.
Qed.

(** The sizes after the rows [g]. *)
Definition wp_after (w : writerPipe) (g : list (list (option string))) : writerPipe :=
  foldl (fun w r => AddFileSize w (slen (row_text r) + 2)) w g.

(** What a loop over rows does: it takes the rows [g] off the iterator. *)
Definition takes (st st' : wstate) (g : list (list (option string))) : Prop :=
  pending (iter st) = map Ok g ++ pending (iter st') /\
  final_error (iter st') = final_error (iter st) /\
  counter st' = u64 (counter st + Z.of_nat (length g)) /\ gauge_base st' = gauge_base st /\
  state_ok st'.

Lemma takes_nil st st' :
  iter st' = iter st -> map fst (cells (row st')) = map fst (cells (row st)) ->
  is_u64 (counter st) -> counter st' = counter st -> gauge_base st' = gauge_base st ->
  state_ok st -> takes st st' [].
Proof.
  intros Hi Hr Hu Hc Hg (? & ? & ?). unfold takes, state_ok. rewrite Hi, Hr, Hc. cbn.
  rewrite Z.add_0_r, u64_small by done. split_and!; done.
Qed.

Lemma takes_app st st1 st2 g1 g2 : takes st st1 g1 -> takes st1 st2 g2 -> takes st st2 (g1 ++ g2).
Proof.
  intros (P1 & E1 & C1 & G1 & _) (P2 & E2 & C2 & G2 & S2). unfold takes.
  rewrite map_app, <- app_assoc, <- P2, length_app, C2, C1, E2, G2. split_and!; try done.
  unfold u64. rewrite Zplus_mod_idemp_l. f_equal. lia.
Qed.

Lemma group_text_cons v g :
  g <> [] -> group_text (v :: g) = row_text v +:+ comma_nl +:+ group_text g.
Proof.
  intros Hg. unfold group_text. cbn [map]. rewrite join_cons by (by destruct g).
  by rewrite !sapp_assoc.
Qed.

Lemma takes_one st st1 st2 r vals l :
  state_ok st -> pending (iter st) = Ok vals :: l ->
  iter st1 = Next (iter st) -> row st1 = r -> map fst (cells r) = receivers ->
  counter st1 = u64 (counter st + 1) -> gauge_base st1 = gauge_base st ->
  iter st2 = iter st1 -> row st2 = row st1 -> counter st2 = counter st1 ->
  gauge_base st2 = gauge_base st1 ->
  takes st st2 [vals].
Proof.
  intros (Hi & Hw & Hr) Hp E1 E2 Hr' E3 E4 F1 F2 F3 F4. unfold takes, state_ok.
  rewrite F1, F2, F3, F4, E1, E2, E3, E4. rewrite Hp in Hw |- *.
  apply Forall_cons in Hw as [_ Hw]. rewrite (next_tail _ _ _ Hi Hp), next_error by done.
  split_and!; try done. by apply next_ok.
Qed.

Lemma hasnext_cons st x l : state_ok st -> pending (iter st) = x :: l -> HasNext (iter st) = true.
Proof. intros (Hi & _) Hp. rewrite hasnext_pending by exact Hi. by rewrite Hp. Qed.

Lemma hasnext_nil st : state_ok st -> pending (iter st) = [] -> HasNext (iter st) = false.
Proof. intros (Hi & _) Hp. rewrite hasnext_pending by exact Hi. by rewrite Hp. Qed.

Definition rows_post (st st' : wstate) (g : list (list (option string))) : Prop :=
  takes st st' g /\ wp st' = wp_after (wp st) g /\
  text_of st' = text_of st +:+ (match g with [] => EmptyString | _ => group_text g end) /\
  (pending (iter st') = [] \/ ShouldSwitchStatement (wp st') = true) /\
  (pending (iter st) <> [] -> g <> []) /\
  (forall g1 r g2, g = g1 ++ r :: g2 -> g1 <> [] -> ShouldSwitchStatement (wp_after (wp st) g1) = false).

Lemma insert_rows_spec fuel : forall st,
  state_ok st -> (length (pending (iter st)) < fuel)%nat -> is_u64 (counter st) ->
  exists f, insert_rows fuel st = Some f /\
    match f with
    | Return n e st' => gauge_base st' = gauge_base st
    | Continue st' => exists g, rows_post st st' g
    end.
Proof.
  induction fuel as [|fuel IH]; intros st Hok Hf Hu; [lia|]. cbn [insert_rows].
  destruct (pending (iter st)) as [|x l] eqn:Hp.
  - rewrite (hasnext_nil _ Hok Hp). eexists. split; [done|]. exists [].
    split_and!; try done; [by apply takes_nil|by rewrite sapp_nil_r|by left|].
    intros [] ? ? [=].
  - rewrite (hasnext_cons _ _ _ Hok Hp). destruct x as [vals|e].
    2: { unfold insert_row. pose proof Hok as (Hi & Hw & _). rewrite (decode_head _ _ _ Hi Hp).
         rewrite Hp in Hw. apply Forall_cons in Hw as [Hsel _]. cbn in Hsel.
         apply String.eqb_neq in Hsel. rewrite Hsel. cbn. eexists. by split. }
    destruct (insert_row_ok _ _ _ Hok Hp) as (r & -> & Hr).
    set (st1 := mkState (Next (iter st)) r _ (sent st) _ _ (lastCounter st) (rowsGauge st)).
    pose proof (flush_spec st1) as Hfl.
    destruct (flush st1) as [st2|n e st2]; [|eexists; split; [done|exact Hfl]].
    destruct Hfl as (F1 & F2 & F3 & F4 & F5 & F6).
    assert (takes st st2 [vals]) as Ht by (by apply (takes_one st st1 st2 r vals l)).
    assert (wp st2 = wp_after (wp st) [vals]) as Hwp by (by rewrite F3).
    assert (Hl : pending (iter st2) = l).
    { destruct Ht as (P & _). rewrite Hp in P. by injection P as <-. }
    assert (text_of st2 = text_of st +:+ row_text vals +:+
      (if HasNext (Next (iter st)) && negb (ShouldSwitchStatement (wp st1)) then comma_nl else semi_nl))
      as Htext by (rewrite F5; unfold text_of; cbn; by rewrite !sapp_assoc).
    rewrite <- F3 in Htext.
    change (AddFileSize (wp st) (slen (row_text vals) + 2)) with (wp st1). rewrite <- F3.
    destruct (ShouldSwitchStatement (wp st2)) eqn:Hsw.
    + eexists. split; [done|]. exists [vals]. split_and!; try done.
      * rewrite Htext, andb_false_r. unfold group_text. cbn. done.
      * by right.
      * intros [|? [|]] ? ? [=] Hne; done.
    + pose proof Ht as (_ & _ & Hcnt & _ & Hok2).
      destruct (IH st2 Hok2) as (f & Hf2 & Hpost).
      { rewrite Hl. cbn in Hf. lia. }
      { rewrite Hcnt. apply u64_range. }
      exists f. split; [done|]. destruct f as [st3|n e st3].
      * destruct Hpost as (g & Hg). destruct Hg as (T & W & X & E & N & B).
        exists (vals :: g). split_and!; try done.
        -- change (vals :: g) with ([vals] ++ g). by eapply takes_app.
        -- rewrite W, Hwp. done.
        -- rewrite X, Htext. rewrite sapp_assoc, andb_true_r.
           change (Next (iter st)) with (iter st1). rewrite <- F1.
           destruct l as [|y l].
           ++ rewrite (hasnext_nil _ Hok2 Hl). destruct T as (P & _). rewrite Hl in P.
              destruct g; [|done]. by rewrite sapp_nil_r.
           ++ rewrite (hasnext_cons _ _ _ Hok2 Hl). destruct g as [|v g]; [by destruct N; rewrite ?Hl|].
              rewrite (group_text_cons vals) by done. by rewrite !sapp_assoc.
        -- intros [|v g1] r' g2 [= -> Hg] Hne; [done|].
           destruct g1 as [|w g1]; [by rewrite <- Hwp|].
           rewrite Hwp in B. by eapply (B (w :: g1)).
      * rewrite Hpost. by destruct Ht as (_ & _ & _ & -> & _).
Qed.

(** *** Statements *)

Lemma AddFileSize_add w a b : AddFileSize (AddFileSize w a) b = AddFileSize w (a + b).
Proof. unfold AddFileSize, u64. cbn. rewrite !Zplus_mod_idemp_l. f_equal; f_equal; lia. Qed.

(** The pipe counts the bytes of the text. *)
Lemma wp_after_text w g : g <> [] -> wp_after w g = AddFileSize w (slen (group_text g)).
Proof.
  intros Hg. revert w. induction g as [|v g IH]; intros w; [done|]. cbn [wp_after foldl].
  change (foldl _ ?x g) with (wp_after x g). destruct g as [|v' g].
  - unfold group_text. cbn. by rewrite slen_app.
  - rewrite IH, (group_text_cons v), AddFileSize_add, !slen_app by done. f_equal.
    change (slen comma_nl) with 2. lia.
Qed.

(** The counters of the pipe against the text of the file. *)
Definition sized (st : wstate) : Prop :=
  currentFileSize (wp st) = u64 (slen (text_of st)) /\
  fileSizeLimit (wp st) = FileSize conf.

(** [n] bytes are below a limit, when there is one. *)
Definition below (n limit : Z) : Prop := limit <> UnspecifiedSize -> n < 2 ^ 64 -> n < limit.

Lemma limit_below n limit :
  0 <= n -> negb (limit =? UnspecifiedSize) && (limit <=? u64 n) = false -> below n limit.
Proof.
  intros Hn Hb Hl Hs. rewrite u64_small in Hb by (unfold is_u64; lia). cbn in Hl.
  apply andb_false_iff in Hb as [Hb|Hb]; lia.
Qed.

(** A statement has rows, and without its last row it is below the limit. *)
Definition statement_ok (g : list (list (option string))) : Prop :=
  g <> [] /\
  forall g1 r g2, g = g1 ++ r :: g2 -> g1 <> [] -> below (slen (statement_text g1)) (StatementSize conf).

(** [pre]: the statements [gs] cut after a row that is not the last one. *)
Definition earlier (pre gs : list (list (list (option string)))) : Prop :=
  exists gs1 g1 g' gs2, pre = gs1 ++ [g1] /\ gs = gs1 ++ (g1 ++ g') :: gs2 /\ g1 <> [] /\
                        (g' <> [] \/ gs2 <> []).

Definition file_bounded (head : string) (text : list (list (list (option string))) -> string)
    (gs : list (list (list (option string)))) : Prop :=
  forall pre, earlier pre gs -> below (slen (head +:+ text pre)) (FileSize conf).

Definition statements_text (gs : list (list (list (option string)))) : string :=
  sconcat (map statement_text gs).

Definition statements_post (st st' : wstate) (gs : list (list (list (option string)))) : Prop :=
  takes st st' (concat gs) /\ text_of st' = text_of st +:+ statements_text gs /\
  Forall statement_ok gs /\ file_bounded (text_of st) statements_text gs /\
  (pending (iter st') = [] \/ ShouldSwitchFile (wp st') = true) /\
  (pending (iter st) <> [] -> gs <> []) /\ sized st'.

Lemma switch_below w text :
  currentFileSize w = u64 (slen text) -> fileSizeLimit w = FileSize conf ->
  ShouldSwitchFile w = false -> below (slen text) (FileSize conf).
Proof.
  intros E1 E2. unfold ShouldSwitchFile. rewrite E1, E2. apply limit_below, slen_nonneg.
Qed.

(** A cut of the statements [g :: gs] is a cut of the first one, all of the
    first one, or the first one and a cut of the others. *)
Lemma earlier_cons pre g gs :
  earlier pre (g :: gs) ->
  (exists g1 r g2, pre = [g1] /\ g = g1 ++ r :: g2 /\ g1 <> []) \/
  (pre = [g] /\ gs <> []) \/ (exists pre', pre = g :: pre' /\ earlier pre' gs).
Proof.
  intros ([|g0 gs1] & g1 & g' & gs2 & -> & E & Hne & Hor); cbn in E; injection E as -> ->.
  - destruct g' as [|r g2].
    + right. left. rewrite app_nil_r. split; [done|]. by destruct Hor.
    + left. by exists g1, r, g2.
  - right. right. exists (gs1 ++ [g1]). split; [done|]. by exists gs1, g1, g', gs2.
Qed.

(** One statement: the state after its prefix and rows [g]. *)
Lemma one_statement st st1 st2 g :
  sized st -> statementSizeLimit (wp st) = StatementSize conf ->
  wp st1 = AddFileSize (start_statement (wp st)) (slen insertStatementPrefix) ->
  text_of st1 = text_of st +:+ insertStatementPrefix ->
  rows_post st1 st2 g -> g <> [] ->
  text_of st2 = text_of st +:+ statement_text g /\ sized st2 /\
  statementSizeLimit (wp st2) = StatementSize conf /\ statement_ok g /\
  (forall g1 r g2, g = g1 ++ r :: g2 -> g1 <> [] ->
     below (slen (text_of st +:+ statement_text g1)) (FileSize conf)).
Proof.
  intros [Hs1 Hs2] Hl Hw Ht (T & W & X & E & N & B) Hne.
  assert (forall g1, g1 <> [] ->
    wp_after (wp st1) g1 = mkPipe (u64 (slen (text_of st +:+ statement_text g1)))
      (u64 (slen (statement_text g1))) (FileSize conf) (StatementSize conf)) as Hafter.
  { intros g1 H1'. rewrite wp_after_text, Hw, AddFileSize_add by done. unfold AddFileSize, start_statement.
    cbn. rewrite Hs1, Hs2, Hl. unfold statement_text. rewrite !slen_app. unfold u64.
    rewrite Zplus_mod_idemp_l. done. }
  rewrite Hafter in W by done.
  assert (text_of st2 = text_of st +:+ statement_text g) as Htext.
  { rewrite X, Ht. unfold statement_text. destruct g; [done|]. by rewrite sapp_assoc. }
  split; [done|]. unfold sized, statement_ok. rewrite W, Htext. cbn.
  assert (forall g1 r g2, g = g1 ++ r :: g2 -> g1 <> [] ->
     below (slen (text_of st +:+ statement_text g1)) (FileSize conf) /\
     below (slen (statement_text g1)) (StatementSize conf)) as Hb.
  { intros g1 r g2 Hg Hg1. specialize (B _ _ _ Hg Hg1). rewrite Hafter in B by done.
    unfold ShouldSwitchStatement in B. cbn in B. apply orb_false_iff in B as [B1 B2].
    split; [eapply limit_below, B1|eapply limit_below, B2]; apply slen_nonneg. }
  split_and!; try done; intros; by eapply Hb.
Qed.

Lemma insert_statements_spec fuel : forall st,
  state_ok st -> (length (pending (iter st)) < fuel)%nat -> is_u64 (counter st) ->
  sized st -> statementSizeLimit (wp st) = StatementSize conf ->
  exists f, insert_statements fuel st = Some f /\
    match f with
    | Return n e st' => gauge_base st' = gauge_base st
    | Continue st' => exists gs, statements_post st st' gs
    end.
Proof.
  induction fuel as [|fuel IH]; intros st Hok Hf Hu Hsz Hlim; [lia|]. cbn [insert_statements].
  destruct (pending (iter st)) as [|x l] eqn:Hp.
  { rewrite (hasnext_nil _ Hok Hp). eexists. split; [done|]. exists []. unfold statements_post.
    split_and!; try done; [by apply takes_nil|by rewrite sapp_nil_r| |by left].
    intros ? (gs1 & ? & ? & ? & _ & E & _). by destruct gs1. }
  rewrite (hasnext_cons _ _ _ Hok Hp).
  set (st1 := mkState (iter st) (row st) (bf st +:+ insertStatementPrefix) (sent st) _ _ _ _).
  destruct (insert_rows_spec (S fuel) st1) as (f & -> & Hpost); [done|by rewrite <- Hp in Hf|done|].
  cbn [mbind option_bind]. destruct f as [st2|n e st2]; [|eexists; split; [done|exact Hpost]].
  destruct Hpost as (g & Hg). pose proof Hg as (T & _ & _ & E & N & _).
  assert (g <> []) as Hne by (apply N; cbn; by rewrite Hp).
  assert (Ht1 : text_of st1 = text_of st +:+ insertStatementPrefix)
    by (unfold text_of; cbn; by rewrite sapp_assoc).
  destruct (one_statement st st1 st2 g Hsz Hlim eq_refl Ht1 Hg Hne) as (X & Hsz2 & Hlim2 & Hsok & Hfb).
  assert (takes st st2 g) as T' by exact T.
  destruct (ShouldSwitchFile (wp st2)) eqn:Hsw.
  - eexists. split; [done|]. exists [g]. unfold statements_post, statements_text. cbn.
    rewrite app_nil_r, sapp_nil_r. split_and!; try done; [by constructor| |by right].
    intros pre [(g1 & r & g2 & -> & -> & H1')|[[_ Hbad]|(pre' & _ & gs1 & ? & ? & ? & _ & Hbad & _)]]%earlier_cons;
      [|done|by destruct gs1]. cbn. rewrite sapp_nil_r. by eapply Hfb.
  - pose proof T' as (P & _ & C & G & Hok2).
    destruct (IH st2) as (f & Hf2 & Hpost); try done.
    { rewrite P, length_app, length_map in Hf || rewrite Hp in P.
      assert (length (x :: l) = length g + length (pending (iter st2)))%nat as Hlen
        by (by rewrite P, length_app, length_map).
      destruct g; [done|]. cbn in Hf, Hlen. lia. }
    { rewrite C. apply u64_range. }
    exists f. split; [done|]. destruct f as [st3|n e st3]; [|by rewrite Hpost].
    destruct Hpost as (gs & T3 & X3 & F3 & B3 & E3 & N3 & S3). exists (g :: gs).
    unfold statements_post, statements_text. cbn. split_and!; try done.
    + by eapply takes_app.
    + by rewrite X3, X, sapp_assoc.
    + by constructor.
    + intros pre [(g1 & r & g2 & -> & -> & H1')|[[-> _]|(pre' & -> & Hcut)]]%earlier_cons; cbn.
      * rewrite sapp_nil_r. by eapply Hfb.
      * rewrite sapp_nil_r, <- X. destruct Hsz2. by eapply switch_below.
      * rewrite <- sapp_assoc, <- X. by apply B3.
Qed.

(** *** Rows of CSV *)

(** The line of a row. *)
Definition csv_text (vals : list (option string)) : string :=
  (if negb (String.eqb (selectedField meta) EmptyString)
   then row_WriteToBufferInCsv (mkRow true (zip receivers vals)) (EscapeBackslash conf) csv_opt
   else EmptyString) +:+ lineTerminator csv_opt.

Definition lines_text (g : list (list (option string))) : string := sconcat (map csv_text g).

Definition lines_bounded (head : string) (g : list (list (option string))) : Prop :=
  forall g1 r g2, g = g1 ++ r :: g2 -> g1 <> [] -> below (slen (head +:+ lines_text g1)) (FileSize conf).

Definition lines_post (st st' : wstate) (g : list (list (option string))) : Prop :=
  takes st st' g /\ text_of st' = text_of st +:+ lines_text g /\
  lines_bounded (text_of st) g /\
  (pending (iter st') = [] \/ ShouldSwitchFile (wp st') = true) /\
  (pending (iter st) <> [] -> g <> []) /\ sized st'.

Lemma csv_row_ok st vals l :
  state_ok st -> pending (iter st) = Ok vals :: l ->
  exists r, csv_row st = Ok (r, csv_text vals) /\ map fst (cells r) = receivers.
Proof.
  intros (Hi & Hw & Hr) Hp. unfold csv_row, csv_text.
  rewrite (decode_head _ _ _ Hi Hp). rewrite Hp in Hw. apply Forall_cons in Hw as [Hv _].
  destruct (String.eqb (selectedField meta) EmptyString) eqn:Hs; cbn [negb].
  - by exists (row st).
  - apply String.eqb_neq in Hs. destruct (Hv Hs). rewrite decode_row_ok by done. cbn [mbind result_bind]. eexists. split; [reflexivity|].
    cbn [cells]. by apply map_fst_zip_eq.
Qed.

Lemma csv_rows_spec fuel : forall st,
  state_ok st -> (length (pending (iter st)) < fuel)%nat -> is_u64 (counter st) -> sized st ->
  exists f, csv_rows fuel st = Some f /\
    match f with
    | Return n e st' => gauge_base st' = gauge_base st
    | Continue st' => exists g, lines_post st st' g
    end.
Proof.
  induction fuel as [|fuel IH]; intros st Hok Hf Hu Hsz; [lia|]. cbn [csv_rows].
  destruct (pending (iter st)) as [|x l] eqn:Hp.
  { rewrite (hasnext_nil _ Hok Hp). eexists. split; [done|]. exists []. unfold lines_post, lines_text.
    split_and!; try done; [by apply takes_nil|by rewrite sapp_nil_r| |by left].
    by intros []. }
  rewrite (hasnext_cons _ _ _ Hok Hp). destruct x as [vals|e].
  2: { unfold csv_row. pose proof Hok as (Hi & Hw & _). rewrite (decode_head _ _ _ Hi Hp).
       rewrite Hp in Hw. apply Forall_cons in Hw as [Hsel _]. cbn in Hsel.
       apply String.eqb_neq in Hsel. rewrite Hsel. cbn. eexists. by split. }
  destruct (csv_row_ok _ _ _ Hok Hp) as (r & -> & Hr).
  set (st1 := mkState (iter st) r _ (sent st) _ _ (lastCounter st) (rowsGauge st)).
  pose proof (flush_spec st1) as Hfl.
  destruct (flush st1) as [st2|n e st2]; [|eexists; split; [done|exact Hfl]].
  destruct Hfl as (F1 & F2 & F3 & F4 & F5 & F6).
  set (st3 := mkState (Next (iter st2)) (row st2) (bf st2) (sent st2) (wp st2) (counter st2)
                (lastCounter st2) (rowsGauge st2)).
  assert (takes st st3 [vals]) as Ht.
  { apply (takes_one st st3 st3 r vals l); try done; cbn; by rewrite ?F1, ?F4. }
  assert (text_of st3 = text_of st +:+ csv_text vals) as Htext.
  { change (text_of st3) with (text_of st2). rewrite F5. unfold text_of. cbn. by rewrite sapp_assoc. }
  assert (sized st3) as Hsz3.
  { destruct Hsz as [S1 S2]. unfold sized. rewrite Htext. cbn [wp st3]. rewrite F3. cbn.
    rewrite S1, slen_app. unfold u64. by rewrite Zplus_mod_idemp_l. }
  destruct (ShouldSwitchFile (wp st3)) eqn:Hsw.
  - eexists. split; [done|]. exists [vals]. unfold lines_post, lines_text. cbn [map sconcat].
    rewrite sapp_nil_r. split_and!; try done; [|by right]. intros [|? [|]] ? ? [=] Hne; done.
  - pose proof Ht as (P & _ & C & G & Hok3).
    destruct (IH st3) as (f & Hf3 & Hpost); try done.
    { rewrite Hp in P. cbn in P. injection P as P. cbn in Hf |- *. rewrite <- P. lia. }
    { rewrite C. apply u64_range. }
    exists f. split; [done|]. destruct f as [st4|n e st4]; [|by rewrite Hpost].
    destruct Hpost as (g & T & X & B & E & N & S). exists (vals :: g).
    unfold lines_post, lines_text. cbn [map sconcat]. split_and!; try done.
    + change (vals :: g) with ([vals] ++ g). by eapply takes_app.
    + by rewrite X, Htext, sapp_assoc.
    + intros [|v g1] r' g2 [= <- ->] Hne; [done|]. unfold lines_text. cbn [map sconcat].
      rewrite <- sapp_assoc, <- Htext. destruct g1 as [|w g1].
      * cbn [map sconcat]. rewrite sapp_nil_r. destruct Hsz3. by eapply switch_below.
      * by apply (B _ r' g2).
Qed.

(** *** The end of a file *)

Lemma pipe_Run_all input : forall k file n,
  pipe_Run write_err k input = (file, n, None) -> file = input.
Proof.
  induction input as [|s input IH]; intros k file n; cbn; [by intros [=]|].
  destruct (write_err k); [done|]. destruct (pipe_Run write_err (S k) input) as [[f m] e] eqn:E.
  intros [= <- _ ->]. by rewrite (IH _ _ _ E).
Qed.

(** What a file holds when the writer reports no error. *)
Lemma finish_ok st :
  is_u64 (counter st) -> gauge_base st = 0 ->
  let w := finish (Continue st) in
  w_n w = counter st /\ w_iter w = iter st /\
  w_rows w = (match w_err w with None => w_n w | Some _ => 0 end) /\
  (w_err w = None -> sconcat (w_file w) = text_of st /\
     (exists size, pipe_Run write_err 0 (w_sent w) = (w_file w, size, None)) /\ IterError (iter st) = None).
Proof.
  intros Hu Hg. unfold finish, gauge_base in *.
  set (s' := if 0 <? slen (bf st) then sent st ++ [bf st] else sent st).
  assert (sconcat s' = text_of st) as Hs.
  { unfold s', text_of. destruct (0 <? slen (bf st)) eqn:E.
    - rewrite sconcat_app. cbn. by rewrite sapp_nil_r.
    - assert (bf st = EmptyString) as -> by (apply slen_zero; pose proof (slen_nonneg (bf st)); lia).
      by rewrite sapp_nil_r. }
  destruct (pipe_Run write_err 0 s') as [[file n] e] eqn:E. cbn.
  split_and!; try done.
  - destruct (IterError (iter st)); [lia|]. destruct e; lia.
  - destruct (IterError (iter st)) eqn:Ei; [done|]. intros ->.
    pose proof (pipe_Run_all _ _ _ _ E) as ->. split_and!; eauto.
Qed.

Lemma finish_return n e st : gauge_base st = 0 -> w_rows (finish (Return n e st)) = 0 /\ w_err (finish (Return n e st)) = Some e.
Proof. unfold finish, gauge_base. destruct (pipe_Run _ _ _) as [[? ?] ?]. cbn. split; [lia|done]. Qed.

(** ** The contract of the two writers *)

(** The rows [rows] were taken off [it], the file holds [text], and either
    the rows are at their end, without an error, or the file is full. *)
Record file_ok (it : I) (rows : list (list (option string))) (text : string) (w : written) : Prop := {
  fo_rows : pending it = map Ok rows ++ pending (w_iter w);
  fo_count : w_n w = u64 (Z.of_nat (length rows));
  fo_text : sconcat (w_file w) = text;
  fo_iter : iter_ok (w_iter w) /\ Forall width_ok (pending (w_iter w)) /\ final_error (w_iter w) = final_error it;
  fo_sent : exists size, pipe_Run write_err 0 (w_sent w) = (w_file w, size, None);
  fo_none : rows = [] -> pending it = [] /\ w_sent w = [];
  fo_end : (pending (w_iter w) = [] /\ final_error it = None) \/
           (FileSize conf <> UnspecifiedSize /\ FileSize conf <= u64 (slen text))
}.

(** The metric of finished rows counts the rows of complete files only. *)
Definition gauge_ok (w : written) : Prop := w_rows w = (match w_err w with None => w_n w | Some _ => 0 end).

Lemma start_ok it :
  iter_ok it -> Forall width_ok (pending it) ->
  forall head w, state_ok (mkState it (MakeRowReceiver (ColumnTypes meta) (conf_Dialect conf)) head [] w 0 0 0).
Proof. intros Hi Hw head w. by unfold state_ok. Qed.

Lemma start_sized it r head limit :
  sized (mkState it r head [] (add_current (newWriterPipe (FileSize conf) limit) (slen head)) 0 0 0).
Proof. unfold sized, text_of. cbn. done. Qed.

Lemma close_file it st rows text :
  takes (mkState it (MakeRowReceiver (ColumnTypes meta) (conf_Dialect conf)) EmptyString [] (newWriterPipe 0 0) 0 0 0) st rows ->
  text_of st = text -> sized st ->
  (pending (iter st) = [] \/ ShouldSwitchFile (wp st) = true) -> rows <> [] ->
  let w := finish (Continue st) in
  gauge_ok w /\ (w_err w = None -> file_ok it rows text w).
Proof.
  intros (P & E & C & G & Hi & Hw & _) Ht [S1 S2] Hend Hprog. cbn in P, E, C, G.
  destruct (finish_ok st) as (A1 & A2 & A3 & A4); [rewrite C; apply u64_range|done|]. cbv zeta in *.
  cbv zeta. set (w := finish (Continue st)) in *.
  split; [exact A3|]. intros He. destruct (A4 He) as (Hfile & Hsent & Herr). split.
  - rewrite A2. exact P.
  - by rewrite A1, C.
  - by rewrite Hfile.
  - by rewrite A2.
  - exact Hsent.
  - done.
  - rewrite A2. destruct Hend as [Hnil|Hsw]; [left|right].
    + split; [done|]. by rewrite <- E, <- (error_end _ Hi Hnil).
    + unfold ShouldSwitchFile in Hsw. rewrite S1, S2, Ht in Hsw. cbn. lia.
Qed.

Lemma no_rows it :
  iter_ok it -> Forall width_ok (pending it) -> HasNext it = false ->
  let w := mkWritten 0 (IterError it) [] [] it 0 in
  gauge_ok w /\ (w_err w = None -> file_ok it [] EmptyString w).
Proof.
  intros Hi Hw Hn. rewrite hasnext_pending in Hn by done.
  destruct (pending it) eqn:E; [|done]. cbn. split; [by unfold gauge_ok; cbn; destruct (IterError it)|].
  rewrite error_end by done. intros He. split; cbn; rewrite ?E; try done; [eauto|by left].
Qed.

(** The text of a SQL file with the statements [gs], and of a CSV file. *)
Definition insert_file (gs : list (list (list (option string)))) : string :=
  match gs with [] => EmptyString | _ => preamble_text +:+ statements_text gs end.

Definition csv_file (rows : list (list (option string))) : string :=
  match rows with [] => EmptyString | _ => header_text +:+ lines_text rows end.

(** What a file of format [f] with the rows [rows] holds. *)
Definition content (f : FileFormat) (rows : list (list (option string))) (text : string) : Prop :=
  match f with
  | FileFormatSQLText =>
      exists gs, rows = concat gs /\ text = insert_file gs /\ Forall statement_ok gs /\
                 file_bounded preamble_text statements_text gs
  | FileFormatCSV => text = csv_file rows /\ lines_bounded header_text rows
  | FileFormatUnknown => False
  end.

(** [FileFormat.WriteInsert] dispatches on the format.
    src/export/writer_util.go:648-664 FileFormat.WriteInsert *)
Definition format_WriteInsert (f : FileFormat) (fuel : nat) (it : I) : option written :=
  match f with
  | FileFormatSQLText => WriteInsert fuel it
  | FileFormatCSV => WriteInsertInCsv fuel it
  | FileFormatUnknown => Some (mkWritten 0 (Some (EErrorf "unknown file format" [])) [] [] it 0)
  end.

Definition writes (f : FileFormat) (it : I) (w : written) : Prop :=
  gauge_ok w /\ (w_err w = None -> exists rows text, file_ok it rows text w /\ content f rows text).

Lemma error_writes f it st n e : gauge_base st = 0 -> writes f it (finish (Return n e st)).
Proof.
  intros Hg. destruct (finish_return n e st Hg) as [H1' H2']. split; [|by rewrite H2'].
  unfold gauge_ok. by rewrite H2'.
Qed.

Lemma WriteInsert_spec fuel it :
  iter_ok it -> Forall width_ok (pending it) -> (length (pending it) < fuel)%nat ->
  exists w, WriteInsert fuel it = Some w /\ writes FileFormatSQLText it w.
Proof.
  intros Hi Hw Hf. unfold WriteInsert. destruct (HasNext it) eqn:Hn; cbn [negb].
  2: { eexists. split; [done|]. destruct (no_rows it Hi Hw Hn) as [Hg Hok]. split; [done|].
       intros He. exists [], EmptyString. split; [by apply Hok|]. exists []. split_and!; try done.
       intros ? (gs1 & ? & ? & ? & _ & E & _). by destruct gs1. }
  set (st := insert_start it).
  destruct (insert_statements_spec fuel st) as (f & -> & Hpost); try done.
  cbn [mbind option_bind]. eexists. split; [done|].
  destruct f as [st'|n e st']; [|by apply error_writes].
  destruct Hpost as (gs & T & X & F & B & E & N & S).
  assert (gs <> []) as Hgs by (apply N; cbn; rewrite hasnext_pending in Hn by done; by destruct (pending it)).
  destruct (close_file it st' (concat gs) (text_of st')) as [Hg Hok]; try done.
  { destruct gs as [|g gs]; [done|]. apply Forall_cons in F as [[Hg _] _]. by destruct g. }
  split; [done|]. intros He. exists (concat gs), (text_of st'). split; [by apply Hok|].
  exists gs. split_and!; try done. rewrite X. by destruct gs.
Qed.

Lemma WriteInsertInCsv_spec fuel it :
  iter_ok it -> Forall width_ok (pending it) -> (length (pending it) < fuel)%nat ->
  exists w, WriteInsertInCsv fuel it = Some w /\ writes FileFormatCSV it w.
Proof.
  intros Hi Hw Hf. unfold WriteInsertInCsv. destruct (HasNext it) eqn:Hn; cbn [negb].
  2: { eexists. split; [done|]. destruct (no_rows it Hi Hw Hn) as [Hg Hok]. split; [done|].
       intros He. exists [], EmptyString. split; [by apply Hok|]. split; [done|]. by intros []. }
  set (st := csv_start it).
  destruct (csv_rows_spec fuel st) as (f & -> & Hpost); try done.
  cbn [mbind option_bind]. eexists. split; [done|].
  destruct f as [st'|n e st']; [|by apply error_writes].
  destruct Hpost as (g & T & X & B & E & N & S).
  assert (g <> []) as Hne by (apply N; cbn; rewrite hasnext_pending in Hn by done; by destruct (pending it)).
  destruct (close_file it st' g (text_of st')) as [Hg Hok]; try done.
  split; [done|]. intros He. exists g, (text_of st'). split; [by apply Hok|].
  split; [|done]. rewrite X. by destruct g.
Qed.

Lemma format_spec f fuel it :
  iter_ok it -> Forall width_ok (pending it) -> (length (pending it) < fuel)%nat ->
  exists w, format_WriteInsert f fuel it = Some w /\ writes f it w.
Proof.
  intros Hi Hw Hf. destruct f; cbn.
  - eexists. split; [done|]. split; [done|]. done.
  - by apply WriteInsert_spec.
  - by apply WriteInsertInCsv_spec.
Qed.
End Writer.
