(* ===== verification/Pipe.v ===== *)
(** * The pipe to a file (export/writer_util.go)

    The formatter of [WriteInsert] and the goroutine [writerPipe.Run] side by
    side, as a step relation: a channel of eight buffers, the channel of the
    error, cancellation.  [Writer] runs the goroutine after the formatter;
    the theorem here is that every interleaving comes to its end and leaves
    what [Writer] says for some outcome of its selects. *)

From S2P Require Import Prelude GoStrings Dialect FilterMatcher FilterParser Filter FileNames.
From S2P Require Import SqlTypes Conn Tables Config Ir Writer.

Section Pipe.
(** what the file does to the [k]-th write, the error of the formatter's
    context when that is done *)
Variable write_err : nat -> option error.
Variable ctx_err : option error.

(** How the formatter ends: the rest of its buffer and the iterator's error,
    or an early return. *)
Inductive ending := Finish (tail : string) (iter_err : option error) | Fail (e : error).

(** The formatter: before a send, before it closes the channel, before the
    goroutine has ended, in its deferred steps, returned. *)
Inductive phase :=
  | Sending (todo : list string)
  | Closing
  | Waiting
  | Leaving (err : option error)
  | Returned (err : option error).

(** The goroutine: in its select, with a buffer it writes, ended. *)
Inductive runner := Selecting (errOccurs : bool) | Writing (s : string) | Stopped.

(** src/export/writer_util.go:29-44 writerPipe *)
Record pipe_state := mkPipeState {
  formatter : phase;
  input : list string;
  input_closed : bool;
  run : runner;
  errCh : option error;
  cancelled : bool;
  taken : list string;
  file : list string;
  finishedFileSize : Z
}.

(** src/export/writer_util.go:54-54 newWriterPipe *)
Definition pipe_capacity : nat := 8.

Definition to_formatter (p : pipe_state) (f : phase) : pipe_state :=
  mkPipeState f (input p) (input_closed p) (run p) (errCh p) (cancelled p) (taken p) (file p) (finishedFileSize p).

Definition push (p : pipe_state) (s : string) (f : phase) : pipe_state :=
  mkPipeState f (input p ++ [s]) (input_closed p) (run p) (errCh p) (cancelled p) (taken p) (file p)
    (finishedFileSize p).

(** Leaving runs the deferred [cancel]. *)
Definition depart (p : pipe_state) (errs : option error) (e : option error) : pipe_state :=
  mkPipeState (Leaving e) (input p) (input_closed p) (run p) errs true (taken p) (file p) (finishedFileSize p).

(** src/export/writer_util.go:105-112 writerPipe.Error *)
Definition pipe_Error (p : pipe_state) : option error := errCh p.

Variable fin : ending.

(** The formatter's steps; the select offers each send, the error of the pipe
    and the context.
    src/export/writer_util.go:253-288 WriteInsert *)
Inductive formatter_step : pipe_state -> pipe_state -> Prop :=
  | f_send p s todo :
      formatter p = Sending (s :: todo) -> (length (input p) < pipe_capacity)%nat ->
      formatter_step p (push p s (Sending todo))
  | f_done p s todo e :
      formatter p = Sending (s :: todo) -> ctx_err = Some e ->
      formatter_step p (depart p (errCh p) (Some e))
  | f_error p s todo e :
      formatter p = Sending (s :: todo) -> errCh p = Some e ->
      formatter_step p (depart p None (Some e))
  | f_fail p e :
      formatter p = Sending [] -> fin = Fail e ->
      formatter_step p (depart p (errCh p) (Some e))
  | f_tail p tail ie :
      formatter p = Sending [] -> fin = Finish tail ie -> 0 < slen tail ->
      (length (input p) < pipe_capacity)%nat ->
      formatter_step p (push p tail Closing)
  | f_no_tail p tail ie :
      formatter p = Sending [] -> fin = Finish tail ie -> slen tail <= 0 ->
      formatter_step p (to_formatter p Closing)
  | f_close p :
      formatter p = Closing ->
      formatter_step p (mkPipeState Waiting (input p) true (run p) (errCh p) (cancelled p) (taken p) (file p)
                          (finishedFileSize p))
  | f_closed p tail ie :
      formatter p = Waiting -> fin = Finish tail ie -> run p = Stopped ->
      formatter_step p (depart p None (match ie with Some e => Some e | None => pipe_Error p end))
  | f_return p e :
      formatter p = Leaving e -> run p = Stopped ->
      formatter_step p (to_formatter p (Returned e)).

Definition set_run (p : pipe_state) (r : runner) : pipe_state :=
  mkPipeState (formatter p) (input p) (input_closed p) r (errCh p) (cancelled p) (taken p) (file p)
    (finishedFileSize p).

(** The goroutine's steps.
    src/export/writer_util.go:68-98 writerPipe.Run *)
Inductive run_step : pipe_state -> pipe_state -> Prop :=
  | r_take p s rest :
      run p = Selecting false -> input p = s :: rest ->
      run_step p (mkPipeState (formatter p) rest (input_closed p) (Writing s) (errCh p) (cancelled p)
                    (taken p ++ [s]) (file p) (finishedFileSize p))
  | r_drop p s rest :
      run p = Selecting true -> input p = s :: rest ->
      run_step p (mkPipeState (formatter p) rest (input_closed p) (Selecting true) (errCh p) (cancelled p)
                    (taken p ++ [s]) (file p) (finishedFileSize p))
  | r_written p s :
      run p = Writing s -> write_err (length (file p)) = None ->
      run_step p (mkPipeState (formatter p) (input p) (input_closed p) (Selecting false) (errCh p) (cancelled p)
                    (taken p) (file p ++ [s]) (finishedFileSize p + slen s))
  | r_failed p s e :
      run p = Writing s -> write_err (length (file p)) = Some e ->
      run_step p (mkPipeState (formatter p) (input p) (input_closed p) (Selecting true) (Some e) (cancelled p)
                    (taken p) (file p) (finishedFileSize p + slen s))
  | r_closed p b :
      run p = Selecting b -> input p = [] -> input_closed p = true -> run_step p (set_run p Stopped)
  | r_done p b :
      run p = Selecting b -> cancelled p = true -> run_step p (set_run p Stopped).

Definition pipe_step (p p' : pipe_state) : Prop := formatter_step p p' \/ run_step p p'.

Definition pipe_start (chunks : list string) : pipe_state :=
  mkPipeState (Sending chunks) [] false (Selecting false) None false [] [] 0.

(** ** What holds along a run *)

Variable chunks : list string.

Definition tail_of : list string :=
  match fin with Finish t _ => if 0 <? slen t then [t] else [] | Fail _ => [] end.

Definition held (r : runner) : list string := match r with Writing s => [s] | _ => [] end.

Definition failed (err : option error) : bool := match err with Some _ => true | None => false end.

(** The goroutine has handled [seen], with the error [err]. *)
Record handled (p : pipe_state) (seen : list string) (err : option error) : Prop := {
  hd_taken : taken p = seen ++ held (run p);
  hd_run : pipe_Run write_err 0 seen = (file p, finishedFileSize p, err);
  hd_flag : forall b, run p = Selecting b -> b = failed err;
  hd_writing : forall s, run p = Writing s -> err = None
}.

(** The outcome [e] of the formatter: it sent everything and waited, or it
    stopped before the end with an error. *)
Inductive outcome (p : pipe_state) (e : option error) : Prop :=
  | o_complete tail ie sz err :
      fin = Finish tail ie -> taken p = chunks ++ tail_of ->
      pipe_Run write_err 0 (taken p) = (file p, sz, err) -> run p = Stopped ->
      e = (match ie with Some x => Some x | None => err end) -> outcome p e
  | o_cut k x :
      taken p ++ input p = firstn k chunks -> e = Some x ->
      (k < length chunks)%nat \/ (k = length chunks /\ fin = Fail x) -> outcome p e.

Definition live (p : pipe_state) : Prop := cancelled p = false /\ input_closed p = false /\ run p <> Stopped.

Definition phase_inv (p : pipe_state) (err : option error) : Prop :=
  match formatter p with
  | Sending todo => chunks = taken p ++ input p ++ todo /\ live p /\ errCh p = err
  | Closing =>
      chunks ++ tail_of = taken p ++ input p /\ live p /\ errCh p = err /\ exists t ie, fin = Finish t ie
  | Waiting =>
      chunks ++ tail_of = taken p ++ input p /\ cancelled p = false /\ input_closed p = true /\
      (run p = Stopped -> input p = []) /\ errCh p = err /\ exists t ie, fin = Finish t ie
  | Leaving e => cancelled p = true /\ outcome p e
  | Returned e => run p = Stopped /\ outcome p e
  end.

Definition pipe_inv (p : pipe_state) : Prop :=
  exists seen err, handled p seen err /\ phase_inv p err.

Lemma pipe_Run_snoc l s : forall k,
  pipe_Run write_err k (l ++ [s]) =
  let '(f, n, err) := pipe_Run write_err k l in
  match err with
  | Some e => (f, n, Some e)
  | None =>
      match write_err (k + length f) with
      | Some e => (f, n + slen s, Some e)
      | None => (f ++ [s], n + slen s, None)
      end
  end.
Proof.
  induction l as [|x l IH]; intros k; cbn.
  - rewrite Nat.add_0_r. destruct (write_err k); f_equal; f_equal; lia.
  - destruct (write_err k); [done|]. rewrite IH. destruct (pipe_Run write_err (S k) l) as [[f n] [e|]]; [done|].
    cbn. rewrite Nat.add_succ_r. destruct (write_err (S (k + length f))); f_equal; f_equal; lia.
Qed.

(** The formatter does not touch what the goroutine has done. *)
Lemma handled_same p p' seen err :
  handled p seen err -> taken p' = taken p -> file p' = file p -> run p' = run p ->
  finishedFileSize p' = finishedFileSize p -> handled p' seen err.
Proof. intros [] E1 E2 E3 E4. split; rewrite ?E1, ?E2, ?E3, ?E4; done. Qed.

Lemma formatter_inv p p' : formatter_step p p' -> pipe_inv p -> pipe_inv p'.
Proof.
  intros Hs (seen & err & Hh & Hp). exists seen, err. unfold phase_inv in *.
  assert (Hcut : forall todo x errs, formatter p = Sending todo -> phase_inv p err ->
    todo <> [] \/ fin = Fail x -> outcome (depart p errs (Some x)) (Some x)).
  { unfold phase_inv. intros todo x errs -> (Hc & _) Hor. apply (o_cut _ _ (length (taken p ++ input p)) x); try done.
    - cbn. by rewrite Hc, app_assoc, take_app_length.
    - rewrite Hc, !length_app. destruct todo as [|s todo]; cbn; [right|left; lia].
      destruct Hor; [done|]. split; [lia|done]. }
  destruct Hs as [p s todo Hf Hlen|p s todo e Hf He|p s todo e Hf He|p e Hf He|p tail ie Hf He Ht Hlen
                 |p tail ie Hf He Ht|p Hf|p tail ie Hf He Hr|p e Hf Hr]; rewrite Hf in Hp;
    (split; [by eapply handled_same|]); cbn.
  - destruct Hp as (Hc & Hl & He). split_and!; [|done|done]. by rewrite Hc, <- !app_assoc.
  - split; [done|]. eapply (Hcut (s :: todo)); [done| |by left]. unfold phase_inv. by rewrite Hf.
  - split; [done|]. eapply (Hcut (s :: todo)); [done| |by left]. unfold phase_inv. by rewrite Hf.
  - split; [done|]. eapply (Hcut []); [done| |by right]. unfold phase_inv. by rewrite Hf.
  - destruct Hp as (Hc & Hl & He'). split_and!; [|done|done|by eexists _, _].
    unfold tail_of. rewrite He. apply Z.ltb_lt in Ht as ->. by rewrite Hc, app_nil_r, app_assoc.
  - destruct Hp as (Hc & Hl & He'). split_and!; [|done|done|by eexists _, _].
    unfold tail_of. rewrite He. apply Z.ltb_ge in Ht as ->. by rewrite Hc, !app_nil_r.
  - destruct Hp as (Hc & (Hl1 & Hl2 & Hl3) & He' & Hfin). by split_and!.
  - destruct Hp as (Hc & Hcan & Hcl & Hin & He' & _). split; [done|]. destruct Hh as [E1 E2 _ _].
    rewrite Hr in E1. cbn in E1. rewrite app_nil_r in E1. subst seen.
    eapply (o_complete _ _ tail ie (finishedFileSize p) err); try done.
    + cbn. by rewrite Hc, (Hin Hr), app_nil_r.
    + unfold pipe_Error. by rewrite He'.
  - destruct Hp as (_ & Ho). split; [done|]. destruct Ho as [tail ie sz er H1' H2' H3' H4' H5'|k x H1' H2' H3'].
    + by eapply o_complete.
    + by eapply o_cut.
Qed.

(** What the goroutine does before it has ended: buffers move from the channel
    to those it has taken, and the error goes where it belongs. *)
Lemma phase_moved p p' err err' :
  phase_inv p err -> run p <> Stopped -> formatter p' = formatter p ->
  taken p' ++ input p' = taken p ++ input p -> cancelled p' = cancelled p ->
  input_closed p' = input_closed p -> (errCh p = err -> errCh p' = err') ->
  (run p' = Stopped -> (input_closed p = true /\ input p' = []) \/ cancelled p = true) ->
  phase_inv p' err'.
Proof.
  intros Hp Hr Ef El Ec Ei Ee Hs. unfold phase_inv in *. rewrite Ef, Ec, ?Ei.
  assert (forall e, outcome p e -> outcome p' e) as Ho.
  { intros e [? ? ? ? _ _ _ ? _|k x H1' H2' H3']; [done|]. apply (o_cut _ _ k x); [by rewrite El|done|done]. }
  destruct (formatter p) as [todo| | |e|e].
  - destruct Hp as (Hc & (L1 & L2 & L3) & He). rewrite app_assoc, El, <- app_assoc. split_and!; [done| |auto].
    split_and!; [congruence..|]. intros [[? _]|?]%Hs; congruence.
  - destruct Hp as (Hc & (L1 & L2 & L3) & He & Hfin). rewrite El. split_and!; [done| |by auto|done].
    split_and!; [congruence..|]. intros [[? _]|?]%Hs; congruence.
  - destruct Hp as (Hc & L1 & L2 & L3 & He & Hfin). rewrite El. split_and!; try done; [|by auto].
    intros [[_ ?]|?]%Hs; [done|congruence].
  - destruct Hp as (? & ?). auto.
  - by destruct Hp.
Qed.

Lemma run_inv p p' : run_step p p' -> pipe_inv p -> pipe_inv p'.
Proof.
  intros Hs (seen & err & [E1 E2 E3 E4] & Hp).
  destruct Hs as [p s rest Hr Hin|p s rest Hr Hin|p s Hr Hw|p s e Hr Hw|p b Hr Hin Hcl|p b Hr Hcan];
    rewrite Hr in E1; cbn in E1; rewrite ?app_nil_r in E1.
  - exists seen, err. split.
    + split; cbn; [by rewrite E1|done|done|]. intros ? _. specialize (E3 _ Hr). by destruct err.
    + eapply phase_moved; [exact Hp|by rewrite Hr|done|cbn; by rewrite Hin, <- app_assoc|done|done|done|done].
  - exists (seen ++ [s]), err. split.
    + split; cbn; [by rewrite app_nil_r, E1| |by intros ? [= <-]; apply E3|done].
      rewrite pipe_Run_snoc, E2. specialize (E3 _ Hr). by destruct err.
    + eapply phase_moved; [exact Hp|by rewrite Hr|done|cbn; by rewrite Hin, <- app_assoc|done|done|done|done].
  - assert (err = None) as -> by (by eapply E4). exists (seen ++ [s]), None. split.
    + split; cbn; [by rewrite app_nil_r, E1| |by intros ? [= <-]|done].
      rewrite pipe_Run_snoc, E2, Nat.add_0_l, Hw. done.
    + eapply phase_moved; [exact Hp|by rewrite Hr|done..].
  - assert (err = None) as -> by (by eapply E4). exists (seen ++ [s]), (Some e). split.
    + split; cbn; [by rewrite app_nil_r, E1| |by intros ? [= <-]|done].
      rewrite pipe_Run_snoc, E2, Nat.add_0_l, Hw. done.
    + eapply phase_moved; [exact Hp|by rewrite Hr|done..].
  - exists seen, err. split; [split; cbn; by rewrite ?app_nil_r|].
    eapply phase_moved; [exact Hp|by rewrite Hr|done..|]. by left.
  - exists seen, err. split; [split; cbn; by rewrite ?app_nil_r|].
    eapply phase_moved; [exact Hp|by rewrite Hr|done..|]. by right.
Qed.

Lemma pipe_start_inv : pipe_inv (pipe_start chunks).
Proof. exists [], None. split; [split; [done|done|by intros ? [= <-]|done]|by split_and!]. Qed.

(** ** Progress *)

Definition phase_weight (f : phase) : nat :=
  match f with
  | Sending todo => 4 * length todo + 8
  | Closing => 4
  | Waiting => 3
  | Leaving _ => 1
  | Returned _ => 0
  end.

Definition run_weight (r : runner) : nat := match r with Selecting _ => 1 | Writing _ => 2 | Stopped => 0 end.

Definition pipe_weight (p : pipe_state) : nat :=
  phase_weight (formatter p) + 2 * length (input p) + run_weight (run p).

Lemma pipe_decreases p p' : pipe_step p p' -> (pipe_weight p' < pipe_weight p)%nat.
Proof.
  unfold pipe_weight. intros [Hs|Hs]; destruct Hs; cbn; repeat match goal with
    | E : formatter _ = _ |- _ => rewrite E; clear E
    | E : run _ = _ |- _ => rewrite E; clear E
    | E : input _ = _ |- _ => rewrite E; clear E
    end; cbn; rewrite ?length_app; cbn; try lia.
Qed.

Definition pipe_end (p : pipe_state) : Prop := exists e, formatter p = Returned e.

(** As long as the formatter has not returned, some step is possible: the
    goroutine takes from a full channel, after an error too. *)
Lemma pipe_progress p : pipe_inv p -> pipe_end p \/ exists p', pipe_step p p'.
Proof.
  intros (seen & err & Hh & Hp).
  assert (Hrun : run p <> Stopped -> input p <> [] \/ input_closed p = true \/ cancelled p = true ->
    exists p', pipe_step p p').
  { intros Hr Hor. destruct (run p) as [b|s|] eqn:Er; [| |done].
    - destruct (input p) as [|s rest] eqn:Ei.
      + destruct Hor as [?|[Hc|Hc]]; [done| |]; eexists; right; [by eapply r_closed|by eapply r_done].
      + destruct b; eexists; right; [by eapply r_drop|by eapply r_take].
    - destruct (write_err (length (file p))) eqn:Hw; eexists; right; [by eapply r_failed|by eapply r_written]. }
  unfold phase_inv in Hp. destruct (formatter p) as [todo| | |e|e] eqn:Hf; [right..|left; by eexists].
  - destruct Hp as (_ & (_ & _ & Hr) & _).
    destruct (decide (length (input p) < pipe_capacity)%nat) as [Hl|Hl].
    2: { apply Hrun; [done|]. left. intros E. rewrite E in Hl. cbn in Hl. unfold pipe_capacity in Hl. lia. }
    destruct todo as [|s todo]; [|eexists; left; by eapply f_send].
    destruct fin as [tail ie|x] eqn:Ef; [|eexists; left; by eapply f_fail].
    destruct (Z.ltb_spec 0 (slen tail)); eexists; left; [by eapply f_tail|by eapply f_no_tail].
  - eexists. left. by eapply f_close.
  - destruct Hp as (_ & _ & Hcl & _ & _ & (t & ie & Hfin)).
    destruct (run p) eqn:Hr; [apply Hrun; auto..|]. eexists. left. by eapply f_closed.
  - destruct Hp as (Hcan & _). destruct (run p) eqn:Hr; [apply Hrun; auto..|]. eexists. left. by eapply f_return.
Qed.

(** Every run comes to its end, with an outcome of the formatter that fits
    what the goroutine has taken and written. *)
Lemma pipe_ends :
  inevitably pipe_step (fun p => exists e sz err,
      formatter p = Returned e /\ outcome p e /\ pipe_Run write_err 0 (taken p) = (file p, sz, err))
    (pipe_start chunks).
Proof.
  apply (inevitably_measure _ _ pipe_inv pipe_weight).
  - intros x y Hx [Hs|Hs]; [by eapply formatter_inv|by eapply run_inv].
  - intros x y. apply pipe_decreases.
  - intros p Hp. destruct (pipe_progress p Hp) as [[e He]|]; [left|by right].
    destruct Hp as (seen & err & [E1 E2 _ _] & Hp). unfold phase_inv in Hp. rewrite He in Hp.
    destruct Hp as [Hr Ho]. rewrite Hr in E1. cbn in E1. rewrite app_nil_r in E1. subst seen.
    by eexists _, _, _.
  - apply pipe_start_inv.
Qed.
End Pipe.

(** ** The pipe and the writers *)

(** The selects with outcome [o] at the [k]-th send, which sent until then. *)
Definition cut (k : nat) (o : send_outcome) (n : nat) : send_outcome := if (n <? k)%nat then Sent else o.

Definition all_sent (n : nat) : send_outcome := Sent.

Section Refinement.
Context `{UnicodeLib} `{RegexpLib} {I : Type} `{RowIter I}.
Variable conf : Config.
Variable meta : tableMeta.
Variable argLen : nat.
Variable write_err : nat -> option error.
Variable ctx_err : option error.

Definition flow_state (f : flow (I := I)) : wstate := match f with Continue st => st | Return _ _ st => st end.

(** The buffers of the sends of a select. *)
Definition flow_sent (f : flow (I := I)) : list string := sent (flow_state f).

Definition flow_ending (f : flow (I := I)) : ending :=
  match f with Continue st => Finish (bf st) (IterError (iter st)) | Return _ e _ => Fail e end.

(** What the formatter does up to its end or early return. *)
Definition formatted (flushed : nat -> send_outcome) (f : FileFormat) (fuel : nat) (it : I) : option flow :=
  match f with
  | FileFormatSQLText => insert_statements conf meta flushed argLen fuel (insert_start conf meta it)
  | FileFormatCSV => csv_rows conf meta flushed argLen fuel (csv_start conf meta it)
  | FileFormatUnknown => None
  end.

Lemma format_formatted flushed drained f fuel it :
  HasNext it = true -> f <> FileFormatUnknown ->
  format_WriteInsert conf meta flushed write_err argLen drained f fuel it =
  (x ← formatted flushed f fuel it; Some (finish write_err drained x)).
Proof.
  intros Hn Hf. destruct f; [done|..]; cbn; unfold WriteInsert, WriteInsertInCsv; by rewrite Hn.
Qed.

Lemma formatted_total f fuel it :
  iter_ok it -> Forall (width_ok conf meta argLen) (pending it) -> (length (pending it) < fuel)%nat ->
  f <> FileFormatUnknown -> exists x, formatted all_sent f fuel it = Some x.
Proof.
  intros Hi Hw Hl Hf. destruct f; [done|..]; cbn [formatted].
  - destruct (insert_statements_spec conf meta all_sent argLen fuel (insert_start conf meta it)) as (x & -> & _);
      [by apply start_ok|done|done|apply start_sized|done|by exists x].
  - destruct (csv_rows_spec conf meta all_sent argLen fuel (csv_start conf meta it)) as (x & -> & _);
      [by apply start_ok|done|done|apply start_sized|by exists x].
Qed.

(** ** A select that does not send cuts the formatting short *)

Lemma flush_grows (st : wstate (I := I)) :
  exists st', flush all_sent st = Continue st' /\ sent st `prefix_of` sent st'.
Proof.
  unfold flush, all_sent. destruct (lengthLimit <=? slen (bf st)); eexists; (split; [done|]); [|done].
  by exists [bf st].
Qed.

Lemma insert_rows_grow fuel : forall st f,
  insert_rows conf meta all_sent argLen fuel st = Some f -> sent st `prefix_of` flow_sent f.
Proof.
  induction fuel as [|fuel IH]; intros st f; [done|]. cbn [insert_rows].
  destruct (HasNext (iter st)); [|by intros [= <-]].
  destruct (insert_row conf meta argLen st) as [[r text]|x]; [|by intros [= <-]].
  set (st1 := mkState _ r _ (sent st) _ _ _ _). destruct (flush_grows st1) as (st2 & -> & Hp).
  destruct (ShouldSwitchStatement _); [by intros [= <-]|]. intros Hrun. etrans; [exact Hp|]. by apply IH.
Qed.

Lemma insert_statements_grow fuel : forall st f,
  insert_statements conf meta all_sent argLen fuel st = Some f -> sent st `prefix_of` flow_sent f.
Proof.
  induction fuel as [|fuel IH]; intros st f; [done|]. cbn [insert_statements].
  destruct (HasNext (iter st)); [|by intros [= <-]]. cbv zeta.
  set (st1 := mkState _ _ _ (sent st) _ _ _ _).
  destruct (insert_rows conf meta all_sent argLen (S fuel) st1) as [f1|] eqn:E1; [|done].
  apply insert_rows_grow in E1. cbn [mbind option_bind]. destruct f1 as [st2|c x st2]; [|by intros [= <-]].
  destruct (ShouldSwitchFile _); [by intros [= <-]|]. intros Hrun. etrans; [exact E1|]. by apply IH.
Qed.

Lemma csv_rows_grow fuel : forall st f,
  csv_rows conf meta all_sent argLen fuel st = Some f -> sent st `prefix_of` flow_sent f.
Proof.
  induction fuel as [|fuel IH]; intros st f; [done|]. cbn [csv_rows].
  destruct (HasNext (iter st)); [|by intros [= <-]].
  destruct (csv_row conf meta argLen st) as [[r text]|x]; [|by intros [= <-]].
  set (st1 := mkState _ r _ (sent st) _ _ _ _). destruct (flush_grows st1) as (st2 & -> & Hp).
  destruct (ShouldSwitchFile _); [by intros [= <-]|]. intros Hrun. etrans; [exact Hp|].
  by apply IH in Hrun.
Qed.

Section Cut.
Variable k : nat.
Variable o : send_outcome.
Variable e : error.
Hypothesis o_fails : o = Cancelled e \/ o = PipeFailed e.

(** The run with the outcome [o] at the [k]-th send against the run that
    sends everything: the same, or an early return after [k] sends. *)
Definition cuts (f0 f : flow (I := I)) : Prop :=
  ((length (flow_sent f0) <= k)%nat /\ f = f0) \/
  ((k < length (flow_sent f0))%nat /\ exists c st', f = Return c e st' /\ sent st' = firstn k (flow_sent f0)).

Lemma cuts_or_not f0 : (length (flow_sent f0) <= k)%nat -> cuts f0 f0.
Proof. by left. Qed.

(** Before the cut both runs are in the same state, after it the run that
    sends everything has sent more. *)
Lemma flush_cut (st : wstate (I := I)) :
  (length (sent st) <= k)%nat ->
  (exists st', flush all_sent st = Continue st' /\ flush (cut k o) st = Continue st' /\
    (length (sent st') <= k)%nat) \/
  (exists st' c st2, flush all_sent st = Continue st' /\ flush (cut k o) st = Return c e st2 /\
    (k < length (sent st'))%nat /\ sent st2 = firstn k (sent st')).
Proof.
  intros Hl. unfold flush, all_sent, cut. destruct (lengthLimit <=? slen (bf st)).
  2: { left. eexists. by split_and!. }
  destruct (Nat.ltb_spec (length (sent st)) k).
  - left. eexists. split_and!; [done|done|]. cbn. rewrite length_app. cbn. lia.
  - right. assert (k = length (sent st)) as Ek by lia.
    destruct o_fails as [-> | ->]; eexists _, _, _; (split_and!; [done|done|..]); cbn;
      rewrite ?length_app; cbn; try lia; by rewrite Ek, take_app_length.
Qed.

(** A run that goes on after it was cut. *)
Lemma cuts_more (st0 : wstate (I := I)) c st' f1 :
  (k < length (sent st0))%nat -> sent st' = firstn k (sent st0) ->
  sent st0 `prefix_of` flow_sent f1 -> cuts f1 (Return c e st').
Proof.
  intros Hl Hs [l Hp]. right. rewrite Hp, length_app. split; [lia|]. eexists _, _. split; [done|].
  rewrite Hs, take_app_le by lia. done.
Qed.

Lemma insert_rows_cut fuel : forall st f0,
  (length (sent st) <= k)%nat -> insert_rows conf meta all_sent argLen fuel st = Some f0 ->
  exists f, insert_rows conf meta (cut k o) argLen fuel st = Some f /\ cuts f0 f.
Proof.
  induction fuel as [|fuel IH]; intros st f0 Hl; [done|]. cbn [insert_rows].
  destruct (HasNext (iter st)); [|intros [= <-]; eexists; split; [done|by left]].
  destruct (insert_row conf meta argLen st) as [[r text]|x]; [|intros [= <-]; eexists; split; [done|by left]].
  set (st1 := mkState _ r _ (sent st) _ _ _ _).
  destruct (flush_cut st1 Hl) as [(st2 & -> & -> & Hle)|(st2 & c & st3 & -> & -> & Hlt & Hs)].
  - destruct (ShouldSwitchStatement _); [|by apply IH]. intros [= <-]. eexists. split; [done|by left].
  - intros Hrun. eexists. split; [done|]. eapply cuts_more; [done|done|].
    destruct (ShouldSwitchStatement _); [by injection Hrun as <-|by apply insert_rows_grow in Hrun].
Qed.

Lemma insert_statements_cut fuel : forall st f0,
  (length (sent st) <= k)%nat -> insert_statements conf meta all_sent argLen fuel st = Some f0 ->
  exists f, insert_statements conf meta (cut k o) argLen fuel st = Some f /\ cuts f0 f.
Proof.
  induction fuel as [|fuel IH]; intros st f0 Hl; [done|]. cbn [insert_statements].
  destruct (HasNext (iter st)); [|intros [= <-]; eexists; split; [done|by left]]. cbv zeta.
  set (st1 := mkState _ _ _ (sent st) _ _ _ _).
  destruct (insert_rows conf meta all_sent argLen (S fuel) st1) as [f1|] eqn:E1; [|done].
  destruct (insert_rows_cut (S fuel) st1 f1 Hl E1) as (f & -> & Hc). cbn [mbind option_bind].
  destruct Hc as [[Hle ->]|(Hlt & c & st' & -> & Hs)].
  - destruct f1 as [st2|c x st2]; [|intros [= <-]; eexists; split; [done|by left]].
    destruct (ShouldSwitchFile _); [intros [= <-]; eexists; split; [done|by left]|by apply IH].
  - intros Hrun. eexists. split; [done|]. eapply (cuts_more (flow_state f1)); [done|done|].
    destruct f1 as [st2|c' x st2]; [|by injection Hrun as <-].
    destruct (ShouldSwitchFile _); [by injection Hrun as <-|by apply insert_statements_grow in Hrun].
Qed.

Lemma csv_rows_cut fuel : forall st f0,
  (length (sent st) <= k)%nat -> csv_rows conf meta all_sent argLen fuel st = Some f0 ->
  exists f, csv_rows conf meta (cut k o) argLen fuel st = Some f /\ cuts f0 f.
Proof.
  induction fuel as [|fuel IH]; intros st f0 Hl; [done|]. cbn [csv_rows].
  destruct (HasNext (iter st)); [|intros [= <-]; eexists; split; [done|by left]].
  destruct (csv_row conf meta argLen st) as [[r text]|x]; [|intros [= <-]; eexists; split; [done|by left]].
  set (st1 := mkState _ r _ (sent st) _ _ _ _).
  destruct (flush_cut st1 Hl) as [(st2 & -> & -> & Hle)|(st2 & c & st3 & -> & -> & Hlt & Hs)].
  - cbv zeta. destruct (ShouldSwitchFile _); [|by apply IH]. intros [= <-]. eexists. split; [done|by left].
  - intros Hrun. eexists. split; [done|]. eapply cuts_more; [done|done|]. cbv zeta in Hrun.
    destruct (ShouldSwitchFile _); [by injection Hrun as <-|by apply csv_rows_grow in Hrun].
Qed.

Lemma formatted_cut f fuel it f0 :
  formatted all_sent f fuel it = Some f0 ->
  exists x, formatted (cut k o) f fuel it = Some x /\ cuts f0 x.
Proof.
  destruct f; [done|..]; cbn [formatted]; intros Hf.
  - apply insert_statements_cut; [cbn; lia|done].
  - apply csv_rows_cut; [cbn; lia|done].
Qed.
End Cut.

(** What the writer leaves for some outcome of its selects. *)
Definition writer_result (f : FileFormat) (fuel : nat) (it : I) (p : pipe_state) : Prop :=
  exists flushed drained w,
    format_WriteInsert conf meta flushed write_err argLen drained f fuel it = Some w /\
    formatter p = Returned (w_err w) /\ taken p = w_sent w /\ file p = w_file w.

Lemma complete_result f fuel it f0 p e tail ie sz err :
  HasNext it = true -> f <> FileFormatUnknown -> formatted all_sent f fuel it = Some f0 ->
  formatter p = Returned e -> flow_ending f0 = Finish tail ie ->
  taken p = flow_sent f0 ++ tail_of (flow_ending f0) ->
  pipe_Run write_err 0 (taken p) = (file p, sz, err) ->
  e = (match ie with Some x => Some x | None => err end) -> writer_result f fuel it p.
Proof.
  intros Hn Hf Hrun Hret Hend Htk Hpipe ->. destruct f0 as [st|n x st]; cbn in Hend; [|done].
  injection Hend as <- <-. exists all_sent, 0%nat. rewrite format_formatted, Hrun by done.
  cbn [mbind option_bind]. eexists. split; [done|]. unfold finish.
  cbn [flow_sent flow_state flow_ending tail_of] in Htk. unfold flow_sent in Htk. cbn [flow_state] in Htk.
  set (s' := if 0 <? slen (bf st) then sent st ++ [bf st] else sent st).
  assert (taken p = s') as Hs by (rewrite Htk; unfold s'; destruct (0 <? slen (bf st)); by rewrite ?app_nil_r).
  rewrite <- Hs, Hpipe. cbn. by split_and!.
Qed.

Lemma cut_result f fuel it f0 p k x sz err :
  HasNext it = true -> f <> FileFormatUnknown -> formatted all_sent f fuel it = Some f0 ->
  formatter p = Returned (Some x) -> taken p ++ input p = firstn k (flow_sent f0) ->
  pipe_Run write_err 0 (taken p) = (file p, sz, err) ->
  (k < length (flow_sent f0))%nat \/ (k = length (flow_sent f0) /\ flow_ending f0 = Fail x) ->
  writer_result f fuel it p.
Proof.
  intros Hn Hf Hrun Hret Htk Hpipe Hor.
  assert (exists flushed c st', formatted flushed f fuel it = Some (Return c x st') /\
    sent st' = firstn k (flow_sent f0)) as (flushed & c & st' & Hrun' & Hs).
  { destruct Hor as [Hk|[-> Hfail]].
    - destruct (formatted_cut k (Cancelled x) x (or_introl eq_refl) f fuel it f0 Hrun)
        as (y & Hy & [[Hle _]|(_ & c & st' & -> & Hs)]); [lia|]. by exists (cut k (Cancelled x)), c, st'.
    - destruct f0 as [st|c y st]; [done|]. injection Hfail as ->. exists all_sent, c, st. split; [done|].
      cbn. by rewrite firstn_all. }
  exists flushed, (length (taken p)). rewrite format_formatted, Hrun' by done. cbn [mbind option_bind].
  eexists. split; [done|]. unfold finish. rewrite Hs, <- Htk, take_app_length, Hpipe. by split_and!.
Qed.

(** C11: the formatter and the goroutine that writes the file, run side by side
    in any order, always come to an end: neither waits for ever for the other,
    after a failed write or a cancellation either.  And they leave the error,
    the buffers taken and the file that [WriteInsert] of [Writer] gives for
    some outcome of its selects, so what is proved of that holds for every
    interleaving. *)
Theorem pipe_interleavings f fuel it :
  iter_ok it -> Forall (width_ok conf meta argLen) (pending it) -> (length (pending it) < fuel)%nat ->
  HasNext it = true -> f <> FileFormatUnknown ->
  exists f0, formatted all_sent f fuel it = Some f0 /\
    inevitably (pipe_step write_err ctx_err (flow_ending f0)) (writer_result f fuel it)
      (pipe_start (flow_sent f0)).
Proof.
  intros Hi Hw Hl Hn Hf. destruct (formatted_total f fuel it Hi Hw Hl Hf) as [f0 Hrun]. exists f0. split; [done|].
  eapply inevitably_mono; [|exact (pipe_ends write_err ctx_err (flow_ending f0) (flow_sent f0))].
  intros p (e & sz & err & Hret & Ho & Hpipe).
  destruct Ho as [tail ie sz' err' Hend Htk Hpipe' _ He|k x Htk -> Hor].
  - by apply (complete_result f fuel it f0 p e tail ie sz' err').
  - by eapply cut_result.
Qed.
End Refinement.

(** ** An example: three rows, and a file whose second write fails *)

Section Example.
#[local] Existing Instances Config.example_regexp Config.example_files Config.example_unicode.

Definition example_conf : Config := set_limits DefaultConfig 0 0 0 EmptyString "snapshot".
Definition example_meta : tableMeta :=
  mkTableMeta "public" "t" [mkColumnType "id" "INT4"; mkColumnType "v" "TEXT"]
    "*" "`id`,`v`" 2 [] EmptyString EmptyString 0 false.
Definition example_iter : rowIter :=
  newRowIter (mkCursor None [Ok [Some "1"; Some "a"]; Ok [Some "2"; None]; Ok [Some "3"; Some "c"]] None None).
Definition example_writes (k : nat) : option error :=
  match k with S _ => Some (EForeign "disk full") | O => None end.

Lemma pipe_interleavings_witness :
  exists f0, formatted example_conf example_meta 2 all_sent FileFormatSQLText 4 example_iter = Some f0 /\
    inevitably (pipe_step example_writes (Some (EForeign "context canceled")) (flow_ending f0))
      (writer_result example_conf example_meta 2 example_writes FileFormatSQLText 4 example_iter)
      (pipe_start (flow_sent f0)).
Proof.
  apply (pipe_interleavings example_conf example_meta 2 example_writes (Some (EForeign "context canceled"))
    FileFormatSQLText 4 example_iter).
  - by apply newRowIter_ok.
  - repeat constructor; cbn; congruence.
  - cbn. lia.
  - reflexivity.
  - discriminate.
Defined.
End Example.
