(* ===== verification/TableData.v ===== *)
(** * The files of a chunk (export/writer.go, export/writer_util.go)

    The lazy file of [InterceptFileWriter] and the loop of
    [tryToWriteTableData] that starts a new file whenever the size limit of
    the current one is reached.  The storage is an oracle per file: it may
    fail to create a file, to write any chunk and to close it. *)

From S2P Require Import Prelude GoStrings Dialect FilterMatcher FilterParser Filter FileNames.
From S2P Require Import SqlTypes Conn Tables Config Ir Writer.

(** What the storage and the scheduler do to one file. *)
Record file_oracle := mkFileOracle {
  create_err : option error;
  chunk_err : nat -> option error;
  close_file_err : option error;
  select : nat -> send_outcome;
  taken : nat
}.

(** ** The lazy file *)

(** src/export/writer_util.go:555-562 InterceptFileWriter *)
Record InterceptFileWriter := mkIntercept {
  opened : bool;
  SomethingIsWritten : bool;
  init_err : option error
}.

Definition newInterceptFileWriter : InterceptFileWriter := mkIntercept false false None.

(** One write of the chunk [p], the [k]-th of the file.
    src/export/writer_util.go:565-575 InterceptFileWriter.Write *)
Definition intercept_Write (o : file_oracle) (w : InterceptFileWriter) (k : nat) (p : string)
    : option error * InterceptFileWriter :=
  let w := if opened w then w else mkIntercept true (SomethingIsWritten w) (create_err o) in
  let w := mkIntercept (opened w) (SomethingIsWritten w || (0 <? slen p)) (init_err w) in
  match init_err w with
  | Some e => (Some (EAnnotate e "open file error" []), w)
  | None => (chunk_err o k, w)
  end.

(** The writes of the goroutine: in order, until one fails. *)
Fixpoint intercept_writes (o : file_oracle) (w : InterceptFileWriter) (k : nat) (input : list string)
    : list string * option error * InterceptFileWriter :=
  match input with
  | [] => ([], None, w)
  | p :: input' =>
      match intercept_Write o w k p with
      | (Some e, w') => ([], Some e, w')
      | (None, w') =>
          let '(file, err, w'') := intercept_writes o w' (S k) input' in (p :: file, err, w'')
      end
  end.

(** The error of the [k]-th write: that of creating the file, or its own. *)
Definition write_outcome (o : file_oracle) (k : nat) : option error :=
  match create_err o with
  | Some e => Some (EAnnotate e "open file error" [])
  | None => chunk_err o k
  end.

(** The lazy writer behaves towards the pipe as [write_outcome] says, and
    has written something exactly when a chunk with bytes was written. *)
Lemma intercept_writes_pipe o input : forall w k,
  (opened w = true -> init_err w = create_err o) ->
  let '(file, err, w') := intercept_writes o w k input in
  let '(file2, _, err2) := pipe_Run (write_outcome o) k input in
  file = file2 /\ err = err2 /\ (opened w' = true -> init_err w' = create_err o) /\
  (opened w' = opened w || negb (bool_decide (input = []))) /\
  (err = None -> SomethingIsWritten w' = SomethingIsWritten w || (0 <? slen (sconcat input))).
Proof.
  induction input as [|p input IH]; intros w k Hw; cbn [intercept_writes pipe_Run].
  { cbn. rewrite !orb_false_r. done. }
  unfold write_outcome at 1, intercept_Write.
  set (w1 := if opened w then w else _).
  assert (opened w1 = true /\ init_err w1 = create_err o /\ SomethingIsWritten w1 = SomethingIsWritten w)
    as (Ho & Hi & Hs) by (unfold w1; destruct (opened w) eqn:E; split_and!; auto).
  cbn [init_err]. rewrite Hi. destruct (create_err o) eqn:Ec.
  { cbn. rewrite Ho. split_and!; try done. by rewrite orb_true_r. }
  destruct (chunk_err o k) eqn:Ek.
  { cbn. rewrite Ho. split_and!; try done. by rewrite orb_true_r. }
  specialize (IH (mkIntercept (opened w1) (SomethingIsWritten w1 || (0 <? slen p)) (init_err w1)) (S k)).
  rewrite Hi in IH. cbn [opened init_err SomethingIsWritten] in IH.
  destruct (intercept_writes o _ (S k) input) as [[f e] w2].
  destruct (pipe_Run (write_outcome o) (S k) input) as [[f2 n2] e2].
  destruct IH as (-> & -> & H1 & H2 & H3); [done|]. split_and!; try done.
  - by rewrite H2, Ho, orb_true_r.
  - intros He. rewrite H3, Hs by done. cbn. rewrite slen_app, <- orb_assoc. f_equal.
    pose proof (slen_nonneg p). pose proof (slen_nonneg (sconcat input)). lia.
Qed.

(** ** The loop over files *)

Section TableData.
Context `{UnicodeLib} `{RegexpLib} {I : Type} `{RowIter I}.
Variable conf : Config.
Variable meta : tableMeta.
Variable argLen : nat.
(** the format of the writer, and the oracle of each file *)
Variable fileFmt : FileFormat.
Variable oracle : nat -> file_oracle.

(** The format a writer is made with.
    src/export/writer.go:38-63 NewWriter *)
Definition NewWriter_fileFmt : FileFormat :=
  if one_of (ToLower (FileType conf)) ["sql"] then FileFormatSQLText
  else if one_of (ToLower (FileType conf)) ["csv"] then FileFormatCSV
  else FileFormatUnknown.

(** What an attempt leaves: its error, the files it created (path and
    content), and what it added to the gauge of finished rows. *)
Record attempt := mkAttempt {
  a_err : option error;
  a_files : list (string * string);
  a_rows : Z
}.

(** The file that one call of the format's writer leaves under [name]. *)
Definition stored (o : file_oracle) (name : string) (w : written (I := I))
    : InterceptFileWriter * list (string * string) :=
  let '(_, _, iw) := intercept_writes o newInterceptFileWriter 0 (w_sent w) in
  (iw, if opened iw && (match create_err o with None => true | Some _ => false end)
       then [(storage_name (cCompressType conf) name, sconcat (w_file w))] else []).

(** src/export/writer.go:240-269 tryToWriteTableData *)
Fixpoint write_files (fuel : nat) (k : nat) (namer : outputFileNamer) (fileName : string) (it : I)
    : option attempt :=
  match fuel with
  | O => None
  | S fuel' =>
      let o := oracle k in
      w ← format_WriteInsert conf meta (select o) (write_outcome o) argLen (taken o) fileFmt fuel it;
      let '(iw, file) := stored o fileName w in
      match w_err w with
      | Some e => Some (mkAttempt (Some e) file (w_rows w))
      | None =>
          match (if opened iw then close_file_err o else None) with
          | Some e => Some (mkAttempt (Some e) file (w_rows w))
          | None =>
              if negb (SomethingIsWritten iw) then Some (mkAttempt None file (w_rows w))
              else if FileSize conf =? UnspecifiedSize then Some (mkAttempt None file (w_rows w))
              else
                let '(res, namer) := NextName (OutputFileTemplate conf) (Extension fileFmt) namer in
                match res with
                | Err e => Some (mkAttempt (Some e) file (w_rows w))
                | Ok fileName =>
                    a ← write_files fuel' (S k) namer fileName (w_iter w);
                    Some (mkAttempt (a_err a) (file ++ a_files a) (w_rows w + a_rows a))
                end
          end
      end
  end.

(** src/export/writer.go:232-278 tryToWriteTableData *)
Definition tryToWriteTableData (fuel : nat) (it : I) (curChkIdx : Z) : option attempt :=
  let namer := newOutputFileNamer (database meta) (table meta) curChkIdx
                 (negb (Rows conf =? UnspecifiedSize)) (negb (FileSize conf =? UnspecifiedSize)) in
  let '(res, namer) := NextName (OutputFileTemplate conf) (Extension fileFmt) namer in
  match res with
  | Err e => Some (mkAttempt (Some e) [] 0)
  | Ok fileName => write_files fuel 0 namer fileName it
  end.

(** ** Correctness *)

(** The path of the [k]-th file of the chunk. *)
Definition chunk_naming : naming :=
  mkNaming fileFmt (negb (Rows conf =? UnspecifiedSize)) (negb (FileSize conf =? UnspecifiedSize))
    (cCompressType conf).

Definition chunk_path (curChkIdx k : Z) : result string :=
  out_path (OutputFileTemplate conf) chunk_naming (OData (database meta) (table meta) curChkIdx k).

Definition file_namer (curChkIdx k : Z) : outputFileNamer :=
  let n := newOutputFileNamer (database meta) (table meta) curChkIdx
             (negb (Rows conf =? UnspecifiedSize)) (negb (FileSize conf =? UnspecifiedSize)) in
  mkNamer (nChunkIndex n) k (nPolicy n) (nDB n) (nTable n) (nformat n).

(** The files [a_files] from the [k]-th on hold the rows [parts], one part per
    file, of the iterator [it]. *)
Record files_ok (it : I) (curChkIdx : Z) (k : nat) (parts : list (list (list (option string))))
    (a : attempt) : Prop := {
  fs_rows : pending it = map Ok (concat parts);
  fs_error : final_error it = None;
  fs_content : Forall2 (fun part f => part <> [] /\ content conf meta fileFmt part (snd f)) parts (a_files a);
  fs_paths : forall i f, a_files a !! i = Some f -> chunk_path curChkIdx (Z.of_nat (k + i)) = Ok (fst f);
  fs_full : forall i f, (S i < length (a_files a))%nat -> a_files a !! i = Some f ->
            FileSize conf <> UnspecifiedSize /\ FileSize conf <= u64 (slen (snd f));
  fs_gauge : a_rows a = Z.of_nat (length (concat parts))
}.

Hypothesis terminated : CsvLineTerminator conf <> EmptyString.
Hypothesis size_range : 0 <= FileSize conf.

Lemma content_nonempty rows text :
  content conf meta fileFmt rows text -> rows <> [] -> 0 < slen text.
Proof.
  intros Hc Hr. destruct fileFmt; cbn in Hc; [done| |].
  - destruct Hc as (gs & -> & -> & _). destruct gs as [|g gs]; [done|].
    assert (0 < slen (insertStatementPrefix conf meta)) as Hp.
    { unfold insertStatementPrefix. destruct (negb _); rewrite slen_app; change (slen "INSERT INTO ") with 12;
        match goal with |- _ < _ + slen ?s => pose proof (slen_nonneg s) end; lia. }
    unfold insert_file, statements_text. cbn [map sconcat]. unfold statement_text.
    rewrite !slen_app. pose proof (slen_nonneg (preamble_text meta)).
    pose proof (slen_nonneg (group_text conf meta g)).
    match goal with |- context [slen (sconcat ?l)] => pose proof (slen_nonneg (sconcat l)) end. lia.
  - destruct Hc as [-> _]. destruct rows as [|r rows]; [done|].
    unfold csv_file, lines_text. cbn [map sconcat]. unfold csv_text at 1. rewrite !slen_app.
    pose proof (slen_nonneg (header_text conf meta)).
    match goal with |- context [slen (sconcat ?l)] => pose proof (slen_nonneg (sconcat l)) end.
    match goal with |- context [slen (if ?b then ?x else ?y)] => pose proof (slen_nonneg (if b then x else y)) end.
    change (lineTerminator (csv_opt conf)) with (CsvLineTerminator conf).
    assert (slen (CsvLineTerminator conf) <> 0) by (intros E; by apply slen_zero in E).
    pose proof (slen_nonneg (CsvLineTerminator conf)). lia.
Qed.

(** A file without an error was created exactly when it has bytes. *)
Lemma stored_ok o name (w : written (I := I)) size :
  pipe_Run (write_outcome o) 0 (w_sent w) = (w_file w, size, None) ->
  exists iw file, stored o name w = (iw, file) /\
    SomethingIsWritten iw = (0 <? slen (sconcat (w_file w))) /\
    (w_sent w = [] -> iw = newInterceptFileWriter /\ file = []) /\
    (w_sent w <> [] -> file = [(storage_name (cCompressType conf) name, sconcat (w_file w))]).
Proof.
  intros Hp. unfold stored.
  pose proof (intercept_writes_pipe o (w_sent w) newInterceptFileWriter 0 ltac:(done)) as Hi.
  rewrite Hp in Hi. pose proof (pipe_Run_all _ _ _ _ _ Hp) as Hall.
  destruct (intercept_writes o newInterceptFileWriter 0 (w_sent w)) as [[f e] iw] eqn:E.
  destruct Hi as (-> & -> & H1' & H2' & H3'). eexists iw, _. split; [done|]. split_and!.
  - rewrite H3' by done. by rewrite Hall.
  - intros Hs. rewrite Hs in E. cbn in E. by injection E as _ <-.
  - intros Hs. rewrite H2'. cbn. rewrite bool_decide_eq_false_2 by done. cbn.
    destruct (create_err o) eqn:Ec; [|done]. destruct (w_sent w) as [|c l]; [done|].
    cbn in Hp. unfold write_outcome in Hp. by rewrite Ec in Hp.
Qed.
Lemma NextName_file curChkIdx k :
  (k + 1 < 2 ^ 63)%Z -> 0 <= k ->
  snd (NextName (OutputFileTemplate conf) (Extension fileFmt) (file_namer curChkIdx k)) =
    file_namer curChkIdx (k + 1) /\
  chunk_path curChkIdx k =
    (name ← fst (NextName (OutputFileTemplate conf) (Extension fileFmt) (file_namer curChkIdx k));
     Ok (storage_name (cCompressType conf) name)).
Proof.
  intros Hk H0'. split; [|done]. unfold NextName, file_namer. cbn. rewrite i64_small; [done|].
  unfold is_i64. lia.
Qed.

Lemma files_none it curChkIdx k a :
  pending it = [] -> final_error it = None -> a_files a = [] -> a_rows a = 0 ->
  files_ok it curChkIdx k [] a.
Proof. intros Hp He Hf Hr. split; cbn; rewrite ?Hf; done || by constructor. Qed.

(** A first file and the files after it. *)
Lemma files_cons it it' curChkIdx k part parts f a a' :
  pending it = map Ok part ++ pending it' -> final_error it = final_error it' ->
  part <> [] -> content conf meta fileFmt part (snd f) ->
  chunk_path curChkIdx (Z.of_nat k) = Ok (fst f) ->
  (a_files a' <> [] -> FileSize conf <> UnspecifiedSize /\ FileSize conf <= u64 (slen (snd f))) ->
  a_files a = f :: a_files a' -> a_rows a = Z.of_nat (length part) + a_rows a' ->
  files_ok it' curChkIdx (S k) parts a' -> files_ok it curChkIdx k (part :: parts) a.
Proof.
  intros Hp He Hne Hc Hn Hfull Hf Hr [F1 F2 F3 F4 F5 F6]. split; cbn; rewrite ?Hf.
  - by rewrite Hp, F1, map_app.
  - congruence.
  - by constructor.
  - intros [|i] g; cbn.
    + intros [= <-]. by rewrite Nat.add_0_r.
    + rewrite <- plus_n_Sm. apply F4.
  - intros [|i] g; cbn.
    + intros Hl [= <-]. apply Hfull. destruct (a_files a'); [cbn in Hl; lia|done].
    + intros Hl. apply F5. lia.
  - rewrite Hr, F6, length_app. lia.
Qed.

Lemma write_files_spec curChkIdx fuel : forall k fileName it,
  fst (NextName (OutputFileTemplate conf) (Extension fileFmt) (file_namer curChkIdx (Z.of_nat k))) = Ok fileName ->
  iter_ok it -> Forall (width_ok conf meta argLen) (pending it) ->
  (S (length (pending it)) < fuel)%nat -> Z.of_nat (k + length (pending it)) + 2 < 2 ^ 63 ->
  exists a, write_files fuel k (file_namer curChkIdx (Z.of_nat k + 1)) fileName it = Some a /\
    (a_err a = None -> exists parts, files_ok it curChkIdx k parts a).
Proof.
  induction fuel as [|fuel IH]; intros k fileName it Hname Hi Hw Hf Hk; [lia|]. cbn [write_files].
  destruct (format_spec conf meta (select (oracle k)) (write_outcome (oracle k)) argLen (taken (oracle k))
              fileFmt (S fuel) it Hi Hw ltac:(lia)) as (w & -> & Hgauge & Hok).
  cbn [mbind option_bind]. destruct (w_err w) as [e|] eqn:He.
  { destruct (stored _ _ w) as [iw file]. eexists. by split. }
  destruct (Hok eq_refl) as (rows & text & [G1 G2 G3 G4 [size Hpipe] G5 G6] & Hc).
  destruct (stored_ok (oracle k) fileName w size Hpipe) as (iw & file & -> & S1 & S2 & S3).
  destruct (if opened iw then close_file_err (oracle k) else None) as [e|]; [eexists; by split|].
  unfold gauge_ok in Hgauge. rewrite ?He in Hgauge.
  assert (length (pending it) = length rows + length (pending (w_iter w)))%nat as Hlen
    by (by rewrite G1, length_app, length_map).
  rewrite u64_small in G2 by (unfold is_u64; lia).
  rewrite S1, G3. destruct rows as [|row rows].
  { destruct (G5 eq_refl) as [Hp Hs]. rewrite Hs in *. cbn in Hpipe. injection Hpipe as Hwf _.
    rewrite <- Hwf in G3. cbn in G3. subst text. cbn. eexists. split; [done|]. intros _. exists [].
    destruct (S2 eq_refl) as [_ ->]. cbn in G2. apply files_none; cbn; try done; [|lia].
    destruct G6 as [[_ ?]|[? Hle]]; [done|].
    change (u64 (slen EmptyString)) with 0 in Hle. unfold UnspecifiedSize in *. lia. }
  assert (0 < slen text) as Hpos by (by eapply content_nonempty).
  destruct (Z.ltb_spec 0 (slen text)); [|lia]. cbn [negb].
  assert (w_sent w <> []) as Hsent.
  { intros Hs. rewrite Hs in Hpipe. cbn in Hpipe. injection Hpipe as Hwf _.
    rewrite <- Hwf in G3. subst text. by vm_compute in Hpos. }
  rewrite (S3 Hsent), G3 in *.
  destruct G4 as (I1 & I2 & I3).
  assert (chunk_path curChkIdx (Z.of_nat k) = Ok (storage_name (cCompressType conf) fileName)) as Hpath.
  { destruct (NextName_file curChkIdx (Z.of_nat k)) as [_ ->]; [lia|lia|]. by rewrite Hname. }
  assert (forall a', a_files a' = [] -> a_rows a' = 0 -> pending (w_iter w) = [] -> final_error it = None ->
    files_ok (w_iter w) curChkIdx (S k) [] a') as Hlast by (intros; apply files_none; congruence).
  destruct (Z.eqb_spec (FileSize conf) UnspecifiedSize) as [Hu|Hu].
  { eexists. split; [done|]. intros _. exists [row :: rows].
    destruct G6 as [[P1 P2]|[? _]]; [|done].
    apply (files_cons _ (w_iter w) _ _ _ _ (storage_name (cCompressType conf) fileName, text) _ (mkAttempt None [] 0)); try done; cbn [a_rows]; [lia|].
    by apply Hlast. }
  destruct (NextName_file curChkIdx (Z.of_nat k + 1)) as [Hnext _]; [lia|lia|].
  destruct (NextName _ _ (file_namer curChkIdx (Z.of_nat k + 1))) as [res namer] eqn:En. cbn in Hnext. subst namer.
  destruct res as [fileName'|e]; [|eexists; by split].
  replace (Z.of_nat k + 1) with (Z.of_nat (S k)) in * by lia.
  destruct (IH (S k) fileName' (w_iter w)) as (a & -> & Ha); try done.
  { by rewrite En. }
  { cbn in Hlen. lia. }
  { cbn in Hlen. lia. }
  cbn [mbind option_bind]. eexists. split; [done|]. cbn [a_err]. intros Hae.
  destruct (Ha Hae) as [parts Hparts]. exists ((row :: rows) :: parts).
  apply (files_cons _ (w_iter w) _ _ _ _ (storage_name (cCompressType conf) fileName, text) _ a); try done; cbn [a_rows a_files app]; [|lia].
  intros Hmore. destruct G6 as [[P1 _]|]; [|done]. destruct Hparts as [F1 _ F3 _ _ _].
  rewrite P1 in F1. inversion F3 as [E1 E2|p f ps fs [Hpne _] _ E1 E2]; [congruence|].
  rewrite <- E1 in F1. by destruct p.
Qed.

(** Every file an attempt creates, failed or not, is a file of the chunk. *)
Lemma write_files_paths curChkIdx fuel : forall k fileName it a,
  fst (NextName (OutputFileTemplate conf) (Extension fileFmt) (file_namer curChkIdx (Z.of_nat k))) = Ok fileName ->
  Z.of_nat (k + fuel) + 2 < 2 ^ 63 ->
  write_files fuel k (file_namer curChkIdx (Z.of_nat k + 1)) fileName it = Some a ->
  Forall (fun f => exists i, 0 <= i /\ chunk_path curChkIdx i = Ok (fst f)) (a_files a).
Proof.
  induction fuel as [|fuel IH]; intros k fileName it a Hname Hk; [done|]. cbn [write_files].
  destruct (format_WriteInsert _ _ _ _ _ _ _ _ _) as [w|]; [|done]. cbn [mbind option_bind].
  destruct (stored (oracle k) fileName w) as [iw file] eqn:Hst.
  assert (Forall (fun f => exists i, 0 <= i /\ chunk_path curChkIdx i = Ok (fst f)) file) as Hfile.
  { unfold stored in Hst. destruct (intercept_writes _ _ _ _) as [[? ?] iw'].
    injection Hst as _ <-. destruct (opened iw' && _); constructor; [|constructor]. cbn [fst].
    exists (Z.of_nat k). split; [lia|].
    destruct (NextName_file curChkIdx (Z.of_nat k)) as [_ ->]; [lia|lia|]. by rewrite Hname. }
  destruct (w_err w); [by intros [= <-]|].
  destruct (if opened iw then _ else None); [by intros [= <-]|].
  destruct (negb (SomethingIsWritten iw)); [by intros [= <-]|].
  destruct (FileSize conf =? UnspecifiedSize); [by intros [= <-]|].
  destruct (NextName_file curChkIdx (Z.of_nat k + 1)) as [Hnext _]; [lia|lia|].
  destruct (NextName _ _ (file_namer curChkIdx (Z.of_nat k + 1))) as [res namer] eqn:En. cbn in Hnext. subst namer.
  destruct res as [fileName'|e]; [|by intros [= <-]].
  replace (Z.of_nat k + 1) with (Z.of_nat (S k)) in * by lia.
  destruct (write_files fuel (S k) _ fileName' (w_iter w)) as [a'|] eqn:Ew; [|done]. cbn [mbind option_bind].
  intros [= <-]. apply Forall_app. split; [done|]. apply (IH (S k) fileName' (w_iter w)); [by rewrite En|lia|exact Ew].
Qed.

Lemma tryToWriteTableData_paths curChkIdx it fuel a :
  Z.of_nat fuel + 2 < 2 ^ 63 -> tryToWriteTableData fuel it curChkIdx = Some a ->
  Forall (fun f => exists i, 0 <= i /\ chunk_path curChkIdx i = Ok (fst f)) (a_files a).
Proof.
  intros Hlen. unfold tryToWriteTableData.
  destruct (NextName_file curChkIdx 0) as [Hnext _]; [lia|lia|].
  change (newOutputFileNamer _ _ _ _ _) with (file_namer curChkIdx 0).
  destruct (NextName _ _ (file_namer curChkIdx 0)) as [[fileName|e] namer] eqn:En; [|by intros [= <-]].
  cbn in Hnext. subst namer. apply (write_files_paths curChkIdx fuel 0); [|lia].
  change (Z.of_nat 0) with 0. by rewrite En.
Qed.

Lemma tryToWriteTableData_spec curChkIdx it fuel :
  iter_ok it -> Forall (width_ok conf meta argLen) (pending it) ->
  (S (length (pending it)) < fuel)%nat -> Z.of_nat (length (pending it)) + 2 < 2 ^ 63 ->
  exists a, tryToWriteTableData fuel it curChkIdx = Some a /\
    (a_err a = None -> exists parts, files_ok it curChkIdx 0 parts a).
Proof.
  intros Hi Hw Hf Hlen. unfold tryToWriteTableData.
  destruct (NextName_file curChkIdx 0) as [Hnext _]; [lia|lia|].
  change (newOutputFileNamer _ _ _ _ _) with (file_namer curChkIdx 0).
  destruct (NextName _ _ (file_namer curChkIdx 0)) as [[fileName|e] namer] eqn:En;
    [|eexists; by split]. cbn in Hnext. subst namer.
  apply (write_files_spec curChkIdx fuel 0); try done. change (Z.of_nat 0) with 0. by rewrite En.
Qed.

(** C10: writing a chunk always ends; when it reports no error, every row
    that the query returned stands in exactly one file, in the order of the
    query, and the query itself ended without an error.  The files are named
    after the chunk and their position, a file is created only when it has
    rows, every file but the last has reached the size limit (there is one
    file without a limit), each SQL file is its preamble followed by
    statements that are below the statement limit without their last row, each
    file is below the size limit without its last row, and the rows added to
    the metric are those of the files. *)
Theorem table_data_complete curChkIdx it fuel :
  iter_ok it -> Forall (width_ok conf meta argLen) (pending it) ->
  (S (length (pending it)) < fuel)%nat -> Z.of_nat (length (pending it)) + 2 < 2 ^ 63 ->
  exists a, tryToWriteTableData fuel it curChkIdx = Some a /\
    (a_err a = None -> exists parts, files_ok it curChkIdx 0 parts a).
Proof. apply tryToWriteTableData_spec. Qed.
End TableData.

(** ** An example: three rows in files of at least 60 bytes *)

#[local] Existing Instances Config.example_regexp Config.example_files Config.example_unicode.

Definition example_conf : Config := set_limits DefaultConfig 0 60 100 EmptyString "snapshot".
Definition example_meta : tableMeta :=
  mkTableMeta "public" "t" [mkColumnType "id" "INT4"; mkColumnType "v" "TEXT"]
    "*" "`id`,`v`" 2 [] EmptyString EmptyString 0 false.
Definition example_iter : rowIter :=
  newRowIter (mkCursor None [Ok [Some "1"; Some "a"]; Ok [Some "2"; None]; Ok [Some "3"; Some "c"]] None None).
Definition example_oracle (k : nat) : file_oracle :=
  mkFileOracle None (fun _ => None) None (fun _ => Sent) 0.


Definition example_attempt : option attempt :=
  tryToWriteTableData example_conf example_meta 2 FileFormatSQLText example_oracle 9 example_iter 0.

Example example_two_files :
  (a ← example_attempt; Some (map fst (a_files a), a_rows a)) =
  Some (["public.t.000000000.sql"; "public.t.000000001.sql"], 3).
Proof. vm_compute. reflexivity. Qed.

Lemma table_data_complete_witness :
  exists a parts, example_attempt = Some a /\ length (a_files a) = 2%nat /\
    files_ok example_conf example_meta FileFormatSQLText example_iter 0 0 parts a.
Proof.
  destruct (table_data_complete example_conf example_meta 2 FileFormatSQLText example_oracle
              ltac:(done) ltac:(done) 0 example_iter 9) as (a & Ha & Hok).
  - by apply newRowIter_ok.
  - repeat constructor; cbn; congruence.
  - cbn. lia.
  - cbn. lia.
  - assert (a_err a = None /\ length (a_files a) = 2%nat) as [He Hl]
      by (clear Hok; vm_compute in Ha; injection Ha as <-; exact (conj eq_refl eq_refl)).
    destruct (Hok He) as [parts Hparts]. exists a, parts. exact (conj Ha (conj Hl Hparts)).
Defined.
