(* ===== verification/LazyFile.v ===== *)
(** * Files that are created by their first write (export/writer_util.go)

    The objects that [buildInterceptFileWriter] makes: a writer that opens
    its file when it is first written to, and the routine that closes it.
    [TableData] uses a summary of them, which they refine here; what the
    goroutine of a pipe makes of their errors is [writeBytes]. *)

From S2P Require Import Prelude GoStrings Dialect FilterMatcher FilterParser Filter FileNames.
From S2P Require Import SqlTypes Conn Tables Config Ir Writer TableData.

Section LazyFile.
(** [err.Error()] *)
Variable error_string : error -> string.

(** An error of the storage, marked; it prints as before.
    src/export/writer_util.go:538-540 writerError *)
Record writerError := mkWriterError { unmarked : error }.

(** src/export/writer_util.go:542-544 writerError.Error *)
Definition writerError_Error (e : writerError) : string := error_string (unmarked e).

(** src/export/writer_util.go:546-551 newWriterError *)
Definition newWriterError (err : option error) : option writerError :=
  match err with None => None | Some e => Some (mkWriterError e) end.

(** The writer with what its closures share: the path, the storage, whether
    [Once] has run, its error, and the open file with the chunks it holds;
    [calls] counts the writes that reached the file. *)
Record lazy_file := mkLazy {
  fullPath : string;
  behaviour : file_oracle;
  once : bool;
  written_to : bool;
  lazy_err : option writerError;
  writer : option (list string);
  calls : nat
}.

(** src/export/writer_util.go:479-518 buildInterceptFileWriter *)
Definition buildInterceptFileWriter (o : file_oracle) (fileName : string) (compressType : CompressType)
    : lazy_file :=
  mkLazy (storage_name compressType fileName) o false false None None 0.

(** src/export/writer_util.go:484-499 buildInterceptFileWriter *)
Definition initRoutine (f : lazy_file) : option writerError * lazy_file :=
  match create_err (behaviour f) with
  | Some e => (newWriterError (Some e), f)
  | None =>
      (None, mkLazy (fullPath f) (behaviour f) (once f) (written_to f) (lazy_err f) (Some []) (calls f))
  end.

(** src/export/writer_util.go:502-516 buildInterceptFileWriter *)
Definition tearDownRoutine (f : lazy_file) : option error :=
  match writer f with None => None | Some _ => close_file_err (behaviour f) end.

(** Closing the writer itself; without a file there is nothing to call the
    method of, which is a panic ([None]).
    src/export/writer_util.go:577-580 InterceptFileWriter.Close *)
Definition lazy_Close (f : lazy_file) : option (option error) :=
  match writer f with None => None | Some _ => Some (close_file_err (behaviour f)) end.

(** The outer option is a panic, of a file that is not there.
    src/export/writer_util.go:565-575 InterceptFileWriter.Write *)
Definition lazy_Write (f : lazy_file) (p : string) : option (option error * lazy_file) :=
  let f := if once f then f
           else let '(e, f) := initRoutine f in
                mkLazy (fullPath f) (behaviour f) true (written_to f) e (writer f) (calls f) in
  let f := mkLazy (fullPath f) (behaviour f) (once f) (written_to f || (0 <? slen p)) (lazy_err f)
             (writer f) (calls f) in
  match lazy_err f with
  | Some e => Some (Some (EAnnotate (unmarked e) "open file error" []), f)
  | None =>
      match writer f with
      | None => None
      | Some chunks =>
          let err := chunk_err (behaviour f) (calls f) in
          let chunks := match err with None => chunks ++ [p] | Some _ => chunks end in
          Some (option_map unmarked (newWriterError err),
                mkLazy (fullPath f) (behaviour f) (once f) (written_to f) (lazy_err f) (Some chunks) (S (calls f)))
      end
  end.

(** ** What the pipe sees of an error *)

Definition part_number_msg : string := "Part number must be an integer between 1 and 10000".

(** src/export/writer_util.go:433-449 writeBytes *)
Definition writeBytes (f : lazy_file) (p : string) : option (option error * lazy_file) :=
  r ← lazy_Write f p;
  Some (match fst r with
        | None => None
        | Some e =>
            if Contains (error_string e) part_number_msg
            then Some (EAnnotate e
              "workaround: dump file exceeding 50GB, please specify -F=256MB -r=200000 to avoid this problem" [])
            else Some e
        end, snd r).

(** ** A string writer of the same kind, which nothing uses *)

(** src/export/writer_util.go:522-527 LazyStringWriter *)
Record LazyStringWriter := mkLazyString { ls_once : bool; ls_err : option error; ls_text : string }.

(** [init] is the error of opening the file and [write] that of writing.
    src/export/writer_util.go:530-536 LazyStringWriter.WriteString *)
Definition WriteString (init write : option error) (l : LazyStringWriter) (str : string)
    : option error * LazyStringWriter :=
  let l := if ls_once l then l else mkLazyString true init (ls_text l) in
  match ls_err l with
  | Some e => (Some (EErrorf "open file error: %s" [AStr (error_string e)]), l)
  | None =>
      (write, mkLazyString (ls_once l) (ls_err l)
                (match write with None => ls_text l +:+ str | Some _ => ls_text l end))
  end.

(** src/export/writer_util.go:582-584 wrapStringWith *)
Definition wrapStringWith (str wrapper : string) : string := wrapper +:+ str +:+ wrapper.

(** ** Correctness *)

(** The writes of the goroutine, until one fails. *)
Fixpoint lazy_writes (f : lazy_file) (input : list string) : option (option error * lazy_file) :=
  match input with
  | [] => Some (None, f)
  | p :: input' =>
      r ← lazy_Write f p;
      match r with
      | (Some e, f) => Some (Some e, f)
      | (None, f) => lazy_writes f input'
      end
  end.

(** After [Once] a file is open or there is an error, that of creating it. *)
Definition lazy_inv (f : lazy_file) : Prop :=
  if once f then lazy_err f = newWriterError (create_err (behaviour f)) /\
                 (writer f = None <-> create_err (behaviour f) <> None)
  else writer f = None /\ lazy_err f = None.

Definition summary (f : lazy_file) : InterceptFileWriter :=
  mkIntercept (once f) (written_to f) (option_map unmarked (lazy_err f)).

(** A write never panics, keeps the invariant, and does what [TableData]'s
    summary of the writer does. *)
Lemma lazy_Write_refines f p :
  lazy_inv f ->
  exists f', lazy_Write f p = Some (fst (intercept_Write (behaviour f) (summary f) (calls f) p), f') /\
    lazy_inv f' /\ summary f' = snd (intercept_Write (behaviour f) (summary f) (calls f) p) /\
    once f' = true /\ behaviour f' = behaviour f /\ fullPath f' = fullPath f /\
    (fst (intercept_Write (behaviour f) (summary f) (calls f) p) = None ->
       calls f' = S (calls f) /\ writer f' = Some (default [] (writer f) ++ [p])) /\
    (is_Some (fst (intercept_Write (behaviour f) (summary f) (calls f) p)) ->
       default [] (writer f') = default [] (writer f)).
Proof.
  destruct f as [path o on wr err w k]. unfold lazy_inv, lazy_Write, intercept_Write, initRoutine, summary.
  cbn [once lazy_err behaviour writer written_to calls fullPath opened SomethingIsWritten init_err].
  destruct on; [intros [-> Hw]|intros [-> ->]]; destruct (create_err o) as [e|] eqn:Ec; cbn -[slen].
  - eexists. split; [done|]. cbn -[slen]. rewrite Ec. by split_and!.
  - destruct w as [chunks|]; [|by destruct Hw as [Hw _]; destruct (Hw eq_refl)].
    destruct (chunk_err o k) as [x|]; (eexists; split; [done|]); cbn -[slen]; rewrite Ec; split_and!; try done; by intros [].
  - eexists. split; [done|]. cbn -[slen]. rewrite Ec. by split_and!.
  - destruct (chunk_err o k) as [x|]; (eexists; split; [done|]); cbn -[slen]; rewrite Ec; split_and!; try done; by intros [].
Qed.

(** From the start to the closing of a file: the objects and the summary give
    the same chunks in the file, the same error, the same answer to whether
    something was written, and the same error of closing. *)
Lemma lazy_writes_refine input : forall f,
  lazy_inv f ->
  let '(chunks, err, iw) := intercept_writes (behaviour f) (summary f) (calls f) input in
  exists f', lazy_writes f input = Some (err, f') /\ lazy_inv f' /\ summary f' = iw /\
    behaviour f' = behaviour f /\ fullPath f' = fullPath f /\
    default [] (writer f') = default [] (writer f) ++ chunks.
Proof.
  induction input as [|p input IH]; intros f Hf; cbn [intercept_writes lazy_writes].
  { exists f. by rewrite app_nil_r. }
  destruct (lazy_Write_refines f p Hf) as (f1 & Hw & H1 & Hs & Ho & Hb & Hp & Hnone & Hsome). rewrite Hw.
  destruct (intercept_Write _ _ _ p) as [[e|] iw1]; cbn [fst snd mbind option_bind] in *.
  - exists f1. rewrite app_nil_r. split_and!; auto.
  - destruct (Hnone eq_refl) as [Hc Hwr]. specialize (IH f1 H1). rewrite Hb, Hs, Hc in IH.
    destruct (intercept_writes _ iw1 _ input) as [[chunks err] iw2].
    destruct IH as (f2 & E & H2 & S2 & B2 & P2 & W2). exists f2. rewrite W2, Hwr. cbn.
    split_and!; try congruence. by rewrite <- app_assoc.
Qed.

(** The file of one call of the format's writer: what [TableData] stores. *)
Lemma lazy_file_stored `{UnicodeLib} `{RegexpLib} {I} conf o name (w : written (I := I)) n e :
  pipe_Run (write_outcome o) 0 (w_sent w) = (w_file w, n, e) ->
  exists err f, lazy_writes (buildInterceptFileWriter o name (cCompressType conf)) (w_sent w) = Some (err, f) /\
    summary f = fst (stored conf o name w) /\
    snd (stored conf o name w) =
      match writer f with None => [] | Some chunks => [(fullPath f, sconcat chunks)] end /\
    tearDownRoutine f =
      (if opened (fst (stored conf o name w)) && (match create_err o with None => true | Some _ => false end)
       then close_file_err o else None).
Proof.
  intros Hrun. set (f0 := buildInterceptFileWriter o name (cCompressType conf)).
  assert (lazy_inv f0) as Hf by done.
  pose proof (lazy_writes_refine (w_sent w) f0 Hf) as R.
  pose proof (intercept_writes_pipe o (w_sent w) newInterceptFileWriter 0 ltac:(done)) as Hi.
  change (behaviour f0) with o in R. change (summary f0) with newInterceptFileWriter in R.
  change (calls f0) with 0%nat in R. unfold stored.
  destruct (intercept_writes o newInterceptFileWriter 0 (w_sent w)) as [[chunks err] iw].
  assert (chunks = w_file w) as -> by (rewrite Hrun in Hi; by destruct Hi as (-> & _)).
  destruct R as (f & E & Hinv & <- & B & P & W). exists err, f. cbn [fst snd]. split_and!; [done|done|..];
    unfold tearDownRoutine; change (opened (summary f)) with (once f); unfold lazy_inv in Hinv; rewrite B in *;
    change (default [] (writer f0)) with (@nil string) in W; rewrite ?P.
  - destruct (once f); [destruct Hinv as [_ Hc]|by destruct Hinv as [-> _]].
    destruct (create_err o); cbn; destruct (writer f) as [l|]; try done.
    + destruct Hc as [_ Hc]. by assert (Some l = None) by (by apply Hc).
    + cbn in W. by rewrite W.
    + by destruct Hc as [Hc _]; destruct (Hc eq_refl).
  - destruct (once f); [destruct Hinv as [_ Hc]|by destruct Hinv as [-> _]].
    destruct (create_err o); cbn; destruct (writer f) as [l|]; try done.
    + destruct Hc as [_ Hc]. by assert (Some l = None) by (by apply Hc).
    + by destruct Hc as [Hc _]; destruct (Hc eq_refl).
Qed.

(** [writeBytes] fails exactly when the write does: the hint only adds to the
    text of the error. *)
Lemma writeBytes_fails f p :
  match writeBytes f p, lazy_Write f p with
  | Some (Some _, f1), Some (Some _, f2) | Some (None, f1), Some (None, f2) => f1 = f2
  | None, None => True
  | _, _ => False
  end.
Proof.
  unfold writeBytes. destruct (lazy_Write f p) as [[[e|] f']|]; cbn; [|done..]. by destruct (Contains _ _).
Qed.
End LazyFile.
