(* ===== verification/Worker.v ===== *)
(** * Workers (export/writer.go)

    A worker takes tasks and writes their files: metadata files at once, table
    data with the retry loop around the files of the chunk.  The storage is a
    map from paths to contents; creating a file replaces what was there. *)

From S2P Require Import Prelude GoStrings Dialect FilterMatcher FilterParser Filter FileNames.
From S2P Require Import SqlTypes SqlBuilder Conn Tables Config Ir Writer TableData.

(** ** Metadata files *)

(** Writes in order, the [k]-th first, until one fails.
    src/export/writer_util.go:418-431 write *)
Fixpoint write_all (write_err : nat -> option error) (k : nat) (chunks : list string)
    : string * option error :=
  match chunks with
  | [] => (EmptyString, None)
  | s :: chunks' =>
      match write_err k with
      | Some e => (EmptyString, Some e)
      | None => let '(text, err) := write_all write_err (S k) chunks' in (s +:+ text, err)
      end
  end.

(** src/export/writer_util.go:124-140 WriteMeta *)
Definition WriteMeta (write_err : nat -> option error) (meta : metaData) : string * option error :=
  write_all write_err 0 (map (fun c => c +:+ str1 newline) (metaCmts meta) ++ [fst (MetaSQL meta)]).

(** The files a step creates, in order, and its error. *)
Definition files_and_error : Type := list (string * string) * option error.

(** A file opened at once: its path, and what closing it reports.
    src/export/writer_util.go:451-477 buildFileWriter *)
Definition buildFileWriter (o : file_oracle) (fileName : string) (compressType : CompressType)
    : result (string * option error) :=
  match create_err o with
  | Some e => Err e
  | None => Ok (storage_name compressType fileName, close_file_err o)
  end.

Section Worker.
Context `{UnicodeLib} `{RegexpLib}.
Variable conf : Config.

(** [path] is the name without the suffix of the compression.
    src/export/writer.go:280-295 writeMetaToFile *)
Definition writeMetaToFile (o : file_oracle) (target metaSQL path : string) : files_and_error :=
  match buildFileWriter o path (cCompressType conf) with
  | Err e => ([], Some e)
  | Ok (name, tearDown) =>
      let '(text, err) := WriteMeta (chunk_err o) (mkMetaData target metaSQL (EffectivePreamble conf)) in
      ([(name, text)], match err with None => tearDown | Some e => Some e end)
  end.

(** One metadata file: the name that template [sub] renders, then the file. *)
Definition write_meta_file (o : file_oracle) (sub : string) (n : outputFileNamer)
    (target metaSQL : string) : files_and_error :=
  match render (OutputFileTemplate conf) sub n with
  | Err e => ([], Some e)
  | Ok fileName => writeMetaToFile o target metaSQL (fileName +:+ ".sql")
  end.

(** src/export/writer.go:129-136 WritePolicyMeta *)
Definition WritePolicyMeta (o : file_oracle) (policy createSQL : string) : files_and_error :=
  write_meta_file o "placement-policy" (mkNamer 0 0 policy EmptyString EmptyString fmt_none)
    "placement-policy" createSQL.

(** src/export/writer.go:139-146 WriteDatabaseMeta *)
Definition WriteDatabaseMeta (o : file_oracle) (db createSQL : string) : files_and_error :=
  write_meta_file o "schema" (object_namer db EmptyString) db createSQL.

(** src/export/writer.go:149-156 WriteTableMeta *)
Definition WriteTableMeta (o : file_oracle) (db table createSQL : string) : files_and_error :=
  write_meta_file o "table" (object_namer db table) db createSQL.

(** Both names are rendered before the first file is written; the view's file
    comes after the one of its table definition.
    src/export/writer.go:159-174 WriteViewMeta *)
Definition WriteViewMeta (o1 o2 : file_oracle) (db view createTableSQL createViewSQL : string)
    : files_and_error :=
  match render (OutputFileTemplate conf) "table" (object_namer db view),
        render (OutputFileTemplate conf) "view" (object_namer db view) with
  | Err e, _ => ([], Some e)
  | Ok _, Err e => ([], Some e)
  | Ok fileNameTable, Ok fileNameView =>
      match writeMetaToFile o1 db createTableSQL (fileNameTable +:+ ".sql") with
      | (files, Some e) => (files, Some e)
      | (files, None) =>
          let '(files', err) := writeMetaToFile o2 db createViewSQL (fileNameView +:+ ".sql") in
          (files ++ files', err)
      end
  end.

(** src/export/writer.go:177-184 WriteSequenceMeta *)
Definition WriteSequenceMeta (o : file_oracle) (db sequence createSQL : string) : files_and_error :=
  write_meta_file o "sequence" (object_namer db sequence) db createSQL.

(** The metadata of a free query, from the columns of its result.
    src/export/ir.go:89-112 setTableMetaFromRows *)
Definition setTableMetaFromRows (cols : list ColumnType) : tableMeta :=
  mkTableMeta EmptyString EmptyString cols
    (join "," (map (fun c => pgQuoteIdent (ct_Name c)) cols))
    (join "," (map (fun c => QuoteIdent (conf_Dialect conf) (ct_Name c)) cols))
    (Z.of_nat (length cols)) (EffectivePreamble conf) EmptyString EmptyString 0 false.

(** ** Table data, with retries *)

(** src/export/dump.go:792-799 canRebuildConn *)
Definition canRebuildConn (consistency : string) (trxConsistencyOnly : bool) : bool :=
  one_of consistency ["snapshot"; "none"; "auto"].

(** The worker's connection and what it does to the outside: [rebuild] is
    [rebuildConnFn], [query_ctx] the columns and the cursor of a query. *)
Context {E : Type}.
Variable rebuild : E -> result unit * E.
Variable query_ctx : E -> string -> result (list ColumnType * cursor) * E.
Variable fileFmt : FileFormat.
(** the files of each attempt *)
Variable oracle : Z -> nat -> file_oracle.
Variable done : nat -> bool.

(** An open query: the task with its column count, the columns, the cursor.
    src/export/ir_impl.go:203-231 tableData.Start *)
Definition tableData_Start (td : tableData) (e : E) : result (tableData * list ColumnType * cursor) * E :=
  let annotate x := EAnnotate x "sql: %s" [AStr (query td)] in
  match query_ctx e (query td) with
  | (Err x, e) => (Err (annotate x), e)
  | (Ok (cols, rows), e) =>
      match cursor_Err rows with
      | Some x => (Err (annotate x), e)
      | None =>
          let colLen := if needColTypes td then Z.of_nat (length cols) else colLen td in
          (Ok (mkTableData (query td) colLen (needColTypes td), cols, rows), e)
      end
  end.

(** The storage: what each path holds. *)
Definition store (files : list (string * string)) (m : gmap string string) : gmap string string :=
  foldl (fun m f => <[fst f := snd f]> m) m files.

(** The state of [WriteTableData]'s attempts: the connection, the number of
    attempts, the storage and the gauge of finished rows. *)
Record worker := mkWorker {
  conn : E;
  retryTime : Z;
  storage : gmap string string;
  finishedRows : Z
}.

(** The metadata the files are written with: of the table, or of the result
    of a free query. *)
Definition data_meta (meta : tableMeta) (cols : list ColumnType) : tableMeta :=
  if negb (String.eqb (SQL conf) EmptyString) then setTableMetaFromRows cols else meta.

(** One attempt.
    src/export/writer.go:192-229 WriteTableData *)
Definition WriteTableData_attempt (meta : tableMeta) (ir : tableData) (currentChunk : Z) (w : worker)
    : option error * worker :=
  let retry := retryTime w + 1 in
  let step e := mkWorker e retry (storage w) (finishedRows w) in
  match (if 1 <? retry then rebuild (conn w) else (Ok tt, conn w)) with
  | (Err x, e) => (Some x, step e)
  | (Ok _, e) =>
      match tableData_Start ir e with
      | (Err x, e) => (Some x, step e)
      | (Ok (td, cols, rows), e) =>
          let meta := data_meta meta cols in
          match (if negb (String.eqb (SQL conf) EmptyString) then cursor_Err rows else None) with
          | Some x => (Some x, step e)
          | None =>
              match tryToWriteTableData conf meta (Z.to_nat (colLen td)) fileFmt (oracle retry)
                      (S (S (S (length (rest rows))))) (newRowIter rows) currentChunk with
              | None => (Some (EForeign "out of fuel"), step e)
              | Some a =>
                  (a_err a, mkWorker e retry (store (a_files a) (storage w)) (finishedRows w + a_rows a))
              end
          end
      end
  end.

(** src/export/writer.go:188-230 WriteTableData *)
Definition WriteTableData (meta : tableMeta) (ir : tableData) (currentChunk : Z) (w : worker)
    : option (retried worker) :=
  WithRetry retry_fuel (WriteTableData_attempt meta ir currentChunk) done [] []
    (newRebuildConnBackOffer (canRebuildConn (Consistency conf) (TransactionalConsistency conf)))
    (mkWorker (conn w) 0 (storage w) (finishedRows w)).

(** *** Correctness of an attempt *)

(** What a successful write of the chunk leaves in the storage: the query of
    the task [ir] returned rows that are all in the files of the chunk, in
    their order, and every one of those files is stored. *)
Definition chunk_stored (meta : tableMeta) (ir : tableData) (currentChunk : Z) (w : worker) : Prop :=
  exists e e' td cols rows a parts,
    tableData_Start ir e = (Ok (td, cols, rows), e') /\
    files_ok conf (data_meta meta cols) fileFmt (newRowIter rows) currentChunk 0 parts a /\
    (forall i f, a_files a !! i = Some f -> storage w !! fst f = Some (snd f)).

Lemma store_lookup files m i p t :
  NoDup (map fst files) -> files !! i = Some (p, t) -> store files m !! p = Some t.
Proof.
  revert m i. induction files as [|[p' t'] files IH] using rev_ind; intros m i Hd Hi; [done|].
  rewrite map_app in Hd. cbn in Hd. apply NoDup_app in Hd as (Hd & Hn & _).
  unfold store. rewrite foldl_app. cbn. change (foldl _ m files) with (store files m).
  apply lookup_app_Some in Hi as [Hi|[_ Hi]].
  - rewrite lookup_insert_ne; [by eapply IH|]. intros <-. eapply Hn; [|by left].
    apply list_elem_of_fmap. exists (p', t). split; [done|]. by eapply list_elem_of_lookup_2.
  - apply list_lookup_singleton_Some in Hi as [_ [= -> ->]]. by rewrite lookup_insert_eq.
Qed.

Hypothesis default_template : OutputFileTemplate conf = DefaultOutputFileTemplate.

Lemma chunk_valid (it : rowIter) meta currentChunk parts a i f :
  0 <= currentChunk < 10 ^ 9 -> (Rows conf = UnspecifiedSize -> currentChunk = 0) ->
  files_ok conf meta fileFmt it currentChunk 0 parts a -> a_files a !! i = Some f ->
  valid_output (chunk_naming conf fileFmt) (OData (database meta) (table meta) currentChunk (Z.of_nat i)).
Proof.
  intros Hc Hr [_ _ _ _ Hfull _] Hi. cbn. split_and!; try lia.
  destruct (Z.eqb_spec (FileSize conf) UnspecifiedSize) as [Hu|]; [|done]. intros _.
  destruct i as [|i]; [done|]. pose proof (lookup_lt_Some _ _ _ Hi) as Hl.
  destruct (lookup_lt_is_Some_2 (a_files a) 0) as [f0 Hf]; [lia|].
  destruct (Hfull 0%nat f0) as [Hne _]; [lia|done|done].
Qed.

(** The files of a chunk have different paths. *)
Lemma chunk_paths_distinct (it : rowIter) meta currentChunk parts a :
  0 <= currentChunk < 10 ^ 9 -> (Rows conf = UnspecifiedSize -> currentChunk = 0) ->
  files_ok conf meta fileFmt it currentChunk 0 parts a -> NoDup (map fst (a_files a)).
Proof.
  intros Hc Hr Hok. apply NoDup_alt. intros i j p Hi Hj.
  apply list_lookup_fmap_Some in Hi as (f1 & E1 & Hi).
  apply list_lookup_fmap_Some in Hj as (f2 & E2 & Hj). subst p.
  pose proof (fs_paths _ _ _ _ _ _ _ _ Hok _ _ Hi) as P1.
  pose proof (fs_paths _ _ _ _ _ _ _ _ Hok _ _ Hj) as P2.
  rewrite <- E2, <- P1 in P2. clear P1.
  unfold chunk_path in P2. rewrite default_template, !out_path_base in P2 by done.
  apply (inj Ok), sapp_inj_r, base_path_inj in P2; try done; try by eapply chunk_valid.
  injection P2 as P2. lia.
Qed.

(** The driver: a query starts before its first row, and its rows fit the
    columns of the task; no result has 2^63 rows. *)
Definition result_fits (meta : tableMeta) (ir : tableData) : Prop :=
  forall e e' td cols rows, tableData_Start ir e = (Ok (td, cols, rows), e') ->
  cur rows = None /\ Z.of_nat (length (rest rows)) + 6 < 2 ^ 63 /\
  Forall (width_ok conf (data_meta meta cols) (Z.to_nat (colLen td))) (rest rows).

Hypothesis terminated : CsvLineTerminator conf <> EmptyString.
Hypothesis size_range : 0 <= FileSize conf.

Lemma attempt_ok meta ir currentChunk w w' :
  result_fits meta ir ->
  0 <= currentChunk < 10 ^ 9 -> (Rows conf = UnspecifiedSize -> currentChunk = 0) ->
  WriteTableData_attempt meta ir currentChunk w = (None, w') ->
  chunk_stored meta ir currentChunk w'.
Proof.
  intros Hq Hc Hr. unfold WriteTableData_attempt.
  destruct (if 1 <? retryTime w + 1 then _ else _) as [[[]|x] e]; [|done].
  destruct (tableData_Start ir e) as [[[[td cols] rows]|x] e'] eqn:Hs; [|done].
  destruct (Hq _ _ _ _ _ Hs) as (Hcur & Hlen & Hw).
  destruct (if negb (String.eqb (SQL conf) EmptyString) then cursor_Err rows else None); [done|].
  destruct (newRowIter_ok rows Hcur) as (Hi & Hp & _).
  pose proof (tryToWriteTableData_spec conf (data_meta meta cols) (Z.to_nat (colLen td)) fileFmt
    (oracle (retryTime w + 1)) terminated size_range currentChunk (newRowIter rows)
    (S (S (S (length (rest rows)))))) as Hspec.
  rewrite Hp in Hspec. destruct Hspec as (a & -> & Ha); try done; try lia.
  intros [= He <-]. destruct (Ha He) as [parts Hparts].
  exists e, e', td, cols, rows, a, parts. split_and!; try done.
  intros i [p t] Hf. cbn. eapply store_lookup; [|exact Hf].
  by eapply chunk_paths_distinct.
Qed.

(** The attempts that the connection allows. *)
Definition attempts_allowed : Z :=
  if canRebuildConn (Consistency conf) (TransactionalConsistency conf) then 3 else 1.

Lemma WriteTableData_ok meta ir currentChunk w :
  result_fits meta ir ->
  0 <= currentChunk < 10 ^ 9 -> (Rows conf = UnspecifiedSize -> currentChunk = 0) ->
  exists r, WriteTableData meta ir currentChunk w = Some r /\
    tried (WriteTableData_attempt meta ir currentChunk) done attempts_allowed
      (mkWorker (conn w) 0 (storage w) (finishedRows w)) r /\
    (errs r = [] -> chunk_stored meta ir currentChunk (env_after r)).
Proof.
  intros Hq Hc Hr. unfold WriteTableData.
  set (b := newRebuildConnBackOffer _). set (w0 := mkWorker _ 0 _ _).
  assert (Attempt b = attempts_allowed /\ 0 < Attempt b <= 3) as [<- Hb]
    by (unfold b, attempts_allowed; by destruct (canRebuildConn _ _)).
  clearbody b.
  destruct (WithRetry_tried (WriteTableData_attempt meta ir currentChunk) done retry_fuel b w0)
    as (r & Hrun & Htried); [change (Z.of_nat retry_fuel) with 4; lia|].
  exists r. split_and!; [done|done|].
  intros He. destruct (WithRetry_inv (WriteTableData_attempt meta ir currentChunk) done
      (fun _ => True) (chunk_stored meta ir currentChunk) retry_fuel ltac:(done)
      (fun w w' _ H => attempt_ok meta ir currentChunk w w' Hq Hc Hr H) b [] [] w0 r Hrun I) as [[_ HQ]|[HQ _]];
      [right; lia|done|done].
Qed.

(** C12: writing the data of a task always returns.  It makes at least one and
    at most three attempts, one after the other (only one if the connection
    cannot be replaced), each from the state that the previous one left, and
    stops at the first that succeeds.  When one succeeds it returns the nil
    error, and the storage holds the files of the chunk of that attempt,
    whatever earlier attempts left behind: every row of its query is in
    exactly one of them, under the path of the chunk and its position.
    Otherwise it returns the errors of all attempts, in order, and made all of
    them unless the context was done. *)
Theorem retried_chunk_complete meta ir currentChunk w :
  result_fits meta ir ->
  0 <= currentChunk < 10 ^ 9 -> (Rows conf = UnspecifiedSize -> currentChunk = 0) ->
  exists r n, WriteTableData meta ir currentChunk w = Some r /\
    1 <= Z.of_nat n <= attempts_allowed /\ attempts_allowed <= 3 /\
    let '(outcomes, w') := attempts n (WriteTableData_attempt meta ir currentChunk)
                             (mkWorker (conn w) 0 (storage w) (finishedRows w)) in
    env_after r = w' /\
    ((errs r = [] /\ (exists xs, outcomes = map Some xs ++ [None]) /\ chunk_stored meta ir currentChunk w') \/
     (errs r <> [] /\ outcomes = map Some (errs r) /\ (Z.of_nat n = attempts_allowed \/ done n = true))).
Proof.
  intros Hq Hc Hr. destruct (WriteTableData_ok meta ir currentChunk w Hq Hc Hr) as (r & Hrun & (n & Hn & He & Hres) & Hok).
  exists r, n. split_and!; [done|lia|lia|unfold attempts_allowed; by destruct (canRebuildConn _ _)|].
  destruct (attempts n _ _) as [outcomes w']. cbn in He, Hres. subst w'. split; [done|].
  destruct Hres as [[Hnil Hxs]|Hres]; [left|by right]. by split_and!; [| |apply Hok].
Qed.

(** ** Tasks *)

(** The error of the retry loop: none, the only one, or all of them. *)
Definition multierr (es : list error) : option error :=
  match es with
  | [] => None
  | [e] => Some e
  | _ => Some (EAnnotate (EForeign "multierr") "%d errors" [AInt (Z.of_nat (length es))])
  end.

(** What handling a task returns: its error, the worker after it, and whether
    it ran the callback of finished tables. *)
Record handled := mkHandled { h_err : option error; h_worker : worker; h_table_finished : bool }.

Definition store_files (w : worker) (fe : files_and_error) : handled :=
  mkHandled (snd fe) (mkWorker (conn w) (retryTime w) (store (fst fe) (storage w)) (finishedRows w)) false.

(** [mo k] is the oracle of the [k]-th metadata file of the task.
    src/export/writer.go:102-127 handleTask *)
Definition handleTask (mo : nat -> file_oracle) (t : Task) (w : worker) : option handled :=
  match t with
  | TaskDatabaseMeta db sql => Some (store_files w (WriteDatabaseMeta (mo 0%nat) db sql))
  | TaskTableMeta db tbl sql => Some (store_files w (WriteTableMeta (mo 0%nat) db tbl sql))
  | TaskViewMeta db v tsql vsql => Some (store_files w (WriteViewMeta (mo 0%nat) (mo 1%nat) db v tsql vsql))
  | TaskSequenceMeta db s sql => Some (store_files w (WriteSequenceMeta (mo 0%nat) db s sql))
  | TaskPolicyMeta p sql => Some (store_files w (WritePolicyMeta (mo 0%nat) p sql))
  | TaskTableData meta data chunk total =>
      r ← WriteTableData meta data chunk w;
      Some (match errs r with
            | [] => mkHandled None (env_after r) (i64 (chunk + 1) =? total)
            | es => mkHandled (multierr es) (env_after r) false
            end)
  end.

(** What a worker leaves when its loop ends: the error, the worker, how many
    tasks it received, and those it finished. *)
Record worker_end := mkEnd {
  e_err : option error;
  e_worker : worker;
  receivedTaskCount : Z;
  finished : list Task
}.

(** The loop of a worker over the tasks it gets from the stream, in order;
    [cancelled k] says that its context is done before the [k]-th receive.
    src/export/writer.go:81-100 run *)
Fixpoint run (mo : nat -> nat -> file_oracle) (cancelled : nat -> bool) (k : nat) (tasks : list Task)
    (r : worker_end) : option worker_end :=
  if cancelled k then Some r
  else
    match tasks with
    | [] => Some r
    | t :: tasks' =>
        h ← handleTask (mo k) t (e_worker r);
        let count := receivedTaskCount r + 1 in
        match h_err h with
        | Some e => Some (mkEnd (Some e) (h_worker h) count (finished r))
        | None => run mo cancelled (S k) tasks' (mkEnd None (h_worker h) count (finished r ++ [t]))
        end
    end.

(** *** Metadata files *)

Lemma write_all_ok write_err chunks : forall k text,
  write_all write_err k chunks = (text, None) -> text = sconcat chunks.
Proof.
  induction chunks as [|s chunks IH]; intros k text; cbn; [by intros [= <-]|].
  destruct (write_err k); [done|]. destruct (write_all write_err (S k) chunks) as [t e] eqn:E'.
  intros [= <- ->]. by rewrite (IH _ _ E').
Qed.

(** The text of a metadata file: the preamble, a line each, then the
    statement with its terminator. *)
Definition meta_text (sql : string) : string :=
  sconcat (map (fun c => c +:+ str1 newline) (EffectivePreamble conf)) +:+
  (if has_suffix (";" +:+ str1 newline) sql then sql else sql +:+ ";" +:+ str1 newline).

Lemma writeMetaToFile_ok o target sql path files :
  writeMetaToFile o target sql path = (files, None) ->
  files = [(storage_name (cCompressType conf) path, meta_text sql)].
Proof.
  unfold writeMetaToFile, buildFileWriter, WriteMeta. destruct (create_err o); [done|].
  destruct (write_all _ _ _) as [text [e|]] eqn:Ew; [done|]. intros [= <- _].
  apply write_all_ok in Ew as ->. cbn [metaCmts].
  rewrite sconcat_app. cbn [sconcat]. rewrite sapp_nil_r. unfold meta_text, MetaSQL. cbn [metaSQL fst].
  by destruct (has_suffix _ sql).
Qed.

Lemma write_meta_file_ok o sub n target sql files path :
  write_meta_file o sub n target sql = (files, None) ->
  meta_path (OutputFileTemplate conf) (cCompressType conf) sub n = Ok path ->
  files = [(path, meta_text sql)].
Proof.
  unfold write_meta_file, meta_path. destruct (render _ sub n) as [f|e]; cbn; [|done].
  intros Hw [= <-]. by apply writeMetaToFile_ok in Hw.
Qed.

(** The files of a metadata task. *)
Definition meta_outputs (t : Task) : list (output_file * string) :=
  match t with
  | TaskDatabaseMeta db sql => [(OSchema db, sql)]
  | TaskTableMeta db tbl sql => [(OTable db tbl, sql)]
  | TaskViewMeta db v tsql vsql => [(OTable db v, tsql); (OView db v, vsql)]
  | TaskSequenceMeta db s sql => [(OSequence db s, sql)]
  | TaskPolicyMeta p sql => [(OPolicy p, sql)]
  | TaskTableData _ _ _ _ => []
  end.

(** *** What a task writes *)

(** The output files of a task. *)
Definition outputs (t : Task) (o : output_file) : Prop :=
  match t with
  | TaskTableData m _ chunk _ => exists i, o = OData (database m) (table m) chunk i
  | _ => exists sql, (o, sql) ∈ meta_outputs t
  end.

Definition owns (t : Task) (p : string) : Prop :=
  exists o, outputs t o /\ o <> OMetadata /\ valid_output (chunk_naming conf fileFmt) o /\
            out_path (OutputFileTemplate conf) (chunk_naming conf fileFmt) o = Ok p.

(** A task that the dump sends: the chunk index fits its digits and is zero
    without --rows, and the result of its query fits its columns. *)
Definition task_fits (t : Task) : Prop :=
  match t with
  | TaskTableData m data chunk _ =>
      result_fits m data /\ 0 <= chunk < 10 ^ 9 /\ (Rows conf = UnspecifiedSize -> chunk = 0)
  | _ => True
  end.

(** The files of the task are complete in the storage of [w]. *)
Definition task_stored (t : Task) (w : worker) : Prop :=
  match t with
  | TaskTableData m data chunk _ => chunk_stored m data chunk w
  | _ => forall o sql path, (o, sql) ∈ meta_outputs t ->
         out_path (OutputFileTemplate conf) (chunk_naming conf fileFmt) o = Ok path ->
         storage w !! path = Some (meta_text sql)
  end.

Definition frame (t : Task) (w w' : worker) : Prop :=
  forall p, ~ owns t p -> storage w' !! p = storage w !! p.

Hypothesis no_sql : SQL conf = EmptyString.

Lemma data_meta_table meta cols : data_meta meta cols = meta.
Proof. unfold data_meta. by rewrite no_sql. Qed.

Lemma owns_disjoint t1 t2 p :
  (forall o, outputs t1 o -> ~ outputs t2 o) -> owns t1 p -> ~ owns t2 p.
Proof.
  intros Hd (o1 & O1 & N1 & V1 & P1) (o2 & O2 & N2 & V2 & P2).
  rewrite default_template, out_path_base in P1, P2 by done. rewrite <- P1 in P2.
  apply (inj Ok), sapp_inj_r, base_path_inj in P2; try done. subst o2. by apply (Hd o1).
Qed.

Lemma store_frame t files m p :
  Forall (fun f => owns t (fst f)) files -> ~ owns t p -> store files m !! p = m !! p.
Proof.
  intros Hf Hp. revert m. induction Hf as [|[q s] files Hq _ IH]; intros m; [done|].
  unfold store. cbn. change (foldl _ ?x files) with (store files x). rewrite IH.
  apply lookup_insert_ne. intros ->. by apply Hp.
Qed.

(** The file index does not matter without --filesize. *)
Lemma chunk_path_owned m data chunk total i p :
  0 <= chunk < 10 ^ 9 -> (Rows conf = UnspecifiedSize -> chunk = 0) -> 0 <= i ->
  chunk_path conf m fileFmt chunk i = Ok p -> owns (TaskTableData m data chunk total) p.
Proof.
  intros Hc Hr Hi Hp. set (j := if FileSize conf =? UnspecifiedSize then 0 else i).
  exists (OData (database m) (table m) chunk j). split_and!; [by exists j|done| |].
  - cbn. unfold j. destruct (FileSize conf =? UnspecifiedSize); cbn; split_and!; lia || done.
  - rewrite <- Hp. unfold chunk_path, j. rewrite default_template.
    destruct (FileSize conf =? UnspecifiedSize) eqn:Hz; [|done].
    unfold out_path, chunk_naming. cbn. rewrite Hz. by destruct (negb (Rows conf =? UnspecifiedSize)).
Qed.

Lemma attempt_frame m data chunk total w x w' :
  task_fits (TaskTableData m data chunk total) ->
  WriteTableData_attempt m data chunk w = (x, w') -> frame (TaskTableData m data chunk total) w w'.
Proof.
  intros (Hq & Hc & Hr). unfold WriteTableData_attempt, frame.
  destruct (if 1 <? retryTime w + 1 then _ else _) as [[[]|e0] e]; [|by intros [= _ <-]].
  destruct (tableData_Start data e) as [[[[td cols] rows]|e0] e'] eqn:Hs; [|by intros [= _ <-]].
  destruct (Hq _ _ _ _ _ Hs) as (_ & Hlen & _). rewrite data_meta_table.
  destruct (if negb (String.eqb (SQL conf) EmptyString) then cursor_Err rows else None); [by intros [= _ <-]|].
  destruct (tryToWriteTableData _ _ _ _ _ _ _ _) as [a|] eqn:Ha; [|by intros [= _ <-]].
  intros [= _ <-] p Hp. cbn. apply (store_frame (TaskTableData m data chunk total)); [|done].
  apply tryToWriteTableData_paths in Ha; [|lia].
  eapply Forall_impl; [exact Ha|]. intros f (i & Hi & Hf). by eapply chunk_path_owned.
Qed.

Lemma WriteTableData_frame m data chunk total w r :
  task_fits (TaskTableData m data chunk total) ->
  WriteTableData m data chunk w = Some r -> frame (TaskTableData m data chunk total) w (env_after r).
Proof.
  intros Hf Hr. unfold WriteTableData in Hr.
  set (b := newRebuildConnBackOffer _) in Hr.
  assert (0 < Attempt b) as Hb by (unfold b; by destruct (canRebuildConn _ _)).
  destruct (WithRetry_inv (WriteTableData_attempt m data chunk) done
    (frame (TaskTableData m data chunk total) w) (frame (TaskTableData m data chunk total) w) retry_fuel)
    with b (@nil error) (@nil Z) (mkWorker (conn w) 0 (storage w) (finishedRows w)) r
    as [[_ Hfr]|[_ Hfr]]; try done; [| |by right].
  - intros w1 x w2 H1' H2' p Hp. rewrite (attempt_frame m data chunk total w1 _ w2 Hf H2' p Hp). by apply H1'.
  - intros w1 w2 H1' H2' p Hp. rewrite (attempt_frame m data chunk total w1 _ w2 Hf H2' p Hp). by apply H1'.
Qed.

(** The files of a metadata task, complete or not, are among its own. *)
Lemma meta_file_owned o n sub target sql files t out s :
  fst (write_meta_file o sub n target sql) = files -> (out, s) ∈ meta_outputs t ->
  meta_path (OutputFileTemplate conf) (cCompressType conf) sub n =
    out_path (OutputFileTemplate conf) (chunk_naming conf fileFmt) out ->
  Forall (fun f => owns t (fst f)) files.
Proof.
  intros <- Hin Hp. unfold write_meta_file, meta_path in *.
  destruct (render (OutputFileTemplate conf) sub n) as [f|e]; [|by constructor]. cbn in Hp.
  unfold writeMetaToFile, buildFileWriter. destruct (create_err o); [by constructor|].
  destruct (WriteMeta _ _) as [text err]. repeat constructor. cbn [fst].
  exists out. split_and!; try done.
  - destruct t; try (by eexists); by inversion Hin.
  - destruct t; cbn in Hin; set_solver.
  - destruct t; cbn in Hin; try (repeat (apply elem_of_cons in Hin as [[= -> ->]|Hin]; [done|])); by inversion Hin.
Qed.

Lemma writeMetaToFile_path o target sql path :
  Forall (fun f => fst f = storage_name (cCompressType conf) path) (fst (writeMetaToFile o target sql path)).
Proof.
  unfold writeMetaToFile, buildFileWriter. destruct (create_err o); [by constructor|].
  destruct (WriteMeta _ _) as [text err]. by repeat constructor.
Qed.

Lemma view_owned o1 o2 db v tsql vsql :
  Forall (fun f => owns (TaskViewMeta db v tsql vsql) (fst f)) (fst (WriteViewMeta o1 o2 db v tsql vsql)).
Proof.
  assert (forall out s path, (out, s) ∈ meta_outputs (TaskViewMeta db v tsql vsql) ->
    out_path (OutputFileTemplate conf) (chunk_naming conf fileFmt) out = Ok path ->
    forall o target sql name, storage_name (cCompressType conf) (name +:+ ".sql") = path ->
    Forall (fun f => owns (TaskViewMeta db v tsql vsql) (fst f)) (fst (writeMetaToFile o target sql (name +:+ ".sql")))) as Hone.
  { intros out s path Hin Hp o target sql name Hn. eapply Forall_impl; [apply writeMetaToFile_path|].
    intros f Hf. cbn beta in Hf. rewrite Hf, Hn. exists out. split_and!; [by exists s| | |done];
      cbn in Hin; repeat (apply elem_of_cons in Hin as [[= -> ->]|Hin]; [done|]); by inversion Hin. }
  unfold WriteViewMeta.
  destruct (render (OutputFileTemplate conf) "table" (object_namer db v)) as [nt|e] eqn:Et; [|by constructor].
  destruct (render (OutputFileTemplate conf) "view" (object_namer db v)) as [nv|e] eqn:Ev; [|by constructor].
  assert (Forall (fun f => owns (TaskViewMeta db v tsql vsql) (fst f))
    (fst (writeMetaToFile o1 db tsql (nt +:+ ".sql")))) as H1'.
  { eapply (Hone (OTable db v)); [by left| |done]. cbn. unfold meta_path. by rewrite Et. }
  destruct (writeMetaToFile o1 db tsql (nt +:+ ".sql")) as [files [e|]]; [done|].
  assert (Forall (fun f => owns (TaskViewMeta db v tsql vsql) (fst f))
    (fst (writeMetaToFile o2 db vsql (nv +:+ ".sql")))) as H2'.
  { eapply (Hone (OView db v)); [by right; left| |done]. cbn. unfold meta_path. by rewrite Ev. }
  destruct (writeMetaToFile o2 db vsql (nv +:+ ".sql")) as [files' err].
  apply Forall_app. by split.
Qed.

Lemma handleTask_frame mo t w h :
  task_fits t -> handleTask mo t w = Some h -> frame t w (h_worker h).
Proof.
  intros Hfit Hh p Hp.
  assert (forall fe, h = store_files w fe -> Forall (fun f => owns t (fst f)) (fst fe) ->
    storage (h_worker h) !! p = storage w !! p) as Hstore.
  { intros fe -> Hf. by apply (store_frame t). }
  destruct t; cbn [handleTask] in Hh; try (injection Hh as <-; eapply Hstore; [done|]).
  - by eapply meta_file_owned; [done|by left|].
  - by eapply meta_file_owned; [done|by left|].
  - apply view_owned.
  - by eapply meta_file_owned; [done|by left|].
  - by eapply meta_file_owned; [done|by left|].
  - destruct (WriteTableData _ _ _ _) as [r|] eqn:Hr; [|done]. cbn in Hh.
    pose proof (WriteTableData_frame _ _ _ _ _ _ Hfit Hr p Hp).
    destruct (errs r); by injection Hh as <-.
Qed.

Lemma store_one_file o sub n target sql w out path :
  meta_path (OutputFileTemplate conf) (cCompressType conf) sub n =
    out_path (OutputFileTemplate conf) (chunk_naming conf fileFmt) out ->
  h_err (store_files w (write_meta_file o sub n target sql)) = None ->
  out_path (OutputFileTemplate conf) (chunk_naming conf fileFmt) out = Ok path ->
  storage (h_worker (store_files w (write_meta_file o sub n target sql))) !! path = Some (meta_text sql).
Proof.
  intros Hp He Hpath. destruct (write_meta_file o sub n target sql) as [files err] eqn:Hw.
  cbn in He. subst err. rewrite Hpath in Hp. eapply write_meta_file_ok in Hw; [|exact Hp]. subst files.
  cbn. apply lookup_insert_eq.
Qed.

Lemma view_stored o1 o2 db v tsql vsql w :
  h_err (store_files w (WriteViewMeta o1 o2 db v tsql vsql)) = None ->
  task_stored (TaskViewMeta db v tsql vsql) (h_worker (store_files w (WriteViewMeta o1 o2 db v tsql vsql))).
Proof.
  intros He o sql path Hin Hpath. cbn in He. unfold WriteViewMeta in *.
  destruct (render (OutputFileTemplate conf) "table" (object_namer db v)) as [nt|e] eqn:Et; [|done].
  destruct (render (OutputFileTemplate conf) "view" (object_namer db v)) as [nv|e] eqn:Ev; [|done].
  destruct (writeMetaToFile o1 db tsql (nt +:+ ".sql")) as [files [e|]] eqn:E1; [done|].
  destruct (writeMetaToFile o2 db vsql (nv +:+ ".sql")) as [files' err] eqn:E2. cbn in He. subst err.
  apply writeMetaToFile_ok in E1, E2. subst files files'. cbn.
  assert (out_path (OutputFileTemplate conf) (chunk_naming conf fileFmt) (OTable db v) =
          Ok (storage_name (cCompressType conf) (nt +:+ ".sql"))) as P1 by (cbn; unfold meta_path; by rewrite Et).
  assert (out_path (OutputFileTemplate conf) (chunk_naming conf fileFmt) (OView db v) =
          Ok (storage_name (cCompressType conf) (nv +:+ ".sql"))) as P2 by (cbn; unfold meta_path; by rewrite Ev).
  cbn in Hin. repeat (apply elem_of_cons in Hin as [[= -> ->]|Hin]); [| |by inversion Hin].
  - rewrite Hpath in P1. apply (inj Ok) in P1 as ->. rewrite lookup_insert_ne; [by rewrite lookup_insert_eq|].
    intros Heq. rewrite Heq, default_template, out_path_base in P2 by done.
    rewrite default_template, out_path_base in Hpath by done. rewrite <- P2 in Hpath.
    by apply (inj Ok), sapp_inj_r, base_path_inj in Hpath.
  - rewrite Hpath in P2. apply (inj Ok) in P2 as ->. by rewrite lookup_insert_eq.
Qed.

Lemma handleTask_stored mo t w h :
  task_fits t -> handleTask mo t w = Some h -> h_err h = None -> task_stored t (h_worker h).
Proof.
  intros Hfit Hh He.
  destruct t; cbn [handleTask] in Hh; try (injection Hh as <-).
  - intros o sql path Hin Hpath. apply list_elem_of_singleton in Hin as [= -> ->].
    eapply store_one_file; [|exact He|exact Hpath]. reflexivity.
  - intros o sql path Hin Hpath. apply list_elem_of_singleton in Hin as [= -> ->].
    eapply store_one_file; [|exact He|exact Hpath]. reflexivity.
  - by apply view_stored.
  - intros o sql path Hin Hpath. apply list_elem_of_singleton in Hin as [= -> ->].
    eapply store_one_file; [|exact He|exact Hpath]. reflexivity.
  - intros o sql path Hin Hpath. apply list_elem_of_singleton in Hin as [= -> ->].
    eapply store_one_file; [|exact He|exact Hpath]. reflexivity.
  - destruct (WriteTableData _ _ _ _) as [r|] eqn:Hr; [|done]. cbn [mbind option_bind] in Hh.
    destruct Hfit as (Hq & Hc & Hrows).
    destruct (WriteTableData_ok Meta Data ChunkIndex w Hq Hc Hrows) as (r' & Hr' & _ & Hok).
    rewrite Hr in Hr'. injection Hr' as <-. destruct (errs r) as [|e [|e' es]] eqn:Hes; injection Hh as <-; try done.
    by apply Hok.
Qed.

Lemma task_stored_keep t w w' :
  task_fits t -> (forall p, owns t p -> storage w' !! p = storage w !! p) ->
  task_stored t w -> task_stored t w'.
Proof.
  intros Hfit Hsame.
  assert (forall p s, owns t p -> storage w !! p = Some s -> storage w' !! p = Some s) as Hkeep
    by (intros p s Ho; by rewrite Hsame).
  destruct t; cbn [task_stored]; intros Hst.
  6: { destruct Hst as (e & e' & td & cols & rows & a & parts & S1 & S2 & S3).
       exists e, e', td, cols, rows, a, parts. split_and!; try done. intros i f Hf.
       apply Hkeep; [|by eapply S3]. destruct Hfit as (_ & Hc & Hr).
       rewrite data_meta_table in S2. apply (chunk_path_owned Meta Data ChunkIndex TotalChunks (Z.of_nat i)); try done; [lia|]. exact (fs_paths _ _ _ _ _ _ _ _ S2 _ _ Hf). }
  all: intros o sql path Hin Hpath; apply Hkeep; [|by eapply Hst];
    exists o; split_and!; [by exists sql| | |done];
    cbn in Hin; repeat (apply elem_of_cons in Hin as [[= -> ->]|Hin]; [done|]); by inversion Hin.
Qed.

Lemma handleTask_total mo t w : task_fits t -> exists h, handleTask mo t w = Some h.
Proof.
  intros Hfit. destruct t; try by eexists. destruct Hfit as (Hq & Hc & Hr).
  cbn [handleTask]. destruct (WriteTableData_ok Meta Data ChunkIndex w Hq Hc Hr) as (r & -> & _).
  by eexists.
Qed.

(** Tasks that write different files. *)
Definition separate (tasks : list Task) : Prop :=
  forall i j t1 t2 o, tasks !! i = Some t1 -> tasks !! j = Some t2 -> i <> j ->
  outputs t1 o -> ~ outputs t2 o.

Lemma separate_tail t tasks : separate (t :: tasks) -> separate tasks.
Proof. intros Hs i j t1 t2 o Hi Hj Hij. apply (Hs (S i) (S j)); [done|done|lia]. Qed.

Lemma run_spec mo cancelled tasks : forall k r,
  Forall task_fits tasks -> separate tasks -> e_err r = None ->
  exists r', run mo cancelled k tasks r = Some r' /\
    exists n, finished r' = finished r ++ take n tasks /\
      (e_err r' = None -> (exists m, cancelled m = true) \/ take n tasks = tasks) /\
      (forall t, t ∈ take n tasks -> task_stored t (e_worker r')) /\
      (forall p, (forall t, t ∈ tasks -> ~ owns t p) -> storage (e_worker r') !! p = storage (e_worker r) !! p).
Proof.
  induction tasks as [|t tasks IH]; intros k r Hfit Hsep He; cbn [run];
    (destruct (cancelled k) eqn:Hcan;
      [exists r; split; [done|]; exists 0%nat; cbn; rewrite app_nil_r; split_and!; try done;
        [by left; eauto|by inversion 1]|]).
  { exists r. split; [done|]. exists 0%nat. cbn. rewrite app_nil_r. split_and!; try done; [by right|by inversion 1]. }
  apply Forall_cons in Hfit as [Ht Hfit].
  destruct (handleTask_total (mo k) t (e_worker r) Ht) as [h Hh]. rewrite Hh. cbn [mbind option_bind].
  pose proof (handleTask_frame _ _ _ _ Ht Hh) as Hfr.
  destruct (h_err h) as [e|] eqn:Herr.
  { eexists. split; [done|]. exists 0%nat. cbn. rewrite app_nil_r. split_and!; try done; [by inversion 1|].
    intros p Hp. apply Hfr, Hp. by left. }
  destruct (IH (S k) (mkEnd None (h_worker h) (receivedTaskCount r + 1) (finished r ++ [t])))
    as (r' & Hrun & n & F1 & F2 & F3 & F4); try done; [by eapply separate_tail|].
  exists r'. split; [done|]. exists (S n). cbn [take finished e_worker] in *.
  split_and!.
  - by rewrite F1, <- app_assoc.
  - intros Hr. destruct (F2 Hr) as [?|Hall]; [by left|right]. by rewrite Hall.
  - intros t' [->|Hin]%elem_of_cons; [|by apply F3].
    assert (forall p, owns t p -> storage (e_worker r') !! p = storage (h_worker h) !! p) as Hkeep.
    { intros p Hp. apply F4. intros t'' Hin. apply list_elem_of_lookup in Hin as [j Hj].
      eapply owns_disjoint; [|exact Hp]. intros o. by apply (Hsep 0%nat (S j)). }
    eapply task_stored_keep; [done|exact Hkeep|]. by eapply handleTask_stored.
  - intros p Hp. rewrite F4; [apply Hfr, Hp; by left|]. intros t' Hin. apply Hp. by right.
Qed.

(** C6: a worker's loop ends, with the tasks it finished a prefix of those it
    received; if it reports no error and its context was not done, it finished
    all of them.  When it ends, the files of every task it finished are
    complete in the storage, and no later task, succeeded or failed, has
    touched them: a metadata file is the preamble and the statement with its
    terminator, the files of a chunk hold all rows of its query. *)
Theorem worker_files_complete mo cancelled tasks w :
  Forall task_fits tasks -> separate tasks ->
  exists r, run mo cancelled 0 tasks (mkEnd None w 0 []) = Some r /\
    (exists n, finished r = take n tasks) /\
    (e_err r = None -> (exists k, cancelled k = true) \/ finished r = tasks) /\
    (forall t, t ∈ finished r -> task_stored t (e_worker r)).
Proof.
  intros Hfit Hsep.
  destruct (run_spec mo cancelled tasks 0 (mkEnd None w 0 []) Hfit Hsep eq_refl)
    as (r & Hr & n & F1 & F2 & F3 & _).
  exists r. cbn in F1. rewrite F1. split_and!; [done|by exists n|done|done].
Qed.
End Worker.

(** ** An example: a schema, a table and its rows *)

#[local] Existing Instances Config.example_regexp Config.example_files Config.example_unicode.

Definition example_cursor : cursor :=
  mkCursor None [Ok [Some "1"; Some "a"]; Ok [Some "2"; None]; Ok [Some "3"; Some "c"]] None None.
(** The query fails once, and succeeds when it is repeated. *)
Definition example_query (e : bool) (q : string) : result (list ColumnType * cursor) * bool :=
  if e then (Ok ([], example_cursor), true) else (Err (EForeign "bad connection"), true).
Definition example_tasks : list Task :=
  [TaskDatabaseMeta "public" "CREATE SCHEMA public";
   TaskTableMeta "public" "t" "CREATE TABLE t ();";
   TaskTableData example_meta (mkTableData "SELECT * FROM t" 2 false) 0 1].
Definition example_run : option worker_end :=
  run example_conf (fun e => (Ok tt, e)) example_query FileFormatSQLText (fun _ => example_oracle)
    (fun _ => false) (fun _ => example_oracle) (fun _ => false) 0 example_tasks
    (mkEnd None (mkWorker false 0 ∅ 0) 0 []).

Lemma example_fits :
  result_fits example_conf example_query example_meta (mkTableData "SELECT * FROM t" 2 false).
Proof.
  intros e1 e2 td cols rows. unfold tableData_Start, example_query. destruct e1; [|done].
  intros [= <- <- <- _]. split_and!; [done|cbn; lia|]. repeat constructor; done.
Qed.

Definition example_write : option (retried (worker (E := bool))) :=
  WriteTableData example_conf (fun e => (Ok tt, e)) example_query FileFormatSQLText
    (fun _ => example_oracle) (fun _ => false) example_meta (mkTableData "SELECT * FROM t" 2 false) 0
    (mkWorker false 0 ∅ 0).

Lemma retried_chunk_complete_witness :
  exists r n, example_write = Some r /\ errs r = [] /\ retryTime (env_after r) = 2 /\ (1 <= n <= 3)%nat /\
    chunk_stored example_conf example_query FileFormatSQLText example_meta
      (mkTableData "SELECT * FROM t" 2 false) 0 (env_after r).
Proof.
  destruct (retried_chunk_complete example_conf (fun e => (Ok tt, e)) example_query FileFormatSQLText
    (fun _ => example_oracle) (fun _ => false) eq_refl ltac:(done) ltac:(done) example_meta
    (mkTableData "SELECT * FROM t" 2 false) 0 (mkWorker false 0 ∅ 0)) as (r & n & Hr & Hn & Hlim & Hres);
    [exact example_fits|done|done|].
  destruct (attempts n _ _) as [outcomes w'], Hres as [<- Hres].
  exists r, n. assert (errs r = [] /\ retryTime (env_after r) = 2) as [He Ht]
    by (clear Hres; vm_compute in Hr; injection Hr as <-; exact (conj eq_refl eq_refl)).
  destruct Hres as [(_ & _ & Hok)|(Hne & _)]; [|destruct (Hne He)].
  refine (conj Hr (conj He (conj Ht (conj _ Hok)))). lia.
Defined.

Lemma worker_files_complete_witness :
  exists r, example_run = Some r /\ e_err r = None /\ finished r = example_tasks /\
    (forall t, t ∈ finished r -> task_stored example_conf example_query FileFormatSQLText t (e_worker r)).
Proof.
  destruct (worker_files_complete example_conf (fun e => (Ok tt, e)) example_query FileFormatSQLText
    (fun _ => example_oracle) (fun _ => false) eq_refl ltac:(done) ltac:(done) eq_refl
    (fun _ => example_oracle) (fun _ => false) example_tasks (mkWorker false 0 ∅ 0))
    as (r & Hr & _ & Hall & Hst).
  - constructor; [done|]. constructor; [done|]. constructor; [|constructor].
    split; [exact example_fits|done].
  - intros [|[|[|i]]] [|[|[|j]]] t1 t2 o; try done; cbn; intros [= <-] [= <-] Hij; try done;
      cbn; intros [? Ho1] [? Ho2]; set_solver.
  - exists r. assert (e_err r = None) as He by (clear Hall Hst; vm_compute in Hr; injection Hr as <-; exact eq_refl).
    split_and!; [exact Hr|exact He| |exact Hst].
    destruct (Hall He) as [[k Hk]|H]; [done|exact H].
Defined.
