(* ===== verification/DataIR.v ===== *)
(** * The interfaces between producer and writer (export/ir.go, export/ir_impl.go)

    Comments of a file, metadata and data of a task are passed as interface
    values.  Here each interface is a class: what the writers rely on are its
    laws, and every implementation of the source is an instance.  [Worker]
    and [TableData] work on the lists and iterators behind the interfaces;
    the theorems here say that through the interfaces they do the same. *)

From S2P Require Import Prelude GoStrings Dialect FilterMatcher FilterParser Filter FileNames.
From S2P Require Import SqlTypes SqlBuilder Conn Tables Config Ir Writer TableData Worker.

(** ** Strings one after the other *)

(** [left_of]: the strings still to come.
    src/export/ir.go:77-80 StringIter *)
Class StringIter (I : Type) := {
  si_Next : I -> string * I;
  si_HasNext : I -> bool;
  left_of : I -> list string;
  si_more i : si_HasNext i = negb (bool_decide (left_of i = []));
  si_head i s l : left_of i = s :: l -> fst (si_Next i) = s /\ left_of (snd (si_Next i)) = l
}.

#[export] Program Instance stringIter_contract : StringIter stringIter := {|
  si_Next := string_Next;
  si_HasNext := string_HasNext;
  left_of i := drop (idx i) (ss i)
|}.
Next Obligation.
  intros [n l]. unfold string_HasNext. cbn [idx ss]. destruct (Nat.ltb_spec n (length l)) as [Hn|Hn].
  - rewrite bool_decide_eq_false_2; [done|]. intros E. apply (f_equal length) in E.
    rewrite length_drop in E. cbn in E. lia.
  - rewrite drop_ge by lia. done.
Qed.
Next Obligation.
  intros [n l] s l' E. unfold string_Next. cbn in *.
  assert (l !! n = Some s) as Hl.
  { rewrite <- (Nat.add_0_r n), <- lookup_drop, E. done. }
  rewrite Hl. split; [done|]. cbn. rewrite (drop_S l s n Hl) in E. by injection E.
Qed.

(** ** Metadata *)

(** src/export/ir.go:83-87 MetaIR *)
Class MetaIR (M : Type) := {
  SpecialComments : M -> stringIter;
  TargetName : M -> string;
  mi_MetaSQL : M -> string * M
}.

(** src/export/ir_impl.go:336-349 metaData *)
Definition metaData_methods : MetaIR metaData := {|
  SpecialComments m := newStringIter (metaCmts m);
  TargetName := target;
  mi_MetaSQL := MetaSQL
|}.
#[export] Existing Instance metaData_methods.

Section WriteMeta.
Context {I : Type} `{StringIter I}.
Variable write_err : nat -> option error.

(** The loop over the comments, the [k]-th write first, and the statement
    after it.
    src/export/writer_util.go:124-140 WriteMeta *)
Fixpoint write_comments (fuel k : nat) (it : I) (sql : string) : option (string * option error) :=
  match fuel with
  | O => None
  | S fuel' =>
      if si_HasNext it then
        let '(c, it) := si_Next it in
        match write_err k with
        | Some e => Some (EmptyString, Some e)
        | None =>
            '(text, err) ← write_comments fuel' (S k) it sql; Some ((c +:+ str1 newline) +:+ text, err)
        end
      else Some (write_all write_err k [sql])
  end.

Lemma write_comments_all fuel : forall k it sql,
  (length (left_of it) < fuel)%nat ->
  write_comments fuel k it sql =
  Some (write_all write_err k (map (fun c => c +:+ str1 newline) (left_of it) ++ [sql])).
Proof.
  induction fuel as [|fuel IH]; intros k it sql Hf; [lia|]. cbn [write_comments]. rewrite si_more.
  destruct (left_of it) as [|c l] eqn:E.
  - by rewrite bool_decide_eq_true_2.
  - rewrite bool_decide_eq_false_2 by done. cbn [negb].
    destruct (si_head it c l E) as [E1 E2]. destruct (si_Next it) as [c' it']. cbn in E1, E2. subst c'.
    cbn [map app write_all]. destruct (write_err k); [done|].
    rewrite IH, E2 by (rewrite E2; cbn in Hf; lia). cbn [mbind option_bind].
    by destruct (write_all write_err (S k) _).
Qed.
End WriteMeta.

(** Through the interface [WriteMeta] writes what [Worker] says. *)
Lemma WriteMeta_interface write_err (meta : metaData) :
  write_comments write_err (S (length (metaCmts meta))) 0 (SpecialComments meta) (fst (mi_MetaSQL meta)) =
  Some (WriteMeta write_err meta).
Proof. by rewrite write_comments_all by (cbn; rewrite drop_0; lia). Qed.

(** ** Metadata of a table *)

Module TableMeta.
(** src/export/ir.go:24-38 TableMeta *)
Class TableMeta (M : Type) := {
  DatabaseName : M -> string;
  TableName : M -> string;
  ColumnCount : M -> Z;
  ColumnTypes : M -> list string;
  ColumnNames : M -> list string;
  SelectedField : M -> string;
  SelectColumns : M -> string;
  SelectedLen : M -> Z;
  SpecialComments : M -> stringIter;
  ShowCreateTable : M -> string;
  ShowCreateView : M -> string;
  AvgRowLength : M -> Z;
  HasImplicitRowID : M -> bool
}.

(** src/export/ir_impl.go:286-328 tableMeta *)
Definition tableMeta_methods : TableMeta tableMeta := {|
  DatabaseName := database;
  TableName := table;
  ColumnCount tm := u64 (Z.of_nat (length (colTypes tm)));
  ColumnTypes := Ir.ColumnTypes;
  ColumnNames := Ir.ColumnNames;
  SelectedField := selectedField;
  SelectColumns := selectColumns;
  SelectedLen := selectedLen;
  SpecialComments tm := newStringIter (specCmts tm);
  ShowCreateTable := showCreateTable;
  ShowCreateView := showCreateView;
  AvgRowLength := avgRowLength;
  HasImplicitRowID := hasImplicitRowID
|}.
End TableMeta.

(** ** Data of a task *)

(** The data of a task, which is started on a connection and then hands out
    one iterator by reference: [ir_iter] is the iterator it holds, and
    [ir_advance] what using that iterator leaves.  [ir_RawRows] is the open
    result with its columns.
    src/export/ir.go:16-21 TableDataIR *)
Class TableDataIR (T I E : Type) := {
  ir_Start : T -> E -> option error * T * E;
  ir_Rows : T -> T;
  ir_iter : T -> option I;
  ir_advance : T -> I -> T;
  ir_colLen : T -> nat;
  ir_RawRows : T -> option (list ColumnType * cursor);
  ir_Close : T -> option error;
  ir_started : T -> Prop;
  start_ready t e t' e' : ir_Start t e = (None, t', e') -> ir_started t' /\ ir_iter t' = None;
  rows_made t : ir_started t -> is_Some (ir_iter (ir_Rows t));
  rows_kept t i : ir_iter t = Some i -> ir_Rows t = t;
  advance_iter t i : ir_iter (ir_advance t i) = Some i;
  advance_colLen t i : ir_colLen (ir_advance t i) = ir_colLen t
}.

Section Interface.
Context `{UnicodeLib} `{RegexpLib} {T I E : Type} `{RowIter I} `{!TableDataIR T I E}.
Variable conf : Config.
Variable meta : tableMeta.
Variable fileFmt : FileFormat.
Variable oracle : nat -> file_oracle.

(** The loop over the files: every file asks the data for its iterator.
    [None] is also the panic of an iterator that is nil.
    src/export/writer.go:240-269 tryToWriteTableData *)
Fixpoint write_files_ir (fuel : nat) (k : nat) (namer : outputFileNamer) (fileName : string) (d : T)
    : option (attempt * T) :=
  match fuel with
  | O => None
  | S fuel' =>
      let o := oracle k in
      let d := ir_Rows d in
      it ← ir_iter d;
      w ← format_WriteInsert conf meta (select o) (write_outcome o) (ir_colLen d) (taken o) fileFmt fuel it;
      let d := ir_advance d (w_iter w) in
      let '(iw, file) := stored conf o fileName w in
      match w_err w with
      | Some e => Some (mkAttempt (Some e) file (w_rows w), d)
      | None =>
          match (if opened iw then close_file_err o else None) with
          | Some e => Some (mkAttempt (Some e) file (w_rows w), d)
          | None =>
              if negb (SomethingIsWritten iw) then Some (mkAttempt None file (w_rows w), d)
              else if FileSize conf =? UnspecifiedSize then Some (mkAttempt None file (w_rows w), d)
              else
                let '(res, namer) := NextName (OutputFileTemplate conf) (Extension fileFmt) namer in
                match res with
                | Err e => Some (mkAttempt (Some e) file (w_rows w), d)
                | Ok fileName =>
                    '(a, d) ← write_files_ir fuel' (S k) namer fileName d;
                    Some (mkAttempt (a_err a) (file ++ a_files a) (w_rows w + a_rows a), d)
                end
          end
      end
  end.

(** src/export/writer.go:232-278 tryToWriteTableData *)
Definition tryToWriteTableData_ir (fuel : nat) (d : T) (curChkIdx : Z) : option (attempt * T) :=
  let namer := newOutputFileNamer (database meta) (table meta) curChkIdx
                 (negb (Rows conf =? UnspecifiedSize)) (negb (FileSize conf =? UnspecifiedSize)) in
  let '(res, namer) := NextName (OutputFileTemplate conf) (Extension fileFmt) namer in
  match res with
  | Err e => Some (mkAttempt (Some e) [] 0, d)
  | Ok fileName => write_files_ir fuel 0 namer fileName d
  end.

(** The iterator handed out by reference is the one passed from file to file. *)
Lemma write_files_interface fuel : forall k namer fileName d it,
  ir_iter (ir_Rows d) = Some it ->
  (write_files_ir fuel k namer fileName d) ≫= (fun p => Some (fst p)) =
  write_files conf meta (ir_colLen (ir_Rows d)) fileFmt oracle fuel k namer fileName it.
Proof.
  induction fuel as [|fuel IH]; intros k namer fileName d it Hit; [done|].
  cbn [write_files_ir write_files]. rewrite Hit. cbn [mbind option_bind].
  destruct (format_WriteInsert _ _ _ _ _ _ _ _ _) as [w|]; [|done]. cbn [mbind option_bind].
  destruct (stored _ _ _ _) as [iw file]. destruct (w_err w); [done|].
  destruct (if opened iw then _ else _); [done|]. destruct (negb (SomethingIsWritten iw)); [done|].
  destruct (FileSize conf =? UnspecifiedSize); [done|].
  destruct (NextName _ _ _) as [[name|e] namer']; [|done].
  pose proof (rows_kept _ _ (advance_iter (ir_Rows d) (w_iter w))) as Hk.
  specialize (IH (S k) namer' name (ir_advance (ir_Rows d) (w_iter w)) (w_iter w)).
  rewrite Hk, advance_iter, advance_colLen in IH. rewrite <- IH by done.
  by destruct (write_files_ir _ _ _ _ _) as [[a d']|].
Qed.

Lemma tryToWriteTableData_interface fuel d it curChkIdx :
  ir_iter (ir_Rows d) = Some it ->
  (tryToWriteTableData_ir fuel d curChkIdx) ≫= (fun p => Some (fst p)) =
  tryToWriteTableData conf meta (ir_colLen (ir_Rows d)) fileFmt oracle fuel it curChkIdx.
Proof.
  intros Hit. unfold tryToWriteTableData_ir, tryToWriteTableData.
  destruct (NextName _ _ _) as [[name|e] namer]; [|done]. by apply write_files_interface.
Qed.

(** What the iterator's use keeps of the data, a whole chunk keeps. *)
Lemma write_files_keeps (P : T -> Prop) fuel :
  (forall d, P d -> P (ir_Rows d)) -> (forall d i, P d -> P (ir_advance d i)) ->
  forall k namer fileName d a d', write_files_ir fuel k namer fileName d = Some (a, d') -> P d -> P d'.
Proof.
  intros HR HA. induction fuel as [|fuel IH]; intros k namer fileName d a d'; [done|]. cbn [write_files_ir].
  destruct (ir_iter (ir_Rows d)) as [it|]; [|done]. cbn [mbind option_bind].
  destruct (format_WriteInsert _ _ _ _ _ _ _ _ _) as [w|]; [|done]. cbn [mbind option_bind].
  destruct (stored _ _ _ _) as [iw file]. destruct (w_err w); [intros [= _ <-]; eauto|].
  destruct (if opened iw then _ else _); [intros [= _ <-]; eauto|].
  destruct (negb (SomethingIsWritten iw)); [intros [= _ <-]; eauto|].
  destruct (FileSize conf =? UnspecifiedSize); [intros [= _ <-]; eauto|].
  destruct (NextName _ _ _) as [[name|e] namer']; [|intros [= _ <-]; eauto].
  destruct (write_files_ir fuel _ _ _ _) as [[a2 d2]|] eqn:E2; [|done]. intros [= _ <-] Hp.
  eapply IH; [exact E2|]. eauto.
Qed.

Lemma tryToWriteTableData_keeps (P : T -> Prop) fuel d curChkIdx a d' :
  (forall d, P d -> P (ir_Rows d)) -> (forall d i, P d -> P (ir_advance d i)) ->
  tryToWriteTableData_ir fuel d curChkIdx = Some (a, d') -> P d -> P d'.
Proof.
  intros HR HA. unfold tryToWriteTableData_ir.
  destruct (NextName _ _ _) as [[name|e] namer]; [by apply write_files_keeps|]. by intros [= _ <-].
Qed.
End Interface.

(** ** The retries of the data of a task *)

Section Retries.
Context `{UnicodeLib} `{RegexpLib} {T I E : Type} `{RowIter I} `{!TableDataIR T I E}.
Variable conf : Config.
Variable rebuild : E -> result unit * E.
Variable fileFmt : FileFormat.
Variable oracle : Z -> nat -> file_oracle.
Variable done : nat -> bool.
(** enough fuel for the rows that data can yield *)
Variable file_fuel : T -> nat.

(** The worker and the data, which is closed at the end of an attempt that
    started it.
    src/export/writer.go:192-229 WriteTableData *)
Definition attempt_ir (meta : tableMeta) (currentChunk : Z) (s : worker (E := E) * T)
    : option error * (worker (E := E) * T) :=
  let '(w, d) := s in
  let retry := retryTime w + 1 in
  let step e d := (mkWorker e retry (storage w) (finishedRows w), d) in
  match (if 1 <? retry then rebuild (conn w) else (Ok tt, conn w)) with
  | (Err x, e) => (Some x, step e d)
  | (Ok _, e) =>
      match ir_Start d e with
      | (Some x, d, e) => (Some x, step e d)
      | (None, d, e) =>
          match
            (if negb (String.eqb (SQL conf) EmptyString)
             then match ir_RawRows d with
                  | Some (cols, rows) => (setTableMetaFromRows conf cols, cursor_Err rows)
                  | None => (meta, Some (EForeign "panic: nil rows"))
                  end
             else (meta, None))
          with
          | (_, Some x) => (Some x, step e d)
          | (meta, None) =>
              match tryToWriteTableData_ir conf meta fileFmt (oracle retry) (file_fuel d) d currentChunk with
              | None => (Some (EForeign "out of fuel"), step e d)
              | Some (a, d) =>
                  (a_err a, (mkWorker e retry (store (a_files a) (storage w)) (finishedRows w + a_rows a), d))
              end
          end
      end
  end.

(** src/export/writer.go:188-230 WriteTableData *)
Definition WriteTableData_ir (meta : tableMeta) (currentChunk : Z) (w : worker (E := E)) (d : T)
    : option (retried (worker (E := E) * T)) :=
  WithRetry retry_fuel (attempt_ir meta currentChunk) done [] []
    (newRebuildConnBackOffer (canRebuildConn (Consistency conf) (TransactionalConsistency conf)))
    (mkWorker (conn w) 0 (storage w) (finishedRows w), d).
End Retries.

(** ** The data of one query *)

(** A task's data with the result it has open: the columns, their types when
    they are wanted, the rows, the iterator once it is made, which then holds
    the rows.
    src/export/ir_impl.go:186-193 tableData *)
Record openData := mkOpenData {
  od_data : tableData;
  od_rows : option (list ColumnType * cursor);
  od_colTypes : list string;
  SQLRowIter : option rowIter
}.

Section Query.
Context {E : Type}.
Variable query_ctx : E -> string -> result (list ColumnType * cursor) * E.

(** src/export/ir_impl.go:203-231 tableData.Start *)
Definition openData_Start (d : openData) (e : E) : option error * openData * E :=
  match tableData_Start query_ctx (od_data d) e with
  | (Err x, e) => (Some x, d, e)
  | (Ok (td, cols, rows), e) =>
      (None, mkOpenData td (Some (cols, rows))
         (if needColTypes td then map ct_DatabaseTypeName cols else od_colTypes d) None, e)
  end.

(** src/export/ir_impl.go:233-240 tableData.Rows *)
Definition openData_Rows (d : openData) : openData :=
  match SQLRowIter d, od_rows d with
  | None, Some (cols, rows) => mkOpenData (od_data d) (od_rows d) (od_colTypes d) (Some (newRowIter rows))
  | _, _ => d
  end.

(** The rows are those of the iterator once there is one.
    src/export/ir_impl.go:252-254 tableData.RawRows *)
Definition openData_RawRows (d : openData) : option (list ColumnType * cursor) :=
  match od_rows d, SQLRowIter d with
  | Some (cols, _), Some i => Some (cols, rows i)
  | r, _ => r
  end.

(** src/export/ir_impl.go:242-250 tableData.Close *)
Definition openData_Close (d : openData) : option error :=
  match SQLRowIter d with
  | Some i => rowIter_Close i
  | None => match od_rows d with Some (_, rows) => close_err rows | None => None end
  end.

Definition openData_methods : TableDataIR openData rowIter E.
Proof.
  refine {| ir_Start := openData_Start; ir_Rows := openData_Rows; ir_iter := SQLRowIter;
    ir_advance d i := mkOpenData (od_data d) (od_rows d) (od_colTypes d) (Some i);
    ir_colLen d := Z.to_nat (colLen (od_data d)); ir_RawRows := openData_RawRows; ir_Close := openData_Close;
    ir_started d := is_Some (od_rows d) |}.
  - intros t e t' e'. unfold openData_Start.
    destruct (tableData_Start _ _ _) as [[[[td cols] rows]|x] e1]; [|done]. intros [= <- _]. cbn. eauto.
  - intros [td [[cols rows]|] ct [i|]] [p Hp]; cbn in *; eauto. done.
  - intros [td r ct [i|]] j [= ->]. done.
  - done.
  - done.
Defined.
#[local] Existing Instance openData_methods.

(** The data as it was made, before it is started. *)
Definition newOpenData (td : tableData) : openData := mkOpenData td None [] None.

Definition query_fuel (d : openData) : nat :=
  match od_rows d with Some (_, rows) => S (S (S (length (rest rows)))) | None => 0 end.

(** [d] is the data [td], started any number of times. *)
Definition data_of (td : tableData) (d : openData) : Prop :=
  query (od_data d) = query td /\ needColTypes (od_data d) = needColTypes td /\
  (needColTypes td = false -> colLen (od_data d) = colLen td).

Lemma start_data_of td d e : data_of td d -> tableData_Start query_ctx (od_data d) e = tableData_Start query_ctx td e.
Proof.
  intros (Hq & Hn & Hl). unfold tableData_Start. rewrite Hq, Hn.
  destruct (query_ctx e (query td)) as [[[cols rows]|x] e']; [|done]. destruct (cursor_Err rows); [done|].
  destruct (needColTypes td); [done|]. by rewrite Hl.
Qed.

Lemma started_data_of td cols rows td' e e' :
  tableData_Start query_ctx td e = (Ok (td', cols, rows), e') ->
  query td' = query td /\ needColTypes td' = needColTypes td /\ (needColTypes td = false -> colLen td' = colLen td).
Proof.
  unfold tableData_Start. destruct (query_ctx e (query td)) as [[[cols' rows']|x] e1]; [|done].
  destruct (cursor_Err rows'); [done|]. intros [= <- <- <- <-]. cbn. split_and!; [done|done|]. by intros ->.
Qed.

Section Attempts.
Context `{UnicodeLib} `{RegexpLib}.
Variable conf : Config.
Variable rebuild : E -> result unit * E.
Variable fileFmt : FileFormat.
Variable oracle : Z -> nat -> file_oracle.
Variable done : nat -> bool.

(** An attempt through the interface does what [Worker]'s attempt does. *)
Lemma attempt_interface meta td chunk w d :
  data_of td d ->
  fst (attempt_ir conf rebuild fileFmt oracle query_fuel meta chunk (w, d)) =
    fst (WriteTableData_attempt conf rebuild query_ctx fileFmt oracle meta td chunk w) /\
  fst (snd (attempt_ir conf rebuild fileFmt oracle query_fuel meta chunk (w, d))) =
    snd (WriteTableData_attempt conf rebuild query_ctx fileFmt oracle meta td chunk w) /\
  data_of td (snd (snd (attempt_ir conf rebuild fileFmt oracle query_fuel meta chunk (w, d)))).
Proof.
  intros Hd. unfold attempt_ir, WriteTableData_attempt.
  destruct (if 1 <? retryTime w + 1 then rebuild (conn w) else _) as [[u|x] e]; [|by split_and!].
  cbn [ir_Start openData_methods]. unfold openData_Start. rewrite (start_data_of td d e Hd).
  destruct (tableData_Start query_ctx td e) as [[[[td' cols] rows]|x] e'] eqn:Es; [|by split_and!].
  apply started_data_of in Es as Hd'. set (d' := mkOpenData td' _ _ _). assert (data_of td d') as Hdd by exact Hd'.
  cbn [ir_RawRows openData_methods openData_RawRows d' od_rows SQLRowIter]. unfold data_meta.
  pose proof (tryToWriteTableData_interface conf (if negb (String.eqb (SQL conf) EmptyString)
    then setTableMetaFromRows conf cols else meta) fileFmt (oracle (retryTime w + 1)) (query_fuel d') d'
    (newRowIter rows) chunk eq_refl) as Hi.
  assert (forall m a d2, tryToWriteTableData_ir conf m fileFmt (oracle (retryTime w + 1)) (query_fuel d') d' chunk =
    Some (a, d2) -> data_of td d2) as Hkeep.
  { intros m a d2 Ht. eapply (tryToWriteTableData_keeps conf m fileFmt _ (data_of td)); [| |exact Ht|done].
    - intros [td1 [[c1 r1]|] ct [i|]]; unfold data_of; cbn; done.
    - done. }
  change (query_fuel d') with (S (S (S (length (rest rows))))) in *.
  cbn [ir_colLen openData_methods ir_Rows openData_Rows d' SQLRowIter od_rows od_data] in Hi.
  destruct (negb (String.eqb (SQL conf) EmptyString)).
  - destruct (cursor_Err rows); [by split_and!|]. rewrite <- Hi.
    destruct (tryToWriteTableData_ir _ _ _ _ _ _ _) as [[a d2]|] eqn:Ht; cbn; split_and!; try done. by eapply Hkeep.
  - rewrite <- Hi.
    destruct (tryToWriteTableData_ir _ _ _ _ _ _ _) as [[a d2]|] eqn:Ht; cbn; split_and!; try done. by eapply Hkeep.
Qed.

(** C13: writing the data of a task through the interface, with one object
    that is started again by every retry and hands out its iterator by
    reference to every file, ends with the errors, the files and the counter
    that [WriteTableData] of [Worker] gives. *)
Theorem data_interface meta td chunk w :
  exists r r', WriteTableData_ir conf rebuild fileFmt oracle done query_fuel meta chunk w (newOpenData td) = Some r /\
    WriteTableData conf rebuild query_ctx fileFmt oracle done meta td chunk w = Some r' /\
    errs r = errs r' /\ delays r = delays r' /\ fst (env_after r) = env_after r'.
Proof.
  unfold WriteTableData_ir, WriteTableData. set (b := newRebuildConnBackOffer _). set (w0 := mkWorker _ _ _ _).
  assert (Attempt b <= dumpChunkRetryTime) as Hb by (unfold b, newRebuildConnBackOffer; by destruct (canRebuildConn _ _)).
  destruct (WithRetry_total (WriteTableData_attempt conf rebuild query_ctx fileFmt oracle meta td chunk) done b w0 Hb)
    as [r' Hr'].
  pose proof (WithRetry_sim (fun s w => fst s = w /\ data_of td (snd s))
    (attempt_ir conf rebuild fileFmt oracle query_fuel meta chunk)
    (WriteTableData_attempt conf rebuild query_ctx fileFmt oracle meta td chunk) done retry_fuel) as Hsim.
  specialize (Hsim ltac:(intros [w1 d] w2 [<- Hd]; destruct (attempt_interface meta td chunk w1 d Hd) as (? & ? & ?);
    by split_and!) [] [] b (w0, newOpenData td) w0 ltac:(by split_and!)).
  rewrite Hr' in Hsim.
  destruct (WithRetry _ (attempt_ir _ _ _ _ _ _ _) _ _ _ _ _) as [r|]; [|done].
  destruct Hsim as (E1 & E2 & _ & E3 & _). by exists r, r'.
Qed.
End Attempts.
End Query.

(** ** The data of several queries *)

(** src/export/ir_impl.go:351-357 multiQueriesChunk *)
Record multiQueriesChunk := mkChunkOf {
  mq_queries : list string;
  mq_colLen : Z;
  mq_iter : option multiIter
}.

(** src/export/ir_impl.go:359-364 newMultiQueriesChunk *)
Definition newMultiQueriesChunk (queries : list string) (colLength : Z) : multiQueriesChunk :=
  mkChunkOf queries colLength None.

Section Multi.
(** the answers of the connection the chunk is started on *)
Variable run : string -> result cursor.

(** The iterator is made when it is first asked for.
    src/export/ir_impl.go:373-378 multiQueriesChunk.Rows *)
Definition multi_Rows (td : multiQueriesChunk) : multiQueriesChunk :=
  match mq_iter td with
  | None => mkChunkOf (mq_queries td) (mq_colLen td) (Some (newMultiQueryChunkIter run (mq_queries td)))
  | Some _ => td
  end.

(** src/export/ir_impl.go:366-371 multiQueriesChunk.Start *)
Definition multi_Start {E} (td : multiQueriesChunk) (conn : E) : option error * multiQueriesChunk * E :=
  (None, mkChunkOf (mq_queries td) (mq_colLen td) None, conn).

(** src/export/ir_impl.go:380-385 multiQueriesChunk.Close *)
Definition chunk_Close (td : multiQueriesChunk) : option error :=
  match mq_iter td with Some i => multi_Close i | None => None end.

(** src/export/ir_impl.go:387-389 multiQueriesChunk.RawRows *)
Definition multi_RawRows (td : multiQueriesChunk) : option (list ColumnType * cursor) := None.

Definition multi_methods {E} : TableDataIR multiQueriesChunk multiIter E.
Proof.
  refine {| ir_Start := multi_Start; ir_Rows := multi_Rows; ir_iter := mq_iter;
    ir_advance td i := mkChunkOf (mq_queries td) (mq_colLen td) (Some i);
    ir_colLen td := Z.to_nat (mq_colLen td); ir_RawRows := multi_RawRows; ir_Close := chunk_Close;
    ir_started td := True |}.
  - intros t e t' e'. unfold multi_Start. by intros [= <- <-].
  - intros [qs n [i|]] _; unfold multi_Rows; cbn; eauto.
  - intros [qs n [i|]] j [= ->]. done.
  - done.
  - done.
Defined.
End Multi.
