(* ===== verification/Consistency.v ===== *)
(** * Consistency (export/consistency.go, connections of export/sql.go)

    The controller that exports a snapshot, the connections that adopt it and
    the replication slot that may come with it.  The server is a function from
    the history of the process to its answers: it may refuse any connection
    and fail any command, depending on all that happened before. *)

From S2P Require Import Prelude GoStrings Dialect FilterMatcher FilterParser Filter SqlTypes.
From S2P Require Import Conn Tables Config Cdc.

(** What the process does to the server; connections are numbered in the
    order of the attempts to open them. *)
Inductive event :=
  | Opened (replication : bool) (c : nat)
  | Refused (replication : bool)
  | Executed (c : nat) (sql : string)
  | Failed (c : nat) (sql : string)
  | Pinged (c : nat) (ok : bool)
  | Closed (c : nat).

#[export] Instance event_eq_dec : EqDecision event.
Proof. solve_decision. Defined.

(** The history of the process, and the variables that the components share:
    the global snapshot token, [conf.Snapshot] and [conf.cdcSlotInfo].
    src/export/sql.go:592-599 pgSnapshotToken *)
Record world := mkWorld {
  history : list event;
  pgSnapshotToken : string;
  confSnapshot : string;
  confSlot : option cdcSlotInfo
}.

Definition add_event (ev : event) (w : world) : world :=
  mkWorld (history w ++ [ev]) (pgSnapshotToken w) (confSnapshot w) (confSlot w).

(** src/export/sql.go:622-625 SetPgSnapshotToken *)
Definition SetPgSnapshotToken (t : string) (w : world) : world :=
  mkWorld (history w) t (confSnapshot w) (confSlot w).

Definition set_conf_snapshot (s : string) (w : world) : world :=
  mkWorld (history w) (pgSnapshotToken w) s (confSlot w).

(** The server. *)
Class Server := {
  accept : list event -> bool -> option error;
  answer : list event -> nat -> string -> result (list (list string));
  ping : list event -> nat -> option error;
  (** [err.Error()] *)
  error_message : error -> string;
  (** [pgconn.ParseConfig] *)
  parse_dsn : string -> result pg_config
}.

Section Consistency.
Context `{Server} `{UnicodeLib} `{RegexpLib}.
Variable conf : Config.

Definition open_conn (replication : bool) (w : world) : result nat * world :=
  match accept (history w) replication with
  | Some e => (Err e, add_event (Refused replication) w)
  | None => let c := length (history w) in (Ok c, add_event (Opened replication c) w)
  end.

(** A replication connection; the server only sees that it is one. *)
Definition open_replication : world -> string -> result nat * world :=
  openReplicationConn parse_dsn (fun w cfg =>
    open_conn (bool_decide (RuntimeParams cfg ≫= lookup "replication" = Some "database")) w).

Definition exec_on (w : world) (c : nat) (sql : string) : result (list (list string)) * world :=
  match answer (history w) c sql with
  | Err e => (Err e, add_event (Failed c sql) w)
  | Ok rows => (Ok rows, add_event (Executed c sql) w)
  end.

Definition close_conn (w : world) (c : nat) : world := add_event (Closed c) w.

(** ** The controller *)

(** src/export/consistency.go:76-87 ConsistencySnapshot *)
Record snapshot_controller := mkController {
  sconn : option nat;
  snapshotName : string;
  cdcConn : option nat;
  cdcSlot : option cdcSlotInfo
}.

Inductive controller := ConsistencyNone | ConsistencySnapshot (c : snapshot_controller).

(** src/export/consistency.go:27-42 NewConsistencyController *)
Definition NewConsistencyController (w : world) : result controller * world :=
  match open_conn false w with
  | (Err e, w) => (Err e, w)
  | (Ok c, w) =>
      if one_of (Consistency conf) ["auto"; "snapshot"]
      then (Ok (ConsistencySnapshot (mkController (Some c) EmptyString None None)), w)
      else if one_of (Consistency conf) ["none"] then (Ok ConsistencyNone, close_conn w c)
      else (Err (EErrorf "invalid consistency option %s" [AStr (Consistency conf)]), close_conn w c)
  end.

Definition begin_stmt : string := "BEGIN ISOLATION LEVEL REPEATABLE READ READ ONLY".
Definition set_snapshot_stmt (token : string) : string :=
  "SET TRANSACTION SNAPSHOT '" +:+ escapeStringLiteral token +:+ "'".
Definition export_stmt : string := "SELECT pg_export_snapshot()".

(** The slot, when one is asked for and no snapshot is given.
    src/export/consistency.go:98-112 ConsistencySnapshot.Setup *)
Definition setup_slot (c : snapshot_controller) (w : world) : result snapshot_controller * world :=
  if negb (String.eqb (CDCSlot conf) EmptyString) && String.eqb (confSnapshot w) EmptyString then
    match createCDCSlot open_replication exec_on close_conn w
            (GetDSN conf EmptyString) (CDCSlot conf) (CDCPlugin conf) with
    | (Err e, w) => (Err e, w)
    | (Ok (cn, slot), w) =>
        (Ok (mkController (sconn c) (snapshotName c) (Some cn) (Some slot)),
         mkWorld (history w) (pgSnapshotToken w) (SnapshotName slot) (Some slot))
    end
  else (Ok c, w).

(** The transaction that holds the snapshot: of the given name, or exported.
    src/export/consistency.go:114-134 ConsistencySnapshot.Setup *)
Definition setup_snapshot (c : snapshot_controller) (cn : nat) (w : world)
    : result snapshot_controller * world :=
  match exec_on w cn begin_stmt with
  | (Err e, w) => (Err (EAnnotate e "begin snapshot transaction" []), w)
  | (Ok _, w) =>
      if negb (String.eqb (confSnapshot w) EmptyString) then
        match exec_on w cn (set_snapshot_stmt (confSnapshot w)) with
        | (Err e, w) => (Err (EAnnotate e "set transaction snapshot" []), w)
        | (Ok _, w) =>
            (Ok (mkController (sconn c) (confSnapshot w) (cdcConn c) (cdcSlot c)),
             SetPgSnapshotToken (confSnapshot w) w)
        end
      else
        match exec_on w cn export_stmt with
        | (Ok ((token :: _) :: _), w) =>
            (Ok (mkController (sconn c) token (cdcConn c) (cdcSlot c)),
             SetPgSnapshotToken token (set_conf_snapshot token w))
        | (Ok _, w) => (Err (EAnnotate (EForeign "sql: no rows in result set") "pg_export_snapshot" []), w)
        | (Err e, w) => (Err (EAnnotate e "pg_export_snapshot" []), w)
        end
  end.

(** The controller after [Setup] and its error; what an error leaves in the
    controller is visible to [TearDown] and [OnFailure].
    src/export/consistency.go:97-134 ConsistencySnapshot.Setup *)
Definition Setup (k : controller) (w : world) : option error * controller * world :=
  match k with
  | ConsistencyNone => (None, ConsistencyNone, w)
  | ConsistencySnapshot c =>
      match setup_slot c w with
      | (Err e, w) => (Some e, k, w)
      | (Ok c, w) =>
          match sconn c with
          | None => (Some (EForeign "panic: nil connection"), ConsistencySnapshot c, w)
          | Some cn =>
              match setup_snapshot c cn w with
              | (Err e, w) => (Some e, ConsistencySnapshot c, w)
              | (Ok c, w) => (None, ConsistencySnapshot c, w)
              end
          end
      end
  end.

(** src/export/consistency.go:142-158 ConsistencySnapshot.TearDown *)
Definition TearDown (k : controller) (w : world) : option error * controller * world :=
  match k with
  | ConsistencyNone => (None, ConsistencyNone, w)
  | ConsistencySnapshot c =>
      let w := match cdcConn c with Some cn => close_conn w cn | None => w end in
      let closed := ConsistencySnapshot (mkController None (snapshotName c) None (cdcSlot c)) in
      match sconn c with
      | None => (None, closed, w)
      | Some cn =>
          let '(r, w) := exec_on w cn "COMMIT" in
          (match r with Err e => Some e | Ok _ => None end, closed, close_conn w cn)
      end
  end.

(** src/export/consistency.go:162-173 ConsistencySnapshot.OnFailure *)
Definition OnFailure (k : controller) (w : world) : option error * controller * world :=
  match k with
  | ConsistencyNone => (None, k, w)
  | ConsistencySnapshot c =>
      match cdcSlot c with
      | Some slot =>
          if negb (CDCCleanupOnFailure conf) then (None, k, w)
          else
            let w := match cdcConn c with Some cn => close_conn w cn | None => w end in
            let '(r, w) := dropCDCSlot open_replication exec_on close_conn error_message w
                             (GetDSN conf EmptyString) (SlotName slot) in
            (match r with Err e => Some e | Ok _ => None end,
             ConsistencySnapshot (mkController (sconn c) (snapshotName c) None (cdcSlot c)), w)
      | None => (None, k, w)
      end
  end.

(** src/export/consistency.go:176-181 ConsistencySnapshot.PingContext *)
Definition PingContext (k : controller) (w : world) : option error * world :=
  match k with
  | ConsistencyNone => (None, w)
  | ConsistencySnapshot c =>
      match sconn c with
      | None => (Some (EForeign "snapshot connection has already been closed"), w)
      | Some cn =>
          let r := ping (history w) cn in
          (r, add_event (Pinged cn (match r with None => true | Some _ => false end)) w)
      end
  end.

(** ** Connections *)

(** src/export/util.go:15-17 needRepeatableRead *)
Definition needRepeatableRead (consistency : string) : bool := String.eqb consistency "snapshot".

(** src/export/sql.go:601-620 createConnWithConsistency *)
Definition createConnWithConsistency (repeatableRead : bool) (w : world) : result nat * world :=
  match open_conn false w with
  | (Err e, w) => (Err e, w)
  | (Ok c, w) =>
      if negb repeatableRead then (Ok c, w)
      else
        match exec_on w c begin_stmt with
        | (Err e, w) => (Err (EAnnotate e "sql: %s" [AStr begin_stmt]), w)
        | (Ok _, w) =>
            if String.eqb (pgSnapshotToken w) EmptyString then (Ok c, w)
            else
              let set := set_snapshot_stmt (pgSnapshotToken w) in
              match exec_on w c set with
              | (Err e, w) => (Err (EAnnotate e "sql: %s" [AStr set]), w)
              | (Ok _, w) => (Ok c, w)
              end
        end
  end.

(** ** What the operations leave in the history *)

(** Nothing but the history changed, by [h]. *)
Definition extends (w w' : world) (h : list event) : Prop :=
  history w' = history w ++ h /\ pgSnapshotToken w' = pgSnapshotToken w /\
  confSnapshot w' = confSnapshot w /\ confSlot w' = confSlot w.

Lemma extends_nil w : extends w w [].
Proof. split_and!; [by rewrite app_nil_r|done|done|done]. Qed.

Lemma extends_trans w1 w2 w3 h1 h2 : extends w1 w2 h1 -> extends w2 w3 h2 -> extends w1 w3 (h1 ++ h2).
Proof.
  intros (A1 & A2 & A3 & A4) (B1 & B2 & B3 & B4). split_and!; try congruence.
  by rewrite B1, A1, app_assoc.
Qed.

Lemma extends_event w ev : extends w (add_event ev w) [ev].
Proof. by split_and!. Qed.

Lemma exec_on_ok w c sql rows w' :
  exec_on w c sql = (Ok rows, w') ->
  extends w w' [Executed c sql] /\ answer (history w) c sql = Ok rows.
Proof. unfold exec_on. destruct (answer _ _ _); [|done]. intros [= <- <-]. split; [apply extends_event|done]. Qed.

Lemma open_conn_ok r w c w' : open_conn r w = (Ok c, w') -> extends w w' [Opened r c].
Proof. unfold open_conn. destruct (accept _ _); [done|]. intros [= <- <-]. apply extends_event. Qed.

(** The events of a connection that adopts the snapshot [tok]. *)
Definition adopt (tok : string) (c : nat) : list event :=
  [Opened false c; Executed c begin_stmt; Executed c (set_snapshot_stmt tok)].

Lemma createConn_adopts w c w' :
  createConnWithConsistency true w = (Ok c, w') -> pgSnapshotToken w <> EmptyString ->
  extends w w' (adopt (pgSnapshotToken w) c).
Proof.
  unfold createConnWithConsistency. intros Hc Ht.
  destruct (open_conn false w) as [[c1|] w1] eqn:E1; [|done]. apply open_conn_ok in E1. cbn [negb] in Hc.
  destruct (exec_on w1 c1 begin_stmt) as [[r1|] w2] eqn:E2; [|done]. apply exec_on_ok in E2 as [E2 _].
  pose proof (extends_trans _ _ _ _ _ E1 E2) as E12. pose proof E12 as (_ & Hp & _ & _). rewrite Hp in Hc.
  apply String.eqb_neq in Ht. rewrite Ht in Hc.
  destruct (exec_on w2 c1 (set_snapshot_stmt (pgSnapshotToken w))) as [[r2|] w3] eqn:E3; [|done].
  apply exec_on_ok in E3 as [E3 _]. injection Hc as <- <-.
  by apply (extends_trans _ _ _ _ _ E12).
Qed.

(** The events [h] end with a transaction of connection [c] that holds the
    snapshot [tok]: it adopted it, or it exported it. *)
Definition holds_snapshot (h0 h : list event) (c : nat) (tok : string) : Prop :=
  exists h',
    (h = h' ++ [Executed c begin_stmt; Executed c (set_snapshot_stmt tok)] /\ tok <> EmptyString) \/
    (h = h' ++ [Executed c begin_stmt; Executed c export_stmt] /\
     exists r rs, answer (h0 ++ h' ++ [Executed c begin_stmt]) c export_stmt = Ok ((tok :: r) :: rs)).

(** No connection was closed. *)
Definition none_closed (h : list event) : Prop := forall c, Closed c ∉ h.

(** The parameter makes it a replication connection. *)
Lemma open_replication_true w dsn :
  open_replication w dsn =
    match parse_dsn dsn with
    | Err x => (Err (EAnnotate x "parse replication DSN" []), w)
    | Ok _ => match open_conn true w with
              | (Err x, w) => (Err (EAnnotate x "open replication connection" []), w)
              | (Ok c, w) => (Ok c, w)
              end
    end.
Proof.
  unfold open_replication, openReplicationConn. destruct (parse_dsn dsn) as [cfg|]; [|done].
  cbn [with_replication RuntimeParams mbind option_bind]. rewrite lookup_insert_eq, bool_decide_true by done. done.
Qed.

Lemma open_replication_ok w dsn c w' : open_replication w dsn = (Ok c, w') -> open_conn true w = (Ok c, w').
Proof.
  rewrite open_replication_true. destruct (parse_dsn dsn); [|done]. by destruct (open_conn true w) as [[?|] ?].
Qed.

Lemma createCDCSlot_ok w dsn name plugin cn slot w' :
  createCDCSlot open_replication exec_on close_conn w dsn name plugin = (Ok (cn, slot), w') ->
  extends w w' [Opened true cn; Executed cn (create_slot_stmt name plugin)].
Proof.
  unfold createCDCSlot.
  destruct (ValidateCDCName "--cdc-slot" name); [|done]. destruct (ValidateCDCName "--cdc-plugin" plugin); [|done].
  destruct (open_replication w dsn) as [[c1|] w1] eqn:E1; [|done]. apply open_replication_ok, open_conn_ok in E1.
  destruct (exec_on w1 c1 _) as [[rows|] w2] eqn:E2; [|done]. apply exec_on_ok in E2 as [E2 _].
  destruct (slot_of_rows rows) as [info|]; [|done]. intros [= <- <- <-].
  by apply (extends_trans _ _ _ _ _ E1).
Qed.

(** What a successful [Setup] leaves: a transaction that holds the snapshot
    under the name that every connection will use, open, and with a slot the
    connection that created it, open as well. *)
Record set_up (w w' : world) (cn : nat) (k : controller) (h : list event) : Prop := {
  su_history : history w' = history w ++ h;
  su_holds : holds_snapshot (history w) h cn (pgSnapshotToken w');
  su_open : none_closed h;
  su_conf : confSnapshot w' = pgSnapshotToken w';
  su_ctl : exists c, k = ConsistencySnapshot c /\ sconn c = Some cn /\ snapshotName c = pgSnapshotToken w' /\
           (forall slot, cdcSlot c = Some slot ->
              confSlot w' = Some slot /\ (SnapshotName slot <> EmptyString -> SnapshotName slot = pgSnapshotToken w') /\
              exists rc, cdcConn c = Some rc /\ Executed rc (create_slot_stmt (CDCSlot conf) (CDCPlugin conf)) ∈ h)
}.

Lemma setup_slot_ok c w c1 w1 :
  setup_slot c w = (Ok c1, w1) -> cdcSlot c = None ->
  exists h, history w1 = history w ++ h /\ none_closed h /\ sconn c1 = sconn c /\
    (forall slot, cdcSlot c1 = Some slot ->
       confSlot w1 = Some slot /\ confSnapshot w1 = SnapshotName slot /\
       exists rc, cdcConn c1 = Some rc /\ Executed rc (create_slot_stmt (CDCSlot conf) (CDCPlugin conf)) ∈ h).
Proof.
  unfold setup_slot. intros Hs Hc. destruct (negb _ && _).
  - destruct (createCDCSlot _ _ _ _ _ _ _) as [[[cn slot]|] w2] eqn:E; [|done].
    apply createCDCSlot_ok in E as (E & _). injection Hs as <- <-.
    eexists. split; [exact E|]. split_and!; [|done|].
    + intros x Hx. set_solver.
    + intros s [= <-]. split_and!; [done|done|]. exists cn. split; [done|]. set_solver.
  - injection Hs as <- <-. exists []. split_and!; [by rewrite app_nil_r| |done|congruence].
    intros x Hx. by apply not_elem_of_nil in Hx.
Qed.

Lemma none_closed_app h1 h2 : none_closed h1 -> none_closed h2 -> none_closed (h1 ++ h2).
Proof. intros N1 N2 c Hc. apply elem_of_app in Hc as [Hc|Hc]; [by apply (N1 c)|by apply (N2 c)]. Qed.

Lemma two_not_closed e1 e2 :
  (forall c, e1 <> Closed c) -> (forall c, e2 <> Closed c) -> none_closed [e1; e2].
Proof. intros N1 N2 c Hc. set_solver. Qed.

Lemma setup_snapshot_ok c cn w c' w' :
  setup_snapshot c cn w = (Ok c', w') ->
  exists h, history w' = history w ++ h /\ none_closed h /\ confSlot w' = confSlot w /\
    confSnapshot w' = pgSnapshotToken w' /\ snapshotName c' = pgSnapshotToken w' /\
    (confSnapshot w <> EmptyString -> pgSnapshotToken w' = confSnapshot w) /\
    sconn c' = sconn c /\ cdcConn c' = cdcConn c /\ cdcSlot c' = cdcSlot c /\
    ((h = [Executed cn begin_stmt; Executed cn (set_snapshot_stmt (pgSnapshotToken w'))] /\
      pgSnapshotToken w' <> EmptyString) \/
     (h = [Executed cn begin_stmt; Executed cn export_stmt] /\
      exists r rs, answer (history w ++ [Executed cn begin_stmt]) cn export_stmt = Ok ((pgSnapshotToken w' :: r) :: rs))).
Proof.
  unfold setup_snapshot. destruct (exec_on w cn begin_stmt) as [[r1|] w1] eqn:E1; [|done].
  apply exec_on_ok in E1 as [(A1 & A2 & A3 & A4) _]. rewrite A3.
  destruct (String.eqb_spec (confSnapshot w) EmptyString) as [He|He]; cbn [negb].
  - destruct (exec_on w1 cn export_stmt) as [[[|[|tok r] rs]|] w2] eqn:E2; try done.
    apply exec_on_ok in E2 as [(B1 & B2 & B3 & B4) Ha]. intros [= <- <-]. cbn.
    eexists. split; [rewrite B1, A1, <- app_assoc; reflexivity|]. split_and!; try done; try congruence.
    + by apply two_not_closed.
    + right. split; [done|]. rewrite A1 in Ha. eauto.
  - destruct (exec_on w1 cn _) as [[r2|] w2] eqn:E2; [|done].
    apply exec_on_ok in E2 as [(B1 & B2 & B3 & B4) Ha]. intros [= <- <-]. cbn.
    eexists. split; [rewrite B1, A1, <- app_assoc; reflexivity|]. split_and!; try done; try congruence.
    + by apply two_not_closed.
    + left. by rewrite B3, A3.
Qed.

Lemma Setup_ok cn n w k' w' :
  Setup (ConsistencySnapshot (mkController (Some cn) n None None)) w = (None, k', w') ->
  exists h, set_up w w' cn k' h.
Proof.
  unfold Setup. destruct (setup_slot _ w) as [[c1|] w1] eqn:E1; [|done].
  apply setup_slot_ok in E1 as (h1 & H1' & N1 & S1 & Hslot); [|done]. rewrite S1. cbn [sconn].
  destruct (setup_snapshot c1 cn w1) as [[c2|] w2] eqn:E2; [|done].
  apply setup_snapshot_ok in E2 as (h2 & H2' & N2 & C1 & C2 & C3 & C4 & C5 & C6 & C7 & Hh).
  intros [= <- <-]. exists (h1 ++ h2). split.
  - by rewrite H2', H1', app_assoc.
  - exists h1. destruct Hh as [[-> ?]|[-> (r & rs & Ha)]]; [by left|right].
    split; [done|]. exists r, rs. by rewrite app_assoc, <- H1'.
  - by apply none_closed_app.
  - done.
  - exists c2. split_and!; [done|by rewrite C5, S1|done|]. intros slot Hs. rewrite C7 in Hs.
    destruct (Hslot _ Hs) as (P1 & P2 & rc & P3 & P4). split_and!.
    + by rewrite C1.
    + intros Hne. rewrite C4; congruence.
    + exists rc. split; [by rewrite C6|]. apply elem_of_app. by left.
Qed.

(** ** What only adds to the history *)

(** Every connection that is opened in [h] adopts the snapshot [tok] at once,
    or fails and is given up. *)
Definition joins (tok : string) (h : list event) : Prop :=
  forall c, Opened false c ∈ h ->
    (exists sql, Failed c sql ∈ h) \/ exists h1 h2, h = h1 ++ adopt tok c ++ h2.

Lemma joins_app tok h1 h2 : joins tok h1 -> joins tok h2 -> joins tok (h1 ++ h2).
Proof.
  intros J1 J2 c [Hc|Hc]%elem_of_app.
  - destruct (J1 c Hc) as [[s ?]|(a & b & ->)]; [left; exists s; set_solver|].
    right. exists a, (b ++ h2). by rewrite <- !app_assoc.
  - destruct (J2 c Hc) as [[s ?]|(a & b & ->)]; [left; exists s; set_solver|].
    right. exists (h1 ++ a), b. by rewrite <- !app_assoc.
Qed.

Definition opens_plain (ev : event) : bool := match ev with Opened false _ => true | _ => false end.

Lemma joins_none tok h : forallb (fun ev => negb (opens_plain ev)) h = true -> joins tok h.
Proof.
  intros Hn c Hc. exfalso. rewrite forallb_forall in Hn. apply list_elem_of_In, Hn in Hc. done.
Qed.

(** The history grew, and connections that were opened joined the snapshot if
    there is one; the slot and the name of the snapshot are as before. *)
Definition grows (w w' : world) : Prop :=
  exists h, extends w w' h /\ (pgSnapshotToken w <> EmptyString -> joins (pgSnapshotToken w) h).

#[export] Instance grows_preorder : PreOrder grows.
Proof.
  split; [intros w; exists []; split; [apply extends_nil|by intros _; apply joins_none]|].
  intros w1 w2 w3 (h1 & E1 & J1) (h2 & E2 & J2). exists (h1 ++ h2). split; [by eapply extends_trans|].
  intros Ht. pose proof E1 as (_ & Hp & _). rewrite Hp in J2. apply joins_app; auto.
Qed.

Lemma grows_event w ev : opens_plain ev = false -> grows w (add_event ev w).
Proof.
  intros Hev. exists [ev]. split; [apply extends_event|]. intros _. apply joins_none. cbn. by rewrite Hev.
Qed.

Lemma exec_on_grows w c sql : grows w (snd (exec_on w c sql)).
Proof. unfold exec_on. destruct (answer _ _ _); by apply grows_event. Qed.

Lemma open_replication_grows w dsn : grows w (snd (open_replication w dsn)).
Proof.
  rewrite open_replication_true. destruct (parse_dsn dsn); [|done]. unfold open_conn.
  destruct (accept _ _); by apply grows_event.
Qed.

Lemma createConn_grows b w :
  b = true \/ pgSnapshotToken w = EmptyString -> grows w (snd (createConnWithConsistency b w)).
Proof.
  intros Hb. assert (pgSnapshotToken w <> EmptyString -> b = true) as Hb' by (by destruct Hb).
  unfold createConnWithConsistency, open_conn. destruct (accept _ _); [by apply grows_event|].
  set (c := length (history w)). pose proof (extends_event w (Opened false c)) as E1.
  destruct b; cbn [negb]; [|exists [Opened false c]; split; [done|by intros Ht%Hb']].
  unfold exec_on at 1. destruct (answer _ _ begin_stmt) as [r|e].
  2: { exists ([Opened false c] ++ [Failed c begin_stmt]). split; [by eapply extends_trans, extends_event|].
       intros _ c' Hc. left. exists begin_stmt. assert (c' = c) as -> by set_solver. set_solver. }
  pose proof (extends_trans _ _ _ _ _ E1 (extends_event _ (Executed c begin_stmt))) as E2.
  cbn [pgSnapshotToken add_event]. destruct (String.eqb_spec (pgSnapshotToken w) EmptyString) as [E|Hne].
  { eexists. split; [exact E2|]. by rewrite E. }
  set (st := set_snapshot_stmt _). unfold exec_on. destruct (answer _ _ st) as [r'|e]; cbn [snd].
  - eexists. split; [exact (extends_trans _ _ _ _ _ E2 (extends_event _ (Executed c st)))|].
    intros _ c' Hc. right. assert (c' = c) as -> by set_solver. exists [], []. done.
  - eexists. split; [exact (extends_trans _ _ _ _ _ E2 (extends_event _ (Failed c st)))|].
    intros _ c' Hc. left. exists st. assert (c' = c) as -> by set_solver. set_solver.
Qed.

Lemma close_optional_grows w o : grows w (match o with Some cn => close_conn w cn | None => w end).
Proof. destruct o; [by apply grows_event|done]. Qed.

Lemma TearDown_grows k w : grows w (snd (TearDown k w)).
Proof.
  destruct k as [|c]; [done|]. cbn. pose proof (close_optional_grows w (cdcConn c)) as G1.
  set (w1 := match cdcConn c with Some cn => close_conn w cn | None => w end) in *.
  destruct (sconn c) as [cn|]; [|done]. pose proof (exec_on_grows w1 cn "COMMIT") as G2.
  destruct (exec_on w1 cn "COMMIT") as [r w2]. cbn in *. etrans; [exact G1|]. etrans; [exact G2|]. by apply grows_event.
Qed.

Lemma PingContext_grows k w : grows w (snd (PingContext k w)).
Proof. destruct k as [|c]; [done|]. cbn. destruct (sconn c); [by apply grows_event|done]. Qed.

Lemma drop_grows w dsn name :
  grows w (snd (dropCDCSlot open_replication exec_on close_conn error_message w dsn name)).
Proof.
  unfold dropCDCSlot. destruct (ValidateCDCName _ _); [|done].
  pose proof (open_replication_grows w dsn) as G1. destruct (open_replication w dsn) as [[c|] w1]; [|done].
  pose proof (exec_on_grows w1 c (drop_slot_stmt name)) as G2.
  destruct (exec_on w1 c _) as [r w2]. cbn in *.
  assert (grows w (close_conn w2 c)) as G by (etrans; [exact G1|]; etrans; [exact G2|]; by apply grows_event).
  destruct r; [done|]. by destruct (Contains _ _).
Qed.

Lemma OnFailure_grows k w : grows w (snd (OnFailure k w)).
Proof.
  destruct k as [|c]; [done|]. cbn. destruct (cdcSlot c) as [slot|]; [|done].
  destruct (negb (CDCCleanupOnFailure conf)); [done|].
  pose proof (close_optional_grows w (cdcConn c)) as G1.
  set (w1 := match cdcConn c with Some cn => close_conn w cn | None => w end) in *.
  pose proof (drop_grows w1 (GetDSN conf EmptyString) (SlotName slot)) as G2.
  destruct (dropCDCSlot _ _ _ _ _ _ _) as [r w2]. cbn in *. by etrans.
Qed.
End Consistency.
