(* ===== verification/Dumper.v ===== *)
(** * The producer of tasks (export/dump.go, export/sql.go)

    The metadata of a table, the loop over schemas and tables that sends the
    tasks of a dump, and the single task of a free query.  [pg_dump] is a
    child process and the drivers' column types are the driver's: both are
    parameters.  The channel accepts a task or the context is done first,
    which [cancelled] says for the k-th send that is tried. *)

From S2P Require Import Prelude GoStrings Dialect FilterMatcher FilterParser Filter FileNames.
From S2P Require Import SqlTypes SqlBuilder Conn Tables Config Prepare Ir Chunking Writer.
From S2P Require Import TableData Worker.

(** The child process: its arguments and environment to its output, or the
    error and what it wrote to stderr. *)
Class PgDump := { pg_dump : list string -> list string -> string + (error * option string) }.

(** The columns that the driver reports for the result of a query. *)
Class DriverColumns := { column_types : string -> list ColumnType }.

(** The environment of pg_dump.
    src/export/dump.go:885-914 setupPgDumpEnv *)
Definition setupPgDumpEnv `{UnicodeLib} `{RegexpLib} (conf : Config) : list string :=
  let opt name v := if negb (String.eqb v EmptyString) then [name +:+ "=" +:+ v] else [] in
  ["PGHOST=" +:+ Host conf; "PGPORT=" +:+ itoa (Port conf)] ++
  opt "PGUSER" (User conf) ++ opt "PGPASSWORD" (Password conf) ++ opt "PGSSLMODE" (SSLMode conf) ++
  opt "PGSSLROOTCERT" (CAPath conf) ++ opt "PGSSLCERT" (CertPath conf) ++ opt "PGSSLKEY" (KeyPath conf) ++
  match Databases conf with db :: _ => ["PGDATABASE=" +:+ db] | [] => [] end.

Section Dumper.
Context `{UnicodeLib} `{RegexpLib} `{FoldLib} `{SnapshotConn} `{PgDump} `{DriverColumns}.
Variable conf : Config.
(** the environment of the process *)
Variable osEnviron : list string.
Variable cancelled : nat -> bool.

(** src/export/sql.go:35-49 runPgDumpSchema *)
Definition runPgDumpSchema (schema name : string) : result string :=
  let target := schema +:+ "." +:+ name in
  match pg_dump ["--schema-only"; "--no-owner"; "--no-privileges"; "-t"; target]
          (osEnviron ++ setupPgDumpEnv conf) with
  | inl out => Ok out
  | inr (e, Some stderr) => Err (EAnnotate e "pg_dump %s failed: %s" [AStr target; AStr stderr])
  | inr (e, None) => Err (EAnnotate e "pg_dump %s" [AStr target])
  end.

(** src/export/sql.go:125-127 ShowCreateDatabase *)
Definition ShowCreateDatabase (db : string) (dialect : SQLDialect) : result string :=
  Ok (CreateDatabaseStmt dialect db).

(** src/export/sql.go:134-136 ShowCreateTable *)
Definition ShowCreateTable (db tbl : string) : result string := runPgDumpSchema db tbl.

(** src/export/sql.go:142-148 ShowCreateView *)
Definition ShowCreateView (db view : string) : result (string * string) :=
  ddl ← runPgDumpSchema db view; Ok (EmptyString, ddl).

(** The handler stores the columns at the first row of the result: without a
    row there are none.
    src/export/sql.go:361-381 GetColumnTypes *)
Definition GetColumnTypes (fields db tbl : string) : result (list ColumnType) :=
  let q := "SELECT " +:+ fields +:+ " FROM " +:+ pgQuoteQName db tbl +:+ " LIMIT 1" in
  rows ← conn_query q [];
  match data rows with
  | [] => match rows_err rows with None => Ok [] | Some e => Err (EAnnotate e "sql: %s" [AStr q]) end
  | _ :: _ => Ok (column_types q)
  end.

(** src/export/sql.go:730-734 buildSelectField *)
Definition select_field_query : string :=
"
SELECT column_name, is_generated, data_type, udt_name
FROM information_schema.columns
WHERE table_schema = $1 AND table_name = $2
ORDER BY ordinal_position".

Definition column_of_row (r : list string) : column_info :=
  match r with
  | [n; g; d; u] => mkColumn n g d u
  | _ => mkColumn EmptyString EmptyString EmptyString EmptyString
  end.

(** The projection of a table, from the catalog.
    src/export/sql.go:729-741 buildSelectField *)
Definition select_field (db tbl : string) (completeInsert useCasts csvMode : bool) (dialect : SQLDialect)
    : result (string * string * Z) :=
  results ← columns_of ["column_name"; "is_generated"; "data_type"; "udt_name"] select_field_query
              [ArgText db; ArgText tbl];
  Ok (buildSelectField (map column_of_row results) completeInsert useCasts csvMode dialect).

(** src/export/dump.go:717-776 dumpTableMeta *)
Definition dumpTableMeta (db : string) (tbl : TableInfo) : result tableMeta :=
  let dialect := conf_Dialect conf in
  let useCasts := WantMigrationCasts dialect (FileType conf) in
  let csvMode := String.eqb (FileType conf) "csv" in
  '(selectField, selectColumns, selectLen) ←
    select_field db (tName tbl) (CompleteInsert conf) useCasts csvMode dialect;
  colTypes ← (if bool_decide (tType tbl = TableTypeBase)
              then GetColumnTypes (if String.eqb selectField EmptyString then "*" else selectField) db (tName tbl)
              else Ok []);
  let meta create view :=
    mkTableMeta db (tName tbl) colTypes selectField selectColumns selectLen
      (EffectivePreamble conf) create view (tAvgRowLength tbl) false in
  if NoSchemas conf then Ok (meta EmptyString EmptyString)
  else match tType tbl with
       | TableTypeView =>
           '(createTableSQL, createViewSQL) ← ShowCreateView db (tName tbl);
           Ok (meta createTableSQL createViewSQL)
       | _ => createTableSQL ← ShowCreateTable db (tName tbl); Ok (meta createTableSQL EmptyString)
       end.

(** ** Sending tasks *)

Definition context_canceled : error := EForeign "context canceled".

(** The tasks that were sent so far, and how many sends were tried. *)
Record channel := mkChannel { sent : list Task; calls : nat }.

(** With the error that ended the sending. *)
Definition sending : Type := channel * option error.

(** src/export/dump.go:627-637 Dumper.sendTaskToChan *)
Definition sendTaskToChan (t : Task) (ch : channel) : sending :=
  if cancelled (calls ch) then (mkChannel (sent ch) (S (calls ch)), Some context_canceled)
  else (mkChannel (sent ch ++ [t]) (S (calls ch)), None).

Fixpoint send_all (ts : list Task) (ch : channel) : sending :=
  match ts with
  | [] => (ch, None)
  | t :: ts' => match sendTaskToChan t ch with
                | (ch, None) => send_all ts' ch
                | r => r
                end
  end.

(** src/export/dump.go:506-515 Dumper.concurrentDumpTable *)
Definition send_table (ts again : list Task) (ch : channel) : sending :=
  match send_all ts ch, again with
  | (ch, Some e), _ :: _ => send_all again ch
  | r, _ => r
  end.

(** The metadata task of a table.
    src/export/dump.go:341-361 Dumper.dumpDatabases *)
Definition meta_task (db : string) (tbl : TableInfo) (meta : tableMeta) : Task :=
  match tType tbl with
  | TableTypeView => NewTaskViewMeta db (tName tbl) (showCreateTable meta) (showCreateView meta)
  | TableTypeSequence => NewTaskSequenceMeta db (tName tbl) (showCreateTable meta)
  | TableTypeBase => NewTaskTableMeta db (tName tbl) (showCreateTable meta)
  end.

(** One table: its metadata, then its data.
    src/export/dump.go:332-369 Dumper.dumpDatabases *)
Definition dump_table (fuel : nat) (db : string) (tbl : TableInfo) (ch : channel) : option sending :=
  match dumpTableMeta db tbl with
  | Err e => Some (ch, Some e)
  | Ok meta =>
      match (if NoSchemas conf then (ch, None) else sendTaskToChan (meta_task db tbl meta) ch) with
      | (ch, Some e) => Some (ch, Some e)
      | (ch, None) =>
          if bool_decide (tType tbl = TableTypeBase) then
            r ← dumpTableData fuel conf meta;
            match r with
            | Err e => Some (ch, Some e)
            | Ok ts => Some (send_table ts (sent_instead conf meta) ch)
            end
          else Some (ch, None)
      end
  end.

(** src/export/dump.go:332-369 Dumper.dumpDatabases *)
Fixpoint dump_tables (fuel : nat) (db : string) (tables : list TableInfo) (ch : channel) : option sending :=
  match tables with
  | [] => Some (ch, None)
  | tbl :: tables' =>
      r ← dump_table fuel db tbl ch;
      match r with
      | (ch, None) => dump_tables fuel db tables' ch
      | r => Some r
      end
  end.

(** [allTables] is the map in the order in which the loop visits it.
    src/export/dump.go:314-371 Dumper.dumpDatabases *)
Fixpoint dumpDatabases (fuel : nat) (allTables : list (string * list TableInfo)) (ch : channel)
    : option sending :=
  match allTables with
  | [] => Some (ch, None)
  | (dbName, tables) :: rest =>
      match (if NoSchemas conf then (ch, None)
             else match ShowCreateDatabase dbName (conf_Dialect conf) with
                  | Err e => (ch, Some e)
                  | Ok sql => sendTaskToChan (NewTaskDatabaseMeta dbName sql) ch
                  end) with
      | (ch, Some e) => Some (ch, Some e)
      | (ch, None) =>
          r ← dump_tables fuel dbName tables ch;
          match r with
          | (ch, None) => dumpDatabases fuel rest ch
          | r => Some r
          end
      end
  end.

(** src/export/dump.go:778-790 Dumper.dumpSQL *)
Definition dumpSQL (ch : channel) : sending :=
  sendTaskToChan (NewTaskTableData (mkTableMeta EmptyString EmptyString [] EmptyString EmptyString 0 []
    EmptyString EmptyString 0 false) (mkTableData (SQL conf) 0 true) 0 1) ch.

(** src/export/status.go:90-100 calculateTableCount *)
Definition calculateTableCount (m : DatabaseTables) : Z :=
  map_fold (fun _ tables n =>
    n + Z.of_nat (length (List.filter (fun t => bool_decide (tType t = TableTypeBase)) tables))) 0 m.

(** ** The plan of a dump *)

(** The tasks of a table and of a schema, when nothing fails. *)
Definition table_tasks (fuel : nat) (db : string) (tbl : TableInfo) (g : list Task) : Prop :=
  exists meta ts, dumpTableMeta db tbl = Ok meta /\
    (if bool_decide (tType tbl = TableTypeBase) then dumpTableData fuel conf meta = Some (Ok ts) else ts = []) /\
    g = (if NoSchemas conf then [] else [meta_task db tbl meta]) ++ ts.

Definition db_tasks (fuel : nat) (p : string * list TableInfo) (g : list Task) : Prop :=
  exists gs, Forall2 (table_tasks fuel (fst p)) (snd p) gs /\
    g = (if NoSchemas conf then [] else [TaskDatabaseMeta (fst p) (CreateDatabaseStmt (conf_Dialect conf) (fst p))]) ++
        concat gs.

Section NotDone.
(** The context is never done. *)
Hypothesis not_done : forall k, cancelled k = false.

Lemma sendTaskToChan_ok t ch : sendTaskToChan t ch = (mkChannel (sent ch ++ [t]) (S (calls ch)), None).
Proof. unfold sendTaskToChan. by rewrite not_done. Qed.

Lemma send_all_ok ts : forall ch, exists n, send_all ts ch = (mkChannel (sent ch ++ ts) n, None).
Proof.
  induction ts as [|t ts IH]; intros ch; cbn [send_all].
  - exists (calls ch). rewrite app_nil_r. by destruct ch.
  - rewrite sendTaskToChan_ok. destruct (IH (mkChannel (sent ch ++ [t]) (S (calls ch)))) as [n Hn].
    exists n. rewrite Hn. cbn [sent]. by rewrite <- app_assoc.
Qed.

Lemma send_table_ok ts again ch : exists n, send_table ts again ch = (mkChannel (sent ch ++ ts) n, None).
Proof. unfold send_table. destruct (send_all_ok ts ch) as [n ->]. by exists n. Qed.

(** Sending one task, or none with --no-schemas. *)
Lemma send_one_ok t ch ch' e :
  (if NoSchemas conf then (ch, None) else sendTaskToChan t ch) = (ch', e) ->
  e = None /\ sent ch' = sent ch ++ if NoSchemas conf then [] else [t].
Proof.
  rewrite sendTaskToChan_ok. destruct (NoSchemas conf); intros [= <- <-]; [|done].
  by rewrite app_nil_r.
Qed.

Lemma dump_table_ok fuel db tbl ch ch' :
  dump_table fuel db tbl ch = Some (ch', None) ->
  exists g, table_tasks fuel db tbl g /\ sent ch' = sent ch ++ g.
Proof.
  unfold dump_table, table_tasks. destruct (dumpTableMeta db tbl) as [meta|e]; [|done].
  destruct (if NoSchemas conf then _ else _) as [ch1 [e|]] eqn:E1; [done|].
  apply send_one_ok in E1 as [_ E1].
  destruct (bool_decide (tType tbl = TableTypeBase)) eqn:Eb.
  - destruct (dumpTableData fuel conf meta) as [[ts|e]|] eqn:Ed; cbn [mbind option_bind]; try done.
    destruct (send_table_ok ts (sent_instead conf meta) ch1) as [n ->]. intros [= <-]. cbn [sent].
    eexists. split; [by exists meta, ts|]. by rewrite E1, <- app_assoc.
  - intros [= <-]. eexists. split; [exists meta, []; split_and!; reflexivity|]. by rewrite app_nil_r.
Qed.

Lemma dump_tables_ok fuel db tables : forall ch ch',
  dump_tables fuel db tables ch = Some (ch', None) ->
  exists gs, Forall2 (table_tasks fuel db) tables gs /\ sent ch' = sent ch ++ concat gs.
Proof.
  induction tables as [|tbl tables IH]; intros ch ch'; cbn.
  - intros [= <-]. exists []. split; [constructor|by rewrite app_nil_r].
  - destruct (dump_table fuel db tbl ch) as [[ch1 [e|]]|] eqn:E1; cbn [mbind option_bind]; try done.
    apply dump_table_ok in E1 as (g & Hg & E1). intros (gs & Hgs & ->)%IH.
    exists (g :: gs). split; [by constructor|]. cbn. by rewrite E1, <- app_assoc.
Qed.

Lemma dumpDatabases_ok fuel allTables : forall ch ch',
  dumpDatabases fuel allTables ch = Some (ch', None) ->
  exists gs, Forall2 (db_tasks fuel) allTables gs /\ sent ch' = sent ch ++ concat gs.
Proof.
  induction allTables as [|[db tables] all IH]; intros ch ch'; cbn [dumpDatabases ShowCreateDatabase].
  - intros [= <-]. exists []. split; [constructor|by rewrite app_nil_r].
  - destruct (if NoSchemas conf then _ else _) as [ch1 [e|]] eqn:E1; [done|].
    apply send_one_ok in E1 as [_ E1].
    destruct (dump_tables fuel db tables ch1) as [[ch2 [e|]]|] eqn:E2; cbn [mbind option_bind]; try done.
    apply dump_tables_ok in E2 as (ts & Hts & E2). intros (gs & Hgs & ->)%IH.
    eexists (_ :: gs). split; [constructor; [exists ts; split; [exact Hts|reflexivity]|done]|].
    cbn [fst]. by rewrite concat_cons, E2, E1, !app_assoc.
Qed.

Lemma dumpDatabases_plan fuel allTables ch :
  dumpDatabases fuel allTables (mkChannel [] 0) = Some (ch, None) ->
  exists gs, Forall2 (db_tasks fuel) allTables gs /\ sent ch = concat gs.
Proof. apply dumpDatabases_ok. Qed.
End NotDone.

(** ** The data tasks of a table are numbered *)

Lemma number_tasks_lookup mk ws : forall i k t,
  number_tasks mk ws k !! i = Some t -> exists w, ws !! i = Some w /\ t = mk w (k + Z.of_nat i).
Proof.
  induction ws as [|w ws IH]; intros i k t; [done|]. destruct i as [|i]; cbn.
  - intros [= <-]. exists w. split; [done|]. f_equal. lia.
  - intros (w' & Hw & ->)%IH. exists w'. split; [done|]. f_equal. lia.
Qed.

Lemma dumpTableData_indexed fuel meta ts :
  dumpTableData fuel conf meta = Some (Ok ts) ->
  forall i t, ts !! i = Some t ->
  exists d total, t = TaskTableData meta d (Z.of_nat i) total /\ (Rows conf = UnspecifiedSize -> i = 0%nat).
Proof.
  unfold dumpTableData. destruct (NoData conf); [by intros [= <-] []|].
  destruct (Z.eqb_spec (Rows conf) UnspecifiedSize) as [Hz|Hz].
  - unfold sequentialDumpTable. destruct (buildOrderByClause conf meta) as [o|]; cbn [mbind result_bind]; [|done].
    intros [= <-] [|i] t; [|done]. intros [= <-]. by eexists _, _.
  - intros (order & total & conds & _ & ->)%concurrentDumpTable_chunked i t Hi.
    unfold tasks_of in Hi. apply number_tasks_lookup in Hi as (w & _ & ->).
    unfold chunk_task. rewrite Z.add_0_l. by eexists _, _.
Qed.

(** ** No two tasks write the same file *)

Lemma Forall2_with_l {A B} (P : A -> B -> Prop) (Q : A -> Prop) l k :
  Forall2 P l k -> Forall Q l -> Forall2 (fun x y => P x y /\ Q x) l k.
Proof. induction 1; intros Hq; [constructor|]. apply Forall_cons in Hq as []. constructor; auto. Qed.

(** The database object that a file belongs to. *)
Definition object_of (o : output_file) : option (string * option string) :=
  match o with
  | OMetadata | OPolicy _ => None
  | OSchema db => Some (db, None)
  | OTable db t | OView db t | OSequence db t | OData db t _ _ => Some (db, Some t)
  end.

Lemma separate_app g1 g2 :
  separate g1 -> separate g2 ->
  (forall t1 t2 o, t1 ∈ g1 -> t2 ∈ g2 -> outputs t1 o -> ~ outputs t2 o) -> separate (g1 ++ g2).
Proof.
  intros S1 S2 Hd i j t1 t2 o Hi Hj Hij.
  apply lookup_app_Some in Hi as [Hi|[Li Hi]]; apply lookup_app_Some in Hj as [Hj|[Lj Hj]].
  - by apply (S1 i j).
  - by apply Hd; eapply list_elem_of_lookup_2.
  - intros O1 O2. by eapply (Hd t2 t1 o); try done; eapply list_elem_of_lookup_2.
  - apply (S2 (i - length g1)%nat (j - length g1)%nat); [done|done|lia].
Qed.

Lemma separate_concat {A} (own : A -> output_file -> Prop) keys gs :
  Forall2 (fun k g => separate g /\ forall t o, t ∈ g -> outputs t o -> own k o) keys gs ->
  (forall k1 k2 o, own k1 o -> own k2 o -> k1 = k2) -> NoDup keys -> separate (concat gs).
Proof.
  intros Hf Hinj Hd. induction Hf as [|k g keys gs [Sg Og] Hf IH]; [by intros []|].
  apply NoDup_cons in Hd as [Hk Hd]. cbn. apply separate_app; [done|by apply IH|].
  intros t1 t2 o H1' H2' O1 O2. apply Hk.
  apply list_elem_of_In, in_concat in H2' as (g' & Hg' & Ht2).
  apply list_elem_of_In, list_elem_of_lookup in Hg' as [i Hi].
  destruct (Forall2_lookup_r _ _ _ _ _ Hf Hi) as (k' & Hk' & _ & Ho).
  apply list_elem_of_In in Ht2. rewrite (Hinj k k' o); eauto. by eapply list_elem_of_lookup_2.
Qed.

Lemma dumpTableMeta_name db tbl meta :
  dumpTableMeta db tbl = Ok meta -> database meta = db /\ table meta = tName tbl.
Proof.
  unfold dumpTableMeta.
  destruct (select_field _ _ _ _ _ _) as [[[sf sc] sl]|]; cbn [mbind result_bind]; [|done].
  destruct (if bool_decide _ then _ else _) as [ct|]; [|done].
  destruct (NoSchemas conf); [by intros [= <-]|].
  destruct (tType tbl).
  - destruct (ShowCreateTable _ _); cbn; [|done]. by intros [= <-].
  - destruct (ShowCreateView _ _) as [[? ?]|]; cbn; [|done]. by intros [= <-].
  - destruct (ShowCreateTable _ _); cbn; [|done]. by intros [= <-].
Qed.

Lemma meta_task_object db tbl meta o :
  outputs (meta_task db tbl meta) o ->
  object_of o = Some (db, Some (tName tbl)) /\ (forall d c i, o <> OData d (tName tbl) c i).
Proof. unfold meta_task. destruct (tType tbl); intros [sql Hin]; cbn in Hin; set_solver. Qed.

Lemma table_tasks_spec fuel db tbl g :
  table_tasks fuel db tbl g ->
  separate g /\ forall t o, t ∈ g -> outputs t o -> object_of o = Some (db, Some (tName tbl)).
Proof.
  intros (meta & ts & Hm & Hts & ->). destruct (dumpTableMeta_name _ _ _ Hm) as [Hdb Htbl].
  assert (forall i t, ts !! i = Some t -> exists d total, t = TaskTableData meta d (Z.of_nat i) total) as Hidx.
  { intros i t Hi. destruct (bool_decide _); [|by subst ts].
    destruct (dumpTableData_indexed _ _ _ Hts _ _ Hi) as (d & total & -> & _). eauto. }
  assert (forall t o, t ∈ ts -> outputs t o -> exists c i, o = OData db (tName tbl) c i) as Hdata.
  { intros t o Ht Ho. apply list_elem_of_lookup in Ht as [i Hi].
    destruct (Hidx _ _ Hi) as (d & total & ->). destruct Ho as [f ->]. rewrite Hdb, Htbl. eauto. }
  split.
  - apply separate_app.
    + destruct (NoSchemas conf); [by intros []|]. intros [|i] [|j]; try done; cbn; intros; by rewrite ?lookup_nil in *.
    + intros i j t1 t2 o Hi Hj Hij O1 O2. destruct (Hidx _ _ Hi) as (d & total & ->).
      destruct (Hidx _ _ Hj) as (d' & total' & ->). destruct O1 as [f ->], O2 as [f' O2].
      injection O2. lia.
    + intros t1 t2 o H1' H2' O1 O2. destruct (Hdata t2 o H2' O2) as (c & i & ->).
      destruct (NoSchemas conf); [by apply not_elem_of_nil in H1'|].
      apply list_elem_of_singleton in H1' as ->. apply meta_task_object in O1 as [_ O1]. by eapply O1.
  - intros t o [Ht|Ht]%elem_of_app Ho.
    + destruct (NoSchemas conf); [by apply not_elem_of_nil in Ht|].
      apply list_elem_of_singleton in Ht as ->. by apply meta_task_object in Ho as [? _].
    + by destruct (Hdata _ _ Ht Ho) as (c & i & ->).
Qed.

Lemma tables_separate fuel db tables gs :
  Forall2 (table_tasks fuel db) tables gs -> NoDup (map tName tables) ->
  separate (concat gs) /\
  forall t o, t ∈ concat gs -> outputs t o -> exists n, object_of o = Some (db, Some n).
Proof.
  intros Hf Hd. split.
  - apply (separate_concat (fun n o => object_of o = Some (db, Some n)) (map tName tables)); [|congruence|done].
    apply Forall2_fmap_l. eapply Forall2_impl; [exact Hf|]. intros tbl g. apply table_tasks_spec.
  - intros t o Ht Ho. apply list_elem_of_In, in_concat in Ht as (g & Hg & Ht).
    apply list_elem_of_In, list_elem_of_lookup in Hg as [i Hi].
    destruct (Forall2_lookup_r _ _ _ _ _ Hf Hi) as (tbl & _ & Htbl).
    apply table_tasks_spec in Htbl as [_ Hobj]. apply list_elem_of_In in Ht. eauto.
Qed.

Lemma plan_separate fuel allTables gs :
  Forall2 (db_tasks fuel) allTables gs -> NoDup (map fst allTables) ->
  Forall (fun p => NoDup (map tName (snd p))) allTables -> separate (concat gs).
Proof.
  intros Hf Hd Ht.
  apply (separate_concat (fun db o => exists n, object_of o = Some (db, n)) (map fst allTables)); [| |done].
  - apply Forall2_fmap_l. eapply Forall2_impl; [exact (Forall2_with_l _ _ _ _ Hf Ht)|].
    intros [db tables] g [(ts & Hts & ->) Hnd]. destruct (tables_separate _ _ _ _ Hts Hnd) as [Hsep Hobj].
    cbn [fst] in *. split.
    + apply separate_app; [|done|].
      * destruct (NoSchemas conf); [by intros []|]. intros [|i] [|j]; try done; cbn; intros; by rewrite ?lookup_nil in *.
      * intros t1 t2 o H1' H2' O1 O2. destruct (Hobj _ _ H2' O2) as [n Hn].
        destruct (NoSchemas conf); [by apply not_elem_of_nil in H1'|].
        apply list_elem_of_singleton in H1' as ->. destruct O1 as [sql Hin]. cbn in Hin.
        apply list_elem_of_singleton in Hin as [= -> _]. done.
    + intros t o [Hin|Hin]%elem_of_app Ho; [|destruct (Hobj _ _ Hin Ho); eauto].
      destruct (NoSchemas conf); [by apply not_elem_of_nil in Hin|].
      apply list_elem_of_singleton in Hin as ->. destruct Ho as [sql Hs]. cbn in Hs.
      apply list_elem_of_singleton in Hs as [= -> _]. by exists None.
  - intros k1 k2 o [n1 H1'] [n2 H2']. congruence.
Qed.

Lemma plan_chunks fuel allTables gs m d c total :
  Forall2 (db_tasks fuel) allTables gs -> TaskTableData m d c total ∈ concat gs ->
  0 <= c /\ (Rows conf = UnspecifiedSize -> c = 0).
Proof.
  intros Hf Hin. apply list_elem_of_In, in_concat in Hin as (g & Hg & Hin).
  apply list_elem_of_In, list_elem_of_lookup in Hg as [i Hi].
  destruct (Forall2_lookup_r _ _ _ _ _ Hf Hi) as ([db tables] & _ & ts & Hts & ->).
  apply list_elem_of_In, elem_of_app in Hin as [Hin|Hin].
  { destruct (NoSchemas conf); [by apply not_elem_of_nil in Hin|]. by apply list_elem_of_singleton in Hin. }
  apply list_elem_of_In, in_concat in Hin as (g & Hg & Hin).
  apply list_elem_of_In, list_elem_of_lookup in Hg as [j Hj].
  destruct (Forall2_lookup_r _ _ _ _ _ Hts Hj) as (tbl & _ & meta & l & _ & Hl & ->).
  apply list_elem_of_In, elem_of_app in Hin as [Hin|Hin].
  { destruct (NoSchemas conf); [by apply not_elem_of_nil in Hin|].
    apply list_elem_of_singleton in Hin. unfold meta_task in Hin. by destruct (tType tbl). }
  destruct (bool_decide _); [|subst l; by apply not_elem_of_nil in Hin].
  apply list_elem_of_lookup in Hin as [k Hk].
  destruct (dumpTableData_indexed _ _ _ Hl _ _ Hk) as (d' & total' & [= _ _ -> _] & Hr).
  split; [lia|]. intros Hz. by rewrite (Hr Hz).
Qed.

(** C9: when the producer reports no error, and the context was not done, it
    has sent the whole plan: for each schema its CREATE statement, for each of
    its tables the metadata task of its kind and, for a base table, all chunks
    of its data (nothing is skipped, nothing is sent twice); no two of these
    tasks write the same file, and without --rows every data task is
    chunk 0. *)
Theorem dump_plan fuel allTables ch :
  (forall k, cancelled k = false) ->
  NoDup (map fst allTables) -> Forall (fun p => NoDup (map tName (snd p))) allTables ->
  dumpDatabases fuel allTables (mkChannel [] 0) = Some (ch, None) ->
  (exists gs, Forall2 (db_tasks fuel) allTables gs /\ sent ch = concat gs) /\ separate (sent ch) /\
  (forall m d c total, TaskTableData m d c total ∈ sent ch ->
     0 <= c /\ (Rows conf = UnspecifiedSize -> c = 0)).
Proof.
  intros Hctx Hdb Htbl Hrun. destruct (dumpDatabases_plan Hctx _ _ _ Hrun) as (gs & Hgs & ->).
  split_and!; [by exists gs|by eapply plan_separate|]. intros m d c total. by eapply plan_chunks.
Qed.

Lemma dumped_separate fuel allTables ch :
  (forall k, cancelled k = false) ->
  NoDup (map fst allTables) -> Forall (fun p => NoDup (map tName (snd p))) allTables ->
  dumpDatabases fuel allTables (mkChannel [] 0) = Some (ch, None) -> separate (sent ch).
Proof.
  intros Hctx Hdb Htbl Hrun. destruct (dumpDatabases_plan Hctx _ _ _ Hrun) as (gs & Hgs & ->).
  by eapply plan_separate.
Qed.
End Dumper.

(** ** An example: a schema with a table and a view *)

Section Example.
#[local] Existing Instances Config.example_regexp Config.example_files Config.example_unicode.
#[local] Instance example_fold : FoldLib := {| unicode_equal_fold := fun _ _ => false |}.
#[local] Instance example_conn : SnapshotConn :=
  {| conn_query := fun q args =>
       if String.eqb q select_field_query
       then Ok (mkRows ["column_name"; "is_generated"; "data_type"; "udt_name"]
                  [[Some "id"; Some "NEVER"; Some "bigint"; Some "int8"]] None)
       else Ok (mkRows ["attname"] [[Some "id"]] None) |}.
#[local] Instance example_pg_dump : PgDump := {| pg_dump := fun args _ => inl (join " " args) |}.
#[local] Instance example_columns : DriverColumns := {| column_types := fun _ => [mkColumnType "id" "INT8"] |}.

Definition example_tables : list (string * list TableInfo) :=
  [("public", [mkTableInfo "t" 0 TableTypeBase; mkTableInfo "v" 0 TableTypeView])].

Definition example_sent : option sending :=
  dumpDatabases DefaultConfig [] (fun _ => false) 3 example_tables (mkChannel [] 0).

Definition example_channel : channel := match example_sent with Some (ch, None) => ch | _ => mkChannel [] 0 end.

Lemma dump_plan_witness :
  example_sent = Some (example_channel, None) /\ length (sent example_channel) = 4%nat /\
  separate (sent example_channel).
Proof.
  assert (example_sent = Some (example_channel, None)) as Hs by (vm_compute; reflexivity).
  split_and!; [exact Hs|vm_compute; reflexivity|].
  refine (proj1 (proj2 (dump_plan DefaultConfig [] (fun _ => false) 3 example_tables example_channel _ _ _ Hs))).
  - done.
  - repeat constructor; set_solver.
  - repeat constructor; cbn; set_solver.
Defined.
End Example.
