(* ===== verification/Init.v ===== *)
(** * The set-up of a dumper (export/dump.go, export/config.go, export/sql.go)

    [NewDumper]: the adjustments of the configuration, then the steps that
    open what the dump needs, in order until one fails.  Files, certificates,
    the storage and the connection pool are parameters; the pool is seen as
    the list of what was done to it. *)

From S2P Require Import Prelude GoStrings Dialect FilterMatcher FilterParser Filter FileNames.
From S2P Require Import SqlTypes Tables Config Prepare Ir Writer TableData Worker Dumper.

(** ** TLS *)

(** The parts of [conf.Security] that only this step reads. *)
Record tls_material := mkMaterial {
  SSLCABytes : string;
  SSLCertBytes : string;
  SSLKeyBytes : string;
  MinTLSVersion : Z
}.

Record tls_config := mkTls {
  MinVersion : Z;
  RootCAs : option string;
  Certificates : option (string * string)
}.

(** [os.ReadFile], [AppendCertsFromPEM] on a new pool, and [X509KeyPair]. *)
Class TLSLib := {
  ReadFile : string -> result string;
  AppendCertsFromPEM : string -> bool;
  X509KeyPair : string -> string -> result unit
}.

(** ** The pool *)

(** What was done to a pool of connections. *)
Inductive pool_event :=
  | PoolExec (pool : nat) (stmt arg : string)
  | PoolOpened (pool : nat)
  | PoolClosed (pool : nat).

(** [sql.Open], [ExecContext] and [PingContext], given what happened before,
    and the text of an error. *)
Class PoolLib := {
  sql_open : list pool_event -> string -> option error;
  pool_exec : list pool_event -> nat -> string -> string -> option error;
  pool_ping : list pool_event -> nat -> option error;
  error_text : error -> string
}.

(** ** The registry of metrics *)

(** A call to a registry; its order matters. *)
Inductive registry_call := MustRegister (name : string) | Unregister (name : string).

(** The names in the order of their registration. *)
Definition collectors : list string :=
  ["dumpling_dump_finished_size"; "dumpling_dump_finished_rows"; "dumpling_dump_estimate_total_rows";
   "dumpling_dump_finished_tables"; "dumpling_write_write_duration_time";
   "dumpling_write_receive_chunk_duration_time"; "dumpling_dump_error_count";
   "dumpling_dump_channel_capacity"].

(** The calls made to a registry, none to the nil registry.
    src/export/metrics.go:106-118 metrics.registerTo *)
Definition registerTo (registry : option (list registry_call)) : option (list registry_call) :=
  match registry with None => None | Some calls => Some (calls ++ map MustRegister collectors) end.

(** src/export/metrics.go:120-132 metrics.unregisterFrom *)
Definition unregisterFrom (registry : option (list registry_call)) : option (list registry_call) :=
  match registry with None => None | Some calls => Some (calls ++ map Unregister collectors) end.

(** Whether a collector is in a registry after calls that do not panic:
    [MustRegister] would on a name that is there already. *)
Definition there_after (name : string) (there : bool) (c : registry_call) : bool :=
  match c with
  | MustRegister n => String.eqb n name || there
  | Unregister n => negb (String.eqb n name) && there
  end.

Definition registered (calls : list registry_call) (name : string) : bool :=
  fold_left (there_after name) calls false.

Section Init.
Context `{UnicodeLib} `{RegexpLib} `{TLSLib} `{PoolLib}.

Definition VersionTLS12 : Z := 771.

Definition nonempty (s : string) : bool := negb (String.eqb s EmptyString).

(** The bytes given, or those of the file.
    src/export/config.go:817-824 buildTLSConfig *)
Definition material (bytes path what : string) : result string :=
  if nonempty bytes then Ok bytes
  else match ReadFile path with
       | Ok b => Ok b
       | Err e => Err (EAnnotate e ("read " +:+ what +:+ " file %q") [AStr path])
       end.

(** [conf.Security.TLS] after the step.
    src/export/config.go:801-865 buildTLSConfig *)
Definition buildTLSConfig (m : tls_material) (conf : Config) : result (option tls_config) :=
  let hasCA := nonempty (SSLCABytes m) || nonempty (CAPath conf) in
  let hasCert := nonempty (SSLCertBytes m) || nonempty (CertPath conf) in
  let hasKey := nonempty (SSLKeyBytes m) || nonempty (KeyPath conf) in
  if negb (hasCA || hasCert || hasKey) && (MinTLSVersion m =? 0) then Ok None
  else
    let minVer := if MinTLSVersion m =? 0 then VersionTLS12 else MinTLSVersion m in
    rootCAs ← (if hasCA then
                 caBytes ← material (SSLCABytes m) (CAPath conf) "CA";
                 if AppendCertsFromPEM caBytes then Ok (Some caBytes)
                 else Err (EErrorf "failed to append CA certificates from %q" [AStr (CAPath conf)])
               else Ok None);
    if negb (Bool.eqb hasCert hasKey) then Err (EErrorf "--cert and --key must be specified together" [])
    else
      certificates ← (if hasCert then
                        certBytes ← material (SSLCertBytes m) (CertPath conf) "cert";
                        keyBytes ← material (SSLKeyBytes m) (KeyPath conf) "key";
                        match X509KeyPair certBytes keyBytes with
                        | Ok _ => Ok (Some (certBytes, keyBytes))
                        | Err e => Err (EAnnotate e "parse cert/key pair" [])
                        end
                      else Ok None);
      Ok (Some (mkTls minVer rootCAs certificates)).

(** ** Session parameters *)

Definition unknown_parameter (e : error) : bool :=
  Contains (error_text e) "unrecognized configuration parameter" ||
  Contains (error_text e) "Unknown system variable".

(** The parameters in the order in which the map is visited, with their
    values printed.
    src/export/sql.go:561-573 resetDBWithSessionParams *)
Fixpoint set_session_params (db : nat) (params : list (string * string)) (h : list pool_event)
    : option error * list pool_event :=
  match params with
  | [] => (None, h)
  | (k, v) :: params' =>
      let s := "SET SESSION " +:+ k +:+ " = $1" in
      let h' := h ++ [PoolExec db s v] in
      match pool_exec h db s v with
      | Some e => if unknown_parameter e then set_session_params db params' h' else (Some e, h')
      | None => set_session_params db params' h'
      end
  end.

(** A pool is named by the length of the history at its opening.
    src/export/sql.go:560-590 resetDBWithSessionParams *)
Definition resetDBWithSessionParams (db : nat) (dsn : string) (params : list (string * string))
    (h : list pool_event) : result nat * list pool_event :=
  match set_session_params db params h with
  | (Some e, h) => (Err e, h)
  | (None, h) =>
      let h := h ++ [PoolClosed db] in
      match sql_open h dsn with
      | Some e => (Err e, h)
      | None =>
          let newDB := length h in
          let h := h ++ [PoolOpened newDB] in
          match pool_ping h newDB with
          | Some _ => (Ok newDB, h ++ [PoolClosed newDB])
          | None => (Ok newDB, h)
          end
      end
  end.

(** ** The steps *)

(** What the steps change: the configuration, the TLS configuration, the
    environment of pg_dump, the handle of the pool, and what was done to
    pools. *)
Record dumper := mkDumper {
  d_conf : Config;
  d_tls : option tls_config;
  d_pgenv : list string;
  d_handle : option nat;
  d_events : list pool_event
}.

Definition init_step : Type := dumper -> option error * dumper.

(** src/export/dump.go:811-819 runSteps *)
Fixpoint runSteps (steps : list init_step) (d : dumper) : option error * dumper :=
  match steps with
  | [] => (None, d)
  | st :: steps' =>
      match st d with
      | (Some e, d) => (Some e, d)
      | (None, d) => runSteps steps' d
      end
  end.

(** The steps of the log and storage libraries: their error. *)
Definition foreign_step (e : option error) : init_step := fun d => (e, d).

(** src/export/dump.go:872-881 openSQLDB *)
Definition openSQLDB : init_step := fun d =>
  match sql_open (d_events d) (GetDSN (d_conf d) EmptyString) with
  | Some e => (Some e, d)
  | None =>
      let db := length (d_events d) in
      (None, mkDumper (d_conf d) (d_tls d) (d_pgenv d) (Some db)
               (d_events d ++ [PoolOpened db]))
  end.

(** src/export/dump.go:883-914 setupPgDumpEnv *)
Definition setupPgDumpEnv_step : init_step := fun d =>
  (None, mkDumper (d_conf d) (d_tls d) (setupPgDumpEnv (d_conf d)) (d_handle d) (d_events d)).

(** src/export/dump.go:916-922 resolveAutoConsistency *)
Definition resolveAutoConsistency : init_step := fun d =>
  let c := if String.eqb (Consistency (d_conf d)) "auto" then "snapshot" else Consistency (d_conf d) in
  (None, mkDumper (set_resolved (d_conf d) (FileType (d_conf d)) c) (d_tls d) (d_pgenv d)
           (d_handle d) (d_events d)).

(** src/export/dump.go:924-930 validateResolveAutoConsistency *)
Definition validateResolveAutoConsistency : init_step := fun d =>
  let conf := d_conf d in
  (if negb (String.eqb (Consistency conf) "snapshot") && nonempty (Snapshot conf)
   then Some (EErrorf "can't specify --snapshot when --consistency isn't snapshot, resolved consistency: %s"
                [AStr (Consistency conf)])
   else None, d).

(** On an error the handle is nil.
    src/export/dump.go:932-940 setSessionParam *)
Definition setSessionParam : init_step := fun d =>
  let db := default 0%nat (d_handle d) in
  let '(r, h) := resetDBWithSessionParams db (GetDSN (d_conf d) EmptyString)
                   (map_to_list (SessionParams (d_conf d))) (d_events d) in
  match r with
  | Ok db => (None, mkDumper (d_conf d) (d_tls d) (d_pgenv d) (Some db) h)
  | Err e => (Some e, mkDumper (d_conf d) (d_tls d) (d_pgenv d) None h)
  end.

(** The adjustments in order until one fails: the TLS configuration and the
    configuration with its file type.
    src/export/config.go:791-799 adjustConfig *)
Definition adjustConfig (m : tls_material) (conf : Config) : result (option tls_config * Config) :=
  tls ← buildTLSConfig m conf;
  _ ← validateSpecifiedSQL conf;
  fileType ← adjustFileFormat conf;
  Ok (tls, set_resolved conf fileType (Consistency conf)).

(** The error, the dumper (none if the configuration is refused), and the
    registry: the metrics are registered first, and the deferred call takes
    them out again when there is an error.
    src/export/dump.go:45-95 NewDumper *)
Definition NewDumper (m : tls_material) (logErr storeErr : option error) (conf : Config)
    (registry : option (list registry_call)) (h : list pool_event)
    : option error * option dumper * option (list registry_call) :=
  let registry := registerTo registry in
  let deferred (err : option error) := match err with Some _ => unregisterFrom registry | None => registry end in
  match adjustConfig m conf with
  | Err e => (Some e, None, deferred (Some e))
  | Ok (tls, conf) =>
      let '(err, d) :=
        runSteps [foreign_step logErr; foreign_step storeErr; foreign_step None; openSQLDB;
                  setupPgDumpEnv_step; resolveAutoConsistency; validateResolveAutoConsistency; setSessionParam]
          (mkDumper conf tls [] None h) in
      (err, Some d, deferred err)
  end.

(** ** Correctness *)

(** A configuration that the dump can rely on. *)
Record conf_ready (conf : Config) : Prop := {
  cr_type : FileType conf = "sql" \/ FileType conf = "csv";
  cr_sql : SQL conf <> EmptyString -> FileType conf = "csv" /\ Where conf = EmptyString;
  cr_resolved : Consistency conf <> "auto";
  cr_snapshot : Snapshot conf <> EmptyString -> Consistency conf = "snapshot";
  cr_format : NewWriter_fileFmt conf <> FileFormatUnknown
}.

Lemma nonempty_true s : nonempty s = true <-> s <> EmptyString.
Proof. unfold nonempty. rewrite negb_true_iff. apply String.eqb_neq. Qed.

Lemma adjustFileFormat_ok conf ft :
  adjustFileFormat conf = Ok ft ->
  (ft = "sql" \/ ft = "csv") /\ (SQL conf <> EmptyString -> ft = "csv").
Proof.
  unfold adjustFileFormat, one_of. cbn [existsb]. rewrite !orb_false_r.
  destruct (String.eqb_spec (SQL conf) EmptyString) as [E|E]; cbn [negb];
    destruct (String.eqb_spec (ToLower (FileType conf)) EmptyString) as [Ht|Ht]; [naive_solver| |naive_solver|];
    destruct (String.eqb_spec (ToLower (FileType conf)) "sql") as [->|]; [naive_solver| |done|];
    destruct (String.eqb_spec (ToLower (FileType conf)) "csv") as [->|]; naive_solver.
Qed.

Lemma set_session_params_events db params : forall h err h',
  set_session_params db params h = (err, h') ->
  exists done todo, params = done ++ todo /\
    h' = h ++ map (fun p => PoolExec db ("SET SESSION " +:+ fst p +:+ " = $1") (snd p)) done /\
    (err = None -> todo = []).
Proof.
  induction params as [|[k v] params IH]; intros h err h'; cbn [set_session_params].
  - intros [= <- <-]. exists [], []. split_and!; [done|by rewrite app_nil_r|done].
  - assert (forall r, set_session_params db params (h ++ [PoolExec db ("SET SESSION " +:+ k +:+ " = $1") v]) = r ->
      r = (err, h') -> exists done todo, (k, v) :: params = done ++ todo /\
        h' = h ++ map (fun p => PoolExec db ("SET SESSION " +:+ fst p +:+ " = $1") (snd p)) done /\
        (err = None -> todo = [])) as Hrec.
    { intros r Hr ->. apply IH in Hr as (dn & todo & -> & -> & Ht). exists ((k, v) :: dn), todo.
      split_and!; [done| |done]. cbn. by rewrite <- app_assoc. }
    destruct (pool_exec _ _ _ _) as [e|]; [|by apply Hrec].
    destruct (unknown_parameter e); [by apply Hrec|].
    intros [= <- <-]. exists [(k, v)], params. by split_and!.
Qed.

Lemma no_exec evs :
  Forall (fun e => match e with PoolExec _ _ _ => False | _ => True end) evs ->
  forall p s v, PoolExec p s v ∉ evs.
Proof. intros Hf p s v Hin. rewrite Forall_forall in Hf. by apply Hf in Hin. Qed.

Lemma runSteps_cons st steps d d' :
  runSteps (st :: steps) d = (None, d') -> exists d1, st d = (None, d1) /\ runSteps steps d1 = (None, d').
Proof. cbn [runSteps]. destruct (st d) as [[e|] d1]; [done|]. intros Hr. by exists d1. Qed.

Lemma openSQLDB_ok d d' : openSQLDB d = (None, d') -> d_conf d' = d_conf d.
Proof. unfold openSQLDB. destruct (sql_open _ _); [done|]. by intros [= <-]. Qed.

Lemma setSessionParam_ok d d' :
  setSessionParam d = (None, d') ->
  d_conf d' = d_conf d /\ d_pgenv d' = d_pgenv d /\ is_Some (d_handle d').
Proof.
  unfold setSessionParam. destruct (resetDBWithSessionParams _ _ _ _) as [[db|e] h]; [|done].
  intros [= <-]. by split_and!.
Qed.

Lemma resolved_ready conf ft :
  ft = "sql" \/ ft = "csv" -> (SQL conf <> EmptyString -> ft = "csv") ->
  (SQL conf <> EmptyString -> Where conf = EmptyString) ->
  let c := if String.eqb (Consistency conf) "auto" then "snapshot" else Consistency conf in
  (if negb (String.eqb c "snapshot") && nonempty (Snapshot conf)
   then Some (EErrorf "can't specify --snapshot when --consistency isn't snapshot, resolved consistency: %s" [AStr c])
   else None) = None ->
  conf_ready (set_resolved (set_resolved conf ft (Consistency conf)) ft c).
Proof.
  intros Ht Hsql Hw c Hc. assert (c <> "auto") as Ha
    by (unfold c; by destruct (String.eqb_spec (Consistency conf) "auto")).
  clearbody c. split; cbn; try done; [by auto| |].
  - intros Hs%nonempty_true. rewrite Hs, andb_true_r in Hc.
    by destruct (String.eqb_spec c "snapshot").
  - unfold NewWriter_fileFmt. cbn. by destruct Ht as [-> | ->].
Qed.

(** What a dumper without an error was made from. *)
Lemma NewDumper_ok m logErr storeErr conf registry h d registry' :
  NewDumper m logErr storeErr conf registry h = (None, Some d, registry') ->
  exists ft, conf_ready (d_conf d) /\ is_Some (d_handle d) /\ d_pgenv d = setupPgDumpEnv (d_conf d) /\
    logErr = None /\ storeErr = None /\
    d_conf d = set_resolved (set_resolved conf ft (Consistency conf)) ft
                 (if String.eqb (Consistency conf) "auto" then "snapshot" else Consistency conf).
Proof.
  unfold NewDumper, adjustConfig. destruct (buildTLSConfig m conf) as [tls|]; cbn [mbind result_bind]; [|done].
  destruct (validateSpecifiedSQL conf) as [[]|] eqn:Ev; cbn [mbind result_bind]; [|done].
  destruct (adjustFileFormat conf) as [ft|] eqn:Ea; cbn [mbind result_bind]; [|done].
  destruct (runSteps _ _) as [e d'] eqn:Er. intros [= -> <- _]. exists ft.
  apply adjustFileFormat_ok in Ea as [Ht Hsql].
  apply runSteps_cons in Er as (d1 & [= Hl <-] & Er). apply runSteps_cons in Er as (d2 & [= Hst <-] & Er).
  apply runSteps_cons in Er as (d3 & [= <-] & Er). apply runSteps_cons in Er as (d4 & E4 & Er).
  apply openSQLDB_ok in E4 as C4. apply runSteps_cons in Er as (d5 & [= <-] & Er).
  apply runSteps_cons in Er as (d6 & [= <-] & Er). apply runSteps_cons in Er as (d7 & E7 & Er).
  injection E7 as E7 <-. apply runSteps_cons in Er as (d8 & E8 & [= <-]).
  apply setSessionParam_ok in E8 as (C8 & P8 & H8). cbn [d_conf d_pgenv] in *. rewrite C4 in *. cbn [d_conf] in *.
  change (FileType (set_resolved conf ft (Consistency conf))) with ft in *.
  change (Consistency (set_resolved conf ft (Consistency conf))) with (Consistency conf) in *.
  rewrite C8, P8. split_and!; [|done|by destruct (String.eqb _ "auto")|done|done|done].
  apply resolved_ready; [done|done| |exact E7]. intros Hs. unfold validateSpecifiedSQL in Ev.
  apply nonempty_true in Hs. unfold nonempty in Hs. rewrite Hs in Ev.
  by destruct (String.eqb_spec (Where conf) EmptyString).
Qed.

(** Metrics stay registered exactly when there is no error. *)
Lemma NewDumper_registered m logErr storeErr conf registry h err od registry' :
  NewDumper m logErr storeErr conf registry h = (err, od, registry') ->
  registry' = (match err with None => registerTo registry | Some _ => unregisterFrom (registerTo registry) end) /\
  (err = None -> is_Some od).
Proof.
  unfold NewDumper. destruct (adjustConfig m conf) as [[tls c]|]; [|by intros [= <- <- <-]].
  destruct (runSteps _ _) as [e d]. intros [= <- <- <-]. split; [by destruct e|eauto].
Qed.

Lemma registered_app name calls names (f : string -> registry_call) v :
  (forall n there, there_after name there (f n) = if String.eqb n name then v else there) ->
  name ∈ names -> registered (calls ++ map f names) name = v.
Proof.
  intros Hf Hin. unfold registered. rewrite fold_left_app. generalize (fold_left (there_after name) calls false).
  enough (forall b, (name ∈ names \/ b = v) -> fold_left (there_after name) (map f names) b = v) as Hg
    by (intros; apply Hg; by left).
  clear Hin. induction names as [|n names IH]; intros b Hb; cbn [map fold_left].
  - destruct Hb as [Hb|]; [by apply not_elem_of_nil in Hb|done].
  - apply IH. rewrite Hf. destruct (String.eqb_spec n name) as [|Hn]; [by right|].
    destruct Hb as [[->|]%elem_of_cons|]; [done|by left|by right].
Qed.

Lemma registerTo_registered calls name :
  name ∈ collectors -> registered (calls ++ map MustRegister collectors) name = true.
Proof. apply registered_app. intros n there. unfold there_after. by destruct (String.eqb n name). Qed.

Lemma unregisterFrom_registered calls name :
  name ∈ collectors -> registered (calls ++ map Unregister collectors) name = false.
Proof. apply registered_app. intros n there. unfold there_after. by destruct (String.eqb n name). Qed.

(** ** Properties *)

(** C21: a dumper that is returned without an error has a configuration that
    the rest of the program can rely on: a file type that a writer knows, in
    lower case; with --sql CSV files and no --where; a consistency that is
    resolved, and --snapshot only with snapshot consistency.  Its metrics stay
    registered, and pg_dump has the environment of the same configuration;
    on an error the metrics are not registered. *)
Theorem new_dumper_ready m logErr storeErr conf registry h err od registry' :
  NewDumper m logErr storeErr conf registry h = (err, od, registry') ->
  match registry, registry' with
  | None, None => True
  | Some _, Some calls =>
      forall name, name ∈ collectors ->
        registered calls name = match err with None => true | Some _ => false end
  | _, _ => False
  end /\
  (err = None -> exists d, od = Some d /\ conf_ready (d_conf d) /\ is_Some (d_handle d) /\
     SQL (d_conf d) = SQL conf /\ Where (d_conf d) = Where conf /\
     d_pgenv d = setupPgDumpEnv (d_conf d)).
Proof.
  intros Hn. destruct (NewDumper_registered _ _ _ _ _ _ _ _ _ Hn) as [-> Hd]. split.
  - destruct registry as [calls|], err; try done; cbn [registerTo unregisterFrom]; intros name;
      [apply unregisterFrom_registered|apply registerTo_registered].
  - intros ->. destruct (Hd eq_refl) as [d ->]. exists d.
    apply NewDumper_ok in Hn as (ft & Hready & Hh & Henv & _ & _ & Hc). split_and!; [done|done|done|..|done]; by rewrite Hc.
Qed.

End Init.

(** ** Examples *)

Section Example.
#[local] Existing Instances Config.example_regexp Config.example_files Config.example_unicode.
#[local] Instance example_tls : TLSLib :=
  {| ReadFile := fun _ => Err (EForeign "no such file"); AppendCertsFromPEM := fun _ => true;
     X509KeyPair := fun _ _ => Ok tt |}.
(** A server that knows the parameter work_mem only. *)
#[local] Instance example_pool : PoolLib :=
  {| sql_open := fun _ _ => None;
     pool_exec := fun _ _ s _ => if Contains s "work_mem" then None
       else Some (EForeign "unrecognized configuration parameter");
     pool_ping := fun _ _ => None;
     error_text := fun e => match e with EForeign s => s | _ => EmptyString end |}.

Definition no_material : tls_material := mkMaterial EmptyString EmptyString EmptyString 0.

Lemma example_new_err : fst (fst (NewDumper no_material None None DefaultConfig (Some []) [])) = None.
Proof. vm_compute. reflexivity. Qed.

Lemma new_dumper_ready_witness :
  exists d calls, NewDumper no_material None None DefaultConfig (Some []) [] = (None, Some d, Some calls) /\
    conf_ready (d_conf d) /\ registered calls "dumpling_dump_error_count" = true.
Proof.
  pose proof example_new_err as He. revert He.
  destruct (NewDumper no_material None None DefaultConfig (Some []) []) as [[err od] registry'] eqn:E.
  cbn [fst]. intros ->.
  destruct (new_dumper_ready no_material None None DefaultConfig (Some []) [] None od registry' E) as [Hreg Hok].
  destruct registry' as [calls|]; [|destruct Hreg].
  destruct (Hok eq_refl) as (d & -> & Hr & _). exists d, calls.
  split; [exact eq_refl|]. split; [exact Hr|]. apply Hreg. apply (bool_decide_unpack _). vm_compute. exact I.
Defined.

(** A pool that cannot be reached. *)
Definition unreachable_pool : PoolLib :=
  {| sql_open := fun _ _ => None; pool_exec := fun _ _ _ _ => None;
     pool_ping := fun _ _ => Some (EForeign "connection refused"); error_text := fun _ => EmptyString |}.

Lemma session_params_lost_example :
  exists done, resetDBWithSessionParams (H2 := unreachable_pool) 0 "dsn" [("work_mem", "64MB")] [PoolOpened 0] =
    (Ok 3%nat, [PoolOpened 0] ++ map (fun p => PoolExec 0 ("SET SESSION " +:+ fst p +:+ " = $1") (snd p)) done ++
       [PoolClosed 0; PoolOpened 3; PoolClosed 3]).
Proof. by exists [("work_mem", "64MB")]. Qed.

End Example.
