(* ===== verification/Service.v ===== *)
(** * What surrounds a dump (log, context, cli, export/http_handler.go, export/dump.go)

    Loggers, contexts that carry a logger, the version banner, the storage
    and the HTTP service of a dumper.  The log, storage and network libraries
    are classes; contexts of Go's library are modelled by the list of the
    cancellations they are subject to. *)

From S2P Require Import Prelude GoStrings Dialect FilterMatcher FilterParser Filter FileNames.
From S2P Require Import SqlTypes Tables Config Init.

(** ** Logs *)

(** src/log/log.go:24-38 Config *)
Record log_config := mkLogConfig {
  Level : string;
  File : string;
  FileMaxSize : Z;
  FileMaxDays : Z;
  FileMaxBackups : Z;
  Format : string
}.

(** A logger of zap, what [pclog.InitLogger] makes of a configuration, and
    the option that adds stack traces from the level of a panic on. *)
Class LogLib := {
  zap_logger : Type;
  NewNop : zap_logger;
  pclog_InitLogger : log_config -> result zap_logger;
  WithStacktrace : zap_logger -> zap_logger
}.

(** A field of a log entry; [zap.Skip] is [None]. *)
Definition log_field : Type := option (string * string).

Section Log.
Context `{LogLib} `{PoolLib}.

(** src/log/log.go:14-16 Logger *)
Record Logger := mkLogger { zap : zap_logger }.

(** The application's logger is never assigned.
    src/log/log.go:11-11 appLogger *)
Definition appLogger : Logger := mkLogger NewNop.

(** src/log/log.go:19-21 Zap *)
Definition Zap : Logger := appLogger.

(** With an error the logger is the application's.
    src/log/log.go:41-56 InitAppLogger *)
Definition InitAppLogger (cfg : log_config) : Logger * option error :=
  match pclog_InitLogger cfg with
  | Err e => (appLogger, Some e)
  | Ok l => (mkLogger (WithStacktrace l), None)
  end.

(** src/log/log.go:59-61 NewAppLogger *)
Definition NewAppLogger (l : zap_logger) : Logger := mkLogger l.

(** src/log/log.go:65-70 ShortError *)
Definition ShortError (err : option error) : log_field :=
  match err with None => None | Some e => Some ("error", error_text e) end.

(** ** Contexts *)

(** A context of the library is done when one of the cancellations that it
    descends from has been made. *)
Definition go_context : Type := list nat.
Definition go_Background : go_context := [].
Definition go_WithCancel (fresh : nat) (c : go_context) : go_context := fresh :: c.
Definition ctx_done (cancelled : list nat) (c : go_context) : bool :=
  existsb (fun k => bool_decide (k ∈ cancelled)) c.

(** src/context/context.go:15-18 Context *)
Record Context := mkContext { go_ctx : go_context; logger : Logger }.

(** src/context/context.go:21-26 Background *)
Definition Background : Context := mkContext go_Background Zap.

(** src/context/context.go:29-34 NewContext *)
Definition NewContext (ctx : go_context) (l : Logger) : Context := mkContext ctx l.

(** src/context/context.go:37-42 Context.WithContext *)
Definition WithContext (ctx : go_context) (c : Context) : Context := mkContext ctx (logger c).

(** The context, and the cancellation that [cancel] makes.
    src/context/context.go:45-51 Context.WithCancel *)
Definition WithCancel (fresh : nat) (c : Context) : Context * nat :=
  (mkContext (go_WithCancel fresh (go_ctx c)) (logger c), fresh).

(** src/context/context.go:54-59 Context.WithLogger *)
Definition WithLogger (l : Logger) (c : Context) : Context := mkContext (go_ctx c) l.

(** src/context/context.go:62-64 Context.L *)
Definition Context_L (c : Context) : Logger := logger c.

(** ** The version banner *)

(** The values that the linker sets.
    src/cli/versions.go:23-34 ReleaseVersion *)
Record build_info := mkBuild {
  ReleaseVersion : string;
  BuildTimestamp : string;
  GitHash : string;
  GitBranch : string;
  GoVersion : string
}.

(** What they are when it does not. *)
Definition unknown_build : build_info := mkBuild "Unknown" "Unknown" "Unknown" "Unknown" "Unknown".

(** src/cli/versions.go:37-50 LongVersion *)
Definition LongVersion (b : build_info) : string :=
  "Release version: " +:+ ReleaseVersion b +:+ str1 newline +:+
  "Git commit hash: " +:+ GitHash b +:+ str1 newline +:+
  "Git branch:      " +:+ GitBranch b +:+ str1 newline +:+
  "Build timestamp: " +:+ BuildTimestamp b +:+ "Z" +:+ str1 newline +:+
  "Go version:      " +:+ GoVersion b +:+ str1 newline.

(** The entry that is logged.
    src/cli/versions.go:53-60 LogLongVersion *)
Definition LogLongVersion (b : build_info) : string * list log_field :=
  ("Welcome to dumpling",
   [Some ("Release Version", ReleaseVersion b); Some ("Git Commit Hash", GitHash b);
    Some ("Git Branch", GitBranch b); Some ("Build timestamp", BuildTimestamp b);
    Some ("Go Version", GoVersion b)]).
End Log.

(** ** The parts of a configuration that only the set-up reads *)

(** [storage.ParseBackend], of a directory and the options, and
    [storage.New]; the options are read from the command line. *)
Class StorageLib := {
  backend_options : Type;
  backend : Type;
  external_storage : Type;
  ParseBackend : string -> backend_options -> result backend;
  storage_New : backend -> result external_storage;
  no_options : backend_options;
  options_from_flags : result backend_options
}.

Section Service.
Context `{UnicodeLib} `{RegexpLib} `{LogLib} `{PoolLib} `{StorageLib}.

(** [Logger] and [ExtStorage] are nil for the command.
    src/export/config.go:152-156 Config *)
Record settings := mkSettings {
  zapLogger : option zap_logger;
  LogLevel : string;
  LogFile : string;
  LogFormat : string;
  StatusAddr : string;
  ExtStorage : option external_storage;
  BackendOptions : backend_options
}.

(** The logger of the dumper, the error, and what is logged at once.
    src/export/dump.go:821-845 initLogger *)
Definition initLogger (b : build_info) (s : settings) (tctx : Context)
    : Context * option error * list (string * list log_field) :=
  match zapLogger s with
  | Some l => (WithLogger (NewAppLogger l) tctx, None, [])
  | None =>
      match InitAppLogger (mkLogConfig (LogLevel s) (LogFile s) 0 0 0 (LogFormat s)) with
      | (_, Some e) => (tctx, Some e, [])
      | (l, None) => (WithLogger l tctx, None, [LogLongVersion b])
      end
  end.

(** src/export/config.go:767-778 Config.createExternalStorage *)
Definition createExternalStorage (s : settings) (outputDir : string) : result external_storage :=
  match ExtStorage s with
  | Some ext => Ok ext
  | None => b ← ParseBackend outputDir (BackendOptions s); storage_New b
  end.

(** The storage, if it can be opened, and the error.
    src/export/dump.go:848-856 createExternalStore *)
Definition createExternalStore (s : settings) (conf : Config) : option external_storage * option error :=
  match createExternalStorage s (OutputDirPath conf) with
  | Ok ext => (Some ext, None)
  | Err e => (None, Some e)
  end.

(** ** The HTTP service *)

Definition useOfClosedErrMsg : string := "use of closed network connection".

(** src/export/http_handler.go:64-69 isErrNetClosing *)
Definition isErrNetClosing (err : option error) : bool :=
  match err with None => false | Some e => Contains (error_text e) useOfClosedErrMsg end.

Definition ErrServerClosed : error := EForeign "http: Server closed".

(** The paths that are routed. *)
Definition routes : list string :=
  ["/metrics"; "/debug/pprof/"; "/debug/pprof/cmdline"; "/debug/pprof/profile"; "/debug/pprof/symbol";
   "/debug/pprof/trace"].

(** [err] is the cause of what [Serve] returned; the routes, and what is
    logged at the end.
    src/export/http_handler.go:21-39 startHTTPServer *)
Definition startHTTPServer (err : option error) : list string * list (string * list log_field) :=
  (routes,
   if bool_decide (err <> None) && negb (isErrNetClosing err) && bool_decide (err <> Some ErrServerClosed)
   then [("dumpling http handler return with error", [ShortError err])] else []).

(** [listen] is the error of listening, [serve] what serving returned.
    src/export/http_handler.go:41-59 startDumplingService *)
Definition startDumplingService (listen serve : option error) : option error :=
  match listen with
  | Some e => Some (EAnnotate e "start listening" [])
  | None => if bool_decide (serve <> None) && isErrNetClosing serve then None else serve
  end.

(** The step never fails: the service runs beside the dump, and its error is
    only logged.
    src/export/dump.go:859-870 startHTTPService *)
Definition startHTTPService (s : settings) (listen serve : option error)
    : option error * list (string * list log_field) :=
  (None,
   if nonempty (StatusAddr s) then
     match startDumplingService listen serve with
     | None => []
     | Some e => [("meet error when stopping dumpling http service", [ShortError (Some e)])]
     end
   else []).

(** ** Correctness *)

(** Closing a listener, which is how the service ends, is not an error, and
    nothing is logged for it. *)
Lemma service_closed e :
  Contains (error_text e) useOfClosedErrMsg = true ->
  startDumplingService None (Some e) = None /\ snd (startHTTPServer (Some e)) = [].
Proof.
  intros Hc. unfold startDumplingService, startHTTPServer, isErrNetClosing. rewrite Hc.
  by rewrite andb_false_r.
Qed.

(** A context is done with its parents. *)
Lemma done_inherited cancelled fresh c :
  ctx_done cancelled (go_ctx c) = true -> ctx_done cancelled (go_ctx (fst (WithCancel fresh c))) = true.
Proof. unfold ctx_done. intros Hd. cbn [WithCancel fst go_ctx go_WithCancel existsb]. rewrite Hd. apply orb_true_r. Qed.

(** Cancelling is seen through the loggers that were set since, and not by
    the context it came from. *)
Lemma cancel_reaches b s fresh c cancelled :
  ctx_done (snd (WithCancel fresh c) :: cancelled)
    (go_ctx (fst (fst (initLogger b s (fst (WithCancel fresh c)))))) = true.
Proof.
  assert (go_ctx (fst (fst (initLogger b s (fst (WithCancel fresh c))))) = fresh :: go_ctx c) as ->.
  { unfold initLogger. destruct (zapLogger s); [done|].
    by destruct (InitAppLogger _) as [l [e|]]. }
  unfold ctx_done. cbn [existsb snd WithCancel]. rewrite bool_decide_true by (by left). done.
Qed.

Lemma cancel_spares fresh c cancelled :
  fresh ∉ go_ctx c -> ctx_done (fresh :: cancelled) (go_ctx c) = ctx_done cancelled (go_ctx c).
Proof.
  unfold ctx_done. induction (go_ctx c) as [|k l IH]; [done|]. intros [Hk Hl]%not_elem_of_cons. cbn [existsb].
  rewrite (IH Hl). f_equal. apply bool_decide_ext. set_solver.
Qed.

(** A storage that was given is used as it is. *)
Lemma given_storage s conf ext :
  ExtStorage s = Some ext -> createExternalStore s conf = (Some ext, None).
Proof. intros He. unfold createExternalStore, createExternalStorage. by rewrite He. Qed.
End Service.
