(* ===== verification/Dispatch.v ===== *)
(** * From the producer to the workers (export/util.go, export/dump.go)

    The unbounded channel between the producer and the workers, and the
    workers themselves, as a transition system: each step is one action of the
    producer, of the goroutine of the channel or of one worker, and any
    interleaving of them is a run.  A task is handled in one step; what
    overlapping tasks write is disjoint ([Worker.handleTask_frame]). *)

From S2P Require Import Prelude GoStrings Dialect FilterMatcher FilterParser Filter FileNames.
From S2P Require Import SqlTypes Conn Tables Config Ir Writer TableData Worker.

(** ** The unbounded channel *)

Section Channel.
Context {T : Type}.

(** The goroutine of the channel: its queue, and whether it has seen the
    input closed, after which it hands out what is left.
    src/export/util.go:19-58 infiniteChan *)
Record infiniteChan := mkChan { q : list T; draining : bool }.

Definition newChan : infiniteChan := mkChan [] false.

(** Receiving from the input: a value, or [None] when it is closed.
    src/export/util.go:28-38 infiniteChan *)
Definition handleRead (c : infiniteChan) (e : option T) : infiniteChan :=
  match e with
  | Some e => mkChan (q c ++ [e]) (draining c)
  | None => mkChan (q c) true
  end.

(** What the output offers: the head of the queue, nothing yet, or closed.
    src/export/util.go:39-55 infiniteChan *)
Inductive offer := Offer (e : T) | Wait | OutClosed.

Definition out_offer (c : infiniteChan) : offer :=
  match q c with
  | e :: _ => Offer e
  | [] => if draining c then OutClosed else Wait
  end.

Definition taken_head (c : infiniteChan) : infiniteChan := mkChan (tail (q c)) (draining c).
End Channel.
Arguments infiniteChan : clear implicits.
Arguments offer : clear implicits.

Section Dispatch.
Context `{UnicodeLib} `{RegexpLib} {E : Type}.
Variable conf : Config.
Variable rebuild : E -> result unit * E.
Variable query_ctx : E -> string -> result (list ColumnType * cursor) * E.
Variable fileFmt : FileFormat.
(** the context is done: workers may leave at any time *)
Variable ctx_done : bool.

(** A worker waits for a task, handles one, or has returned.
    src/export/writer.go:81-100 run *)
Inductive slot :=
  | Idle (e : E)
  | Busy (t : Task) (e : E)
  | Returned (err : option error).

(** The whole: tasks not sent yet, whether the producer closed the channel,
    the channel, the workers, the storage, the finished tasks in the order in
    which they ended, and all tasks handed out, in that order. *)
Record pool := mkPool {
  to_send : list Task;
  in_closed : bool;
  chan : infiniteChan Task;
  slots : list slot;
  files : gmap string string;
  rows_gauge : Z;
  ended : list Task;
  handed : list Task
}.

(** src/export/dump.go:265-312 Dumper.startWriters *)
Definition start (tasks : list Task) (conns : list E) : pool :=
  mkPool tasks false newChan (map Idle conns) ∅ 0 [] [].

Definition handle (oracle : Z -> nat -> file_oracle) (ctx : nat -> bool) (mo : nat -> file_oracle)
    (t : Task) (e : E) (p : pool) : option handled :=
  handleTask conf rebuild query_ctx fileFmt oracle ctx mo t (mkWorker e 0 (files p) (rows_gauge p)).

(** The context of the workers is done: from outside, or because a worker
    returned an error. *)
Definition may_stop (p : pool) : Prop :=
  ctx_done = true \/ exists i x, slots p !! i = Some (Returned (Some x)).

(** One action.
    src/export/dump.go:627-637 Dumper.sendTaskToChan *)
Inductive step : pool -> pool -> Prop :=
  (** the producer sends a task *)
  | step_send p t ts :
      to_send p = t :: ts -> draining (chan p) = false ->
      step p (mkPool ts (in_closed p) (handleRead (chan p) (Some t)) (slots p) (files p) (rows_gauge p)
                (ended p) (handed p))
  (** the producer gives up when the context is done *)
  | step_abandon p t ts :
      to_send p = t :: ts -> may_stop p ->
      step p (mkPool [] (in_closed p) (chan p) (slots p) (files p) (rows_gauge p) (ended p) (handed p))
  (** the producer closes the channel *)
  | step_close p :
      to_send p = [] -> in_closed p = false ->
      step p (mkPool [] true (chan p) (slots p) (files p) (rows_gauge p) (ended p) (handed p))
  (** the goroutine sees the closed input *)
  | step_seen p :
      in_closed p = true -> draining (chan p) = false ->
      step p (mkPool (to_send p) true (handleRead (chan p) None) (slots p) (files p) (rows_gauge p)
                (ended p) (handed p))
  (** an idle worker takes the task at the head *)
  | step_take p i e t :
      slots p !! i = Some (Idle e) -> out_offer (chan p) = Offer t ->
      step p (mkPool (to_send p) (in_closed p) (taken_head (chan p)) (<[i := Busy t e]> (slots p))
                (files p) (rows_gauge p) (ended p) (handed p ++ [t]))
  (** a worker finishes its task, or returns its error *)
  | step_handle p i t e oracle ctx mo h :
      slots p !! i = Some (Busy t e) -> handle oracle ctx mo t e p = Some h ->
      step p (mkPool (to_send p) (in_closed p) (chan p)
                (<[i := match h_err h with None => Idle (conn (h_worker h)) | Some x => Returned (Some x) end]> (slots p))
                (storage (h_worker h)) (finishedRows (h_worker h))
                (match h_err h with None => ended p ++ [t] | Some _ => ended p end) (handed p))
  (** an idle worker sees the closed output *)
  | step_exit p i e :
      slots p !! i = Some (Idle e) -> out_offer (chan p) = OutClosed ->
      step p (mkPool (to_send p) (in_closed p) (chan p) (<[i := Returned None]> (slots p)) (files p)
                (rows_gauge p) (ended p) (handed p))
  (** an idle worker sees that the context is done *)
  | step_done p i e :
      slots p !! i = Some (Idle e) -> may_stop p ->
      step p (mkPool (to_send p) (in_closed p) (chan p) (<[i := Returned None]> (slots p)) (files p)
                (rows_gauge p) (ended p) (handed p)).

Definition reaches : pool -> pool -> Prop := rtc step.

(** ** Runs end *)

Definition slot_weight (s : slot) : nat :=
  match s with Idle _ => 1 | Busy _ _ => 3 | Returned _ => 0 end.

Definition weight (p : pool) : nat :=
  (4 * length (to_send p) + 3 * length (q (chan p)) + sum_list_with slot_weight (slots p) +
   (if in_closed p then 0 else 1) + (if draining (chan p) then 0 else 1))%nat.

Lemma weight_slots (l : list slot) i s s' :
  l !! i = Some s ->
  (sum_list_with slot_weight (<[i := s']> l) + slot_weight s = sum_list_with slot_weight l + slot_weight s')%nat.
Proof.
  revert i. induction l as [|x l IH]; intros [|i]; csimpl; try done.
  - intros [= ->]. lia.
  - intros Hi. specialize (IH _ Hi). lia.
Qed.

Lemma step_decreases p p' : step p p' -> (weight p' < weight p)%nat.
Proof.
  unfold weight. destruct 1 as [p t ts Hs Hd|p t ts Hs _|p Hs Hc|p Hc Hd|p i e t Hi Ho|p i t e o c mo h Hi _|p i e Hi _|p i e Hi _];
    cbn [to_send in_closed chan slots q draining handleRead taken_head].
  - rewrite Hs, length_app. cbn. lia.
  - rewrite Hs. cbn. destruct (in_closed p); lia.
  - rewrite Hs, Hc. cbn. lia.
  - rewrite Hc, Hd. lia.
  - unfold out_offer in Ho. destruct (q (chan p)) as [|t' q']; [by destruct (draining (chan p))|].
    pose proof (weight_slots _ _ _ (Busy t e) Hi) as Hw. cbn in *. lia.
  - pose proof (weight_slots _ _ _ (match h_err h with None => Idle (conn (h_worker h)) | Some x => Returned (Some x) end) Hi) as Hw.
    destruct (h_err h); cbn in *; lia.
  - pose proof (weight_slots _ _ _ (Returned None) Hi) as Hw. cbn in *. lia.
  - pose proof (weight_slots _ _ _ (Returned None) Hi) as Hw. cbn in *. lia.
Qed.

(** ** What the runs preserve *)

Lemma separate_perm l1 l2 : separate l2 -> l1 ≡ₚ l2 -> separate l1.
Proof.
  intros Hs [_ [f [Hinj Hf]]]%Permutation_inj i j t1 t2 o Hi Hj Hij.
  rewrite Hf in Hi, Hj. apply (Hs (f i) (f j)); [done|done|]. intros Heq. by apply Hij, Hinj.
Qed.

Lemma separate_disjoint tasks a t b t' o :
  separate tasks -> tasks ≡ₚ a ++ t :: b -> t' ∈ a -> outputs t' o -> ~ outputs t o.
Proof.
  intros Hs Hp [i Hi]%list_elem_of_lookup. symmetry in Hp.
  apply (separate_perm _ _ Hs Hp i (length a)).
  - by apply lookup_app_l_Some.
  - by rewrite list_lookup_middle.
  - apply lookup_lt_Some in Hi. lia.
Qed.

(** The tasks that workers are handling. *)
Definition busy_task (s : slot) : option Task := match s with Busy t _ => Some t | _ => None end.
Definition busy (l : list slot) : list Task := omap busy_task l.

Lemma busy_insert l i s :
  l !! i = Some s ->
  exists rest, busy l ≡ₚ option_list (busy_task s) ++ rest /\
    forall s', busy (<[i := s']> l) ≡ₚ option_list (busy_task s') ++ rest.
Proof.
  revert i. induction l as [|x l IH]; intros [|i]; try done.
  - intros [= ->]. exists (busy l). cbn. split; [by destruct (busy_task s)|].
    intros s'. by destruct (busy_task s').
  - intros Hi. destruct (IH i Hi) as (rest & H1' & H2'). exists (option_list (busy_task x) ++ rest).
    assert (forall l, busy (x :: l) = option_list (busy_task x) ++ busy l) as Hc
      by (intros l0; unfold busy; cbn; by destruct (busy_task x)).
    split; [|intros s']; cbn [insert list_insert]; rewrite Hc, ?H1', ?H2';
      rewrite !(assoc_L (++)); apply Permutation_app_tail, Permutation_app_comm.
Qed.

Record inv (tasks : list Task) (p : pool) : Prop := {
  i_sent : exists dropped, tasks = handed p ++ q (chan p) ++ to_send p ++ dropped /\
                           (dropped = [] \/ may_stop p);
  i_closed : in_closed p = true -> to_send p = [];
  i_drain : draining (chan p) = true -> in_closed p = true;
  i_handed : exists failed, handed p ≡ₚ ended p ++ busy (slots p) ++ failed /\
                            (failed = [] \/ may_stop p);
  i_left : forall i, slots p !! i = Some (Returned None) ->
           (q (chan p) = [] /\ draining (chan p) = true) \/ may_stop p;
  i_stored : forall t e n, t ∈ ended p -> task_stored conf query_ctx fileFmt t (mkWorker e 0 (files p) n)
}.

Lemma start_inv tasks conns : inv tasks (start tasks conns).
Proof.
  split; cbn; try done.
  - exists []. rewrite app_nil_r. split; [done|by left].
  - exists []. split; [|by left]. cbn. induction conns; cbn; done.
  - intros i Hi. apply list_lookup_fmap_Some in Hi as (? & ? & _). done.
  - intros t e n Hin. by apply not_elem_of_nil in Hin.
Qed.

Lemma keep_may_stop p p' : step p p' -> may_stop p -> may_stop p'.
Proof.
  assert (forall (l : list slot) i s s', l !! i = Some s -> (forall x, s <> Returned (Some x)) ->
    (exists j x, l !! j = Some (Returned (Some x))) -> exists j x, <[i := s']> l !! j = Some (Returned (Some x)))
    as Hins.
  { intros l i s s' Hi Hs (j & x & Hj). exists j, x. rewrite list_lookup_insert_ne; [done|].
    intros ->. rewrite Hi in Hj. injection Hj as ->. by apply (Hs x). }
  intros Hstep [Hd|Hex]; [by left|right].
  destruct Hstep; cbn [slots]; try done; by eapply Hins.
Qed.

Hypothesis default_template : OutputFileTemplate conf = DefaultOutputFileTemplate.
Hypothesis terminated : CsvLineTerminator conf <> EmptyString.
Hypothesis size_range : 0 <= FileSize conf.
Hypothesis no_sql : SQL conf = EmptyString.
Variable tasks : list Task.
Hypothesis fits : Forall (task_fits conf query_ctx) tasks.
Hypothesis apart : separate tasks.

Lemma stored_same t w w' :
  task_fits conf query_ctx t -> storage w' = storage w ->
  task_stored conf query_ctx fileFmt t w -> task_stored conf query_ctx fileFmt t w'.
Proof. intros Ht Hs. apply task_stored_keep; try done. intros p _. by rewrite Hs. Qed.

Lemma inv_member p t : inv tasks p -> t ∈ handed p -> task_fits conf query_ctx t.
Proof.
  intros [(d & Ht & _) _ _ _ _ _] Hin. rewrite Forall_forall in fits. apply fits.
  rewrite Ht. apply elem_of_app. by left.
Qed.

Lemma busy_handed p i t e : inv tasks p -> slots p !! i = Some (Busy t e) -> t ∈ handed p.
Proof.
  intros [_ _ _ (failed & Hp & _) _ _] Hi. rewrite Hp. apply elem_of_app. right.
  apply elem_of_app. left. apply list_elem_of_omap. exists (Busy t e). split; [|done].
  by eapply list_elem_of_lookup_2.
Qed.

(** Tasks that have ended do not share files with one that is handled. *)
Lemma ended_disjoint p i t e t' o :
  inv tasks p -> slots p !! i = Some (Busy t e) -> t' ∈ ended p -> outputs t' o -> ~ outputs t o.
Proof.
  intros [(d & Ht & _) _ _ (failed & Hp & _) _ _] Hi Hin.
  destruct (busy_insert _ _ _ Hi) as (rest & Hb & _). cbn in Hb.
  apply (separate_disjoint tasks (ended p) t (rest ++ failed ++ q (chan p) ++ to_send p ++ d)); [done| |done].
  rewrite Ht, Hp, Hb. by rewrite <- !app_assoc.
Qed.

Lemma handle_stored p i t e oracle ctx mo h :
  inv tasks p -> slots p !! i = Some (Busy t e) -> handle oracle ctx mo t e p = Some h ->
  (h_err h = None -> task_stored conf query_ctx fileFmt t (h_worker h)) /\
  (forall t' e' n, t' ∈ ended p -> task_stored conf query_ctx fileFmt t' (mkWorker e' 0 (storage (h_worker h)) n)).
Proof.
  intros Hinv Hi Hh. pose proof (inv_member p t Hinv (busy_handed _ _ _ _ Hinv Hi)) as Hfit. split.
  - intros He. by eapply handleTask_stored.
  - intros t' e' n Hin. pose proof (i_stored _ _ Hinv t' e' n Hin) as Hst.
    assert (t' ∈ handed p) as Hh'.
    { destruct Hinv as [_ _ _ (failed & Hp & _) _ _]. rewrite Hp. apply elem_of_app. by left. }
    apply (task_stored_keep conf query_ctx fileFmt default_template no_sql t' (mkWorker e' 0 (files p) n));
      [by eapply inv_member| |exact Hst]. intros path Hown. cbn.
    pose proof (handleTask_frame _ _ _ _ _ _ default_template terminated size_range no_sql _ _ _ _ Hfit Hh) as Hfr.
    rewrite Hfr; [done|]. eapply owns_disjoint; [done| |exact Hown].
    intros o. by eapply ended_disjoint.
Qed.

(** A slot that becomes idle or busy keeps the other invariants of slots. *)
Lemma left_insert (P : Prop) (l : list slot) i s' :
  (forall j, l !! j = Some (Returned None) -> P) -> (s' = Returned None -> P) ->
  forall j, <[i := s']> l !! j = Some (Returned None) -> P.
Proof.
  intros Hl Hs j Hj. destruct (decide (i = j)) as [->|Hne].
  - apply list_lookup_insert_Some in Hj as [(_ & Hj & _)|(? & _)]; [by apply Hs|done].
  - rewrite list_lookup_insert_ne in Hj by done. by apply (Hl j).
Qed.

Lemma inv_send p t ts :
  inv tasks p -> to_send p = t :: ts -> draining (chan p) = false ->
  inv tasks (mkPool ts (in_closed p) (handleRead (chan p) (Some t)) (slots p) (files p) (rows_gauge p)
               (ended p) (handed p)).
Proof.
  intros [(d & E1 & E2) Hcl Hdr Hha Hle Hst] Hs Hd. split; cbn; try done.
  - exists d. split; [|done]. rewrite E1, Hs. by rewrite <- !app_assoc.
  - intros Hc. rewrite Hcl in Hs by done. done.
  - intros i Hi. destruct (Hle i Hi) as [[_ ?]|?]; [congruence|by right].
Qed.

Lemma inv_take p i e t :
  inv tasks p -> slots p !! i = Some (Idle e) -> out_offer (chan p) = Offer t ->
  inv tasks (mkPool (to_send p) (in_closed p) (taken_head (chan p)) (<[i := Busy t e]> (slots p))
               (files p) (rows_gauge p) (ended p) (handed p ++ [t])).
Proof.
  intros Hinv Hi Ho. pose proof Hinv as [(d & E1 & E2) Hcl Hdr (f & F1 & F2) Hle Hst].
  unfold out_offer in Ho. destruct (q (chan p)) as [|t' q'] eqn:Hq; [by destruct (draining (chan p))|].
  injection Ho as ->.
  assert (may_stop p -> may_stop (mkPool (to_send p) (in_closed p) (taken_head (chan p))
    (<[i := Busy t e]> (slots p)) (files p) (rows_gauge p) (ended p) (handed p ++ [t]))) as Hkeep.
  { apply keep_may_stop. apply step_take; [done|]. unfold out_offer. by rewrite Hq. }
  split; cbn; try done.
  - exists d. rewrite Hq. cbn. split; [by rewrite <- app_assoc|]. destruct E2; [by left|right; auto].
  - exists f. destruct (busy_insert _ _ _ Hi) as (rest & B1 & B2). cbn in B1. split.
    + rewrite F1, B1, (B2 (Busy t e)). cbn. by rewrite <- !Permutation_middle, app_nil_r.
    + destruct F2; [by left|right; auto].
  - apply left_insert; [|done]. intros j Hj.
    destruct (Hle j Hj) as [[? _]|?]; [done|right; auto].
Qed.

Lemma inv_handle p i t e oracle ctx mo h :
  inv tasks p -> slots p !! i = Some (Busy t e) -> handle oracle ctx mo t e p = Some h ->
  inv tasks (mkPool (to_send p) (in_closed p) (chan p)
    (<[i := match h_err h with None => Idle (conn (h_worker h)) | Some x => Returned (Some x) end]> (slots p))
    (storage (h_worker h)) (finishedRows (h_worker h))
    (match h_err h with None => ended p ++ [t] | Some _ => ended p end) (handed p)).
Proof.
  intros Hinv Hi Hh. pose proof Hinv as [(d & E1 & E2) Hcl Hdr (f & F1 & F2) Hle Hst].
  destruct (handle_stored _ _ _ _ _ _ _ _ Hinv Hi Hh) as [Hnew Hold].
  pose proof (keep_may_stop _ _ (step_handle _ _ _ _ _ _ _ _ Hi Hh)) as Hkeep.
  destruct (busy_insert _ _ _ Hi) as (rest & B1 & B2). cbn in B1.
  split; cbn; try done.
  - exists d. split; [done|]. destruct E2; [by left|right; auto].
  - destruct (h_err h) as [x|].
    + exists (t :: f). split.
      * rewrite F1, B1, (B2 (Returned (Some x))). cbn. by rewrite <- !Permutation_middle.
      * right. right. exists i, x. apply list_lookup_insert_eq. by eapply lookup_lt_Some.
    + exists f. split; [|destruct F2; [by left|right; auto]].
      rewrite F1, B1, (B2 (Idle _)). cbn. by rewrite <- (app_assoc (ended p)).
  - apply left_insert; [|by destruct (h_err h)]. intros j Hj.
    destruct (Hle j Hj) as [?|?]; [by left|right; auto].
  - intros t' e' n Hin. destruct (h_err h) as [x|] eqn:He; [by apply Hold|].
    apply elem_of_app in Hin as [Hin| ->%list_elem_of_singleton]; [by apply Hold|].
    eapply stored_same; [by eapply inv_member, busy_handed|reflexivity|by apply Hnew].
Qed.

Lemma inv_return p i e :
  inv tasks p -> slots p !! i = Some (Idle e) -> out_offer (chan p) = OutClosed \/ may_stop p ->
  inv tasks (mkPool (to_send p) (in_closed p) (chan p) (<[i := Returned None]> (slots p)) (files p)
               (rows_gauge p) (ended p) (handed p)).
Proof.
  intros Hinv Hi Hwhy. pose proof Hinv as [(d & E1 & E2) Hcl Hdr (f & F1 & F2) Hle Hst].
  assert (may_stop p -> may_stop (mkPool (to_send p) (in_closed p) (chan p) (<[i := Returned None]> (slots p))
    (files p) (rows_gauge p) (ended p) (handed p))) as Hkeep.
  { intros Hm. eapply keep_may_stop; [by apply (step_done p i e)|done]. }
  destruct (busy_insert _ _ _ Hi) as (rest & B1 & B2). cbn in B1.
  split; cbn; try done.
  - exists d. split; [done|]. destruct E2; [by left|right; auto].
  - exists f. split; [|destruct F2; [by left|right; auto]]. by rewrite F1, B1, (B2 (Returned None)).
  - apply left_insert.
    + intros j Hj. destruct (Hle j Hj) as [?|?]; [by left|right; auto].
    + intros _. destruct Hwhy as [Ho|?]; [left|right; auto].
      unfold out_offer in Ho. destruct (q (chan p)); [|done]. by destruct (draining (chan p)).
Qed.

Lemma inv_step p p' : inv tasks p -> step p p' -> inv tasks p'.
Proof.
  intros Hinv Hstep. destruct Hstep as [p t ts Hs Hd|p t ts Hs Hm|p Hs Hc|p Hc Hd|p i e t Hi Ho|p i t e o c mo h Hi Hh|p i e Hi Ho|p i e Hi Hm].
  - by apply inv_send.
  - pose proof Hinv as [(d & E1 & E2) Hcl Hdr Hha Hle Hst]. split; cbn; try done.
    exists (t :: ts ++ d). split; [by rewrite E1, Hs|by right].
  - pose proof Hinv as [(d & E1 & E2) Hcl Hdr Hha Hle Hst]. split; cbn; try done.
    exists d. split; [by rewrite E1, Hs|done].
  - pose proof Hinv as [(d & E1 & E2) Hcl Hdr Hha Hle Hst]. split; cbn; try done; [by exists d|by intros _; apply Hcl|].
    intros i Hi. destruct (Hle i Hi) as [[? _]|?]; [by left|by right].
  - by apply inv_take.
  - by eapply inv_handle.
  - apply (inv_return _ _ e); [done|done|by left].
  - apply (inv_return _ _ e); [done|done|by right].
Qed.

Lemma inv_reaches conns p : reaches (start tasks conns) p -> inv tasks p.
Proof.
  intros Hr. apply (rtc_ind_r (inv tasks) (start tasks conns)) in Hr; [done|apply start_inv|].
  intros y z _ Hs Hi. by eapply inv_step.
Qed.

Lemma slots_length conns p : reaches (start tasks conns) p -> length (slots p) = length conns.
Proof.
  intros Hr. apply (rtc_ind_r (fun p => length (slots p) = length conns) (start tasks conns)) in Hr; [done| |].
  - cbn. by rewrite length_map.
  - intros y z _ Hs Hy. destruct Hs; cbn [slots] in *; by rewrite ?length_insert.
Qed.

Lemma busy_progress p i t e : inv tasks p -> slots p !! i = Some (Busy t e) -> exists p', step p p'.
Proof.
  intros Hinv Hi. pose proof (inv_member _ _ Hinv (busy_handed _ _ _ _ Hinv Hi)) as Hfit.
  set (o := fun (_ : Z) (_ : nat) => mkFileOracle None (fun _ => None) None (fun _ => Sent) 0).
  destruct (handleTask_total conf rebuild query_ctx fileFmt o (fun _ => false) default_template terminated
    size_range (o 0) t (mkWorker e 0 (files p) (rows_gauge p)) Hfit) as [h Hh].
  eexists. by eapply (step_handle p i t e o (fun _ => false) (o 0)).
Qed.

Lemma idle_progress p i e : inv tasks p -> slots p !! i = Some (Idle e) -> exists p', step p p'.
Proof.
  intros Hinv Hi. destruct (q (chan p)) as [|t q'] eqn:Hq.
  - destruct (draining (chan p)) eqn:Hdr.
    { eexists. apply (step_exit p i e); [done|]. unfold out_offer. by rewrite Hq, Hdr. }
    destruct (to_send p) as [|t ts] eqn:Hs; [|eexists; by apply (step_send p t ts)].
    destruct (in_closed p) eqn:Hc; [eexists; by apply step_seen|eexists; by apply step_close].
  - eexists. apply (step_take p i e t); [done|]. unfold out_offer. by rewrite Hq.
Qed.

Lemma not_stopped p :
  ctx_done = false -> Forall (fun s => s = Returned None) (slots p) -> ~ may_stop p.
Proof.
  intros Hd Hall [?|(i & x & Hi)]; [congruence|].
  rewrite Forall_lookup in Hall. by apply Hall in Hi.
Qed.

Lemma busy_returned l : Forall (fun s => s = Returned None) l -> busy l = [].
Proof. induction 1 as [|s l -> _ IH]; [done|]. unfold busy. cbn. exact IH. Qed.

Lemma all_returned conns p :
  conns <> [] -> ctx_done = false -> reaches (start tasks conns) p ->
  Forall (fun s => s = Returned None) (slots p) ->
  handed p = tasks /\ ended p ≡ₚ tasks /\
  (forall t e n, t ∈ tasks -> task_stored conf query_ctx fileFmt t (mkWorker e 0 (files p) n)).
Proof.
  intros Hc Hd Hr Hall. pose proof (inv_reaches _ _ Hr) as Hinv.
  pose proof (not_stopped _ Hd Hall) as Hns.
  destruct Hinv as [(d & E1 & [->|]) Hcl Hdr (f & F1 & [->|]) Hle Hst]; try done.
  assert (exists i, slots p !! i = Some (Returned None)) as [i Hi].
  { apply slots_length in Hr. rewrite Forall_lookup in Hall. destruct (slots p) as [|s l] eqn:Hs.
    - destruct conns; [done|]. cbn in Hr. done.
    - exists 0%nat. cbn. f_equal. by apply (Hall 0%nat). }
  destruct (Hle i Hi) as [[Hq Hdr']|]; [|done].
  rewrite (Hcl (Hdr Hdr')), Hq in E1. cbn in E1. rewrite app_nil_r in E1.
  rewrite busy_returned in F1 by done. cbn in F1. rewrite app_nil_r in F1.
  assert (ended p ≡ₚ tasks) as Hp by (by rewrite <- F1, E1).
  split_and!; [done|done|]. intros t e n Hin. apply Hst. by rewrite Hp.
Qed.

(** ** Properties *)

Definition returned (s : slot) : bool := match s with Returned _ => true | _ => false end.

Lemma returned_cases l :
  forallb returned l = true ->
  Forall (fun s => s = Returned None) l \/ exists i x, l !! i = Some (Returned (Some x)).
Proof.
  induction l as [|s l IH]; [by left|]. cbn. intros [Hs Hl]%andb_prop.
  destruct s as [e|t e|[x|]]; try done; [right; by exists 0%nat, x|].
  destruct (IH Hl) as [?|(i & x & Hi)]; [left; by constructor|right; by exists (S i), x].
Qed.

(** The workers never wait for ever: every run of producer, channel and workers
    has boundedly many steps, and as long as a worker has not returned some
    step is possible; so every run that goes on as long as it can ends with all
    workers returned. *)
Lemma dispatch_terminates conns :
  (forall n p, nsteps step n (start tasks conns) p -> (n <= weight (start tasks conns))%nat) /\
  (forall p, reaches (start tasks conns) p ->
     forallb returned (slots p) = true \/ exists p', step p p').
Proof.
  split.
  - intros n p Hn. assert (n + weight p <= weight (start tasks conns))%nat; [|lia].
    induction Hn as [p0|n x y z Hs Hn IH]; [lia|]. apply step_decreases in Hs. lia.
  - intros p Hr. apply inv_reaches in Hr as Hinv.
    destruct (forallb returned (slots p)) eqn:Hb; [by left|right].
    assert (exists i s, slots p !! i = Some s /\ returned s = false) as (i & s & Hi & Hs).
    { clear -Hb. induction (slots p) as [|s l IH]; [done|]. cbn in Hb.
      destruct (returned s) eqn:Es; [|by exists 0%nat, s].
      destruct (IH Hb) as (i & s' & ? & ?). by exists (S i), s'. }
    destruct s as [e|t e|?]; [|by eapply busy_progress|done].
    by eapply idle_progress.
Qed.

(** C15: whatever the interleaving, every run comes to the point where all
    workers have returned; and then every task has been handled and its files
    are complete, unless a worker returned an error or the context was done. *)
Theorem dispatch_inevitable conns :
  conns <> [] ->
  inevitably step (fun p =>
    forallb returned (slots p) = true /\
    (ctx_done = true \/ (exists i x, slots p !! i = Some (Returned (Some x))) \/
     (ended p ≡ₚ tasks /\
      forall t e n, t ∈ tasks -> task_stored conf query_ctx fileFmt t (mkWorker e 0 (files p) n))))
    (start tasks conns).
Proof.
  intros Hc. apply (inevitably_measure _ _ (reaches (start tasks conns)) weight).
  - intros x y Hx Hs. by eapply rtc_r.
  - intros x y. apply step_decreases.
  - intros p Hr. destruct (proj2 (dispatch_terminates conns) p Hr) as [Hb|]; [left|by right].
    split; [done|]. destruct (returned_cases (slots p) Hb) as [Hall|?]; [|by right; left].
    assert (ctx_done = true \/ ctx_done = false) as [?|Hd] by (clear; destruct ctx_done; auto);
      [by left|right; right].
    by destruct (all_returned conns p Hc Hd Hr Hall) as (_ & ? & ?).
  - apply rtc_refl.
Qed.

(** C5: when all workers have returned without an error and the context was
    never done, every task that the producer was to send has been sent, taken
    in the order of sending, and handled exactly once, whatever the
    interleaving and the number of workers; and the files of every task are
    complete in the storage. *)
Theorem dispatch_complete conns p :
  conns <> [] -> ctx_done = false -> reaches (start tasks conns) p ->
  Forall (fun s => s = Returned None) (slots p) ->
  handed p = tasks /\ ended p ≡ₚ tasks /\
  (forall t e n, t ∈ tasks -> task_stored conf query_ctx fileFmt t (mkWorker e 0 (files p) n)).
Proof. apply all_returned. Qed.
End Dispatch.

(** ** An example: one schema and two workers *)

Section Example.
#[local] Existing Instances Config.example_regexp Config.example_files Config.example_unicode.

Definition example_plan : list Task := [TaskDatabaseMeta "public" "CREATE SCHEMA public"].
Definition example_step := step example_conf (fun e => (Ok tt, e)) example_query FileFormatSQLText false.
Definition example_pool (ts : list Task) (closed : bool) (c : infiniteChan Task) (l : list (slot (E := bool)))
    (m : gmap string string) (d h : list Task) : pool := mkPool ts closed c l m 0 d h.
Definition example_files : gmap string string :=
  {["public-schema-create.sql" :=
      meta_text example_conf "CREATE SCHEMA public"]}.
Definition example_end : pool :=
  example_pool [] true (mkChan [] true) [Returned None; Returned None] example_files example_plan example_plan.

Lemma example_fitting : Forall (task_fits example_conf example_query) example_plan.
Proof. by repeat constructor. Qed.

Lemma example_apart : separate example_plan.
Proof. intros [|i] [|j]; try done; cbn; intros; by rewrite ?lookup_nil in *. Qed.

Lemma example_reaches : rtc example_step (start example_plan [false; true]) example_end.
Proof.
  eapply rtc_l; [by eapply (step_send _ _ _ _ _ _ _ [])|]. cbn.
  eapply rtc_l; [by apply (step_take _ _ _ _ _ _ 1%nat true (TaskDatabaseMeta "public" "CREATE SCHEMA public"))|]. cbn.
  eapply rtc_l; [by apply step_close|]. cbn.
  eapply rtc_l; [apply (step_handle _ _ _ _ _ _ 1%nat (TaskDatabaseMeta "public" "CREATE SCHEMA public") true
    (fun _ => example_oracle) (fun _ => false) example_oracle
    (mkHandled None (mkWorker true 0 example_files 0) false)); [done|vm_compute; reflexivity]|]. cbn.
  eapply rtc_l; [by apply step_seen|]. cbn.
  eapply rtc_l; [by apply (step_exit _ _ _ _ _ _ 0%nat false)|]. cbn.
  eapply rtc_l; [by apply (step_exit _ _ _ _ _ _ 1%nat true)|]. cbn.
  apply rtc_refl.
Qed.

Lemma dispatch_complete_witness :
  reaches example_conf (fun e => (Ok tt, e)) example_query FileFormatSQLText false
    (start example_plan [false; true]) example_end /\
  (forall t e n, t ∈ example_plan ->
     task_stored example_conf example_query FileFormatSQLText t (mkWorker e 0 (files example_end) n)).
Proof.
  split; [exact example_reaches|].
  refine (proj2 (proj2 (dispatch_complete example_conf (fun e => (Ok tt, e)) example_query FileFormatSQLText
    false eq_refl _ _ eq_refl example_plan example_fitting example_apart [false; true] example_end _ eq_refl
    example_reaches _))); [done|done|done|by repeat constructor].
Defined.

Lemma dispatch_inevitable_witness :
  inevitably example_step (fun p =>
    forallb returned (slots p) = true /\
    (false = true \/ (exists i x, slots p !! i = Some (Returned (Some x))) \/
     (ended p ≡ₚ example_plan /\
      forall t e n, t ∈ example_plan ->
        task_stored example_conf example_query FileFormatSQLText t (mkWorker e 0 (files p) n))))
    (start example_plan [false; true]).
Proof.
  refine (dispatch_inevitable example_conf (fun e => (Ok tt, e)) example_query FileFormatSQLText
    false eq_refl _ _ eq_refl example_plan example_fitting example_apart [false; true] _); done.
Defined.
End Example.
