(* ===== verification/Lifecycle.v ===== *)
(** * The course of a dump (export/dump.go, export/metadata.go)

    [Dump] from the first connection to the metadata file, with its deferred
    steps.  What the table list, the producer of tasks and the workers return
    is a parameter here ([Dumper], [Dispatch]); connections, transactions,
    the replication slot and the metadata are modelled. *)

From S2P Require Import Prelude GoStrings Dialect FilterMatcher FilterParser Filter SqlTypes.
From S2P Require Import FileNames Conn Tables Config Cdc Ir Writer TableData Worker Consistency.

(** ** The metadata file *)

(** src/export/metadata.go:14-22 globalMetadata *)
Record globalMetadata := mkMetadata { buffer : string; afterConnBuffer : string; mSlot : option cdcSlotInfo }.

Definition line (s : string) : string := s +:+ str1 newline.

(** src/export/metadata.go:29-36 newGlobalMetadata *)
Definition newGlobalMetadata : globalMetadata := mkMetadata EmptyString EmptyString None.

(** Times are given formatted.
    src/export/metadata.go:42-44 globalMetadata.recordStartTime *)
Definition recordStartTime (t : string) (m : globalMetadata) : globalMetadata :=
  mkMetadata (buffer m +:+ line ("Started dump at: " +:+ t)) (afterConnBuffer m) (mSlot m).

(** src/export/metadata.go:46-49 globalMetadata.recordFinishTime *)
Definition recordFinishTime (t : string) (m : globalMetadata) : globalMetadata :=
  mkMetadata (buffer m +:+ afterConnBuffer m +:+ line ("Finished dump at: " +:+ t)) (afterConnBuffer m) (mSlot m).

Definition slot_lines (s : cdcSlotInfo) : string :=
  line ("CDC Slot: " +:+ SlotName s) +:+ line ("CDC Plugin: " +:+ OutputPlugin s) +:+
  line ("CDC Consistent Point: " +:+ ConsistentPoint s) +:+
  line ("CDC Snapshot Name: " +:+ SnapshotName s).

(** src/export/metadata.go:55-64 globalMetadata.recordGlobalMetaData *)
Definition recordGlobalMetaData (m : globalMetadata) : globalMetadata :=
  match mSlot m with
  | None => m
  | Some s => mkMetadata (buffer m +:+ slot_lines s) (afterConnBuffer m) (mSlot m)
  end.

(** src/export/metadata.go:38-40 globalMetadata.String *)
Definition globalMetadata_String (m : globalMetadata) : string := buffer m.

(** src/export/metadata.go:24-27 metadataPath *)
Definition metadataPath : string := "metadata".

(** The metadata file is never compressed.
    src/export/metadata.go:66-78 globalMetadata.writeGlobalMetaData *)
Definition writeGlobalMetaData (o : file_oracle) (m : globalMetadata) : files_and_error :=
  match buildFileWriter o metadataPath NoCompression with
  | Err e => ([], Some e)
  | Ok (name, tearDown) =>
      let '(text, err) := write_all (chunk_err o) 0 [globalMetadata_String m] in
      ([(name, text)], match err with None => tearDown | Some e => Some e end)
  end.

(** ** The dump *)

(** A broken connection after the writers have started: the producer's, in
    [QuerySQL], or that of writer [i], in [WriteTableData]. *)
Inductive reconnection := ProducerReconnects | WriterReconnects (i : nat).

(** The connections in use, the metadata and the world. *)
Record running := mkRunning {
  producerConn : nat;
  writerConns : list nat;
  rMetadata : globalMetadata;
  rWorld : world
}.

Section Dump.
Context `{Server} `{UnicodeLib} `{RegexpLib}.
Variable conf : Config.
(** what the steps in other files report *)
Variable prepare_err : option error.
Variable produce_err : option error.
Variable wait_err : option error.
Variable started finished : string.
(** the reconnections while tasks are produced, and those of the writers
    while they are waited for; what the storage does to the metadata file *)
Variable producing : list reconnection.
Variable waiting : list nat.
Variable meta_oracle : file_oracle.

(** [errors.ErrorEqual(err, context.Canceled)]: the same message. *)
Variable is_canceled : error -> bool.

(** The connections of the writers.
    src/export/dump.go:265-275 Dumper.startWriters *)
Fixpoint startWriters (threads : nat) (w : world) : result (list nat) * world :=
  match threads with
  | O => (Ok [], w)
  | S n =>
      match createConnWithConsistency (needRepeatableRead (Consistency conf)) w with
      | (Err e, w) => (Err e, w)
      | (Ok c, w) =>
          match startWriters n w with
          | (Err e, w) => (Err e, w)
          | (Ok cs, w) => (Ok (c :: cs), w)
          end
      end
  end.

(** src/export/dump.go:306-311 Dumper.startWriters *)
Definition tearDownWriters (conns : list nat) (w : world) : world := foldl close_conn w conns.

(** A new connection in place of a broken one, which is closed and not put
    back into the pool; it is returned again when there is no new one.
    src/export/dump.go:160-180 Dumper.Dump *)
Definition rebuildMetaConn (c : nat) (updateMeta : bool) (m : globalMetadata) (w : world)
    : option error * nat * globalMetadata * world :=
  match createConnWithConsistency (needRepeatableRead (Consistency conf)) (close_conn w c) with
  | (Err e, w) => (Some e, c, m, w)
  | (Ok c', w) => (None, c', (if updateMeta && PosAfterConnect conf then recordGlobalMetaData m else m), w)
  end.

(** The workers' variant: the controller must still be alive.
    src/export/dump.go:182-189 Dumper.Dump *)
Definition rebuildConn (k : controller) (c : nat) (updateMeta : bool) (m : globalMetadata) (w : world)
    : option error * nat * globalMetadata * world :=
  match PingContext k w with
  | (Some e, w) => (Some e, c, m, w)
  | (None, w) => rebuildMetaConn c updateMeta m w
  end.

(** Both callers keep the connection that is returned, with an error too.
    src/export/writer.go:203-209 Writer.WriteTableData *)
Definition reconnect (k : controller) (s : running) (r : reconnection) : running :=
  match r with
  | ProducerReconnects =>
      let '(_, c, m, w) := rebuildMetaConn (producerConn s) false (rMetadata s) (rWorld s) in
      mkRunning c (writerConns s) m w
  | WriterReconnects i =>
      match writerConns s !! i with
      | None => s
      | Some conn =>
          let '(_, c, m, w) := rebuildConn k conn true (rMetadata s) (rWorld s) in
          mkRunning (producerConn s) (<[i := c]> (writerConns s)) m w
      end
  end.

(** Where [Dump] stands when it returns: what it returns, the variable [err]
    that the deferred cleanup reads, the controller, the connections whose
    closing is deferred, and the metadata. *)
Record leaving := mkLeaving {
  dumpErr : option error;
  errVar : option error;
  ctl : controller;
  deferred : list nat;
  metadata : globalMetadata
}.

(** The end: the producer's connection is closed, and the writers are waited
    for; the error of the wait is a variable of its own.
    src/export/dump.go:247-262 Dumper.Dump *)
Definition wait_for_writers (k : controller) (metaConn : nat) (err : option error) (r : running)
    : leaving * world :=
  let r := mkRunning (producerConn r) (writerConns r) (rMetadata r) (close_conn (rWorld r) (producerConn r)) in
  let r := foldl (reconnect k) r (map WriterReconnects waiting) in
  let defers := writerConns r ++ [metaConn] in
  match wait_err with
  | Some we => (mkLeaving (Some we) err k defers (rMetadata r), rWorld r)
  | None => (mkLeaving None err k defers (recordFinishTime finished (rMetadata r)), rWorld r)
  end.

(** From the tables on: the writers start, the snapshot is let go, and tasks
    are produced, with reconnections meanwhile.
    src/export/dump.go:154-263 Dumper.Dump *)
Definition dump_tables_and_wait (k : controller) (metaConn : nat) (m : globalMetadata) (w : world)
    : leaving * world :=
  match prepare_err with
  | Some e => (mkLeaving (Some e) (Some e) k [metaConn] m, w)
  | None =>
  match startWriters (Z.to_nat (Threads conf)) w with
  | (Err e, w) => (mkLeaving (Some e) (Some e) k [metaConn] m, w)
  | (Ok conns, w) =>
      let '(tdErr, k, w) := if TransactionalConsistency conf then TearDown k w else (None, k, w) in
      match tdErr with
      | Some e => (mkLeaving (Some e) (Some e) k (conns ++ [metaConn]) m, w)
      | None =>
          let m := if PosAfterConnect conf then recordGlobalMetaData m else m in
          let r := foldl (reconnect k) (mkRunning metaConn conns m w) producing in
          match produce_err with
          | Some e =>
              if is_canceled e then wait_for_writers k metaConn (Some e) r
              else (mkLeaving (Some e) (Some e) k (writerConns r ++ [metaConn]) (rMetadata r), rWorld r)
          | None => wait_for_writers k metaConn None r
          end
      end
  end
  end.

(** The deferred steps after [Setup]: connections, then the controller, and on
    an error its cleanup.
    src/export/dump.go:124-133 Dumper.Dump *)
Definition leave (l : leaving) (w : world) : world :=
  let w := tearDownWriters (deferred l) w in
  let '(_, k, w) := TearDown (ctl l) w in
  match errVar l with
  | Some _ => let '(_, _, w) := OnFailure conf k w in w
  | None => w
  end.

(** The error, the metadata file if one is written, and the world; the error
    of writing the metadata is dropped.
    src/export/dump.go:99-263 Dumper.Dump *)
Definition Dump (w : world) : option error * list (string * string) * world :=
  match NewConsistencyController conf w with
  | (Err e, w) => (Some e, [], w)
  | (Ok k, w) =>
      match Setup conf k w with
      | (Some e, _, w) => (Some e, [], w)
      | (None, k, w) =>
          let m := mkMetadata EmptyString EmptyString (confSlot w) in
          let '(l, w) :=
            match createConnWithConsistency (needRepeatableRead (Consistency conf)) w with
            | (Err e, w) => (mkLeaving (Some e) (Some e) k [] m, w)
            | (Ok metaConn, w) =>
                dump_tables_and_wait k metaConn (recordGlobalMetaData (recordStartTime started m)) w
            end in
          (dumpErr l,
           match dumpErr l with None => fst (writeGlobalMetaData meta_oracle (metadata l)) | Some _ => [] end,
           leave l w)
      end
  end.

(** ** Correctness *)

Lemma startWriters_adopt n : forall w cs w',
  Consistency conf = "snapshot" -> pgSnapshotToken w <> EmptyString ->
  startWriters n w = (Ok cs, w') ->
  length cs = n /\ extends w w' (concat (map (adopt (pgSnapshotToken w)) cs)).
Proof.
  induction n as [|n IH]; intros w cs w' Hs Ht; cbn.
  - intros [= <- <-]. split; [done|]. apply extends_nil.
  - rewrite Hs. change (needRepeatableRead "snapshot") with true.
    destruct (createConnWithConsistency true w) as [[c|] w1] eqn:E1; [|done].
    apply createConn_adopts in E1; [|done]. pose proof E1 as (_ & Hp & _).
    destruct (startWriters n w1) as [[cs'|] w2] eqn:E2; [|done]. intros [= <- <-].
    apply IH in E2 as [Hl E2]; [|done|by rewrite Hp]. rewrite Hp in E2.
    split; [cbn; by rewrite Hl|]. by eapply extends_trans.
Qed.

Lemma tearDownWriters_grows cs : forall w, grows w (tearDownWriters cs w).
Proof.
  induction cs as [|c cs IH]; intros w; cbn; [done|]. etrans; [|apply IH]. by apply grows_event.
Qed.

Lemma leave_grows l w : grows w (leave l w).
Proof.
  unfold leave. pose proof (tearDownWriters_grows (deferred l) w) as G1.
  pose proof (TearDown_grows (ctl l) (tearDownWriters (deferred l) w)) as G2.
  destruct (TearDown (ctl l) _) as [[r k] w1]. cbn in G2.
  pose proof (OnFailure_grows conf k w1) as G3.
  destruct (errVar l); [|by etrans]. destruct (OnFailure conf k w1) as [[r' k'] w2]. cbn in G3.
  etrans; [exact G1|]. by etrans.
Qed.

(** ** Reconnections *)

Lemma rebuildMetaConn_grows c u m w :
  Consistency conf = "snapshot" -> grows w (snd (rebuildMetaConn c u m w)).
Proof.
  intros Hs. unfold rebuildMetaConn. rewrite Hs. change (needRepeatableRead "snapshot") with true.
  pose proof (createConn_grows true (close_conn w c) (or_introl eq_refl)) as G.
  destruct (createConnWithConsistency true _) as [[c'|e] w']; cbn in *; (etrans; [by apply (grows_event w (Closed c))|done]).
Qed.

Lemma rebuildConn_grows k c u m w :
  Consistency conf = "snapshot" -> grows w (snd (rebuildConn k c u m w)).
Proof.
  intros Hs. unfold rebuildConn. pose proof (PingContext_grows k w) as G.
  destruct (PingContext k w) as [[e|] w']; [done|]. cbn in G. etrans; [exact G|]. by apply rebuildMetaConn_grows.
Qed.

Lemma reconnects_grow k rs : forall s,
  Consistency conf = "snapshot" -> grows (rWorld s) (rWorld (foldl (reconnect k) s rs)).
Proof.
  induction rs as [|r rs IH]; intros s Hs; [done|]. cbn [foldl]. etrans; [|by apply IH].
  destruct r as [|i]; unfold reconnect.
  - pose proof (rebuildMetaConn_grows (producerConn s) false (rMetadata s) (rWorld s) Hs) as G.
    by destruct (rebuildMetaConn _ _ _ _) as [[[e c] m] w].
  - destruct (writerConns s !! i) as [c|]; [|done].
    pose proof (rebuildConn_grows k c true (rMetadata s) (rWorld s) Hs) as G.
    by destruct (rebuildConn _ _ _ _ _) as [[[e c'] m] w].
Qed.

(** [m'] is [m] with the slot recorded [n] more times, which takes
    [PosAfterConnect]. *)
Definition recorded (n : nat) (m m' : globalMetadata) : Prop :=
  m' = Nat.iter n recordGlobalMetaData m /\ (PosAfterConnect conf = false -> n = 0%nat).

Lemma recorded_refl m : recorded 0 m m.
Proof. done. Qed.

Lemma recorded_trans n1 n2 m1 m2 m3 : recorded n1 m1 m2 -> recorded n2 m2 m3 -> recorded (n2 + n1) m1 m3.
Proof.
  intros [-> H1'] [-> H2']. split; [by rewrite Nat.iter_add|]. intros Hp. by rewrite H1', H2'.
Qed.

Lemma rebuildMetaConn_records c u m w : exists n, recorded n m (snd (fst (rebuildMetaConn c u m w))).
Proof.
  unfold rebuildMetaConn. destruct (createConnWithConsistency _ _) as [[c'|e] w']; cbn; [|by exists 0%nat].
  destruct u, (PosAfterConnect conf) eqn:Hp; cbn; try by exists 0%nat. exists 1%nat. split; [done|]. by rewrite Hp.
Qed.

Lemma reconnects_record k rs : forall s,
  exists n, recorded n (rMetadata s) (rMetadata (foldl (reconnect k) s rs)).
Proof.
  induction rs as [|r rs IH]; intros s; [by exists 0%nat|]. cbn [foldl].
  destruct (IH (reconnect k s r)) as [n2 R2].
  assert (exists n, recorded n (rMetadata s) (rMetadata (reconnect k s r))) as [n1 R1].
  { destruct r as [|i]; unfold reconnect.
    - destruct (rebuildMetaConn_records (producerConn s) false (rMetadata s) (rWorld s)) as [n R].
      exists n. by destruct (rebuildMetaConn _ _ _ _) as [[[e c] m] w].
    - destruct (writerConns s !! i) as [c|]; [|by exists 0%nat]. unfold rebuildConn.
      destruct (PingContext k (rWorld s)) as [[e|] w1]; [by exists 0%nat|].
      destruct (rebuildMetaConn_records c true (rMetadata s) w1) as [n R].
      exists n. by destruct (rebuildMetaConn _ _ _ _) as [[[e c'] m] w]. }
  exists (n2 + n1)%nat. by eapply recorded_trans.
Qed.

Lemma wait_ok k metaConn err r l w' :
  Consistency conf = "snapshot" -> wait_for_writers k metaConn err r = (l, w') -> dumpErr l = None ->
  grows (rWorld r) w' /\ exists n m, recorded n (rMetadata r) m /\ metadata l = recordFinishTime finished m.
Proof.
  intros Hs. unfold wait_for_writers. set (r1 := mkRunning _ _ _ _). set (rs := map WriterReconnects waiting).
  pose proof (reconnects_grow k rs r1 Hs) as G. destruct (reconnects_record k rs r1) as [n R].
  assert (grows (rWorld r) (rWorld (foldl (reconnect k) r1 rs))) as G'.
  { etrans; [|exact G]. by apply (grows_event _ (Closed _)). }
  destruct wait_err; intros [= <- <-]; [done|]. intros _. split; [exact G'|]. by eexists _, _.
Qed.

(** The writers adopt the snapshot right after the metadata connection, and
    whatever follows comes after that. *)
Lemma tables_and_wait_ok k metaConn m w l w' :
  Consistency conf = "snapshot" -> pgSnapshotToken w <> EmptyString ->
  dump_tables_and_wait k metaConn m w = (l, w') -> dumpErr l = None ->
  exists cs w1 n m', length cs = Z.to_nat (Threads conf) /\
    extends w w1 (concat (map (adopt (pgSnapshotToken w)) cs)) /\ grows w1 w' /\
    recorded n m m' /\ metadata l = recordFinishTime finished m'.
Proof.
  intros Hs Ht. unfold dump_tables_and_wait. destruct prepare_err; [by intros [= <- <-]|].
  destruct (startWriters (Z.to_nat (Threads conf)) w) as [[cs|] w1] eqn:E1; [|by intros [= <- <-]].
  apply startWriters_adopt in E1 as [Hl E1]; [|done|done].
  assert (grows w1 (snd (if TransactionalConsistency conf then TearDown k w1 else (None, k, w1)))) as G1
    by (destruct (TransactionalConsistency conf); [apply TearDown_grows|done]).
  destruct (if TransactionalConsistency conf then _ else _) as [[[e|] k'] w2]; [by intros [= <- <-]|].
  cbn in G1. set (m1 := if PosAfterConnect conf then _ else _). set (r0 := mkRunning _ _ m1 w2).
  assert (exists n, recorded n m m1) as [n1 R1].
  { unfold m1. destruct (PosAfterConnect conf) eqn:Hp; [exists 1%nat|by exists 0%nat].
    split; [done|]. by rewrite Hp. }
  pose proof (reconnects_grow k' producing r0 Hs) as G2. destruct (reconnects_record k' producing r0) as [n2 R2].
  cbn [rWorld rMetadata r0] in G2, R2. set (r := foldl _ _ _) in *. intros Hd He.
  assert (exists err, wait_for_writers k' metaConn err r = (l, w')) as [err Hw].
  { destruct produce_err as [e|]; [destruct (is_canceled e); [by eexists|]|by eexists].
    injection Hd as <- <-. done. }
  destruct (wait_ok _ _ _ _ _ _ Hs Hw He) as (G3 & n3 & m' & R3 & Hm).
  exists cs, w1, (n3 + (n2 + n1))%nat, m'. split_and!; [done|done|by do 2 (etrans; [eassumption|])| |done].
  eapply recorded_trans; [|exact R3]. by eapply recorded_trans.
Qed.

Lemma tearDownWriters_closed cs : forall w,
  history (tearDownWriters cs w) = history w ++ map Closed cs.
Proof.
  induction cs as [|c cs IH]; intros w; cbn; [by rewrite app_nil_r|].
  pose proof (IH (close_conn w c)) as E. unfold tearDownWriters in E. rewrite E. cbn.
  by rewrite <- app_assoc.
Qed.

Lemma TearDown_history k w :
  exists h, history (snd (TearDown k w)) = history w ++ h /\ (forall c, Opened true c ∉ h) /\ Refused true ∉ h.
Proof.
  destruct k as [|c]; [exists []; cbn; rewrite app_nil_r; split_and!; set_solver|]. cbn.
  assert (exists h, history (match cdcConn c with Some cn => close_conn w cn | None => w end) = history w ++ h /\
    (forall c, Opened true c ∉ h) /\ Refused true ∉ h) as (h1 & Hh1 & N1 & N2).
  { destruct (cdcConn c) as [cn|]; [exists [Closed cn]|exists []]; cbn; rewrite ?app_nil_r;
      split_and!; set_solver. }
  destruct (sconn c) as [cn|]; [|by exists h1]. unfold exec_on.
  destruct (answer _ _ _); cbn; rewrite Hh1, <- !app_assoc; eexists; (split; [reflexivity|]); set_solver.
Qed.

(** The slot that the controller made, which [TearDown] remembers. *)
Definition ctl_slot (k : controller) : option cdcSlotInfo :=
  match k with ConsistencySnapshot c => cdcSlot c | ConsistencyNone => None end.

Lemma TearDown_slot k w : ctl_slot (snd (fst (TearDown k w))) = ctl_slot k.
Proof.
  destruct k as [|c]; [done|]. cbn. destruct (sconn c); [|done]. by destruct (exec_on _ _ _).
Qed.

Lemma let_go k w :
  (TransactionalConsistency conf = true -> fst (fst (TearDown k w)) = None) ->
  exists k' w', (if TransactionalConsistency conf then TearDown k w else (None, k, w)) = (None, k', w') /\
    ctl_slot k' = ctl_slot k.
Proof.
  intros Ht. destruct (TransactionalConsistency conf); [|by eexists _, _].
  specialize (Ht eq_refl). pose proof (TearDown_slot k w) as Hs.
  destruct (TearDown k w) as [[r k'] w']. cbn in Ht, Hs. subst r. by eexists _, _.
Qed.

(** A replication connection was refused, or opened and told to drop the slot. *)
Definition drop_attempted (name : string) (h : list event) : Prop :=
  Refused true ∈ h \/
  exists c, Opened true c ∈ h /\ (Executed c (drop_slot_stmt name) ∈ h \/ Failed c (drop_slot_stmt name) ∈ h).

Lemma drop_attempted_app name h1 h2 : drop_attempted name h2 -> drop_attempted name (h1 ++ h2).
Proof.
  intros [Hr|(c & Ho & He)]; [left; by apply elem_of_app; right|right; exists c].
  rewrite !elem_of_app. tauto.
Qed.

Lemma OnFailure_drops k w slot cfg :
  ctl_slot k = Some slot -> CDCCleanupOnFailure conf = true ->
  ValidateCDCName "--cdc-slot" (SlotName slot) = Ok tt -> parse_dsn (GetDSN conf EmptyString) = Ok cfg ->
  exists h, history (snd (OnFailure conf k w)) = history w ++ h /\ drop_attempted (SlotName slot) h.
Proof.
  destruct k as [|c]; [done|]. cbn [ctl_slot]. intros Hs Hc Hv Hp. unfold OnFailure. rewrite Hs, Hc. cbn [negb].
  set (w1 := match cdcConn c with Some cn => close_conn w cn | None => w end).
  assert (exists h, history w1 = history w ++ h) as [h1 Hw1]
    by (unfold w1; destruct (cdcConn c); eexists; [reflexivity|by rewrite app_nil_r]).
  unfold dropCDCSlot, open_replication, openReplicationConn. rewrite Hv, Hp. unfold with_replication. cbn [RuntimeParams].
  rewrite bool_decide_true by apply lookup_insert_eq.
  unfold open_conn. destruct (accept (history w1) true) as [e|].
  - exists (h1 ++ [Refused true]). cbn. rewrite Hw1, <- app_assoc. split; [done|].
    apply drop_attempted_app. left. by left.
  - unfold exec_on. set (st := drop_slot_stmt (SlotName slot)).
    destruct (answer _ _ st); [|destruct (Contains _ _)];
      (eexists (h1 ++ [_; _; _]); cbn; rewrite Hw1, <- !app_assoc; split; [reflexivity|];
       apply drop_attempted_app; right; eexists; split; [by left|]; fold st; set_solver).
Qed.

(** What the deferred steps add to the history. *)
Lemma leave_history l w :
  exists h, history (leave l w) = history w ++ h /\
    (errVar l = None -> (forall c, Opened true c ∉ h) /\ Refused true ∉ h) /\
    (forall slot cfg, is_Some (errVar l) -> ctl_slot (ctl l) = Some slot -> CDCCleanupOnFailure conf = true ->
       ValidateCDCName "--cdc-slot" (SlotName slot) = Ok tt -> parse_dsn (GetDSN conf EmptyString) = Ok cfg ->
       drop_attempted (SlotName slot) h).
Proof.
  unfold leave. pose proof (tearDownWriters_closed (deferred l) w) as E1.
  set (w2 := tearDownWriters (deferred l) w) in *.
  destruct (TearDown_history (ctl l) w2) as (h & Hh & Hno1 & Hno2).
  pose proof (TearDown_slot (ctl l) w2) as Hslot.
  destruct (TearDown (ctl l) w2) as [[r' k'] w3]. cbn in Hh, Hslot. rewrite E1, <- app_assoc in Hh.
  destruct (errVar l) as [e|].
  - destruct (OnFailure_grows conf k' w3) as (h2 & [Hh2 _] & _). exists ((map Closed (deferred l) ++ h) ++ h2).
    destruct (OnFailure conf k' w3) as [[r2 k2] w4] eqn:Eo. cbn in Hh2.
    split_and!; [by rewrite Hh2, Hh, !app_assoc|done|]. intros slot cfg _ Hs Hc Hv Hp.
    rewrite <- Hslot in Hs. destruct (OnFailure_drops k' w3 slot cfg Hs Hc Hv Hp) as (h3 & Hh3 & Hd).
    rewrite Eo in Hh3. cbn in Hh3. rewrite Hh2 in Hh3. apply (inj (history w3 ++.)) in Hh3 as ->.
    by apply drop_attempted_app.
  - exists (map Closed (deferred l) ++ h). split_and!; [exact Hh| |by intros ?? []]. intros _.
    split; [intros c|]; intros [Hc|Hc]%elem_of_app; try done;
      [|by apply (Hno1 c)|]; apply list_elem_of_fmap in Hc as (? & ? & _); done.
Qed.

(** ** Properties *)

(** The slot lines are in the file [n] times. *)
Definition metadata_text (n : nat) (slot : option cdcSlotInfo) : string :=
  line ("Started dump at: " +:+ started) +:+
  sconcat (repeat (match slot with Some s => slot_lines s | None => EmptyString end) n) +:+
  line ("Finished dump at: " +:+ finished).

(** What the metadata file is to hold: the slot once, and unless
    [PosAfterConnect] is off once more for every time it is recorded again. *)
Definition is_metadata (slot : option cdcSlotInfo) (text : string) : Prop :=
  exists n, text = metadata_text (S n) slot /\ (PosAfterConnect conf = false -> n = 0%nat).

(** The files that are left when the metadata is [text]. *)
Definition metadata_file (text : string) : list (string * string) :=
  match create_err meta_oracle, chunk_err meta_oracle 0 with
  | Some _, _ => []
  | None, Some _ => [(metadataPath, EmptyString)]
  | None, None => [(metadataPath, text)]
  end.

Lemma writeGlobalMetaData_file m :
  fst (writeGlobalMetaData meta_oracle m) = metadata_file (buffer m).
Proof.
  unfold writeGlobalMetaData, metadata_file, buildFileWriter. destruct (create_err meta_oracle); [done|]. cbn.
  destruct (chunk_err meta_oracle 0); cbn; [done|]. unfold globalMetadata_String. by rewrite sapp_nil_r.
Qed.

Lemma recorded_iter n m :
  let m' := Nat.iter n recordGlobalMetaData m in
  mSlot m' = mSlot m /\ afterConnBuffer m' = afterConnBuffer m /\
  buffer m' = buffer m +:+ sconcat (repeat (match mSlot m with Some s => slot_lines s | None => EmptyString end) n).
Proof.
  induction n as [|n IH]; [cbn; by rewrite sapp_nil_r|].
  change (Nat.iter (S n) recordGlobalMetaData m) with (recordGlobalMetaData (Nat.iter n recordGlobalMetaData m)).
  cbv zeta in IH |- *.
  revert IH. generalize (Nat.iter n recordGlobalMetaData m). intros m0 (E1 & E2 & E3).
  set (x := match mSlot m with Some s => _ | None => _ end) in *.
  assert (sconcat (repeat x (S n)) = sconcat (repeat x n) +:+ x) as ->.
  { cbn [repeat]. rewrite repeat_cons, sconcat_app. cbn. by rewrite sapp_nil_r. }
  unfold recordGlobalMetaData. rewrite E1. destruct (mSlot m) as [sl|]; cbn [mSlot afterConnBuffer buffer].
  - by rewrite E2, E3, sapp_assoc.
  - rewrite E1, E2, E3. unfold x. by rewrite sapp_nil_r.
Qed.

Lemma metadata_recorded n m slot :
  recorded n (recordGlobalMetaData (recordStartTime started (mkMetadata EmptyString EmptyString slot))) m ->
  is_metadata slot (buffer (recordFinishTime finished m)).
Proof.
  intros [-> Hn]. exists n. split; [|done].
  set (m0 := recordStartTime started _). change (recordGlobalMetaData m0) with (Nat.iter 1 recordGlobalMetaData m0).
  rewrite <- Nat.iter_add, Nat.add_1_r. destruct (recorded_iter (S n) m0) as (_ & H2' & H3').
  unfold recordFinishTime. cbn [buffer]. rewrite H2', H3'. unfold metadata_text. cbn. by rewrite !sapp_assoc.
Qed.

Lemma set_up_token w w' cn k h :
  (forall hist c t r rs, answer hist c export_stmt = Ok ((t :: r) :: rs) -> t <> EmptyString) ->
  set_up conf w w' cn k h -> pgSnapshotToken w' <> EmptyString.
Proof. intros Hexp [_ (h' & [[_ Ht]|[_ (r & rs & Ha)]]) _ _ _]; [done|by eapply Hexp]. Qed.

(** The run from [w] to [w'] reads one snapshot: before anything is closed, a
    transaction holds a snapshot under a name, and then the metadata connection
    and every writer begin a transaction and adopt exactly that name; so does
    every connection that is opened later. *)
Definition one_snapshot (w w' : world) : Prop :=
  exists cn tok h conns rest,
    history w' = history w ++ [Opened false cn] ++ h ++ concat (map (adopt tok) conns) ++ rest /\
    holds_snapshot (history w ++ [Opened false cn]) h cn tok /\ none_closed h /\
    length conns = S (Z.to_nat (Threads conf)) /\ tok <> EmptyString /\ joins tok rest.

Lemma shares_snapshot w w' files :
  Consistency conf = "snapshot" ->
  (forall hist c t r rs, answer hist c export_stmt = Ok ((t :: r) :: rs) -> t <> EmptyString) ->
  Dump w = (None, files, w') ->
  one_snapshot w w' /\ exists text, files = metadata_file text /\ is_metadata (confSlot w') text.
Proof.
  intros Hs Hexp. unfold Dump, NewConsistencyController.
  destruct (open_conn false w) as [[cn|] w1] eqn:E1; [|done]. apply open_conn_ok in E1 as (O1 & _).
  rewrite Hs. change (one_of "snapshot" ["auto"; "snapshot"]) with true. cbn iota.
  destruct (Setup conf _ w1) as [[[e|] k] w2] eqn:E2; [done|].
  apply Setup_ok in E2 as [h Hset]. pose proof (set_up_token _ _ _ _ _ Hexp Hset) as Htok.
  destruct Hset as [S1 S2 S3 S4 S5]. rewrite O1 in S1, S2.
  change (needRepeatableRead "snapshot") with true.
  destruct (createConnWithConsistency true w2) as [[mc|e] w3] eqn:E3; [|by intros [= ? ?]].
  apply createConn_adopts in E3; [|done]. pose proof E3 as (A1 & A2 & A3 & A4).
  destruct (dump_tables_and_wait k mc _ w3) as [l w4] eqn:E4. intros [= He <- <-]. rewrite He.
  destruct (tables_and_wait_ok _ _ _ _ _ _ Hs ltac:(by rewrite A2) E4 He)
    as (cs & w5 & n & m' & Hl & (B1 & B2 & _ & B4) & (h5 & (C1 & C2 & _ & C4) & J5) & Hrec & Hm).
  destruct (leave_grows l w4) as (h6 & (D1 & _ & _ & D4) & J6).
  rewrite C2, B2, A2 in J6. rewrite B2, A2 in J5.
  split.
  - exists cn, (pgSnapshotToken w2), h, (mc :: cs), (h5 ++ h6). split_and!; try done.
    + rewrite D1, C1, B1, A1, S1, A2. cbn [map concat]. rewrite <- !app_assoc. done.
    + cbn. by rewrite Hl.
    + apply joins_app; auto.
  - rewrite writeGlobalMetaData_file, Hm. eexists. split; [reflexivity|].
    rewrite D4, C4, B4, A4. by eapply metadata_recorded.
Qed.

(** A dump that reports success: the table list was made, no error came from
    the writers, and the producer stopped at most for a cancellation. *)
(** Metadata is written by a dump without an error only. *)
Lemma Dump_failed_no_metadata w e files w' : Dump w = (Some e, files, w') -> files = [].
Proof.
  unfold Dump. destruct (NewConsistencyController conf w) as [[k|] w1]; [|by intros [= _ <- _]].
  destruct (Setup conf k w1) as [[[e'|] k2] w2]; [by intros [= _ <- _]|].
  destruct (createConnWithConsistency _ w2) as [[mc|e'] w3]; [|by intros [= _ <- _]].
  destruct (dump_tables_and_wait k2 mc _ w3) as [l w4]. intros [= He <- _]. by rewrite He.
Qed.

Lemma Dump_outcomes w files w' :
  Dump w = (None, files, w') ->
  prepare_err = None /\ wait_err = None /\ (forall e, produce_err = Some e -> is_canceled e = true).
Proof.
  unfold Dump. destruct (NewConsistencyController conf w) as [[k|] w1]; [|done].
  destruct (Setup conf k w1) as [[[e|] k2] w2]; [done|].
  destruct (createConnWithConsistency _ w2) as [[mc|e] w3]; [|by intros [= ? ?]].
  destruct (dump_tables_and_wait k2 mc _ w3) as [l w4] eqn:E. intros [= He _ _]. revert E.
  unfold dump_tables_and_wait. destruct prepare_err; [intros [= <- <-]; done|].
  destruct (startWriters _ w3) as [[cs|e] w5]; [|intros [= <- <-]; done].
  destruct (if TransactionalConsistency conf then _ else _) as [[[e|] k3] w6]; [intros [= <- <-]; done|].
  unfold wait_for_writers.
  destruct produce_err as [e|]; [destruct (is_canceled e) eqn:Ec|]; try destruct wait_err;
    intros [= <- <-]; try done; split_and!; try done; congruence.
Qed.

(** C8: a dump with snapshot consistency that reports success read one
    snapshot.  Before anything is closed, one transaction holds a snapshot
    (the given one, the slot's, or one it exported) under a name; then the
    metadata connection and every writer, one after the other, begin a
    repeatable-read transaction and adopt exactly that name; only then can the
    snapshot be let go, and whatever breaks later, a connection that is opened
    in place of another adopts that name too or is given up.  The metadata
    file, if the storage takes it, gives the slot of that snapshot. *)
Theorem dump_shares_snapshot w w' files :
  Consistency conf = "snapshot" ->
  (forall hist c t r rs, answer hist c export_stmt = Ok ((t :: r) :: rs) -> t <> EmptyString) ->
  Dump w = (None, files, w') ->
  one_snapshot w w' /\ exists text, files = metadata_file text /\ is_metadata (confSlot w') text.
Proof. apply shares_snapshot. Qed.

(** C33: after the controller has been torn down (which the default
    --transactional-consistency does before the first row is written), the
    rebuilding of a writer's connection fails at once, without a new
    connection: the retries of table data cannot succeed then, and the writer
    keeps its broken connection. *)
Theorem no_rebuild_after_teardown c w r k w1 conn updateMeta m :
  TearDown (ConsistencySnapshot c) w = (r, k, w1) ->
  exists e, rebuildConn k conn updateMeta m w1 = (Some e, conn, m, w1).
Proof.
  unfold TearDown, rebuildConn. destruct (sconn c) as [cn|].
  - destruct (exec_on _ _ _) as [r' w2]. intros [= _ <- <-]. by eexists.
  - intros [= _ <- <-]. by eexists.
Qed.


(** C35: when the producer stopped because the context was cancelled and the
    writers, seeing the same, returned without an error, the dump reports
    success and writes a metadata file with its finish time, although tasks
    were never sent. *)
Theorem canceled_dump_reports_success k metaConn m w cs w1 e :
  prepare_err = None -> produce_err = Some e -> is_canceled e = true -> wait_err = None ->
  startWriters (Z.to_nat (Threads conf)) w = (Ok cs, w1) ->
  (TransactionalConsistency conf = true -> fst (fst (TearDown k w1)) = None) ->
  exists l w2, dump_tables_and_wait k metaConn m w = (l, w2) /\ dumpErr l = None /\ errVar l = Some e /\
    exists b, buffer (metadata l) = b +:+ line ("Finished dump at: " +:+ finished).
Proof.
  intros Hp Hprod Hc Hw Hst Ht. unfold dump_tables_and_wait. rewrite Hp, Hst.
  destruct (let_go k w1 Ht) as (k1 & w1' & -> & _). rewrite Hprod, Hc. unfold wait_for_writers. rewrite Hw.
  eexists _, _. split_and!; [reflexivity..|]. cbn [metadata]. unfold recordFinishTime. cbn [buffer].
  eexists. by rewrite <- sapp_assoc.
Qed.
End Dump.

(** ** An example: a server that accepts everything *)

Section Example.
#[local] Existing Instances Config.example_regexp Config.example_files Config.example_unicode.
#[local] Instance example_server : Server :=
  {| accept := fun _ _ => None;
     answer := fun _ _ sql => Ok (if String.eqb sql export_stmt then [["00000003-0000001B-1"]] else []);
     ping := fun _ _ => None;
     error_message := fun _ => EmptyString;
     parse_dsn := fun dsn => Ok (mkPgConfig None dsn) |}.

Definition example_conf : Config := set_limits DefaultConfig 0 0 0 EmptyString "snapshot".
Definition example_world : world := mkWorld [] EmptyString EmptyString None.
Definition example_oracle : file_oracle := mkFileOracle None (fun _ => None) None (fun _ => Sent) 0.
Definition example_text : string := metadata_text "2026-01-01 00:00:00" "2026-01-01 00:01:00" 1 None.
(** Two connections break while tasks are produced, one afterwards. *)
Definition example_run : option error * list (string * string) * world :=
  Dump example_conf None None None "2026-01-01 00:00:00" "2026-01-01 00:01:00"
    [WriterReconnects 1; ProducerReconnects] [2%nat] example_oracle (fun _ => false) example_world.
Definition example_end : world := snd example_run.

Lemma example_dump :
  Dump example_conf None None None "2026-01-01 00:00:00" "2026-01-01 00:01:00"
    [WriterReconnects 1; ProducerReconnects] [2%nat] example_oracle (fun _ => false) example_world =
  (None, [("metadata", example_text)], example_end).
Proof. vm_compute. reflexivity. Qed.

Lemma example_exports hist c t r rs :
  answer hist c export_stmt = Ok ((t :: r) :: rs) -> t <> EmptyString.
Proof. intros Hx. vm_compute in Hx. injection Hx as <- _ _. done. Qed.

Lemma dump_shares_snapshot_witness :
  exists cn tok h conns rest,
    history example_end = [Opened false cn] ++ h ++ concat (map (adopt tok) conns) ++ rest /\
    length conns = 5%nat /\ joins tok rest.
Proof.
  destruct (dump_shares_snapshot example_conf None None None "2026-01-01 00:00:00" "2026-01-01 00:01:00"
    [WriterReconnects 1; ProducerReconnects] [2%nat] example_oracle
    (fun _ => false) example_world example_end _ eq_refl example_exports example_dump)
    as [(cn & tok & h & conns & rest & Hh & _ & _ & Hl & _ & Hj) _].
  exists cn, tok, h, conns, rest. exact (conj Hh (conj Hl Hj)).
Defined.

Definition example_controller : snapshot_controller := mkController (Some 0%nat) "s" None None.

Lemma no_rebuild_after_teardown_witness :
  exists e, rebuildConn example_conf (snd (fst (TearDown (ConsistencySnapshot example_controller) example_world)))
    7 true newGlobalMetadata (snd (TearDown (ConsistencySnapshot example_controller) example_world)) =
  (Some e, 7%nat, newGlobalMetadata, snd (TearDown (ConsistencySnapshot example_controller) example_world)).
Proof.
  exact (no_rebuild_after_teardown example_conf example_controller example_world _ _ _ 7 true
    newGlobalMetadata eq_refl).
Defined.
Definition example_started : list nat * world :=
  match startWriters example_conf 4 (mkWorld [] "s" EmptyString None) with
  | (Ok cs, w) => (cs, w)
  | (Err _, w) => ([], w)
  end.

Lemma example_starts :
  startWriters example_conf (Z.to_nat (Threads example_conf)) (mkWorld [] "s" EmptyString None) =
  (Ok (fst example_started), snd example_started).
Proof. vm_compute. reflexivity. Qed.

Lemma example_let_go :
  TransactionalConsistency example_conf = true ->
  fst (fst (TearDown (ConsistencySnapshot example_controller) (snd example_started))) = None.
Proof. vm_compute. reflexivity. Qed.

(** The same writers fail after a producer without an error, and after one
    that was cancelled. *)
Definition slot_controller : controller :=
  ConsistencySnapshot (mkController (Some 0%nat) "s" None (Some (mkSlotInfo "sl" "0/1" "s" "pgoutput"))).

Lemma slot_let_go :
  TransactionalConsistency example_conf = true ->
  fst (fst (TearDown slot_controller (snd example_started))) = None.
Proof. vm_compute. reflexivity. Qed.

Definition failing (produce_err : option error) : leaving * world :=
  dump_tables_and_wait example_conf None produce_err (Some (EForeign "disk full")) "now" [] [] (fun _ => true)
    slot_controller 7 newGlobalMetadata (mkWorld [] "s" EmptyString None).


Lemma canceled_dump_reports_success_witness :
  exists l w2,
    dump_tables_and_wait example_conf None (Some (EForeign "context canceled")) None "now" [] [] (fun _ => true)
      (ConsistencySnapshot example_controller) 7 newGlobalMetadata (mkWorld [] "s" EmptyString None) = (l, w2) /\
    dumpErr l = None /\ errVar l = Some (EForeign "context canceled") /\
    exists b, buffer (metadata l) = b +:+ line "Finished dump at: now".
Proof.
  exact (canceled_dump_reports_success example_conf None (Some (EForeign "context canceled")) None "now"
    [] [] (fun _ => true) (ConsistencySnapshot example_controller) 7 newGlobalMetadata
    (mkWorld [] "s" EmptyString None) (fst example_started) (snd example_started)
    (EForeign "context canceled")
    eq_refl eq_refl eq_refl eq_refl example_starts example_let_go).
Defined.
End Example.
