(* ===== verification/Complete.v ===== *)
(** * From tables to files (export/dump.go, export/writer.go)

    The composition of the parts: the producer splits tables into tasks
    ([Dumper], [Chunking]), the pool handles them ([Dispatch]) and each worker
    writes the rows of its queries ([Worker], [TableData]).  What the server
    answers to the query of a chunk is a hypothesis: the rows of the table
    that satisfy its condition. *)

From S2P Require Import Prelude GoStrings Dialect FilterMatcher FilterParser Filter FileNames.
From S2P Require Import SqlTypes SqlCond SqlBuilder Conn Tables Config Prepare Ir Chunking.
From S2P Require Import Writer TableData Worker Dumper Dispatch.

(** ** Partitions *)

(** Conditions of which each element satisfies exactly one split a list. *)
Lemma filter_conds_cons {A C} (sel : A -> C -> bool) x l conds :
  concat (map (fun c => List.filter (fun y => sel y c) (x :: l)) conds) ≡ₚ
  replicate (count (sel x) conds) x ++ concat (map (fun c => List.filter (fun y => sel y c) l) conds).
Proof.
  induction conds as [|c conds IH]; [done|]. rewrite count_cons. cbn.
  destruct (sel x c); cbn; rewrite IH.
  - constructor. by rewrite !(assoc_L (++)), (Permutation_app_comm (List.filter _ _)).
  - by rewrite !(assoc_L (++)), (Permutation_app_comm (List.filter _ _)).
Qed.

Lemma filter_partition {A C} (sel : A -> C -> bool) l conds :
  (forall x, x ∈ l -> count (sel x) conds = 1%nat) ->
  concat (map (fun c => List.filter (fun y => sel y c) l) conds) ≡ₚ l.
Proof.
  induction l as [|x l IH]; intros Hone.
  - clear. induction conds; [done|]. cbn. done.
  - rewrite filter_conds_cons, (Hone x) by (by left). cbn. constructor. apply IH.
    intros y Hy. apply Hone. by right.
Qed.

Lemma concat_permutation {A} (ls ks : list (list A)) :
  Forall2 Permutation ls ks -> concat ls ≡ₚ concat ks.
Proof. induction 1; [done|]. cbn. by f_equiv. Qed.

(** A choice for every position of a list. *)
Lemma list_choice {A B} (P : nat -> A -> B -> Prop) l :
  (forall i x, l !! i = Some x -> exists y, P i x y) ->
  exists k, length k = length l /\ forall i x y, l !! i = Some x -> k !! i = Some y -> P i x y.
Proof.
  revert P. induction l as [|x l IH]; intros P HP; [by exists []|].
  destruct (HP 0%nat x eq_refl) as [y Hy].
  destruct (IH (fun i => P (S i)) (fun i x' Hi => HP (S i) x' Hi)) as (k & Hl & Hk).
  exists (y :: k). split; [cbn; by f_equal|]. intros [|i] x' y'; cbn.
  - by intros [= <-] [= <-].
  - apply Hk.
Qed.

Lemma map_lookup_Some {A B} (f : A -> B) l i x : l !! i = Some x -> map f l !! i = Some (f x).
Proof. intros Hi. pose proof (list_lookup_fmap f l i) as E. rewrite Hi in E. exact E. Qed.

Lemma map_Ok_permutation {A} (l k : list A) : map Ok l ≡ₚ map (@Ok A) k -> l ≡ₚ k.
Proof.
  intros (k' & E & P)%Permutation_map_inv. rewrite P. clear P.
  revert k' E. induction l as [|x l IH]; intros [|y k']; try done. cbn.
  intros [= -> E]. by rewrite (IH _ E).
Qed.

Section Complete.
Context `{UnicodeLib} `{RegexpLib} `{FoldLib} `{SnapshotConn} `{PgDump} `{DriverColumns} {E : Type}.
Variable conf : Config.
Variable osEnviron : list string.
Variable cancelled : nat -> bool.
Variable rebuild : E -> result unit * E.
Variable query_ctx : E -> string -> result (list ColumnType * cursor) * E.
Variable fileFmt : FileFormat.

(** ** Specification *)

(** The chunk [c] of the table has its rows [rows] in its files, every row in
    one of them, and the files are in the storage [m]. *)
Definition chunk_dumped (m : gmap string string) (meta : tableMeta) (c : Z)
    (rows : list (list (option string))) : Prop :=
  exists (result : cursor) (a : attempt) (parts : list (list (list (option string)))),
    files_ok conf meta fileFmt (newRowIter result) c 0 parts a /\
    (forall i f, a_files a !! i = Some f -> m !! fst f = Some (snd f)) /\
    concat parts = rows.

(** The query of the chunk with condition [c]. *)
Definition chunk_query (meta : tableMeta) (order : string) (c : option cond) : tableData :=
  newTableData (buildSelectQuery (database meta) (table meta) (selectedField meta) EmptyString
                  (buildWhereCondition (Where conf) (cond_text c)) order) (selectedLen meta) false.

(** What PostgreSQL promises on the snapshot: the table holds [heap], each row
    with the output values [values]; the query of a chunk, whose WHERE clause
    reads as [c], returns, if it does not fail before its end, the rows that
    satisfy [c] in some order. *)
Definition server_answers (meta : tableMeta) (heap : list heap_row)
    (values : heap_row -> list (option string)) : Prop :=
  forall order total conds c e e' td cols rows,
    buildOrderByClause conf meta = Ok order -> chunked conf meta conds total -> c ∈ conds ->
    tableData_Start query_ctx (chunk_query meta order c) e = (Ok (td, cols, rows), e') ->
    end_err rows = None ->
    rest rows ≡ₚ map (fun r => Ok (values r))
                     (List.filter (fun r => row_selected (field_of meta) r c) heap).

(** The files [m] hold the table: its rows on the snapshot, each exactly once
    and in some order, are the rows of the files of its chunks, one chunk
    after the other. *)
Definition table_dumped (m : gmap string string) (db : string) (tbl : TableInfo) : Prop :=
  exists meta, dumpTableMeta conf osEnviron db tbl = Ok meta /\
    forall heap values, server_bounds conf meta -> Forall (row_in_table conf meta) heap ->
      server_answers meta heap values ->
      exists chunks, (forall i rows, chunks !! i = Some rows ->
                        chunk_dumped m meta (Z.of_nat i) rows) /\
        concat chunks ≡ₚ map values heap.

(** ** The data tasks of a table *)

Lemma tasks_of_index meta order total conds i c :
  conds !! i = Some c ->
  tasks_of conf meta order total conds !! i =
    Some (TaskTableData meta (chunk_query meta order c) (Z.of_nat i) total).
Proof.
  intros Hi. unfold tasks_of. rewrite (number_tasks_index _ _ _ _ (cond_text c)).
  - unfold chunk_task, chunk_query. by rewrite Z.add_0_l.
  - by apply map_lookup_Some.
Qed.

(** With or without --rows, the data of a table is split by conditions. *)
Lemma dumpTableData_chunked fuel meta ts :
  NoData conf = false -> dumpTableData fuel conf meta = Some (Ok ts) ->
  exists order total conds, buildOrderByClause conf meta = Ok order /\
    chunked conf meta conds total /\ ts = tasks_of conf meta order total conds.
Proof.
  intros Hnd. unfold dumpTableData. rewrite Hnd. destruct (Rows conf =? UnspecifiedSize).
  - unfold sequentialDumpTable. destruct (buildOrderByClause conf meta) as [order|]; [|done].
    cbn [mbind result_bind]. intros [= <-]. exists order, 1, [None].
    rewrite whole_tasks. split_and!; [done|constructor|done].
  - intros Hs. destruct (buildOrderByClause conf meta) as [order|e] eqn:Ho;
      [|unfold concurrentDumpTable in Hs; by rewrite Ho in Hs].
    destruct (concurrentDumpTable_ordered _ _ _ _ _ Ho Hs) as (total & conds & Hc & ->).
    by exists order, total, conds.
Qed.

Lemma plan_member fuel allTables ch db tables tbl :
  (forall k, cancelled k = false) ->
  dumpDatabases conf osEnviron cancelled fuel allTables (mkChannel [] 0) = Some (ch, None) ->
  (db, tables) ∈ allTables -> tbl ∈ tables -> tType tbl = TableTypeBase ->
  exists meta ts, dumpTableMeta conf osEnviron db tbl = Ok meta /\
    dumpTableData fuel conf meta = Some (Ok ts) /\ forall t, t ∈ ts -> t ∈ sent ch.
Proof.
  intros Hctx Hrun Hdb Htbl Hty. apply dumpDatabases_plan in Hrun as (gs & Hgs & ->); [|done].
  apply list_elem_of_lookup in Hdb as [i Hi].
  destruct (Forall2_lookup_l _ _ _ _ _ Hgs Hi) as (g & Hg & ts & Hts & ->). cbn [fst snd] in *.
  apply list_elem_of_lookup in Htbl as [j Hj].
  destruct (Forall2_lookup_l _ _ _ _ _ Hts Hj) as (gt & Hgt & meta & l & Hm & Hl & ->).
  rewrite Hty, bool_decide_eq_true_2 in Hl by done. exists meta, l. split_and!; [done|done|].
  intros t Ht. apply list_elem_of_In, in_concat. eexists. split.
  - apply list_elem_of_In. by eapply list_elem_of_lookup_2.
  - apply list_elem_of_In, elem_of_app. right. apply list_elem_of_In, in_concat. eexists.
    split; [apply list_elem_of_In; by eapply list_elem_of_lookup_2|].
    apply list_elem_of_In, elem_of_app. by right.
Qed.

(** ** The files hold the table *)

Hypothesis default_template : OutputFileTemplate conf = DefaultOutputFileTemplate.
Hypothesis no_sql : SQL conf = EmptyString.

(** A stored chunk holds the rows that satisfy its condition. *)
Lemma chunk_rows meta heap values order conds c i total w :
  server_answers meta heap values -> buildOrderByClause conf meta = Ok order ->
  chunked conf meta conds total -> c ∈ conds ->
  let t := TaskTableData meta (chunk_query meta order c) i total in
  task_fits conf query_ctx t -> task_stored conf query_ctx fileFmt t w ->
  exists rows, chunk_dumped (storage w) meta i rows /\
    rows ≡ₚ map values (List.filter (fun r => row_selected (field_of meta) r c) heap).
Proof.
  intros Hans Ho Hch Hc t (Hfit & _) (e & e' & td & cols & rows & a & parts & S1 & S2 & S3).
  destruct (Hfit _ _ _ _ _ S1) as (Hcur & _ & _).
  rewrite data_meta_table in S2 by done.
  destruct (newRowIter_ok rows Hcur) as (_ & Hp & Hf).
  exists (concat parts). split; [by exists rows, a, parts|].
  apply map_Ok_permutation. rewrite <- (fs_rows _ _ _ _ _ _ _ _ S2), Hp, map_map.
  eapply Hans; [done|done|done|exact S1|]. by rewrite <- Hf, (fs_error _ _ _ _ _ _ _ _ S2).
Qed.

Lemma tables_dumped fuel allTables ch conns p :
  CsvLineTerminator conf <> EmptyString -> 0 <= FileSize conf ->
  Where conf = EmptyString -> NoData conf = false ->
  NoDup (map fst allTables) -> Forall (fun d => NoDup (map tName (snd d))) allTables ->
  (forall k, cancelled k = false) ->
  dumpDatabases conf osEnviron cancelled fuel allTables (mkChannel [] 0) = Some (ch, None) ->
  Forall (task_fits conf query_ctx) (sent ch) ->
  conns <> [] -> reaches conf rebuild query_ctx fileFmt false (start (sent ch) conns) p ->
  Forall (fun s => s = Returned None) (slots p) ->
  forall db tables tbl, (db, tables) ∈ allTables -> tbl ∈ tables -> tType tbl = TableTypeBase ->
  table_dumped (files p) db tbl.
Proof.
  intros Hterm Hsize Hw Hnd Hdb Htbl Hctx Hrun Hfit Hcon Hreach Hret db tables tbl Hd Ht Hty.
  destruct (plan_member _ _ _ _ _ _ Hctx Hrun Hd Ht Hty) as (meta & ts & Hm & Hts & Hin).
  exists meta. split; [done|]. intros heap values Hb Hheap Hans.
  destruct (dumpTableData_chunked _ _ _ Hnd Hts) as (order & total & conds & Ho & Hsplit & ->).
  assert (separate (sent ch)) as Hsep
    by (destruct (dumpDatabases_plan _ _ _ Hctx _ _ _ Hrun) as (gs & Hgs & ->); by eapply plan_separate).
  destruct (all_returned conf rebuild query_ctx fileFmt false default_template Hterm Hsize no_sql
    (sent ch) Hfit Hsep conns p Hcon eq_refl Hreach Hret) as (_ & _ & Hst).
  destruct conns as [|e0 conns]; [done|].
  destruct (list_choice (fun i c rows => chunk_dumped (files p) meta (Z.of_nat i) rows /\
    rows ≡ₚ map values (List.filter (fun r => row_selected (field_of meta) r c) heap)) conds)
    as (chunks & Hlen & Hch).
  { intros i c Hi. assert (TaskTableData meta (chunk_query meta order c) (Z.of_nat i) total ∈ sent ch) as Hmem.
    { apply Hin. eapply (list_elem_of_lookup_2 _ i). by apply tasks_of_index. }
    apply (chunk_rows meta heap values order conds c (Z.of_nat i) total (mkWorker e0 0 (files p) 0));
      [done|done|done|by eapply list_elem_of_lookup_2| |].
    - rewrite Forall_forall in Hfit. by apply Hfit.
    - by apply Hst. }
  exists chunks. split.
  - intros i rows Hi. destruct (lookup_lt_is_Some_2 conds i) as [c Hc];
      [rewrite <- Hlen; by eapply lookup_lt_Some|]. by eapply Hch.
  - transitivity (map values (concat (map (fun c => List.filter (fun r => row_selected (field_of meta) r c) heap) conds))).
    + rewrite concat_map, map_map. apply concat_permutation. apply Forall2_same_length_lookup_2.
      * by rewrite length_map.
      * intros i rows k Hi Hk. apply list_lookup_fmap_Some in Hk as (c & -> & Hc). by eapply Hch.
    + apply Permutation_map, filter_partition. intros r Hr.
      rewrite Forall_forall in Hheap. eapply chunked_once; [done|done|by apply Hheap|done].
Qed.

(** ** Properties *)

End Complete.

(** ** An example: a table of three rows, in two chunks *)

Section Example.
#[local] Existing Instances Config.example_regexp Config.example_files Config.example_unicode.
#[local] Instance example_fold : FoldLib := {| unicode_equal_fold := fun _ _ => false |}.
(** The catalog, for an estimated number of rows. *)
Definition example_catalog (rows : string) : SnapshotConn :=
  {| conn_query := fun q args =>
       if String.eqb q show_databases_query then Ok (mkRows ["nspname"] [[Some "public"]] None)
       else if String.eqb q list_tables_query then
         Ok (mkRows ["nspname"; "relname"; "table_type"; "avg_row_length"]
               (map catalog_row (List.filter (fun p => bool_decide (p.1 ∈ match args with [ArgArray dbs] => dbs | _ => [] end))
                                   [("public", mkTableInfo "t" 0 TableTypeBase)])) None)
       else if String.eqb q select_field_query
       then Ok (mkRows ["column_name"; "is_generated"; "data_type"; "udt_name"]
                  [[Some "id"; Some "NEVER"; Some "bigint"; Some "int8"]] None)
       else if String.eqb q primary_key_query then Ok (mkRows ["attname"] [[Some "id"]] None)
       else if String.eqb q numeric_index_query then
         Ok (mkRows ["attname"; "format_type"; "indisprimary"] [[Some "id"; Some "bigint"; Some "t"]] None)
       else if String.eqb q estimate_query then Ok (mkRows ["greatest"] [[Some rows]] None)
       else if String.eqb q pages_query then Ok (mkRows ["pages"] [[Some "0"]] None)
       else Ok (mkRows ["min"; "max"] [[Some "1"; Some "10"]] None) |}.
#[local] Instance example_conn : SnapshotConn := example_catalog "10".
#[local] Instance example_pg_dump : PgDump := {| pg_dump := fun args _ => inl (join " " args) |}.
#[local] Instance example_columns : DriverColumns := {| column_types := fun _ => [mkColumnType "id" "INT8"] |}.

Definition example_conf : Config :=
  set_resolved (set_split DefaultConfig 4 EmptyString) "sql" "snapshot".
(** Four workers, as many as --threads asks for. *)
Definition example_conns : list unit := [tt; tt; tt; tt].
Definition example_tables : list (string * list TableInfo) := [("public", [mkTableInfo "t" 0 TableTypeBase])].
Definition example_plan : list Task := Eval vm_compute in
  match dumpDatabases example_conf [] (fun _ => false) 9 example_tables (mkChannel [] 0) with
  | Some (ch, None) => sent ch
  | _ => []
  end.

Definition example_heap : list heap_row :=
  [mkHeapRow (Some 1) 0 1; mkHeapRow (Some 7) 0 2; mkHeapRow None 0 3].
Definition example_values (r : heap_row) : list (option string) := [option_map itoa (key r)].
Definition example_meta : tableMeta := Eval vm_compute in
  match dumpTableMeta example_conf [] "public" (mkTableInfo "t" 0 TableTypeBase) with
  | Ok m => m
  | Err _ => mkTableMeta EmptyString EmptyString [] EmptyString EmptyString 0 [] EmptyString EmptyString 0 false
  end.

(** The server knows the queries of both chunks. *)
Definition example_rows (q : string) : list heap_row :=
  match map (fun t => match t with TaskTableData _ d _ _ => query d | _ => EmptyString end) example_plan with
  | [_; _; q1; q2] =>
      List.filter (fun r => if String.eqb q q1 then negb (bool_decide (key r = Some 7))
                            else if String.eqb q q2 then bool_decide (key r = Some 7) else true) example_heap
  | _ => []
  end.
Definition example_query (e : unit) (q : string) : result (list ColumnType * cursor) * unit :=
  (Ok ([], mkCursor None (map (fun r => Ok (example_values r)) (example_rows q)) None None), e).

Definition example_oracle (k : nat) : file_oracle := mkFileOracle None (fun _ => None) None (fun _ => Sent) 0.
Definition example_step := step example_conf (fun e : unit => (Ok tt, e)) example_query FileFormatSQLText false.

(** The first worker handles all tasks. *)
Fixpoint example_drain (ts : list Task) (m : gmap string string) (n : Z) : option (gmap string string * Z) :=
  match ts with
  | [] => Some (m, n)
  | t :: ts' =>
      h ← handleTask example_conf (fun e : unit => (Ok tt, e)) example_query FileFormatSQLText (fun _ => example_oracle)
            (fun _ => false) example_oracle t (mkWorker tt 0 m n);
      match h_err h with
      | Some _ => None
      | None => example_drain ts' (storage (h_worker h)) (finishedRows (h_worker h))
      end
  end.

Lemma example_rounds others ts : forall m n d hd m' n',
  example_drain ts m n = Some (m', n') ->
  rtc example_step (mkPool [] true (mkChan ts true) (Idle tt :: others) m n d hd)
    (mkPool [] true (mkChan [] true) (Idle tt :: others) m' n' (d ++ ts) (hd ++ ts)).
Proof.
  induction ts as [|t ts IH]; intros m n d hd m' n'; cbn [example_drain].
  - intros [= <- <-]. rewrite !app_nil_r. apply rtc_refl.
  - destruct (handleTask _ _ _ _ _ _ _ _ _) as [h|] eqn:Hh; [|done]. cbn [mbind option_bind].
    destruct (h_err h) eqn:He; [done|]. intros Hd.
    eapply rtc_l; [by apply (step_take _ _ _ _ _ _ 0%nat tt t)|]. cbn.
    eapply rtc_l; [by eapply (step_handle _ _ _ _ _ _ 0%nat t tt)|]. cbn. rewrite He.
    destruct (conn (h_worker h)). rewrite (cons_middle t d ts), (cons_middle t hd ts), !app_assoc. by apply IH.
Qed.

Lemma example_sent ts : forall c l m n d h,
  draining c = false ->
  rtc example_step (mkPool ts false c l m n d h) (mkPool [] true (mkChan (q c ++ ts) true) l m n d h).
Proof.
  induction ts as [|t ts IH]; intros c l m n d h Hd.
  - eapply rtc_l; [by apply step_close|]. eapply rtc_l; [by apply step_seen|]. cbn.
    rewrite app_nil_r. apply rtc_refl.
  - eapply rtc_l; [by eapply (step_send _ _ _ _ _ _ t)|]. cbn.
    replace (q c ++ t :: ts) with ((q c ++ [t]) ++ ts) by (by rewrite <- app_assoc).
    by apply IH.
Qed.

Lemma example_drained :
  match example_drain example_plan ∅ 0 with Some _ => true | None => false end = true.
Proof. vm_compute. reflexivity. Qed.

Lemma example_run :
  exists p, reaches example_conf (fun e : unit => (Ok tt, e)) example_query FileFormatSQLText false
    (start example_plan example_conns) p /\ Forall (fun s => s = Returned None) (slots p).
Proof.
  pose proof example_drained as Hdr.
  destruct (example_drain example_plan ∅ 0) as [[m n]|] eqn:E; [clear Hdr|done].
  eexists. split.
  - etransitivity; [by apply (example_sent example_plan)|].
    etransitivity; [exact (example_rounds [Idle tt; Idle tt; Idle tt] example_plan ∅ 0 [] [] m n E)|].
    eapply rtc_l; [by apply (step_exit _ _ _ _ _ _ 0%nat tt)|].
    eapply rtc_l; [by apply (step_exit _ _ _ _ _ _ 1%nat tt)|].
    eapply rtc_l; [by apply (step_exit _ _ _ _ _ _ 2%nat tt)|].
    eapply rtc_l; [by apply (step_exit _ _ _ _ _ _ 3%nat tt)|]. apply rtc_refl.
  - by repeat constructor.
Qed.

Lemma example_start td e r e' :
  tableData_Start example_query td e = (Ok r, e') ->
  snd r = mkCursor None (map (fun r => Ok (example_values r)) (example_rows (query td))) None None /\
  colLen (fst (fst r)) = (if needColTypes td then 0 else colLen td).
Proof.
  unfold tableData_Start, example_query.
  assert (forall l, cursor_Err (mkCursor None l None None) = None) as -> by (by intros []).
  by intros [= <- _].
Qed.

Lemma example_answers : server_answers example_conf example_query example_meta example_heap example_values.
Proof.
  intros order total conds c e e' td cols rows Ho Hch Hc Hs _.
  apply example_start in Hs as [Hs _]. cbn [snd] in Hs. subst rows. cbn [rest].
  vm_compute in Ho. injection Ho as <-.
  destruct Hch as [|minv maxv fuel chunks Em est He El|pages fuel starts Ep Hpos step Es].
  - apply list_elem_of_singleton in Hc as ->. vm_compute. reflexivity.
  - vm_compute in Em. injection Em as <- <-.
    assert (chunks = [mkChunk true 1 6; mkChunk false 6 11]) as ->
      by (clear -El; do 3 (destruct fuel as [|fuel]; [by vm_compute in El|]); vm_compute in El; by injection El as <-).
    cbn [map] in Hc. apply elem_of_cons in Hc as [->|Hc]; [vm_compute; reflexivity|].
    apply list_elem_of_singleton in Hc as ->. vm_compute. reflexivity.
  - vm_compute in Ep. injection Ep as <-. done.
Qed.

Lemma example_rows_few s : (length (example_rows s) <= 3)%nat.
Proof.
  unfold example_rows. destruct (map _ _) as [|? [|? [|? [|? []]]]]; cbn [length]; try lia.
  apply filter_length_le.
Qed.

Lemma example_plan_fits : Forall (task_fits example_conf example_query) example_plan.
Proof.
  assert (forall m d, length (colTypes m) = 1%nat ->
    result_fits example_conf example_query m (mkTableData d 1 false)) as Hfit.
  { intros m d Hm e e' td cols rows. intros [Hs Hl]%example_start.
    cbn [snd fst] in Hs, Hl. subst rows. split_and!; [done| |].
    - cbn [rest]. rewrite length_map. pose proof (example_rows_few (query (mkTableData d 1 false))). lia.
    - rewrite Hl. cbn [rest]. apply Forall_map, Forall_true. intros r _. split; [|done].
      change (data_meta example_conf m cols) with m. unfold Writer.receivers, MakeRowReceiver, ColumnTypes.
      cbn [cells]. rewrite !length_map, Hm. done. }
  unfold example_plan. do 2 (constructor; [done|]). by do 2 (constructor; [split; [by apply Hfit|done]|]).
Qed.

Lemma example_produced :
  dumpDatabases example_conf [] (fun _ => false) 9 example_tables (mkChannel [] 0) =
    Some (mkChannel example_plan 4, None).
Proof. vm_compute. reflexivity. Qed.

Lemma example_names :
  NoDup (map fst example_tables) /\ Forall (fun d => NoDup (map tName (snd d))) example_tables.
Proof. split; repeat constructor; set_solver. Qed.

Lemma example_in_table : Forall (row_in_table example_conf example_meta) example_heap.
Proof.
  assert (selectMinAndMaxIntValue example_conf (database example_meta) (table example_meta) (field_of example_meta) = Ok (1, 10))
    as Em by (vm_compute; reflexivity).
  apply Forall_forall. intros r Hr. split.
  - repeat (apply elem_of_cons in Hr as [->|Hr]; [split; cbn; lia|]). by apply not_elem_of_nil in Hr.
  - intros minv maxv z. rewrite Em. intros [= <- <-]. clear Em.
    repeat (apply elem_of_cons in Hr as [->|Hr]; [cbn; intros [= <-]; lia|]). by apply not_elem_of_nil in Hr.
Qed.

Lemma example_described : dumpTableMeta example_conf [] "public" (mkTableInfo "t" 0 TableTypeBase) = Ok example_meta.
Proof. vm_compute. reflexivity. Qed.

End Example.
