(* ===== verification/Status.v ===== *)
(** * Metrics and status (export/metrics.go, export/status.go)

    The metrics of a dump, their registration, and what the program reports
    of its progress.  Vectors of the Prometheus library are a class with what
    its documentation promises; times are nanoseconds. *)

From S2P Require Import Prelude GoStrings GoFloat Dialect FilterMatcher FilterParser Filter FileNames.
From S2P Require Import SqlTypes SqlCond Conn Tables Config Prepare Ir Chunking Writer TableData Worker.
From S2P Require Import Dumper Init Dispatch Complete.

(** A vector of counters, gauges or histograms with its only child.  [Write]
    may fail, which is [None]. *)
Class Prometheus := {
  vec : Type;
  NewVec : string -> vec;
  Add : vec -> float64 -> vec;
  Sub : vec -> float64 -> vec;
  Inc : vec -> vec;
  Dec : vec -> vec;
  Observe : vec -> float64 -> vec;
  Value : vec -> option float64
}.

(** Documented: a new one is zero, and the operations add to the value. *)
Class PrometheusLaws `{Prometheus} := {
  new_value name : Value (NewVec name) = Some (S754_zero false);
  add_value v x : Value (Add v x) = option_map (fun y => fadd y x) (Value v);
  inc_value v : Value (Inc v) = option_map (fun y => fadd y (of_int 1)) (Value v)
}.

Section Metrics.
Context `{Prometheus}.

(** A nil vector is [None].
    src/export/metrics.go:13-26 metrics *)
Record metrics := mkMetrics {
  finishedSizeGauge : option vec;
  finishedRowsGauge : option vec;
  finishedTablesCounter : option vec;
  estimateTotalRowsCounter : option vec;
  writeTimeHistogram : option vec;
  receiveWriteChunkTimeHistogram : option vec;
  errorCount : option vec;
  taskChannelCapacity : option vec;
  totalChunks : Z;
  completedChunks : Z;
  progressReady : bool
}.

(** src/export/metrics.go:28-97 newMetrics *)
Definition newMetrics : metrics := {|
  finishedSizeGauge := Some (NewVec "dumpling_dump_finished_size");
  finishedRowsGauge := Some (NewVec "dumpling_dump_finished_rows");
  finishedTablesCounter := Some (NewVec "dumpling_dump_finished_tables");
  estimateTotalRowsCounter := Some (NewVec "dumpling_dump_estimate_total_rows");
  writeTimeHistogram := Some (NewVec "dumpling_write_write_duration_time");
  receiveWriteChunkTimeHistogram := Some (NewVec "dumpling_write_receive_chunk_duration_time");
  errorCount := Some (NewVec "dumpling_dump_error_count");
  taskChannelCapacity := Some (NewVec "dumpling_dump_channel_capacity");
  totalChunks := 0;
  completedChunks := 0;
  progressReady := false
|}.

(** src/export/metrics.go:135-145 ReadCounter *)
Definition ReadCounter (counterVec : option vec) : float64 :=
  match counterVec with
  | None => S754_nan
  | Some counter => match Value counter with None => S754_nan | Some v => v end
  end.

(** src/export/metrics.go:148-153 AddCounter *)
Definition AddCounter (counterVec : option vec) (v : float64) : option vec :=
  match counterVec with None => None | Some c => Some (Add c v) end.

(** src/export/metrics.go:156-161 IncCounter *)
Definition IncCounter (counterVec : option vec) : option vec :=
  match counterVec with None => None | Some c => Some (Inc c) end.

(** src/export/metrics.go:164-169 ObserveHistogram *)
Definition ObserveHistogram (histogramVec : option vec) (v : float64) : option vec :=
  match histogramVec with None => None | Some h => Some (Observe h v) end.

(** src/export/metrics.go:172-182 ReadGauge *)
Definition ReadGauge (gaugeVec : option vec) : float64 :=
  match gaugeVec with
  | None => S754_nan
  | Some gauge => match Value gauge with None => S754_nan | Some v => v end
  end.

(** src/export/metrics.go:185-190 AddGauge *)
Definition AddGauge (gaugeVec : option vec) (v : float64) : option vec :=
  match gaugeVec with None => None | Some g => Some (Add g v) end.

(** src/export/metrics.go:193-198 SubGauge *)
Definition SubGauge (gaugeVec : option vec) (v : float64) : option vec :=
  match gaugeVec with None => None | Some g => Some (Sub g v) end.

(** src/export/metrics.go:201-206 IncGauge *)
Definition IncGauge (gaugeVec : option vec) : option vec :=
  match gaugeVec with None => None | Some g => Some (Inc g) end.

(** src/export/metrics.go:209-214 DecGauge *)
Definition DecGauge (gaugeVec : option vec) : option vec :=
  match gaugeVec with None => None | Some g => Some (Dec g) end.

(** ** What happens to the metrics during a dump *)

Definition set_counts (m : metrics) (total completed : Z) (ready : bool) (tables estimate capacity : option vec)
    : metrics :=
  mkMetrics (finishedSizeGauge m) (finishedRowsGauge m) tables estimate (writeTimeHistogram m)
    (receiveWriteChunkTimeHistogram m) (errorCount m) capacity total completed ready.

(** src/export/dump.go:944-947 Dumper.newTaskTableData *)
Definition newTaskTableData (m : metrics) (meta : tableMeta) (data : tableData) (currentChunk total : Z)
    : metrics * Task :=
  (set_counts m (i64 (totalChunks m + 1)) (completedChunks m) (progressReady m) (finishedTablesCounter m)
     (estimateTotalRowsCounter m) (taskChannelCapacity m),
   NewTaskTableData meta data currentChunk total).

(** src/export/dump.go:634-634 Dumper.sendTaskToChan *)
Definition task_sent (m : metrics) : metrics :=
  set_counts m (totalChunks m) (completedChunks m) (progressReady m) (finishedTablesCounter m)
    (estimateTotalRowsCounter m) (DecGauge (taskChannelCapacity m)).

(** src/export/dump.go:381-383 Dumper.dumpTableData *)
Definition table_estimated (m : metrics) (c : Z) : metrics :=
  set_counts m (totalChunks m) (completedChunks m) (progressReady m) (finishedTablesCounter m)
    (AddCounter (estimateTotalRowsCounter m) (of_int c)) (taskChannelCapacity m).

(** The callback of finished tables.
    src/export/dump.go:276-290 Dumper.startWriters *)
Definition finishTableCallBack (t : Task) (m : metrics) : metrics :=
  match t with
  | TaskTableData _ _ _ _ =>
      set_counts m (totalChunks m) (completedChunks m) (progressReady m) (IncCounter (finishedTablesCounter m))
        (estimateTotalRowsCounter m) (taskChannelCapacity m)
  | _ => m
  end.

(** The callback of finished tasks.
    src/export/dump.go:291-301 Dumper.startWriters *)
Definition finishTaskCallBack (t : Task) (m : metrics) : metrics :=
  let capacity := IncGauge (taskChannelCapacity m) in
  match t with
  | TaskTableData _ _ _ _ =>
      set_counts m (totalChunks m) (i64 (completedChunks m + 1)) (progressReady m) (finishedTablesCounter m)
        (estimateTotalRowsCounter m) capacity
  | _ => set_counts m (totalChunks m) (completedChunks m) (progressReady m) (finishedTablesCounter m)
           (estimateTotalRowsCounter m) capacity
  end.

(** src/export/dump.go:247-247 Dumper.Dump *)
Definition producer_finished (m : metrics) : metrics :=
  set_counts m (totalChunks m) (completedChunks m) true (finishedTablesCounter m)
    (estimateTotalRowsCounter m) (taskChannelCapacity m).

(** ** Speed *)

(** [Duration.Seconds]. *)
Definition Seconds (d : Z) : float64 :=
  fadd (of_int (Z.quot d (10 ^ 9))) (fdiv (of_int (Z.rem d (10 ^ 9))) (of_int (10 ^ 9))).

(** src/export/status.go:102-108 SpeedRecorder *)
Record SpeedRecorder := mkSpeed { lastFinished : float64; lastUpdateTime : Z; speedBPS : float64 }.

(** src/export/status.go:111-115 NewSpeedRecorder *)
Definition NewSpeedRecorder (now : Z) : SpeedRecorder := mkSpeed (S754_zero false) now (S754_zero false).

(** src/export/status.go:118-144 SpeedRecorder.GetSpeed *)
Definition GetSpeed (s : SpeedRecorder) (now : Z) (finished : float64) : float64 * SpeedRecorder :=
  if fleb finished (lastFinished s) then (speedBPS s, s)
  else
    let elapsed := Seconds (now - lastUpdateTime s) in
    if feqb elapsed (S754_zero false) then (speedBPS s, s)
    else
      let currentSpeed := fdiv (fsub finished (lastFinished s)) elapsed in
      let currentSpeed := if feqb currentSpeed (S754_zero false) then of_int 1 else currentSpeed in
      (currentSpeed, mkSpeed finished now currentSpeed).

(** ** Status *)

(** src/export/status.go:54-62 DumpStatus *)
Record DumpStatus := mkStatus {
  CompletedTables : float64;
  FinishedBytes : float64;
  FinishedRows : float64;
  EstimateTotalRows : float64;
  TotalTables : Z;
  CurrentSpeedBPS : float64;
  Progress : string
}.

(** The text of the progress.
    src/export/status.go:74-87 Dumper.GetStatus *)
Definition progress_text (m : metrics) : string :=
  if progressReady m then
    if totalChunks m =? 0 then "100 %"
    else
      let progress := fdiv (of_int (completedChunks m)) (of_int (totalChunks m)) in
      if fltb (of_int 1) progress then "100 %"
      else pad_left 5 (fmt_fixed 2 (fmul progress (of_int 100))) +:+ " %"
  else EmptyString.

(** src/export/status.go:65-88 Dumper.GetStatus *)
Definition GetStatus (totalTables : Z) (m : metrics) (s : SpeedRecorder) (now : Z)
    : DumpStatus * SpeedRecorder :=
  let finishedBytes := ReadGauge (finishedSizeGauge m) in
  let '(speed, s) := GetSpeed s now finishedBytes in
  (mkStatus (ReadCounter (finishedTablesCounter m)) finishedBytes (ReadGauge (finishedRowsGauge m))
     (ReadCounter (estimateTotalRowsCounter m)) totalTables speed (progress_text m), s).

(** ** The progress log *)

(** [units.HumanSize]. *)
Context {HumanSize : float64 -> string}.

(** The fields of one log line. *)
Record progress_line := mkLine {
  l_tables : string;
  l_rows : string;
  l_estimate : string;
  l_size : string;
  l_average : float64;
  l_recent : float64;
  l_chunks : string
}.

(** src/export/status.go:34-44 Dumper.runLogProgress *)
Definition log_line (totalTables : Z) (s : DumpStatus) (lastBytes nanoseconds : float64) : progress_line := {|
  l_tables :=
    fmt_fixed 0 (CompletedTables s) +:+ "/" +:+ fmt_fixed 0 (of_int totalTables) +:+ " (" +:+
    fmt_fixed 1 (fmul (fdiv (CompletedTables s) (of_int totalTables)) (of_int 100)) +:+ "%)";
  l_rows := fmt_fixed 0 (FinishedRows s);
  l_estimate := fmt_fixed 0 (EstimateTotalRows s);
  l_size := HumanSize (FinishedBytes s);
  l_average := fdiv (fsub (FinishedBytes s) lastBytes)
                 (fmul (fdiv (of_int 1048576) (of_int (10 ^ 9))) nanoseconds);
  l_recent := CurrentSpeedBPS s;
  l_chunks := Progress s
|}.

(** A tick of the timer: when it is received, when the status is read, when
    the line is written, and the metrics read; the context is done at the end
    of the list.
    src/export/status.go:19-51 Dumper.runLogProgress *)
Fixpoint runLogProgress (ticks : list (Z * Z * Z * metrics)) (totalTables : Z) (s : SpeedRecorder)
    (lastCheckpoint : Z) (lastBytes : float64) : list progress_line :=
  match ticks with
  | [] => []
  | (received, read, written, m) :: ticks' =>
      let nanoseconds := of_int (received - lastCheckpoint) in
      let '(st, s) := GetStatus totalTables m s read in
      log_line totalTables st lastBytes nanoseconds ::
      runLogProgress ticks' totalTables s written (FinishedBytes st)
  end.

End Metrics.

(** ** Writers as the progress sees them *)

Section Writers.
Context `{UnicodeLib} `{RegexpLib} `{Prometheus}.

(** What a writer keeps besides its connection and the storage ([Worker]): a
    callback changes the metrics.
    src/export/writer.go:21-35 Writer *)
Record Writer := mkWriter {
  wr_id : Z;
  wr_fileFmt : FileFormat;
  wr_received : Z;
  wr_finishTask : Task -> metrics -> metrics;
  wr_finishTable : Task -> metrics -> metrics
}.

(** src/export/writer.go:38-63 NewWriter *)
Definition NewWriter (conf : Config) (id : Z) : Writer :=
  mkWriter id (NewWriter_fileFmt conf) 0 (fun _ m => m) (fun _ m => m).

(** src/export/writer.go:65-67 Writer.setFinishTaskCallBack *)
Definition setFinishTaskCallBack (fn : Task -> metrics -> metrics) (w : Writer) : Writer :=
  mkWriter (wr_id w) (wr_fileFmt w) (wr_received w) fn (wr_finishTable w).

(** src/export/writer.go:69-71 Writer.setFinishTableCallBack *)
Definition setFinishTableCallBack (fn : Task -> metrics -> metrics) (w : Writer) : Writer :=
  mkWriter (wr_id w) (wr_fileFmt w) (wr_received w) (wr_finishTask w) fn.

(** src/export/writer.go:73-79 countTotalTask *)
Definition countTotalTask (writers : list Writer) : Z :=
  foldl (fun sum w => i64 (sum + wr_received w)) 0 writers.

(** src/export/dump.go:274-301 Dumper.startWriters *)
Definition start_writer (conf : Config) (id : Z) : Writer :=
  setFinishTaskCallBack finishTaskCallBack (setFinishTableCallBack finishTableCallBack (NewWriter conf id)).

(** The last chunk of a table, as the number of its chunks was announced. *)
Definition last_chunk (t : Task) : bool :=
  match t with TaskTableData _ _ chunk total => i64 (chunk + 1) =? total | _ => false end.

(** A task that succeeds: the count and the callbacks.
    src/export/writer.go:92-121 Writer.run *)
Definition receive (w : Writer) (t : Task) (m : metrics) : Writer * metrics :=
  let w := mkWriter (wr_id w) (wr_fileFmt w) (i64 (wr_received w + 1)) (wr_finishTask w) (wr_finishTable w) in
  (w, wr_finishTask w t (if last_chunk t then wr_finishTable w t m else m)).

(** The total is the sum. *)
Lemma countTotalTask_sum ws :
  Forall (fun w => 0 <= wr_received w) ws -> foldr Z.add 0 (map wr_received ws) < 2 ^ 63 ->
  countTotalTask ws = foldr Z.add 0 (map wr_received ws).
Proof.
  intros Hw Hs. assert (0 <= foldr Z.add 0 (map wr_received ws)) as Hpos
    by (clear Hs; induction Hw; cbn; lia).
  unfold countTotalTask. rewrite <- (Z.add_0_l (foldr Z.add 0 _)).
  assert (forall n, 0 <= n -> n + foldr Z.add 0 (map wr_received ws) < 2 ^ 63 ->
    foldl (fun sum w => i64 (sum + wr_received w)) n ws = n + foldr Z.add 0 (map wr_received ws)) as Hg.
  { clear Hs Hpos. induction Hw as [|w ws Hn Hw IH]; intros n Hp Hl; cbn; [lia|]. cbn in Hl.
    assert (0 <= foldr Z.add 0 (map wr_received ws)) by (clear IH Hl; induction Hw; cbn; lia).
    rewrite i64_small by (unfold is_i64; lia). rewrite IH; lia. }
  apply Hg; lia.
Qed.
End Writers.

(** ** The status of a run of the pool *)

Section Runs.
Context `{UnicodeLib} `{RegexpLib} `{Prometheus} {E : Type}.
Variable conf : Config.
Variable rebuild : E -> result unit * E.
Variable query_ctx : E -> string -> result (list ColumnType * cursor) * E.
Variable fileFmt : FileFormat.
Variable ctx_done : bool.
Hypothesis default_template : OutputFileTemplate conf = DefaultOutputFileTemplate.
Hypothesis terminated : CsvLineTerminator conf <> EmptyString.
Hypothesis size_range : 0 <= FileSize conf.
Hypothesis no_sql : SQL conf = EmptyString.
Variable tasks : list Task.
Hypothesis fitting : Forall (task_fits conf query_ctx) tasks.
Hypothesis apart : separate tasks.

Definition is_data (t : Task) : bool := match t with TaskTableData _ _ _ _ => true | _ => false end.
Definition data_count (l : list Task) : Z := Z.of_nat (length (List.filter is_data l)).

(** The pool with the metrics; [made] says that the producer has made the next
    task and not sent it yet. *)
Record monitored := mkMonitored { m_pool : pool (E := E); made : bool; m_metrics : metrics }.

(** The pool's steps with what they do to the metrics, and between them the
    changes that the producer makes: a data task is counted when it is made,
    before it is sent, an estimate at any time, and that the producer has come
    to its end. *)
Inductive mstep : monitored -> monitored -> Prop :=
  | ms_make p m meta data chunk total ts :
      to_send p = TaskTableData meta data chunk total :: ts ->
      mstep (mkMonitored p false m)
        (mkMonitored p true (fst (newTaskTableData m meta data chunk total)))
  | ms_send p p' m t ts :
      to_send p = t :: ts -> step conf rebuild query_ctx fileFmt ctx_done p p' ->
      to_send p' = ts -> q (chan p') = q (chan p) ++ [t] ->
      mstep (mkMonitored p (is_data t) m) (mkMonitored p' false (task_sent m))
  | ms_finish p p' b m id t :
      step conf rebuild query_ctx fileFmt ctx_done p p' -> ended p' = ended p ++ [t] ->
      mstep (mkMonitored p b m) (mkMonitored p' b (snd (receive (start_writer conf id) t m)))
  | ms_step p p' b m :
      step conf rebuild query_ctx fileFmt ctx_done p p' ->
      (length (q (chan p')) <= length (q (chan p)))%nat -> ended p' = ended p ->
      mstep (mkMonitored p b m) (mkMonitored p' b m)
  | ms_estimate p b m c : mstep (mkMonitored p b m) (mkMonitored p b (table_estimated m c))
  | ms_ready p b m : to_send p = [] -> mstep (mkMonitored p b m) (mkMonitored p b (producer_finished m)).

Definition monitor (conns : list E) : monitored := mkMonitored (start tasks conns) false newMetrics.

Lemma monitored_reaches conns p b m :
  rtc mstep (monitor conns) (mkMonitored p b m) -> reaches conf rebuild query_ctx fileFmt ctx_done (start tasks conns) p.
Proof.
  intros Hr. change p with (m_pool (mkMonitored p b m)). revert Hr. generalize (mkMonitored p b m). clear p b m.
  intros x Hr. apply (rtc_ind_r (fun x => reaches conf rebuild query_ctx fileFmt ctx_done (start tasks conns) (m_pool x))
    (monitor conns)) in Hr; [done|apply rtc_refl|].
  intros y z _ Hs IH. destruct Hs; cbn [m_pool] in *; try done; by eapply rtc_r.
Qed.

Lemma data_count_app l k : data_count (l ++ k) = data_count l + data_count k.
Proof. unfold data_count. rewrite List.filter_app, length_app. lia. Qed.

Lemma data_count_perm l k : l ≡ₚ k -> data_count l = data_count k.
Proof.
  intros Hp. unfold data_count. f_equal. apply Permutation_length.
  induction Hp; cbn; repeat destruct (is_data _); eauto using perm_skip, perm_swap, Permutation_trans.
Qed.

Lemma data_count_bounds l : 0 <= data_count l <= Z.of_nat (length l).
Proof. unfold data_count. induction l as [|t l IH]; cbn; [lia|]. destruct (is_data t); cbn; lia. Qed.

(** What a step of the pool that does not send does to the tasks sent. *)
Lemma step_kept p p' :
  step conf rebuild query_ctx fileFmt ctx_done p p' -> (length (q (chan p')) <= length (q (chan p)))%nat ->
  handed p' ++ q (chan p') = handed p ++ q (chan p) /\
  (to_send p' = to_send p \/ (to_send p' = [] /\ may_stop ctx_done p')).
Proof.
  destruct 1 as [p t ts Hs Hd|p t ts Hs Hm|p Hs Hc|p Hc Hd|p i e t Hi Ho|p i t e o c mo h Hi Hh|p i e Hi Ho|p i e Hi Hm];
    cbn; try (intros _; split; [done|by left]).
  - rewrite length_app. cbn. lia.
  - intros _. split; [done|right]. split; [done|]. exact Hm.
  - intros _. unfold out_offer in Ho. destruct (q (chan p)) as [|t' q']; [by destruct (draining (chan p))|].
    injection Ho as ->. cbn. split; [by rewrite <- app_assoc|by left].
Qed.

(** The counters: tasks that were sent and the one that is made, and tasks
    that have ended. *)
Record counted (x : monitored) : Prop := {
  co_total : totalChunks (m_metrics x) =
    data_count (handed (m_pool x) ++ q (chan (m_pool x))) + (if made x then 1 else 0);
  co_completed : completedChunks (m_metrics x) = data_count (ended (m_pool x));
  co_made : made x = true -> (exists t ts, to_send (m_pool x) = t :: ts /\ is_data t = true) \/
                             may_stop ctx_done (m_pool x)
}.

Hypothesis few : Z.of_nat (length tasks) < 2 ^ 53.

(** No count comes near the end of 64 bits. *)
Lemma counts_small conns p :
  reaches conf rebuild query_ctx fileFmt ctx_done (start tasks conns) p ->
  Z.of_nat (length (handed p ++ q (chan p) ++ to_send p)) <= Z.of_nat (length tasks) /\
  (length (ended p) <= length (handed p))%nat.
Proof.
  intros Hr. pose proof (inv_reaches conf rebuild query_ctx fileFmt ctx_done default_template terminated size_range no_sql
    tasks fitting apart conns p Hr) as [(d & E1 & _) _ _ (f & F1 & _) _ _].
  split; [rewrite E1, !length_app; lia|]. rewrite (Permutation_length F1), length_app. lia.
Qed.

Lemma i64_succ n : 0 <= n < 2 ^ 53 -> i64 (n + 1) = n + 1.
Proof. intros Hn. apply i64_small. unfold is_i64. lia. Qed.

Lemma receive_counts id t m :
  0 <= completedChunks m < 2 ^ 53 ->
  let m' := snd (receive (start_writer conf id) t m) in
  totalChunks m' = totalChunks m /\ completedChunks m' = completedChunks m + data_count [t].
Proof.
  intros Hc. assert (completedChunks (if last_chunk t then finishTableCallBack t m else m) = completedChunks m /\
    totalChunks (if last_chunk t then finishTableCallBack t m else m) = totalChunks m) as [E1 E2]
    by (by destruct (last_chunk t), t).
  cbn zeta. change (snd (receive (start_writer conf id) t m))
    with (finishTaskCallBack t (if last_chunk t then finishTableCallBack t m else m)).
  revert E1 E2. generalize (if last_chunk t then finishTableCallBack t m else m). intros m1 E1 E2.
  destruct t; cbn; rewrite ?E1, ?E2, ?Z.add_0_r; split; try done. by apply i64_succ.
Qed.

Lemma counted_step conns x y :
  reaches conf rebuild query_ctx fileFmt ctx_done (start tasks conns) (m_pool x) ->
  reaches conf rebuild query_ctx fileFmt ctx_done (start tasks conns) (m_pool y) ->
  counted x -> mstep x y -> counted y.
Proof.
  intros Hr Hr' [Et Ec Em] Hs. apply counts_small in Hr as [Hl Hl2]. apply counts_small in Hr' as [Hl' _].
  destruct Hs as [p m meta data chunk total ts Hh|p p' m t ts Hh Hs Hts Hq|p p' b m id t Hs He|p p' b m Hs Hle He
                 |p b m c|p b m Hh]; cbn [m_pool made m_metrics] in *.
  - rewrite !length_app, Hh in Hl. cbn in Hl. pose proof (data_count_bounds (handed p ++ q (chan p))) as B.
    rewrite length_app in B. split; cbn [m_pool made m_metrics fst newTaskTableData set_counts totalChunks completedChunks];
      [|done|intros _; left; by eauto].
    rewrite Et, Z.add_0_r. apply i64_succ. lia.
  - assert (handed p' = handed p /\ ended p' = ended p) as [Ehd Een].
    { destruct Hs as [| | | |p i e t' Hi Ho|p i t' e o c mo h Hi Hhd| |]; cbn in *; try done;
        apply (f_equal length) in Hq; rewrite length_app in Hq; cbn in Hq; try lia.
      destruct (q (chan p)); cbn in Hq; lia. }
    split; cbn [m_pool made m_metrics task_sent set_counts totalChunks completedChunks]; [|by rewrite Een|done].
    rewrite Et, Ehd, Hq, (assoc_L (++)), (data_count_app _ [t]). assert (data_count [t] = if is_data t then 1 else 0) as -> by (unfold data_count; cbn; by destruct (is_data t)).
    lia.
  - assert (handed p' ++ q (chan p') = handed p ++ q (chan p) /\ to_send p' = to_send p) as [Ehq Ets].
    { destruct Hs; cbn in *; try done; apply (f_equal length) in He; rewrite length_app in He; cbn in He; lia. }
    pose proof (data_count_bounds (ended p)) as B. rewrite !length_app in Hl.
    destruct (receive_counts id t m) as [E1 E2]; [rewrite Ec; lia|].
    split; cbn [m_pool made m_metrics]; rewrite ?E1, ?E2, ?Ehq, ?He, ?Ets; [done| |].
    + by rewrite Ec, data_count_app.
    + intros Hb. destruct (Em Hb) as [?|?]; [by left|right; by eapply keep_may_stop].
  - destruct (step_kept p p' Hs Hle) as [Ehq Ets].
    split; cbn [m_pool made m_metrics]; rewrite ?Ehq, ?He; [done|done|].
    intros Hb. destruct Ets as [Ets|[_ Hm]]; [|by right]. rewrite Ets.
    destruct (Em Hb) as [?|?]; [by left|right; by eapply keep_may_stop].
  - by split.
  - by split.
Qed.

Lemma monitored_counted conns x : rtc mstep (monitor conns) x -> counted x.
Proof.
  intros Hr. cut (rtc mstep (monitor conns) x /\ counted x); [by intros []|]. revert Hr.
  apply (rtc_ind_r (fun x => rtc mstep (monitor conns) x /\ counted x)).
  - split; [apply rtc_refl|]. by split.
  - intros y z Hy Hs [_ Hc]. assert (rtc mstep (monitor conns) z) as Hz by (by eapply rtc_r).
    split; [done|]. destruct y as [py by_ my], z as [pz bz mz].
    eapply counted_step; [..|exact Hc|exact Hs]; by eapply monitored_reaches.
Qed.

(** When all workers have returned without an error, everything was sent. *)
Lemma returned_sent conns p :
  conns <> [] -> ctx_done = false -> reaches conf rebuild query_ctx fileFmt ctx_done (start tasks conns) p ->
  Forall (fun s => s = Returned None) (slots p) -> handed p = tasks /\ q (chan p) = [] /\ to_send p = [] /\ ended p ≡ₚ tasks.
Proof.
  intros Hc Hd Hr Hall. destruct (all_returned conf rebuild query_ctx fileFmt ctx_done default_template terminated
    size_range no_sql tasks fitting apart conns p Hc Hd Hr Hall) as (Hh & Hend & _).
  destruct (counts_small conns p Hr) as [Hl _]. rewrite !length_app, Hh in Hl.
  split_and!; [done|apply nil_length_inv; lia|apply nil_length_inv; lia|done].
Qed.

(** Every run of the pool is one of the monitored pool. *)
Lemma monitored_run conns p :
  reaches conf rebuild query_ctx fileFmt ctx_done (start tasks conns) p ->
  exists b m, rtc mstep (monitor conns) (mkMonitored p b m).
Proof.
  intros Hr. cut (exists b m, rtc mstep (monitor conns) (mkMonitored p b m) /\
    (b = true -> to_send p = [] \/ exists t ts, to_send p = t :: ts /\ is_data t = true)); [naive_solver|].
  revert p Hr. apply (rtc_ind_r (fun p => exists b m, rtc mstep (monitor conns) (mkMonitored p b m) /\
    (b = true -> to_send p = [] \/ exists t ts, to_send p = t :: ts /\ is_data t = true))).
  - exists false, newMetrics. split; [apply rtc_refl|done].
  - intros p p' _ Hs (b & m & Hm & Hb). pose proof Hs as Hstep.
    destruct Hs as [p t ts Hs Hd|p t ts Hs Hms|p Hs Hc|p Hc Hd|p i e t Hi Ho|p i t e o c mo h Hi Hh|p i e Hi Ho|p i e Hi Hms].
    + assert (forall b m, b = is_data t -> mstep (mkMonitored p b m)
        (mkMonitored (mkPool ts (in_closed p) (handleRead (chan p) (Some t)) (slots p) (files p) (rows_gauge p)
           (ended p) (handed p)) false (task_sent m))) as Hsend
        by (intros b0 m0 ->; by eapply ms_send).
      destruct (is_data t) eqn:Ed, b.
      * exists false, (task_sent m). split; [|done]. eapply rtc_r; [exact Hm|]. by apply Hsend.
      * destruct t as [| | | | |meta data chunk total]; try done.
        exists false, (task_sent (fst (newTaskTableData m meta data chunk total))). split; [|done].
        eapply rtc_r; [eapply rtc_r; [exact Hm|by eapply ms_make]|]. by apply Hsend.
      * destruct (Hb eq_refl) as [?|(? & ? & E0 & E1)]; [congruence|]. rewrite Hs in E0. congruence.
      * exists false, (task_sent m). split; [|done]. eapply rtc_r; [exact Hm|]. by apply Hsend.
    + exists b, m. split; [|by left]. eapply rtc_r; [exact Hm|]. by apply ms_step.
    + exists b, m. split; [|by left]. eapply rtc_r; [exact Hm|]. by apply ms_step.
    + exists b, m. split; [|done]. eapply rtc_r; [exact Hm|]. by apply ms_step.
    + exists b, m. split; [|done]. eapply rtc_r; [exact Hm|]. apply ms_step; [done| |done]. cbn.
      destruct (q (chan p)); cbn; lia.
    + destruct (h_err h) eqn:He.
      * exists b, m. split; [|done]. eapply rtc_r; [exact Hm|]. apply ms_step; [exact Hstep|done|done].
      * exists b, (snd (receive (start_writer conf 0) t m)). split; [|done].
        eapply rtc_r; [exact Hm|]. by apply ms_finish.
    + exists b, m. split; [|done]. eapply rtc_r; [exact Hm|]. by apply ms_step.
    + exists b, m. split; [|done]. eapply rtc_r; [exact Hm|]. by apply ms_step.
Qed.

(** At the end both counters are the number of data tasks. *)
Lemma progress_done (m : metrics) :
  progressReady m = true -> completedChunks m = totalChunks m -> 0 <= totalChunks m < 2 ^ 53 ->
  progress_text m = if totalChunks m =? 0 then "100 %" else "100.00 %".
Proof.
  intros Hr Hc Ht. unfold progress_text. rewrite Hr, Hc.
  destruct (Z.eqb_spec (totalChunks m) 0); [done|]. rewrite div_same by lia. vm_compute. reflexivity.
Qed.

(** C32: the progress that the program reports is bounded by the work: at any
    time of a run of producer, channel and workers, with the metrics updated
    where the code does, no more chunks are completed than were created; and
    when all workers have returned without an error and the producer has said
    that it is done, every chunk is completed and the status says 100
    percent. *)
Theorem status_progress conns p b m totalTables s now :
  rtc mstep (monitor conns) (mkMonitored p b m) ->
  0 <= completedChunks m <= totalChunks m /\
  (conns <> [] -> ctx_done = false -> Forall (fun s => s = Returned None) (slots p) -> progressReady m = true ->
   completedChunks m = totalChunks m /\
   Progress (fst (GetStatus totalTables m s now)) = if totalChunks m =? 0 then "100 %" else "100.00 %").
Proof.
  intros Hr. pose proof (monitored_reaches _ _ _ _ Hr) as Hp.
  destruct (monitored_counted _ _ Hr) as [Et Ec Em]. cbn [m_pool made m_metrics] in *.
  destruct (counts_small conns p Hp) as [Hl _].
  pose proof (inv_reaches conf rebuild query_ctx fileFmt ctx_done default_template terminated size_range no_sql
    tasks fitting apart conns p Hp) as [_ _ _ (f & F1 & _) _ _].
  pose proof (data_count_bounds (ended p)). split.
  - rewrite Et, Ec, data_count_app, (data_count_perm _ _ F1), data_count_app.
    pose proof (data_count_bounds (busy (slots p) ++ f)). pose proof (data_count_bounds (q (chan p))).
    destruct b; lia.
  - intros Hc Hd Hall Hready. destruct (returned_sent conns p Hc Hd Hp Hall) as (Hh & Hq & Hts & Hend).
    assert (b = false) as ->.
    { destruct b; [|done]. destruct (Em eq_refl) as [(t & ts & E0 & _)|Hm]; [by rewrite Hts in E0|].
      by destruct (not_stopped ctx_done p Hd Hall Hm). }
    assert (completedChunks m = totalChunks m) as Heq
      by (by rewrite Et, Ec, Hh, Hq, app_nil_r, Z.add_0_r, (data_count_perm _ _ Hend)).
    split; [done|]. unfold GetStatus. destruct (GetSpeed _ _ _) as [sp s']. cbn [fst Progress].
    apply progress_done; [done|done|]. rewrite <- Heq, Ec, (data_count_perm _ _ Hend).
    pose proof (data_count_bounds tasks). lia.
Qed.
End Runs.

(** ** An example: the run of [Complete], with two chunks *)

Section Example.
#[local] Existing Instances Config.example_regexp Config.example_files Config.example_unicode.
#[local] Instance example_prometheus : Prometheus := {|
  vec := float64;
  NewVec _ := S754_zero false;
  Add := fadd;
  Sub := fsub;
  Inc v := fadd v (of_int 1);
  Dec v := fsub v (of_int 1);
  Observe v _ := v;
  Value v := Some v
|}.
#[local] Instance example_laws : PrometheusLaws.
Proof. by split. Defined.

Lemma example_separate : separate example_plan.
Proof.
  exact (dumped_separate example_conf [] (fun _ => false) 9 example_tables (mkChannel example_plan 4)
    (fun _ => eq_refl) (proj1 example_names) (proj2 example_names) example_produced).
Qed.

Lemma status_progress_witness :
  exists (p : pool (E := unit)) m, Forall (fun s => s = Returned None) (slots p) /\
    completedChunks m = totalChunks m /\ 0 < totalChunks m /\
    Progress (fst (GetStatus 1 m (NewSpeedRecorder 0) 5)) = "100.00 %".
Proof.
  destruct Complete.example_run as (p & Hr & Hret). pose proof example_separate as Hsep.
  assert (Z.of_nat (length example_plan) < 2 ^ 53) as Hfew by (vm_compute; reflexivity).
  destruct (returned_sent example_conf (fun e : unit => (Ok tt, e)) example_query FileFormatSQLText false eq_refl
    ltac:(done) ltac:(done) eq_refl example_plan example_plan_fits Hsep example_conns p ltac:(done) eq_refl Hr Hret)
    as (Hh & Hq & Hts & _).
  destruct (monitored_run example_conf (fun e : unit => (Ok tt, e)) example_query FileFormatSQLText false example_plan
    example_conns p Hr) as (b & m & Hm).
  assert (rtc (mstep example_conf (fun e : unit => (Ok tt, e)) example_query FileFormatSQLText false)
    (monitor example_plan example_conns) (mkMonitored p b (producer_finished m))) as Hm'
    by (eapply rtc_r; [exact Hm|by apply ms_ready]).
  exists p, (producer_finished m). split; [exact Hret|].
  destruct (status_progress example_conf (fun e : unit => (Ok tt, e)) example_query FileFormatSQLText false eq_refl
    ltac:(done) ltac:(done) eq_refl example_plan example_plan_fits Hsep Hfew example_conns p b (producer_finished m)
    1 (NewSpeedRecorder 0) 5 Hm') as [_ Hdone].
  destruct (Hdone ltac:(done) eq_refl Hret eq_refl) as [Heq ->].
  assert (0 < totalChunks (producer_finished m)) as Hpos.
  { pose proof (co_total _ _ (monitored_counted example_conf (fun e : unit => (Ok tt, e)) example_query FileFormatSQLText false
      eq_refl ltac:(done) ltac:(done) eq_refl example_plan example_plan_fits Hsep Hfew example_conns _ Hm')) as Et.
    cbn [m_pool made m_metrics] in Et. rewrite Et, Hh, data_count_app. pose proof (data_count_bounds (q (chan p))).
    assert (data_count example_plan = 2) as -> by (vm_compute; reflexivity). destruct b; lia. }
  split; [exact Heq|split; [exact Hpos|]]. apply Z.lt_neq, Z.neq_sym, Z.eqb_neq in Hpos. by rewrite Hpos.
Defined.
End Example.
