(* ===== verification/Program.v ===== *)
(** * A whole dump (export/dump.go)

    [Dump] with the outcomes of its parts filled in: the table list is the one
    that [Prepare] makes, the producer is [Dumper]'s, the writers are
    [Dispatch]'s pool.  What a dump that reports success has done. *)

From Stdlib Require Import Permutation.
From S2P Require Import Prelude GoStrings Dialect FilterMatcher FilterParser Filter FileNames.
From S2P Require Import SqlTypes SqlCond SqlBuilder Conn Tables Cdc Config Prepare Ir Chunking Writer.
From S2P Require Import TableData Worker Consistency Dumper Dispatch Lifecycle Complete.

Section Program.
Context `{UnicodeLib} `{RegexpLib} `{FileLib} `{FoldLib} `{SnapshotConn} `{PgDump} `{DriverColumns} `{Server}.
Context {E : Type}.
Variable conf : Config.
Variable osEnviron : list string.
Variable cancelled : nat -> bool.
Variable rebuild : E -> result unit * E.
Variable query_ctx : E -> string -> result (list ColumnType * cursor) * E.
Variable fileFmt : FileFormat.
Variable is_canceled : error -> bool.

(** What [errgroup.Wait] returns when all workers have returned: an error of
    one of them, if there is one. *)
Definition waited (l : list (slot (E := E))) (err : option error) : Prop :=
  (forall s, s ∈ l -> exists e, s = Returned e) /\
  match err with
  | None => Forall (fun s => s = Returned None) l
  | Some e => Returned (Some e) ∈ l
  end.

(** The outcomes of the parts of a run without --sql: the error of the table
    list; the producer over the list, in some order of the map, and what it
    sent; the pool of --threads writers that took it, at the end; their error. *)
Record outcomes (prepare_err produce_err wait_err : option error) (ch : channel) (p : pool (E := E)) : Prop := {
  o_prepare : prepare_err = match prepareTableListToDump conf with Ok _ => None | Err e => Some e end;
  o_produce : forall tables, prepareTableListToDump conf = Ok tables ->
    exists fuel allTables, allTables ≡ₚ map_to_list tables /\
      dumpDatabases conf osEnviron cancelled fuel allTables (mkChannel [] 0) = Some (ch, produce_err);
  o_pool : exists conns, length conns = Z.to_nat (Threads conf) /\
    reaches conf rebuild query_ctx fileFmt false (start (sent ch) conns) p;
  o_wait : waited (slots p) wait_err
}.

(** The catalog as the queries of the program see it. *)
Record catalog_answers (schemas : list string) (catalog : list (string * TableInfo)) : Prop := {
  cat_schemas : exists cols, conn_query show_databases_query [] =
    Ok (mkRows cols (map (fun s => [Some s]) schemas) None);
  cat_tables : exists cols, forall dbs, conn_query list_tables_query [ArgArray dbs] =
    Ok (mkRows cols (map catalog_row
          (List.filter (fun p => bool_decide (p.1 ∈ dbs)) catalog)) None);
  cat_sizes : forall p, p ∈ catalog -> is_u64 (tAvgRowLength p.2);
  cat_names : NoDup (map qualified catalog)
}.

(** A configuration that dumps the rows of all tables of a filter on one
    snapshot, under the default names. *)
Record dumps_tables : Prop := {
  c_consistency : Consistency conf = "snapshot";
  c_sql : SQL conf = EmptyString;
  c_specified : SpecifiedTables conf = false;
  c_where : Where conf = EmptyString;
  c_data : NoData conf = false;
  c_threads : 1 <= Threads conf;
  c_size : 0 <= FileSize conf;
  c_terminator : CsvLineTerminator conf <> EmptyString;
  c_template : OutputFileTemplate conf = DefaultOutputFileTemplate
}.

Lemma tables_of_member tables (allTables : list (string * list TableInfo)) s t :
  allTables ≡ₚ map_to_list tables -> t ∈ tables_of tables s ->
  exists l, (s, l) ∈ allTables /\ t ∈ l.
Proof.
  intros Hp. unfold tables_of. destruct (tables !! s) as [l|] eqn:El; cbn; [|by intros ?%not_elem_of_nil].
  intros Ht. exists l. split; [|done]. rewrite Hp. by apply elem_of_map_to_list.
Qed.

Lemma order_names tables (allTables : list (string * list TableInfo)) :
  allTables ≡ₚ map_to_list tables -> (forall s, NoDup (map tName (tables_of tables s))) ->
  NoDup (map fst allTables) /\ Forall (fun d => NoDup (map tName (snd d))) allTables.
Proof.
  intros Hp Hn. split.
  - change (NoDup (allTables.*1)). rewrite Hp. apply NoDup_fst_map_to_list.
  - apply Forall_forall. intros [s l] Hin. rewrite Hp in Hin. apply elem_of_map_to_list in Hin.
    specialize (Hn s). unfold tables_of in Hn. by rewrite Hin in Hn.
Qed.

(** The composition of the parts. *)
Lemma success_dumped schemas catalog prepare_err produce_err wait_err ch p started finished
    producing waiting meta_oracle w metadata w' :
  dumps_tables -> catalog_answers schemas catalog ->
  (forall hist c t r rs, answer hist c export_stmt = Ok ((t :: r) :: rs) -> t <> EmptyString) ->
  (forall k, cancelled k = false) -> (forall e, produce_err = Some e -> is_canceled e = false) ->
  outcomes prepare_err produce_err wait_err ch p -> Forall (task_fits conf query_ctx) (sent ch) ->
  Dump conf prepare_err produce_err wait_err started finished producing waiting meta_oracle is_canceled w =
    (None, metadata, w') ->
  one_snapshot conf w w' /\
  (exists text, metadata = metadata_file meta_oracle text /\
    is_metadata conf started finished (confSlot w') text) /\
  forall s t, (s, t) ∈ catalog -> s ∈ schemas -> tType t = TableTypeBase ->
    MatchTable (TableFilter conf) s (tName t) = true ->
    table_dumped conf osEnviron query_ctx fileFmt (files p) s t.
Proof.
  intros Hc Hcat Hexp Hctx Hcan Ho Hfit Hd. destruct Hc, Hcat as [[k1 Hs] [k2 Ht] Hu Hn], Ho as [_ Hprod (conns & Hl & Hr) [_ Hw]].
  destruct (Dump_outcomes _ _ _ _ _ _ _ _ _ _ _ _ _ Hd) as (_ & -> & Hp).
  destruct (shares_snapshot _ _ _ _ _ _ _ _ _ _ _ _ _ ltac:(done) Hexp Hd) as [Hsnap Htext].
  split_and!; [done|done|]. intros s t Hin Hsc Hty Hm.
  destruct (prepared_tables conf _ _ _ _ ltac:(done) ltac:(done) Hs Ht Hu) as (tables & Hprep & Hmem & Hnd).
  destruct (Hprod _ Hprep) as (fuel & allTables & Hperm & Hrun).
  destruct produce_err as [e|]; [by specialize (Hp e eq_refl); rewrite (Hcan e eq_refl) in Hp|].
  destruct (order_names _ _ Hperm (Hnd Hn)) as [N1 N2].
  destruct (tables_of_member tables allTables s t Hperm) as (l & Hlin & Htl).
  { apply Hmem. split_and!; try done. rewrite Hty. by left. }
  assert (conns <> []) by (intros ->; cbn in Hl; lia).
  eapply tables_dumped; eauto.
Qed.

(** ** Properties *)

(** C1: a snapshot dump of tables that reports success, was not cancelled and
    had no --where has dumped the database: all its connections read one
    snapshot, those that replace broken ones included, the metadata, if the
    storage takes it, names the slot of that snapshot, and for every base table
    of the catalog whose schema is listed and that the table filter accepts,
    the files hold the rows of the table on the snapshot, each exactly once.

    The conditions: the consistency is snapshot, at least one thread, a line
    terminator that is not empty, and --sql, --where, --tables-list, --no-data
    and a template of one's own are not used ([dumps_tables]); the server
    answers the questions about its catalog, without naming a table twice
    ([catalog_answers]), and gives an exported snapshot a name; the outcomes of
    table list, producer and workers are those of their models ([outcomes]);
    the context was never done and the producer's error, if
    any, is not a cancellation; the rows of each task fit the counters
    ([task_fits]).  C35 and C37 show that a cancelled dump and one with --where
    may report success with rows missing. *)
Theorem successful_dump schemas catalog prepare_err produce_err wait_err ch p started finished
    producing waiting meta_oracle w metadata w' :
  dumps_tables -> catalog_answers schemas catalog ->
  (forall hist c t r rs, answer hist c export_stmt = Ok ((t :: r) :: rs) -> t <> EmptyString) ->
  (forall k, cancelled k = false) -> (forall e, produce_err = Some e -> is_canceled e = false) ->
  outcomes prepare_err produce_err wait_err ch p -> Forall (task_fits conf query_ctx) (sent ch) ->
  Dump conf prepare_err produce_err wait_err started finished producing waiting meta_oracle is_canceled w =
    (None, metadata, w') ->
  one_snapshot conf w w' /\
  (exists text, metadata = metadata_file meta_oracle text /\
    is_metadata conf started finished (confSlot w') text) /\
  forall s t, (s, t) ∈ catalog -> s ∈ schemas -> tType t = TableTypeBase ->
    MatchTable (TableFilter conf) s (tName t) = true ->
    table_dumped conf osEnviron query_ctx fileFmt (files p) s t.
Proof. apply success_dumped. Qed.
End Program.

(** ** An example: the run of [Complete], by four writers *)

Section Example.
#[local] Existing Instances Config.example_regexp Config.example_files Config.example_unicode.
#[local] Existing Instances Complete.example_fold Complete.example_conn Complete.example_pg_dump.
#[local] Existing Instances Complete.example_columns Lifecycle.example_server.

Definition example_dump : option error * list (string * string) * world :=
  Dump Complete.example_conf None None None "2026-01-01 00:00:00" "2026-01-01 00:01:00"
    [ProducerReconnects] [] Lifecycle.example_oracle (fun _ => false) Lifecycle.example_world.
Definition example_end : world := snd example_dump.

Lemma example_dumped :
  Dump Complete.example_conf None None None "2026-01-01 00:00:00" "2026-01-01 00:01:00"
    [ProducerReconnects] [] Lifecycle.example_oracle (fun _ => false) Lifecycle.example_world =
  (None, [("metadata", Lifecycle.example_text)], example_end).
Proof. vm_compute. reflexivity. Qed.

Definition example_prepared : DatabaseTables := {[ "public" := [mkTableInfo "t" 0 TableTypeBase] ]}.

Lemma example_prepares : prepareTableListToDump Complete.example_conf = Ok example_prepared.
Proof. vm_compute. reflexivity. Qed.

Lemma example_config : dumps_tables Complete.example_conf.
Proof. by split. Qed.

Lemma example_catalog_answers : catalog_answers ["public"] [("public", mkTableInfo "t" 0 TableTypeBase)].
Proof.
  split.
  - by eexists.
  - by exists ["nspname"; "relname"; "table_type"; "avg_row_length"].
  - intros p ->%list_elem_of_singleton. cbn. unfold is_u64. lia.
  - apply NoDup_singleton.
Qed.

Lemma example_outcomes p :
  reaches Complete.example_conf (fun e : unit => (Ok tt, e)) example_query FileFormatSQLText false
    (start example_plan example_conns) p -> Forall (fun s => s = Returned None) (slots p) ->
  outcomes Complete.example_conf [] (fun _ => false) (fun e : unit => (Ok tt, e)) example_query FileFormatSQLText
    None None None (mkChannel example_plan 4) p.
Proof.
  intros Hr Hret. split.
  - by rewrite example_prepares.
  - rewrite example_prepares. intros tables <-%(inj Ok). exists 9%nat, Complete.example_tables.
    split; [|exact example_produced]. unfold example_prepared. by rewrite map_to_list_singleton.
  - by exists example_conns.
  - split; [|done]. intros s Hs. rewrite Forall_forall in Hret. exists None. by apply Hret.
Qed.

Lemma successful_dump_witness :
  exists p : pool (E := unit), one_snapshot Complete.example_conf Lifecycle.example_world example_end /\
    table_dumped Complete.example_conf [] example_query FileFormatSQLText (files p) "public"
      (mkTableInfo "t" 0 TableTypeBase).
Proof.
  destruct example_run as (p & Hr & Hret). exists p.
  destruct (successful_dump Complete.example_conf [] (fun _ => false) (fun e : unit => (Ok tt, e)) example_query
    FileFormatSQLText (fun _ => false) ["public"] [("public", mkTableInfo "t" 0 TableTypeBase)]
    None None None (mkChannel example_plan 4) p _ _ _ _ _ _ _ _ example_config example_catalog_answers
    Lifecycle.example_exports (fun _ => eq_refl) (fun _ _ => eq_refl) (example_outcomes p Hr Hret)
    example_plan_fits example_dumped) as (Hs & _ & Hd).
  exact (conj Hs (Hd "public" (mkTableInfo "t" 0 TableTypeBase) ltac:(by left) ltac:(by left) eq_refl eq_refl)).
Defined.
End Example.
