(* ===== verification/Command.v ===== *)
(** * The command (cmd/pg-dumpling/main.go)

    [main]: flags, configuration, dumper, dump, exit code.  What an exit code
    of zero promises about the files. *)

From Stdlib Require Import Permutation.
From S2P Require Import Prelude GoStrings Dialect FilterMatcher FilterParser Filter FileNames.
From S2P Require Import SqlTypes SqlCond SqlBuilder Conn Tables Cdc Config Flags Prepare Ir Chunking Writer.
From S2P Require Import TableData Worker Consistency Dumper Init Service Dispatch Lifecycle Complete Status Program.

Section Command.
Context `{UnicodeLib} `{RegexpLib} `{FileLib} `{FoldLib} `{SnapshotConn} `{PgDump} `{DriverColumns} `{Server}.
Context `{UnitsLib} `{FlagSet} `{TemplateLib} `{TLSLib} `{PoolLib} `{LogLib} `{StorageLib}.

(** ** The arguments *)

(** The configuration, and its parts that only the set-up reads; a getter
    that fails fails in [ParseFromFlags].
    src/export/config.go:428-439 Config.ParseFromFlags *)
Definition parse_arguments : result (Config * settings) :=
  conf ← ParseFromFlags DefaultConfig;
  logLevel ← GetString "loglevel";
  logFile ← GetString "logfile";
  logFormat ← GetString "logfmt";
  statusAddr ← GetString "status-addr";
  options ← options_from_flags;
  Ok (conf, mkSettings None logLevel logFile logFormat statusAddr None options).

(** No certificates but those of files, and no least version. *)
Definition command_material : tls_material := mkMaterial EmptyString EmptyString EmptyString 0.

(** ** The end of a dumper *)

(** The calls to the registry, the events of the pool, and the error of
    closing it.  The context is cancelled, which [Service] models.
    src/export/dump.go:802-809 Dumper.Close *)
Definition Close (close_err : option error) (registry : option (list registry_call)) (d : dumper)
    : option (list registry_call) * list pool_event * option error :=
  (unregisterFrom registry,
   match d_handle d with Some db => d_events d ++ [PoolClosed db] | None => d_events d end,
   match d_handle d with Some _ => close_err | None => None end).

(** ** The command *)

(** How the program ends; it would panic on a dumper that is nil. *)
Inductive ending :=
  | PrintedUsage
  | PrintedVersion
  | ParseFailed (e : error)
  | UnparsedArguments (args : list string)
  | CreateFailed (e : error)
  | DumpFailed (e : error)
  | Panics
  | DumpedData.

Definition exit_code (e : ending) : Z :=
  match e with
  | PrintedUsage | PrintedVersion | DumpedData => 0
  | ParseFailed _ | UnparsedArguments _ | CreateFailed _ | DumpFailed _ => 1
  | Panics => 2
  end.

(** What is left of a run. *)
Record left_over := mkLeft {
  l_end : ending;
  l_registry : option (list registry_call);
  l_metadata : list (string * string);
  l_world : world
}.

(** the build, the -V flag, and the arguments that are not options *)
Variable build : build_info.
Variable printVersion : bool.
Variable args : list string.
(** what the HTTP service and the pool report when they are closed *)
Variable listen serve close_err : option error.
(** the course of the dump, as in [Lifecycle] *)
Variable prepare_err produce_err wait_err : option error.
Variable started finished : string.
Variable producing : list reconnection.
Variable waiting : list nat.
Variable meta_oracle : file_oracle.
Variable is_canceled : error -> bool.

(** The collectors that [main] itself registers. *)
Definition process_collectors : list registry_call :=
  [MustRegister "process collector"; MustRegister "go collector"].

(** [NewDumper] with the registry of [main], and with the errors that its log
    and storage steps have.
    src/export/dump.go:45-95 NewDumper *)
Definition create_dumper (conf : Config) (s : settings)
    : option error * option dumper * option (list registry_call) :=
  let tctx := fst (WithCancel 0 (WithContext go_Background Background)) in
  NewDumper command_material (snd (fst (initLogger build s tctx)))
    (snd (createExternalStore s conf)) conf (Some process_collectors) [].

(** The program after [pflag.Parse], which ends it itself when an option is
    unknown.
    src/cmd/pg-dumpling/main.go:29-83 main *)
Definition main (w : world) : left_over :=
  match GetBool "help" with
  | Err _ | Ok true => mkLeft PrintedUsage (Some []) [] w
  | Ok false =>
      if printVersion then mkLeft PrintedVersion (Some []) [] w
      else match parse_arguments with
      | Err e => mkLeft (ParseFailed e) (Some []) [] w
      | Ok (conf, s) =>
          if 0 <? Z.of_nat (length args) then mkLeft (UnparsedArguments args) (Some []) [] w
          else
            match create_dumper conf s with
            | (Some e, _, registry) => mkLeft (CreateFailed e) registry [] w
            | (None, None, registry) => mkLeft Panics registry [] w
            | (None, Some d, registry) =>
                let '(err, metadata, w) :=
                  Dump (d_conf d) prepare_err produce_err wait_err started finished producing waiting
                    meta_oracle is_canceled w in
                let '(registry, _, _) := Close close_err registry d in
                (mkLeft (match err with Some e => DumpFailed e | None => DumpedData end) registry metadata w)
            end
      end
  end.

(** ** Correctness *)

(** Without an error there is a dumper. *)
Lemma no_panic w : l_end (main w) <> Panics.
Proof.
  unfold main. destruct (GetBool "help") as [[]|]; [done| |done]. destruct printVersion; [done|].
  destruct parse_arguments as [[conf s]|]; [|done]. destruct (0 <? _); [done|].
  destruct (create_dumper conf s) as [[[e|] [d|]] registry] eqn:Ec; [done..| |].
  - by destruct (Dump _ _ _ _ _ _ _ _ _ _ _) as [[[e|] md] w'].
  - apply NewDumper_registered in Ec as [_ Hd]. by destruct (Hd eq_refl).
Qed.

(** A run that ends with a dump. *)
Lemma main_dumped w :
  l_end (main w) = DumpedData ->
  GetBool "help" = Ok false /\ printVersion = false /\ args = [] /\
  exists conf s d registry metadata w',
    parse_arguments = Ok (conf, s) /\ create_dumper conf s = (None, Some d, registry) /\
    Dump (d_conf d) prepare_err produce_err wait_err started finished producing waiting
      meta_oracle is_canceled w = (None, metadata, w') /\
    l_metadata (main w) = metadata /\ l_world (main w) = w' /\
    l_registry (main w) = unregisterFrom (registerTo (Some process_collectors)).
Proof.
  unfold main. destruct (GetBool "help") as [[]|]; [done| |done].
  destruct printVersion; [done|]. destruct parse_arguments as [[conf s]|]; [|done].
  destruct (Z.ltb_spec 0 (Z.of_nat (length args))) as [|Ha]; [done|].
  destruct (create_dumper conf s) as [[[e|] [d|]] registry] eqn:Ec; [done..| |done].
  destruct (Dump _ _ _ _ _ _ _ _ _ _ _) as [[[e|] md] w'] eqn:Ed; [done|]. intros _.
  split_and!; [done|done|by destruct args|].
  exists conf, s, d, registry, md, w'. split_and!; try done.
  apply NewDumper_registered in Ec as [-> _]. done.
Qed.

Lemma exit_zero_ends w :
  exit_code (l_end (main w)) = 0 -> GetBool "help" = Ok false -> printVersion = false ->
  l_end (main w) = DumpedData.
Proof.
  unfold main. intros He Hh Hv. revert He. rewrite Hh, Hv.
  destruct parse_arguments as [[conf s]|]; [|done]. destruct (0 <? _); [done|].
  destruct (create_dumper conf s) as [[[e|] [d|]] registry]; [done..| |done].
  by destruct (Dump _ _ _ _ _ _ _ _ _ _ _) as [[[e|] md] w'].
Qed.

(** A run that fails leaves no metadata file. *)
Lemma failure_no_metadata w : exit_code (l_end (main w)) <> 0 -> l_metadata (main w) = [].
Proof.
  unfold main. destruct (GetBool "help") as [[]|]; [done| |done]. destruct printVersion; [done|].
  destruct parse_arguments as [[conf s]|]; [|done]. destruct (0 <? _); [done|].
  destruct (create_dumper conf s) as [[[e|] [d|]] registry]; [done..| |done].
  destruct (Dump _ _ _ _ _ _ _ _ _ _ _) as [[[e|] md] w'] eqn:Ed; [|done]. cbn. intros _.
  by apply Dump_failed_no_metadata in Ed.
Qed.

(** What was parsed is what was given to [ParseFromFlags]. *)
Lemma parse_arguments_conf conf s : parse_arguments = Ok (conf, s) -> ParseFromFlags DefaultConfig = Ok conf.
Proof.
  unfold parse_arguments. intros Hp. destruct (ParseFromFlags DefaultConfig) as [c|]; [|done].
  cbn [mbind result_bind] in Hp. inv_ok. done.
Qed.

(** Options for a dump of the rows of tables on one snapshot, under the
    default names. *)
Record plain (conf : Config) : Prop := {
  p_consistency : Consistency conf = "auto" \/ Consistency conf = "snapshot";
  p_sql : SQL conf = EmptyString;
  p_specified : SpecifiedTables conf = false;
  p_where : Where conf = EmptyString;
  p_data : NoData conf = false;
  p_terminator : CsvLineTerminator conf <> EmptyString;
  p_template : OutputFileTemplate conf = DefaultOutputFileTemplate
}.

(** What [NewDumper] makes of them suits the dump. *)
Lemma plain_dumps conf s d registry :
  ParseFromFlags DefaultConfig = Ok conf -> create_dumper conf s = (None, Some d, registry) -> plain conf ->
  dumps_tables (d_conf d).
Proof.
  intros Hp Hc [[]]; apply parsed_limits in Hp as [Ht Hs];
    apply NewDumper_ok in Hc as (ft & _ & _ & _ & _ & _ & ->); split; cbn; try done.
  - by match goal with E : Consistency conf = _ |- _ => rewrite E end.
  - by match goal with E : Consistency conf = _ |- _ => rewrite E end.
Qed.

(** ** Properties *)

(** C2: what the exit code says.  A run that was not asked for help or for
    the version and ends with zero has accepted the options, without other
    arguments, has made a dumper of them and has dumped without an error; its
    metrics are no longer registered.  With options for a dump of tables
    ([plain]), all connections have read one snapshot, the metadata, if the
    storage takes it, names its slot, and the files hold every row of every
    base table that the catalog lists in a schema and that the filter accepts,
    once.  A run that ends with another code leaves no metadata file. *)
Theorem exit_zero_dumped osEnviron cancelled (E : Type) rebuild query_ctx schemas catalog ch (p : pool (E := E)) w :
  (exit_code (l_end (main w)) <> 0 -> l_metadata (main w) = []) /\
  (exit_code (l_end (main w)) = 0 -> GetBool "help" = Ok false -> printVersion = false ->
   exists conf s d, parse_arguments = Ok (conf, s) /\ args = [] /\
     (exists registry, create_dumper conf s = (None, Some d, registry)) /\
     l_registry (main w) = unregisterFrom (registerTo (Some process_collectors)) /\
     (plain conf -> catalog_answers schemas catalog ->
      (forall hist c t r rs, answer hist c export_stmt = Ok ((t :: r) :: rs) -> t <> EmptyString) ->
      (forall k, cancelled k = false) -> (forall e, produce_err = Some e -> is_canceled e = false) ->
      outcomes (d_conf d) osEnviron cancelled rebuild query_ctx (NewWriter_fileFmt (d_conf d))
        prepare_err produce_err wait_err ch p ->
      Forall (task_fits (d_conf d) query_ctx) (sent ch) ->
      one_snapshot (d_conf d) w (l_world (main w)) /\
      (exists text, l_metadata (main w) = metadata_file meta_oracle text /\
        is_metadata (d_conf d) started finished (confSlot (l_world (main w))) text) /\
      forall sch t, (sch, t) ∈ catalog -> sch ∈ schemas -> tType t = TableTypeBase ->
        MatchTable (TableFilter conf) sch (tName t) = true ->
        table_dumped (d_conf d) osEnviron query_ctx (NewWriter_fileFmt (d_conf d)) (files p) sch t)).
Proof.
  split; [apply failure_no_metadata|]. intros He Hh Hv.
  destruct (main_dumped w (exit_zero_ends w He Hh Hv))
    as (_ & _ & Ha & conf & s & d & registry & md & w' & Hp & Hc & Hd & Hm & Hw & Hr).
  exists conf, s, d. split_and!; [done|done|by exists registry|done|].
  intros Hpl Hcat Hexp Hctx Hcan Ho Hfit. rewrite Hm, Hw.
  apply parse_arguments_conf in Hp. pose proof (plain_dumps _ _ _ _ Hp Hc Hpl) as Hdt.
  assert (TableFilter (d_conf d) = TableFilter conf) as <-
    by (apply NewDumper_ok in Hc as (ft & _ & _ & _ & _ & _ & ->); done).
  by eapply success_dumped.
Qed.
End Command.

(** ** An example: the run of [Complete], from its command line *)

Section Example.
#[local] Existing Instances Config.example_regexp Config.example_files Config.example_unicode.
#[local] Existing Instances Config.example_units Config.example_templates.
#[local] Existing Instances Complete.example_fold Complete.example_conn Complete.example_pg_dump.
#[local] Existing Instances Complete.example_columns Lifecycle.example_server Init.example_tls Init.example_pool.

#[local] Instance example_log : LogLib :=
  {| zap_logger := unit; NewNop := tt; pclog_InitLogger := fun _ => Ok tt; WithStacktrace := id |}.
#[local] Instance example_store : StorageLib :=
  {| backend_options := unit; backend := string; external_storage := string;
     ParseBackend := fun dir _ => Ok dir; storage_New := Ok; no_options := tt; options_from_flags := Ok tt |}.
(** [--rows 4 --consistency snapshot] and more options that give what the
    default configuration has. *)
#[local] Instance example_line : FlagSet := command_line
  [("rows", FUint64 4); ("consistency", FString "snapshot"); ("filter", FSlice ["*.*"]);
   ("case-sensitive", FBool true); ("read-timeout", FDuration 0); ("output", FString ".")].

Definition example_parsed_conf : Config := set_resolved (set_split DefaultConfig 4 EmptyString) EmptyString "snapshot".

Lemma example_parsed : ParseFromFlags DefaultConfig = Ok example_parsed_conf.
Proof. reflexivity. Qed.

Definition example_settings : settings := mkSettings None "info" EmptyString "text" ":8281" None tt.

Lemma example_arguments : parse_arguments = Ok (example_parsed_conf, example_settings).
Proof. unfold parse_arguments. rewrite example_parsed. reflexivity. Qed.

Definition example_dumper : dumper :=
  mkDumper Complete.example_conf None (setupPgDumpEnv Complete.example_conf) (Some 2%nat)
    [PoolOpened 0; PoolClosed 0; PoolOpened 2].

Lemma example_created :
  create_dumper unknown_build example_parsed_conf example_settings =
    (None, Some example_dumper, registerTo (Some process_collectors)).
Proof. reflexivity. Qed.

#[local] Abbreviation example_main :=
  (main unknown_build false [] None None None None "2026-01-01 00:00:00" "2026-01-01 00:01:00"
    [ProducerReconnects] [] Lifecycle.example_oracle (fun _ => false) Lifecycle.example_world).

Lemma example_ends : l_end example_main = DumpedData.
Proof.
  unfold main. change (GetBool "help") with (@Ok bool false).
  rewrite example_arguments. change (0 <? Z.of_nat (length [])) with false.
  rewrite example_created. change (d_conf example_dumper) with Complete.example_conf.
  rewrite Program.example_dumped. reflexivity.
Qed.

Lemma example_main_end :
  l_world example_main = Program.example_end /\
  l_metadata example_main = [("metadata", Lifecycle.example_text)].
Proof.
  unfold main. change (GetBool "help") with (@Ok bool false).
  rewrite example_arguments. change (0 <? Z.of_nat (length [])) with false.
  rewrite example_created. change (d_conf example_dumper) with Complete.example_conf.
  rewrite Program.example_dumped. by split.
Qed.

Lemma example_plain : plain example_parsed_conf.
Proof. split; try done. by right. Qed.

Lemma exit_zero_dumped_witness :
  exists p : pool (E := unit), exit_code (l_end example_main) = 0 /\
    one_snapshot Complete.example_conf Lifecycle.example_world (l_world example_main) /\
    table_dumped Complete.example_conf [] example_query FileFormatSQLText (files p) "public"
      (mkTableInfo "t" 0 TableTypeBase).
Proof.
  destruct example_run as (p & Hr & Hret). exists p.
  destruct (exit_zero_dumped unknown_build false [] None None None None "2026-01-01 00:00:00" "2026-01-01 00:01:00"
    [ProducerReconnects] [] Lifecycle.example_oracle (fun _ => false) [] (fun _ => false) unit
    (fun e : unit => (Ok tt, e)) example_query ["public"] [("public", mkTableInfo "t" 0 TableTypeBase)]
    (mkChannel example_plan 4) p Lifecycle.example_world) as [_ Hz].
  assert (exit_code (l_end example_main) = 0) as He by (by rewrite example_ends).
  destruct (Hz He eq_refl eq_refl) as (conf & s & d & Hp & _ & (registry & Hc) & _ & Hd).
  rewrite example_arguments in Hp. apply (inj Ok) in Hp.
  assert (example_parsed_conf = conf) as <- by exact (f_equal fst Hp).
  assert (example_settings = s) as <- by exact (f_equal snd Hp).
  rewrite example_created in Hc. assert (Some example_dumper = Some d) as <-%(inj Some) by exact (f_equal (fun r => snd (fst r)) Hc).
  destruct (Hd example_plain Program.example_catalog_answers Lifecycle.example_exports (fun _ => eq_refl)
    (fun _ _ => eq_refl) (Program.example_outcomes p Hr Hret) example_plan_fits) as (Hs & _ & Hall).
  exact (conj He (conj Hs (Hall "public" (mkTableInfo "t" 0 TableTypeBase) ltac:(by left) ltac:(by left) eq_refl eq_refl))).
Defined.
End Example.
