(* ===== verification/Concat.v ===== *)
(** * A table as one task of many queries (export/dump.go, export/ir_impl.go)

    [buildConcatTask] splits a table the way --rows would and joins the
    queries of the chunks into one task, whose iterator runs them one after
    the other ([Ir], [DataIR]).  The program does not call it at present. *)

From S2P Require Import Prelude GoStrings Dialect FilterMatcher FilterParser Filter FileNames.
From S2P Require Import SqlTypes SqlCond SqlBuilder Conn Tables Config Prepare Ir Chunking.
From S2P Require Import Writer TableData Worker DataIR Dumper Dispatch Complete.

(** A data task whose data is a chunk of queries. *)
Record concatTask := mkConcat {
  c_meta : tableMeta;
  c_data : multiQueriesChunk;
  c_index : Z;
  c_total : Z
}.

Section Concat.
Context `{UnicodeLib} `{RegexpLib} `{FoldLib} `{SnapshotConn}.
Variable conf : Config.

(** The configuration while the table is split. *)
Definition suitable_conf (meta : tableMeta) : Config :=
  set_split conf (GetSuitableRows (avgRowLength meta)) (Where conf).

Definition task_data (t : Task) : option tableData :=
  match t with TaskTableData _ d _ _ => Some d | _ => None end.

(** [Ok None] says that the table is not worth splitting.
    src/export/dump.go:391-452 Dumper.buildConcatTask *)
Definition buildConcatTask (fuel : nat) (meta : tableMeta) : option (result (option concatTask)) :=
  r ← concurrentDumpTable fuel (suitable_conf meta) meta;
  match r with
  | Err e => Some (Err e)
  | Ok tasks =>
      let tableDataArr := omap task_data tasks in
      match tableDataArr with
      | [] | [_] => Some (Ok None)
      | d0 :: _ =>
          if forallb (fun d => colLen d =? colLen d0) tableDataArr
          then Some (Ok (Some (mkConcat meta (newMultiQueriesChunk (map query tableDataArr) (colLen d0)) 0 1)))
          else Some (Ok None)
      end
  end.

(** ** Correctness *)

Variable run : string -> result cursor.

(** A server that answers every query of a chunk to its end. *)
Definition answers_all (meta : tableMeta) (heap : list heap_row)
    (values : heap_row -> list (option string)) : Prop :=
  forall order total conds c,
    buildOrderByClause (suitable_conf meta) meta = Ok order ->
    chunked (suitable_conf meta) meta conds total -> c ∈ conds ->
    exists l, run (query (chunk_query (suitable_conf meta) meta order c)) = Ok (mkCursor None l None None) /\
      l ≡ₚ map (fun r => Ok (values r)) (List.filter (fun r => row_selected (field_of meta) r c) heap).

(** Queries that all succeed yield their rows one after the other. *)
Lemma chain_ok qs ls prev :
  Forall2 (fun q l => run q = Ok (mkCursor None l None None)) qs ls ->
  leave_err prev = None -> (forall c, prev = Some c -> end_err c = None) ->
  chain run qs prev = (concat ls, None).
Proof.
  intros Hf. revert prev. induction Hf as [|q l qs ls Hq _ IH]; intros prev Hp He; cbn.
  - destruct prev as [c|]; [|done]. by rewrite He.
  - rewrite Hp, Hq, (IH (Some (mkCursor None l None None))); [done|done|]. by intros c [= <-].
Qed.

(** A table whose rows take more than a file of 128 MiB on average is given
    chunks of zero rows: the split divides by zero. *)
Lemma wide_rows_panic fuel meta order bounds :
  let conf' := suitable_conf meta in
  2 ^ 27 < avgRowLength meta -> buildOrderByClause conf' meta = Ok order ->
  pickupPossibleField meta = Ok (field_of meta) -> field_of meta <> EmptyString ->
  selectMinAndMaxIntValue conf' (database meta) (table meta) (field_of meta) = Ok bounds ->
  buildConcatTask fuel meta = Some (Err divide_panic).
Proof.
  intros conf' Hw Ho Hf Hne Hm. destruct bounds as [minv maxv].
  assert (Rows conf' = 0) as Hr.
  { cbn. unfold GetSuitableRows. destruct (Z.eqb_spec (avgRowLength meta) 0); [lia|].
    rewrite Z.div_small by lia. done. }
  unfold buildConcatTask, concurrentDumpTable. fold conf'. rewrite Ho, Hf, Hm, Hr.
  pose proof (estimateCount_range (database meta) (table meta)).
  destruct (Z.ltb_spec (estimateCount (database meta) (table meta)) 0); [lia|].
  apply String.eqb_neq in Hne. by rewrite Hne.
Qed.

Lemma task_data_tasks_of meta order total conds :
  omap task_data (tasks_of conf meta order total conds) = map (chunk_query conf meta order) conds.
Proof.
  unfold tasks_of. generalize 0. induction conds as [|c conds IH]; intros i; [done|].
  cbn [map number_tasks]. unfold chunk_task at 1. cbn. by rewrite IH.
Qed.
End Concat.

Section Rows.
Context `{UnicodeLib} `{RegexpLib} `{FoldLib} `{SnapshotConn} {E : Type}.
Variable conf : Config.
Variable run : string -> result cursor.
Hypothesis run_fresh : forall q c, run q = Ok c -> cur c = None.

(** The queries of the task yield the rows of the table. *)
Lemma joined_rows fuel meta t heap values :
  Where conf = EmptyString -> buildConcatTask conf fuel meta = Some (Ok (Some t)) ->
  server_bounds (suitable_conf conf meta) meta -> Forall (row_in_table (suitable_conf conf meta) meta) heap ->
  answers_all conf run meta heap values ->
  c_meta t = meta /\ c_index t = 0 /\ c_total t = 1 /\
  mq_colLen (c_data t) = selectedLen meta /\ mq_iter (c_data t) = None /\
  exists rows, chain run (mq_queries (c_data t)) None = (map Ok rows, None) /\ rows ≡ₚ map values heap.
Proof.
  intros Hw Hb Hs Hheap Hans. unfold buildConcatTask in Hb.
  destruct (concurrentDumpTable fuel (suitable_conf conf meta) meta) as [[tasks|e]|] eqn:Ht; cbn [mbind option_bind] in Hb; try done.
  destruct (buildOrderByClause (suitable_conf conf meta) meta) as [order|e] eqn:Ho;
    [|unfold concurrentDumpTable in Ht; by rewrite Ho in Ht].
  destruct (concurrentDumpTable_ordered _ _ _ _ _ Ho Ht) as (total & conds & Hch & ->).
  rewrite task_data_tasks_of in Hb.
  assert (t = mkConcat meta (newMultiQueriesChunk (map query (map (chunk_query (suitable_conf conf meta) meta order) conds))
            (selectedLen meta)) 0 1) as ->.
  { destruct conds as [|c [|c' conds]]; try done. cbn [map] in Hb. destruct (forallb _ _); [|done]. by injection Hb as <-. }
  split_and!; [done..|]. clear Hb Ht.
  destruct (list_choice (fun _ c l => run (query (chunk_query (suitable_conf conf meta) meta order c)) =
      Ok (mkCursor None (map Ok l) None None) /\
      l ≡ₚ map values (List.filter (fun r => row_selected (field_of meta) r c) heap)) conds) as (ls & Hl & Hls).
  { intros i c Hi. destruct (Hans order total conds c Ho Hch) as (l & Hr & Hp); [by eapply list_elem_of_lookup_2|].
    rewrite <- map_map in Hp. apply Permutation_map_inv in Hp as (l' & -> & Hp). by exists l'. }
  assert (concat ls ≡ₚ map values heap) as Hperm.
  { transitivity (map values (concat (map (fun c => List.filter (fun r => row_selected (field_of meta) r c) heap) conds))).
    - rewrite concat_map, map_map. apply concat_permutation. apply Forall2_same_length_lookup_2; [by rewrite length_map|].
      intros i l k Hi Hk. apply list_lookup_fmap_Some in Hk as (c & -> & Hc). by eapply Hls.
    - apply Permutation_map, filter_partition. intros r Hr. rewrite Forall_forall in Hheap.
      exact (chunked_once (suitable_conf conf meta) meta conds total r Hw Hs (Hheap r Hr) Hch). }
  exists (concat ls). split; [|done]. cbn [c_data mq_queries newMultiQueriesChunk].
  rewrite concat_map. apply chain_ok; [|done|done]. apply Forall2_same_length_lookup_2; [by rewrite !length_map|].
  intros i q l Hi Hk. rewrite map_map in Hi. apply list_lookup_fmap_Some in Hi as (c & -> & Hc).
  apply list_lookup_fmap_Some in Hk as (l0 & -> & Hk). by eapply Hls.
Qed.

(** Iterating over the task's data yields them as well. *)
Lemma concat_task_rows fuel meta t heap values n :
  Where conf = EmptyString -> buildConcatTask conf fuel meta = Some (Ok (Some t)) ->
  server_bounds (suitable_conf conf meta) meta -> Forall (row_in_table (suitable_conf conf meta) meta) heap ->
  answers_all conf run meta heap values -> (length heap < n)%nat ->
  exists rows, drain (H := multi_contract run run_fresh) n (newMultiQueryChunkIter run (mq_queries (c_data t))) =
      (map Ok rows, None) /\ rows ≡ₚ map values heap.
Proof.
  intros Hw Hb Hs Hheap Hans Hn.
  destruct (joined_rows fuel meta t heap values Hw Hb Hs Hheap Hans) as (_ & _ & _ & _ & _ & rows & Hc & Hp).
  exists rows. split; [|done].
  destruct (nextRows_spec run run_fresh (mq_queries (c_data t)) None I) as (H1' & H2' & H3').
  unfold newMultiQueryChunkIter. rewrite drain_pending; cbn [pending final_error iter_ok multi_contract].
  - by rewrite H2', H3', Hc.
  - exact H1'.
  - rewrite H2', Hc. cbn [fst]. rewrite length_map, (Permutation_length Hp), length_map. lia.
Qed.

Variable fileFmt : FileFormat.
Variable oracle : nat -> file_oracle.
#[local] Instance joined_iter : RowIter multiIter := multi_contract run run_fresh.
#[local] Instance joined_data : TableDataIR multiQueriesChunk multiIter E := multi_methods run.

End Rows.

(** ** An example: the table of [Complete], estimated at 400000 rows *)

Section Example.
#[local] Existing Instances Config.example_regexp Config.example_files Config.example_unicode.
#[local] Instance example_fold : FoldLib := {| unicode_equal_fold := fun _ _ => false |}.
#[local] Instance example_conn : SnapshotConn := example_catalog "400000".

Definition example_task : option concatTask :=
  match buildConcatTask DefaultConfig 9 example_meta with Some (Ok t) => t | _ => None end.

Definition example_answer (q : string) : list heap_row :=
  let nth_query k := match example_task with Some t => nth k (mq_queries (c_data t)) EmptyString | None => EmptyString end in
  if String.eqb q (nth_query 0%nat) then List.filter (fun r => negb (bool_decide (key r = Some 7))) example_heap
  else if String.eqb q (nth_query 1%nat) then List.filter (fun r => bool_decide (key r = Some 7)) example_heap
  else example_heap.

Definition example_run (q : string) : result cursor :=
  Ok (mkCursor None (map (fun r => Ok (example_values r)) (example_answer q)) None None).

Lemma joined_run_fresh q c : example_run q = Ok c -> cur c = None.
Proof. unfold example_run. intros E. apply (inj Ok) in E. by rewrite <- E. Qed.

Lemma example_all : answers_all DefaultConfig example_run example_meta example_heap example_values.
Proof.
  intros order total conds c Ho Hch Hc. eexists. split; [reflexivity|].
  vm_compute in Ho. injection Ho as <-.
  destruct Hch as [|minv maxv fuel chunks Em est He El|pages fuel starts Ep Hpos st Es].
  - apply list_elem_of_singleton in Hc as ->. vm_compute. reflexivity.
  - vm_compute in Em. injection Em as <- <-.
    assert (chunks = [mkChunk true 1 6; mkChunk false 6 11]) as ->
      by (clear -El; do 3 (destruct fuel as [|fuel]; [by vm_compute in El|]); vm_compute in El; by injection El as <-).
    cbn [map] in Hc. apply elem_of_cons in Hc as [->|Hc]; [vm_compute; reflexivity|].
    apply list_elem_of_singleton in Hc as ->. vm_compute. reflexivity.
  - vm_compute in Ep. injection Ep as <-. done.
Qed.

Lemma joined_in_table : Forall (row_in_table (suitable_conf DefaultConfig example_meta) example_meta) example_heap.
Proof.
  assert (selectMinAndMaxIntValue (suitable_conf DefaultConfig example_meta) (database example_meta) (table example_meta) (field_of example_meta) = Ok (1, 10))
    as Em by (vm_compute; reflexivity).
  apply Forall_forall. intros r Hr. split.
  - repeat (apply elem_of_cons in Hr as [->|Hr]; [split; cbn; lia|]). by apply not_elem_of_nil in Hr.
  - intros minv maxv z. rewrite Em. intros [= <- <-]. clear Em.
    repeat (apply elem_of_cons in Hr as [->|Hr]; [cbn; intros [= <-]; lia|]). by apply not_elem_of_nil in Hr.
Qed.

Definition example_oracle (k : nat) : file_oracle := mkFileOracle None (fun _ => None) None (fun _ => Sent) 0.

End Example.
